(* ===== verification/_CoqProject ===== *)
-Q . S2P
Prelude.v
Effects.v
Scale.v
NoBound.v
Types.v
Checker.v
UtxoSet.v
CheckerLaws.v
Executive.v
Simulation.v
Concrete.v
RelayState.v
Verifiers.v
Samples.v
UnitTests.v
VerifierFacts.v
ExecutiveFacts.v
Ledger.v
Blocks.v
Genesis.v
HostFunctions.v
ParachainCore.v
ValidateBlock.v
TrieCache.v
Parachainify.v
ParachainPiece.v
Supply.v
Money.v
LedgerInvariants.v
Amoeba.v
Poe.v
Kitties.v
Timestamp.v
RuntimeUpgrade.v
Aggregator.v
TemplateRuntime.v
Wallet.v
WalletRpc.v
WalletSpend.v
WalletKeystore.v
WalletMain.v
WalletFiles.v
RuntimeSamples.v
PieceTests.v
RuntimeFacts.v
RuntimeGenesis.v
RuntimeTypes.v
WalletFacts.v
WalletChain.v
WalletStrings.v
WalletSamples.v
WalletSync.v
WalletLedger.v
Authoring.v
NodeSamples.v
ChainGrowth.v
WalletCoins.v
WalletSpendFacts.v
ParachainRuntime.v
ParachainFacts.v
ParachainGrowth.v
ParachainLedger.v
Collation.v
RuntimeApi.v
ChainSpecs.v
Substrate.v
ServiceParts.v
NodeService.v
CollatorService.v
DevService.v
Commands.v
ServiceSamples.v
NodeCommands.v
CollatorCommands.v
