(* ===== verification/Prelude.v ===== *)
(** * Tuxedo: a verification of the UTXO framework, its pieces, its runtimes and its wallet

    Tuxedo is a Rust framework for blockchains on the UTXO model.  A transaction
    consumes outputs, peeks at others, evicts others and creates new ones; a
    _verifier_ attached to an output says who may consume it, a _constraint
    checker_ attached to a transaction says what it may do.  The executive
    applies transactions and blocks to the storage; the wardrobe is a collection
    of pieces, each with its data and checkers; the runtimes aggregate pieces;
    a parachain's blocks are validated again by the relay chain; the wallet
    follows a node's chain in a database of its own and builds transactions.

    This library translates that code to executable definitions and proves what
    makes it correct.  Definitions keep the names of the source.

    ** How the parts interact

<<
    wallet  --extrinsic-->  node RPC  --block-->  Executive  <--  validate_block
      ^                                          /    |    \            |
      '---------------- blocks ------------ Verifier  |  UTXO set   relay chain
                                           (outer)    |             proof, cache
                                              Constraint checker (outer)
                                    money  amoeba  poe  kitties  timestamp
                                    runtime upgrade  parachain inherent
>>

    A stateful call is a function [M S E A] of Effects: it runs on a store and
    returns, errors or panics.  The store is the runtime storage (a map from
    keys to values), the wallet's database, or the trie recorder's maps.  What the
    runtime does while it checks and executes transactions is defined for every store
    that serves its host calls ([Scale.Store]): a node runs it on the storage, a
    validator on externalities that panic at what a proof does not record.

    ** The files

    Foundations.
    - [Prelude]: bytes, machine integers ([uint w], with wrapping,
      checked and saturating operations), list lemmas, tactics.
    - [Effects]: [Result], the call monad, its inversion and framing lemmas.
    - [Scale]: the code that Tuxedo calls and that is not in the repository, as
      type classes: codecs, host functions, the stores that serve the storage calls,
      inherent data.  [Concrete] has
      instances, for the witnesses.
    - [NoBound]: the derive macros of [tuxedo-core/no_bound/src], on a syntax of
      declarations and of generated code, with an evaluator for the latter.

    The framework ([tuxedo-core/src]).
    - [Types]: [types.rs], [dynamic_typing.rs], [lib.rs].  [Checker]: the traits
      of [verifier.rs], [constraint_checker.rs], [inherents.rs].  [UtxoSet]:
      [utxo_set.rs].  [Verifiers]: [verifier.rs] and [verifier/*.rs].
      [Executive]: [executive.rs], one definition per method.  [Genesis]:
      [genesis/*.rs].  [Aggregator]: the code that [aggregator/src/lib.rs]
      generates.
    - [CheckerLaws] is the interface between the executive and the checkers:
      which storage keys a checker may touch.  The theorems of the executive are
      proved against it; every piece, and each aggregate, discharges it.  They also
      discharge [UniformChecker] of [Simulation], which relates the runs of the
      runtime's code on two stores.
    - [ExecutiveFacts] specifies validation without loops; [Ledger] and
      [Blocks] hold the theorems on transactions and on blocks.  [Samples] has
      transactions for the witnesses.  [UnitTests] replays the test modules of the
      source files on the model, and [PieceTests] those of the wardrobe.

    The wardrobe ([wardrobe/*/src/lib.rs]): [Money], [Amoeba], [Poe], [Kitties],
    [Timestamp], [RuntimeUpgrade], [ParachainPiece], each with its checkers and
    their theorems.  [Supply] sums a weight over a ledger.  [LedgerInvariants]: what
    an aggregate of checkers promises of one transaction (the classes
    [DemandsOutputs] and [TokenChecker]) and what follows for every chain of its
    blocks.

    The runtimes.
    - [TemplateRuntime]: the outer verifier and checker of
      [tuxedo-template-runtime/src/lib.rs] and its [genesis.rs].
      [RuntimeFacts], [RuntimeGenesis] and [RuntimeTypes]: its theorems.
    - [ParachainCore], [HostFunctions], [ValidateBlock], [RelayState], [TrieCache]:
      [tuxedo-parachain-core/src].  [HostFunctions] has the functions that a validator
      replaces the host's by, and what the externalities under them answer;
      [ValidateBlock] runs a block on these.
      [Parachainify]: [parachainify/src/lib.rs], the macro and the entry point of the
      validation that it generates.
      [ParachainRuntime]: the checker that it generates; [ParachainFacts] and
      [ParachainLedger]: its theorems.
    - [RuntimeApi]: the runtimes as the node calls them, and what the wallet makes
      of their metadata.

    The wallet ([wallet/src]).
    - [Wallet]: the database and its operations ([sync.rs], [timestamp.rs]), a
      tree of the database per field of the record [WalletDb].  [WalletRpc]:
      the requests to the node ([rpc.rs]) and the synchronization loops.
      [WalletSpend]: minting, spending and the amoeba demonstration ([money.rs],
      [amoeba.rs]).  [WalletKeystore]: the wallet's keys ([keystore.rs]).
      [WalletMain]: the parachain's checker ([parachain.rs]), the printing
      commands, the dispatch and the start of the program ([main.rs], [cli.rs]).
      [WalletFiles]: the directories the program works in.
    - [WalletFacts] and [WalletChain] relate the database to the chain of blocks
      it has followed; the properties are in [WalletSync] (following the node),
      [WalletStrings] (arguments), [WalletCoins] (coin selection and balances)
      and [WalletSpendFacts] (spends that the node accepts); [WalletLedger]
      follows them from a genesis block to the wallet's table of outputs.

    The nodes ([node/src], [parachain-node/src]).
    - [Authoring]: the provider of the parent block ([inherents.rs]) and the
      closures of [service.rs] and [dev_service.rs] that say what data an author
      and an importer hand to the runtime.  [NodeSamples] has a concrete node.
    - [ChainGrowth] and [ParachainGrowth]: the chains that grow from the genesis
      blocks of the two runtimes by blocks importers accept.
    - [Collation]: what a collator authors, against the validation of the parachain
      core.
    - [ChainSpecs]: [chain_spec.rs], the specifications [command.rs] loads, the
      relay chain's command line ([cli.rs]) and the service the collator starts.
    - [Substrate]: the calls that the services make of the library, as an indexed type
      of events with the types of their answers; a program runs on the trace of its
      calls, and [follows] and [completes] are the judgements on programs.
      [ServiceParts], [NodeService], [CollatorService], [DevService]: [service.rs]
      and [rpc.rs] of both nodes and [dev_service.rs].
    - [Commands], [NodeCommands], [CollatorCommands]: [cli.rs] and [command.rs],
      with the command line of the relay chain.  [ServiceSamples] has a concrete
      library that answers nothing but successes.

    ** What the theorems show

    - Transactions: the outcome of applying one is classified on every branch;
      applying refines the step of an abstract ledger (a finite map from
      references to outputs); nothing is spent twice; what the pool's answer
      promises.
    - Blocks: authoring and importing are equivalent in both directions; an
      import applies its extrinsics to the ledger in order; the height is there
      in every reachable state.  Genesis establishes the invariants.
    - Pieces: what each checker accepts exactly, and the consequences for the
      whole ledger: money is conserved up to mints, a kitty breeds once, the
      clean-up of timestamps and the disputes of claims keep what they must,
      the code hash output follows the code.
    - The runtime: the supply over transactions and blocks, a well-typed ledger
      in all reachable states, inherents that the executive accepts.
    - The parachain's ledger: well typed and without tokens but those of its genesis
      and of mint transactions, on every chain from its genesis.
    - The parachain: when a validator accepts a block and what it reports, that
      an accepted block is one of the full state, whatever the proof leaves out; that
      the report is what the collator announced, as long as the proof answers for the
      keys the block touches; the watermark, the messaging snapshot, the transparency
      of the trie cache.
    - The wallet: rolling back inverts applying; starting it follows the node
      over any fork, and the loops terminate; the tracked outputs are the
      wallet's part of the node's ledger, from the genesis block on, and a spend
      that it builds applies there.
    - The nodes: the specifications the command lines know start the chains of the
      two runtimes, and neither chain ever stalls.  On every chain that grew from its
      genesis an author obtains inherents that apply, and the block with them and
      with transactions of the pool is accepted and can be built on; and the
      relay chain's validators accept what an honest collator authors.
    - The services and commands: whatever the library answers, they start the tasks
      that their configuration says, in the order of the plan, with the network last;
      they author with the data of [Authoring] and as an authority only; a subcommand
      starts the telemetry at most; and when every call succeeds they return.
    - The derive macros: what the generated code computes, without added bounds.
    - Some theorems state flaws of the code: a coin listed twice with two
      encodings of its redeemer ([Money]), forged multisignatures
      ([VerifierFacts]), a redeemer that makes the verifier panic
      ([RuntimeFacts]), further parachain inherents ([ParachainFacts]), a wallet
      that selects a coin twice ([WalletSpendFacts]), a derived [fmt] that a
      field's name captures ([NoBound]), benchmarks that run although they are
      disabled ([CollatorCommands]).

    ** Parameters

    SCALE codecs and the code that derive macros generate (a lawful codec is a
    self-delimiting round trip); hashing, signatures and storage roots of the
    host; inherent data; the relay chain's types and the backend that reads its
    proofs; the externalities over a backend, which may panic at any call, and the trie
    library that calls the cache; JSON; the
    sled database's iteration order; the hex crate; the keystore library; the
    node, as the functions that answer the wallet's requests.  A node is fixed
    during one synchronization.  Of the Substrate client an author uses the lookup
    of a block, the providers of the time, of the slot and of the mocked relay
    chain, and what puts their data together; a node takes from it the builder of
    chain specifications, and the collator polkadot's command line.  The parts of
    Substrate and Cumulus that the services put together are types; what can fail or be
    observed of them is a call, answered in any way and depending on all calls before;
    the runner of a command line gives its configuration to the closure ([RunnerLaws]).
    Laws are classes of their own ([ScaleLaws], [CoreLaws], [SledLaws], ...) and
    every theorem that assumes one is witnessed on concrete instances, without
    any axiom.

    ** Bounds and fuel

    Integers have the width of the source.  The crates' arithmetic that is not
    checked wraps, as their release profile compiles it; [checked_add] and
    [saturating_sub] are as in Rust.  Recursion is structural, except in the two
    loops of the wallet's synchronization ([roll_back], [follow]), which take
    fuel and answer [None] when it runs out: [sync_terminates] shows that it
    never does when it exceeds the number of block hashes in the database and
    reaches the length of the node's chain.

    ** What is not modelled

    - Of the nodes: what Substrate and Cumulus do with the parts they are given, the
      parsing of command lines, logging, and what is only cloned to be shared.
    - Session keys, which are generated in the host's keystore.
    - Parsing of macro input in the procedural macros but [parachainify!], and source
      spans.
    - Of the wallet: command line parsing, logging, the transport of requests and
      errors of the database itself. *)

From stdpp Require Export base gmap fin_sets list strings countable numbers fin_maps.
From Stdlib Require Export Lia.
From Stdlib Require Import Strings.Byte Strings.String Eqdep_dec.

(** [naive_solver] tries to clear hypotheses it has already used up. *)
#[export] Set Warnings "-clear-no-such-hyp".

(** ** Bytes *)

Abbreviation byte := Byte.byte.
Abbreviation bytes := (list Byte.byte).

#[export] Instance byte_eq_dec : EqDecision byte := Byte.byte_eq_dec.

#[export] Program Instance byte_countable : Countable byte :=
  inj_countable Byte.to_N Byte.of_N _.
Next Obligation. apply Byte.of_to_N. Qed.

(** Close an equation, or a decidable statement, by evaluating it. *)
Ltac by_vm :=
  lazymatch goal with
  | |- ?a = ?b => vm_cast_no_check (@eq_refl _ b)
  | |- _ => apply (bool_decide_unpack _); vm_cast_no_check I
  end.

(** A Rust byte-string literal [b"..."]. *)
Definition bstr (s : string) : bytes := String.list_byte_of_string s.

(** [hex!("...")] *)
Definition hex_digit (x : byte) : N :=
  let n := Byte.to_N x in
  if N.leb 97 n then n - 87 else if N.leb 65 n then n - 55 else n - 48.
Fixpoint hex_pairs (l : bytes) : list N :=
  match l with
  | x :: y :: l => (16 * hex_digit x + hex_digit y)%N :: hex_pairs l
  | _ => []
  end.
Definition hex (s : string) : bytes :=
  map (λ n, default x00 (Byte.of_N n)) (hex_pairs (bstr s)).

(** A boolean proof normalised so that it computes to [eq_refl] on closed
    terms: evaluation never meets an opaque proof. *)
Definition norm_true {b : bool} : b = true → b = true :=
  match b return b = true → b = true with
  | true => λ _, eq_refl
  | false => λ p, p
  end.

Lemma bool_true_irrel (b : bool) (p q : b = true) : p = q.
Proof. apply UIP_dec, Bool.bool_dec. Qed.

(** Fixed-size arrays [[u8; n]]; [H256] is [[u8; 32]]. *)
Record bytesN (n : nat) : Type := mk_bytesN {
  bytesN_val :> bytes;
  bytesN_ok : Nat.eqb (List.length bytesN_val) n = true
}.
Arguments mk_bytesN {n} _ _.
Arguments bytesN_val {n} _.

Lemma bytesN_length {n} (x : bytesN n) : List.length (bytesN_val x) = n.
Proof. apply Nat.eqb_eq, x. Qed.

Lemma bytesN_eq {n} (x y : bytesN n) : bytesN_val x = bytesN_val y → x = y.
Proof.
  destruct x as [x px], y as [y py]; simpl. intros ->. f_equal. apply bool_true_irrel.
Qed.

#[export] Instance bytesN_eq_dec n : EqDecision (bytesN n).
Proof.
  intros x y. destruct (decide (bytesN_val x = bytesN_val y)) as [E|E].
  - left. by apply bytesN_eq.
  - right. by intros ->.
Defined.

(** [fit n b]: the first [n] bytes of [b], padded with zeroes. *)
Fixpoint fit (n : nat) (b : bytes) : bytes :=
  match n with
  | O => []
  | S n => match b with
           | [] => x00 :: fit n []
           | x :: b => x :: fit n b
           end
  end.

Lemma fit_length n b : Nat.eqb (List.length (fit n b)) n = true.
Proof. revert b. induction n as [|n IH]; intros [|x b]; simpl; auto. Qed.

Lemma fit_id n b : List.length b = n → fit n b = b.
Proof. intros <-. induction b as [|x b IH]; simpl; by rewrite ?IH. Qed.

Definition to_bytesN (n : nat) (b : bytes) : bytesN n :=
  mk_bytesN (fit n b) (norm_true (fit_length n b)).

Lemma to_bytesN_val {n} (x : bytesN n) : to_bytesN n (bytesN_val x) = x.
Proof. apply bytesN_eq. simpl. apply fit_id, bytesN_length. Qed.

#[export] Program Instance bytesN_countable n : Countable (bytesN n) :=
  inj_countable' bytesN_val (to_bytesN n) _.
Next Obligation. intros. apply to_bytesN_val. Qed.

Abbreviation H256 := (bytesN 32).
Definition H256_zero : H256 := to_bytesN 32 [].

(** ** Unsigned machine integers *)

(** [uint w] is the Rust type [u<w>]: a natural number below [2 ^ w]. *)
Record uint (w : N) : Type := mk_uint {
  uval :> N;
  uval_ok : N.ltb uval (2 ^ w) = true
}.
Arguments mk_uint {w} _ _.
Arguments uval {w} _.

Abbreviation u8 := (uint 8).
Abbreviation u32 := (uint 32).
Abbreviation u64 := (uint 64).
Abbreviation u128 := (uint 128).

Lemma uval_lt {w} (x : uint w) : (uval x < 2 ^ w)%N.
Proof. apply N.ltb_lt, x. Qed.

Lemma uint_eq {w} (x y : uint w) : uval x = uval y → x = y.
Proof.
  destruct x as [x px], y as [y py]; simpl. intros ->. f_equal. apply bool_true_irrel.
Qed.

Lemma uint_eq_iff {w} (x y : uint w) : x = y ↔ uval x = uval y.
Proof. split; [by intros ->|apply uint_eq]. Qed.

Lemma trunc_ok (w n : N) : N.ltb (n `mod` 2 ^ w) (2 ^ w) = true.
Proof. apply N.ltb_lt, N.mod_lt, N.pow_nonzero. lia. Qed.

(** The truncating cast [n as u<w>]. *)
Definition trunc (w n : N) : uint w :=
  mk_uint (n `mod` 2 ^ w)%N (norm_true (trunc_ok w n)).

Lemma uval_trunc w n : (n < 2 ^ w)%N → uval (trunc w n) = n.
Proof. intros. by apply N.mod_small. Qed.

Lemma trunc_uval {w} (x : uint w) : trunc w (uval x) = x.
Proof. apply uint_eq, uval_trunc, uval_lt. Qed.

#[export] Instance uint_eq_dec w : EqDecision (uint w).
Proof.
  intros x y. destruct (decide (uval x = uval y)) as [E|E].
  - left. by apply uint_eq.
  - right. by intros ->.
Defined.

#[export] Program Instance uint_countable w : Countable (uint w) :=
  inj_countable' uval (trunc w) _.
Next Obligation. intros. apply trunc_uval. Qed.

(** The byte with value [n], for [n] below 256. *)
Definition byte_of (n : N) : byte := default x00 (Byte.of_N n).

Lemma byte_of_N n : (n < 256)%N → Byte.to_N (byte_of n) = n.
Proof.
  intros Hn. unfold byte_of. destruct (Byte.of_N n) as [x|] eqn:E; simpl.
  - by apply Byte.to_of_N.
  - exfalso. apply Byte.of_N_None_iff in E. lia.
Qed.

(** Arithmetic as the release profile compiles it: [+] wraps. *)
Definition wrapping_add {w} (x y : uint w) : uint w := trunc w (uval x + uval y).
(** [checked_add]: [None] on overflow. *)
Definition checked_add {w} (x y : uint w) : option (uint w) :=
  if N.ltb (uval x + uval y) (2 ^ w) then Some (trunc w (uval x + uval y)) else None.
(** [-] wraps; the model adds the modulus before subtracting. *)
Definition wrapping_sub {w} (x y : uint w) : uint w :=
  trunc w (uval x + 2 ^ w - uval y).
Definition saturating_sub {w} (x y : uint w) : uint w := trunc w (uval x - uval y).
Definition uint_max (w : N) : uint w := trunc w (2 ^ w - 1).

Lemma wrapping_sub_exact {w} (x y : uint w) :
  (uval y ≤ uval x)%N → uval (wrapping_sub x y) = (uval x - uval y)%N.
Proof.
  intros Hle. pose proof (uval_lt x). unfold wrapping_sub. cbn [uval trunc].
  replace (uval x + 2 ^ w - uval y)%N with (uval x - uval y + 1 * 2 ^ w)%N by lia.
  rewrite N.Div0.mod_add. apply N.mod_small. lia.
Qed.

(** ** Lists *)

(** [iter().take_while(f)] *)
Fixpoint take_while {A} (f : A → bool) (l : list A) : list A :=
  match l with
  | [] => []
  | x :: l => if f x then x :: take_while f l else []
  end.

(** [iter().enumerate()] *)
Definition enumerate {A} (l : list A) : list (nat * A) := zip (seq 0 (List.length l)) l.

Lemma size_list_to_set_le `{Countable A} (l : list A) :
  size (list_to_set l : gset A) ≤ List.length l.
Proof.
  induction l as [|x l IH]; [done|]. cbn [list_to_set List.length].
  pose proof (size_union_alt (C := gset A) {[x]} (list_to_set l)) as Hs.
  rewrite size_singleton in Hs.
  pose proof (subseteq_size (list_to_set l ∖ {[x]} : gset A) (list_to_set l)
    ltac:(set_solver)). lia.
Qed.

(** A set built from a list is as large as the list exactly when the list has
    no duplicates: the way the executive detects duplicate inputs. *)
Lemma size_list_to_set_NoDup `{Countable A} (l : list A) :
  size (list_to_set l : gset A) = List.length l ↔ NoDup l.
Proof.
  split; [|apply size_list_to_set]. induction l as [|x l IH]; [constructor|].
  intros Hl. assert (x ∉ l) as Hx.
  { intros Hx. simpl in Hl.
    replace ({[x]} ∪ list_to_set l : gset A) with (list_to_set l : gset A) in Hl.
    - pose proof (size_list_to_set_le l). lia.
    - apply set_eq. intros y. rewrite elem_of_union, elem_of_singleton, elem_of_list_to_set.
      naive_solver. }
  constructor; [done|]. apply IH. simpl in Hl.
  rewrite size_union, size_singleton in Hl by (set_unfold; naive_solver). lia.
Qed.

Lemma enumerate_length {A} (l : list A) : List.length (enumerate l) = List.length l.
Proof. unfold enumerate. rewrite length_zip, length_seq. lia. Qed.

Lemma elem_of_enumerate {A} (l : list A) i x : (i, x) ∈ enumerate l ↔ l !! i = Some x.
Proof.
  unfold enumerate. rewrite list_elem_of_lookup. split.
  - intros [j Hj]. apply lookup_zip_Some in Hj as [Hi Hx].
    apply lookup_seq in Hi as [-> ?]. done.
  - intros Hx. exists i. apply lookup_zip_Some. split; [|done].
    apply lookup_seq. apply lookup_lt_Some in Hx. lia.
Qed.

Lemma enumerate_NoDup {A} (l : list A) : NoDup (enumerate l).
Proof.
  apply (NoDup_fmap_1 fst). unfold enumerate.
  rewrite fst_zip by (rewrite length_seq; lia). apply NoDup_seq.
Qed.

Lemma take_while_prefix {A} (f : A → bool) l : take_while f l `prefix_of` l.
Proof.
  induction l as [|x l IH]; simpl; [done|]. destruct (f x).
  - by apply prefix_cons.
  - apply prefix_nil.
Qed.

Lemma take_while_drop {A} (f : A → bool) l :
  l = take_while f l ++ drop (List.length (take_while f l)) l.
Proof. induction l as [|x l IH]; [done|]. cbn. destruct (f x); [|done]. cbn. by rewrite <-IH. Qed.

Lemma take_while_Forall {A} (f : A → bool) l : Forall (λ x, f x = true) (take_while f l).
Proof.
  induction l as [|x l IH]; simpl; [constructor|].
  destruct (f x) eqn:E; by constructor.
Qed.

Lemma filter_none_nil {A B} (f : A → option B) (l : list A) :
  filter (λ x, f x = None) l = [] ↔ Forall (λ x, is_Some (f x)) l.
Proof.
  induction l as [|x l IH]; [by split|]. rewrite filter_cons, Forall_cons, <-IH.
  destruct (f x) as [y|] eqn:E.
  - rewrite decide_False by done. split; [|by intros []]. intros ?. split; [by eexists|done].
  - rewrite decide_True by done. split; [done|]. by intros [[? ?] _].
Qed.

(** ** Folds over maps *)

Section folds.
Context `{Countable K} {A X : Type}.
Implicit Types (m : gmap K A) (key : X → K) (val : X → A) (l : list X).

Lemma fold_delete_lookup key l m k :
  fold_left (λ m x, delete (key x) m) l m !! k =
  if decide (k ∈ map key l) then None else m !! k.
Proof.
  revert m. induction l as [|x l IH]; intros m.
  - rewrite decide_False; [done|]. apply not_elem_of_nil.
  - cbn [fold_left map]. rewrite IH. destruct (decide (k ∈ map key l)).
    + rewrite decide_True; [done|]. by constructor.
    + rewrite lookup_delete. destruct (decide (key x = k)) as [->|].
      * rewrite decide_True; [done|]. constructor.
      * rewrite decide_False; [done|]. rewrite elem_of_cons. naive_solver.
Qed.

Lemma fold_insert_ne key val l m k :
  k ∉ map key l → fold_left (λ m x, <[key x := val x]> m) l m !! k = m !! k.
Proof.
  revert m. induction l as [|x l IH]; intros m Hk; [done|].
  cbn [fold_left map] in *. apply not_elem_of_cons in Hk as [? ?].
  by rewrite IH, lookup_insert_ne.
Qed.

Lemma fold_insert_eq key val l m x :
  NoDup (map key l) → x ∈ l →
  fold_left (λ m x, <[key x := val x]> m) l m !! key x = Some (val x).
Proof.
  revert m. induction l as [|y l IH]; intros m Hd Hx; [by apply elem_of_nil in Hx|].
  cbn [fold_left map] in *. apply NoDup_cons in Hd as [Hy Hd].
  apply elem_of_cons in Hx as [->|Hx]; [|by apply IH].
  by rewrite fold_insert_ne, lookup_insert_eq.
Qed.
End folds.
