(* ===== verification/Effects.v ===== *)
(** * Effects: Rust's [Result], and stateful calls that may error or panic

    [result E A] is Rust's [Result<A, E>].  [M S E A] is a call that runs
    against a mutable store of type [S] (the runtime storage, the wallet
    database) and either returns, returns an error (the store keeps what was
    written before the error) or panics (the call is aborted; in a Wasm runtime
    the host discards its writes).  *)

From S2P Require Import Prelude.

Declare Scope tuxedo_scope.
Delimit Scope tuxedo_scope with tuxedo.
Open Scope tuxedo_scope.

(** ** Sequencing

    [bind] is stdpp's [mbind] with the call first, so that the type of the
    bound variable is known in the continuation. *)

Definition bind {M : Type → Type} `{MBind M} {A B} (m : M A) (k : A → M B) : M B :=
  mbind k m.
Arguments bind {M _ A B} !m k /.

Notation "x ← m ; k" := (bind m (λ x, k))
  (at level 20, m at level 100, k at level 200, only parsing) : tuxedo_scope.
Notation "' x ← m ; k" := (bind m (λ x : _, k))
  (at level 20, x pattern, m at level 100, k at level 200, only parsing) : tuxedo_scope.
Notation "m ;; k" := (bind m (λ _, k))
  (at level 100, k at level 200, only parsing, right associativity) : tuxedo_scope.

(** ** [Result] *)

Inductive result (E A : Type) : Type :=
| Ok (a : A)
| Err (e : E).
Arguments Ok {E A} _.
Arguments Err {E A} _.

#[export] Instance result_ret {E} : MRet (result E) := λ A, Ok.
#[export] Instance result_bind {E} : MBind (result E) := λ A B f r,
  match r with Ok a => f a | Err e => Err e end.
#[export] Instance result_throw {E} : MThrow E (result E) := λ A, Err.

#[export] Instance result_eq_dec {E A} `{EqDecision E, EqDecision A} :
  EqDecision (result E A).
Proof. solve_decision. Defined.

(** [.ok_or(e)], [.ok()] and [.map_err(f)] *)
Definition ok_or {E A} (o : option A) (e : E) : result E A :=
  match o with Some a => Ok a | None => Err e end.
Definition ok {E A} (r : result E A) : option A :=
  match r with Ok a => Some a | Err _ => None end.
Definition map_err {E F A} (f : E → F) (r : result E A) : result F A :=
  match r with Ok a => Ok a | Err e => Err (f e) end.

(** A [for] loop over a slice in a function that answers a [Result]. *)
Fixpoint try_for {E X A} (xs : list X) (body : A → X → result E A) (acc : A) : result E A :=
  match xs with
  | [] => Ok acc
  | x :: xs => match body acc x with Ok acc' => try_for xs body acc' | Err e => Err e end
  end.

(** ** Stateful calls *)

Inductive outcome (S E A : Type) : Type :=
| Ret (a : A) (s : S)
| Throw (e : E) (s : S)
| Panic (why : string).
Arguments Ret {S E A} _ _.
Arguments Throw {S E A} _ _.
Arguments Panic {S E A} _.

Definition M (S E A : Type) : Type := S → outcome S E A.

#[export] Instance M_ret {S E} : MRet (M S E) := λ A a s, Ret a s.
#[export] Instance M_bind {S E} : MBind (M S E) := λ A B f m s,
  match m s with
  | Ret a s' => f a s'
  | Throw e s' => Throw e s'
  | Panic w => Panic w
  end.
#[export] Instance M_throw {S E} : MThrow E (M S E) := λ A e s, Throw e s.

Definition get {S E} : M S E S := λ s, Ret s s.
Definition gets {S E A} (f : S → A) : M S E A := λ s, Ret (f s) s.
Definition modify {S E} (f : S → S) : M S E unit := λ s, Ret tt (f s).
Definition panic {S E A} (why : string) : M S E A := λ _, Panic why.
Definition lift_result {S E A} (r : result E A) : M S E A :=
  match r with Ok a => mret a | Err e => mthrow e end.
(** [.expect("why")] and [.unwrap()] *)
Definition expect {S E A} (o : option A) (why : string) : M S E A :=
  match o with Some a => mret a | None => panic why end.
(** [.map_err(f)?] around a call *)
Definition catch_err {S E F A} (f : E → F) (m : M S E A) : M S F A := λ s,
  match m s with
  | Ret a s' => Ret a s'
  | Throw e s' => Throw (f e) s'
  | Panic w => Panic w
  end.

(** [match call() { Ok(a) => a, Err(e) => panic!("{:?}", e) }] *)
Definition or_panic {S E F A} (m : M S E A) (why : E → string) : M S F A := λ s,
  match m s with
  | Ret a s' => Ret a s'
  | Throw e _ => Panic (why e)
  | Panic w => Panic w
  end.

(** A call that reads no store: it returns or panics. *)
Inductive partial (A : Type) : Type :=
| Value (a : A)
| Panicked (why : string).
Arguments Value {A} _.
Arguments Panicked {A} _.

#[export] Instance partial_ret : MRet partial := λ A, Value.
#[export] Instance partial_bind : MBind partial := λ A B f p,
  match p with Value a => f a | Panicked w => Panicked w end.

Definition partial_expect {A} (o : option A) (why : string) : partial A :=
  match o with Some a => Value a | None => Panicked why end.
Definition lift_partial {S E A} (p : partial A) : M S E A :=
  match p with Value a => mret a | Panicked w => panic w end.
(** A call that never errors, used where errors have another type. *)
Definition no_error {S E A} (m : M S Empty_set A) : M S E A :=
  catch_err (Empty_set_rect (λ _, E)) m.

(** A [for] loop over a slice, with the loop's mutable locals as [acc]. *)
Fixpoint for_each {S E X A} (xs : list X) (body : A → X → M S E A) (acc : A) : M S E A :=
  match xs with
  | [] => mret acc
  | x :: xs => acc' ← body acc x; for_each xs body acc'
  end.

(** The [ensure!] macro of [tuxedo-core/src/support_macros.rs]: leave with
    [Err(e)] when the condition is false. *)
Notation "'ensure!' c 'else' e ; k" :=
  (if c then k else mthrow e)
  (at level 100, c at level 99, e at level 99, k at level 200, right associativity,
   format "'ensure!'  c  'else'  e ; '//' k") : tuxedo_scope.

(** ** Inversion lemmas *)

Section result_inversion.
Context {E A B : Type}.
Implicit Types (r : result E A).

Lemma bind_ok r (k : A → result E B) b :
  bind r k = Ok b ↔ ∃ a, r = Ok a ∧ k a = Ok b.
Proof. unfold bind, mbind, result_bind. destruct r; naive_solver. Qed.

Lemma mret_ok (a b : A) : (mret a : result E A) = Ok b ↔ a = b.
Proof. unfold mret, result_ret. split; [by intros [= ->]|by intros ->]. Qed.

Lemma ok_or_ok (o : option A) (e : E) a : ok_or o e = Ok a ↔ o = Some a.
Proof. destruct o; naive_solver. Qed.

Lemma map_err_ok {F} (f : E → F) r a : map_err f r = Ok a ↔ r = Ok a.
Proof. destruct r; naive_solver. Qed.

Lemma ensure_ok (c : bool) (e : E) r a :
  (if c then r else mthrow e) = Ok a ↔ c = true ∧ r = Ok a.
Proof. destruct c; naive_solver. Qed.
End result_inversion.

Section inversion.
Context {S E A B : Type}.
Implicit Types (m : M S E A) (k : A → M S E B) (s : S).

Lemma bind_ret_inv m k s b s' :
  (bind m k) s = Ret b s' ↔ ∃ a s1, m s = Ret a s1 ∧ k a s1 = Ret b s'.
Proof.
  unfold bind, mbind, M_bind. destruct (m s) as [a s1|e s1|w]; naive_solver.
Qed.

Lemma bind_throw_inv m k s e s' :
  (bind m k) s = Throw e s' ↔
  m s = Throw e s' ∨ ∃ a s1, m s = Ret a s1 ∧ k a s1 = Throw e s'.
Proof.
  unfold bind, mbind, M_bind. destruct (m s) as [a s1|e1 s1|w]; naive_solver.
Qed.

Lemma bind_panic_inv m k s w :
  (bind m k) s = Panic w ↔
  m s = Panic w ∨ ∃ a s1, m s = Ret a s1 ∧ k a s1 = Panic w.
Proof.
  unfold bind, mbind, M_bind. destruct (m s) as [a s1|e1 s1|w1]; naive_solver.
Qed.

Lemma bind_run m k s :
  bind m k s = match m s with
               | Ret a s' => k a s'
               | Throw e s' => Throw e s'
               | Panic w => Panic w
               end.
Proof. done. Qed.

Lemma bind_gets (f : S → A) k s : bind (gets f) k s = k (f s) s.
Proof. done. Qed.

Lemma bind_mret a k s : bind (mret a : M S E A) k s = k a s.
Proof. done. Qed.

Lemma bind_lift_ok (a : A) k s : bind (lift_result (Ok a) : M S E A) k s = k a s.
Proof. done. Qed.

Lemma bind_ok_or (a : A) (e : E) k s : bind (lift_result (ok_or (Some a) e)) k s = k a s.
Proof. done. Qed.

Lemma bind_ret m k s a s1 : m s = Ret a s1 → (bind m k) s = k a s1.
Proof. unfold bind, mbind, M_bind. by intros ->. Qed.

Lemma bind_throw m k s e s1 : m s = Throw e s1 → (bind m k) s = Throw e s1.
Proof. unfold bind, mbind, M_bind. by intros ->. Qed.

Lemma bind_panic m k s w : m s = Panic w → (bind m k) s = Panic w.
Proof. unfold bind, mbind, M_bind. by intros ->. Qed.

Lemma catch_err_ret {F} (f : E → F) m s a s' :
  catch_err f m s = Ret a s' ↔ m s = Ret a s'.
Proof. unfold catch_err. destruct (m s); naive_solver. Qed.

Lemma catch_err_bind {F} (f : E → F) m k s :
  catch_err f (bind m k) s = bind (catch_err f m) (λ a, catch_err f (k a)) s.
Proof. unfold catch_err, bind, mbind, M_bind. by destruct (m s). Qed.

Lemma or_panic_ret {F} m w s a s' :
  (or_panic m w : M S F A) s = Ret a s' ↔ m s = Ret a s'.
Proof. unfold or_panic. destruct (m s); naive_solver. Qed.

Lemma ret_value (a b : A) s s' : Ret a s = (Ret b s' : outcome S E A) → a = b.
Proof. by intros [= ->]. Qed.

Lemma ret_store (a b : A) s s' : Ret a s = (Ret b s' : outcome S E A) → s = s'.
Proof. by intros [= _ ->]. Qed.

Lemma lift_result_ret (r : result E A) s a s' :
  lift_result r s = Ret a s' ↔ r = Ok a ∧ s' = s.
Proof. destruct r; unfold lift_result, mret, M_ret, mthrow, M_throw; naive_solver. Qed.

Lemma expect_ret (o : option A) w s a s' :
  (expect o w : M S E A) s = Ret a s' ↔ o = Some a ∧ s' = s.
Proof. destruct o; unfold expect, mret, M_ret, panic; naive_solver. Qed.

Lemma lift_partial_ret (p : partial A) s a s' :
  (lift_partial p : M S E A) s = Ret a s' ↔ p = Value a ∧ s' = s.
Proof. destruct p; unfold lift_partial, mret, M_ret, panic; naive_solver. Qed.
End inversion.

Lemma for_each_app {S E X A} (xs ys : list X) (body : A → X → M S E A) (acc : A) (s : S) (a : A) (s' : S) :
  for_each (xs ++ ys) body acc s = Ret a s' ↔
  ∃ acc1 s1, for_each xs body acc s = Ret acc1 s1 ∧ for_each ys body acc1 s1 = Ret a s'.
Proof.
  revert acc s. induction xs as [|x xs IH]; intros acc s; cbn [app for_each].
  - split; [by exists acc, s|by intros (? & ? & [= <- <-] & ?)].
  - setoid_rewrite bind_ret_inv. setoid_rewrite IH. naive_solver.
Qed.

Create Rewrite HintDb effects.
#[export] Hint Rewrite @bind_ret_inv @bind_throw_inv @bind_panic_inv @catch_err_ret @or_panic_ret
  @lift_result_ret @expect_ret @lift_partial_ret : effects.

(** Take a returning call apart, one [←] at a time. *)
Ltac inv_bind H :=
  apply bind_ret_inv in H; let a := fresh "a" in let s := fresh "s" in
  let E := fresh "Hm" in destruct H as (a & s & E & H).

(** ** Calls that respect an equivalence of stores

    [respects R m]: from equivalent stores the call gives the same answer (or
    the same error, or panics alike) and leaves equivalent stores. *)

Definition outcome_rel {S} (R : S → S → Prop) {E A} (o1 o2 : outcome S E A) : Prop :=
  match o1, o2 with
  | Ret a1 s1, Ret a2 s2 => a1 = a2 ∧ R s1 s2
  | Throw e1 s1, Throw e2 s2 => e1 = e2 ∧ R s1 s2
  | Panic w1, Panic w2 => w1 = w2
  | _, _ => False
  end.

Abbreviation respects R m := (Proper (R ==> outcome_rel R) m).

Create HintDb effects.

Section respects.
Context {S : Type} (R : S → S → Prop) {E : Type}.

Lemma respects_ret {A} (a : A) : respects R (mret a : M S E A).
Proof. intros s1 s2 Hs. by split. Qed.
Lemma respects_throw {A} (e : E) : respects R (mthrow e : M S E A).
Proof. intros s1 s2 Hs. by split. Qed.
Lemma respects_panic {A} w : respects R (panic w : M S E A).
Proof. by intros s1 s2 Hs. Qed.
Lemma respects_lift {A} (r : result E A) : respects R (lift_result r : M S E A).
Proof. destruct r; [apply respects_ret|apply respects_throw]. Qed.
Lemma respects_expect {A} (o : option A) w : respects R (expect o w : M S E A).
Proof. destruct o; [apply respects_ret|apply respects_panic]. Qed.
Lemma respects_partial {A} (p : partial A) : respects R (lift_partial p : M S E A).
Proof. destruct p; [apply respects_ret|apply respects_panic]. Qed.
Lemma respects_gets {A} (f : S → A) :
  Proper (R ==> eq) f → respects R (gets f : M S E A).
Proof. intros Hf s1 s2 Hs. split; [by apply Hf|done]. Qed.
Lemma respects_modify (f : S → S) :
  Proper (R ==> R) f → respects R (modify f : M S E unit).
Proof. intros Hf s1 s2 Hs. split; [done|by apply Hf]. Qed.

Lemma respects_bind {A B} (m : M S E A) (k : A → M S E B) :
  respects R m → (∀ a, respects R (k a)) → respects R (bind m k).
Proof.
  intros Hm Hk s1 s2 Hs. specialize (Hm s1 s2 Hs). unfold bind, mbind, M_bind.
  destruct (m s1), (m s2); simpl in *; try done.
  destruct Hm as [-> ?]. by apply Hk.
Qed.

(** Two calls in a row, related pointwise. *)
Lemma outcome_rel_bind {A B} (m1 m2 : M S E A) (k1 k2 : A → M S E B) s1 s2 :
  outcome_rel R (m1 s1) (m2 s2) →
  (∀ a s1 s2, R s1 s2 → outcome_rel R (k1 a s1) (k2 a s2)) →
  outcome_rel R (bind m1 k1 s1) (bind m2 k2 s2).
Proof.
  intros Hm Hk. rewrite !bind_run. destruct (m1 s1), (m2 s2); simpl in *; try done.
  destruct Hm as [-> ?]. by apply Hk.
Qed.

Lemma respects_catch {F A} (f : F → E) (m : M S F A) :
  respects R m → respects R (catch_err f m).
Proof.
  intros Hm s1 s2 Hs. specialize (Hm s1 s2 Hs). unfold catch_err.
  destruct (m s1), (m s2); simpl in *; naive_solver.
Qed.

Lemma respects_or_panic {F A} (m : M S F A) w :
  respects R m → respects R (or_panic m w : M S E A).
Proof.
  intros Hm s1 s2 Hs. specialize (Hm s1 s2 Hs). unfold or_panic.
  destruct (m s1), (m s2); simpl in *; naive_solver.
Qed.

Lemma respects_if {A} (b : bool) (m1 m2 : M S E A) :
  respects R m1 → respects R m2 → respects R (if b then m1 else m2).
Proof. by destruct b. Qed.

Lemma respects_for_each {X A} (xs : list X) (body : A → X → M S E A) acc :
  (∀ acc x, respects R (body acc x)) → respects R (for_each xs body acc).
Proof.
  intros Hb. revert acc. induction xs as [|x xs IH]; intros acc; simpl.
  - apply respects_ret.
  - apply respects_bind; auto.
Qed.
End respects.

#[export] Hint Resolve respects_or_panic respects_partial respects_ret respects_throw respects_panic respects_lift
  respects_expect respects_bind respects_catch respects_if respects_for_each
  respects_gets respects_modify : effects.

(** Follow the structure of a call; the leaves are hints. *)
Ltac solve_respects :=
  repeat first
    [ progress intros
    | apply respects_bind | apply respects_for_each | apply respects_catch
    | apply respects_or_panic | apply respects_if
    | solve [eauto with effects typeclass_instances]
    | case_match ].

(** ** Frames: what a call leaves of the store

    [leaves P m]: whether the call returns or errors, the store it leaves is
    [P]-related to the store it started from. *)

Definition leaves {S} (P : S → S → Prop) {E A} (m : M S E A) : Prop := ∀ s,
  match m s with
  | Ret _ s' | Throw _ s' => P s s'
  | Panic _ => True
  end.

Section leaves.
Context {S : Type} (P : S → S → Prop) `{!PreOrder P} {E : Type}.

Lemma leaves_ret {A} (a : A) : leaves P (mret a : M S E A).
Proof. intros s. change (P s s). reflexivity. Qed.
Lemma leaves_throw {A} (e : E) : leaves P (mthrow e : M S E A).
Proof. intros s. change (P s s). reflexivity. Qed.
Lemma leaves_panic {A} w : leaves P (panic w : M S E A).
Proof. by intros s. Qed.
Lemma leaves_lift {A} (r : result E A) : leaves P (lift_result r : M S E A).
Proof. destruct r; [apply leaves_ret|apply leaves_throw]. Qed.
Lemma leaves_expect {A} (o : option A) w : leaves P (expect o w : M S E A).
Proof. destruct o; [apply leaves_ret|apply leaves_panic]. Qed.
Lemma leaves_partial {A} (p : partial A) : leaves P (lift_partial p : M S E A).
Proof. destruct p; [apply leaves_ret|apply leaves_panic]. Qed.
Lemma leaves_gets {A} (f : S → A) : leaves P (gets f : M S E A).
Proof. intros s. change (P s s). reflexivity. Qed.

Lemma leaves_bind {A B} (m : M S E A) (k : A → M S E B) :
  leaves P m → (∀ a, leaves P (k a)) → leaves P (bind m k).
Proof.
  intros Hm Hk s. specialize (Hm s). unfold bind, mbind, M_bind.
  destruct (m s) as [a s1|e s1|w]; [|done..].
  specialize (Hk a s1). destruct (k a s1); [by etrans..|done].
Qed.

Lemma leaves_catch {F A} (f : F → E) (m : M S F A) :
  leaves P m → leaves P (catch_err f m).
Proof. intros Hm s. specialize (Hm s). unfold catch_err. by destruct (m s). Qed.

Lemma leaves_or_panic {F A} (m : M S F A) w :
  leaves P m → leaves P (or_panic m w : M S E A).
Proof. intros Hm s. specialize (Hm s). unfold or_panic. by destruct (m s). Qed.

Lemma leaves_if {A} (b : bool) (m1 m2 : M S E A) :
  leaves P m1 → leaves P m2 → leaves P (if b then m1 else m2).
Proof. by destruct b. Qed.

Lemma leaves_for_each {X A} (xs : list X) (body : A → X → M S E A) acc :
  (∀ acc x, leaves P (body acc x)) → leaves P (for_each xs body acc).
Proof.
  intros Hb. revert acc. induction xs as [|x xs IH]; intros acc; simpl.
  - apply leaves_ret.
  - apply leaves_bind; auto.
Qed.

Lemma leaves_ret_inv {A} (m : M S E A) s a s' : leaves P m → m s = Ret a s' → P s s'.
Proof. intros Hm Hs. specialize (Hm s). by rewrite Hs in Hm. Qed.
End leaves.

#[export] Hint Resolve leaves_or_panic leaves_partial leaves_ret leaves_throw leaves_panic leaves_lift
  leaves_expect leaves_bind leaves_catch leaves_if leaves_for_each leaves_gets : effects.

Ltac solve_leaves :=
  repeat first
    [ progress intros
    | apply leaves_bind; [typeclasses eauto| |] | apply leaves_for_each; [typeclasses eauto|]
    | apply leaves_catch | apply leaves_or_panic | apply leaves_if
    | solve [eauto with effects typeclass_instances]
    | case_match ].
