(* ===== verification/Scale.v ===== *)
(** * Scale: the code Tuxedo calls but does not contain

    Everything here is a parameter of the development: SCALE codecs
    ([parity_scale_codec], including what its derive macros generate), the host
    functions of [sp_io] (hashing, signature checks, storage roots) and
    Substrate's inherent data.  A type class names what the source calls; a
    second class states the documented laws the theorems rely on.  Concrete
    instances for the witnesses are in [Concrete]. *)

From S2P Require Import Prelude Effects.

(** ** SCALE codecs *)

(** [Encode]/[Decode]: decoding consumes a prefix of its input. *)
Class Codec (A : Type) : Type := {
  scale_encode : A → bytes;
  scale_decode : bytes → option (A * bytes);
}.

#[export] Hint Mode Codec ! : typeclass_instances.

(** The documented round trip: decoding reads back exactly what encoding wrote. *)
Class LawfulCodec (A : Type) `{Codec A} : Prop :=
  scale_roundtrip : ∀ (a : A) (rest : bytes),
    scale_decode (scale_encode a ++ rest) = Some (a, rest).

#[export] Hint Mode LawfulCodec ! - : typeclass_instances.

(** [T::decode(&mut &bytes[..])]: the bytes left over are dropped. *)
Definition decode_value {A} `{Codec A} (b : bytes) : option A :=
  fst <$> scale_decode b.

(** [T::skip(input)] *)
Definition scale_skip (A : Type) `{Codec A} (b : bytes) : option bytes :=
  snd <$> scale_decode (A := A) b.

Section codec.
Context {A : Type} `{LawfulCodec A}.

Lemma decode_value_app (a : A) rest : decode_value (scale_encode a ++ rest) = Some a.
Proof. unfold decode_value. by rewrite scale_roundtrip. Qed.

Lemma decode_value_encode (a : A) : decode_value (scale_encode a) = Some a.
Proof. rewrite <-(app_nil_r (scale_encode a)). apply decode_value_app. Qed.

#[export] Instance scale_encode_inj : Inj (=) (=) (scale_encode (A := A)).
Proof.
  intros a1 a2 E. apply (f_equal (decode_value (A := A))) in E.
  rewrite !decode_value_encode in E. by simplify_eq.
Qed.
End codec.

Create Rewrite HintDb scale.
#[export] Hint Rewrite @scale_roundtrip @decode_value_app @decode_value_encode
  using typeclasses eauto : scale.

(** [Compact<u32>], the length prefix of a SCALE vector. *)
Record Compact : Type := mk_compact { compact_value : u32 }.

(** The codecs of the primitive types the source encodes. *)
Class Scale : Type := {
  codec_byte :: Codec byte;
  codec_bool :: Codec bool;
  codec_unit :: Codec unit;
  codec_u8 :: Codec u8;
  codec_u32 :: Codec u32;
  codec_u64 :: Codec u64;
  codec_u128 :: Codec u128;
  codec_array n :: Codec (bytesN n);
  codec_compact :: Codec Compact;
  codec_vec (A : Type) :: Codec A → Codec (list A);
  codec_pair (A B : Type) :: Codec A → Codec B → Codec (A * B);
}.

Class ScaleLaws `{Scale} : Prop := {
  lawful_byte :: LawfulCodec byte;
  lawful_bool :: LawfulCodec bool;
  lawful_unit :: LawfulCodec unit;
  lawful_u8 :: LawfulCodec u8;
  lawful_u32 :: LawfulCodec u32;
  lawful_u64 :: LawfulCodec u64;
  lawful_u128 :: LawfulCodec u128;
  lawful_array n :: LawfulCodec (bytesN n);
  lawful_compact :: LawfulCodec Compact;
  lawful_vec (A : Type) (cA : Codec A) :: LawfulCodec A → LawfulCodec (list A);
  lawful_pair (A B : Type) (cA : Codec A) (cB : Codec B) ::
    LawfulCodec A → LawfulCodec B → LawfulCodec (A * B);
}.

(** ** The host *)

(** The runtime storage: a finite map from keys to values. *)
Abbreviation storage := (gmap bytes bytes).

Inductive StateVersion := V0 | V1.

Abbreviation Public := (bytesN 32).
Abbreviation Signature := (bytesN 64).

Class Host : Type := {
  (** [sp_io::hashing::blake2_256], the [BlakeTwo256] hasher *)
  blake2_256 : bytes → H256;
  (** [sp_io::crypto::sr25519_verify] *)
  sr25519_verify : Signature → bytes → Public → bool;
  (** [sp_io::storage::root] of the current storage *)
  storage_root : StateVersion → storage → bytes;
  (** [Hashing::ordered_trie_root] *)
  ordered_trie_root : list bytes → StateVersion → H256;
  (** The digest of a block header, which Tuxedo never inspects *)
  Digest : Type;
}.

(** [BlakeTwo256::hash_of(&a)] hashes the encoding of [a]. *)
Definition hash_of `{Host} {A} `{Codec A} (a : A) : H256 := blake2_256 (scale_encode a).

(** [sp_io::storage::{get,set,clear}] and [root].  The runtime's code is written against
    these host functions; who serves them decides what state it runs on: a node's
    storage, the externalities of a validator, a recorder of the keys it touches. *)
Class Store (St : Type) : Type := {
  storage_get {E} : bytes → M St E (option bytes);
  storage_set {E} : bytes → bytes → M St E unit;
  storage_clear {E} : bytes → M St E unit;
}.
#[export] Hint Mode Store ! : typeclass_instances.

Class RootStore (St : Type) `{!Store St} : Type := {
  host_root {E} : StateVersion → M St E bytes;
}.
#[export] Hint Mode RootStore ! - : typeclass_instances.

(** A node's storage: every key can be read. *)
#[export] Instance storage_store : Store storage := {|
  storage_get E k := gets (.!! k);
  storage_set E k v := modify <[k := v]>;
  storage_clear E k := modify (delete k) |}.
#[export] Instance storage_root_store `{Host} : RootStore storage := {|
  host_root E version := gets (storage_root version) |}.

(** ** Inherent data ([sp_inherents]) *)

(** [get_data] answers [None] when the stored bytes do not decode, [Some None]
    when nothing is stored under the identifier.  [put_error d id e fatal]
    fails when a fatal error was already recorded. *)
Class Inherents : Type := {
  InherentData : Type;
  get_data {A} `{Codec A} : InherentData → bytesN 8 → option (option A);
  CheckInherentsResult : Type;
  check_inherents_new : CheckInherentsResult;
  put_error : CheckInherentsResult → bytesN 8 → bytes → bool → option CheckInherentsResult;
  fatal_error : CheckInherentsResult → bool;
}.

(** [CheckInherentsResult::put_error] refuses to add to a fatal error, and records
    whether the error it adds is fatal. *)
Class InherentsLaws `{Inherents} : Prop := {
  new_not_fatal : fatal_error check_inherents_new = false;
  put_error_some r id e fatal :
    fatal_error r = false → ∃ r', put_error r id e fatal = Some r' ∧ fatal_error r' = fatal;
  put_error_none r id e fatal : fatal_error r = true → put_error r id e fatal = None;
}.
