(* ===== verification/NoBound.v ===== *)
(** * NoBound: the derive macros without bounds

    Models [tuxedo-core/no_bound/src]: what [CloneNoBound], [DebugNoBound] and
    [DefaultNoBound] generate for a type, as syntax, and what the generated code
    computes.  A type is described by what the macros look at: its name, its
    generics and the shape of its fields. *)

From stdpp Require Import pretty.
From S2P Require Import Prelude Effects.

Module NoBound.

(** ** The input of a derive macro ([syn]) *)

Abbreviation Ident := string.

Inductive Fields : Type :=
| Named (named : list Ident)
| Unnamed (unnamed : nat)
| Unit.

(** An attribute, by the segments of its path. *)
Record Attribute : Type := mk_attribute { path : list Ident }.
Definition is_ident (self : list Ident) (ident : Ident) : bool := bool_decide (self = [ident]).

Record Variant : Type := mk_variant {
  attrs : list Attribute;
  variant_ident : Ident;
  variant_fields : Fields;
}.

Inductive Data : Type :=
| Struct (fields : Fields)
| Enum (variants : list Variant)
| Union.

(** What [split_for_impl] splits the generics into, as source text. *)
Record Generics : Type := mk_generics {
  impl_generics : string;
  ty_generics : string;
  where_clause : string;
}.

Record DeriveInput : Type := mk_input {
  ident : Ident;
  generics : Generics;
  input_data : Data;
}.

(** ** The generated code *)

Inductive Member : Type := MIdent (x : Ident) | MIndex (i : nat).

(** A place the code reads: a variable a pattern bound, or a field of [self]. *)
Inductive Operand : Type := Captured (x : Ident) | SelfDot (m : Member).

(** [core::clone::Clone::clone(..)] and [core::default::Default::default()] *)
Inductive FieldExpr : Type := CallClone (o : Operand) | CallDefault.

(** [Self { .. }], [Self(..)] and [Self], with the variant if there is one. *)
Inductive Arguments : Type :=
| Braces (l : list (Ident * FieldExpr))
| Parens (l : list FieldExpr)
| Bare.
Record Construct : Type := mk_construct { of_variant : option Ident; arguments : Arguments }.

(** The pattern [Self::X { ref a, .. }], [Self::X(ref _0, ..)] or [Self::X]. *)
Inductive Binders : Type :=
| RefBraces (l : list Ident)
| RefParens (l : list Ident)
| NoBinders.
Record Pattern : Type := mk_pattern { pattern_variant : Ident; binders : Binders }.

(** [fmt.debug_struct(name).field(..)..finish()], the same with [debug_tuple], and
    [fmt.write_str(name)]. *)
Inductive DebugCall : Type :=
| DebugStruct (name : string) (l : list (string * Operand))
| DebugTuple (name : string) (l : list Operand)
| WriteStr (name : string).

(** A body is one expression, or a match on [self]. *)
Inductive Body (E : Type) : Type :=
| Straight (e : E)
| Match (arms : list (Pattern * E)).
Arguments Straight {E} _.
Arguments Match {E} _.

(** [impl #impl_generics Trait for #name #ty_generics #where_clause { .. }] *)
Record Impl (E : Type) : Type := mk_impl {
  for_type : Ident;
  for_generics : Generics;
  body : Body E;
}.
Arguments mk_impl {E} _ _ _.
Arguments for_type {E} _.
Arguments for_generics {E} _.
Arguments body {E} _.

(** A derive macro expands to an implementation, or to [compile_error!]s. *)
Inductive Expansion (E : Type) : Type :=
| Code (i : Impl E)
| CompileErrors (messages : list string).
Arguments Code {E} _.
Arguments CompileErrors {E} _.

Definition generate {E} (input : DeriveInput) (impl : Body E) : Expansion E :=
  Code (mk_impl (ident input) (generics input) impl).

(** [syn::parse], whose errors are reported as they are. *)
Definition on_parsed {E} (input : result (list string) DeriveInput)
    (expand : DeriveInput → Expansion E) : Expansion E :=
  match input with Ok input => expand input | Err e => CompileErrors e end.

(** [format!("_{}", i)] of the position of a field *)
Definition captured_name (i : nat) : Ident := "_" +:+ pretty i.
Definition captured_names (n : nat) : list Ident := map captured_name (seq 0 n).

(** ** [clone_no_bound.rs] *)

Definition clone_struct (fields : Fields) : Construct :=
  match fields with
  | Named named =>
    mk_construct None (Braces (map (λ i, (i, CallClone (SelfDot (MIdent i)))) named))
  | Unnamed unnamed =>
    mk_construct None (Parens (map (λ i, CallClone (SelfDot (MIndex i))) (seq 0 unnamed)))
  | Unit => mk_construct None Bare
  end.

Definition clone_arm (variant : Variant) : Pattern * Construct :=
  let ident := variant_ident variant in
  match variant_fields variant with
  | Named captured =>
    (mk_pattern ident (RefBraces captured),
     mk_construct (Some ident) (Braces (map (λ i, (i, CallClone (Captured i))) captured)))
  | Unnamed unnamed =>
    let captured := captured_names unnamed in
    (mk_pattern ident (RefParens captured),
     mk_construct (Some ident) (Parens (map (λ i, CallClone (Captured i)) captured)))
  | Unit => (mk_pattern ident NoBinders, mk_construct (Some ident) Bare)
  end.

Definition clone_expand (input : DeriveInput) : Expansion Construct :=
  match input_data input with
  | Struct fields => generate input (Straight (clone_struct fields))
  | Enum variants => generate input (Match (map clone_arm variants))
  | Union => CompileErrors ["Union type not supported by `derive(CloneNoBound)`"]
  end.
Definition derive_clone_no_bound input : Expansion Construct := on_parsed input clone_expand.

(** ** [debug_no_bound.rs] *)

Definition debug_struct (input_ident : Ident) (fields : Fields) : DebugCall :=
  match fields with
  | Named named => DebugStruct input_ident (map (λ i, (i, SelfDot (MIdent i))) named)
  | Unnamed unnamed => DebugTuple input_ident (map (λ i, SelfDot (MIndex i)) (seq 0 unnamed))
  | Unit => WriteStr input_ident
  end.

Definition debug_arm (input_ident : Ident) (variant : Variant) : Pattern * DebugCall :=
  let ident := variant_ident variant in
  let full_variant_str := input_ident +:+ "::" +:+ ident in
  match variant_fields variant with
  | Named captured =>
    (mk_pattern ident (RefBraces captured),
     DebugStruct full_variant_str (map (λ i, (i, Captured i)) captured))
  | Unnamed unnamed =>
    let captured := captured_names unnamed in
    (mk_pattern ident (RefParens captured), DebugTuple full_variant_str (map Captured captured))
  | Unit => (mk_pattern ident NoBinders, WriteStr full_variant_str)
  end.

Definition debug_expand (input : DeriveInput) : Expansion DebugCall :=
  match input_data input with
  | Struct fields => generate input (Straight (debug_struct (ident input) fields))
  | Enum variants => generate input (Match (map (debug_arm (ident input)) variants))
  | Union => CompileErrors ["Union type not supported by `derive(DebugNoBound)`"]
  end.
Definition derive_debug_no_bound input : Expansion DebugCall := on_parsed input debug_expand.

(** ** [default_no_bound.rs] *)

Definition default_construct (variant : option Ident) (fields : Fields) : Construct :=
  match fields with
  | Named named => mk_construct variant (Braces (map (λ ident, (ident, CallDefault)) named))
  | Unnamed unnamed => mk_construct variant (Parens (replicate unnamed CallDefault))
  | Unit => mk_construct variant Bare
  end.

Definition is_default (attr : Attribute) : bool := is_ident (path attr) "default".

(** The match on the variants that carry the attribute. *)
Definition default_enum (input : DeriveInput) (variants : list Variant) : Expansion Construct :=
  if Nat.eqb (List.length variants) 0 then
    CompileErrors ["cannot derive Default for an empty enum"]
  else
    match List.filter (λ variant, existsb is_default (attrs variant)) variants with
    | [] => CompileErrors
        ["no default declared, make a variant default by placing `#[default]` above it"]
    | [default_variant] =>
      match List.filter is_default (attrs default_variant) with
      | _ :: second_attr :: additional_attrs =>
        CompileErrors ("multiple `#[default]` attributes" :: "`#[default]` used here" ::
          map (λ _, "`#[default]` used again here") (second_attr :: additional_attrs))
      | _ => generate input (Straight (default_construct
               (Some (variant_ident default_variant)) (variant_fields default_variant)))
      end
    | _ :: additional =>
      CompileErrors ("multiple declared defaults" :: "first default" ::
        map (λ _, "additional default") additional)
    end.

Definition default_expand (input : DeriveInput) : Expansion Construct :=
  match input_data input with
  | Struct fields => generate input (Straight (default_construct None fields))
  | Enum variants => default_enum input variants
  | Union => CompileErrors ["Union type not supported by `derive(DefaultNoBound)`"]
  end.
Definition derive_default_no_bound input : Expansion Construct := on_parsed input default_expand.

(** ** What the generated code computes *)

Section semantics.
Context {A : Type}.
Implicit Types (env : list (Ident * A)) (a : A).

(** A value of the type: its variant and its fields. *)
Inductive Contents : Type :=
| InBraces (l : list (Ident * A))
| InParens (l : list A)
| Nothing.
Record Value : Type := mk_value { variant_of : option Ident; contents : Contents }.
Implicit Types (v self : Value).

Definition assoc {B} (x : Ident) (l : list (Ident * B)) : option B :=
  (list_to_map l : gmap Ident B) !! x.

Definition project self (m : Member) : option A :=
  match m, contents self with
  | MIdent x, InBraces l => assoc x l
  | MIndex i, InParens l => l !! i
  | _, _ => None
  end.

Definition read env self (o : Operand) : option A :=
  match o with Captured x => assoc x env | SelfDot m => project self m end.

(** Matching binds the fields of a value of the pattern's variant. *)
Definition bindings (b : Binders) (c : Contents) : option (list (Ident * A)) :=
  match b, c with
  | RefBraces xs, InBraces l => mapM (λ x, pair x <$> assoc x l) xs
  | RefParens xs, InParens l =>
    if Nat.eqb (List.length xs) (List.length l) then Some (zip xs l) else None
  | NoBinders, Nothing => Some []
  | _, _ => None
  end.
Definition match_pattern self (p : Pattern) : option (list (Ident * A)) :=
  if bool_decide (variant_of self = Some (pattern_variant p))
  then bindings (binders p) (contents self) else None.

(** A body runs its expression, or that of the first arm that matches. *)
Fixpoint run_arms {E B} (run : list (Ident * A) → E → option B) self (arms : list (Pattern * E)) :
    option B :=
  match arms with
  | [] => None
  | (p, e) :: arms =>
    match match_pattern self p with Some env => run env e | None => run_arms run self arms end
  end.
Definition run_body {E B} (run : list (Ident * A) → E → option B) self (b : Body E) : option B :=
  match b with Straight e => run [] e | Match arms => run_arms run self arms end.

(** [Clone] and [Default] of the types of the fields. *)
Context (clone : A → A) (default_of : Member → A).

Definition run_field self env (m : Member) (e : FieldExpr) : option A :=
  match e with
  | CallClone o => clone <$> read env self o
  | CallDefault => Some (default_of m)
  end.
Definition run_arguments self env (e : Arguments) : option Contents :=
  match e with
  | Braces l => InBraces <$> mapM (λ p, pair p.1 <$> run_field self env (MIdent p.1) p.2) l
  | Parens l => InParens <$> mapM (λ p, run_field self env (MIndex p.1) p.2) (enumerate l)
  | Bare => Some Nothing
  end.
Definition run_construct self env (e : Construct) : option Value :=
  mk_value (of_variant e) <$> run_arguments self env (arguments e).

(** What a formatter is asked to print. *)
Inductive Printed : Type :=
| PrintStruct (name : string) (l : list (string * A))
| PrintTuple (name : string) (l : list A)
| PrintStr (name : string).

(** The calls are made on the variable [fmt]: the parameter of the method, unless
    the pattern has bound a field of that name. *)
Definition run_debug self env (e : DebugCall) : option Printed :=
  match assoc "fmt" env with
  | Some _ => None
  | None =>
    match e with
    | DebugStruct name l => PrintStruct name <$> mapM (λ p, pair p.1 <$> read env self p.2) l
    | DebugTuple name l => PrintTuple name <$> mapM (read env self) l
    | WriteStr name => Some (PrintStr name)
    end
  end.

(** The values of a type, and what Rust demands of its declaration. *)
Definition has_shape (f : Fields) (c : Contents) : Prop :=
  match f, c with
  | Named xs, InBraces l => map fst l = xs
  | Unnamed n, InParens l => List.length l = n
  | Unit, Nothing => True
  | _, _ => False
  end.
Definition has_type (d : Data) v : Prop :=
  match d, variant_of v with
  | Struct f, None => has_shape f (contents v)
  | Enum variants, Some x =>
    ∃ variant, variant ∈ variants ∧ variant_ident variant = x ∧
      has_shape (variant_fields variant) (contents v)
  | _, _ => False
  end.
Definition well_formed_fields (f : Fields) : Prop :=
  match f with Named xs => NoDup xs | _ => True end.
Definition well_formed_data (d : Data) : Prop :=
  match d with
  | Struct f => well_formed_fields f
  | Enum variants => NoDup (map variant_ident variants) ∧
                     Forall (λ variant, well_formed_fields (variant_fields variant)) variants
  | Union => True
  end.
End semantics.

(** ** Facts *)

Section facts.
Context {A : Type} (clone : A → A) (default_of : Member → A).
Implicit Types (l : list (Ident * A)) (self v : Value (A := A)) (d : Data).

Lemma mapM_all {X Y} (f : X → option Y) (g : X → Y) (l : list X) :
  (∀ x, x ∈ l → f x = Some (g x)) → mapM f l = Some (map g l).
Proof.
  intros Hf. apply mapM_Some_2, Forall2_fmap_r. induction l as [|x l IH]; constructor.
  - apply Hf, list_elem_of_here.
  - apply IH. intros y Hy. by apply Hf, list_elem_of_further.
Qed.

Lemma mapM_map {X Y Z} (f : Y → option Z) (g : X → Y) (l : list X) :
  mapM f (map g l) = mapM (λ x, f (g x)) l.
Proof. induction l as [|x l IH]; [done|]. cbn. by rewrite <-IH. Qed.

Lemma assoc_elem {B} (l : list (Ident * B)) x b : NoDup (map fst l) → (x, b) ∈ l → assoc x l = Some b.
Proof. intros Hd Hx. by apply elem_of_list_to_map_1. Qed.

Lemma assoc_none {B} (l : list (Ident * B)) x : assoc x l = None ↔ x ∉ map fst l.
Proof. unfold assoc. by rewrite <-not_elem_of_list_to_map. Qed.

Instance captured_name_inj : Inj (=) (=) captured_name.
Proof. intros i j E. unfold captured_name in E. by do 2 apply (inj _) in E. Qed.

Lemma captured_names_nodup n : NoDup (captured_names n).
Proof. apply (NoDup_fmap_2 captured_name), NoDup_seq. Qed.

(** The variables a pattern binds, and what they are bound to. *)
Definition named_contents (c : Contents (A := A)) : list (Ident * A) :=
  match c with
  | InBraces l => l
  | InParens l => zip (captured_names (List.length l)) l
  | Nothing => []
  end.

Definition arm_binders (f : Fields) : Binders :=
  match f with
  | Named xs => RefBraces xs
  | Unnamed n => RefParens (captured_names n)
  | Unit => NoBinders
  end.

Lemma captured_names_length n : List.length (captured_names n) = n.
Proof. unfold captured_names. by rewrite length_map, length_seq. Qed.

Lemma named_contents_fst f c :
  has_shape f c →
  map fst (named_contents c) = match f with Named xs => xs | Unnamed n => captured_names n | Unit => [] end.
Proof.
  destruct f, c; try done; cbn [has_shape named_contents].
  intros <-. apply fst_zip. by rewrite captured_names_length.
Qed.

Lemma named_contents_nodup f c :
  has_shape f c → well_formed_fields f → NoDup (map fst (named_contents c)).
Proof.
  intros Hs Hw. rewrite (named_contents_fst f c Hs).
  destruct f; [done|apply captured_names_nodup|constructor].
Qed.

Lemma bindings_run f c :
  has_shape f c → well_formed_fields f → bindings (arm_binders f) c = Some (named_contents c).
Proof.
  intros Hs Hw. destruct f as [xs|n|], c as [l|l|]; try done; cbn [arm_binders bindings named_contents].
  - cbn in Hs, Hw. subst xs. rewrite mapM_map, (mapM_all _ id); [by rewrite list_fmap_id|].
    intros [x a] Hx. cbn [fst]. by rewrite (assoc_elem l x a).
  - cbn in Hs. by rewrite captured_names_length, Hs, Nat.eqb_refl.
Qed.

Lemma captured_read n (l : list A) i a :
  l !! i = Some a → List.length l = n → assoc (captured_name i) (zip (captured_names n) l) = Some a.
Proof.
  intros Hi Hn. apply assoc_elem.
  - rewrite fst_zip by by rewrite captured_names_length, Hn. apply captured_names_nodup.
  - apply list_elem_of_lookup. exists i. apply lookup_zip_Some. split; [|done].
    unfold captured_names. cbn [fst]. rewrite list_lookup_fmap, lookup_seq_lt; [done|].
    apply lookup_lt_Some in Hi. lia.
Qed.

(** Only the arm of the value's variant matches. *)
Lemma run_arms_hit {E B} (run : list (Ident * A) → E → option B) (arm : Variant → E) self variants variant :
  NoDup (map variant_ident variants) → variant ∈ variants →
  variant_of self = Some (variant_ident variant) →
  has_shape (variant_fields variant) (contents self) → well_formed_fields (variant_fields variant) →
  run_arms run self (map (λ x, (mk_pattern (variant_ident x) (arm_binders (variant_fields x)), arm x))
    variants) = run (named_contents (contents self)) (arm variant).
Proof.
  intros Hd Hin Hv Hs Hw. induction variants as [|x variants IH]; [by apply elem_of_nil in Hin|].
  cbn [map] in Hd. apply NoDup_cons in Hd as [Hx Hd]. cbn [map run_arms]. unfold match_pattern.
  cbn [pattern_variant binders]. rewrite Hv. apply elem_of_cons in Hin as [->|Hin].
  - rewrite bool_decide_true by done. by rewrite (bindings_run _ _ Hs Hw).
  - rewrite bool_decide_false; [by apply IH|]. intros [= Ex]. apply Hx. rewrite <-Ex.
    by apply (list_elem_of_fmap_2 variant_ident).
Qed.

(** ** What deriving gives *)

Definition map_contents (f : A → A) (c : Contents (A := A)) : Contents :=
  match c with
  | InBraces l => InBraces (map (λ p, (p.1, f p.2)) l)
  | InParens l => InParens (map f l)
  | Nothing => Nothing
  end.
Definition map_value (f : A → A) v : Value := mk_value (variant_of v) (map_contents f (contents v)).

Lemma mapM_enumerate {X Y} (f : nat * X → option Y) (l : list X) (l' : list Y) :
  List.length l = List.length l' →
  (∀ i x y, l !! i = Some x → l' !! i = Some y → f (i, x) = Some y) →
  mapM f (enumerate l) = Some l'.
Proof.
  intros Hn Hf. apply mapM_Some_2, Forall2_same_length_lookup. split; [by rewrite enumerate_length|].
  intros i [j x] y [Hj Hx]%lookup_zip_Some Hy. cbn [fst snd] in *.
  apply lookup_seq in Hj as [-> _]. by eapply Hf.
Qed.

Lemma mapM_lookup {X Y} (f : X → option Y) (l : list X) (l' : list Y) :
  List.length l = List.length l' →
  (∀ i x y, l !! i = Some x → l' !! i = Some y → f x = Some y) → mapM f l = Some l'.
Proof. intros Hn Hf. by apply mapM_Some_2, Forall2_same_length_lookup. Qed.

Lemma enumerate_lookup {X} (f : nat → X) n i x : map f (seq 0 n) !! i = Some x → x = f i.
Proof. rewrite list_lookup_fmap. by intros (j & [-> _]%lookup_seq & ->)%fmap_Some. Qed.

(** Cloning the fields of [self]. *)
Lemma clone_self f self :
  has_shape f (contents self) → well_formed_fields f → variant_of self = None →
  run_construct clone default_of self [] (clone_struct f) = Some (map_value clone self).
Proof.
  destruct self as [x c]. cbn. intros Hs Hw ->. destruct f as [xs|n|], c as [l|l|]; try done; cbn in Hs, Hw; subst;
    unfold run_construct, map_value; cbn [clone_struct of_variant arguments run_arguments contents variant_of map_contents].
  - rewrite !mapM_map, (mapM_all _ (λ p, (p.1, clone p.2))); [done|]. intros [x a] Hx.
    cbn [fst snd run_field read project contents]. by rewrite (assoc_elem l x a).
  - rewrite (mapM_enumerate _ _ (map clone l)); [done|by rewrite !length_map, length_seq|].
    intros i e y ->%enumerate_lookup Hy. cbn [fst snd run_field read project contents].
    rewrite <-Hy. by rewrite list_lookup_fmap.
Qed.

(** Cloning the captured fields. *)
Lemma clone_captured variant self :
  has_shape (variant_fields variant) (contents self) → well_formed_fields (variant_fields variant) →
  variant_of self = Some (variant_ident variant) →
  run_construct clone default_of self (named_contents (contents self)) (clone_arm variant).2 =
  Some (map_value clone self).
Proof.
  destruct self as [x c], variant as [ats ident f]. cbn. intros Hs Hw ->. destruct f as [xs|n|], c as [l|l|]; try done; cbn in Hs, Hw; subst;
    unfold run_construct, map_value, clone_arm; cbn [snd variant_ident variant_fields of_variant arguments run_arguments contents variant_of map_contents named_contents].
  - rewrite !mapM_map, (mapM_all _ (λ p, (p.1, clone p.2))); [done|]. intros [x a] Hx.
    cbn [fst snd run_field read]. by rewrite (assoc_elem l x a).
  - unfold captured_names at 2. rewrite map_map, (mapM_enumerate _ _ (map clone l)); [done|by rewrite !length_map, length_seq|].
    intros i e y ->%enumerate_lookup Hy. cbn [fst snd run_field read].
    rewrite list_lookup_fmap in Hy. apply fmap_Some in Hy as (a & Ha & ->).
    by rewrite (captured_read _ _ _ _ Ha eq_refl).
Qed.

Lemma clone_arm_pattern variant :
  clone_arm variant =
  (mk_pattern (variant_ident variant) (arm_binders (variant_fields variant)), (clone_arm variant).2).
Proof. unfold clone_arm. by destruct (variant_fields variant). Qed.

(** Printing the fields; the formatter is shadowed by a captured field. *)
Definition printed (name : string) (c : Contents (A := A)) : Printed :=
  match c with
  | InBraces l => PrintStruct name l
  | InParens l => PrintTuple name l
  | Nothing => PrintStr name
  end.
Definition shadows v : Prop :=
  match variant_of v, contents v with Some _, InBraces l => "fmt" ∈ map fst l | _, _ => False end.
#[local] Instance shadows_dec v : Decision (shadows v).
Proof. unfold shadows. destruct (variant_of v), (contents v); apply _. Defined.

Lemma debug_self name f self :
  has_shape f (contents self) → well_formed_fields f →
  run_debug self [] (debug_struct name f) = Some (printed name (contents self)).
Proof.
  destruct self as [x c]. cbn. intros Hs Hw. destruct f as [xs|n|], c as [l|l|]; try done; cbn in Hs, Hw; subst;
    unfold run_debug; cbn [debug_struct contents printed].
  - rewrite !mapM_map, (mapM_all _ id); [by rewrite list_fmap_id|]. intros [x' a] Hx.
    cbn [fst snd read project contents]. by rewrite (assoc_elem l x' a).
  - rewrite mapM_map, (mapM_lookup _ _ l); [done|by rewrite length_seq|].
    by intros i j y [-> _]%lookup_seq Hy.
Qed.

Lemma captured_not_fmt (l : list A) : assoc "fmt" (zip (captured_names (List.length l)) l) = None.
Proof.
  apply assoc_none. rewrite fst_zip by by rewrite captured_names_length.
  by intros (i & E & _)%list_elem_of_fmap.
Qed.

Lemma debug_captured name variant self :
  has_shape (variant_fields variant) (contents self) → well_formed_fields (variant_fields variant) →
  variant_of self = Some (variant_ident variant) →
  run_debug self (named_contents (contents self)) (debug_arm name variant).2 =
  if decide (shadows self) then None
  else Some (printed (name +:+ "::" +:+ variant_ident variant) (contents self)).
Proof.
  destruct self as [x c], variant as [ats ident f]. cbn [variant_fields contents variant_of variant_ident].
  intros Hs Hw ->.
  destruct f as [xs|n|], c as [l|l|]; try done; cbn in Hs, Hw; subst;
    unfold run_debug, debug_arm; cbn [snd variant_ident variant_fields contents named_contents printed].
  - case_decide as Hf; unfold shadows in Hf; cbn [variant_of contents] in Hf.
    + destruct (assoc "fmt" l) eqn:E; [done|]. by apply assoc_none in E.
    + rewrite (proj2 (assoc_none l "fmt") Hf).
      rewrite !mapM_map, (mapM_all _ id); [by rewrite list_fmap_id|]. intros [x' a] Hx.
      cbn [fst snd read]. by rewrite (assoc_elem l x' a).
  - rewrite captured_not_fmt, decide_False by by intros [].
    unfold captured_names at 2. rewrite !mapM_map, (mapM_lookup _ _ l); [done|by rewrite length_seq|].
    intros i j y [-> _]%lookup_seq Hy. by apply captured_read.
Qed.

Lemma debug_arm_pattern name variant :
  debug_arm name variant =
  (mk_pattern (variant_ident variant) (arm_binders (variant_fields variant)), (debug_arm name variant).2).
Proof. unfold debug_arm. by destruct (variant_fields variant). Qed.

(** The name [Debug] prints. *)
Definition printed_name (input : DeriveInput) v : string :=
  match variant_of v with Some x => ident input +:+ "::" +:+ x | None => ident input end.

(** C40: What [CloneNoBound] and [DebugNoBound] derive. For a struct or an enum,
    as Rust admits them, both macros expand to an implementation for the type,
    with the generics and the where clause of its declaration and no other bound.
    On every value of the type the derived [clone] gives the same variant with every
    field cloned, in place; and the derived [fmt] prints the name of the type, with
    that of the variant, and the fields in order, unless the variant has a field
    named [fmt], which the generated code then calls in the place of the
    formatter. For a union both macros expand to an error. *)
Theorem derived_code input :
  well_formed_data (input_data input) →
  (input_data input = Union →
     (∃ m, derive_clone_no_bound (Ok input) = CompileErrors [m]) ∧
     ∃ m, derive_debug_no_bound (Ok input) = CompileErrors [m]) ∧
  (input_data input ≠ Union → ∃ cloning debugging,
     derive_clone_no_bound (Ok input) = Code cloning ∧
     derive_debug_no_bound (Ok input) = Code debugging ∧
     for_type cloning = ident input ∧ for_generics cloning = generics input ∧
     for_type debugging = ident input ∧ for_generics debugging = generics input ∧
     ∀ v, has_type (input_data input) v →
       run_body (run_construct clone default_of v) v (body cloning) = Some (map_value clone v) ∧
       run_body (run_debug v) v (body debugging) =
         if decide (shadows v) then None else Some (printed (printed_name input v) (contents v))).
Proof.
  intros Hw. split; [intros E; cbn; unfold clone_expand, debug_expand; rewrite E; eauto|].
  intros Hn. cbn [derive_clone_no_bound derive_debug_no_bound on_parsed].
  unfold derive_clone_no_bound, derive_debug_no_bound, on_parsed, clone_expand, debug_expand.
  destruct (input_data input) as [f|variants|]; [| |done]; eexists _, _;
    (split; [done|]); (split; [done|]); repeat (split; [done|]); intros v Hv; cbn [body run_body].
  - cbn in Hv, Hw. unfold printed_name. destruct (variant_of v) as [x|] eqn:Ev; [done|]. split.
    + by apply clone_self.
    + rewrite decide_False; [by apply debug_self|]. unfold shadows. rewrite Ev. by intros [].
  - cbn in Hv. unfold printed_name. destruct (variant_of v) as [x|] eqn:Ev; [|done].
    destruct Hv as (variant & Hin & <- & Hs), Hw as [Hd Hw].
    pose proof (proj1 (Forall_forall _ _) Hw variant Hin) as Hwf. cbv beta in Hwf.
    rewrite (map_ext _ _ clone_arm_pattern), (map_ext _ _ (debug_arm_pattern (ident input))).
    rewrite !(run_arms_hit _ _ _ _ variant) by done. split.
    + by apply clone_captured.
    + by apply debug_captured.
Qed.

(** ** Choosing a default *)

Definition marked (variant : Variant) : bool := existsb is_default (attrs variant).
Definition marks (variant : Variant) : nat := List.length (List.filter is_default (attrs variant)).

(** The variant [Default] gives: the only one marked, marked once. *)
Inductive chosen : Data → option Ident → Fields → Prop :=
| chosen_struct f : chosen (Struct f) None f
| chosen_variant before variant after :
    Forall (λ x, marked x = false) before → Forall (λ x, marked x = false) after →
    marks variant = 1 →
    chosen (Enum (before ++ variant :: after)) (Some (variant_ident variant)) (variant_fields variant).

Definition default_contents (f : Fields) : Contents (A := A) :=
  match f with
  | Named xs => InBraces (map (λ x, (x, default_of (MIdent x))) xs)
  | Unnamed n => InParens (map (λ i, default_of (MIndex i)) (seq 0 n))
  | Unit => Nothing
  end.

Lemma default_shape f : has_shape f (default_contents f).
Proof.
  destruct f as [xs|n|]; [|by cbn; rewrite length_map, length_seq|done].
  cbn. rewrite map_map. cbn. apply map_id.
Qed.

Lemma default_run variant f self :
  run_construct clone default_of self [] (default_construct variant f) =
  Some (mk_value variant (default_contents f)).
Proof.
  destruct f as [xs|n|]; [| |done];
    unfold run_construct; cbn [default_construct of_variant arguments run_arguments default_contents].
  - by rewrite mapM_map, (mapM_all _ (λ x, (x, default_of (MIdent x)))).
  - rewrite (mapM_enumerate _ _ (map (λ i, default_of (MIndex i)) (seq 0 n)));
      [done|by rewrite length_replicate, length_map, length_seq|].
    intros i x y [-> Hi]%lookup_replicate Hy%enumerate_lookup. by rewrite Hy.
Qed.

Lemma filter_none {X} (f : X → bool) (l : list X) :
  List.filter f l = [] ↔ Forall (λ x, f x = false) l.
Proof.
  induction l as [|x l IH]; [by split|]. cbn. rewrite Forall_cons, <-IH.
  destruct (f x); split; naive_solver.
Qed.

Lemma filter_one {X} (f : X → bool) (l : list X) x :
  List.filter f l = [x] ↔
  ∃ before after, l = before ++ x :: after ∧ f x = true ∧
    Forall (λ y, f y = false) before ∧ Forall (λ y, f y = false) after.
Proof.
  split.
  - induction l as [|y l IH]; [done|]. cbn. destruct (f y) eqn:Ey.
    + intros [= -> Hl%filter_none]. by exists [], l.
    + intros (before & after & -> & Hx & Hb & Ha)%IH. exists (y :: before), after.
      split; [done|]. split; [done|]. split; [by constructor|done].
  - intros (before & after & -> & Hx & Hb%filter_none & Ha%filter_none).
    by rewrite List.filter_app, Hb; cbn; rewrite Hx, Ha.
Qed.

Lemma marked_marks variant : marked variant = true ↔ marks variant ≠ 0.
Proof.
  unfold marked, marks. induction (attrs variant) as [|a l IH]; [done|]. cbn.
  by destruct (is_default a); cbn.
Qed.

(** How many errors are reported when no default is chosen. *)
Definition default_errors d : nat :=
  match d with
  | Enum variants =>
    match List.filter marked variants with [variant] => S (marks variant) | l => S (List.length l) end
  | _ => 1
  end.

Lemma default_enum_code input variants variant :
  List.filter marked variants = [variant] → marks variant = 1 →
  default_enum input variants = generate input
    (Straight (default_construct (Some (variant_ident variant)) (variant_fields variant))).
Proof.
  intros Hf Hm. unfold default_enum. destruct variants as [|x l]; [done|].
  cbn [List.length Nat.eqb]. change (List.filter _ (x :: l)) with (List.filter marked (x :: l)).
  rewrite Hf. unfold marks in Hm. by destruct (List.filter is_default _) as [|? [|? ?]].
Qed.

Lemma default_enum_errors input variants :
  (∀ variant, List.filter marked variants = [variant] → marks variant ≠ 1) →
  ∃ messages, default_enum input variants = CompileErrors messages ∧
    List.length messages = default_errors (Enum variants).
Proof.
  intros Hf. unfold default_enum, default_errors.
  destruct (Nat.eqb_spec (List.length variants) 0) as [E|_].
  - destruct variants; [|done]. by eexists.
  - change (List.filter (λ variant, existsb is_default (attrs variant)) variants)
      with (List.filter marked variants).
    destruct (List.filter marked variants) as [|variant [|x l]] eqn:E.
    + by eexists.
    + specialize (Hf variant eq_refl).
      assert (marks variant ≠ 0) as Hm.
      { apply marked_marks. apply filter_one in E as (? & ? & _ & Hm & _). done. }
      unfold marks in *. destruct (List.filter is_default (attrs variant)) as [|a [|b more]]; [done..|].
      eexists. split; [done|]. cbn. by rewrite length_map.
    + eexists. split; [done|]. cbn. by rewrite length_map.
Qed.

Lemma chosen_filter variants x f :
  chosen (Enum variants) x f ↔
  ∃ variant, List.filter marked variants = [variant] ∧ marks variant = 1 ∧
    x = Some (variant_ident variant) ∧ f = variant_fields variant.
Proof.
  split.
  - intros Hc. remember (Enum variants) as d eqn:Ed. destruct Hc as [|before variant after Hb Ha Hm]; [done|].
    injection Ed as <-. exists variant. split; [|done]. apply filter_one. exists before, after.
    split; [done|]. split; [by apply marked_marks; rewrite Hm|done].
  - intros (variant & (before & after & -> & _ & Hb & Ha)%filter_one & Hm & -> & ->). by constructor.
Qed.

(** What [DefaultNoBound] derives.  It expands to an implementation, with the
    generics of the declaration and no other bound, exactly for structs and for
    enums in which one variant is marked, and marked once; the derived [default] is
    then a value of the type, of that variant, with every field at its default.
    Anything else expands to errors: one for a union, an empty enum or an enum
    without a mark; otherwise one more than there are marks to complain about. *)
Theorem derived_default input :
  (∀ variant f, chosen (input_data input) variant f → ∃ i,
     derive_default_no_bound (Ok input) = Code i ∧
     for_type i = ident input ∧ for_generics i = generics input ∧
     let v := mk_value variant (default_contents f) in
     has_type (input_data input) v ∧
     ∀ self, run_body (run_construct clone default_of self) self (body i) = Some v) ∧
  ((∀ variant f, ¬ chosen (input_data input) variant f) → ∃ messages,
     derive_default_no_bound (Ok input) = CompileErrors messages ∧
     List.length messages = default_errors (input_data input)).
Proof.
  unfold derive_default_no_bound, on_parsed, default_expand.
  destruct (input_data input) as [f|variants|]; split.
  - intros x f' Hc. inversion Hc; subst. eexists. do 3 (split; [done|]).
    split; [apply default_shape|]. intros self. apply default_run.
  - intros Hn. destruct (Hn None f). constructor.
  - intros x f (variant & Hf & Hm & -> & ->)%chosen_filter.
    rewrite (default_enum_code _ _ variant) by done. eexists. do 3 (split; [done|]). split.
    + exists variant. split; [|split; [done|apply default_shape]].
      apply filter_one in Hf as (before & after & -> & _). set_solver.
    + intros self. apply default_run.
  - intros Hn. apply default_enum_errors. intros variant Hf Hm.
    apply (Hn (Some (variant_ident variant)) (variant_fields variant)), chosen_filter. by exists variant.
  - intros x f Hc. inversion Hc.
  - intros _. by eexists.
Qed.
End facts.

(** ** Witnesses *)

Module Witnesses.
(** [CleanUpTimestamp] of the timestamp piece, and an enum with a field that is named
    as the formatter. *)
Definition clean_up_timestamp : DeriveInput :=
  mk_input "CleanUpTimestamp" (mk_generics "<T>" "<T>" "") (Struct (Unnamed 1)).
Definition formats : DeriveInput :=
  mk_input "Formats" (mk_generics "<T>" "<T>" "where T: Copy")
    (Enum [mk_variant [] "Plain" Unit; mk_variant [mk_attribute ["default"]] "With" (Named ["fmt"]);
           mk_variant [mk_attribute ["serde"]] "Pair" (Unnamed 2)]).
Definition pair_value : Value (A := nat) := mk_value (Some "Pair") (InParens [4; 5]).
Definition fmt_value : Value (A := nat) := mk_value (Some "With") (InBraces [("fmt", 6)]).

Lemma derived_code_witness :
  ∃ cloning debugging, derive_clone_no_bound (Ok formats) = Code cloning ∧
    derive_debug_no_bound (Ok formats) = Code debugging ∧
    run_body (run_construct S (λ _, 0) pair_value) pair_value (body cloning) =
      Some (mk_value (Some "Pair") (InParens [5; 6])) ∧
    run_body (run_debug pair_value) pair_value (body debugging) =
      Some (PrintTuple "Formats::Pair" [4; 5]) ∧
    run_body (run_debug fmt_value) fmt_value (body debugging) = None.
Proof.
  destruct (derived_code S (λ _, 0) formats) as [_ Hc].
  - split; [by_vm|]. repeat constructor. by intros ?%elem_of_nil.
  - destruct Hc as (c & d & Hc & Hd & _ & _ & _ & _ & Hv); [done|].
    exists c, d. split; [exact Hc|]. split; [exact Hd|].
    destruct (Hv pair_value) as [Hp Hq];
      [exists (mk_variant [mk_attribute ["serde"]] "Pair" (Unnamed 2)); by repeat constructor|].
    destruct (Hv fmt_value) as [_ Hf];
      [exists (mk_variant [mk_attribute ["default"]] "With" (Named ["fmt"])); by repeat constructor|].
    split; [exact Hp|]. split; [exact Hq|exact Hf].
Defined.

Lemma derived_default_witness :
  (∃ i, derive_default_no_bound (Ok formats) = Code i ∧
    run_body (run_construct S (λ _, 0) pair_value) pair_value (body i) =
      Some (mk_value (Some "With") (InBraces [("fmt", 0)]))) ∧
  ∃ i, derive_default_no_bound (Ok clean_up_timestamp) = Code i ∧
    for_generics i = mk_generics "<T>" "<T>" "".
Proof.
  split; [|destruct (derived_default S (λ _, 0) clean_up_timestamp) as [Hc _];
    destruct (Hc None (Unnamed 1)) as (i & Hi & _ & Hg & _); [constructor|by exists i]].
  destruct (derived_default S (λ _, 0) formats) as [Hc _].
  destruct (Hc (Some "With") (Named ["fmt"])) as (i & Hi & _ & _ & _ & Hv).
  - apply chosen_filter. by eexists.
  - exists i. split; [exact Hi|]. apply Hv.
Defined.
End Witnesses.
End NoBound.
