(* ===== verification/Types.v ===== *)
(** * Types: the common types of a Tuxedo runtime

    Models [tuxedo-core/src/types.rs], [tuxedo-core/src/dynamic_typing.rs], the
    storage keys of [tuxedo-core/src/lib.rs] and [metadata.rs].  The codecs that the source
    derives are parameters ([CoreCodecs]); the codec of [Transaction], which the
    source writes by hand, is defined here and proved to round trip. *)

From S2P Require Import Prelude Effects Scale.

(** ** Storage keys (lib.rs) *)

Definition HEADER_KEY : bytes := bstr "header".
Definition HEIGHT_KEY : bytes := bstr "height".
Definition EXTRINSIC_KEY : bytes := bstr "extrinsics".

(** ** Dynamic typing (dynamic_typing.rs) *)

Record DynamicallyTypedData : Type := mk_typed {
  data : bytes;
  type_id : bytesN 4;
}.

#[export] Instance DynamicallyTypedData_eq_dec : EqDecision DynamicallyTypedData.
Proof. solve_decision. Defined.

(** [trait UtxoData: Encode + Decode { const TYPE_ID: [u8; 4]; }] *)
Class UtxoData (T : Type) `{Codec T} : Type := TYPE_ID : bytesN 4.
Arguments TYPE_ID T {_ _}.

Inductive DynamicTypingError := WrongType | DecodingFailed.

#[export] Instance DynamicTypingError_eq_dec : EqDecision DynamicTypingError.
Proof. solve_decision. Defined.

(** [DynamicallyTypedData::extract] *)
Definition extract (T : Type) `{UtxoData T} (d : DynamicallyTypedData) :
    result DynamicTypingError T :=
  if bool_decide (type_id d = TYPE_ID T)
  then ok_or (decode_value (data d)) DecodingFailed
  else Err WrongType.

(** [impl<T: UtxoData> From<T> for DynamicallyTypedData] *)
Definition typed_from {T} `{UtxoData T} (value : T) : DynamicallyTypedData :=
  mk_typed (scale_encode value) (TYPE_ID T).

Section dynamic_typing.
Context {T : Type} `{UtxoData T}.

Lemma extract_ok d (v : T) :
  extract T d = Ok v ↔ type_id d = TYPE_ID T ∧ decode_value (data d) = Some v.
Proof.
  unfold extract. case_bool_decide; [|naive_solver].
  destruct (decode_value (data d)); naive_solver.
Qed.

Lemma extract_from `{!LawfulCodec T} (v : T) : extract T (typed_from v) = Ok v.
Proof. apply extract_ok. split; [done|apply decode_value_encode]. Qed.
End dynamic_typing.

(** [impl Display for DynamicTypingError] *)
Definition dynamic_typing_error_fmt (self : DynamicTypingError) : string :=
  match self with
  | WrongType => "dynamic type does not match extraction target"
  | DecodingFailed => "failed to decode dynamically typed data with scale codec"
  end.

(** ** References, inputs and outputs (types.rs) *)

Record OutputRef : Type := mk_output_ref {
  tx_hash : H256;
  index : u32;
}.

#[export] Instance OutputRef_eq_dec : EqDecision OutputRef.
Proof. solve_decision. Defined.

#[export] Program Instance OutputRef_countable : Countable OutputRef :=
  inj_countable' (λ o, (tx_hash o, index o)) (λ p, mk_output_ref p.1 p.2) _.
Next Obligation. by intros []. Qed.

Inductive RedemptionStrategy : Type :=
| Redemption (redeemer : bytes)
| Eviction.

#[export] Instance RedemptionStrategy_eq_dec : EqDecision RedemptionStrategy.
Proof. solve_decision. Defined.

(** [impl Default for RedemptionStrategy] *)
Definition default_redemption : RedemptionStrategy := Redemption [].

Record Input : Type := mk_input {
  output_ref : OutputRef;
  redeemer : RedemptionStrategy;
}.

#[export] Instance Input_eq_dec : EqDecision Input.
Proof. solve_decision. Defined.

Record Output (V : Type) : Type := mk_output {
  payload : DynamicallyTypedData;
  verifier : V;
}.
Arguments mk_output {V} _ _.
Arguments payload {V} _.
Arguments verifier {V} _.

(** [impl From<(P, V1)> for Output<V>] *)
Definition output_from {V P V1} `{UtxoData P} (into : V1 → V) (values : P * V1) : Output V :=
  mk_output (typed_from values.1) (into values.2).

Record Transaction (V C : Type) : Type := mk_transaction {
  inputs : list Input;
  peeks : list OutputRef;
  outputs : list (Output V);
  checker : C;
}.
Arguments mk_transaction {V C} _ _ _ _.
Arguments inputs {V C} _.
Arguments peeks {V C} _.
Arguments outputs {V C} _.
Arguments checker {V C} _.

(** [Transaction::transform]: change the type of the checker. *)
Definition transform {V C D} (into : C → D) (tx : Transaction V C) : Transaction V D :=
  mk_transaction (inputs tx) (peeks tx) (outputs tx) (into (checker tx)).

(** ** Blocks ([sp_runtime::generic]) *)

Record Header `{Host} : Type := mk_header {
  parent_hash : H256;
  number : u32;
  state_root : H256;
  extrinsics_root : H256;
  digest : Digest;
}.
Arguments mk_header {_} _ _ _ _ _.

Definition set_extrinsics_root `{Host} (root : H256) (h : Header) : Header :=
  mk_header (parent_hash h) (number h) (state_root h) root (digest h).
Definition set_state_root `{Host} (root : H256) (h : Header) : Header :=
  mk_header (parent_hash h) (number h) root (extrinsics_root h) (digest h).

Record Block `{Host} (V C : Type) : Type := mk_block {
  header : Header;
  extrinsics : list (Transaction V C);
}.
Arguments mk_block {_ V C} _ _.
Arguments header {_ V C} _.
Arguments extrinsics {_ V C} _.

(** ** Codecs *)

(** The codecs generated by [#[derive(Encode, Decode)]] on the types above, and
    the codec of the Substrate header. *)
Class CoreCodecs `{Scale, Host} : Type := {
  codec_output_ref :: Codec OutputRef;
  codec_input :: Codec Input;
  codec_output (V : Type) :: Codec V → Codec (Output V);
  codec_header :: Codec Header;
  codec_block (V C : Type) :: Codec (Transaction V C) → Codec (Block V C);
}.

(** Their documented laws: they round trip, and an encoded [OutputRef] is the
    32 bytes of the hash followed by the 4 bytes of the index. *)
Class CoreLaws `{CoreCodecs} : Prop := {
  lawful_output_ref :: LawfulCodec OutputRef;
  lawful_input :: LawfulCodec Input;
  lawful_output (V : Type) (cV : Codec V) :: LawfulCodec V → LawfulCodec (Output V);
  lawful_header :: LawfulCodec Header;
  output_ref_size (o : OutputRef) : List.length (scale_encode o) = 36;
}.

Section transaction_codec.
Context `{CoreCodecs} {V C : Type} `{Codec V, Codec C}.

(** [impl Encode for Transaction]: the four parts behind a [Compact<u32>]
    length, so that the encoding is that of an opaque [Vec<u8>]. *)
Definition transaction_encode (tx : Transaction V C) : bytes :=
  let inputs := scale_encode (inputs tx) in
  let peeks := scale_encode (peeks tx) in
  let outputs := scale_encode (outputs tx) in
  let checker := scale_encode (checker tx) in
  let total_len := trunc 32 (N.of_nat (List.length inputs + List.length outputs +
                                       List.length peeks + List.length checker)) in
  let size := scale_encode (mk_compact total_len) in
  size ++ inputs ++ peeks ++ outputs ++ checker.

(** [impl Decode for Transaction]: the length is thrown away. *)
Definition transaction_decode (input : bytes) : option (Transaction V C * bytes) :=
  input ← scale_skip Compact input;
  '(inputs, input) ← scale_decode (A := list Input) input;
  '(peeks, input) ← scale_decode (A := list OutputRef) input;
  '(outputs, input) ← scale_decode (A := list (Output V)) input;
  '(checker, input) ← scale_decode (A := C) input;
  Some (mk_transaction inputs peeks outputs checker, input).

#[export] Instance transaction_codec : Codec (Transaction V C) :=
  {| scale_encode := transaction_encode; scale_decode := transaction_decode |}.

Section laws.
Context `{!ScaleLaws, !CoreLaws, !LawfulCodec V, !LawfulCodec C}.

(** Whatever compact length precedes the four parts, decoding reads the
    four parts. *)
Lemma transaction_decode_parts (len : Compact) (tx : Transaction V C) rest :
  transaction_decode
    (scale_encode len ++ scale_encode (inputs tx) ++ scale_encode (peeks tx) ++
     scale_encode (outputs tx) ++ scale_encode (checker tx) ++ rest) = Some (tx, rest).
Proof.
  unfold transaction_decode, scale_skip. rewrite scale_roundtrip; simpl.
  rewrite scale_roundtrip; simpl. rewrite scale_roundtrip; simpl.
  rewrite scale_roundtrip; simpl. rewrite scale_roundtrip; simpl. by destruct tx.
Qed.

#[export] Instance transaction_lawful : LawfulCodec (Transaction V C).
Proof.
  intros tx rest. simpl. unfold transaction_encode.
  rewrite <-!app_assoc. apply transaction_decode_parts.
Qed.
End laws.
End transaction_codec.

(** ** Errors (types.rs) *)

Inductive UtxoError (CheckerError : Type) : Type :=
| DuplicateInput
| PreExistingOutput
| ConstraintCheckerError (e : CheckerError)
| VerifierError
| MissingInput.
Arguments DuplicateInput {_}.
Arguments PreExistingOutput {_}.
Arguments ConstraintCheckerError {_} _.
Arguments VerifierError {_}.
Arguments MissingInput {_}.

(** The derived [Debug]; what the checker's own error prints is left out. *)
Definition utxo_error_debug {CheckerError} (e : UtxoError CheckerError) : string :=
  match e with
  | DuplicateInput => "DuplicateInput"
  | PreExistingOutput => "PreExistingOutput"
  | ConstraintCheckerError _ => "ConstraintCheckerError(..)"
  | VerifierError => "VerifierError"
  | MissingInput => "MissingInput"
  end.

(** The variants of [sp_runtime]'s [InvalidTransaction] that Tuxedo produces. *)
Inductive InvalidTransaction : Type :=
| Call
| Future
| BadProof
| Custom (code : u8).

(** [impl From<UtxoError> for InvalidTransaction] *)
Definition into_invalid {CheckerError} (e : UtxoError CheckerError) : InvalidTransaction :=
  match e with
  | DuplicateInput => Custom (trunc 8 255)
  | PreExistingOutput => Custom (trunc 8 254)
  | ConstraintCheckerError _ => Custom (trunc 8 0)
  | VerifierError => BadProof
  | MissingInput => Future
  end.

(** ** Metadata (metadata.rs) *)

Record TuxedoMetadata : Type := mk_metadata { registry : unit; parachain : bool }.
(** [#[derive(Default)]] and [TuxedoMetadata::new_parachain] *)
Definition default_metadata : TuxedoMetadata := mk_metadata tt false.
Definition new_parachain : TuxedoMetadata := mk_metadata tt true.
Definition metadata_is_parachain (self : TuxedoMetadata) : bool := parachain self.
