(* ===== verification/Checker.v ===== *)
(** * Checker: the traits a Tuxedo runtime is generic over

    Models the [Verifier] trait ([tuxedo-core/src/verifier.rs]), the
    constraint-checker traits ([tuxedo-core/src/constraint_checker.rs]) and the
    inherent hooks with their adapter ([tuxedo-core/src/inherents.rs]).  Traits
    are type classes; the blanket implementations are instances. *)

From S2P Require Import Prelude Effects Scale Types.

(** ** Verifiers *)

(** [verify] may panic, which is why it answers in [partial]. *)
Class Verifier (V : Type) : Type := {
  verifier_codec :: Codec V;
  Redeemer : Type;
  redeemer_codec :: Codec Redeemer;
  verify : V → bytes → u32 → Redeemer → partial bool;
  new_unspendable : option V;
}.
Arguments Redeemer V {_}.

Section checkers.
Context `{CoreCodecs, Inherents}.

Abbreviation typed := DynamicallyTypedData.
Abbreviation TransactionPriority := u64.

(** [trait SimpleConstraintChecker].  A check runs on whatever serves its host
    calls. *)
Class SimpleConstraintChecker (C : Type) : Type := {
  simple_codec :: Codec C;
  SimpleError : Type;
  simple_check {St} `{!Store St} : C → list typed → list typed → list typed → list typed →
    M St SimpleError TransactionPriority;
}.
Arguments SimpleError C {_}.

(** [trait ConstraintChecker] *)
Class ConstraintChecker (C : Type) : Type := {
  checker_codec :: Codec C;
  Error : Type;
  check {St} `{!Store St} : C → list typed → list typed → list typed → list typed →
    M St Error TransactionPriority;
  is_inherent : C → bool;
  create_inherents {V} `{Verifier V} :
    InherentData → list (Transaction V C * H256) →
    M storage Empty_set (list (Transaction V C));
  check_inherents {V} `{Verifier V} :
    InherentData → list (Transaction V C) → CheckInherentsResult →
    partial CheckInherentsResult;
  genesis_transactions {V} `{Verifier V} : partial (list (Transaction V C));
}.

(** The stub [check_inherents] of the blanket implementation: it asserts
    that no inherent reaches it. *)
Definition stub_check_inherents {V C} (inherents : list (Transaction V C))
    (results : CheckInherentsResult) : partial CheckInherentsResult :=
  match inherents with
  | [] => Value results
  | _ :: _ => Panicked "inherent extrinsic was passed to check inherents stub implementation."
  end.

(** [impl<T: SimpleConstraintChecker> ConstraintChecker for T] *)
#[export] Instance simple_constraint_checker (C : Type) `{SimpleConstraintChecker C} :
    ConstraintChecker C := {|
  checker_codec := simple_codec;
  Error := SimpleError C;
  check St _ := simple_check;
  is_inherent := λ _, false;
  create_inherents := λ V _ _ _, mret [];
  check_inherents := λ V _ _ inherents results, stub_check_inherents inherents results;
  genesis_transactions := λ V _, Value [];
|}.

(** [trait InherentHooks: SimpleConstraintChecker] *)
Class InherentHooks (C : Type) `{SimpleConstraintChecker C} : Type := {
  INHERENT_IDENTIFIER : bytesN 8;
  create_inherent {V} `{Verifier V} :
    InherentData → Transaction V C * H256 → M storage Empty_set (Transaction V C);
  check_inherent {V} :
    InherentData → Transaction V C → CheckInherentsResult → partial CheckInherentsResult;
  hook_genesis_transactions {V} `{Verifier V} : partial (list (Transaction V C));
}.
End checkers.
Arguments SimpleError C {_}.
Arguments Error {_} C {_}.

(** [Extrinsic::new] *)
Definition transaction_new {V C} (data : Transaction V C) (_ : option unit) :
    option (Transaction V C) := Some data.

(** [Extrinsic::is_signed]: [Some false] for inherents, [None] otherwise. *)
Definition is_signed `{CoreCodecs, Inherents} {V C} `{!ConstraintChecker C}
    (tx : Transaction V C) : option bool :=
  if is_inherent (checker tx) then Some false else None.

(** ** The inherent adapter (inherents.rs) *)

Definition PARENT_INHERENT_IDENTIFIER : bytesN 8 := to_bytesN 8 (bstr "prnt_blk").
Definition ADAPTER_ERROR_IDENTIFIER : bytesN 8 := to_bytesN 8 (bstr "12345678").

(** [struct InherentAdapter<C>(C)] *)
Record InherentAdapter (C : Type) : Type := mk_adapter { adapted : C }.
Arguments mk_adapter {C} _.
Arguments adapted {C} _.

(** [wrap_transaction] and [unwrap_transaction] *)
Definition wrap_transaction {V C} (unwrapped : Transaction V C) :
    Transaction V (InherentAdapter C) :=
  mk_transaction (inputs unwrapped) (peeks unwrapped) (outputs unwrapped)
    (mk_adapter (checker unwrapped)).
Definition unwrap_transaction {V C} (wrapped : Transaction V (InherentAdapter C)) :
    Transaction V C :=
  mk_transaction (inputs wrapped) (peeks wrapped) (outputs wrapped)
    (adapted (checker wrapped)).

Section adapter.
Context `{CoreCodecs, Inherents} {C : Type} `{SimpleConstraintChecker C, !InherentHooks C}.
Context `{!Codec (InherentAdapter C)}.

Definition adapter_create_inherents {V} `{Verifier V} (authoring_inherent_data : InherentData)
    (previous_inherents : list (Transaction V (InherentAdapter C) * H256)) :
    M storage Empty_set (list (Transaction V (InherentAdapter C))) :=
  if bool_decide (1 < List.length previous_inherents)
  then panic "Authoring a leaf inherent constraint checker, but multiple previous inherents were supplied."
  else
    '(previous_inherent, hash) ← expect (head previous_inherents) "Previous inherent exists.";
    current_inherent ← create_inherent authoring_inherent_data
      (unwrap_transaction previous_inherent, hash);
    mret [wrap_transaction current_inherent].

Definition adapter_put_error (results : CheckInherentsResult) (message : string) :
    partial CheckInherentsResult :=
  partial_expect (put_error results ADAPTER_ERROR_IDENTIFIER
                    (scale_encode (bstr message)) true)
    "Should be able to put an error.".

Definition adapter_check_inherents {V} (importing_inherent_data : InherentData)
    (inherents : list (Transaction V (InherentAdapter C)))
    (results : CheckInherentsResult) : partial CheckInherentsResult :=
  match inherents with
  | [] => adapter_put_error results
            "Tuxedo inherent expected exactly one inherent extrinsic but found zero"
  | [inherent] => check_inherent importing_inherent_data (unwrap_transaction inherent) results
  | _ => adapter_put_error results
           "Tuxedo inherent expected exactly one inherent extrinsic but found multiple"
  end.

Definition adapter_genesis_transactions {V} `{Verifier V} :
    partial (list (Transaction V (InherentAdapter C))) :=
  gtxs ← hook_genesis_transactions (C := C) (V := V); mret (map wrap_transaction gtxs).

(** [impl ConstraintChecker for InherentAdapter<C>] *)
#[export] Instance inherent_adapter : ConstraintChecker (InherentAdapter C) := {|
  Error := SimpleError C;
  check St _ := λ self, simple_check (adapted self);
  is_inherent := λ _, true;
  create_inherents := λ V _, adapter_create_inherents;
  check_inherents := λ V _, adapter_check_inherents;
  genesis_transactions := λ V _, adapter_genesis_transactions;
|}.
End adapter.
