(* ===== verification/UtxoSet.v ===== *)
(** * UtxoSet: the transparent UTXO set in the runtime storage

    Models [tuxedo-core/src/utxo_set.rs] and relates the storage to the abstract
    ledger, a finite map from [OutputRef] to [Output]. *)

From S2P Require Import Prelude Effects Scale Types.

Section utxo_set.
Context `{CoreCodecs} {V : Type} `{Codec V} {St : Type} `{!Store St} {E : Type}.

(** [TransparentUtxoSet::peek_utxo] *)
Definition peek_utxo (output_ref : OutputRef) : M St E (option (Output V)) :=
  d ← storage_get (scale_encode output_ref);
  mret (d ≫= decode_value).

(** [TransparentUtxoSet::consume_utxo] *)
Definition consume_utxo (output_ref : OutputRef) : M St E (option (Output V)) :=
  maybe_output ← peek_utxo output_ref;
  storage_clear (scale_encode output_ref);;
  mret maybe_output.

(** [TransparentUtxoSet::store_utxo] *)
Definition store_utxo (output_ref : OutputRef) (output : Output V) : M St E unit :=
  storage_set (scale_encode output_ref) (scale_encode output).
End utxo_set.

(** ** The ledger a storage represents *)

(** What [peek_utxo] answers in the storage [s]. *)
Definition utxo_at `{CoreCodecs} {V} `{Codec V} (s : storage) (o : OutputRef) :
    option (Output V) :=
  s !! scale_encode o ≫= decode_value.

(** The abstract ledger, and when a storage represents it. *)
Abbreviation ledger V := (gmap OutputRef (Output V)).

Definition represents `{CoreCodecs} {V} `{Codec V} (s : storage) (L : ledger V) : Prop :=
  ∀ o, utxo_at s o = L !! o.

(** The ledger a storage represents: one entry for every key that is the
    encoding of a reference and holds an output. *)
Definition ledger_of `{CoreCodecs} {V} `{Codec V} (s : storage) : ledger V :=
  list_to_map (omap (λ kv : bytes * bytes,
    o ← decode_value (A := OutputRef) kv.1; out ← utxo_at s o; Some (o, out)) (map_to_list s)).

Section facts.
Context `{CoreLaws} {V : Type} `{Codec V}.
Implicit Types (s : storage) (o : OutputRef).

Lemma peek_utxo_run {E} s o :
  (peek_utxo o : M storage E (option (Output V))) s = Ret (utxo_at s o) s.
Proof. done. Qed.

Lemma consume_utxo_run {E} s o :
  (consume_utxo o : M storage E (option (Output V))) s =
  Ret (utxo_at s o) (delete (scale_encode o) s).
Proof. done. Qed.

(** The well-known keys are not encodings of output references. *)
Lemma output_ref_key_header o : scale_encode o ≠ HEADER_KEY.
Proof. intros E. apply (f_equal List.length) in E. by rewrite output_ref_size in E. Qed.
Lemma output_ref_key_height o : scale_encode o ≠ HEIGHT_KEY.
Proof. intros E. apply (f_equal List.length) in E. by rewrite output_ref_size in E. Qed.
Lemma output_ref_key_extrinsic o : scale_encode o ≠ EXTRINSIC_KEY.
Proof. intros E. apply (f_equal List.length) in E. by rewrite output_ref_size in E. Qed.

Lemma utxo_at_delete s o o' :
  utxo_at (V := V) (delete (scale_encode o) s) o' =
  if decide (o = o') then None else utxo_at s o'.
Proof.
  unfold utxo_at. case_decide as Ho.
  - subst. by rewrite lookup_delete_eq.
  - rewrite lookup_delete_ne; [done|]. by intros ?%(inj scale_encode).
Qed.

Lemma utxo_at_insert `{!LawfulCodec V} s o o' (out : Output V) :
  utxo_at (<[scale_encode o := scale_encode out]> s) o' =
  if decide (o = o') then Some out else utxo_at s o'.
Proof.
  unfold utxo_at. case_decide as Ho.
  - subst. rewrite lookup_insert_eq. simpl. apply decode_value_encode.
  - rewrite lookup_insert_ne; [done|]. by intros ?%(inj scale_encode).
Qed.

Lemma represents_delete s (L : ledger V) o :
  represents s L → represents (delete (scale_encode o) s) (delete o L).
Proof.
  intros HL o'. rewrite utxo_at_delete, lookup_delete. case_decide; [done|apply HL].
Qed.

Lemma represents_insert `{!LawfulCodec V} s (L : ledger V) o (out : Output V) :
  represents s L → represents (<[scale_encode o := scale_encode out]> s) (<[o := out]> L).
Proof.
  intros HL o'. rewrite utxo_at_insert, lookup_insert. case_decide; [done|apply HL].
Qed.

Lemma represents_ledger_of s : represents s (ledger_of (V := V) s).
Proof.
  intros o. unfold ledger_of. set (l := omap _ _).
  assert (∀ o out, (o, out) ∈ l ↔ utxo_at (V := V) s o = Some out) as Hl.
  { intros o1 out. unfold l. rewrite list_elem_of_omap. split.
    - intros ([k v] & _ & Hk). cbn [fst] in Hk.
      destruct (decode_value k) as [o'|]; [|done]. cbn in Hk.
      destruct (utxo_at s o') eqn:Ho; [|done]. cbn in Hk. by simplify_eq.
    - intros Ho. pose proof Ho as Hu. unfold utxo_at in Hu.
      destruct (s !! scale_encode o1) as [v|] eqn:Hv; [|done].
      exists (scale_encode o1, v). split; [by apply elem_of_map_to_list|].
      cbn [fst]. rewrite decode_value_encode. cbn. by rewrite Ho. }
  destruct (utxo_at s o) as [out|] eqn:Ho.
  - symmetry. apply elem_of_list_to_map_1'; [|by apply Hl].
    intros out' Ho'%Hl. by simplify_eq.
  - symmetry. apply not_elem_of_list_to_map_1. intros ([o' out] & -> & Hx%Hl)%list_elem_of_fmap.
    cbn in Ho. by rewrite Ho in Hx.
Qed.

Lemma represents_unique s (L : ledger V) : represents s L ↔ L = ledger_of s.
Proof.
  split; [|intros ->; apply represents_ledger_of]. intros HL. apply map_eq. intros o.
  by rewrite <-HL, <-(represents_ledger_of s).
Qed.
End facts.
