(* ===== verification/CheckerLaws.v ===== *)
(** * CheckerLaws: what the executive needs from a constraint checker

    A constraint checker may read and write the storage (the runtime-upgrade and
    parachain pieces do).  The executive is correct for the checkers that stay
    out of its own keys: [CheckerFrame] says a check leaves them alone,
    [CheckerTransient] that it does not look at the transient ones.  Every
    checker of the wardrobe is shown to satisfy both in its own file. *)

From S2P Require Import Prelude Effects Scale Types Checker UtxoSet.

(** ** The executive's keys *)

Definition protected_key `{CoreCodecs} (k : bytes) : Prop :=
  k = HEADER_KEY ∨ k = HEIGHT_KEY ∨ k = EXTRINSIC_KEY ∨ ∃ o : OutputRef, k = scale_encode o.

Definition same_protected `{CoreCodecs} (s s' : storage) : Prop :=
  ∀ k, protected_key k → s' !! k = s !! k.

#[export] Instance same_protected_preorder `{CoreCodecs} : PreOrder same_protected.
Proof. split; [done|]. intros s1 s2 s3 H12 H23 k Hk. by rewrite H23, H12. Qed.

(** Storages that agree outside the transient keys, which are cleared before
    the end of every block. *)
Definition transient_equiv (s1 s2 : storage) : Prop :=
  ∀ k, k ≠ HEADER_KEY → k ≠ EXTRINSIC_KEY → s1 !! k = s2 !! k.

#[export] Instance transient_equiv_equiv : Equivalence transient_equiv.
Proof.
  split; [done| |].
  - intros s1 s2 Hs k ? ?. by rewrite Hs.
  - intros s1 s2 s3 H12 H23 k ? ?. by rewrite H12, H23.
Qed.

#[export] Instance insert_transient k v : Proper (transient_equiv ==> transient_equiv) <[k := v]>.
Proof.
  intros s1 s2 Hs k' ? ?. destruct (decide (k = k')) as [->|].
  - by rewrite !lookup_insert_eq.
  - rewrite !lookup_insert_ne by done. by apply Hs.
Qed.

#[export] Instance delete_transient k : Proper (transient_equiv ==> transient_equiv) (delete k).
Proof.
  intros s1 s2 Hs k' ? ?. destruct (decide (k = k')) as [->|].
  - by rewrite !lookup_delete_eq.
  - rewrite !lookup_delete_ne by done. by apply Hs.
Qed.

Lemma transient_insert k v s :
  k = HEADER_KEY ∨ k = EXTRINSIC_KEY → transient_equiv (<[k := v]> s) s.
Proof. intros Hk k' ? ?. rewrite lookup_insert_ne; [done|]. naive_solver. Qed.

Lemma transient_delete k s :
  k = HEADER_KEY ∨ k = EXTRINSIC_KEY → transient_equiv (delete k s) s.
Proof. intros Hk k' ? ?. rewrite lookup_delete_ne; [done|]. naive_solver. Qed.

(** Reading or writing a key that is not transient respects the equivalence. *)
Lemma respects_storage_get {E} k :
  k ≠ HEADER_KEY → k ≠ EXTRINSIC_KEY →
  respects transient_equiv (storage_get k : M storage E (option bytes)).
Proof. intros ? ?. apply respects_gets. intros s1 s2 Hs. by apply Hs. Qed.

Lemma respects_storage_set {E} k v :
  respects transient_equiv (storage_set k v : M storage E unit).
Proof. apply respects_modify, _. Qed.

Lemma respects_storage_clear {E} k :
  respects transient_equiv (storage_clear k : M storage E unit).
Proof. apply respects_modify, _. Qed.

Lemma leaves_storage_get (P : storage → storage → Prop) `{!PreOrder P} {E} k :
  leaves P (storage_get k : M storage E (option bytes)).
Proof. apply leaves_gets, _. Qed.

Lemma leaves_storage_set `{CoreCodecs} {E} k v :
  ¬ protected_key k → leaves same_protected (storage_set k v : M storage E unit).
Proof.
  intros Hk s k' Hk'. apply lookup_insert_ne. by intros ->.
Qed.

#[export] Hint Resolve respects_storage_set respects_storage_clear leaves_storage_get
  leaves_storage_set respects_storage_get : effects.

(** ** The interfaces *)

Section interface.
Context `{CoreCodecs, Inherents} (C : Type) `{!ConstraintChecker C}.

Class CheckerFrame : Prop :=
  check_frame (c : C) inputs evictions peeks outputs :
    leaves same_protected (check c inputs evictions peeks outputs).

Class CheckerTransient : Prop :=
  check_transient (c : C) inputs evictions peeks outputs ::
    respects transient_equiv (check c inputs evictions peeks outputs).
End interface.

(** A checker whose verdict is a function of its arguments satisfies both. *)
Class PureChecker (C : Type) `{SimpleConstraintChecker C} : Type := {
  verdict : C → list DynamicallyTypedData → list DynamicallyTypedData →
    list DynamicallyTypedData → list DynamicallyTypedData → result (SimpleError C) u64;
  simple_check_verdict {St} `{!Store St} c i e p o :
    simple_check (St := St) c i e p o = lift_result (verdict c i e p o);
}.

Section pure.
Context `{CoreCodecs, Inherents} {C : Type} `{SimpleConstraintChecker C, !PureChecker C}.

#[export] Instance pure_checker_frame : CheckerFrame C.
Proof.
  intros c i e p o. cbn [check simple_constraint_checker].
  rewrite simple_check_verdict. apply leaves_lift, _.
Qed.

#[export] Instance pure_checker_transient : CheckerTransient C.
Proof.
  intros c i e p o. cbn [check simple_constraint_checker].
  rewrite simple_check_verdict. apply respects_lift.
Qed.
End pure.
