(* ===== verification/Executive.v ===== *)
(** * Executive: transaction validation and block execution

    Models [tuxedo-core/src/executive.rs]: one definition per method of
    [Executive], composed the way the code composes them.  The theorems are in
    [ExecutiveFacts] and [Blocks]. *)

From S2P Require Import Prelude Effects Scale Types Checker UtxoSet.

(** [sp_runtime]'s [ValidTransaction] *)
Record ValidTransaction : Type := mk_valid {
  requires : list bytes;
  provides : list bytes;
  priority : u64;
  longevity : u64;
  propagate : bool;
}.

(** [sp_runtime]'s [ExtrinsicInclusionMode] *)
Inductive ExtrinsicInclusionMode := AllExtrinsics | OnlyInherents.

(** The locals of the loop over the inputs: [input_data], [evicted_input_data]
    and [missing_inputs]. *)
Record gathered : Type := mk_gathered {
  input_data : list DynamicallyTypedData;
  evicted_input_data : list DynamicallyTypedData;
  missing_inputs : list bytes;
}.

Section executive.
Context `{CoreCodecs, Inherents} {V C : Type} `{Verifier V, !ConstraintChecker C}.
Context {St : Type} `{!Store St, !RootStore St}.

Abbreviation Tx := (Transaction V C).
Abbreviation E := (UtxoError (Error C)).

(** [Executive::block_height] *)
Definition block_height {E} : M St E u32 :=
  d ← storage_get HEIGHT_KEY;
  expect (d ≫= decode_value)
    "A height is stored at the beginning of block one and never cleared.".

(** The transaction with its redeemers stripped, as the verifiers see it. *)
Definition strip (transaction : Tx) : Tx :=
  mk_transaction
    (map (λ input, mk_input (output_ref input) default_redemption) (inputs transaction))
    (peeks transaction) (outputs transaction) (checker transaction).

(** The hash of the encoded transaction, and the references of its outputs. *)
Definition tx_id (transaction : Tx) : H256 :=
  hash_of (A := bytes) (scale_encode transaction).
Definition out_ref (transaction : Tx) (i : nat) : OutputRef :=
  mk_output_ref (tx_id transaction) (trunc 32 (N.of_nat i)).

(** The duplicate check compares the encoded inputs, redeemers included. *)
Definition input_set (transaction : Tx) : gset bytes :=
  list_to_set (map scale_encode (inputs transaction)).

(** One turn of the loop over the inputs. *)
Definition check_input (stripped_encoded : bytes) (acc : gathered) (input : Input) :
    M St E gathered :=
  maybe_utxo ← peek_utxo (V := V) (output_ref input);
  match maybe_utxo with
  | Some input_utxo =>
    match redeemer input with
    | Redemption redeemer =>
      redeemer ← lift_result (ok_or (decode_value (A := Redeemer V) redeemer) VerifierError);
      height ← block_height;
      verified ← lift_partial (verify (verifier input_utxo) stripped_encoded height redeemer);
      ensure! verified else VerifierError;
      mret (mk_gathered (input_data acc ++ [payload input_utxo])
              (evicted_input_data acc) (missing_inputs acc))
    | Eviction =>
      mret (mk_gathered (input_data acc)
              (evicted_input_data acc ++ [payload input_utxo]) (missing_inputs acc))
    end
  | None =>
    mret (mk_gathered (input_data acc) (evicted_input_data acc)
            (missing_inputs acc ++ [scale_encode (output_ref input)]))
  end.

(** One turn of the loop over the peeks; the missing ones join the missing
    inputs. *)
Definition check_peek (acc : list DynamicallyTypedData * list bytes) (peek : OutputRef) :
    M St E (list DynamicallyTypedData * list bytes) :=
  let '(peek_data, missing_inputs) := acc in
  maybe_utxo ← peek_utxo (V := V) peek;
  match maybe_utxo with
  | Some peek_utxo => mret (peek_data ++ [payload peek_utxo], missing_inputs)
  | None => mret (peek_data, missing_inputs ++ [scale_encode peek])
  end.

(** One turn of the loop that makes sure no output already exists. *)
Definition check_output (transaction : Tx) (_ : unit) (index : nat) : M St E unit :=
  maybe_utxo ← peek_utxo (V := V) (out_ref transaction index);
  ensure! bool_decide (maybe_utxo = None) else PreExistingOutput;
  mret tt.

(** [Executive::validate_tuxedo_transaction] *)
Definition validate_tuxedo_transaction (transaction : Tx) : M St E ValidTransaction :=
  ensure! bool_decide (size (input_set transaction) = List.length (inputs transaction))
    else DuplicateInput;
  let stripped_encoded := scale_encode (strip transaction) in
  acc ← for_each (inputs transaction) (check_input stripped_encoded) (mk_gathered [] [] []);
  '(peek_data, missing_inputs) ←
    for_each (peeks transaction) check_peek ([], missing_inputs acc);
  for_each (seq 0 (List.length (outputs transaction))) (check_output transaction) tt;;
  let provides := map (λ i, scale_encode (out_ref transaction i))
                      (seq 0 (List.length (outputs transaction))) in
  if bool_decide (missing_inputs ≠ [])
  then mret (mk_valid missing_inputs provides (trunc 64 0) (uint_max 64) true)
  else
    let output_data := map payload (outputs transaction) in
    catch_err ConstraintCheckerError
      (check (checker transaction) (input_data acc) (evicted_input_data acc)
         peek_data output_data);;
    mret (mk_valid [] provides (trunc 64 0) (uint_max 64) true).

(** [Executive::update_storage] *)
Definition update_storage {E} (transaction : Tx) : M St E unit :=
  for_each (inputs transaction)
    (λ _ input, consume_utxo (V := V) (output_ref input);; mret tt) tt;;
  for_each (enumerate (outputs transaction))
    (λ _ '(index, output), store_utxo (out_ref transaction index) output) tt.

(** [Executive::apply_tuxedo_transaction] *)
Definition apply_tuxedo_transaction (transaction : Tx) : M St E unit :=
  valid_transaction ← validate_tuxedo_transaction transaction;
  ensure! bool_decide (requires valid_transaction = []) else MissingInput;
  update_storage transaction.

(** [Executive::open_block] *)
Definition open_block {E} (header : Header) : M St E ExtrinsicInclusionMode :=
  storage_set HEADER_KEY (scale_encode header);;
  storage_set HEIGHT_KEY (scale_encode (number header));;
  mret AllExtrinsics.

(** The extrinsics noted so far in the block under construction. *)
Definition noted_extrinsics {E} : M St E (list bytes) :=
  d ← storage_get EXTRINSIC_KEY;
  mret (default [] (d ≫= decode_value)).

(** [Executive::apply_extrinsic]: [Ok(Ok(()))], or [TransactionValidityError::Invalid]. *)
Definition apply_extrinsic (extrinsic : Tx) : M St InvalidTransaction unit :=
  extrinsics ← noted_extrinsics;
  storage_set EXTRINSIC_KEY (scale_encode (extrinsics ++ [scale_encode extrinsic]));;
  catch_err into_invalid (apply_tuxedo_transaction extrinsic).

(** The state root of the current storage, decoded as a hash. *)
Definition current_state_root {E} : M St E H256 :=
  raw_state_root ← host_root V1;
  expect (decode_value raw_state_root) "called `Result::unwrap()` on an `Err` value".

(** [Executive::close_block] *)
Definition close_block {E} : M St E Header :=
  d ← storage_get HEADER_KEY;
  header ← expect (d ≫= decode_value (A := Header))
    "We initialized with header, it never got mutated, qed";
  storage_clear HEADER_KEY;;
  extrinsics ← noted_extrinsics;
  let extrinsics_root := ordered_trie_root extrinsics V0 in
  storage_clear EXTRINSIC_KEY;;
  let header := set_extrinsics_root extrinsics_root header in
  state_root ← current_state_root;
  mret (set_state_root state_root header).

(** One turn of the loop of [execute_block]; the accumulator is the flag
    [finished_with_opening_inherents]. *)
Definition execute_extrinsic (finished_with_opening_inherents : bool) (extrinsic : Tx) :
    M St Empty_set bool :=
  let current_tx_is_inherent := is_inherent (checker extrinsic) in
  if current_tx_is_inherent && finished_with_opening_inherents
  then panic "Tried to execute opening inherent after switching to non-inherents."
  else
    let finished_with_opening_inherents :=
      if negb current_tx_is_inherent && negb finished_with_opening_inherents
      then true else finished_with_opening_inherents in
    or_panic (apply_tuxedo_transaction extrinsic) utxo_error_debug;;
    mret finished_with_opening_inherents.

(** [Executive::execute_block] *)
Definition execute_block (block : Block V C) : M St Empty_set unit :=
  storage_set HEADER_KEY (scale_encode (header block));;
  storage_set HEIGHT_KEY (scale_encode (number (header block)));;
  for_each (extrinsics block) execute_extrinsic false;;
  storage_clear HEADER_KEY;;
  root ← current_state_root;
  if bool_decide (state_root (header block) ≠ root) then panic "state root mismatch" else
  let extrinsics_root' :=
    ordered_trie_root (map scale_encode (extrinsics block)) V0 in
  if bool_decide (extrinsics_root (header block) ≠ extrinsics_root')
  then panic "extrinsics root mismatch" else mret tt.

(** [Executive::validate_transaction], the pool api; the source and the block
    hash it receives are only logged. *)
Definition validate_transaction (tx : Tx) : M St InvalidTransaction ValidTransaction :=
  if is_inherent (checker tx) then mthrow Call
  else catch_err into_invalid (validate_tuxedo_transaction tx).

(** The inherents at the beginning of a block. *)
Definition opening_inherents (extrinsics : list Tx) : list Tx :=
  take_while (λ tx, is_inherent (checker tx)) extrinsics.

(** [Executive::inherent_extrinsics] *)
Definition inherent_extrinsics (data : InherentData) : M storage Empty_set (list Tx) :=
  d ← expect (get_data (A := Block V C) data PARENT_INHERENT_IDENTIFIER)
    "Parent block inherent data should be able to decode.";
  parent ← expect d "Parent block should be present among authoring inherent data.";
  let previous_blocks_inherents :=
    map (λ tx, (tx, tx_id tx)) (opening_inherents (extrinsics parent)) in
  create_inherents data previous_blocks_inherents.

(** [Executive::check_inherents] *)
Definition executive_check_inherents (block : Block V C) (data : InherentData) :
    partial CheckInherentsResult :=
  check_inherents data (opening_inherents (extrinsics block)) check_inherents_new.
End executive.
