(* ===== verification/Simulation.v ===== *)
(** * Simulation: one runtime, several stores

    The runtime's code is written against the host functions of [Scale.Store], and runs
    on whatever serves them.  A [Simulation] is a relation between calls on two stores
    that the host functions satisfy and sequencing preserves; every call the runtime
    makes is then related to itself.  [UniformChecker] is what this needs of a constraint
    checker: that it, too, uses the storage through the host functions only.

    The file has one further store, a storage with the set of the keys that a run has
    touched, and its simulation by the plain storage.  The externalities of a validator
    are in [HostFunctions]. *)

From S2P Require Import Prelude Effects Scale Types Checker UtxoSet CheckerLaws Executive.

(** ** Simulations *)

Class Simulation {S1 S2 : Type} `{!Store S1, !Store S2}
    (sim : ∀ E A, M S1 E A → M S2 E A → Prop) : Prop := {
  sim_ret E A (a : A) : sim E A (mret a) (mret a);
  sim_throw E A (e : E) : sim E A (mthrow e) (mthrow e);
  sim_panic E A w : sim E A (panic w) (panic w);
  sim_bind E A B m1 m2 k1 k2 :
    sim E A m1 m2 → (∀ a, sim E B (k1 a) (k2 a)) → sim E B (bind m1 k1) (bind m2 k2);
  sim_catch E F A (f : F → E) m1 m2 :
    sim F A m1 m2 → sim E A (catch_err f m1) (catch_err f m2);
  sim_or_panic E F A (w : F → string) m1 m2 :
    sim F A m1 m2 → sim E A (or_panic m1 w) (or_panic m2 w);
  sim_get E k : sim E _ (storage_get k) (storage_get k);
  sim_set E k v : sim E _ (storage_set k v) (storage_set k v);
  sim_clear E k : sim E _ (storage_clear k) (storage_clear k);
}.

(** The storage root may be exempt, as where part of the state is unknown. *)
Class RootSimulation {S1 S2 : Type} `{!Store S1, !Store S2, !RootStore S1, !RootStore S2}
    (sim : ∀ E A, M S1 E A → M S2 E A → Prop) : Prop := {
  root_simulation :: Simulation sim;
  sim_root E version : sim E _ (host_root version) (host_root version);
}.

Section derived.
Context {S1 S2 : Type} `{!Store S1, !Store S2}.
Context (sim : ∀ E A, M S1 E A → M S2 E A → Prop) `{!Simulation sim}.

Lemma sim_lift E A (r : result E A) : sim E A (lift_result r) (lift_result r).
Proof. destruct r; [apply sim_ret|apply sim_throw]. Qed.
Lemma sim_expect E A (o : option A) w : sim E A (expect o w) (expect o w).
Proof. destruct o; [apply sim_ret|apply sim_panic]. Qed.
Lemma sim_partial E A (p : partial A) : sim E A (lift_partial p) (lift_partial p).
Proof. destruct p; [apply sim_ret|apply sim_panic]. Qed.
Lemma sim_for_each E X A (xs : list X) body1 body2 acc :
  (∀ acc x, sim E A (body1 acc x) (body2 acc x)) →
  sim E A (for_each xs body1 acc) (for_each xs body2 acc).
Proof.
  intros Hb. revert acc. induction xs as [|x xs IH]; intros acc; [apply sim_ret|].
  apply sim_bind; [apply Hb|apply IH].
Qed.
End derived.

(** Follow the structure of a call down to the host functions; [sim_leaf] is extended
    with the calls that are known to be related. *)
Ltac sim_leaf := fail.
Ltac solve_sim :=
  repeat first
    [ progress intros
    | apply sim_ret | apply sim_throw | apply sim_panic | apply sim_get | apply sim_set
    | apply sim_clear | apply sim_lift; exact _ | apply sim_expect; exact _
    | apply sim_partial; exact _ | apply sim_root | solve [auto 1 with nocore] | sim_leaf
    | apply sim_bind | apply sim_for_each; [exact _|] | apply sim_catch | apply sim_or_panic
    | case_match ].

(** ** Checkers *)

Section interface.
Context `{CoreCodecs, Inherents} (C : Type) `{!ConstraintChecker C}.

Class UniformChecker : Prop :=
  check_uniform : ∀ {S1 S2 : Type} `{!Store S1, !Store S2}
    (sim : ∀ E A, M S1 E A → M S2 E A → Prop) `{!Simulation sim} (c : C) i e p o,
    sim (Error C) _ (check c i e p o) (check c i e p o).
End interface.

Ltac sim_leaf ::= apply check_uniform; exact _.

#[export] Instance pure_checker_uniform `{CoreCodecs, Inherents} {C : Type}
    `{SimpleConstraintChecker C, !PureChecker C} : UniformChecker C.
Proof.
  intros S1 S2 ? ? sim ? c i e p o. cbn [check simple_constraint_checker].
  rewrite !simple_check_verdict. by apply sim_lift.
Qed.

(** ** The executive *)

Section executive.
Context `{CoreCodecs, Inherents} {V C : Type} `{Verifier V, !ConstraintChecker C}.
Context `{!UniformChecker C} {S1 S2 : Type} `{!Store S1, !Store S2}.
Context (sim : ∀ E A, M S1 E A → M S2 E A → Prop) `{!Simulation sim}.
Implicit Types (tx : Transaction V C) (b : Block V C).

Lemma block_height_sim E : sim E _ block_height block_height.
Proof. unfold block_height. solve_sim. Qed.
Lemma peek_utxo_sim E o :
  sim E _ (peek_utxo (V := V) o) (peek_utxo (V := V) o).
Proof. unfold peek_utxo. solve_sim. Qed.

Lemma validate_sim tx : sim _ _ (validate_tuxedo_transaction tx) (validate_tuxedo_transaction tx).
Proof.
  unfold validate_tuxedo_transaction, check_input, check_peek, check_output.
  pose proof block_height_sim. pose proof peek_utxo_sim. solve_sim.
Qed.

Lemma apply_sim tx : sim _ _ (apply_tuxedo_transaction tx) (apply_tuxedo_transaction tx).
Proof.
  pose proof (validate_sim tx). unfold apply_tuxedo_transaction, update_storage, consume_utxo, store_utxo.
  solve_sim.
Qed.

Lemma extrinsic_sim finished tx :
  sim _ _ (execute_extrinsic finished tx) (execute_extrinsic finished tx).
Proof. pose proof apply_sim. unfold execute_extrinsic. solve_sim. Qed.

(** The part of [execute_block] before the state root is computed. *)
Definition execute_extrinsics {St} `{!Store St} b : M St Empty_set unit :=
  storage_set HEADER_KEY (scale_encode (header b));;
  storage_set HEIGHT_KEY (scale_encode (number (header b)));;
  for_each (extrinsics b) execute_extrinsic false;;
  storage_clear HEADER_KEY.

(** The comparisons that follow. *)
Definition check_roots {St} `{!Store St, !RootStore St} b : M St Empty_set unit :=
  root ← current_state_root;
  if bool_decide (state_root (header b) ≠ root) then panic "state root mismatch" else
  if bool_decide (extrinsics_root (header b) ≠ ordered_trie_root (map scale_encode (extrinsics b)) V0)
  then panic "extrinsics root mismatch" else mret tt.

Lemma execute_block_parts {St} `{!Store St, !RootStore St} b (s : St) :
  execute_block b s = (execute_extrinsics b;; check_roots b) s.
Proof.
  unfold execute_block, execute_extrinsics, check_roots. rewrite !bind_run.
  destruct (storage_set HEADER_KEY _ s) as [? s1|[]|]; [|done]. rewrite !bind_run.
  destruct (storage_set HEIGHT_KEY _ s1) as [? s2|[]|]; [|done]. rewrite !bind_run.
  destruct (for_each _ _ _ s2) as [? s3|[]|]; [|done]. rewrite !bind_run.
  by destruct (storage_clear HEADER_KEY s3) as [? s4|[]|].
Qed.

Lemma execute_extrinsics_sim b : sim _ _ (execute_extrinsics b) (execute_extrinsics b).
Proof. pose proof extrinsic_sim. unfold execute_extrinsics. solve_sim. Qed.

Lemma execute_block_sim `{!RootStore S1, !RootStore S2, !RootSimulation sim} b :
  sim _ _ (execute_block b) (execute_block b).
Proof.
  pose proof extrinsic_sim. unfold execute_block, current_state_root. solve_sim.
Qed.
End executive.

(** ** Recording what a run touches *)

Record recording : Type := mk_recording {
  recorded_storage : storage;
  recorded_keys : gset bytes;
}.

Definition recorded {E A} (k : bytes) (m : M storage E A) : M recording E A := λ r,
  match m (recorded_storage r) with
  | Ret a s => Ret a (mk_recording s ({[k]} ∪ recorded_keys r))
  | Throw e s => Throw e (mk_recording s ({[k]} ∪ recorded_keys r))
  | Panic w => Panic w
  end.

#[export] Instance recording_store : Store recording := {|
  storage_get E k := recorded k (storage_get k);
  storage_set E k v := recorded k (storage_set k v);
  storage_clear E k := recorded k (storage_clear k) |}.
#[export] Instance recording_root_store `{Host} : RootStore recording := {|
  host_root E version := λ r, Ret (storage_root version (recorded_storage r)) r |}.

(** The keys that a run from the storage [s] touches, when it returns. *)
Definition touched {E A} (m : M recording E A) (s : storage) : gset bytes :=
  match m (mk_recording s ∅) with
  | Ret _ r | Throw _ r => recorded_keys r
  | Panic _ => ∅
  end.

(** A recording run is the run, and something recorded. *)
Definition erases E A (m1 : M recording E A) (m2 : M storage E A) : Prop := ∀ r,
  match m1 r, m2 (recorded_storage r) with
  | Ret a r', Ret b s' => a = b ∧ recorded_storage r' = s'
  | Throw e r', Throw e' s' => e = e' ∧ recorded_storage r' = s'
  | Panic w, Panic w' => w = w'
  | _, _ => False
  end.

#[export] Instance erases_simulation : Simulation erases.
Proof.
  split; try (by intros ** r).
  - intros E A B m1 m2 k1 k2 Hm Hk r. specialize (Hm r). rewrite !bind_run.
    destruct (m1 r), (m2 (recorded_storage r)); try done. destruct Hm as [-> <-]. apply Hk.
  - intros E F A f m1 m2 Hm r. specialize (Hm r). unfold catch_err.
    destruct (m1 r), (m2 (recorded_storage r)); naive_solver.
  - intros E F A w m1 m2 Hm r. specialize (Hm r). unfold or_panic.
    destruct (m1 r), (m2 (recorded_storage r)); naive_solver.
Qed.

#[export] Instance erases_root `{Host} : RootSimulation erases.
Proof. split; [apply _|]. by intros E version r. Qed.

Lemma erases_ret E A (m1 : M recording E A) m2 s a s' :
  erases E A m1 m2 → m2 s = Ret a s' → m1 (mk_recording s ∅) = Ret a (mk_recording s' (touched m1 s)).
Proof.
  intros Hm Hs. specialize (Hm (mk_recording s ∅)). cbn [recorded_storage] in Hm. rewrite Hs in Hm.
  unfold touched. destruct (m1 _) as [b [t K]| |]; [|done..]. by destruct Hm as [-> <-].
Qed.
