(* ===== verification/Concrete.v ===== *)
(** * Concrete: an instance of the parameters

    A concrete codec for every type and a concrete host, with proofs of the
    laws.  Nothing of the model depends on this file: the witnesses use it to
    evaluate the model on concrete inputs and to show that the laws the theorems
    assume can hold together.  The codecs are simple self-delimiting formats. *)

From S2P Require Import Prelude Effects Scale Types Checker.
From Stdlib Require Import Strings.Byte.

(** ** Codec combinators *)

Definition nil_codec {A} (a : A) : Codec A :=
  {| scale_encode := λ _, []; scale_decode := λ b, Some (a, b) |}.

Definition iso_codec {A B} `{Codec B} (to : A → B) (from : B → A) : Codec A := {|
  scale_encode a := scale_encode (to a);
  scale_decode b := match scale_decode b with Some (x, r) => Some (from x, r) | None => None end
|}.

Definition pair_codec {A B} `{Codec A, Codec B} : Codec (A * B) := {|
  scale_encode p := scale_encode p.1 ++ scale_encode p.2;
  scale_decode b :=
    match scale_decode b with
    | Some (a, r) =>
      match scale_decode r with Some (c, r) => Some ((a, c), r) | None => None end
    | None => None
    end
|}.

Definition sum_codec {A B} `{Codec A, Codec B} : Codec (A + B) := {|
  scale_encode x :=
    match x with inl a => x00 :: scale_encode a | inr b => x01 :: scale_encode b end;
  scale_decode b :=
    match b with
    | x00 :: r =>
      match scale_decode r with Some (a, r) => Some (inl a, r) | None => None end
    | x01 :: r =>
      match scale_decode r with Some (a, r) => Some (inr a, r) | None => None end
    | _ => None
    end
|}.

Section list_codec.
Context {A : Type} `{Codec A}.

Fixpoint list_enc (l : list A) : bytes :=
  match l with [] => [x00] | a :: l => x01 :: scale_encode a ++ list_enc l end.

(** The fuel is the number of bytes left, one per list cell at least. *)
Fixpoint list_dec (fuel : nat) (b : bytes) : option (list A * bytes) :=
  match fuel, b with
  | _, x00 :: r => Some ([], r)
  | S fuel, x01 :: r =>
    match scale_decode r with
    | Some (a, r) =>
      match list_dec fuel r with Some (l, r) => Some (a :: l, r) | None => None end
    | None => None
    end
  | _, _ => None
  end.

Definition list_codec : Codec (list A) :=
  {| scale_encode := list_enc; scale_decode b := list_dec (List.length b) b |}.

Lemma list_dec_enc `{!LawfulCodec A} l rest fuel :
  List.length l ≤ fuel → list_dec fuel (list_enc l ++ rest) = Some (l, rest).
Proof.
  revert fuel. induction l as [|a l IH]; intros [|fuel] Hf; simpl in *; try done; try lia.
  rewrite <-app_assoc, scale_roundtrip, IH; [done|lia].
Qed.

Lemma list_enc_length l : List.length l < List.length (list_enc l).
Proof.
  induction l as [|a l IH]; simpl; [lia|]. rewrite length_app. lia.
Qed.
End list_codec.

(** Little-endian integers. *)
Fixpoint le_bytes (k : nat) (n : N) : bytes :=
  match k with O => [] | S k => byte_of (n `mod` 256) :: le_bytes k (n `div` 256) end.

Fixpoint of_le (b : bytes) : N :=
  match b with [] => 0 | x :: b => Byte.to_N x + 256 * of_le b end.

Lemma le_bytes_length k n : List.length (le_bytes k n) = k.
Proof. revert n. induction k; intros n; simpl; auto. Qed.

Lemma of_le_bytes k n : of_le (le_bytes k n) = (n `mod` 256 ^ N.of_nat k)%N.
Proof.
  revert n. induction k as [|k IH]; intros n; cbn [le_bytes of_le].
  - by rewrite N.mod_1_r.
  - rewrite IH, byte_of_N by (apply N.mod_lt; lia).
    rewrite Nat2N.inj_succ, N.pow_succ_r', N.Div0.mod_mul_r. lia.
Qed.

Definition uint_codec (w : N) (k : nat) : Codec (uint w) := {|
  scale_encode x := le_bytes k (uval x);
  scale_decode b :=
    if Nat.leb k (List.length b) then Some (trunc w (of_le (take k b)), drop k b) else None
|}.

Definition array_codec (n : nat) : Codec (bytesN n) := {|
  scale_encode := bytesN_val;
  scale_decode b :=
    if Nat.leb n (List.length b) then Some (to_bytesN n (take n b), drop n b) else None
|}.

(** ** Their laws *)

Lemma nil_lawful {A} (a : A) : (∀ x, x = a) → @LawfulCodec A (nil_codec a).
Proof. intros Ha x rest. simpl. by rewrite (Ha x). Qed.

Lemma iso_lawful {A B} `{LawfulCodec B} (to : A → B) (from : B → A) :
  (∀ a, from (to a) = a) → @LawfulCodec A (iso_codec to from).
Proof. intros Hi a rest. simpl. by rewrite scale_roundtrip, Hi. Qed.

Lemma pair_lawful {A B} `{LawfulCodec A} `{LawfulCodec B} : @LawfulCodec (A * B) pair_codec.
Proof. intros [a b] rest. simpl. by rewrite <-app_assoc, !scale_roundtrip. Qed.

Lemma sum_lawful {A B} `{LawfulCodec A} `{LawfulCodec B} : @LawfulCodec (A + B) sum_codec.
Proof. intros [a|b] rest; simpl; by rewrite scale_roundtrip. Qed.

Lemma list_lawful {A} `{LawfulCodec A} : @LawfulCodec (list A) list_codec.
Proof.
  intros l rest. simpl. apply list_dec_enc. rewrite length_app.
  pose proof (list_enc_length l). lia.
Qed.

Lemma uint_lawful w k : w = (8 * N.of_nat k)%N → @LawfulCodec (uint w) (uint_codec w k).
Proof.
  intros -> x rest. simpl. rewrite length_app, le_bytes_length.
  replace (Nat.leb k (k + List.length rest)) with true by (symmetry; apply Nat.leb_le; lia).
  rewrite take_app_le, drop_app_ge by (rewrite le_bytes_length; lia).
  rewrite le_bytes_length, Nat.sub_diag, drop_0, take_ge by (rewrite le_bytes_length; lia).
  rewrite of_le_bytes. do 2 f_equal.
  replace (256 ^ N.of_nat k)%N with (2 ^ (8 * N.of_nat k))%N by (by rewrite N.pow_mul_r).
  rewrite N.mod_small by apply uval_lt. apply trunc_uval.
Qed.

Lemma array_lawful n : @LawfulCodec (bytesN n) (array_codec n).
Proof.
  intros x rest. simpl. rewrite length_app, bytesN_length.
  replace (Nat.leb n (n + List.length rest)) with true by (symmetry; apply Nat.leb_le; lia).
  rewrite take_app_le, drop_app_ge by (rewrite bytesN_length; lia).
  rewrite bytesN_length, Nat.sub_diag, drop_0, take_ge by (rewrite bytesN_length; lia).
  by rewrite to_bytesN_val.
Qed.

(** ** The instances

    In a module of their own, so that only the witnesses that import it see
    them. *)

Module Instances.

#[export] Instance concrete_scale : Scale := {|
  codec_byte := {| scale_encode x := [x];
                   scale_decode b := match b with x :: r => Some (x, r) | [] => None end |};
  codec_bool := {| scale_encode x := [if x : bool then x01 else x00];
                   scale_decode b := match b with
                     | x00 :: r => Some (false, r) | x01 :: r => Some (true, r)
                     | _ => None end |};
  codec_unit := nil_codec tt;
  codec_u8 := uint_codec 8 1;
  codec_u32 := uint_codec 32 4;
  codec_u64 := uint_codec 64 8;
  codec_u128 := uint_codec 128 16;
  codec_array := array_codec;
  codec_compact := @iso_codec _ _ (uint_codec 32 4) compact_value mk_compact;
  codec_vec A cA := list_codec;
  codec_pair A B cA cB := pair_codec;
|}.

#[export] Instance concrete_scale_laws : ScaleLaws.
Proof.
  split; simpl.
  - by intros x rest.
  - by intros [] rest.
  - apply nil_lawful. by intros [].
  - by apply uint_lawful.
  - by apply uint_lawful.
  - by apply uint_lawful.
  - by apply uint_lawful.
  - apply array_lawful.
  - apply (@iso_lawful _ _ _ (uint_lawful 32 4 eq_refl)). by intros [].
  - intros. apply list_lawful.
  - intros. apply pair_lawful.
Qed.

(** A toy hash, cheap to evaluate: the 32-bit FNV-1a hash, padded to 32 bytes. *)
Definition toy_hash (b : bytes) : H256 :=
  to_bytesN 32 (le_bytes 4
    (fold_left (λ h x, N.land (16777619 * N.lxor h (Byte.to_N x)) 4294967295) b 2166136261%N)).

(** A signature is valid when it starts with the hash of the public key
    followed by the message; the rest is free, as in a randomised scheme. *)
Definition salted_sign (salt : bytes) (message : bytes) (public : bytesN 32) : bytesN 64 :=
  to_bytesN 64 (bytesN_val (toy_hash (bytesN_val public ++ message)) ++ salt).
Definition toy_sign : bytes → bytesN 32 → bytesN 64 := salted_sign [].

#[export] Instance concrete_host : Host := {|
  blake2_256 := toy_hash;
  sr25519_verify sig message public :=
    bool_decide (take 32 (bytesN_val sig) = bytesN_val (toy_hash (bytesN_val public ++ message)));
  storage_root _ s := bytesN_val (toy_hash (list_enc (map_to_list s)));
  ordered_trie_root l _ := toy_hash (list_enc l);
  Digest := unit;
|}.

Definition redemption_sum (r : RedemptionStrategy) : bytes + unit :=
  match r with Redemption b => inl b | Eviction => inr tt end.
Definition sum_redemption (x : bytes + unit) : RedemptionStrategy :=
  match x with inl b => Redemption b | inr _ => Eviction end.
Definition header_tuple (h : Header) : H256 * u32 * H256 * H256 * unit :=
  (parent_hash h, number h, state_root h, extrinsics_root h, digest h).
Definition tuple_header (t : H256 * u32 * H256 * H256 * unit) : Header :=
  let '(p, n, s, e, d) := t in mk_header p n s e d.
Definition output_tuple {V} (o : Output V) : bytes * bytesN 4 * V :=
  (data (payload o), type_id (payload o), verifier o).
Definition tuple_output {V} (t : bytes * bytesN 4 * V) : Output V :=
  let '(d, i, v) := t in mk_output (mk_typed d i) v.

Definition concrete_output_ref : Codec OutputRef :=
  iso_codec (λ o, (tx_hash o, index o)) (λ p, mk_output_ref p.1 p.2).
Definition concrete_redemption : Codec RedemptionStrategy :=
  @iso_codec _ _ sum_codec redemption_sum sum_redemption.
Definition concrete_input : Codec Input :=
  @iso_codec _ _ (@pair_codec _ _ concrete_output_ref concrete_redemption)
    (λ i, (output_ref i, redeemer i)) (λ p, mk_input p.1 p.2).

Definition concrete_header : Codec Header := iso_codec header_tuple tuple_header.
Definition concrete_block (V C : Type) (cT : Codec (Transaction V C)) : Codec (Block V C) :=
  @iso_codec _ _ (@pair_codec _ _ concrete_header _) (λ b, (header b, extrinsics b))
    (λ p, mk_block p.1 p.2).

#[export] Instance concrete_core : CoreCodecs := {|
  codec_output_ref := concrete_output_ref;
  codec_input := concrete_input;
  codec_output V cV := iso_codec output_tuple tuple_output;
  codec_header := concrete_header;
  codec_block := concrete_block;
|}.

#[export] Instance concrete_core_laws : CoreLaws.
Proof.
  split.
  - apply iso_lawful. by intros [].
  - apply @iso_lawful; [|by intros []].
    apply @pair_lawful; [apply iso_lawful; by intros []|].
    apply @iso_lawful; [|by intros []]. apply sum_lawful.
  - intros V cV HV. apply iso_lawful. by intros [[]].
  - apply iso_lawful. by intros [? ? ? ? []].
  - intros o. unfold scale_encode; simpl. by rewrite length_app, bytesN_length.
Qed.

(** Inherent data as an association list; a check result as the list of the
    errors recorded. *)
#[export] Instance concrete_inherents : Inherents := {|
  InherentData := list (bytesN 8 * bytes);
  get_data A _ d id :=
    match list_find (λ e, e.1 = id) d with
    | Some (_, (_, b)) => Some <$> decode_value b
    | None => Some None
    end;
  CheckInherentsResult := list (bytesN 8 * bytes * bool);
  check_inherents_new := [];
  put_error r id e fatal :=
    if existsb snd r then None else Some (r ++ [(id, e, fatal)]);
  fatal_error r := existsb snd r;
|}.

#[export] Instance concrete_inherents_laws : InherentsLaws.
Proof.
  split; simpl; [done| |].
  - intros r id e fatal Hr. rewrite Hr. eexists. split; [done|].
    rewrite existsb_app, Hr. apply orb_false_r.
  - by intros r id e fatal ->.
Qed.
End Instances.
