(* ===== verification/RelayState.v ===== *)
(** * RelayState: reading the relay chain's state from a proof

    Models [tuxedo-parachain-core/src/relay_state_snapshot.rs]: entries read
    through a state proof, with their errors, and the snapshot of the messaging
    state. *)

From S2P Require Import Prelude Effects Scale Concrete.

(** ** The relay chain's types and keys *)

(** The types of Polkadot's primitives that are only passed on, and the well-known
    keys; [trie_storage] is [Backend::storage] of the backend built from a proof,
    which fails when the proof lacks a node. *)
Class RelayChain `{Scale} : Type := {
  ParaId : Type;
  AbridgedHrmpChannel : Type;
  HeadData : Type;
  Slot : Type;
  UpgradeGoAhead : Type;
  UpgradeRestriction : Type;
  codec_para_id :: Codec ParaId;
  codec_channel :: Codec AbridgedHrmpChannel;
  codec_head_data :: Codec HeadData;
  codec_slot :: Codec Slot;
  codec_go_ahead :: Codec UpgradeGoAhead;
  codec_restriction :: Codec UpgradeRestriction;
  RelayProof : Type;
  TrieBackend : Type;
  db_contains : RelayProof → H256 → bool;
  build_backend : RelayProof → H256 → TrieBackend;
  trie_storage : TrieBackend → bytes → result unit (option bytes);
  dmq_mqc_head_key : ParaId → bytes;
  relay_dispatch_queue_remaining_capacity_key : ParaId → bytes;
  relay_dispatch_queue_size_key : ParaId → bytes;
  hrmp_ingress_channel_index_key : ParaId → bytes;
  hrmp_egress_channel_index_key : ParaId → bytes;
  (** of the channel from a sender to a recipient *)
  hrmp_channels_key : ParaId → ParaId → bytes;
  para_head_key : ParaId → bytes;
  upgrade_go_ahead_signal_key : ParaId → bytes;
  upgrade_restriction_signal_key : ParaId → bytes;
  ACTIVE_CONFIG : bytes;
  CURRENT_SLOT : bytes;
}.

(** The fields of [AbridgedHostConfiguration] the snapshot uses. *)
Record AbridgedHostConfiguration : Type := mk_host_configuration {
  max_upward_queue_count : u32;
  max_upward_queue_size : u32;
}.

Record RelayDispatchQueueRemainingCapacity : Type := mk_capacity {
  remaining_count : u32;
  remaining_size : u32;
}.

Record MessagingStateSnapshot `{RelayChain} : Type := mk_snapshot {
  dmq_mqc_head : H256;
  relay_dispatch_queue_remaining_capacity : RelayDispatchQueueRemainingCapacity;
  ingress_channels : list (ParaId * AbridgedHrmpChannel);
  egress_channels : list (ParaId * AbridgedHrmpChannel);
}.
Arguments mk_snapshot {_ _} _ _ _ _.

Class SnapshotCodecs `{RelayChain} : Type := {
  codec_host_configuration :: Codec AbridgedHostConfiguration;
  codec_capacity :: Codec RelayDispatchQueueRemainingCapacity;
}.

Inductive ReadEntryErr : Type := Proof_ | Decode_ | Absent.

Inductive RelayError `{RelayChain} : Type :=
| RootMismatch
| ReadEntry (e : ReadEntryErr)
| ReadOptionalEntry (e : ReadEntryErr)
| SlotError (e : ReadEntryErr)
| UpgradeGoAheadError (e : ReadEntryErr)
| UpgradeRestrictionError (e : ReadEntryErr)
| Config (e : ReadEntryErr)
| DmqMqcHead (e : ReadEntryErr)
| RemainingCapacityError (e : ReadEntryErr)
| HrmpIngressChannelIndex (e : ReadEntryErr)
| HrmpEgressChannelIndex (e : ReadEntryErr)
| HrmpChannel (sender recipient : ParaId) (e : ReadEntryErr)
| ParaHead (e : ReadEntryErr).

Section relay.
Context `{RelayChain, !SnapshotCodecs}.

(** [read_entry] *)
Definition read_entry {T} `{Codec T} (backend : TrieBackend) (key : bytes) (fallback : option T) :
    result ReadEntryErr T :=
  raw ← map_err (λ _, Proof_) (trie_storage backend key);
  match raw with
  | Some raw_entry => ok_or (decode_value raw_entry) Decode_
  | None => ok_or fallback Absent
  end.

(** [read_optional_entry] *)
Definition read_optional_entry {T} `{Codec T} (backend : TrieBackend) (key : bytes) :
    result ReadEntryErr (option T) :=
  match read_entry backend key None with
  | Ok v => Ok (Some v)
  | Err Absent => Ok None
  | Err err => Err err
  end.

(** [struct RelayChainStateProof] *)
Record RelayChainStateProof : Type := mk_state_proof {
  para_id : ParaId;
  trie_backend : TrieBackend;
}.

(** [RelayChainStateProof::new] *)
Definition state_proof_new (id : ParaId) (relay_parent_storage_root : H256) (proof : RelayProof) :
    result RelayError RelayChainStateProof :=
  if negb (db_contains proof relay_parent_storage_root) then Err RootMismatch
  else Ok (mk_state_proof id (build_backend proof relay_parent_storage_root)).

Definition read_capacity (self : RelayChainStateProof) (host_config : AbridgedHostConfiguration) :
    result RelayError RelayDispatchQueueRemainingCapacity :=
  match read_optional_entry (trie_backend self)
          (relay_dispatch_queue_remaining_capacity_key (para_id self)) with
  | Ok (Some r) => Ok r
  | Ok None =>
    res ← map_err RemainingCapacityError
      (read_entry (T := u32 * u32) (trie_backend self)
         (relay_dispatch_queue_size_key (para_id self)) (Some (trunc 32 0, trunc 32 0)));
    mret (mk_capacity (saturating_sub (max_upward_queue_count host_config) res.1)
                      (saturating_sub (max_upward_queue_size host_config) res.2))
  | Err e => Err (RemainingCapacityError e)
  end.

(** One turn of the loops over the channel indices. *)
Definition read_ingress (self : RelayChainStateProof) (acc : list (ParaId * AbridgedHrmpChannel))
    (sender : ParaId) : result RelayError (list (ParaId * AbridgedHrmpChannel)) :=
  hrmp_channel ← map_err (HrmpChannel sender (para_id self))
    (read_entry (trie_backend self) (hrmp_channels_key sender (para_id self)) None);
  mret (acc ++ [(sender, hrmp_channel)]).

Definition read_egress (self : RelayChainStateProof) (acc : list (ParaId * AbridgedHrmpChannel))
    (recipient : ParaId) : result RelayError (list (ParaId * AbridgedHrmpChannel)) :=
  hrmp_channel ← map_err (HrmpChannel (para_id self) recipient)
    (read_entry (trie_backend self) (hrmp_channels_key (para_id self) recipient) None);
  mret (acc ++ [(recipient, hrmp_channel)]).

(** [RelayChainStateProof::read_messaging_state_snapshot] *)
Definition read_messaging_state_snapshot (self : RelayChainStateProof)
    (host_config : AbridgedHostConfiguration) : result RelayError MessagingStateSnapshot :=
  dmq_mqc_head ← map_err DmqMqcHead
    (read_entry (trie_backend self) (dmq_mqc_head_key (para_id self)) (Some H256_zero));
  capacity ← read_capacity self host_config;
  ingress_channel_index ← map_err HrmpIngressChannelIndex
    (read_entry (T := list ParaId) (trie_backend self)
       (hrmp_ingress_channel_index_key (para_id self)) (Some []));
  egress_channel_index ← map_err HrmpEgressChannelIndex
    (read_entry (T := list ParaId) (trie_backend self)
       (hrmp_egress_channel_index_key (para_id self)) (Some []));
  ingress_channels ← try_for ingress_channel_index (read_ingress self) [];
  egress_channels ← try_for egress_channel_index (read_egress self) [];
  mret (mk_snapshot dmq_mqc_head capacity ingress_channels egress_channels).

(** The other entries. *)
Definition read_abridged_host_configuration (self : RelayChainStateProof) :
    result RelayError AbridgedHostConfiguration :=
  map_err Config (read_entry (trie_backend self) ACTIVE_CONFIG None).
Definition read_included_para_head (self : RelayChainStateProof) : result RelayError HeadData :=
  map_err ParaHead (read_entry (trie_backend self) (para_head_key (para_id self)) None).
Definition read_slot (self : RelayChainStateProof) : result RelayError Slot :=
  map_err SlotError (read_entry (trie_backend self) CURRENT_SLOT None).
Definition read_upgrade_go_ahead_signal (self : RelayChainStateProof) :
    result RelayError (option UpgradeGoAhead) :=
  map_err UpgradeGoAheadError
    (read_optional_entry (trie_backend self) (upgrade_go_ahead_signal_key (para_id self))).
Definition read_upgrade_restriction_signal (self : RelayChainStateProof) :
    result RelayError (option UpgradeRestriction) :=
  map_err UpgradeRestrictionError
    (read_optional_entry (trie_backend self) (upgrade_restriction_signal_key (para_id self))).
Definition state_read_entry {T} `{Codec T} (self : RelayChainStateProof) (key : bytes)
    (fallback : option T) : result RelayError T :=
  map_err ReadEntry (read_entry (trie_backend self) key fallback).
Definition state_read_optional_entry {T} `{Codec T} (self : RelayChainStateProof) (key : bytes) :
    result RelayError (option T) :=
  map_err ReadOptionalEntry (read_optional_entry (trie_backend self) key).
End relay.

(** ** What is read *)

Section facts.
Context `{RelayChain, !SnapshotCodecs}.
Implicit Types (p : RelayChainStateProof) (b : TrieBackend).

(** What is under a key: nothing, or a value that decodes. *)
Definition holds {T} `{Codec T} b key (v : option T) : Prop :=
  match v with
  | Some v => ∃ raw, trie_storage b key = Ok (Some raw) ∧ decode_value raw = Some v
  | None => trie_storage b key = Ok None
  end.

Lemma read_entry_ok {T} `{Codec T} b key (fallback : option T) v :
  read_entry b key fallback = Ok v ↔
  holds b key (Some v) ∨ holds (T := T) b key None ∧ fallback = Some v.
Proof.
  unfold read_entry, holds. rewrite bind_ok. setoid_rewrite map_err_ok. split.
  - intros ([raw|] & Hr & Hv%ok_or_ok); eauto.
  - intros [(raw & -> & Hv)|[-> ->]]; eexists; (split; [done|]); [|done].
    simpl. by rewrite Hv.
Qed.

Lemma read_optional_entry_ok {T} `{Codec T} b key (v : option T) :
  read_optional_entry b key = Ok v ↔ holds b key v.
Proof.
  unfold read_optional_entry. destruct (read_entry b key None) as [x|e] eqn:E.
  - apply read_entry_ok in E as [(raw & Hr & Hx)|[_ ?]]; [|done]. split.
    + intros [= <-]. by exists raw.
    + destruct v as [v|]; simpl; [|congruence]. intros (raw' & Hr' & Hv). congruence.
  - unfold read_entry, bind, mbind, result_bind in E.
    destruct (trie_storage b key) as [[raw|]|] eqn:Hs; simpl in E.
    + destruct (decode_value raw) eqn:Hd; simpl in E; [done|]. injection E as <-.
      split; [done|]. destruct v; simpl; [|congruence]. intros (? & ? & ?). congruence.
    + injection E as <-. split; [by intros [= <-]|].
      destruct v; simpl; [|done]. intros (? & ? & ?). congruence.
    + injection E as <-. split; [done|]. destruct v; simpl; [|congruence].
      intros (? & ? & ?). congruence.
Qed.

(** Reading an entry.  The value under a key is answered exactly when the
    proof covers the key and either a value is there and decodes, or nothing is
    there and it is the fallback; a key the proof does not cover and a value
    that does not decode are errors whatever the fallback.  The optional form
    answers [None] exactly when the proof shows that nothing is there. *)
Theorem read_entry_spec {T} `{Codec T} b key :
  (∀ (fallback : option T) v, read_entry b key fallback = Ok v ↔
     holds b key (Some v) ∨ holds (T := T) b key None ∧ fallback = Some v) ∧
  (∀ v : option T, read_optional_entry b key = Ok v ↔ holds b key v) ∧
  (∀ fallback : option T, trie_storage b key = Err tt →
     read_entry b key fallback = Err Proof_ ∧
     read_optional_entry (T := T) b key = Err Proof_) ∧
  (∀ (fallback : option T) raw, trie_storage b key = Ok (Some raw) →
     decode_value (A := T) raw = None → read_entry b key fallback = Err Decode_ ∧
     read_optional_entry (T := T) b key = Err Decode_).
Proof.
  split; [intros; apply read_entry_ok|]. split; [intros; apply read_optional_entry_ok|].
  unfold read_optional_entry, read_entry, bind, mbind, result_bind. split.
  - intros fallback ->. done.
  - intros fallback raw -> Hd. simpl. by rewrite Hd.
Qed.

(** A loop over an index reads the channels in its order. *)
Lemma try_for_channels (key : ParaId → bytes) (err : ParaId → ReadEntryErr → RelayError) b l acc r :
  try_for l (λ acc x,
    bind (map_err (err x) (read_entry (T := AbridgedHrmpChannel) b (key x) None))
         (λ c, mret (acc ++ [(x, c)]))) acc = Ok r ↔
  ∃ cs, r = acc ++ cs ∧ Forall2 (λ x (q : ParaId * AbridgedHrmpChannel),
    q.1 = x ∧ holds b (key x) (Some q.2)) l cs.
Proof.
  revert acc. induction l as [|x l IH]; intros acc; cbn [try_for].
  - split.
    + intros [= <-]. exists []. rewrite app_nil_r. by split; [|constructor].
    + intros (cs & -> & Hc). inversion Hc. by rewrite app_nil_r.
  - destruct (bind _ _) as [acc'|e] eqn:E.
    + apply bind_ok in E as (c & Hc%map_err_ok & [= <-]).
      apply read_entry_ok in Hc as [Hc|[_ ?]]; [|done]. rewrite IH. split.
      * intros (cs & -> & Hcs). exists ((x, c) :: cs). rewrite <-app_assoc.
        split; [done|]. by constructor.
      * intros (cs & -> & Hcs). inversion Hcs as [|? [x' c'] ? cs' [Hx Hc'] Hcs']; simplify_eq.
        simpl in *. subst. exists cs'. split; [|done]. rewrite <-app_assoc. simpl.
        destruct Hc as (? & ? & ?), Hc' as (? & ? & ?). congruence.
    + split; [done|]. intros (cs & -> & Hcs).
      inversion Hcs as [|? [x' c'] ? cs' [Hx Hc'] Hcs']; simplify_eq. simpl in *. subst.
      assert (read_entry b (key x') None = Ok c') as Hr by (apply read_entry_ok; by left).
      unfold bind, mbind, result_bind in E. by rewrite Hr in E.
Qed.

(** What the snapshot's capacity is read from. *)
Definition capacity_from p (hc : AbridgedHostConfiguration)
    (c : RelayDispatchQueueRemainingCapacity) : Prop :=
  holds (trie_backend p) (relay_dispatch_queue_remaining_capacity_key (para_id p)) (Some c) ∨
  holds (T := RelayDispatchQueueRemainingCapacity) (trie_backend p)
    (relay_dispatch_queue_remaining_capacity_key (para_id p)) None ∧
  ∃ size : option (u32 * u32),
    holds (trie_backend p) (relay_dispatch_queue_size_key (para_id p)) size ∧
    let used := default (trunc 32 0, trunc 32 0) size in
    c = mk_capacity (saturating_sub (max_upward_queue_count hc) used.1)
                    (saturating_sub (max_upward_queue_size hc) used.2).

Lemma read_capacity_ok p hc c : read_capacity p hc = Ok c ↔ capacity_from p hc c.
Proof.
  unfold read_capacity, capacity_from.
  destruct (read_optional_entry (T := RelayDispatchQueueRemainingCapacity) _ _)
    as [[r|]|e] eqn:E.
  - apply read_optional_entry_ok in E as (raw & Hr & Hd). split.
    + intros [= <-]. left. by exists raw.
    + intros [(? & ? & ?)|[Hn _]]; [congruence|]. simpl in Hn. congruence.
  - apply read_optional_entry_ok in E. rewrite bind_ok. setoid_rewrite map_err_ok.
    setoid_rewrite read_entry_ok. split.
    + intros (res & [Hs|[Hs [= <-]]] & [= <-]); right; (split; [done|]).
      * by exists (Some res).
      * by exists None.
    + intros [(raw & Hr & _)|(_ & [size|] & Hs & ->)]; [simpl in E; congruence| |].
      * exists size. split; [by left|done].
      * exists (trunc 32 0, trunc 32 0). split; [by right|done].
  - split; [done|].
    assert (∀ v, ¬ holds (T := RelayDispatchQueueRemainingCapacity) (trie_backend p)
      (relay_dispatch_queue_remaining_capacity_key (para_id p)) v) as Hv.
    { intros v Hv%read_optional_entry_ok. congruence. }
    intros [Hr|[Hr _]]; by destruct (Hv _ Hr).
Qed.

(** An entry with a fallback. *)
Definition entry_or {T} `{Codec T} b key (d v : T) : Prop :=
  ∃ o : option T, holds b key o ∧ v = default d o.

Lemma read_entry_or {T} `{Codec T} b key (d v : T) :
  read_entry b key (Some d) = Ok v ↔ entry_or b key d v.
Proof.
  rewrite read_entry_ok. unfold entry_or. split.
  - intros [Hh|[Hh [= <-]]]; [by exists (Some v)|by exists None].
  - intros ([x|] & Hh & ->); [by left|by right].
Qed.

(** C34: The messaging snapshot.  It is answered exactly when every entry it names
    can be read: the queue head (zeroes when absent), the remaining capacity (or,
    only when it is provably absent, what the configuration leaves of the old
    queue size, which never goes below zero), the two channel indices (empty
    when absent) and one channel for every index entry.  The channels come in the
    order of the indices, so that they are sorted by peer when the indices are. *)
Theorem messaging_snapshot_spec p hc snap :
  (read_messaging_state_snapshot p hc = Ok snap ↔
   entry_or (trie_backend p) (dmq_mqc_head_key (para_id p)) H256_zero (dmq_mqc_head snap) ∧
   capacity_from p hc (relay_dispatch_queue_remaining_capacity snap) ∧
   entry_or (trie_backend p) (hrmp_ingress_channel_index_key (para_id p)) []
     (map fst (ingress_channels snap)) ∧
   entry_or (trie_backend p) (hrmp_egress_channel_index_key (para_id p)) []
     (map fst (egress_channels snap)) ∧
   Forall (λ c, holds (trie_backend p) (hrmp_channels_key c.1 (para_id p)) (Some c.2))
     (ingress_channels snap) ∧
   Forall (λ c, holds (trie_backend p) (hrmp_channels_key (para_id p) c.1) (Some c.2))
     (egress_channels snap)).
Proof.
  assert (∀ (key : ParaId → bytes) l cs,
    Forall2 (λ x (q : ParaId * AbridgedHrmpChannel),
      q.1 = x ∧ holds (trie_backend p) (key x) (Some q.2)) l cs ↔
    l = map fst cs ∧ Forall (λ c, holds (trie_backend p) (key c.1) (Some c.2)) cs) as Hcs.
  { intros key l cs. revert l. induction cs as [|[x c] cs IH]; intros l.
    - split; [intros Hf; inversion Hf; by split|intros [-> _]; constructor].
    - rewrite Forall_cons. split.
      + intros Hf. inversion Hf as [|? ? l' ? [Hx Hc] Hf']; simplify_eq.
        apply IH in Hf' as [-> Hf']. done.
      + intros [-> [Hc Hf]]. constructor; [done|]. by apply IH. }
  unfold read_messaging_state_snapshot. rewrite bind_ok. split.
  - intros (dm & Hdm%map_err_ok & Hr). apply bind_ok in Hr as (cap & Hcap & Hr).
    apply bind_ok in Hr as (ii & Hii%map_err_ok & Hr).
    apply bind_ok in Hr as (ei & Hei%map_err_ok & Hr).
    apply bind_ok in Hr as (ic & Hic & Hr). apply bind_ok in Hr as (ec & Hec & [= <-]).
    apply read_entry_or in Hdm, Hii, Hei. apply read_capacity_ok in Hcap.
    apply (try_for_channels (λ x, hrmp_channels_key x (para_id p))) in Hic as (cs & -> & Hic).
    apply (try_for_channels (λ x, hrmp_channels_key (para_id p) x)) in Hec as (cs' & -> & Hec).
    apply Hcs in Hic as [-> Hic]. apply Hcs in Hec as [-> Hec]. done.
  - destruct snap as [dm cap ic ec]. cbn [dmq_mqc_head relay_dispatch_queue_remaining_capacity
      ingress_channels egress_channels]. intros (Hdm & Hcap & Hii & Hei & Hic & Hec).
    exists dm. rewrite map_err_ok, read_entry_or. split; [done|]. apply bind_ok.
    exists cap. rewrite read_capacity_ok. split; [done|]. apply bind_ok.
    exists (map fst ic). rewrite map_err_ok, read_entry_or. split; [done|]. apply bind_ok.
    exists (map fst ec). rewrite map_err_ok, read_entry_or. split; [done|]. apply bind_ok.
    exists ic. split.
    { apply (try_for_channels (λ x, hrmp_channels_key x (para_id p))).
      exists ic. split; [done|]. by apply Hcs. }
    apply bind_ok. exists ec. split; [|done].
    apply (try_for_channels (λ x, hrmp_channels_key (para_id p) x)).
    exists ec. split; [done|]. by apply Hcs.
Qed.
End facts.
