(* ===== verification/Verifiers.v ===== *)
(** * Verifiers: who may spend an output

    Models [tuxedo-core/src/verifier.rs] and the three files under
    [tuxedo-core/src/verifier/]: one record per verifier, its redeemer and its
    [verify].  Signature checking and hashing are the host's. *)

From S2P Require Import Prelude Effects Scale Types Checker.

(** ** The verifiers and their redeemers *)

Inductive UpForGrabs : Type := up_for_grabs.
Inductive Unspendable : Type := unspendable.
Record TestVerifier : Type := mk_test_verifier { verifies : bool }.

(** simple_signature.rs *)
Record Sr25519Signature : Type := mk_sr25519 { owner_pubkey : H256 }.
Record P2PKH : Type := mk_p2pkh { owner_pubkey_hash : H256 }.

(** htlc.rs *)
Record TimeLock : Type := mk_time_lock { unlock_block_height : u32 }.
Record BlakeTwoHashLock : Type := mk_hash_lock { lock_hash : H256 }.
Record HashTimeLockContract : Type := mk_htlc {
  hash_lock : H256;
  recipient_pubkey : Public;
  claim_period_end : u32;
  refunder_pubkey : Public;
}.
Inductive HtlcSpendPath : Type :=
| Claim (secret : bytes) (signature : Signature)
| Refund (signature : Signature).

(** multi_signature.rs *)
Record ThresholdMultiSignature : Type := mk_multisig {
  threshold : u8;
  signatories : list H256;
}.
Record SignatureAndIndex : Type := mk_signature_and_index {
  signature : Signature;
  signer_index : u8;
}.

(** The codecs the source derives for them. *)
Class VerifierCodecs : Type := {
  codec_up_for_grabs :: Codec UpForGrabs;
  codec_unspendable :: Codec Unspendable;
  codec_test_verifier :: Codec TestVerifier;
  codec_sr25519 :: Codec Sr25519Signature;
  codec_p2pkh :: Codec P2PKH;
  codec_time_lock :: Codec TimeLock;
  codec_hash_lock :: Codec BlakeTwoHashLock;
  codec_htlc :: Codec HashTimeLockContract;
  codec_spend_path :: Codec HtlcSpendPath;
  codec_multisig :: Codec ThresholdMultiSignature;
  codec_signature_and_index :: Codec SignatureAndIndex;
}.

Section verifiers.
Context `{Scale, Host, VerifierCodecs}.

#[export] Instance up_for_grabs_verifier : Verifier UpForGrabs := {|
  Redeemer := unit; verify _ _ _ _ := Value true; new_unspendable := None |}.

#[export] Instance unspendable_verifier : Verifier Unspendable := {|
  Redeemer := unit; verify _ _ _ _ := Value false; new_unspendable := Some unspendable |}.

#[export] Instance test_verifier : Verifier TestVerifier := {|
  Redeemer := unit;
  verify self _ _ _ := Value (verifies self);
  new_unspendable := Some (mk_test_verifier false) |}.

(** [Sr25519Signature::verify] *)
Definition sr25519_signature_verify (self : Sr25519Signature) (simplified_tx : bytes)
    (_ : u32) (sig : Signature) : partial bool :=
  Value (sr25519_verify sig simplified_tx (owner_pubkey self)).

#[export] Instance sr25519_signature_verifier : Verifier Sr25519Signature := {|
  Redeemer := Signature; verify := sr25519_signature_verify;
  new_unspendable := Some (mk_sr25519 H256_zero) |}.

(** [P2PKH::verify] *)
Definition p2pkh_verify (self : P2PKH) (simplified_tx : bytes) (_ : u32)
    (redeemer : Public * Signature) : partial bool :=
  let '(pubkey, signature) := redeemer in
  Value (bool_decide (blake2_256 pubkey = owner_pubkey_hash self)
         && sr25519_verify signature simplified_tx pubkey).

#[export] Instance p2pkh_verifier : Verifier P2PKH := {|
  Redeemer := Public * Signature; verify := p2pkh_verify;
  new_unspendable := Some (mk_p2pkh H256_zero) |}.

(** [TimeLock::verify] *)
Definition time_lock_verify (self : TimeLock) (_ : bytes) (block_height : u32) (_ : unit) :
    partial bool :=
  Value (N.leb (unlock_block_height self) block_height).

#[export] Instance time_lock_verifier : Verifier TimeLock := {|
  Redeemer := unit; verify := time_lock_verify; new_unspendable := None |}.

(** [BlakeTwoHashLock::{new_from_secret, verify}] *)
Definition new_from_secret (secret : bytes) : BlakeTwoHashLock :=
  mk_hash_lock (blake2_256 secret).
Definition hash_lock_verify (self : BlakeTwoHashLock) (_ : bytes) (_ : u32)
    (secret : bytes) : partial bool :=
  Value (bool_decide (blake2_256 secret = lock_hash self)).

#[export] Instance hash_lock_verifier : Verifier BlakeTwoHashLock := {|
  Redeemer := bytes; verify := hash_lock_verify;
  new_unspendable := Some (mk_hash_lock H256_zero) |}.

(** [HashTimeLockContract::verify] *)
Definition htlc_verify (self : HashTimeLockContract) (simplified_tx : bytes)
    (block_height : u32) (spend_path : HtlcSpendPath) : partial bool :=
  match spend_path with
  | Claim secret signature =>
    Value (bool_decide (blake2_256 secret = hash_lock self)
           && sr25519_verify signature simplified_tx (recipient_pubkey self))
  | Refund signature =>
    Value (N.leb (claim_period_end self) block_height
           && sr25519_verify signature simplified_tx (refunder_pubkey self))
  end.

#[export] Instance htlc_verifier : Verifier HashTimeLockContract := {|
  Redeemer := HtlcSpendPath; verify := htlc_verify; new_unspendable := None |}.

(** [ThresholdMultiSignature::has_duplicate_signatories] *)
Definition has_duplicate_signatories (self : ThresholdMultiSignature) : bool :=
  Nat.ltb (size (list_to_set (signatories self) : gset H256))
    (List.length (signatories self)).

(** The [map] over the signatures that closes [verify]: the closure's body
    ends in a semicolon, so that the verdict of [sr25519_verify] is dropped
    and a unit is collected for every signature; indexing the signatories
    panics out of range. *)
Fixpoint valid_sigs (self : ThresholdMultiSignature) (simplified_tx : bytes)
    (sigs : list SignatureAndIndex) : partial (list unit) :=
  match sigs with
  | [] => mret []
  | sig :: sigs =>
    public ← partial_expect (signatories self !! N.to_nat (signer_index sig))
               "index out of bounds";
    let _ := sr25519_verify (signature sig) simplified_tx public in
    rest ← valid_sigs self simplified_tx sigs;
    mret (tt :: rest)
  end.

(** [ThresholdMultiSignature::verify] *)
Definition multisig_verify (self : ThresholdMultiSignature) (simplified_tx : bytes)
    (_ : u32) (sigs : list SignatureAndIndex) : partial bool :=
  if has_duplicate_signatories self then Value false else
  if N.ltb (N.of_nat (List.length sigs)) (threshold self) then Value false else
  let index_out_of_bounds :=
    existsb (λ sig, N.leb (N.of_nat (List.length sigs)) (signer_index sig)) sigs in
  if index_out_of_bounds then Value false else
  let set : gmap u8 Signature :=
    list_to_map (rev (map (λ sig, (signer_index sig, signature sig)) sigs)) in
  if Nat.ltb (size set) (List.length sigs) then Value false else
  valid ← valid_sigs self simplified_tx sigs;
  Value (N.leb (threshold self) (N.of_nat (List.length valid))).

#[export] Instance multisig_verifier : Verifier ThresholdMultiSignature := {|
  Redeemer := list SignatureAndIndex; verify := multisig_verify;
  new_unspendable := Some (mk_multisig (trunc 8 1) []) |}.
End verifiers.
