(* ===== verification/Samples.v ===== *)
(** * Samples: concrete runtimes and transactions for the witnesses

    Codecs for the verifiers on top of [Concrete], the testing checker of
    [tuxedo-core/src/constraint_checker.rs], and a few storages and transactions
    on which the witnesses evaluate the model. *)

From S2P Require Import Prelude Effects Scale Types Checker UtxoSet CheckerLaws Executive.
From S2P Require Import Simulation Concrete Verifiers.

Module Sample.
Export Instances.

(** ** Codecs of the verifiers *)

Definition htlc_tuple (h : HashTimeLockContract) : H256 * Public * u32 * Public :=
  (hash_lock h, recipient_pubkey h, claim_period_end h, refunder_pubkey h).
Definition tuple_htlc (t : H256 * Public * u32 * Public) : HashTimeLockContract :=
  let '(a, b, c, d) := t in mk_htlc a b c d.
Definition spend_path_sum (p : HtlcSpendPath) : bytes * Signature + Signature :=
  match p with Claim s g => inl (s, g) | Refund g => inr g end.
Definition sum_spend_path (x : bytes * Signature + Signature) : HtlcSpendPath :=
  match x with inl (s, g) => Claim s g | inr g => Refund g end.

#[export] Instance concrete_verifiers : VerifierCodecs := {|
  codec_up_for_grabs := nil_codec up_for_grabs;
  codec_unspendable := nil_codec unspendable;
  codec_test_verifier := iso_codec verifies mk_test_verifier;
  codec_sr25519 := iso_codec owner_pubkey mk_sr25519;
  codec_p2pkh := iso_codec owner_pubkey_hash mk_p2pkh;
  codec_time_lock := iso_codec unlock_block_height mk_time_lock;
  codec_hash_lock := iso_codec lock_hash mk_hash_lock;
  codec_htlc := iso_codec htlc_tuple tuple_htlc;
  codec_spend_path := @iso_codec _ _ sum_codec spend_path_sum sum_spend_path;
  codec_multisig := iso_codec (λ m, (threshold m, signatories m))
                      (λ p, mk_multisig p.1 p.2);
  codec_signature_and_index := iso_codec (λ s, (signature s, signer_index s))
                                 (λ p, mk_signature_and_index p.1 p.2);
|}.

#[export] Instance test_verifier_lawful : LawfulCodec TestVerifier.
Proof. apply iso_lawful. by intros []. Qed.

(** ** The testing constraint checker *)

Record TestConstraintChecker : Type := mk_test_checker { checks : bool; inherent : bool }.

#[export] Instance test_checker_codec : Codec TestConstraintChecker :=
  iso_codec (λ c, (checks c, inherent c)) (λ p, mk_test_checker p.1 p.2).

#[export] Instance test_constraint_checker : ConstraintChecker TestConstraintChecker := {|
  Error := unit;
  check _ _ self _ _ _ _ := lift_result (if checks self then Ok (trunc 64 0) else Err tt);
  is_inherent := inherent;
  create_inherents _ _ _ _ := panic "not implemented";
  check_inherents _ _ _ _ _ := Panicked "not implemented";
  genesis_transactions _ _ := Panicked "not implemented";
|}.

#[export] Instance test_checker_frame : CheckerFrame TestConstraintChecker.
Proof. intros c i e p o. apply leaves_lift, _. Qed.

#[export] Instance test_checker_transient : CheckerTransient TestConstraintChecker.
Proof. intros c i e p o. apply respects_lift. Qed.

#[export] Instance test_checker_uniform : UniformChecker TestConstraintChecker.
Proof. intros S1 S2 ? ? sim ? c i e p o. cbn [check test_constraint_checker]. by apply sim_lift. Qed.

(** ** Storages and transactions *)

Abbreviation Tx := (Transaction TestVerifier TestConstraintChecker).
Abbreviation Out := (Output TestVerifier).

(** The ledger view through the codec of the verifier. *)
Abbreviation look s := (@utxo_at _ _ _ TestVerifier verifier_codec s).

Definition yes : TestConstraintChecker := mk_test_checker true false.

Definition ref (n : N) : OutputRef := mk_output_ref H256_zero (trunc 32 n).

(** An output anybody may spend, with [n] in its payload. *)
Definition out (n : N) : Out :=
  mk_output (mk_typed (le_bytes 1 n) (to_bytesN 4 (bstr "samp"))) (mk_test_verifier true).

(** Height one, and two outputs. *)
Definition store : storage :=
  <[scale_encode (ref 0) := scale_encode (out 7)]>
    (<[scale_encode (ref 1) := scale_encode (out 8)]>
      {[HEIGHT_KEY := scale_encode (trunc 32 1)]}).

(** The only redeemer of a test verifier. *)
Definition done_redeemer : Redeemer TestVerifier := tt.

#[export] Instance done_redeemer_lawful : LawfulCodec (Redeemer TestVerifier).
Proof. apply (nil_lawful tt). by intros []. Qed.

Definition spend (o : OutputRef) : Input := mk_input o (Redemption []).

(** Spends the first, peeks at the second, creates one. *)
Definition transfer : Tx := mk_transaction [spend (ref 0)] [ref 1] [out 9] yes.

Definition after : storage :=
  match apply_tuxedo_transaction transfer store with Ret _ s => s | _ => ∅ end.

(** Spends what [transfer] creates. *)
Definition child : Tx := mk_transaction [spend (out_ref transfer 0)] [] [] yes.
End Sample.
