(* ===== verification/UnitTests.v ===== *)
(** * UnitTests: the unit tests of the core, replayed on the model

    Models the test modules of [tuxedo-core/src] ([executive.rs], [types.rs],
    [dynamic_typing.rs], [constraint_checker.rs], [verifier.rs] and [verifier/*.rs]):
    each test is a definition over the parameters of the model that returns when its
    assertions hold and panics otherwise.  The tests that name roots of the real
    hasher take them from the host instead.  At the end every test is run on the
    concrete instances. *)

From S2P Require Import Prelude Effects Scale Types Checker UtxoSet CheckerLaws Executive.
From S2P Require Import Concrete Verifiers Samples.

Module UnitTests.
Import Sample.

(** ** The test harness *)

(** [#[test]], with [#[should_panic(expected = "..")]] if there is one: the message
    must contain the expected text. *)
Record Test : Type := mk_test { run : partial unit; should_panic : option string }.

Fixpoint contains (text expected : string) : bool :=
  String.prefix expected text ||
  match text with EmptyString => false | String.String _ rest => contains rest expected end.

Definition passes (t : Test) : bool :=
  match run t, should_panic t with
  | Value _, None => true
  | Panicked why, Some expected => contains why expected
  | _, _ => false
  end.

Definition assert (b : bool) : partial unit :=
  if b then Value tt else Panicked "assertion failed".
Definition assert_eq {A} `{EqDecision A} (left right : A) : partial unit :=
  assert (bool_decide (left = right)).

Definition unwrap {E A : Type} (r : result E A) : partial A :=
  match r with
  | Ok a => Value a
  | Err _ => Panicked "called `Result::unwrap()` on an `Err` value"
  end.

(** [TestExternalities::execute_with] runs a closure on a storage. *)
Definition execute_with {A : Type} (ext : storage) (closure : M storage Empty_set A) : partial A :=
  match closure ext with
  | Ret a _ => Value a
  | Throw e _ => match e with end
  | Panic why => Panicked why
  end.

(** A [Result] as a value. *)
Definition attempt {S E F A : Type} (m : M S E A) : M S F (result E A) := λ s,
  match m s with
  | Ret a s' => Ret (Ok a) s'
  | Throw e s' => Ret (Err e) s'
  | Panic why => Panic why
  end.

#[local] Instance valid_eq_dec : EqDecision ValidTransaction.
Proof. solve_decision. Defined.
#[local] Instance utxo_error_eq_dec {E} `{EqDecision E} : EqDecision (UtxoError E).
Proof. solve_decision. Defined.
#[local] Instance invalid_eq_dec : EqDecision InvalidTransaction.
Proof. solve_decision. Defined.
#[local] Instance test_verifier_eq_dec : EqDecision TestVerifier.
Proof. solve_decision. Defined.
#[local] Instance test_checker_eq_dec : EqDecision TestConstraintChecker.
Proof. solve_decision. Defined.
#[local] Instance output_eq_dec {V} `{EqDecision V} : EqDecision (Output V).
Proof. solve_decision. Defined.
#[local] Instance transaction_eq_dec {V C} `{EqDecision V, EqDecision C} :
  EqDecision (Transaction V C).
Proof. solve_decision. Defined.
#[local] Instance header_eq_dec `{Host, !EqDecision Digest} : EqDecision Header.
Proof. solve_decision. Defined.

(** ** [executive.rs]: builders *)

Abbreviation TestTransaction := (Transaction TestVerifier TestConstraintChecker).
Abbreviation TestBlock := (Block TestVerifier TestConstraintChecker).

Definition mock_output_ref (tx_num index : u32) : OutputRef :=
  mk_output_ref (to_bytesN 32 (replicate 24 Byte.x00 ++ le_bytes 8 (uval tx_num))) index.

(** [testing::Bogus] of [dynamic_typing.rs] *)
Inductive Bogus : Type := bogus.
#[local] Instance bogus_codec : Codec Bogus := nil_codec bogus.
#[local] Instance bogus_data : UtxoData Bogus := to_bytesN 4 (bstr "bogs").
#[local] Instance bogus_eq_dec : EqDecision Bogus.
Proof. solve_decision. Defined.

Record TestTransactionBuilder : Type := mk_builder {
  builder_inputs : list Input;
  builder_peeks : list OutputRef;
  builder_outputs : list Out;
}.
Definition builder_default : TestTransactionBuilder := mk_builder [] [] [].
Definition with_input (self : TestTransactionBuilder) (input : Input) : TestTransactionBuilder :=
  mk_builder (builder_inputs self ++ [input]) (builder_peeks self) (builder_outputs self).
Definition with_peek (self : TestTransactionBuilder) (peek : OutputRef) : TestTransactionBuilder :=
  mk_builder (builder_inputs self) (builder_peeks self ++ [peek]) (builder_outputs self).
Definition with_output (self : TestTransactionBuilder) (output : Out) : TestTransactionBuilder :=
  mk_builder (builder_inputs self) (builder_peeks self) (builder_outputs self ++ [output]).
Definition build_tx (self : TestTransactionBuilder) (checks inherent : bool) : TestTransaction :=
  mk_transaction (builder_inputs self) (builder_peeks self) (builder_outputs self)
    (mk_test_checker checks inherent).

Record ExternalityBuilder : Type := mk_ext_builder {
  utxos : list (OutputRef * Out);
  pre_header : option Header;
  noted : list bytes;
}.
Definition ext_default : ExternalityBuilder := mk_ext_builder [] None [].
Definition with_utxo {T} `{UtxoData T} (self : ExternalityBuilder) (output_ref : OutputRef)
    (payload : T) (verifies : bool) : ExternalityBuilder :=
  let output := mk_output (typed_from payload) (mk_test_verifier verifies) in
  mk_ext_builder (utxos self ++ [(output_ref, output)]) (pre_header self) (noted self).
Definition with_pre_header (self : ExternalityBuilder) (parent_hash : H256) (number : u32) :
    ExternalityBuilder :=
  let h := mk_header parent_hash number H256_zero H256_zero tt in
  mk_ext_builder (utxos self) (Some h) (noted self).
Definition with_noted_extrinsic (self : ExternalityBuilder) (ext : bytes) : ExternalityBuilder :=
  mk_ext_builder (utxos self) (pre_header self) (noted self ++ [ext]).
Definition build_ext (self : ExternalityBuilder) : storage :=
  let ext := fold_left (λ ext '(output_ref, output),
    <[scale_encode output_ref := scale_encode output]> ext) (utxos self) ∅ in
  let pre_header :=
    default (mk_header H256_zero (trunc 32 0) H256_zero H256_zero tt) (pre_header self) in
  let ext := <[HEADER_KEY := scale_encode pre_header]> ext in
  let ext := <[HEIGHT_KEY := scale_encode (number pre_header)]> ext in
  <[EXTRINSIC_KEY := scale_encode (noted self)]> ext.

(** [ValidTransactionBuilder] of [sp_runtime] *)
Definition valid_default : ValidTransaction := mk_valid [] [] (trunc 64 0) (uint_max 64) true.
Definition and_requires (self : ValidTransaction) (tag : OutputRef) : ValidTransaction :=
  mk_valid (requires self ++ [scale_encode tag]) (provides self) (priority self)
    (longevity self) (propagate self).
Definition and_provides (self : ValidTransaction) (tag : OutputRef) : ValidTransaction :=
  mk_valid (requires self) (provides self ++ [scale_encode tag]) (priority self)
    (longevity self) (propagate self).

(** [TestExecutive::validate_tuxedo_transaction(&tx)] and an [assert_eq!] on what it
    answers. *)
Definition test_validate (tx : TestTransaction) :
    M storage Empty_set (result (UtxoError unit) ValidTransaction) :=
  attempt (validate_tuxedo_transaction tx).
Definition test_apply (tx : TestTransaction) :
    M storage Empty_set (result (UtxoError unit) unit) := attempt (apply_tuxedo_transaction tx).
(** ** [executive.rs]: validating *)

Definition validate_empty_works : partial unit :=
  let tx := build_tx builder_default true false in
  vt ← execute_with ∅ (test_validate tx);
  vt ← unwrap vt;
  assert_eq vt valid_default.

Definition validate_with_input_works : partial unit :=
  let output_ref := mock_output_ref (trunc 32 0) (trunc 32 0) in
  vt ← execute_with (build_ext (with_utxo ext_default output_ref bogus true))
    (let input := mk_input output_ref (Redemption []) in
     test_validate (build_tx (with_input builder_default input) true false));
  vt ← unwrap vt;
  assert_eq vt valid_default.

Definition validate_with_peek_works : partial unit :=
  let output_ref := mock_output_ref (trunc 32 0) (trunc 32 0) in
  vt ← execute_with (build_ext (with_utxo ext_default output_ref bogus true))
    (test_validate (build_tx (with_peek builder_default output_ref) true false));
  vt ← unwrap vt;
  assert_eq vt valid_default.

Definition bogus_output : Out := mk_output (typed_from bogus) (mk_test_verifier false).

Definition validate_with_output_works : partial unit :=
  let tx := build_tx (with_output builder_default bogus_output) true false in
  let tx_hash := hash_of (A := bytes) (scale_encode tx) in
  let output_ref := mk_output_ref tx_hash (trunc 32 0) in
  vt ← execute_with (build_ext ext_default) (test_validate tx);
  vt ← unwrap vt;
  assert_eq vt (and_provides valid_default output_ref).

Definition validate_with_missing_input_works : partial unit :=
  let output_ref := mock_output_ref (trunc 32 0) (trunc 32 0) in
  let input := mk_input output_ref default_redemption in
  vt ← execute_with (build_ext ext_default)
    (test_validate (build_tx (with_input builder_default input) true false));
  vt ← unwrap vt;
  assert_eq vt (and_requires valid_default output_ref).

Definition validate_with_missing_peek_works : partial unit :=
  let output_ref := mock_output_ref (trunc 32 0) (trunc 32 0) in
  vt ← execute_with (build_ext ext_default)
    (test_validate (build_tx (with_peek builder_default output_ref) true false));
  vt ← unwrap vt;
  assert_eq vt (and_requires valid_default output_ref).

Definition validate_with_duplicate_input_fails : partial unit :=
  let output_ref := mock_output_ref (trunc 32 0) (trunc 32 0) in
  result ← execute_with (build_ext (with_utxo ext_default output_ref bogus false))
    (let input := mk_input output_ref default_redemption in
     test_validate
       (build_tx (with_input (with_input builder_default input) input) true false));
  assert_eq result (Err DuplicateInput).

Definition validate_with_duplicate_peek_works : partial unit :=
  let output_ref := mock_output_ref (trunc 32 0) (trunc 32 0) in
  vt ← execute_with (build_ext (with_utxo ext_default output_ref bogus false))
    (test_validate
       (build_tx (with_peek (with_peek builder_default output_ref) output_ref) true false));
  vt ← unwrap vt;
  assert_eq vt valid_default.

Definition validate_with_unsatisfied_verifier_fails : partial unit :=
  let output_ref := mock_output_ref (trunc 32 0) (trunc 32 0) in
  result ← execute_with (build_ext (with_utxo ext_default output_ref bogus false))
    (let input := mk_input output_ref default_redemption in
     test_validate (build_tx (with_input builder_default input) true false));
  assert_eq result (Err VerifierError).

Definition validate_with_pre_existing_output_fails : partial unit :=
  let tx := build_tx (with_output builder_default bogus_output) true false in
  let tx_hash := hash_of (A := bytes) (scale_encode tx) in
  let output_ref := mk_output_ref tx_hash (trunc 32 0) in
  result ← execute_with (build_ext (with_utxo ext_default output_ref bogus false))
    (test_validate tx);
  assert_eq result (Err PreExistingOutput).

Definition validate_with_constraint_error_fails : partial unit :=
  vt ← execute_with (build_ext ext_default)
    (test_validate (build_tx builder_default false false));
  assert_eq vt (Err (ConstraintCheckerError tt)).

(** ** [executive.rs]: applying *)

Definition apply_empty_works : partial unit :=
  vt ← execute_with (build_ext ext_default) (test_apply (build_tx builder_default true false));
  assert_eq vt (Ok tt).

Definition apply_with_missing_input_fails : partial unit :=
  let output_ref := mock_output_ref (trunc 32 0) (trunc 32 0) in
  let input := mk_input output_ref default_redemption in
  vt ← execute_with (build_ext ext_default)
    (test_apply (build_tx (with_input builder_default input) true false));
  assert_eq vt (Err MissingInput).

Definition apply_with_missing_peek_fails : partial unit :=
  let output_ref := mock_output_ref (trunc 32 0) (trunc 32 0) in
  vt ← execute_with (build_ext ext_default)
    (test_apply (build_tx (with_peek builder_default output_ref) true false));
  assert_eq vt (Err MissingInput).

(** [sp_io::storage::exists] *)
Definition storage_exists {E} (k : bytes) : M storage E bool :=
  v ← storage_get k; mret (bool_decide (is_Some v)).

Definition update_storage_consumes_input : partial unit :=
  let output_ref := mock_output_ref (trunc 32 0) (trunc 32 0) in
  present ← execute_with (build_ext (with_utxo ext_default output_ref bogus true))
    (let input := mk_input output_ref default_redemption in
     let tx := build_tx (with_input builder_default input) true false in
     update_storage tx;;
     storage_exists (scale_encode output_ref));
  assert (negb present).

Definition update_storage_adds_output : partial unit :=
  let tx := build_tx (with_output builder_default bogus_output) true false in
  let tx_hash := hash_of (A := bytes) (scale_encode tx) in
  let output_ref := mk_output_ref tx_hash (trunc 32 0) in
  stored ← execute_with (build_ext ext_default)
    (update_storage tx;;
     storage_get (scale_encode output_ref));
  stored_bytes ← partial_expect stored "called `Option::unwrap()` on a `None` value";
  stored_value ← partial_expect (decode_value (A := Out) stored_bytes)
    "called `Result::unwrap()` on an `Err` value";
  assert_eq stored_value bogus_output.

(** ** [executive.rs]: blocks *)

(** [H256::repeat_byte] *)
Definition repeat_byte (b : byte) : H256 := to_bytesN 32 (replicate 32 b).

Definition open_block_works : partial unit :=
  let header := mk_header (repeat_byte Byte.x05) (trunc 32 5) (repeat_byte Byte.x06)
                  (repeat_byte Byte.x07) tt in
  stored ← execute_with (build_ext ext_default)
    (open_block header;;
     storage_get HEADER_KEY);
  retrieved_header ← partial_expect (stored ≫= decode_value (A := Header))
    "Open block should have written a header to storage";
  assert_eq retrieved_header header.

Definition apply_valid_extrinsic_work : partial unit :=
  let tx := build_tx builder_default true false in
  '(apply_result, noted_extrinsics) ← execute_with (build_ext ext_default)
    (apply_result ← attempt (apply_extrinsic tx);
     noted_extrinsics ← noted_extrinsics;
     mret (apply_result, noted_extrinsics));
  assert_eq apply_result (Ok tt);;
  assert_eq noted_extrinsics [scale_encode tx].

Definition apply_invalid_extrinsic_rejects : partial unit :=
  let tx := build_tx builder_default false false in
  '(apply_result, noted_extrinsics) ← execute_with (build_ext ext_default)
    (apply_result ← attempt (apply_extrinsic tx);
     noted_extrinsics ← noted_extrinsics;
     mret (apply_result, noted_extrinsics));
  assert (match apply_result with Ok _ => false | Err _ => true end);;
  assert_eq noted_extrinsics [scale_encode tx].

(** The current state root, decoded as a hash. *)
Definition root_of (s : storage) : H256 := default H256_zero (decode_value (storage_root V1 s)).

Definition close_block_works : partial unit :=
  let parent_hash := repeat_byte Byte.x05 in
  let block_number := trunc 32 6 in
  let extrinsic := [Byte.x01; Byte.x02; Byte.x03] in
  '(returned_header, (state_root, (header_left, extrinsics_left))) ←
    execute_with (build_ext (with_noted_extrinsic
                     (with_pre_header ext_default parent_hash block_number) extrinsic))
      (returned_header ← close_block;
       state_root ← current_state_root;
       header_left ← storage_exists HEADER_KEY;
       extrinsics_left ← storage_exists EXTRINSIC_KEY;
       mret (returned_header, (state_root, (header_left, extrinsics_left))));
  let expected_header :=
    mk_header parent_hash block_number state_root (ordered_trie_root [extrinsic] V0) tt in
  assert_eq returned_header expected_header;;
  assert (negb header_left);;
  assert (negb extrinsics_left).

(** The roots the tests give in hexadecimal: that of a storage with height six and
    no noted extrinsics, and those of the extrinsics. *)
Definition test_state_root : H256 :=
  root_of {[HEIGHT_KEY := scale_encode (trunc 32 6);
            EXTRINSIC_KEY := scale_encode ([] : list bytes)]}.
Definition test_extrinsics_root (l : list TestTransaction) : H256 :=
  ordered_trie_root (map scale_encode l) V0.

Definition execute_empty_block_works : partial unit :=
  let extrinsics := [] : list TestTransaction in
  execute_with (build_ext ext_default)
    (let header := mk_header H256_zero (trunc 32 6) test_state_root
                     (test_extrinsics_root extrinsics) tt in
     execute_block (mk_block header extrinsics)).

Definition execute_block_with_transaction_works : partial unit :=
  let extrinsics := [build_tx builder_default true false] in
  execute_with (build_ext ext_default)
    (let header := mk_header H256_zero (trunc 32 6) test_state_root
                     (test_extrinsics_root extrinsics) tt in
     execute_block (mk_block header extrinsics)).

Definition execute_block_invalid_transaction : partial unit :=
  let extrinsics := [build_tx builder_default false false] in
  execute_with (build_ext ext_default)
    (let header := mk_header H256_zero (trunc 32 6) test_state_root
                     (test_extrinsics_root []) tt in
     execute_block (mk_block header extrinsics)).

Definition execute_block_state_root_mismatch : partial unit :=
  let extrinsics := [] : list TestTransaction in
  execute_with (build_ext ext_default)
    (let header := mk_header H256_zero (trunc 32 6) H256_zero
                     (test_extrinsics_root extrinsics) tt in
     execute_block (mk_block header extrinsics)).

Definition execute_block_extrinsic_root_mismatch : partial unit :=
  let extrinsics := [] : list TestTransaction in
  execute_with (build_ext ext_default)
    (let header := mk_header H256_zero (trunc 32 6) test_state_root
                     H256_zero tt in
     execute_block (mk_block header extrinsics)).

Definition execute_block_inherent_only_works : partial unit :=
  let extrinsics := [build_tx builder_default true true] in
  execute_with (build_ext ext_default)
    (let header := mk_header H256_zero (trunc 32 6) test_state_root
                     (test_extrinsics_root extrinsics) tt in
     execute_block (mk_block header extrinsics)).

Definition execute_block_inherent_first_works : partial unit :=
  let extrinsics := [build_tx builder_default true true; build_tx builder_default true false] in
  execute_with (build_ext ext_default)
    (let header := mk_header H256_zero (trunc 32 6) test_state_root
                     (test_extrinsics_root extrinsics) tt in
     execute_block (mk_block header extrinsics)).

Definition execute_block_inherents_must_be_first : partial unit :=
  let extrinsics := [build_tx builder_default true false; build_tx builder_default true true] in
  execute_with (build_ext ext_default)
    (let header := mk_header H256_zero (trunc 32 6) test_state_root
                     (test_extrinsics_root extrinsics) tt in
     execute_block (mk_block header extrinsics)).

Definition execute_block_inherents_must_all_be_first : partial unit :=
  let extrinsics := [build_tx builder_default true true;
     build_tx builder_default true false;
     build_tx builder_default true true] in
  execute_with (build_ext ext_default)
    (let header := mk_header H256_zero (trunc 32 6) test_state_root
                     (test_extrinsics_root extrinsics) tt in
     execute_block (mk_block header extrinsics)).

Definition inherent_too_late : string :=
  "Tried to execute opening inherent after switching to non-inherents.".

Definition executive_tests : list Test := [
  mk_test validate_empty_works None;
  mk_test validate_with_input_works None;
  mk_test validate_with_peek_works None;
  mk_test validate_with_output_works None;
  mk_test validate_with_missing_input_works None;
  mk_test validate_with_missing_peek_works None;
  mk_test validate_with_duplicate_input_fails None;
  mk_test validate_with_duplicate_peek_works None;
  mk_test validate_with_unsatisfied_verifier_fails None;
  mk_test validate_with_pre_existing_output_fails None;
  mk_test validate_with_constraint_error_fails None;
  mk_test apply_empty_works None;
  mk_test apply_with_missing_input_fails None;
  mk_test apply_with_missing_peek_fails None;
  mk_test update_storage_consumes_input None;
  mk_test update_storage_adds_output None;
  mk_test open_block_works None;
  mk_test apply_valid_extrinsic_work None;
  mk_test apply_invalid_extrinsic_rejects None;
  mk_test close_block_works None;
  mk_test execute_empty_block_works None;
  mk_test execute_block_with_transaction_works None;
  mk_test execute_block_invalid_transaction (Some "ConstraintCheckerError(");
  mk_test execute_block_state_root_mismatch (Some "state root mismatch");
  mk_test execute_block_extrinsic_root_mismatch (Some "extrinsics root mismatch");
  mk_test execute_block_inherent_only_works None;
  mk_test execute_block_inherent_first_works None;
  mk_test execute_block_inherents_must_be_first (Some inherent_too_late);
  mk_test execute_block_inherents_must_all_be_first (Some inherent_too_late)].

Lemma executive_tests_pass : map passes executive_tests = replicate 29 true.
Proof. by_vm. Qed.

(** ** [verifier.rs] and [verifier/*.rs] *)

(** Key pairs of the concrete host, in which a public key is its seed. *)
Record Pair : Type := from_seed { public : Public }.
Definition sign (self : Pair) (message : bytes) : Signature := toy_sign message (public self).

Definition bad_sig : Signature :=
  to_bytesN 64 (bstr "bogus_signature_bogus_signature_bogus_signature_bogus_signature!").

(** Pairs from sequential seeds, that differ in the last byte. *)
Definition generate_n_pairs (n : u8) : list Pair :=
  map (λ i, from_seed (to_bytesN 32 (replicate 31 Byte.x00 ++ le_bytes 1 (N.of_nat i))))
    (seq 0 (N.to_nat (uval n))).

Definition up_for_grabs_always_verifies : partial unit :=
  verified ← verify up_for_grabs [] (trunc 32 0) tt; assert verified.
Definition test_verifier_passes : partial unit :=
  result ← verify (mk_test_verifier true) [] (trunc 32 0) tt; assert result.
Definition test_verifier_fails : partial unit :=
  result ← verify (mk_test_verifier false) [] (trunc 32 0) tt; assert (negb result).

Definition sr25519_signature_with_good_sig : partial unit :=
  let pair := from_seed (repeat_byte Byte.x00) in
  let simplified_tx := bstr "hello world" in
  let sig := sign pair simplified_tx in
  verified ← sr25519_signature_verify (mk_sr25519 (public pair)) simplified_tx (trunc 32 0) sig;
  assert verified.

Definition sr25519_signature_with_bad_sig : partial unit :=
  let simplified_tx := bstr "hello world" in
  verified ← sr25519_signature_verify (mk_sr25519 H256_zero) simplified_tx (trunc 32 0) bad_sig;
  assert (negb verified).

Definition p2pkh_success : partial unit :=
  let pair := from_seed (repeat_byte Byte.x00) in
  let p2pkh := mk_p2pkh (blake2_256 (bytesN_val (public pair))) in
  let simplified_tx := bstr "hello world" in
  let sig := sign pair simplified_tx in
  verified ← p2pkh_verify p2pkh simplified_tx (trunc 32 0) (public pair, sig);
  assert verified.

Definition p2pkh_correct_pubkey_bad_sig : partial unit :=
  let pair := from_seed (repeat_byte Byte.x00) in
  let p2pkh := mk_p2pkh (blake2_256 (bytesN_val (public pair))) in
  let simplified_tx := bstr "hello world" in
  verified ← p2pkh_verify p2pkh simplified_tx (trunc 32 0) (public pair, bad_sig);
  assert (negb verified).

Definition p2pkh_incorrect_pubkey_but_valid_sig_from_provided_pubkey : partial unit :=
  let owner_pair := from_seed (repeat_byte Byte.x00) in
  let p2pkh := mk_p2pkh (blake2_256 (bytesN_val (public owner_pair))) in
  let simplified_tx := bstr "hello world" in
  let attacker_pair := from_seed (repeat_byte Byte.x01) in
  let attacker_sig := sign attacker_pair simplified_tx in
  verified ← p2pkh_verify p2pkh simplified_tx (trunc 32 0) (public attacker_pair, attacker_sig);
  assert (negb verified).

Definition p2pkh_incorrect_pubkey_and_bogus_sig : partial unit :=
  let owner_pair := from_seed (repeat_byte Byte.x00) in
  let p2pkh := mk_p2pkh (blake2_256 (bytesN_val (public owner_pair))) in
  let simplified_tx := bstr "hello world" in
  let attacker_pair := from_seed (repeat_byte Byte.x01) in
  verified ← p2pkh_verify p2pkh simplified_tx (trunc 32 0) (public attacker_pair, bad_sig);
  assert (negb verified).

Definition time_lock_too_soon : partial unit :=
  verified ← time_lock_verify (mk_time_lock (trunc 32 100)) [] (trunc 32 10) tt;
  assert (negb verified).
Definition time_lock_exactly_on_time : partial unit :=
  verified ← time_lock_verify (mk_time_lock (trunc 32 100)) [] (trunc 32 100) tt;
  assert verified.
Definition time_lock_past_threshold : partial unit :=
  verified ← time_lock_verify (mk_time_lock (trunc 32 100)) [] (trunc 32 200) tt;
  assert verified.

Definition hash_lock_correct_secret : partial unit :=
  let secret := scale_encode (bstr "htlc ftw") in
  verified ← hash_lock_verify (new_from_secret secret) [] (trunc 32 0) secret;
  assert verified.
Definition hash_lock_wrong_secret : partial unit :=
  let secret := scale_encode (bstr "htlc ftw") in
  let incorrect := scale_encode (bstr "there is no second best") in
  verified ← hash_lock_verify (new_from_secret secret) [] (trunc 32 0) incorrect;
  assert (negb verified).

Definition THRESHOLD : u32 := trunc 32 100.

Definition htlc_claim_success : partial unit :=
  let secret := scale_encode (bstr "htlc ftw") in
  let recipient_pair := from_seed (repeat_byte Byte.x00) in
  let refunder_pair := from_seed (repeat_byte Byte.x01) in
  let htlc := mk_htlc (blake2_256 secret) (public recipient_pair) THRESHOLD
                (public refunder_pair) in
  let simplified_tx := bstr "hello world" in
  let redeemer := Claim secret (sign recipient_pair simplified_tx) in
  verified ← htlc_verify htlc simplified_tx (trunc 32 0) redeemer;
  assert verified.

Definition htlc_claim_wrong_secret : partial unit :=
  let secret := scale_encode (bstr "htlc ftw") in
  let recipient_pair := from_seed (repeat_byte Byte.x00) in
  let refunder_pair := from_seed (repeat_byte Byte.x01) in
  let htlc := mk_htlc (blake2_256 secret) (public recipient_pair) THRESHOLD
                (public refunder_pair) in
  let incorrect_secret := scale_encode (bstr "there is no second best") in
  let simplified_tx := bstr "hello world" in
  let redeemer := Claim incorrect_secret (sign recipient_pair simplified_tx) in
  verified ← htlc_verify htlc simplified_tx (trunc 32 0) redeemer;
  assert (negb verified).

Definition htlc_claim_bogus_signature : partial unit :=
  let secret := scale_encode (bstr "htlc ftw") in
  let recipient_pair := from_seed (repeat_byte Byte.x00) in
  let refunder_pair := from_seed (repeat_byte Byte.x01) in
  let htlc := mk_htlc (blake2_256 secret) (public recipient_pair) THRESHOLD
                (public refunder_pair) in
  let simplified_tx := bstr "hello world" in
  let redeemer := Claim secret bad_sig in
  verified ← htlc_verify htlc simplified_tx (trunc 32 0) redeemer;
  assert (negb verified).

Definition htlc_claim_fails_when_signature_is_from_refunder : partial unit :=
  let secret := scale_encode (bstr "htlc ftw") in
  let recipient_pair := from_seed (repeat_byte Byte.x00) in
  let refunder_pair := from_seed (repeat_byte Byte.x01) in
  let htlc := mk_htlc (blake2_256 secret) (public recipient_pair) THRESHOLD
                (public refunder_pair) in
  let simplified_tx := bstr "hello world" in
  let redeemer := Claim secret (sign refunder_pair simplified_tx) in
  verified ← htlc_verify htlc simplified_tx (trunc 32 0) redeemer;
  assert (negb verified).

Definition htlc_refund_success : partial unit :=
  let secret := scale_encode (bstr "htlc ftw") in
  let recipient_pair := from_seed (repeat_byte Byte.x00) in
  let refunder_pair := from_seed (repeat_byte Byte.x01) in
  let htlc := mk_htlc (blake2_256 secret) (public recipient_pair) THRESHOLD
                (public refunder_pair) in
  let simplified_tx := bstr "hello world" in
  let redeemer := Refund (sign refunder_pair simplified_tx) in
  verified ← htlc_verify htlc simplified_tx (trunc 32 (2 * uval THRESHOLD)) redeemer;
  assert verified.

Definition htlc_refund_too_early : partial unit :=
  let secret := scale_encode (bstr "htlc ftw") in
  let recipient_pair := from_seed (repeat_byte Byte.x00) in
  let refunder_pair := from_seed (repeat_byte Byte.x01) in
  let htlc := mk_htlc (blake2_256 secret) (public recipient_pair) THRESHOLD
                (public refunder_pair) in
  let simplified_tx := bstr "hello world" in
  let redeemer := Refund (sign refunder_pair simplified_tx) in
  verified ← htlc_verify htlc simplified_tx (trunc 32 0) redeemer;
  assert (negb verified).

Definition htlc_refund_bogus_sig : partial unit :=
  let secret := scale_encode (bstr "htlc ftw") in
  let recipient_pair := from_seed (repeat_byte Byte.x00) in
  let refunder_pair := from_seed (repeat_byte Byte.x01) in
  let htlc := mk_htlc (blake2_256 secret) (public recipient_pair) THRESHOLD
                (public refunder_pair) in
  let simplified_tx := bstr "hello world" in
  let redeemer := Refund bad_sig in
  verified ← htlc_verify htlc simplified_tx (trunc 32 (2 * uval THRESHOLD)) redeemer;
  assert (negb verified).

Definition htlc_refund_fails_when_signature_is_from_recipient : partial unit :=
  let secret := scale_encode (bstr "htlc ftw") in
  let recipient_pair := from_seed (repeat_byte Byte.x00) in
  let refunder_pair := from_seed (repeat_byte Byte.x01) in
  let htlc := mk_htlc (blake2_256 secret) (public recipient_pair) THRESHOLD
                (public refunder_pair) in
  let simplified_tx := bstr "hello world" in
  let redeemer := Refund (sign recipient_pair simplified_tx) in
  verified ← htlc_verify htlc simplified_tx (trunc 32 (2 * uval THRESHOLD)) redeemer;
  assert (negb verified).

Definition threshold_multisig_with_enough_sigs_passes : partial unit :=
  let threshold := trunc 8 2 in
  let pairs := generate_n_pairs threshold in
  let signatories := map public pairs in
  let simplified_tx := bstr "hello_world" in
  let sigs := map (λ '(i, p), mk_signature_and_index (sign p simplified_tx) (trunc 8 (N.of_nat i)))
                (enumerate pairs) in
  let threshold_multisig := mk_multisig threshold signatories in
  verified ← multisig_verify threshold_multisig simplified_tx (trunc 32 0) sigs;
  assert verified.

Definition threshold_multisig_not_enough_sigs_fails : partial unit :=
  let threshold := trunc 8 3 in
  let pairs := generate_n_pairs threshold in
  let signatories := map public pairs in
  let simplified_tx := bstr "hello_world" in
  let sigs := map (λ '(i, p), mk_signature_and_index (sign p simplified_tx) (trunc 8 (N.of_nat i)))
                (enumerate (take (N.to_nat (uval threshold) - 1) pairs)) in
  let threshold_multisig := mk_multisig threshold signatories in
  verified ← multisig_verify threshold_multisig simplified_tx (trunc 32 0) sigs;
  assert (negb verified).

Definition threshold_multisig_extra_sigs_still_passes : partial unit :=
  let threshold := trunc 8 2 in
  let pairs := generate_n_pairs (wrapping_add threshold (trunc 8 1)) in
  let signatories := map public pairs in
  let simplified_tx := bstr "hello_world" in
  let sigs := map (λ '(i, p), mk_signature_and_index (sign p simplified_tx) (trunc 8 (N.of_nat i)))
                (enumerate pairs) in
  let threshold_multisig := mk_multisig threshold signatories in
  verified ← multisig_verify threshold_multisig simplified_tx (trunc 32 0) sigs;
  assert verified.

Definition threshold_multisig_replay_sig_attack_fails : partial unit :=
  let threshold := trunc 8 2 in
  let pairs := generate_n_pairs threshold in
  let signatories := map public pairs in
  let simplified_tx := bstr "hello_world" in
  let sigs := map (λ p, mk_signature_and_index (sign p simplified_tx) (trunc 8 0))
                (omap id [head pairs; head pairs]) in
  let threshold_multisig := mk_multisig threshold signatories in
  verified ← multisig_verify threshold_multisig simplified_tx (trunc 32 0) sigs;
  assert (negb verified).

Definition threshold_multisig_has_duplicate_signatories_fails : partial unit :=
  let threshold := trunc 8 2 in
  let pairs := generate_n_pairs threshold in
  let signatories := map public (omap id [head pairs; head pairs]) in
  let simplified_tx := bstr "hello_world" in
  let sigs := map (λ '(i, p), mk_signature_and_index (sign p simplified_tx) (trunc 8 (N.of_nat i)))
                (enumerate pairs) in
  let threshold_multisig := mk_multisig threshold signatories in
  verified ← multisig_verify threshold_multisig simplified_tx (trunc 32 0) sigs;
  assert (negb verified).

Definition verifier_tests : list (partial unit) := [
  up_for_grabs_always_verifies; test_verifier_passes; test_verifier_fails;
  sr25519_signature_with_good_sig; sr25519_signature_with_bad_sig;
  p2pkh_success; p2pkh_correct_pubkey_bad_sig;
  p2pkh_incorrect_pubkey_but_valid_sig_from_provided_pubkey;
  p2pkh_incorrect_pubkey_and_bogus_sig;
  time_lock_too_soon; time_lock_exactly_on_time; time_lock_past_threshold;
  hash_lock_correct_secret; hash_lock_wrong_secret;
  htlc_claim_success; htlc_claim_wrong_secret; htlc_claim_bogus_signature;
  htlc_claim_fails_when_signature_is_from_refunder;
  htlc_refund_success; htlc_refund_too_early; htlc_refund_bogus_sig;
  htlc_refund_fails_when_signature_is_from_recipient;
  threshold_multisig_with_enough_sigs_passes; threshold_multisig_not_enough_sigs_fails;
  threshold_multisig_extra_sigs_still_passes; threshold_multisig_replay_sig_attack_fails;
  threshold_multisig_has_duplicate_signatories_fails].

Lemma verifier_tests_pass :
  map passes (map (λ t, mk_test t None) verifier_tests) = replicate 27 true.
Proof. by_vm. Qed.

(** ** [dynamic_typing.rs], [types.rs] and [constraint_checker.rs] *)

Record Byte : Type := mk_byte { byte_value : u8 }.
#[local] Instance byte_codec : Codec Byte := iso_codec byte_value mk_byte.
#[local] Instance byte_data : UtxoData Byte := to_bytesN 4 (bstr "byte").
#[local] Instance byte_eq_dec : EqDecision Byte.
Proof. solve_decision. Defined.

Definition extract_works : partial unit :=
  let original_b := mk_byte (trunc 8 4) in
  let dynamically_typed_b := typed_from original_b in
  let extracted_b := extract Byte dynamically_typed_b in
  assert_eq extracted_b (Ok original_b).

Definition extract_wrong_type : partial unit :=
  let original_b := mk_byte (trunc 8 4) in
  let dynamically_typed_b := typed_from original_b in
  let extracted_b := extract Bogus dynamically_typed_b in
  assert_eq extracted_b (Err WrongType).

Definition extract_decode_fails : partial unit :=
  let original_b := mk_byte (trunc 8 4) in
  let dynamically_typed_b := mk_typed [] (type_id (typed_from original_b)) in
  let extracted_b := extract Byte dynamically_typed_b in
  assert_eq extracted_b (Err DecodingFailed).

Definition display_wrong_type_error : partial unit :=
  let actual := dynamic_typing_error_fmt WrongType in
  let expected := "dynamic type does not match extraction target" in
  assert_eq actual expected.

Definition display_decoding_failed_error : partial unit :=
  let actual := dynamic_typing_error_fmt DecodingFailed in
  let expected := "failed to decode dynamically typed data with scale codec" in
  assert_eq actual expected.

Definition extrinsic_no_signed_payload : partial unit :=
  let checker := mk_test_checker true false in
  let tx := mk_transaction [] [] [] checker : TestTransaction in
  e ← partial_expect (transaction_new tx None) "called `Option::unwrap()` on a `None` value";
  assert_eq e tx;;
  assert_eq (is_signed e) None.

Definition extrinsic_is_signed_works : partial unit :=
  let checker := mk_test_checker true false in
  let tx := mk_transaction [] [] [] checker : TestTransaction in
  e ← partial_expect (transaction_new tx (Some tt)) "called `Option::unwrap()` on a `None` value";
  assert_eq e tx;;
  assert_eq (is_signed e) None.

Definition extrinsic_is_signed_works_for_inherents : partial unit :=
  let checker := mk_test_checker true true in
  let tx := mk_transaction [] [] [] checker : TestTransaction in
  e ← partial_expect (transaction_new tx (Some tt)) "called `Option::unwrap()` on a `None` value";
  assert_eq e tx;;
  assert_eq (is_signed e) (Some false).

(** [check(&[], &[], &[], &[])] of the testing checker *)
Definition check_nothing (c : TestConstraintChecker) : M storage Empty_set (result unit u64) :=
  attempt (check c [] [] [] []).

Definition test_checker_passes : partial unit :=
  result ← execute_with ∅ (check_nothing (mk_test_checker true false));
  assert_eq result (Ok (trunc 64 0)).
Definition test_checker_fails : partial unit :=
  result ← execute_with ∅ (check_nothing (mk_test_checker false false));
  assert_eq result (Err tt).

Definition type_tests : list (partial unit) := [
  extract_works; extract_wrong_type; extract_decode_fails;
  display_wrong_type_error; display_decoding_failed_error;
  extrinsic_no_signed_payload; extrinsic_is_signed_works;
  extrinsic_is_signed_works_for_inherents; test_checker_passes; test_checker_fails].

Lemma type_tests_pass :
  map passes (map (λ t, mk_test t None) type_tests) = replicate 10 true.
Proof. by_vm. Qed.
End UnitTests.
