(* ===== verification/VerifierFacts.v ===== *)
(** * VerifierFacts: what each verifier lets through

    The spending conditions of the time-dependent verifiers, and the exact
    verdict of the threshold multisignature. *)

From S2P Require Import Prelude Effects Scale Types Checker Concrete Verifiers Samples.

(** ** Lists of signer indices *)

(** Distinct indices below their number are exactly the first ones. *)
Lemma indices_complete (l : list nat) :
  NoDup l → Forall (λ i, i < List.length l) l → l ≡ₚ seq 0 (List.length l).
Proof.
  intros Hd Hl. apply submseteq_length_Permutation.
  - apply NoDup_submseteq; [done|]. intros i Hi. apply elem_of_seq.
    rewrite Forall_forall in Hl. specialize (Hl i Hi). lia.
  - by rewrite length_seq.
Qed.

Section multisig.
Context `{Scale, Host, VerifierCodecs}.
Implicit Types (self : ThresholdMultiSignature) (sigs : list SignatureAndIndex).

Definition signer (sig : SignatureAndIndex) : nat := N.to_nat (signer_index sig).

Lemma signer_inj sig1 sig2 : signer sig1 = signer sig2 → signer_index sig1 = signer_index sig2.
Proof. unfold signer. intros E. apply uint_eq. lia. Qed.

Lemma index_map_size sigs :
  size (list_to_map (rev (map (λ sig, (signer_index sig, signature sig)) sigs))
          : gmap u8 Signature) < List.length sigs ↔ ¬ NoDup (map signer sigs).
Proof.
  set (l := rev _). rewrite <-size_dom, dom_list_to_map_L.
  assert (list_to_set l.*1 = (list_to_set (map signer_index sigs) : gset u8)) as ->.
  { apply set_eq. intros x. rewrite !elem_of_list_to_set. unfold l.
    change (?f <$> ?l) with (map f l). rewrite map_rev, map_map, !list_elem_of_In.
    symmetry. apply in_rev. }
  pose proof (size_list_to_set_NoDup (map signer_index sigs)) as Hn.
  pose proof (size_list_to_set_le (map signer_index sigs)) as Hle.
  rewrite length_map in Hn, Hle.
  assert (map signer sigs = map (λ x, N.to_nat (uval x)) (map signer_index sigs)) as ->
    by (by rewrite map_map).
  assert (NoDup (map (λ x : u8, N.to_nat (uval x)) (map signer_index sigs)) ↔
          NoDup (map signer_index sigs)) as ->; [|rewrite <-Hn; lia].
  split; [apply NoDup_fmap_1|]. apply NoDup_fmap_2_strong.
  intros x y _ _ E. apply uint_eq. lia.
Qed.

Lemma valid_sigs_run self message sigs :
  valid_sigs self message sigs =
  if decide (Forall (λ i, i < List.length (signatories self)) (map signer sigs))
  then Value (map (λ _, tt) sigs) else Panicked "index out of bounds".
Proof.
  induction sigs as [|sig sigs IH]; [by rewrite decide_True|].
  cbn [valid_sigs map]. fold (signer sig).
  destruct (signatories self !! signer sig) as [p|] eqn:Hp.
  - apply lookup_lt_Some in Hp as Hl. simpl. rewrite IH.
    destruct (decide (Forall _ (map signer sigs))) as [Hf|Hf].
    + rewrite decide_True by (by constructor). done.
    + rewrite decide_False; [done|]. by intros [_ ?]%Forall_cons.
  - simpl. apply lookup_ge_None in Hp. rewrite decide_False; [done|].
    intros [? _]%Forall_cons. lia.
Qed.

Lemma has_duplicates self :
  has_duplicate_signatories self = bool_decide (¬ NoDup (signatories self)).
Proof.
  unfold has_duplicate_signatories. pose proof (size_list_to_set_NoDup (signatories self)).
  pose proof (size_list_to_set_le (signatories self)).
  apply eq_bool_prop_intro. rewrite bool_decide_spec, Is_true_true, Nat.ltb_lt. split.
  - intros ? Hd. assert (size (list_to_set (signatories self) : gset H256) =
      List.length (signatories self)) by tauto. lia.
  - intros Hd. assert (size (list_to_set (signatories self) : gset H256) ≠
      List.length (signatories self)) by tauto. lia.
Qed.

Lemma index_out_of_bounds_iff sigs :
  existsb (λ sig, N.leb (N.of_nat (List.length sigs)) (signer_index sig)) sigs = false ↔
  Forall (λ i, i < List.length (map signer sigs)) (map signer sigs).
Proof.
  rewrite length_map, Forall_map. generalize (List.length sigs) as n. intros n.
  induction sigs as [|sig sigs IH]; simpl; [by split|].
  rewrite orb_false_iff, Forall_cons, IH, N.leb_gt.
  assert (signer sig < n ↔ (uval (signer_index sig) < N.of_nat n)%N) as ->
    by (unfold signer; lia). done.
Qed.

(** The verdict: the indices must be the first ones, in some order. *)
Lemma multisig_run self message height sigs :
  let n := List.length sigs in
  multisig_verify self message height sigs =
  if decide (NoDup (signatories self) ∧ (threshold self ≤ N.of_nat n)%N ∧
             map signer sigs ≡ₚ seq 0 n)
  then if decide (n ≤ List.length (signatories self)) then Value true
       else Panicked "index out of bounds"
  else Value false.
Proof.
  cbv zeta. unfold multisig_verify. rewrite has_duplicates.
  case_bool_decide as Hd; [rewrite decide_False by tauto; done|].
  destruct (N.ltb_spec (N.of_nat (List.length sigs)) (threshold self)) as [Ht|Ht].
  { rewrite decide_False by (intros (_ & ? & _); lia). done. }
  destruct (existsb _ sigs) eqn:Hx.
  { rewrite decide_False; [done|]. intros (_ & _ & Hp).
    apply not_false_iff_true in Hx. apply Hx, index_out_of_bounds_iff.
    rewrite length_map. apply Forall_forall. intros i Hi. rewrite Hp in Hi.
    apply elem_of_seq in Hi. lia. }
  apply index_out_of_bounds_iff in Hx.
  pose proof (index_map_size sigs) as Hs.
  destruct (Nat.ltb_spec (size (list_to_map (rev (map (λ sig, (signer_index sig, signature sig))
    sigs)) : gmap u8 Signature)) (List.length sigs)) as [Hlt|Hge].
  { rewrite decide_False; [done|]. intros (_ & _ & Hp). apply Hs in Hlt. apply Hlt.
    rewrite Hp. apply NoDup_seq. }
  assert (NoDup (map signer sigs)) as Hn by (apply dec_stable; intros Hn%Hs; lia).
  pose proof (indices_complete _ Hn Hx) as Hp. rewrite length_map in Hp.
  rewrite (decide_True _ _ (conj Hd (conj Ht Hp))), valid_sigs_run.
  assert (Forall (λ i, i < List.length (signatories self)) (map signer sigs) ↔
          List.length sigs ≤ List.length (signatories self)) as Hb.
  { rewrite Hp, Forall_seq. split; [|lia]. intros Hb.
    destruct (List.length sigs) as [|n]; [lia|]. specialize (Hb n). lia. }
  destruct (decide (Forall _ _)); [rewrite decide_True by tauto|by rewrite decide_False by tauto].
  simpl. rewrite length_map. f_equal. by apply N.leb_le.
Qed.

(** C30: The verdict of the threshold multisignature.  It is true exactly when
    the signatories are distinct, at least the threshold of signatures are given
    and their indices are [0, 1, .., n - 1] in some order, for as many signatures
    as there are signatories at most; with distinct indices below the number of
    signatures but more signatures than signatories it panics; and it depends
    on the indices only, not on the signatures. *)
Theorem multisig_verdict self message height sigs :
  (multisig_verify self message height sigs = Value true ↔
   NoDup (signatories self) ∧ (threshold self ≤ N.of_nat (List.length sigs))%N ∧
   map signer sigs ≡ₚ seq 0 (List.length sigs) ∧
   List.length sigs ≤ List.length (signatories self)) ∧
  ((∃ w, multisig_verify self message height sigs = Panicked w) ↔
   NoDup (signatories self) ∧ (threshold self ≤ N.of_nat (List.length sigs))%N ∧
   map signer sigs ≡ₚ seq 0 (List.length sigs) ∧
   List.length (signatories self) < List.length sigs) ∧
  (∀ sigs', map signer sigs' = map signer sigs →
     multisig_verify self message height sigs' = multisig_verify self message height sigs).
Proof.
  split; [|split].
  - rewrite multisig_run. cbv zeta. destruct (decide _); [destruct (decide _)|]; naive_solver.
  - rewrite multisig_run. cbv zeta. destruct (decide _) as [Hd|Hd]; [destruct (decide _)|].
    + split; [by intros [? ?]|]. lia.
    + split; [|by eauto]. intros _. repeat (split; [naive_solver|]). lia.
    + split; [by intros [? ?]|]. naive_solver.
  - intros sigs' E. rewrite !multisig_run. cbv zeta.
    assert (List.length sigs' = List.length sigs) as ->
      by (rewrite <-(length_map signer sigs), <-E; by rewrite length_map).
    by rewrite E.
Qed.

(** Nobody has to sign.  For distinct signatories (at most 256) and a threshold they
    can meet, any signatures at all, one per signatory, satisfy the verifier. *)
Theorem multisig_forged self message height (forge : nat → Signature) :
  let n := List.length (signatories self) in
  NoDup (signatories self) → n ≤ 256 → (threshold self ≤ N.of_nat n)%N →
  multisig_verify self message height
    (map (λ i, mk_signature_and_index (forge i) (trunc 8 (N.of_nat i))) (seq 0 n)) =
  Value true.
Proof.
  intros n Hd Hn Ht. rewrite multisig_run. cbv zeta. rewrite length_map, length_seq.
  rewrite (decide_True (P := _ ∧ _)); [by rewrite decide_True|].
  split; [done|]. split; [done|]. rewrite map_map.
  rewrite <-(map_id (seq 0 n)) at 2. erewrite map_ext_in; [reflexivity|].
  intros i Hi%in_seq. unfold signer. cbn [signer_index].
  rewrite uval_trunc by lia. unfold id. lia.
Qed.

(** The unspendable multisignature is never satisfied. *)
Theorem multisig_unspendable message height sigs u :
  new_unspendable (V := ThresholdMultiSignature) = Some u →
  multisig_verify u message height sigs ≠ Value true.
Proof.
  intros [= <-]. rewrite multisig_run. cbv zeta. cbn [signatories threshold].
  destruct (decide _) as [(_ & Ht & _)|]; [|done].
  destruct (decide _) as [Hn|]; [|done]. exfalso. simpl in Hn.
  change (uval (trunc 8 1)) with 1%N in Ht. lia.
Qed.
End multisig.

(** ** Locks *)

Section locks.
Context `{Scale, Host, VerifierCodecs}.

(** C31: The two paths of the hash time lock contract.  It is spent exactly by
    a secret with the recorded hash and the recipient's signature, at any
    height, or by the refunder's signature once the claim period has ended; it
    never panics, and what satisfies it at one height does so at any later
    one. *)
Theorem htlc_spend_paths (self : HashTimeLockContract) message (h : u32) p :
  (htlc_verify self message h p = Value true ↔
   (∃ secret sig, p = Claim secret sig ∧ blake2_256 secret = hash_lock self ∧
      sr25519_verify sig message (recipient_pubkey self) = true) ∨
   (∃ sig, p = Refund sig ∧ (claim_period_end self ≤ h)%N ∧
      sr25519_verify sig message (refunder_pubkey self) = true)) ∧
  (htlc_verify self message h p = Value true ∨ htlc_verify self message h p = Value false) ∧
  (∀ h' : u32, (h ≤ h')%N → htlc_verify self message h p = Value true →
     htlc_verify self message h' p = Value true).
Proof.
  destruct p as [secret sig|sig]; unfold htlc_verify.
  - split; [|split; [by destruct (_ && _); auto|done]]. split.
    + intros [= [Hb%bool_decide_eq_true Hs]%andb_true_iff]. left. eauto.
    + intros [(? & ? & [= <- <-] & Hb & ->)|(? & ? & _)]; [|done].
      by rewrite bool_decide_true.
  - split; [|split; [by destruct (_ && _); auto|]].
    + split.
      * intros [= [Hb%N.leb_le Hs]%andb_true_iff]. right. eauto.
      * intros [(? & ? & ? & _)|(? & [= <-] & Hb & ->)]; [done|].
        by rewrite (proj2 (N.leb_le _ _)).
    + intros h' Hh [= [Hb%N.leb_le ->]%andb_true_iff].
      by rewrite (proj2 (N.leb_le _ _)) by lia.
Qed.

(** A hash lock made from a secret is opened by that secret, and by
    another one only if the two collide; a time lock opens at its height and
    stays open. *)
Theorem locks_open secret secret' message (h h' : u32) (t : TimeLock) :
  verify (new_from_secret secret) message h secret = Value true ∧
  (verify (new_from_secret secret) message h secret' = Value true →
   blake2_256 secret' = blake2_256 secret) ∧
  (verify t message h tt = Value true ↔ (unlock_block_height t ≤ h)%N) ∧
  ((h ≤ h')%N → verify t message h tt = Value true → verify t message h' tt = Value true).
Proof.
  cbn. unfold hash_lock_verify, time_lock_verify. cbn [new_from_secret lock_hash].
  split; [by rewrite bool_decide_true|]. split; [|split].
  - by intros [= ?%bool_decide_eq_true].
  - split; [by intros [= ?%N.leb_le]|]. intros. by rewrite (proj2 (N.leb_le _ _)).
  - intros Hh [= Hb%N.leb_le]. by rewrite (proj2 (N.leb_le _ _)) by lia.
Qed.
End locks.

(** ** Witnesses *)

Module Witnesses.
Import Sample.

Definition key (n : N) : H256 := to_bytesN 32 (le_bytes 1 n).

Lemma multisig_forged_witness :
  multisig_verify (mk_multisig (trunc 8 2) [key 1; key 2]) [] (trunc 32 1)
    (map (λ i, mk_signature_and_index (to_bytesN 64 []) (trunc 8 (N.of_nat i))) (seq 0 2)) =
  Value true.
Proof.
  apply (multisig_forged (mk_multisig (trunc 8 2) [key 1; key 2]) [] (trunc 32 1)
           (λ _, to_bytesN 64 [])); [by_vm|simpl; lia|by_vm].
Defined.

Lemma multisig_unspendable_witness :
  multisig_verify (mk_multisig (trunc 8 1) []) [] (trunc 32 1) [] ≠ Value true.
Proof. by apply (multisig_unspendable [] (trunc 32 1) []). Defined.
End Witnesses.
