(* ===== verification/ExecutiveFacts.v ===== *)
(** * ExecutiveFacts: what validating and applying a transaction means

    The abstract specification: [inspect] says what one input is worth against a
    ledger, [accepted] when a transaction may be applied, [ledger_apply] what
    applying does.  The lemmas show that the loops of [Executive] compute exactly
    that; the properties are at the end. *)

From S2P Require Import Prelude Effects Scale Types Checker UtxoSet Executive.

(** ** The abstract specification *)

(** What an input is worth: its utxo is absent, it is redeemed or evicted
    (with the payload), it is refused, or checking it panics. *)
Inductive input_status : Type :=
| Missing
| Redeemed (d : DynamicallyTypedData)
| Evicted (d : DynamicallyTypedData)
| Refused
| Stuck (why : string).

Definition height_at `{CoreCodecs} (s : storage) : option u32 :=
  s !! HEIGHT_KEY ≫= decode_value.

Section spec.
Context `{CoreCodecs, Inherents} {V C : Type} `{Verifier V, !ConstraintChecker C}.
Implicit Types (look : OutputRef → option (Output V)) (tx : Transaction V C).

Definition inspect look (height : option u32) (message : bytes) (i : Input) : input_status :=
  match look (output_ref i) with
  | None => Missing
  | Some utxo =>
    match redeemer i with
    | Eviction => Evicted (payload utxo)
    | Redemption r =>
      match decode_value (A := Redeemer V) r with
      | None => Refused
      | Some r =>
        match height with
        | None => Stuck "A height is stored at the beginning of block one and never cleared."
        | Some h =>
          match verify (verifier utxo) message h r with
          | Value true => Redeemed (payload utxo)
          | Value false => Refused
          | Panicked w => Stuck w
          end
        end
      end
    end
  end.

Definition redeemed_data (o : input_status) : option DynamicallyTypedData :=
  match o with Redeemed d => Some d | _ => None end.
Definition evicted_data (o : input_status) : option DynamicallyTypedData :=
  match o with Evicted d => Some d | _ => None end.
(** The loop goes past the input. *)
Definition passes (o : input_status) : bool :=
  match o with Missing | Redeemed _ | Evicted _ => true | _ => false end.
(** The input may be consumed. *)
Definition spendable (o : input_status) : bool :=
  match o with Redeemed _ | Evicted _ => true | _ => false end.

(** The data handed to the constraint checker. *)
Definition statuses look height tx : list input_status :=
  map (inspect look height (scale_encode (strip tx))) (inputs tx).
Definition inputs_of look height tx : list DynamicallyTypedData :=
  omap redeemed_data (statuses look height tx).
Definition evictions_of look height tx : list DynamicallyTypedData :=
  omap evicted_data (statuses look height tx).
Definition peeks_of look tx : list DynamicallyTypedData :=
  map payload (omap look (peeks tx)).

(** The references a pool transaction still waits for, and those it brings. *)
Definition missing_of look tx : list bytes :=
  map scale_encode (filter (λ o, look o = None) (map output_ref (inputs tx) ++ peeks tx)).
Definition provided_by tx : list bytes :=
  map (λ i, scale_encode (out_ref tx i)) (seq 0 (List.length (outputs tx))).

(** No two inputs have the same encoding, nobody refuses an input, no output
    exists yet. *)
Record well_formed look height tx : Prop := {
  wf_distinct : NoDup (inputs tx);
  wf_inputs : Forall (λ o, passes o = true) (statuses look height tx);
  wf_outputs : ∀ i, i < List.length (outputs tx) → look (out_ref tx i) = None;
}.

(** Moreover everything it refers to exists. *)
Record accepted look height tx : Prop := {
  acc_distinct : NoDup (inputs tx);
  acc_inputs : Forall (λ o, spendable o = true) (statuses look height tx);
  acc_peeks : Forall (λ o, is_Some (look o)) (peeks tx);
  acc_outputs : ∀ i, i < List.length (outputs tx) → look (out_ref tx i) = None;
}.

(** Consume the inputs, then create the outputs. *)
Definition ledger_consume (L : ledger V) (l : list Input) : ledger V :=
  fold_left (λ L i, delete (output_ref i) L) l L.
Definition ledger_create (tx : Transaction V C) (L : ledger V)
    (l : list (nat * Output V)) : ledger V :=
  fold_left (λ L p, <[out_ref tx p.1 := p.2]> L) l L.
Definition ledger_apply (L : ledger V) tx : ledger V :=
  ledger_create tx (ledger_consume L (inputs tx)) (enumerate (outputs tx)).

(** The same on the storage itself. *)
Definition storage_apply (s : storage) tx : storage :=
  fold_left (λ s p, <[scale_encode (out_ref tx p.1) := scale_encode p.2]> s)
    (enumerate (outputs tx))
    (fold_left (λ s i, delete (scale_encode (output_ref i)) s) (inputs tx) s).
End spec.

(** ** The loops *)

Section loops.
Context `{CoreCodecs, Inherents} {V C : Type} `{Verifier V, !ConstraintChecker C}.
Implicit Types (s : storage) (acc : gathered) (tx : Transaction V C).

Definition add_status acc (i : Input) (o : input_status) : gathered :=
  match o with
  | Missing => mk_gathered (input_data acc) (evicted_input_data acc)
                 (missing_inputs acc ++ [scale_encode (output_ref i)])
  | Redeemed d => mk_gathered (input_data acc ++ [d]) (evicted_input_data acc)
                    (missing_inputs acc)
  | Evicted d => mk_gathered (input_data acc) (evicted_input_data acc ++ [d])
                   (missing_inputs acc)
  | _ => acc
  end.

Lemma block_height_run {E} s :
  (block_height : M storage E u32) s =
  match height_at s with
  | Some h => Ret h s
  | None => Panic "A height is stored at the beginning of block one and never cleared."
  end.
Proof.
  unfold block_height, height_at. rewrite bind_run. simpl.
  by destruct (_ ≫= _).
Qed.

(** One turn of the input loop, by the status of the input. *)
Lemma check_input_run message acc i s :
  check_input (V := V) (C := C) message acc i s =
  match inspect (utxo_at (V := V) s) (height_at s) message i with
  | Refused => Throw VerifierError s
  | Stuck w => Panic w
  | o => Ret (add_status acc i o) s
  end.
Proof.
  unfold check_input, inspect. rewrite (bind_ret _ _ _ _ _ (peek_utxo_run s _)).
  destruct (utxo_at s (output_ref i)) as [utxo|]; [|done].
  destruct (redeemer i) as [r|]; [|done].
  destruct (decode_value r) as [r'|]; [|done]. simpl.
  rewrite bind_mret, bind_run, block_height_run. destruct (height_at s) as [h|]; [|done]. simpl.
  rewrite bind_run. by destruct (verify _ _ _ _) as [[]|w].
Qed.

Lemma check_inputs_ret message l acc s g s' :
  for_each l (check_input (V := V) (C := C) message) acc s = Ret g s' ↔
  s' = s ∧
  Forall (λ i, passes (inspect (utxo_at (V := V) s) (height_at s) message i) = true) l ∧
  g = fold_left (λ acc i,
        add_status acc i (inspect (utxo_at (V := V) s) (height_at s) message i)) l acc.
Proof.
  revert acc. induction l as [|i l IH]; intros acc; cbn [for_each fold_left].
  - unfold mret, M_ret. rewrite Forall_nil. naive_solver.
  - rewrite Forall_cons. unfold bind, mbind, M_bind. rewrite check_input_run.
    destruct (inspect _ _ _ i); cbn [passes]; rewrite ?IH; naive_solver.
Qed.

Lemma add_statuses look height message l acc :
  Forall (λ i, passes (inspect (V := V) look height message i) = true) l →
  fold_left (λ acc i, add_status acc i (inspect look height message i)) l acc =
  mk_gathered
    (input_data acc ++ omap redeemed_data (map (inspect look height message) l))
    (evicted_input_data acc ++ omap evicted_data (map (inspect look height message) l))
    (missing_inputs acc ++
     map scale_encode (filter (λ o, look o = None) (map output_ref l))).
Proof.
  revert acc. induction l as [|i l IH]; intros acc Hl.
  - destruct acc. cbn. by rewrite !app_nil_r.
  - apply Forall_cons in Hl as [Hi Hl]. cbn [fold_left map omap list_omap].
    rewrite IH by done. rewrite filter_cons.
    unfold inspect in *. destruct (look (output_ref i)) as [u|] eqn:Hu.
    + rewrite decide_False by done.
      destruct (redeemer i) as [r|]; [|by destruct acc; cbn; rewrite <-app_assoc].
      destruct (decode_value r); [|done]. destruct height; [|done].
      destruct (verify _ _ _ _) as [[]|]; try done. destruct acc; cbn. by rewrite <-app_assoc.
    + rewrite decide_True by done. destruct acc; cbn. by rewrite <-app_assoc.
Qed.

Lemma check_peeks_run l pd mi s :
  for_each l (check_peek (V := V) (C := C)) (pd, mi) s =
  Ret (pd ++ map payload (omap (utxo_at (V := V) s) l),
       mi ++ map scale_encode (filter (λ o, utxo_at (V := V) s o = None) l)) s.
Proof.
  revert pd mi. induction l as [|o l IH]; intros pd mi.
  - cbn. by rewrite !app_nil_r.
  - cbn [for_each]. rewrite bind_run. unfold check_peek at 1.
    rewrite (bind_ret _ _ _ _ _ (peek_utxo_run s o)), filter_cons.
    cbn [omap list_omap]. destruct (utxo_at s o) as [u|] eqn:Hu.
    + cbn [mret M_ret]. unfold mret, M_ret. rewrite IH, decide_False by done.
      by rewrite <-app_assoc.
    + unfold mret, M_ret. rewrite IH, decide_True by done. by rewrite <-app_assoc.
Qed.

Lemma check_output_run tx u i s :
  check_output (V := V) (C := C) tx u i s =
  if decide (utxo_at (V := V) s (out_ref tx i) = None) then Ret tt s
  else Throw PreExistingOutput s.
Proof.
  unfold check_output. rewrite (bind_ret _ _ _ _ _ (peek_utxo_run s _)).
  case_bool_decide; [by rewrite decide_True|by rewrite decide_False].
Qed.

Lemma check_outputs_ret tx l s u s' :
  for_each l (check_output (V := V) (C := C) tx) tt s = Ret u s' ↔
  s' = s ∧ Forall (λ i, utxo_at (V := V) s (out_ref tx i) = None) l.
Proof.
  destruct u. induction l as [|i l IH]; cbn [for_each].
  - unfold mret, M_ret. rewrite Forall_nil. naive_solver.
  - rewrite Forall_cons, bind_run, check_output_run. case_decide; [|naive_solver].
    rewrite IH. naive_solver.
Qed.

Lemma update_storage_run {E} tx s :
  (update_storage tx : M storage E unit) s = Ret tt (storage_apply s tx).
Proof.
  unfold update_storage, storage_apply. rewrite bind_run.
  assert (∀ l s, for_each l (λ _ input,
            bind (consume_utxo (V := V) (output_ref input)) (λ _, mret tt)) tt s =
          (Ret tt (fold_left (λ s i, delete (scale_encode (output_ref i)) s) l s)
            : outcome _ E _)) as ->.
  { intros l. induction l as [|i l IH]; intros s1; [done|].
    cbn [for_each fold_left]. by rewrite bind_run, bind_run, consume_utxo_run, <-IH. }
  assert (∀ l s, for_each l (λ _ '(index, output),
            store_utxo (out_ref tx index) output) tt s =
          (Ret tt (fold_left (λ s p,
            <[scale_encode (out_ref tx p.1) := scale_encode p.2]> s) l s)
            : outcome _ E _)) as ->; [|done].
  intros l. induction l as [|[i o] l IH]; intros s1; [done|].
  cbn [for_each fold_left]. rewrite bind_run. apply IH.
Qed.
End loops.

(** ** Validation *)

Section validation.
Context `{CoreLaws, Inherents} {V C : Type} `{Verifier V, !ConstraintChecker C}.
Implicit Types (s : storage) (tx : Transaction V C).
Abbreviation look s := (utxo_at (V := V) s).

Lemma distinct_inputs tx :
  size (input_set tx) = List.length (inputs tx) ↔ NoDup (inputs tx).
Proof.
  unfold input_set. rewrite <-(length_map scale_encode (inputs tx)), size_list_to_set_NoDup.
  apply (NoDup_fmap scale_encode).
Qed.

(** Past the checks on inputs, peeks and outputs, the missing references
    decide whether the constraint checker is consulted. *)
Definition check_all s tx : M storage (Error C) u64 :=
  check (checker tx) (inputs_of (look s) (height_at s) tx)
    (evictions_of (look s) (height_at s) tx) (peeks_of (look s) tx)
    (map payload (outputs tx)).

Lemma well_formed_loops s tx :
  well_formed (look s) (height_at s) tx ↔
  size (input_set tx) = List.length (inputs tx) ∧
  Forall (λ i, passes (inspect (look s) (height_at s) (scale_encode (strip tx)) i) = true)
    (inputs tx) ∧
  Forall (λ i, look s (out_ref tx i) = None) (seq 0 (List.length (outputs tx))).
Proof.
  rewrite distinct_inputs, (Forall_seq (λ i, look s (out_ref tx i) = None)).
  split.
  - intros [? Hp Ho]. unfold statuses in Hp. rewrite Forall_map in Hp. naive_solver lia.
  - intros (? & Hp & Ho). split; [done| |intros i ?; apply Ho; lia].
    unfold statuses. by rewrite Forall_map.
Qed.

Lemma validate_run s tx :
  well_formed (look s) (height_at s) tx →
  validate_tuxedo_transaction tx s =
  let v := mk_valid (missing_of (look s) tx) (provided_by tx)
             (trunc 64 0) (uint_max 64) true in
  if decide (missing_of (look s) tx = [])
  then bind (catch_err ConstraintCheckerError (check_all s tx)) (λ _, mret v) s
  else Ret v s.
Proof.
  intros (Hd & Hp & Ho)%well_formed_loops. unfold validate_tuxedo_transaction.
  rewrite bool_decide_true by done.
  rewrite (bind_ret _ _ _ _ _ (proj2 (check_inputs_ret _ _ _ _ _ _)
    (conj eq_refl (conj Hp eq_refl)))), add_statuses by done.
  rewrite bind_run, check_peeks_run.
  rewrite (bind_ret _ _ _ _ _ (proj2 (check_outputs_ret tx _ s tt s) (conj eq_refl Ho))).
  cbn [missing_inputs input_data evicted_input_data app].
  rewrite <-map_app, <-filter_app. fold (missing_of (look s) tx).
  case_decide as Hm; [rewrite bool_decide_false by auto|by rewrite bool_decide_true].
  by rewrite Hm.
Qed.

(** Validation returns exactly on well-formed transactions; the constraint
    checker is consulted only when nothing is missing. *)
Lemma validate_ret tx s v s' :
  validate_tuxedo_transaction tx s = Ret v s' ↔
  well_formed (look s) (height_at s) tx ∧
  v = mk_valid (missing_of (look s) tx) (provided_by tx)
        (trunc 64 0) (uint_max 64) true ∧
  if decide (missing_of (look s) tx = [])
  then ∃ p, check_all s tx s = Ret p s' else s' = s.
Proof.
  split.
  - intros Hv. assert (well_formed (look s) (height_at s) tx) as Hw.
    { revert Hv. unfold validate_tuxedo_transaction.
      case_bool_decide as Hd; [|done]. intros Hv.
      inv_bind Hv. apply check_inputs_ret in Hm as (-> & Hp & ->).
      rewrite bind_run, check_peeks_run in Hv. inv_bind Hv.
      apply check_outputs_ret in Hm as (-> & Ho). by apply well_formed_loops. }
    rewrite validate_run in Hv by done. cbv zeta in Hv.
    destruct (decide _); [|by simplify_eq].
    apply bind_ret_inv in Hv as (p & s1 & Hp%catch_err_ret & Hv).
    unfold mret, M_ret in Hv. simplify_eq. eauto.
  - intros (Hw & -> & Hs). rewrite validate_run by done. cbv zeta.
    destruct (decide _); [|by subst]. destruct Hs as [p Hp].
    rewrite bind_run. unfold catch_err. by rewrite Hp.
Qed.
End validation.

(** ** What applying does to the ledger *)

Section effect.
Context `{CoreLaws, Inherents} {V C : Type} `{Verifier V, !ConstraintChecker C}.
Implicit Types (s : storage) (L : ledger V) (tx : Transaction V C).

Lemma inspect_ext look1 look2 h message (i : Input) :
  (∀ o, look1 o = look2 o) →
  inspect (V := V) look1 h message i = inspect look2 h message i.
Proof. intros Hl. unfold inspect. by rewrite Hl. Qed.

Lemma accepted_ext look1 look2 h tx :
  (∀ o, look1 o = look2 o) → accepted look1 h tx → accepted look2 h tx.
Proof.
  intros Hl [Hd Hi Hp Ho]. split; [done|..].
  - unfold statuses in *. rewrite Forall_map in Hi |- *.
    eapply Forall_impl; [exact Hi|]. intros i. simpl. by rewrite (inspect_ext _ look2).
  - eapply Forall_impl; [exact Hp|]. intros o. simpl. by rewrite Hl.
  - intros i Hi'. rewrite <-Hl. by apply Ho.
Qed.

Lemma missing_nil look tx :
  missing_of (V := V) look tx = [] ↔
  Forall (λ i, is_Some (look (output_ref i))) (inputs tx) ∧
  Forall (λ o, is_Some (look o)) (peeks tx).
Proof.
  rewrite <-(Forall_map output_ref (λ o, is_Some (look o))), <-Forall_app, <-filter_none_nil.
  unfold missing_of. split; [apply map_eq_nil|by intros ->].
Qed.

Lemma accepted_well_formed look h tx :
  accepted look h tx ↔ well_formed look h tx ∧ missing_of look tx = [].
Proof.
  rewrite missing_nil. unfold statuses. split.
  - intros [Hd Hi Hp Ho]. unfold statuses in Hi. rewrite Forall_map in Hi. split; [split|split].
    + done.
    + unfold statuses. rewrite Forall_map. eapply Forall_impl; [exact Hi|].
      intros i. simpl. by destruct (inspect _ _ _ i).
    + done.
    + eapply Forall_impl; [exact Hi|]. intros i. simpl. unfold inspect.
      by destruct (look (output_ref i)).
    + done.
  - intros [[Hd Hi Ho] [Hin Hp]]. unfold statuses in Hi. rewrite Forall_map in Hi.
    split; [done| |done|done]. unfold statuses. rewrite Forall_map.
    rewrite Forall_forall in Hi, Hin |- *. intros i Hx.
    specialize (Hi i Hx). specialize (Hin i Hx). cbv beta in Hi, Hin. revert Hi.
    unfold inspect. destruct Hin as [u ->]. destruct (redeemer i); [|done].
    by repeat case_match.
Qed.

Lemma apply_ret tx s s' :
  apply_tuxedo_transaction tx s = Ret tt s' ↔
  accepted (utxo_at s) (height_at s) tx ∧
  ∃ p s1, check_all s tx s = Ret p s1 ∧ s' = storage_apply s1 tx.
Proof.
  unfold apply_tuxedo_transaction. rewrite bind_ret_inv, accepted_well_formed. split.
  - intros (v & s1 & (Hw & -> & Hc)%validate_ret & Hr). revert Hr. cbn [requires].
    case_bool_decide as Hm; [|done]. rewrite decide_True in Hc by done.
    rewrite update_storage_run. intros Hr. simplify_eq. naive_solver.
  - intros ((Hw & Hm) & p & s1 & Hc & ->). eexists _, s1. split.
    + apply validate_ret. split; [done|]. split; [done|]. rewrite decide_True by done. eauto.
    + cbn [requires]. by rewrite bool_decide_true, update_storage_run.
Qed.

Lemma represents_apply `{!LawfulCodec V} s L tx :
  represents s L → represents (storage_apply s tx) (ledger_apply L tx).
Proof.
  intros HL. unfold storage_apply, ledger_apply, ledger_create.
  assert (∀ l s L, represents s L → represents
    (fold_left (λ s i, delete (scale_encode (output_ref i)) s) l s)
    (ledger_consume L l)) as Hc.
  { induction l as [|i l IH]; intros s1 L1 Hr; [done|]. by apply IH, represents_delete. }
  apply (Hc (inputs tx)) in HL. revert HL.
  generalize (fold_left (λ s i, delete (scale_encode (output_ref i)) s) (inputs tx) s).
  generalize (ledger_consume L (inputs tx)).
  induction (enumerate (outputs tx)) as [|[i o] l IH]; intros L1 s1 Hr; [done|].
  by apply IH, represents_insert.
Qed.
End effect.
