(* ===== verification/Ledger.v ===== *)
(** * Ledger: what the executive promises about the UTXO set

    The properties of transaction validation and application: the complete
    classification of the outcomes, the refinement of the abstract ledger, the
    effect on every reference, no double spend, and what the transaction pool
    may rely on.  The checkers are assumed to leave the executive's keys alone
    ([CheckerFrame]). *)

From S2P Require Import Prelude Effects Scale Types Checker UtxoSet CheckerLaws Executive.
From S2P Require Import Concrete Verifiers Samples ExecutiveFacts.

(** ** The first failure of a transaction *)

(** Why a transaction is not even handed to its constraint checker. *)
Inductive failure (E : Type) : Type :=
| Rejects (e : UtxoError E)
| Aborts (why : string).
Arguments Rejects {E} _.
Arguments Aborts {E} _.

Section failure.
Context `{CoreCodecs, Inherents} {V C : Type} `{Verifier V, !ConstraintChecker C}.

(** The checks in the order of the code; the first input the loop does not go
    past decides between the input failures. *)
Definition first_failure (look : OutputRef → option (Output V)) (height : option u32)
    (tx : Transaction V C) : option (failure (Error C)) :=
  if bool_decide (¬ NoDup (inputs tx)) then Some (Rejects DuplicateInput) else
  match snd <$> list_find (λ o, passes o = false) (statuses look height tx) with
  | Some (Stuck w) => Some (Aborts w)
  | Some _ => Some (Rejects VerifierError)
  | None =>
    if bool_decide (Exists (λ i, is_Some (look (out_ref tx i)))
                      (seq 0 (List.length (outputs tx))))
    then Some (Rejects PreExistingOutput)
    else if bool_decide (missing_of look tx = []) then None
    else Some (Rejects MissingInput)
  end.
End failure.

(** The same loops as in [ExecutiveFacts], when they stop. *)
Section stops.
Context `{CoreLaws, Inherents} {V C : Type} `{Verifier V, !ConstraintChecker C}.
Implicit Types (s : storage) (acc : gathered) (tx : Transaction V C).
Abbreviation look s := (utxo_at (V := V) s).

Lemma check_inputs_stop message l acc s :
  ¬ Forall (λ i, passes (inspect (look s) (height_at s) message i) = true) l →
  for_each l (check_input (V := V) (C := C) message) acc s =
  match snd <$> list_find (λ o, passes o = false)
                  (map (inspect (look s) (height_at s) message) l) with
  | Some (Stuck w) => Panic w
  | _ => Throw VerifierError s
  end.
Proof.
  revert acc. induction l as [|i l IH]; intros acc Hl; [by destruct Hl|].
  cbn [for_each map list_find]. rewrite bind_run, check_input_run.
  rewrite Forall_cons, not_and_l in Hl. revert Hl.
  destruct (inspect _ _ _ i); cbn [passes]; intros [Hl|Hl]; try done;
    try (by rewrite decide_True); rewrite IH, decide_False by done;
    by destruct (list_find _ _) as [[]|].
Qed.

Lemma check_outputs_stop tx l s :
  Exists (λ i, is_Some (look s (out_ref tx i))) l →
  for_each l (check_output (V := V) (C := C) tx) tt s = Throw PreExistingOutput s.
Proof.
  induction l as [|i l IH]; intros Hl; [by inversion Hl|].
  cbn [for_each]. rewrite bind_run, check_output_run. case_decide as Hi; [|done].
  apply IH. apply Exists_cons in Hl as [[? ?]|]; [by simplify_eq|done].
Qed.

Lemma all_pass (l : list input_status) :
  snd <$> list_find (λ o, passes o = false) l = None ↔ Forall (λ o, passes o = true) l.
Proof.
  rewrite fmap_None, list_find_None. apply Forall_iff. intros o.
  destruct (passes o); naive_solver.
Qed.

(** Up to the missing inputs, which the pool tolerates, validation stops where
    [first_failure] says. *)
Lemma validate_stop tx s f :
  first_failure (look s) (height_at s) tx = Some f → f ≠ Rejects MissingInput →
  validate_tuxedo_transaction tx s =
  match f with Rejects e => Throw e s | Aborts w => Panic w end.
Proof.
  unfold first_failure, validate_tuxedo_transaction. pose proof (distinct_inputs tx) as Hn.
  case_bool_decide as Hd;
    [rewrite (bool_decide_false (size _ = _)) by tauto; naive_solver|].
  rewrite (bool_decide_true (size _ = _)) by tauto. cbv zeta. intros Hf Hm.
  destruct (decide (Forall (λ i, passes (inspect (look s) (height_at s)
    (scale_encode (strip tx)) i) = true) (inputs tx))) as [Hp|Hp].
  - rewrite (bind_ret _ _ _ _ _ (proj2 (check_inputs_ret _ _ _ _ _ _)
      (conj eq_refl (conj Hp eq_refl)))).
    rewrite bind_run, check_peeks_run.
    rewrite (proj2 (all_pass _)) in Hf by (unfold statuses; by rewrite Forall_map).
    case_bool_decide as Ho; [|by case_bool_decide; simplify_eq].
    rewrite bind_run, check_outputs_stop by done. by simplify_eq.
  - rewrite bind_run, check_inputs_stop by done. unfold statuses in Hf.
    destruct (snd <$> list_find _ _) as [[]|] eqn:Hfi; simplify_eq; try done.
    apply all_pass in Hfi. by rewrite Forall_map in Hfi.
Qed.

Lemma no_failure look h tx :
  first_failure (C := C) look h tx = None ↔ accepted look h tx.
Proof.
  rewrite accepted_well_formed. unfold first_failure. split.
  - case_bool_decide as Hd; [done|].
    destruct (snd <$> _) as [o|] eqn:Hf; [by destruct o|]. apply all_pass in Hf.
    case_bool_decide as Ho; [done|]. case_bool_decide as Hm; [|done].
    intros _. split; [split|]; try done. intros i Hi. apply eq_None_not_Some.
    intros Hs. apply Ho, Exists_exists. exists i. split; [|done]. apply elem_of_seq. lia.
  - intros [[Hd Hi Ho] Hm]. rewrite bool_decide_false by tauto.
    rewrite (proj2 (all_pass _)) by done. rewrite bool_decide_false, bool_decide_true; try done.
    intros (i & Hx & [u Hu])%Exists_exists. apply elem_of_seq in Hx.
    rewrite Ho in Hu by lia. done.
Qed.

Lemma missing_failure look h tx :
  first_failure (C := C) look h tx = Some (Rejects MissingInput) →
  well_formed look h tx ∧ missing_of look tx ≠ [].
Proof.
  unfold first_failure. case_bool_decide as Hd; [done|].
  destruct (snd <$> _) as [o|] eqn:Hf; [by destruct o|]. apply all_pass in Hf.
  case_bool_decide as Ho; [done|]. case_bool_decide as Hm; [done|].
  intros _. split; [split|]; try done. intros i Hi. apply eq_None_not_Some.
  intros Hs. apply Ho, Exists_exists. exists i. split; [|done]. apply elem_of_seq. lia.
Qed.
End stops.

(** ** The abstract ledger after a transaction *)

Section ledger.
Context `{CoreLaws, Inherents} {V C : Type} `{Verifier V, !ConstraintChecker C}.
Implicit Types (L : ledger V) (tx : Transaction V C).

Lemma out_ref_inj tx i j :
  (N.of_nat (List.length (outputs tx)) ≤ 2 ^ 32)%N →
  i < List.length (outputs tx) → j < List.length (outputs tx) →
  out_ref tx i = out_ref tx j → i = j.
Proof.
  intros Hn Hi Hj E. apply (f_equal (λ o, uval (index o))) in E. revert E.
  unfold out_ref. cbn [index]. rewrite !uval_trunc by lia. lia.
Qed.

Lemma out_refs_distinct tx :
  (N.of_nat (List.length (outputs tx)) ≤ 2 ^ 32)%N →
  NoDup (map (λ p, out_ref tx p.1) (enumerate (outputs tx))).
Proof.
  intros Hn. apply NoDup_fmap_2_strong; [|apply enumerate_NoDup].
  intros [i o1] [j o2] Hi%elem_of_enumerate Hj%elem_of_enumerate E; simpl in E.
  apply out_ref_inj in E; [|done|by eapply lookup_lt_Some..]. by simplify_eq.
Qed.

(** Outputs are created, inputs are consumed, the rest is left alone. *)
Lemma ledger_apply_output L tx i out :
  (N.of_nat (List.length (outputs tx)) ≤ 2 ^ 32)%N →
  outputs tx !! i = Some out → ledger_apply L tx !! out_ref tx i = Some out.
Proof.
  intros Hn Ho. unfold ledger_apply, ledger_create.
  apply (fold_insert_eq (λ p, out_ref tx p.1) snd _ _ (i, out));
    [by apply out_refs_distinct|by apply elem_of_enumerate].
Qed.

Lemma ledger_apply_other L tx o :
  (∀ i, i < List.length (outputs tx) → o ≠ out_ref tx i) →
  ledger_apply L tx !! o =
  if decide (o ∈ map output_ref (inputs tx)) then None else L !! o.
Proof.
  intros Ho. unfold ledger_apply, ledger_create, ledger_consume.
  rewrite (fold_insert_ne (λ p, out_ref tx p.1) snd); [apply fold_delete_lookup|].
  intros ([i out] & -> & Hi%elem_of_enumerate)%list_elem_of_fmap. simpl in Ho.
  eapply Ho; [|done]. by eapply lookup_lt_Some.
Qed.

(** The inputs of an accepted transaction exist, its outputs do not. *)
Lemma accepted_input look h tx (o : OutputRef) :
  accepted (V := V) look h tx → o ∈ map output_ref (inputs tx) → is_Some (look o).
Proof.
  intros (_ & [Hi _]%missing_nil)%accepted_well_formed.
  intros (i & -> & Hin)%list_elem_of_fmap. rewrite Forall_forall in Hi. by apply Hi.
Qed.

Lemma inspect_redeemed look h m (i : Input) d :
  inspect (V := V) look h m i = Redeemed d → payload <$> look (output_ref i) = Some d.
Proof. unfold inspect. repeat case_match; intros; by simplify_eq. Qed.

(** Without evictions the checker is shown the payloads of the inputs. *)
Lemma inputs_of_payloads look h tx :
  accepted (V := V) look h tx → evictions_of look h tx = [] →
  map Some (inputs_of look h tx) = map (λ i, payload <$> look (output_ref i)) (inputs tx).
Proof.
  intros [_ Hs _ _]. revert Hs. unfold inputs_of, evictions_of, statuses.
  induction (inputs tx) as [|i l IH]; [done|]. cbn [map omap list_omap].
  intros [Hi Hl]%Forall_cons. specialize (IH Hl).
  destruct (inspect look h (scale_encode (strip tx)) i) eqn:Es; try done.
  intros He. cbn [redeemed_data map]. rewrite (IH He). by rewrite (inspect_redeemed _ _ _ _ _ Es).
Qed.

(** What an accepted transaction consumes, the checker is shown. *)
Lemma accepted_consumed look h tx (i : Input) :
  accepted look h tx → i ∈ inputs tx →
  ∃ u : Output V, look (output_ref i) = Some u ∧
    payload u ∈ match redeemer i with
                | Redemption _ => inputs_of look h tx
                | Eviction => evictions_of look h tx
                end.
Proof.
  intros [_ Hs _ _] Hi. unfold inputs_of, evictions_of, statuses in *.
  rewrite Forall_map, Forall_forall in Hs. specialize (Hs i Hi). cbv beta in Hs.
  apply (list_elem_of_fmap_2 (inspect look h (scale_encode (strip tx)))) in Hi.
  change (fmap _ (inputs tx)) with (map (inspect look h (scale_encode (strip tx))) (inputs tx)) in Hi.
  revert Hs Hi. generalize (map (inspect look h (scale_encode (strip tx))) (inputs tx)). intros l.
  unfold inspect. destruct (look (output_ref i)) as [u|]; [|done]. intros Hs Hi. exists u.
  split; [done|]. destruct (redeemer i) as [r|].
  - apply list_elem_of_omap. exists (Redeemed (payload u)). by repeat case_match.
  - apply list_elem_of_omap. by exists (Evicted (payload u)).
Qed.

(** An input the checker is not shown as redeemed is shown as evicted. *)
Lemma evicted_input look h tx (i : Input) :
  accepted look h tx → inputs_of look h tx = [] → i ∈ inputs tx →
  ∃ u, look (output_ref i) = Some u ∧ redeemer i = Eviction ∧
       payload u ∈ evictions_of look h tx.
Proof.
  intros Ha Hin (u & Hu & Hp)%(accepted_consumed _ _ _ _ Ha). exists u. split; [done|].
  destruct (redeemer i); [|done]. rewrite Hin in Hp. by apply elem_of_nil in Hp.
Qed.

(** What a checker is shown first of the peeks is the payload of the first peek. *)
Lemma first_peek look h tx d rest :
  accepted look h tx → peeks_of look tx = d :: rest →
  ∃ o u, head (peeks tx) = Some o ∧ look o = Some u ∧ payload u = d.
Proof.
  intros Ha%acc_peeks. unfold peeks_of. destruct (peeks tx) as [|o l]; [done|].
  apply Forall_cons in Ha as [[u Hu] _]. cbn [omap list_omap]. rewrite Hu. intros [= <- _].
  by exists o, u.
Qed.

(** A transaction that peeks at one output and creates one. *)
Lemma peeking_accepted look h tx (o : OutputRef) (u : Output V) :
  inputs tx = [] → peeks tx = [o] → List.length (outputs tx) = 1 →
  look o = Some u → look (out_ref tx 0) = None →
  accepted look h tx ∧ inputs_of look h tx = [] ∧ evictions_of look h tx = [] ∧
  peeks_of look tx = [payload u].
Proof.
  intros Hi Hp Ho Hu Hnew. unfold inputs_of, evictions_of, peeks_of, statuses.
  rewrite Hi, Hp. cbn [omap list_omap]. rewrite Hu. split; [|done]. split.
  - rewrite Hi. constructor.
  - unfold statuses. rewrite Hi. constructor.
  - rewrite Hp. repeat constructor. by eexists.
  - intros i Hlt. rewrite Ho in Hlt. by assert (i = 0) as -> by lia.
Qed.

(** One that evicts an output and creates one. *)
Lemma evicting_accepted look h tx (o : OutputRef) (u : Output V) :
  inputs tx = [mk_input o Eviction] → peeks tx = [] → List.length (outputs tx) = 1 →
  look o = Some u → look (out_ref tx 0) = None →
  accepted look h tx ∧ inputs_of look h tx = [] ∧ evictions_of look h tx = [payload u] ∧
  peeks_of look tx = [].
Proof.
  intros Hi Hp Ho Hu Hnew.
  assert (statuses look h tx = [Evicted (payload u)]) as Hs.
  { unfold statuses. rewrite Hi. cbn [map]. unfold inspect. cbn [output_ref redeemer]. by rewrite Hu. }
  unfold inputs_of, evictions_of, peeks_of. rewrite Hs, Hp. split; [|done]. split.
  - rewrite Hi. apply NoDup_singleton.
  - rewrite Hs. by repeat constructor.
  - rewrite Hp. constructor.
  - intros i Hlt. rewrite Ho in Hlt. by assert (i = 0) as -> by lia.
Qed.

Lemma accepted_input_not_output look h tx (o : OutputRef) i :
  accepted (V := V) look h tx → o ∈ map output_ref (inputs tx) →
  i < List.length (outputs tx) → o ≠ out_ref tx i.
Proof.
  intros Ha Hin Hi ->. destruct (accepted_input _ _ _ _ Ha Hin) as [u Hu].
  by rewrite (acc_outputs _ _ _ Ha) in Hu.
Qed.
End ledger.

(** ** The properties *)

Section properties.
Context `{CoreLaws, Inherents} {V C : Type} `{Verifier V, !ConstraintChecker C}.
Implicit Types (s : storage) (L : ledger V) (tx : Transaction V C) (o : OutputRef).

Lemma elem_of_missing look tx o :
  scale_encode o ∈ missing_of (V := V) look tx ↔
  o ∈ map output_ref (inputs tx) ++ peeks tx ∧ look o = None.
Proof.
  unfold missing_of. rewrite (list_elem_of_fmap_inj scale_encode), list_elem_of_filter. tauto.
Qed.

Lemma elem_of_provided tx o :
  scale_encode o ∈ provided_by tx ↔ ∃ i, i < List.length (outputs tx) ∧ o = out_ref tx i.
Proof.
  unfold provided_by. rewrite list_elem_of_fmap. split.
  - intros (i & E%(inj scale_encode) & Hi%elem_of_seq). exists i. split; [lia|done].
  - intros (i & Hi & ->). exists i. split; [done|]. apply elem_of_seq. lia.
Qed.

Lemma same_protected_utxo s s' :
  same_protected s s' → ∀ o, utxo_at (V := V) s' o = utxo_at s o.
Proof. intros Hs o. unfold utxo_at. rewrite Hs; [done|]. unfold protected_key. eauto. Qed.

Lemma same_protected_height s s' : same_protected s s' → height_at s' = height_at s.
Proof. intros Hs. unfold height_at. rewrite Hs; [done|]. unfold protected_key. auto. Qed.

Lemma storage_apply_height s tx : height_at (storage_apply s tx) = height_at s.
Proof.
  unfold height_at, storage_apply.
  rewrite (fold_insert_ne (λ p, scale_encode (out_ref tx p.1)) (λ p, scale_encode p.2)).
  - rewrite (fold_delete_lookup (λ i, scale_encode (output_ref i))), decide_False; [done|].
    intros (i & Hi & _)%list_elem_of_fmap. by eapply output_ref_key_height.
  - intros (p & Hp & _)%list_elem_of_fmap. by eapply output_ref_key_height.
Qed.

(** Applying a transaction, as one equation. *)
Lemma apply_run s tx :
  apply_tuxedo_transaction tx s =
  match first_failure (utxo_at s) (height_at s) tx with
  | Some (Rejects e) => Throw e s
  | Some (Aborts w) => Panic w
  | None =>
    match check_all s tx s with
    | Ret _ s1 => Ret tt (storage_apply s1 tx)
    | Throw e s1 => Throw (ConstraintCheckerError e) s1
    | Panic w => Panic w
    end
  end.
Proof.
  unfold apply_tuxedo_transaction. rewrite bind_run.
  destruct (first_failure _ _ tx) as [f|] eqn:Hf.
  - destruct f as [[]|w]; try by rewrite (validate_stop _ _ _ Hf).
    apply missing_failure in Hf as [Hw Hm]. rewrite validate_run by done. cbv zeta.
    rewrite decide_False by done. cbn [requires]. by rewrite bool_decide_false.
  - apply no_failure, accepted_well_formed in Hf as [Hw Hm].
    rewrite validate_run by done. cbv zeta. rewrite decide_True, bind_run by done.
    unfold catch_err. destruct (check_all s tx s) as [p s1|e s1|w]; try done.
    cbn [mret M_ret requires]. unfold mret, M_ret. rewrite Hm.
    by rewrite bool_decide_true, update_storage_run.
Qed.

(** C1: Applying a transaction has exactly the outcomes of the specification.
    It succeeds when no check fails and the constraint checker agrees, and
    then the inputs are deleted and the outputs written; it errors with the
    first of the checks (duplicate input, an input its verifier refuses, a
    pre-existing output, something missing) that fails, leaving the storage as
    it was, or with the constraint checker's error; it panics when a verifier
    (or reading the height) does at the first input that does not pass, or
    when the constraint checker does. *)
Theorem apply_outcome s tx :
  let failed := first_failure (utxo_at s) (height_at s) tx in
  (∀ s', apply_tuxedo_transaction tx s = Ret tt s' ↔
     failed = None ∧ ∃ p s1, check_all s tx s = Ret p s1 ∧ s' = storage_apply s1 tx) ∧
  (∀ e s', apply_tuxedo_transaction tx s = Throw e s' ↔
     failed = Some (Rejects e) ∧ s' = s ∨
     failed = None ∧ ∃ e', e = ConstraintCheckerError e' ∧ check_all s tx s = Throw e' s') ∧
  (∀ w, apply_tuxedo_transaction tx s = Panic w ↔
     failed = Some (Aborts w) ∨ failed = None ∧ check_all s tx s = Panic w).
Proof.
  cbv zeta. rewrite apply_run.
  destruct (first_failure _ _ tx) as [[]|]; [naive_solver..|].
  destruct (check_all s tx s); naive_solver.
Qed.

(** The constraint checker sees the same data through the ledger. *)
Lemma check_all_ledger s L tx :
  represents s L →
  check_all s tx = check (checker tx) (inputs_of (L !!.) (height_at s) tx)
    (evictions_of (L !!.) (height_at s) tx) (peeks_of (L !!.) tx) (map payload (outputs tx)).
Proof.
  intros HL. unfold check_all, inputs_of, evictions_of, statuses, peeks_of.
  assert (omap (L !!.) (peeks tx) = omap (utxo_at s) (peeks tx)) as ->.
  { induction (peeks tx) as [|o l IH]; [done|]. cbn [omap list_omap]. by rewrite IH, HL. }
  assert (∀ m l, map (inspect (L !!.) (height_at s) m) l =
                 map (inspect (utxo_at s) (height_at s) m) l) as E; [|by rewrite E].
  intros m l. apply map_ext. intros i. by apply inspect_ext.
Qed.

Lemma accepted_ledger s L tx :
  represents s L → accepted (L !!.) (height_at s) tx ↔ accepted (utxo_at s) (height_at s) tx.
Proof. intros HL. split; apply accepted_ext; intros; by rewrite HL. Qed.

(** The same steps on the ledger, for one transaction that applies. *)
Lemma apply_ret_ledger `{!CheckerFrame C, !LawfulCodec V} s s' L tx :
  represents s L → apply_tuxedo_transaction tx s = Ret tt s' →
  accepted (L !!.) (height_at s) tx ∧
  (∃ p s1, check (checker tx) (inputs_of (L !!.) (height_at s) tx)
     (evictions_of (L !!.) (height_at s) tx) (peeks_of (L !!.) tx)
     (map payload (outputs tx)) s = Ret p s1) ∧
  represents s' (ledger_apply L tx) ∧ height_at s' = height_at s.
Proof.
  intros HL (Ha & p & s1 & Hc & ->)%apply_ret.
  pose proof Hc as Hf. apply leaves_ret_inv with (P := same_protected) in Hf;
    [|by apply check_frame].
  rewrite (check_all_ledger _ _ _ HL) in Hc. rewrite accepted_ledger by done.
  split; [done|]. split; [by eauto|]. rewrite storage_apply_height.
  split; [|by apply same_protected_height]. apply represents_apply. intros o.
  by rewrite (same_protected_utxo _ _ Hf).
Qed.

(** An output whose payload is not consumed stays, and the outputs are there. *)
Lemma apply_keeps `{!CheckerFrame C, !LawfulCodec V} s s' tx (o : OutputRef) (u : Output V) :
  apply_tuxedo_transaction tx s = Ret tt s' → utxo_at s o = Some u →
  payload u ∉ inputs_of (utxo_at s) (height_at s) tx ++ evictions_of (utxo_at s) (height_at s) tx →
  utxo_at s' o = Some u.
Proof.
  intros Hs Ho Hn. destruct (apply_ret_ledger _ _ _ _ (represents_ledger_of s) Hs) as (_ & _ & Hr & _).
  apply apply_ret in Hs as (Ha & _). rewrite (Hr _), ledger_apply_other, decide_False.
  - by rewrite <-represents_ledger_of.
  - intros (i & -> & Hi)%list_elem_of_fmap.
    destruct (accepted_consumed _ _ _ _ Ha Hi) as (v & Hv & Hp). rewrite Ho in Hv.
    injection Hv as <-. apply Hn. apply elem_of_app. destruct (redeemer i); auto.
  - intros i Hi ->. by rewrite (acc_outputs _ _ _ Ha i Hi) in Ho.
Qed.

Lemma apply_creates `{!CheckerFrame C, !LawfulCodec V} s s' tx i (out : Output V) :
  apply_tuxedo_transaction tx s = Ret tt s' →
  (N.of_nat (List.length (outputs tx)) ≤ 2 ^ 32)%N → outputs tx !! i = Some out →
  utxo_at s' (out_ref tx i) = Some out.
Proof.
  intros Hs Hn Ho. destruct (apply_ret_ledger _ _ _ _ (represents_ledger_of s) Hs) as (_ & _ & Hr & _).
  rewrite (Hr _). by apply ledger_apply_output.
Qed.

(** C2: The executive refines the abstract ledger.  When the storage represents
    a ledger, a transaction applies exactly when the ledger accepts it and the
    constraint checker agrees on the payloads the ledger holds; the storage
    then represents the ledger with the inputs removed and the outputs added,
    and the height is unchanged. *)
Theorem apply_refines_ledger `{!CheckerFrame C, !LawfulCodec V} s L tx :
  represents s L →
  let agreed := check (checker tx) (inputs_of (L !!.) (height_at s) tx)
    (evictions_of (L !!.) (height_at s) tx) (peeks_of (L !!.) tx)
    (map payload (outputs tx)) in
  (∀ s', apply_tuxedo_transaction tx s = Ret tt s' →
     accepted (L !!.) (height_at s) tx ∧ (∃ p s1, agreed s = Ret p s1) ∧
     represents s' (ledger_apply L tx) ∧ height_at s' = height_at s) ∧
  (∀ p s1, accepted (L !!.) (height_at s) tx → agreed s = Ret p s1 →
     ∃ s', apply_tuxedo_transaction tx s = Ret tt s' ∧ represents s' (ledger_apply L tx)).
Proof.
  intros HL agreed. split; [by intros s'; apply apply_ret_ledger|].
  intros p s1 Ha Hc. exists (storage_apply s1 tx).
  assert (apply_tuxedo_transaction tx s = Ret tt (storage_apply s1 tx)) as Hs.
  { apply apply_ret. rewrite <-accepted_ledger, (check_all_ledger _ _ _ HL) by done. eauto. }
  split; [done|]. by eapply apply_ret_ledger.
Qed.

(** What references hold after a transaction has applied. *)
Lemma apply_utxo_at `{!CheckerFrame C, !LawfulCodec V} s s' tx o :
  apply_tuxedo_transaction tx s = Ret tt s' →
  accepted (utxo_at s) (height_at s) tx ∧
  utxo_at s' o = ledger_apply (ledger_of s) tx !! o.
Proof.
  intros Hs. destruct (apply_ret_ledger _ _ _ _ (represents_ledger_of s) Hs) as (Ha & _ & Hr & _).
  split; [|apply Hr]. revert Ha. apply accepted_ledger, represents_ledger_of.
Qed.

(** The effect of an applied transaction on every reference: each output is
    stored under its reference, each input is gone, and every other reference
    holds what it held. *)
Theorem apply_effect `{!CheckerFrame C, !LawfulCodec V} s s' tx :
  apply_tuxedo_transaction tx s = Ret tt s' →
  (N.of_nat (List.length (outputs tx)) ≤ 2 ^ 32)%N →
  (∀ i out, outputs tx !! i = Some out → utxo_at s' (out_ref tx i) = Some out) ∧
  (∀ i, i ∈ inputs tx →
     is_Some (utxo_at (V := V) s (output_ref i)) ∧
     utxo_at (V := V) s' (output_ref i) = None) ∧
  (∀ o, o ∉ map output_ref (inputs tx) →
     (∀ i, i < List.length (outputs tx) → o ≠ out_ref tx i) →
     utxo_at (V := V) s' o = utxo_at s o).
Proof.
  intros Hs Hn. pose proof (λ o, apply_utxo_at _ _ _ o Hs) as Hu.
  split; [|split].
  - intros i out Ho. destruct (Hu (out_ref tx i)) as [_ ->]. by apply ledger_apply_output.
  - intros i Hi%(list_elem_of_fmap_2 output_ref).
    destruct (Hu (output_ref i)) as [Ha ->]. split; [by eapply accepted_input|].
    rewrite ledger_apply_other, decide_True; [done..|].
    intros j. by eapply accepted_input_not_output.
  - intros o Ho Hi. destruct (Hu o) as [_ ->].
    rewrite ledger_apply_other, decide_False by done. symmetry. apply represents_ledger_of.
Qed.

(** C3: No double spend.  After a transaction has applied, no transaction with
    an input it consumed applies (the same transaction again in particular):
    the reference is missing. *)
Theorem no_double_spend `{!CheckerFrame C, !LawfulCodec V} s s' tx tx2 (i i2 : Input) :
  apply_tuxedo_transaction tx s = Ret tt s' →
  i ∈ inputs tx → i2 ∈ inputs tx2 → output_ref i2 = output_ref i →
  ∀ s2, apply_tuxedo_transaction tx2 s' ≠ Ret tt s2.
Proof.
  intros Hs Hi Hi2 E s2 [Ha2 _]%apply_ret.
  destruct (apply_utxo_at _ _ _ (output_ref i) Hs) as [Ha Hu].
  apply (list_elem_of_fmap_2 output_ref) in Hi, Hi2. rewrite E in Hi2.
  destruct (accepted_input _ _ _ _ Ha2 Hi2) as [u Hu2]. revert Hu2.
  rewrite Hu, ledger_apply_other, decide_True; [done..|].
  intros j. by eapply accepted_input_not_output.
Qed.

(** The duplicate check lets one output be spent twice in one transaction.
    It compares encoded inputs, redeemers included; two inputs that name the
    same output with different redeemers pass it, and when the verifier accepts
    both, the constraint checker is given the output's payload twice. *)
Lemma same_output_counted_twice look (h : u32) tx o (r1 r2 : bytes) u x1 x2 :
  inputs tx = [mk_input o (Redemption r1); mk_input o (Redemption r2)] → r1 ≠ r2 →
  look o = Some u → decode_value r1 = Some x1 → decode_value r2 = Some x2 →
  verify (verifier u) (scale_encode (strip tx)) h x1 = Value true →
  verify (verifier u) (scale_encode (strip tx)) h x2 = Value true →
  Forall (λ o, is_Some (look o)) (peeks tx) →
  (∀ i, i < List.length (outputs tx) → look (out_ref tx i) = None) →
  accepted (C := C) look (Some h) tx ∧
  inputs_of look (Some h) tx = [payload u; payload u] ∧ evictions_of look (Some h) tx = [].
Proof.
  intros Hi Hr Hu Hx1 Hx2 Hv1 Hv2 Hp Ho.
  assert (statuses look (Some h) tx = [Redeemed (payload u); Redeemed (payload u)]) as Hs.
  { unfold statuses. rewrite Hi. cbn [map]. unfold inspect. cbn [output_ref redeemer].
    by rewrite Hu, Hx1, Hx2, Hv1, Hv2. }
  split; [split; [| |done..]|].
  - rewrite Hi. repeat constructor; [|by intros ?%elem_of_nil].
    intros [=]%list_elem_of_singleton. done.
  - rewrite Hs. by repeat constructor.
  - unfold inputs_of, evictions_of. by rewrite Hs.
Qed.

(** C19: What the transaction pool is told.  Inherents are refused; any other
    transaction is valid exactly when it is well formed and, if nothing it
    names is missing, its constraint checker accepts it.  The tags it requires
    are the encoded missing references, the tags it provides the encoded
    references of its outputs, and its priority is always zero. *)
Theorem pool_validation s tx v s' :
  validate_transaction tx s = Ret v s' ↔
  is_inherent (checker tx) = false ∧ well_formed (utxo_at s) (height_at s) tx ∧
  v = mk_valid (missing_of (utxo_at (V := V) s) tx) (provided_by tx)
        (trunc 64 0) (uint_max 64) true ∧
  (if decide (missing_of (utxo_at (V := V) s) tx = [])
   then ∃ p, check_all s tx s = Ret p s' else s' = s).
Proof.
  unfold validate_transaction. destruct (is_inherent (checker tx)).
  - split; [done|]. by intros [? _].
  - rewrite catch_err_ret, validate_ret. naive_solver.
Qed.

(** The pool's tags are exact.  When [tx0] applies, what a transaction still
    requires is what it required before, less what [tx0] provides, plus the
    references [tx0] consumed. *)
Theorem pool_tags_exact `{!CheckerFrame C, !LawfulCodec V} s s' tx0 tx (o : OutputRef) :
  apply_tuxedo_transaction tx0 s = Ret tt s' →
  (N.of_nat (List.length (outputs tx0)) ≤ 2 ^ 32)%N →
  scale_encode o ∈ missing_of (utxo_at (V := V) s') tx ↔
  (scale_encode o ∈ missing_of (utxo_at (V := V) s) tx ∧ scale_encode o ∉ provided_by tx0) ∨
  (o ∈ map output_ref (inputs tx) ++ peeks tx ∧ o ∈ map output_ref (inputs tx0)).
Proof.
  intros Hs Hn. destruct (apply_utxo_at _ _ _ o Hs) as [Ha Hu].
  rewrite !elem_of_missing, elem_of_provided, Hu.
  destruct (decide (Exists (λ i, o = out_ref tx0 i) (seq 0 (List.length (outputs tx0)))))
    as [(i & Hi%elem_of_seq & ->)%Exists_exists|Ho].
  - destruct (lookup_lt_is_Some_2 (outputs tx0) i) as [out Hio]; [lia|].
    rewrite (ledger_apply_output _ _ i out) by done.
    split; [by intros []|]. intros [[_ []]|[_ Hc]].
    + exists i. split; [lia|done].
    + exfalso. eapply (accepted_input_not_output _ _ _ _ i Ha Hc); [lia|done].
  - assert (∀ i, i < List.length (outputs tx0) → o ≠ out_ref tx0 i) as Ho'.
    { intros i Hi E. apply Ho, Exists_exists. exists i. split; [apply elem_of_seq; lia|done]. }
    rewrite ledger_apply_other, <-(represents_ledger_of s o) by done. case_decide as Hi.
    + destruct (accepted_input _ _ _ _ Ha Hi) as [u Hu']. naive_solver.
    + split; [|naive_solver]. intros [? ?]. left. split; [done|].
      intros (i & ? & E). by eapply Ho'.
Qed.
End properties.

(** ** Checkers that read nothing

    For them applying a transaction is a matter of the ledger alone. *)

Section pure.
Context `{CoreLaws, Inherents} {V C : Type} `{Verifier V, SimpleConstraintChecker C}.
Context `{!PureChecker C, !LawfulCodec V}.
Implicit Types (s : storage) (tx : Transaction V C).

(** The verdict on what the ledger holds. *)
Definition verdict_on (L : ledger V) h tx : result (SimpleError C) u64 :=
  verdict (checker tx) (inputs_of (L !!.) h tx) (evictions_of (L !!.) h tx)
    (peeks_of (L !!.) tx) (map payload (outputs tx)).

Lemma pure_apply s s' tx :
  apply_tuxedo_transaction tx s = Ret tt s' ↔
  accepted (ledger_of s !!.) (height_at s) tx ∧
  (∃ prio, verdict_on (ledger_of s) (height_at s) tx = Ok prio) ∧ s' = storage_apply s tx.
Proof.
  rewrite apply_ret, (accepted_ledger s _ tx (represents_ledger_of s)).
  rewrite (check_all_ledger s _ tx (represents_ledger_of s)). unfold verdict_on.
  cbn [check simple_constraint_checker]. rewrite simple_check_verdict. split.
  - intros (? & p & s1 & [Hc ->]%lift_result_ret & ->). eauto.
  - intros (? & [p Hc] & ->). split; [done|]. exists p, s. by rewrite lift_result_ret.
Qed.

Lemma pure_apply_ledger s s' tx :
  apply_tuxedo_transaction tx s = Ret tt s' →
  accepted (ledger_of s !!.) (height_at s) tx ∧
  (∃ prio, verdict_on (ledger_of s) (height_at s) tx = Ok prio) ∧
  ledger_of s' = ledger_apply (ledger_of s) tx.
Proof.
  intros (? & ? & ->)%pure_apply. split; [done|]. split; [done|]. symmetry.
  apply represents_unique, represents_apply, represents_ledger_of.
Qed.
End pure.

(** ** Witnesses *)

Module Witnesses.
Import Sample.

Lemma apply_outcome_witness :
  first_failure (look store) (height_at store) transfer = None ∧
  apply_tuxedo_transaction transfer store = Ret tt after.
Proof.
  split; [by_vm|]. destruct (apply_outcome store transfer) as [Hr _].
  apply Hr. split; [by_vm|]. exists (trunc 64 0), store. split; by_vm.
Defined.

Lemma apply_refines_ledger_witness :
  represents after (ledger_apply (ledger_of store) transfer).
Proof.
  destruct (apply_refines_ledger store (ledger_of store) transfer) as [Hf _];
    [apply represents_ledger_of|].
  destruct (Hf after) as (_ & _ & Hr & _); [by_vm|exact Hr].
Defined.

Lemma apply_effect_witness :
  look after (out_ref transfer 0) = Some (out 9) ∧
  look after (ref 0) = None ∧
  look after (ref 1) = Some (out 8).
Proof.
  destruct (apply_effect store after transfer) as (Ho & Hi & Hr); [by_vm|done|].
  split; [by apply Ho|]. split; [apply (Hi (spend (ref 0))); by apply list_elem_of_singleton|].
  rewrite Hr; [by_vm|by_vm|].
  intros i Hi'. assert (i = 0) as -> by (simpl in Hi'; lia).
  by_vm.
Defined.

Lemma no_double_spend_witness : apply_tuxedo_transaction transfer after ≠ Ret tt after.
Proof.
  apply (no_double_spend store after transfer transfer (spend (ref 0)) (spend (ref 0)));
    [by_vm|by apply list_elem_of_singleton..|done].
Defined.

Lemma pool_validation_witness :
  validate_transaction child store =
  Ret (mk_valid [scale_encode (out_ref transfer 0)] [] (trunc 64 0) (uint_max 64) true) store.
Proof.
  apply (pool_validation store child). split; [done|]. split.
  - split.
    + by_vm.
    + by_vm.
    + intros i Hi. simpl in Hi. lia.
  - split; [by_vm|]. rewrite decide_False; [done|]. by_vm.
Defined.

Lemma pool_tags_exact_witness :
  scale_encode (out_ref transfer 0) ∉ missing_of (look after) child.
Proof.
  rewrite (pool_tags_exact store after transfer child (out_ref transfer 0));
    [|by_vm|done].
  intros [[_ Hn]|[_ Hi]].
  - apply Hn, elem_of_provided. exists 0. split; [simpl; lia|done].
  - apply list_elem_of_singleton in Hi. revert Hi. by_vm.
Defined.
End Witnesses.
