(* ===== verification/Blocks.v ===== *)
(** * Blocks: authoring and importing agree

    The block-level properties of the executive: a block authored with
    [open_block], [apply_extrinsic] and [close_block] is accepted by
    [execute_block] with the same final state, and conversely; importing a block
    applies its extrinsics to the ledger one by one; what holds of every state
    reached by importing blocks. *)

From S2P Require Import Prelude Effects Scale Types Checker UtxoSet CheckerLaws Executive Simulation.
From S2P Require Import Concrete Verifiers Samples ExecutiveFacts Ledger.

Section blocks.
Context `{CoreCodecs, Inherents} {V C : Type} `{Verifier V, !ConstraintChecker C}.
Implicit Types (s : storage) (tx : Transaction V C) (l : list (Transaction V C)).

(** The block authoring workflow ("Open the block, apply zero or more
    extrinsics, close the block"). *)
Definition author_block (header : Header) l : M storage InvalidTransaction Header :=
  open_block header;;
  for_each l (λ _, apply_extrinsic) tt;;
  close_block.

(** All inherents are at the beginning. *)
Definition inherents_first l : Prop :=
  Forall (λ tx, is_inherent (checker tx) = false) (drop (List.length (opening_inherents l)) l).

(** The same, once the flag of [execute_block] is [finished]. *)
Definition placed (finished : bool) l : Prop :=
  if finished then Forall (λ tx, is_inherent (checker tx) = false) l else inherents_first l.

Lemma placed_cons finished tx l :
  placed finished (tx :: l) ↔
  (is_inherent (checker tx) && finished = false) ∧
  placed (if negb (is_inherent (checker tx)) && negb finished then true else finished) l.
Proof.
  unfold placed, inherents_first, opening_inherents. cbn [take_while].
  destruct finished, (is_inherent (checker tx)) eqn:E; cbn; rewrite ?Forall_cons, ?E;
    try (split; [by intros []|by intros [? ?]]); try tauto.
Qed.
End blocks.

(** ** Transactions and the executive's keys *)

Section frame.
Context `{CoreLaws, Inherents} {V C : Type} `{Verifier V, !ConstraintChecker C}.
Implicit Types (s : storage) (tx : Transaction V C) (l : list (Transaction V C)).

Lemma storage_apply_key s tx k :
  (∀ o : OutputRef, scale_encode o ≠ k) → storage_apply s tx !! k = s !! k.
Proof.
  intros Hk. unfold storage_apply.
  rewrite (fold_insert_ne (λ p, scale_encode (out_ref tx p.1)) (λ p, scale_encode p.2)).
  - rewrite (fold_delete_lookup (λ i, scale_encode (output_ref i))), decide_False; [done|].
    intros (i & Hi & _)%list_elem_of_fmap. by eapply Hk.
  - intros (p & Hp & _)%list_elem_of_fmap. by eapply Hk.
Qed.

(** Applying a transaction leaves the keys of the executive alone. *)
Lemma apply_keys `{!CheckerFrame C} s s' tx k :
  apply_tuxedo_transaction tx s = Ret tt s' →
  k = HEADER_KEY ∨ k = HEIGHT_KEY ∨ k = EXTRINSIC_KEY → s' !! k = s !! k.
Proof.
  intros (_ & p & s1 & Hp & ->)%apply_ret Hk.
  apply leaves_ret_inv with (P := same_protected) in Hp; [|by apply check_frame].
  rewrite storage_apply_key.
  - apply Hp. unfold protected_key. naive_solver.
  - intros o. destruct Hk as [->|[->| ->]];
      [apply output_ref_key_header|apply output_ref_key_height|apply output_ref_key_extrinsic].
Qed.

(** It does not look at the transient keys either. *)
Lemma utxo_get_respects {E} (o : OutputRef) :
  respects transient_equiv (storage_get (scale_encode o) : M storage E (option bytes)).
Proof.
  apply respects_storage_get; [apply output_ref_key_header|apply output_ref_key_extrinsic].
Qed.

Lemma block_height_respects {E} : respects transient_equiv (block_height : M storage E u32).
Proof.
  apply respects_bind; [by apply respects_storage_get|intros; apply respects_expect].
Qed.

#[local] Hint Resolve utxo_get_respects block_height_respects check_transient : effects.

Lemma apply_respects `{!CheckerTransient C} tx :
  respects transient_equiv (apply_tuxedo_transaction tx).
Proof.
  unfold apply_tuxedo_transaction, validate_tuxedo_transaction, update_storage,
    check_input, check_peek, check_output, consume_utxo, store_utxo.
  solve_respects.
Qed.
End frame.

(** ** The two workflows *)

Section workflows.
Context `{CoreLaws, !ScaleLaws, Inherents} {V C : Type} `{Verifier V, !ConstraintChecker C}.
Implicit Types (s t : storage) (tx : Transaction V C) (l : list (Transaction V C)).

(** The storage in which the extrinsics of a block run. *)
Definition opened (h : Header) s : storage :=
  <[HEIGHT_KEY := scale_encode (number h)]> (<[HEADER_KEY := scale_encode h]> s).

Definition noted s : list bytes := default [] (s !! EXTRINSIC_KEY ≫= decode_value).

Definition apply_all l : M storage (UtxoError (Error C)) unit :=
  for_each l (λ _, apply_tuxedo_transaction) tt.

Lemma apply_extrinsic_ret tx s s' :
  apply_extrinsic tx s = Ret tt s' ↔
  apply_tuxedo_transaction tx
    (<[EXTRINSIC_KEY := scale_encode (noted s ++ [scale_encode tx])]> s) = Ret tt s'.
Proof.
  unfold apply_extrinsic, noted_extrinsics. by rewrite <-(catch_err_ret into_invalid).
Qed.

Context `{!CheckerFrame C, !CheckerTransient C}.

(** Authoring notes the extrinsics in order. *)
Lemma author_loop_notes l s s' :
  for_each l (λ _, apply_extrinsic) tt s = Ret tt s' →
  noted s' = noted s ++ map scale_encode l ∧
  s' !! HEADER_KEY = s !! HEADER_KEY ∧ s' !! HEIGHT_KEY = s !! HEIGHT_KEY.
Proof.
  revert s. induction l as [|tx l IH]; intros s Hl.
  - injection Hl as <-. by rewrite app_nil_r.
  - cbn [for_each] in Hl. apply bind_ret_inv in Hl as ([] & s1 & Ha%apply_extrinsic_ret & Hl).
    destruct (IH _ Hl) as (-> & -> & ->).
    pose proof (λ k, apply_keys _ _ _ k Ha) as Hk.
    split; [|by rewrite !Hk, !lookup_insert_ne by auto].
    unfold noted at 1. rewrite Hk, lookup_insert_eq by auto. simpl.
    rewrite decode_value_encode. simpl. by rewrite <-app_assoc.
Qed.

(** Noting an extrinsic makes no difference to applying it. *)
Lemma author_loop_applies l s t :
  transient_equiv s t →
  outcome_rel transient_equiv
    (for_each l (λ _, apply_extrinsic) tt s)
    (catch_err into_invalid (apply_all l) t).
Proof.
  revert s t. induction l as [|tx l IH]; intros s t Hs; [done|].
  unfold apply_all. cbn [for_each]. rewrite catch_err_bind.
  apply outcome_rel_bind; [|intros []; apply IH].
  change (apply_extrinsic tx s) with (catch_err into_invalid (apply_tuxedo_transaction tx)
    (<[EXTRINSIC_KEY := scale_encode (noted s ++ [scale_encode tx])]> s)).
  apply respects_catch; [apply apply_respects|].
  rewrite <-Hs. apply transient_insert. auto.
Qed.

(** The import loop: the inherents are in place and every extrinsic applies. *)
Lemma import_loop_ret l f t t' :
  (∃ f', for_each l execute_extrinsic f t = Ret f' t') ↔
  placed f l ∧ apply_all l t = Ret tt t'.
Proof.
  revert f t. induction l as [|tx l IH]; intros f t.
  - unfold apply_all. cbn [for_each]. unfold mret, M_ret. split.
    + intros [f' [= -> ->]]. split; [|done]. by destruct f'; constructor.
    + intros [_ [= ->]]. eauto.
  - rewrite placed_cons. unfold apply_all. cbn [for_each].
    setoid_rewrite bind_ret_inv. unfold execute_extrinsic at 1.
    destruct (is_inherent (checker tx) && f) eqn:Hf.
    + split; [by intros (f' & a & s1 & ? & _)|by intros [[? _] _]].
    + set (f1 := if _ && _ then true else f). split.
      * intros (f' & a & s1 & Ha & Hl). apply bind_ret_inv in Ha as ([] & s2 & Ha & [= <- <-]).
        apply or_panic_ret in Ha. destruct (IH f1 s2) as [[Hp Hall] _]; [by eauto|].
        split; [done|]. by exists tt, s2.
      * intros [[_ Hp] ([] & s1 & Ha & Hl)].
        destruct (IH f1 s1) as [_ [f' Hf']]; [done|]. exists f', f1, s1. split; [|done].
        apply bind_ret_inv. exists tt, s1. by rewrite or_panic_ret.
Qed.

Lemma apply_all_respects l : respects transient_equiv (apply_all l).
Proof. apply respects_for_each. intros [] tx. apply apply_respects. Qed.

Lemma apply_all_keys l s s' k :
  apply_all l s = Ret tt s' →
  k = HEADER_KEY ∨ k = HEIGHT_KEY ∨ k = EXTRINSIC_KEY → s' !! k = s !! k.
Proof.
  revert s. induction l as [|tx l IH]; intros s Hl Hk; [by injection Hl as <-|].
  unfold apply_all in Hl. cbn [for_each] in Hl. apply bind_ret_inv in Hl as ([] & s1 & Ha & Hl).
  by rewrite (IH _ Hl Hk), (apply_keys _ _ _ _ Ha Hk).
Qed.

Lemma current_state_root_ret {E} s r s' :
  (current_state_root : M storage E H256) s = Ret r s' ↔
  decode_value (storage_root V1 s) = Some r ∧ s' = s.
Proof. unfold current_state_root. rewrite bind_run. simpl. apply expect_ret. Qed.

Lemma execute_extrinsics_ret (b : Block V C) s s1 :
  execute_extrinsics b s = Ret tt s1 ↔
  inherents_first (extrinsics b) ∧
  ∃ s', apply_all (extrinsics b) (opened (header b) s) = Ret tt s' ∧ s1 = delete HEADER_KEY s'.
Proof.
  unfold execute_extrinsics. rewrite bind_run. simpl. rewrite bind_run. simpl.
  fold (opened (header b) s).
  change (inherents_first (extrinsics b)) with (placed false (extrinsics b)).
  rewrite bind_ret_inv. split.
  - intros (f & s' & Hl & [= <-]). assert (∃ f', for_each (extrinsics b) execute_extrinsic false
      (opened (header b) s) = Ret f' s') as [Hp Ha]%import_loop_ret by eauto.
    split; [done|]. by exists s'.
  - intros (Hp & s' & Ha & ->).
    destruct (proj2 (import_loop_ret (extrinsics b) false (opened (header b) s) s'))
      as [f' Hf']; [done|]. by exists f', s'.
Qed.

Lemma check_roots_ret (b : Block V C) s s1 :
  check_roots b s = Ret tt s1 ↔ s1 = s ∧
  decode_value (storage_root V1 s) = Some (state_root (header b)) ∧
  extrinsics_root (header b) = ordered_trie_root (map scale_encode (extrinsics b)) V0.
Proof.
  unfold check_roots. rewrite bind_ret_inv. split.
  - intros (r & s2 & [Hr0 ->]%current_state_root_ret & Hr).
    case_bool_decide as Hsr; [done|]. case_bool_decide as Her; [done|].
    injection Hr as <-. by rewrite Hsr.
  - intros (-> & Hr & He). exists (state_root (header b)), s. rewrite current_state_root_ret.
    split; [done|]. by rewrite !bool_decide_false by auto.
Qed.

Lemma execute_block_ret (b : Block V C) s s1 :
  execute_block b s = Ret tt s1 ↔
  inherents_first (extrinsics b) ∧
  (∃ s', apply_all (extrinsics b) (opened (header b) s) = Ret tt s' ∧
         s1 = delete HEADER_KEY s') ∧
  decode_value (storage_root V1 s1) = Some (state_root (header b)) ∧
  extrinsics_root (header b) = ordered_trie_root (map scale_encode (extrinsics b)) V0.
Proof.
  rewrite execute_block_parts, bind_ret_inv. split.
  - intros ([] & s2 & [? ?]%execute_extrinsics_ret & (-> & ? & ?)%check_roots_ret). eauto.
  - intros (? & ? & ?). exists tt, s1. by rewrite execute_extrinsics_ret, check_roots_ret.
Qed.

Lemma close_block_ret {E} (h h' : Header) s s1 :
  s !! HEADER_KEY = Some (scale_encode h) →
  (close_block : M storage E Header) s = Ret h' s1 ↔
  s1 = delete EXTRINSIC_KEY (delete HEADER_KEY s) ∧
  ∃ r, decode_value (storage_root V1 s1) = Some r ∧
       h' = set_state_root r (set_extrinsics_root (ordered_trie_root (noted s) V0) h).
Proof.
  intros Hh. unfold close_block. rewrite bind_run. simpl. rewrite Hh. simpl.
  rewrite decode_value_encode. rewrite bind_run. simpl. rewrite bind_run. simpl.
  unfold noted_extrinsics. rewrite bind_run, bind_run. simpl.
  rewrite lookup_delete_ne by done. fold (noted s). rewrite bind_run. simpl.
  rewrite bind_ret_inv. split.
  - intros (r & s2 & [Hr ->]%current_state_root_ret & [= <- <-]). eauto.
  - intros (-> & r & Hr & ->). exists r, (delete EXTRINSIC_KEY (delete HEADER_KEY s)).
    by rewrite current_state_root_ret.
Qed.

Lemma opened_transient (h h' : Header) s :
  number h = number h' → transient_equiv (opened h s) (opened h' s).
Proof.
  intros E. unfold opened. rewrite E. apply insert_transient.
  rewrite !transient_insert by auto. done.
Qed.

Lemma opened_lookup (h : Header) s k :
  opened h s !! k = if decide (k = HEADER_KEY) then Some (scale_encode h) else
                    if decide (k = HEIGHT_KEY) then Some (scale_encode (number h)) else s !! k.
Proof.
  unfold opened. repeat case_decide; subst; rewrite ?lookup_insert_eq, ?lookup_insert_ne,
    ?lookup_insert_eq by done; done.
Qed.

Lemma transient_clean s t :
  transient_equiv s t → t !! EXTRINSIC_KEY = None →
  delete EXTRINSIC_KEY (delete HEADER_KEY s) = delete HEADER_KEY t.
Proof.
  intros Hs Ht. apply map_eq. intros k. rewrite !lookup_delete.
  repeat case_decide; subst; try done. by apply Hs.
Qed.

Lemma author_block_ret (h h' : Header) l s0 s1 :
  s0 !! EXTRINSIC_KEY = None →
  author_block h l s0 = Ret h' s1 ↔
  ∃ s r, for_each l (λ _, apply_extrinsic) tt (opened h s0) = Ret tt s ∧
    s1 = delete EXTRINSIC_KEY (delete HEADER_KEY s) ∧
    decode_value (storage_root V1 s1) = Some r ∧
    h' = set_state_root r
           (set_extrinsics_root (ordered_trie_root (map scale_encode l) V0) h).
Proof.
  intros H0e. unfold author_block. rewrite bind_run. simpl. fold (opened h s0).
  rewrite bind_ret_inv.
  assert (∀ s, for_each l (λ _, apply_extrinsic) tt (opened h s0) = Ret tt s →
    noted s = map scale_encode l ∧ s !! HEADER_KEY = Some (scale_encode h)) as Hn.
  { intros s (-> & -> & _)%author_loop_notes. rewrite opened_lookup, decide_True by done.
    split; [|done]. unfold noted. rewrite opened_lookup, !decide_False by done. by rewrite H0e. }
  split.
  - intros ([] & s & Hl & Hc). destruct (Hn s Hl) as [Hnote Hh].
    apply (close_block_ret h) in Hc as (-> & r & Hr & ->); [|done]. rewrite Hnote. eauto 6.
  - intros (s & r & Hl & -> & Hr & ->). destruct (Hn s Hl) as [Hnote Hh].
    exists tt, s. split; [done|]. apply (close_block_ret h); [done|]. rewrite Hnote. eauto.
Qed.

(** Whatever authoring runs, importing runs to the same end. *)
Lemma loops_agree (h h' : Header) l s0 s :
  number h = number h' → s0 !! EXTRINSIC_KEY = None →
  for_each l (λ _, apply_extrinsic) tt (opened h s0) = Ret tt s →
  ∃ t, apply_all l (opened h' s0) = Ret tt t ∧
       delete EXTRINSIC_KEY (delete HEADER_KEY s) = delete HEADER_KEY t.
Proof.
  intros Hh H0e Hl.
  pose proof (author_loop_applies l _ _ (opened_transient h h' s0 Hh)) as Hr.
  rewrite Hl in Hr. unfold catch_err in Hr.
  destruct (apply_all l (opened h' s0)) as [[] t|e t|w] eqn:Ha; [|done..].
  destruct Hr as [_ Hst]. exists t. split; [done|].
  apply transient_clean; [done|]. rewrite (apply_all_keys _ _ _ _ Ha) by auto.
  by rewrite opened_lookup, !decide_False.
Qed.

Lemma author_then_import (h h' : Header) l s0 s1 :
  s0 !! EXTRINSIC_KEY = None → inherents_first l →
  author_block h l s0 = Ret h' s1 →
  execute_block (mk_block h' l) s0 = Ret tt s1.
Proof.
  intros H0e Hp (s & r & Hl & -> & Hr & ->)%author_block_ret; [|done].
  apply (loops_agree h (set_state_root r
    (set_extrinsics_root (ordered_trie_root (map scale_encode l) V0) h))) in Hl
    as (t & Ha & E); [|done..].
  rewrite E in *. apply execute_block_ret. split; [done|]. split; [by exists t|done].
Qed.

(** C4: A block authored with inherents first is accepted on import, with the
    same final state: opening a block on a parent state, applying extrinsics
    and closing it gives a header with which [execute_block] succeeds from the
    same parent state and ends in the same storage. *)
Theorem author_import (h h' : Header) l s0 s1 :
  s0 !! EXTRINSIC_KEY = None → inherents_first l →
  author_block h l s0 = Ret h' s1 →
  execute_block (mk_block h' l) s0 = Ret tt s1.
Proof. apply author_then_import. Qed.

(** Extrinsics that apply can be authored. *)
Lemma applies_authored (h : Header) l s0 t r :
  s0 !! EXTRINSIC_KEY = None → apply_all l (opened h s0) = Ret tt t →
  decode_value (storage_root V1 (delete HEADER_KEY t)) = Some r →
  author_block h l s0 =
  Ret (set_state_root r (set_extrinsics_root (ordered_trie_root (map scale_encode l) V0) h))
    (delete HEADER_KEY t).
Proof.
  intros H0e Ha Hr. apply author_block_ret; [done|].
  pose proof (author_loop_applies l (opened h s0) (opened h s0) (reflexivity _)) as Hl.
  unfold catch_err in Hl. rewrite Ha in Hl.
  destruct (for_each _ _ _ _) as [[] s|e s|w] eqn:E; [|done..]. destruct Hl as [_ Hst].
  exists s, r. split; [done|].
  rewrite (transient_clean s t) by (try done; rewrite (apply_all_keys _ _ _ _ Ha) by auto;
    by rewrite opened_lookup, !decide_False).
  done.
Qed.

(** So extrinsics that apply, inherents first, make a block. *)
Lemma applied_block (h : Header) l s0 t :
  s0 !! EXTRINSIC_KEY = None → inherents_first l → apply_all l (opened h s0) = Ret tt t →
  is_Some (decode_value (A := H256) (storage_root V1 (delete HEADER_KEY t))) →
  ∃ (b : Block V C) s1, extrinsics b = l ∧ number (header b) = number h ∧
    parent_hash (header b) = parent_hash h ∧
    author_block h l s0 = Ret (header b) s1 ∧ execute_block b s0 = Ret tt s1.
Proof.
  intros H0e Hp Ha [r Hr]. pose proof (applies_authored h l s0 t r H0e Ha Hr) as Hauth.
  eexists (mk_block _ l), _. split; [done|]. split; [|split; [|split; [exact Hauth|]]]; [done..|].
  by eapply author_then_import.
Qed.

(** C5: Conversely every block that imports can be authored: its inherents come
    first, and the authoring workflow on its header and extrinsics gives back
    the same header and the same final state. *)
Theorem import_author (b : Block V C) s0 s1 :
  s0 !! EXTRINSIC_KEY = None →
  execute_block b s0 = Ret tt s1 →
  inherents_first (extrinsics b) ∧
  author_block (header b) (extrinsics b) s0 = Ret (header b) s1.
Proof.
  intros H0e (Hp & (t & Ha & ->) & Hr & He)%execute_block_ret. split; [done|].
  rewrite (applies_authored _ _ _ _ _ H0e Ha Hr), <-He. by destruct (header b).
Qed.

(** ** What importing does to the ledger *)

Fixpoint ledger_run (L : ledger V) l : ledger V :=
  match l with [] => L | tx :: l => ledger_run (ledger_apply L tx) l end.

Context `{!LawfulCodec V}.

Lemma ledger_of_same_protected s s' :
  same_protected s s' → ledger_of (V := V) s' = ledger_of s.
Proof.
  intros Hs. symmetry. apply represents_unique. intros o.
  rewrite (same_protected_utxo _ _ Hs). apply represents_ledger_of.
Qed.

Lemma ledger_of_insert s k v :
  (∀ o : OutputRef, scale_encode o ≠ k) → ledger_of (V := V) (<[k := v]> s) = ledger_of s.
Proof.
  intros Hk. symmetry. apply represents_unique. intros o. unfold utxo_at.
  rewrite lookup_insert_ne by (intros E; by eapply Hk). apply represents_ledger_of.
Qed.

Lemma ledger_of_delete s k :
  (∀ o : OutputRef, scale_encode o ≠ k) → ledger_of (V := V) (delete k s) = ledger_of s.
Proof.
  intros Hk. symmetry. apply represents_unique. intros o. unfold utxo_at.
  rewrite lookup_delete_ne by (intros E; by eapply Hk). apply represents_ledger_of.
Qed.

Lemma apply_ledger s s' tx :
  apply_tuxedo_transaction tx s = Ret tt s' →
  ledger_of s' = ledger_apply (ledger_of s) tx.
Proof.
  intros Hs. symmetry. apply represents_unique. intros o.
  by destruct (apply_utxo_at _ _ _ o Hs).
Qed.

Lemma apply_all_ledger l s s' :
  apply_all l s = Ret tt s' → ledger_of s' = ledger_run (ledger_of s) l.
Proof.
  revert s. induction l as [|tx l IH]; intros s Hl; [by injection Hl as <-|].
  unfold apply_all in Hl. cbn [for_each] in Hl. apply bind_ret_inv in Hl as ([] & s1 & Ha & Hl).
  cbn [ledger_run]. by rewrite <-(apply_ledger _ _ _ Ha), (IH _ Hl).
Qed.

(** C6: Importing a block applies its extrinsics to the ledger one by one, in
    order, stores the block's number as the height and leaves no transient
    key; the roots in its header are those of the final state and of its
    extrinsics. *)
Theorem execute_block_refines (b : Block V C) s s' :
  s !! EXTRINSIC_KEY = None →
  execute_block b s = Ret tt s' →
  ledger_of s' = ledger_run (ledger_of s) (extrinsics b) ∧
  height_at s' = Some (number (header b)) ∧
  s' !! HEADER_KEY = None ∧ s' !! EXTRINSIC_KEY = None ∧
  decode_value (storage_root V1 s') = Some (state_root (header b)) ∧
  extrinsics_root (header b) = ordered_trie_root (map scale_encode (extrinsics b)) V0.
Proof.
  intros H0e (_ & (t & Ha & ->) & Hr & He)%execute_block_ret.
  pose proof (apply_all_keys _ _ _ HEIGHT_KEY Ha ltac:(auto)) as Hh.
  pose proof (apply_all_keys _ _ _ EXTRINSIC_KEY Ha ltac:(auto)) as Hx.
  rewrite opened_lookup in Hh, Hx. rewrite decide_False, decide_True in Hh by done.
  rewrite !decide_False in Hx by done.
  split; [|split; [|split; [by apply lookup_delete_eq|split; [|by split]]]].
  - rewrite ledger_of_delete by apply output_ref_key_header.
    rewrite (apply_all_ledger _ _ _ Ha). unfold opened.
    by rewrite !ledger_of_insert by (apply output_ref_key_header || apply output_ref_key_height).
  - unfold height_at. rewrite lookup_delete_ne, Hh by done. simpl. apply decode_value_encode.
  - by rewrite lookup_delete_ne, Hx.
Qed.
End workflows.

(** ** The chain as a state machine *)

Section chain.
Context `{CoreLaws, !ScaleLaws, Inherents} {V C : Type} `{Verifier V, !ConstraintChecker C}.
Context `{!CheckerFrame C, !CheckerTransient C}.
Implicit Types (s : storage).

(** One step of the chain: a block is imported. *)
Inductive chain_step : storage → storage → Prop :=
| import_block (b : Block V C) s s' : execute_block b s = Ret tt s' → chain_step s s'.

Lemma chain_step_extrinsic s s' :
  chain_step s s' → s !! EXTRINSIC_KEY = None → s' !! EXTRINSIC_KEY = None.
Proof.
  intros [b s1 s2 (_ & (t & Ha & ->) & _)%execute_block_ret] Hx.
  rewrite lookup_delete_ne, (apply_all_keys _ _ _ _ Ha), opened_lookup, !decide_False by auto.
  done.
Qed.

(** In every state reached by importing at least one block, the height is
    stored and the transient keys are cleared, so that reading the height never
    panics ("A height is stored at the beginning of block one and never
    cleared"). *)
Theorem height_never_cleared s s' :
  s !! EXTRINSIC_KEY = None → tc chain_step s s' →
  s' !! HEADER_KEY = None ∧ s' !! EXTRINSIC_KEY = None ∧
  ∃ h, height_at s' = Some h ∧ (block_height : M storage Empty_set u32) s' = Ret h s'.
Proof.
  intros Hx. induction 1 as [s s' Hs|s s1 s' Hs _ IH].
  - pose proof (chain_step_extrinsic _ _ Hs Hx).
    destruct Hs as [b s s' (_ & (t & Ha & ->) & _)%execute_block_ret].
    split; [apply lookup_delete_eq|]. split; [done|]. exists (number (header b)).
    assert (height_at (delete HEADER_KEY t) = Some (number (header b))) as Hh.
    { unfold height_at. rewrite lookup_delete_ne by done.
      rewrite (apply_all_keys _ _ _ _ Ha), opened_lookup by auto.
      rewrite decide_False, decide_True by done. simpl. apply decode_value_encode. }
    split; [done|]. by rewrite block_height_run, Hh.
  - apply IH. by eapply chain_step_extrinsic.
Qed.
End chain.

(** ** Witnesses *)

Module Witnesses.
Import Sample.

Definition header0 : Header := mk_header H256_zero (trunc 32 2) H256_zero H256_zero tt.

(** The block that contains [transfer], authored on [store]. *)
Definition authored : Header * storage :=
  match author_block header0 [transfer] store with
  | Ret h s => (h, s) | _ => (header0, ∅) end.

Lemma author_import_witness :
  execute_block (mk_block authored.1 [transfer]) store = Ret tt authored.2.
Proof.
  apply (author_import header0 authored.1 [transfer] store authored.2);
    [by_vm|by repeat constructor|by_vm].
Defined.

Lemma import_author_witness :
  author_block authored.1 [transfer] store = Ret authored.1 authored.2.
Proof.
  destruct (import_author (mk_block authored.1 [transfer]) store authored.2) as [_ Ha];
    [by_vm..|exact Ha].
Defined.

Lemma execute_block_refines_witness :
  ledger_of authored.2 = ledger_run (ledger_of store) [transfer] ∧
  height_at authored.2 = Some (trunc 32 2).
Proof.
  destruct (execute_block_refines (mk_block authored.1 [transfer]) store authored.2)
    as (Hl & Hh & _); [by_vm..|]. split; [exact Hl|rewrite Hh; by_vm].
Defined.

Lemma height_never_cleared_witness :
  authored.2 !! HEADER_KEY = None.
Proof.
  destruct (height_never_cleared (V := TestVerifier) (C := TestConstraintChecker)
    store authored.2) as [Hh _]; [by_vm| |exact Hh].
  apply tc_once. apply (import_block (mk_block authored.1 [transfer])). by_vm.
Defined.
End Witnesses.
