(* ===== verification/Genesis.v ===== *)
(** * Genesis: the genesis state and the genesis block

    Models [tuxedo-core/src/genesis/config_builder.rs], which writes the genesis
    transactions and their outputs to the storage, and
    [tuxedo-core/src/genesis/block_builder.rs], which moves the transactions from
    the storage to the body of the genesis block. *)

From S2P Require Import Prelude Effects Scale Types Checker UtxoSet CheckerLaws Executive.
From S2P Require Import Concrete Verifiers Samples ExecutiveFacts Ledger Blocks.

Section config_builder.
Context `{CoreCodecs, Inherents} {V C : Type} `{Verifier V, !ConstraintChecker C}.

Definition misplaced_inherent : string :=
  "Tried to execute opening inherent after switching to non-inherents.".
Definition unbuildable : string :=
  "Genesis transactions must not have any inputs or peeks.".

(** One turn of the loop; the accumulator is [finished_with_opening_inherents]. *)
Definition build_transaction (finished_with_opening_inherents : bool) (tx : Transaction V C) :
    M storage string bool :=
  let current_tx_is_inherent := is_inherent (checker tx) in
  if current_tx_is_inherent && finished_with_opening_inherents
  then mthrow misplaced_inherent
  else
    let finished_with_opening_inherents :=
      if negb current_tx_is_inherent && negb finished_with_opening_inherents
      then true else finished_with_opening_inherents in
    ensure! bool_decide (inputs tx = []) && bool_decide (peeks tx = []) else unbuildable;
    for_each (enumerate (outputs tx))
      (λ _ '(index, utxo),
         storage_set (scale_encode (out_ref tx index)) (scale_encode utxo)) tt;;
    mret finished_with_opening_inherents.

(** [TuxedoGenesisConfigBuilder::build] *)
Definition build (genesis_transactions : list (Transaction V C)) : M storage string unit :=
  storage_set EXTRINSIC_KEY (scale_encode genesis_transactions);;
  storage_set HEIGHT_KEY (scale_encode (trunc 32 0));;
  for_each genesis_transactions build_transaction false;;
  mret tt.
End config_builder.

(** What the block builder takes from the client: the storage the chain
    specification builds, the state version of its runtime, and the operation, begun
    with the backend, that imports a genesis state and answers its root. *)
Class GenesisBackend `{Host} : Type := {
  BackendError : Type;
  build_storage : result BackendError storage;
  resolve_state_version_from_wasm : storage → result BackendError StateVersion;
  BlockImportOperation : Type;
  begin_operation : result BackendError BlockImportOperation;
  set_genesis_state : BlockImportOperation → storage → bool → StateVersion →
    result BackendError (H256 * BlockImportOperation);
  default_digest : Digest;
}.

Section block_builder.
Context `{CoreCodecs, Inherents, GenesisBackend} {V C : Type} `{Verifier V, !ConstraintChecker C}.

(** [TuxedoGenesisBlockBuilder::build_genesis_block]: the block, and the import
    operation, which was given the state. *)
Definition build_genesis_block (commit_genesis_state : bool) :
    result BackendError (Block V C * BlockImportOperation) :=
  genesis_storage ← build_storage;
  state_version ← resolve_state_version_from_wasm genesis_storage;
  let extrinsics :=
    match genesis_storage !! EXTRINSIC_KEY with
    | Some v => default [] (decode_value (A := list (Transaction V C)) v)
    | None => []
    end in
  let genesis_storage := delete EXTRINSIC_KEY genesis_storage in
  let extrinsics_root := ordered_trie_root (map scale_encode extrinsics) state_version in
  op ← begin_operation;
  '(state_root, op) ← set_genesis_state op genesis_storage commit_genesis_state state_version;
  mret (mk_block (mk_header H256_zero (trunc 32 0) state_root extrinsics_root default_digest)
          extrinsics, op).
End block_builder.

(** ** The state that is built *)

Section facts.
Context `{CoreLaws, !ScaleLaws, Inherents} {V C : Type} `{Verifier V, !ConstraintChecker C}.
Implicit Types (s : storage) (tx : Transaction V C) (l : list (Transaction V C)).

(** A transaction the builder can place: it only creates. *)
Definition bare tx : Prop := inputs tx = [] ∧ peeks tx = [].

Definition prepared l s : storage :=
  <[HEIGHT_KEY := scale_encode (trunc 32 0)]> (<[EXTRINSIC_KEY := scale_encode l]> s).

Lemma write_outputs_run {E} tx s :
  (for_each (enumerate (outputs tx))
     (λ _ '(index, utxo),
        storage_set (scale_encode (out_ref tx index)) (scale_encode utxo)) tt
     : M storage E unit) s =
  Ret tt (fold_left (λ s p, <[scale_encode (out_ref tx p.1) := scale_encode p.2]> s)
            (enumerate (outputs tx)) s).
Proof.
  generalize (enumerate (outputs tx)). intros l. revert s.
  induction l as [|[i o] l IH]; intros s; [done|].
  cbn [for_each fold_left]. rewrite bind_run. apply IH.
Qed.

Lemma build_transaction_run f tx s :
  build_transaction f tx s =
  if is_inherent (checker tx) && f then Throw misplaced_inherent s else
  if decide (bare tx)
  then Ret (if negb (is_inherent (checker tx)) && negb f then true else f) (storage_apply s tx)
  else Throw unbuildable s.
Proof.
  unfold build_transaction, bare. destruct (is_inherent (checker tx) && f); [done|].
  case_bool_decide as Hi; [|rewrite decide_False by tauto; done].
  case_bool_decide as Hp; [|rewrite decide_False by tauto; done].
  rewrite decide_True by done. cbn [andb]. rewrite bind_run, write_outputs_run.
  unfold storage_apply. by rewrite Hi.
Qed.

Lemma build_loop_ret l f s s' :
  (∃ f', for_each l build_transaction f s = Ret f' s') ↔
  placed f l ∧ Forall bare l ∧ s' = fold_left storage_apply l s.
Proof.
  revert f s. induction l as [|tx l IH]; intros f s.
  - cbn [for_each fold_left]. split.
    + intros [f' [= _ ->]]. split; [by destruct f; constructor|]. by split; [constructor|].
    + intros (_ & _ & ->). by exists f.
  - rewrite placed_cons, Forall_cons. cbn [for_each fold_left]. rewrite bind_run.
    rewrite build_transaction_run. destruct (is_inherent (checker tx) && f) eqn:Hm.
    + split; [by intros []|]. by intros (([=] & _) & _).
    + case_decide as Hb; [|split; [by intros []|tauto]]. rewrite IH. tauto.
Qed.

Lemma build_loop_total l f s :
  (∃ f' s', for_each l build_transaction f s = Ret f' s') ∨
  (∃ e s', for_each l build_transaction f s = Throw e s').
Proof.
  revert f s. induction l as [|tx l IH]; intros f s; [left; by eexists _, _|].
  cbn [for_each]. rewrite bind_run, build_transaction_run.
  destruct (_ && f); [by right; eexists _, _|].
  case_decide; [apply IH|by right; eexists _, _].
Qed.

Lemma build_ret l s s' :
  build l s = Ret tt s' ↔
  inherents_first l ∧ Forall bare l ∧ s' = fold_left storage_apply l (prepared l s).
Proof.
  unfold build. rewrite bind_run. cbn. rewrite bind_run. cbn. rewrite bind_ret_inv.
  change (inherents_first l) with (placed false l). rewrite <-build_loop_ret. split.
  - intros (f & s1 & Hl & [= <-]). by exists f.
  - intros [f Hf]. by exists f, s'.
Qed.

(** When a genesis can be built.  Building succeeds exactly when the
    inherents come first and no transaction has inputs or peeks (the checkers
    are not consulted); it answers an error otherwise and never panics.  The
    state built holds the transactions under the extrinsics key, height zero,
    and every output under the reference it would have in a block. *)
Theorem genesis_build l s :
  (∀ s', build l s = Ret tt s' ↔
     inherents_first l ∧ Forall bare l ∧ s' = fold_left storage_apply l (prepared l s)) ∧
  ((∃ s', build l s = Ret tt s') ∨ (∃ e s', build l s = Throw e s')).
Proof.
  split; [apply build_ret|]. unfold build. rewrite bind_run. cbn. rewrite bind_run. cbn.
  rewrite bind_run. edestruct build_loop_total as [(f & s1 & ->)|(e & s1 & ->)]; eauto.
Qed.

(** What later transactions do not touch survives. *)
Lemma ledger_run_keeps (L : ledger V) l o u :
  L !! o = Some u → Forall bare l → tx_hash o ∉ map tx_id l → ledger_run L l !! o = Some u.
Proof.
  revert L. induction l as [|tx l IH]; intros L Ho Hb Hn; [done|]. cbn [ledger_run map] in *.
  apply Forall_cons in Hb as [[Hi _] Hb]. apply not_elem_of_cons in Hn as [Hx Hn].
  apply IH; [|done..]. rewrite ledger_apply_other.
  - rewrite Hi, decide_False by apply not_elem_of_nil. done.
  - intros i _ ->. by apply Hx.
Qed.

Lemma fold_apply_key l s k :
  (∀ o : OutputRef, scale_encode o ≠ k) → fold_left storage_apply l s !! k = s !! k.
Proof.
  intros Hk. revert s. induction l as [|tx l IH]; intros s; [done|].
  cbn [fold_left]. by rewrite IH, storage_apply_key.
Qed.

(** A key that names no output stays out of the way. *)
Lemma storage_apply_insert tx s k v :
  (∀ o : OutputRef, scale_encode o ≠ k) →
  storage_apply (<[k := v]> s) tx = <[k := v]> (storage_apply s tx).
Proof.
  intros Hk. unfold storage_apply.
  assert (∀ ins s, fold_left (λ s i, delete (scale_encode (output_ref i)) s) ins (<[k := v]> s) =
    <[k := v]> (fold_left (λ s (i : Input), delete (scale_encode (output_ref i)) s) ins s)) as Hd.
  { intros ins. induction ins as [|i ins IH]; intros s1; [done|]. cbn [fold_left].
    by rewrite delete_insert_ne, IH. }
  rewrite Hd. generalize (fold_left (λ s i, delete (scale_encode (output_ref i)) s) (inputs tx) s).
  generalize (enumerate (outputs tx)). intros outs. induction outs as [|p outs IH]; intros s1; [done|].
  cbn [fold_left]. by rewrite insert_insert_ne, IH.
Qed.

Lemma build_insert l s s' k v :
  (∀ o : OutputRef, scale_encode o ≠ k) → k ≠ HEIGHT_KEY → k ≠ EXTRINSIC_KEY →
  build l s = Ret tt s' → build l (<[k := v]> s) = Ret tt (<[k := v]> s').
Proof.
  intros Hk Hh Hx (Hi & Hb & ->)%build_ret. apply build_ret. split; [done|]. split; [done|].
  unfold prepared. rewrite (insert_insert_ne _ EXTRINSIC_KEY k), (insert_insert_ne _ HEIGHT_KEY k) by done.
  generalize (<[HEIGHT_KEY := scale_encode (trunc 32 0)]> (<[EXTRINSIC_KEY := scale_encode l]> s)).
  clear Hi Hb. induction l as [|tx l IH]; intros s1; [done|]. cbn [fold_left].
  by rewrite storage_apply_insert, IH.
Qed.

Lemma fold_apply_ledger `{!LawfulCodec V} l s :
  ledger_of (fold_left storage_apply l s) = ledger_run (ledger_of s) l.
Proof.
  revert s. induction l as [|tx l IH]; intros s; [done|]. cbn [fold_left ledger_run].
  rewrite IH. f_equal. symmetry. apply represents_unique, represents_apply, represents_ledger_of.
Qed.

Lemma ledger_run_app (L : ledger V) l1 l2 : ledger_run L (l1 ++ l2) = ledger_run (ledger_run L l1) l2.
Proof. revert L. induction l1 as [|tx l1 IH]; intros L; [done|apply IH]. Qed.

(** The first output of every genesis transaction is in the state that is built. *)
Lemma built_output `{!LawfulCodec V} l s0 s tx (out : Output V) :
  build l s0 = Ret tt s → NoDup (map tx_id l) → tx ∈ l → outputs tx !! 0 = Some out →
  (N.of_nat (List.length (outputs tx)) ≤ 2 ^ 32)%N →
  utxo_at (delete EXTRINSIC_KEY s) (out_ref tx 0) = Some out.
Proof.
  intros (_ & Hb & ->)%build_ret Hd (l1 & l2 & ->)%list_elem_of_split Ho Hn.
  rewrite represents_ledger_of, ledger_of_delete by apply output_ref_key_extrinsic.
  rewrite fold_apply_ledger, ledger_run_app. cbn [ledger_run]. apply ledger_run_keeps.
  - by apply ledger_apply_output.
  - apply Forall_app in Hb as [_ Hb]. by apply Forall_cons in Hb as [_ Hb].
  - rewrite map_app in Hd. apply NoDup_app in Hd as (_ & _ & Hd). cbn [map] in Hd.
    by apply NoDup_cons in Hd as [Hd _].
Qed.


Context {backend : GenesisBackend} `{!LawfulCodec V, !LawfulCodec C}.

Lemma built_extrinsics l s0 s : build l s0 = Ret tt s → s !! EXTRINSIC_KEY = Some (scale_encode l).
Proof.
  intros (_ & _ & ->)%build_ret. rewrite fold_apply_key by apply output_ref_key_extrinsic.
  unfold prepared. by rewrite lookup_insert_ne, lookup_insert_eq.
Qed.

(** The block is made of what the storage holds under the extrinsics key. *)
Lemma genesis_block_of l s v op root op' commit :
  s !! EXTRINSIC_KEY = Some (scale_encode l) → build_storage = Ok s →
  resolve_state_version_from_wasm s = Ok v → begin_operation = Ok op →
  set_genesis_state op (delete EXTRINSIC_KEY s) commit v = Ok (root, op') →
  build_genesis_block (V := V) (C := C) commit =
  Ok (mk_block (mk_header H256_zero (trunc 32 0) root
        (ordered_trie_root (map scale_encode l) v) default_digest) l, op').
Proof.
  intros Hx Hb Hv Ho Hr. unfold build_genesis_block, bind, mbind, result_bind.
  by rewrite Hb, Hv, Ho, Hr, Hx, decode_value_encode.
Qed.

(** The first of the client's calls that fails decides the error. *)
Lemma genesis_block_errors commit e :
  build_genesis_block (V := V) (C := C) commit = Err e ↔
  build_storage = Err e ∨ ∃ s, build_storage = Ok s ∧
    (resolve_state_version_from_wasm s = Err e ∨
     ∃ v, resolve_state_version_from_wasm s = Ok v ∧
       (begin_operation = Err e ∨ ∃ op, begin_operation = Ok op ∧
          set_genesis_state op (delete EXTRINSIC_KEY s) commit v = Err e)).
Proof.
  unfold build_genesis_block, bind, mbind, result_bind. split.
  - destruct build_storage as [s|]; [|intros [= ->]; by left].
    destruct (resolve_state_version_from_wasm s) as [v|] eqn:Hv; [|intros [= ->]; eauto 6].
    destruct begin_operation as [op|]; [|intros [= ->]; eauto 10].
    destruct (set_genesis_state op _ commit v) as [[]|] eqn:Hr; [done|intros [= ->]; eauto 12].
  - intros [->|(s & -> & [->|(v & -> & [->|(op & -> & ->)])])]; done.
Qed.

(** C33: The genesis block.  When the storage the client builds is the one
    [build] writes for a list of transactions, the genesis block has number
    zero and exactly these transactions as its body; the state imported with it
    has height zero, no transient key (so that authoring and importing block one
    start from a clean state), and as its ledger the outputs of the transactions
    applied in order; the extrinsics root is that of the body. *)
Theorem genesis_block l s0 s v op root op' commit :
  s0 !! HEADER_KEY = None → build l s0 = Ret tt s → build_storage = Ok s →
  resolve_state_version_from_wasm s = Ok v → begin_operation = Ok op →
  let s' := delete EXTRINSIC_KEY s in
  set_genesis_state op s' commit v = Ok (root, op') →
  ∃ b : Block V C, build_genesis_block commit = Ok (b, op') ∧
    extrinsics b = l ∧ number (header b) = trunc 32 0 ∧ state_root (header b) = root ∧
    extrinsics_root (header b) = ordered_trie_root (map scale_encode l) v ∧
    height_at s' = Some (trunc 32 0) ∧ s' !! HEADER_KEY = None ∧ s' !! EXTRINSIC_KEY = None ∧
    ledger_of s' = ledger_run (ledger_of s0) l.
Proof.
  intros Hnone Hbuild Hb Hv Ho s' Hr. pose proof (built_extrinsics _ _ _ Hbuild) as Hx.
  apply build_ret in Hbuild as (_ & _ & Hs).
  assert (s !! HEIGHT_KEY = Some (scale_encode (trunc 32 0))) as Hh.
  { rewrite Hs, fold_apply_key by apply output_ref_key_height. apply lookup_insert_eq. }
  assert (s !! HEADER_KEY = None) as Hd.
  { rewrite Hs, fold_apply_key by apply output_ref_key_header. unfold prepared.
    by rewrite !lookup_insert_ne. }
  eexists. split; [by eapply genesis_block_of|]. unfold s'.
  cbn [header extrinsics number state_root extrinsics_root].
  do 4 (split; [done|]). split; [|split; [|split]].
  - unfold height_at. rewrite lookup_delete_ne, Hh by done. simpl. apply decode_value_encode.
  - by rewrite lookup_delete_ne.
  - apply lookup_delete_eq.
  - rewrite ledger_of_delete by apply output_ref_key_extrinsic. rewrite Hs, fold_apply_ledger.
    unfold prepared. by rewrite !ledger_of_insert by
      (apply output_ref_key_height || apply output_ref_key_extrinsic).
Qed.
End facts.

(** ** Witnesses *)

Module Witnesses.
Import Sample.

Definition mint_one : Tx := mk_transaction [] [] [out 1] yes.
Definition built : storage := match build [mint_one] ∅ with Ret _ s => s | _ => ∅ end.

#[export] Instance concrete_backend : GenesisBackend := {|
  BackendError := unit;
  build_storage := Ok built;
  resolve_state_version_from_wasm _ := Ok V1;
  BlockImportOperation := option storage;
  begin_operation := Ok None;
  set_genesis_state _ s _ _ := Ok (to_bytesN 32 (storage_root V1 s), Some s);
  default_digest := tt |}.

#[export] Instance test_checker_lawful : LawfulCodec TestConstraintChecker.
Proof. apply iso_lawful. by intros []. Qed.

Lemma genesis_block_witness :
  ∃ (b : Block TestVerifier TestConstraintChecker) op,
    build_genesis_block true = Ok (b, op) ∧ extrinsics b = [mint_one].
Proof.
  destruct (genesis_block (backend := concrete_backend) [mint_one] ∅ built V1 None
    (to_bytesN 32 (storage_root V1 (delete EXTRINSIC_KEY built)))
    (Some (delete EXTRINSIC_KEY built)) true)
    as (b & Hb & Hx & _); [by_vm|by_vm|done|done|done|done|].
  eexists b, _. split; [exact Hb|exact Hx].
Defined.
End Witnesses.
