(* ===== verification/HostFunctions.v ===== *)
(** * HostFunctions: the storage of a block under validation

    Models the host functions with which
    [tuxedo-parachain-core/src/validate_block.rs] replaces those of the node.  They
    work on the externalities of the current thread: here [option Ext], set while
    the block is executed.  Then what the externalities answer, and two simulations: a
    run on them that returns is a run on the full state ([grounded]), and a run on the
    full state that touches known keys only is one on them ([covered]). *)

From S2P Require Import Prelude Effects Scale Types Checker UtxoSet CheckerLaws Executive.
From S2P Require Import Simulation.

(** ** The externalities ([sp_externalities], [sp_state_machine])

    A call may panic: the in-memory state holds only what its proof recorded. *)
Class Externalities `{Host} : Type := {
  Ext : Type;
  Backend : Type;
  (** an empty overlay over a backend *)
  ext_new : Backend → Ext;
  ChildInfo : Type;
  new_default : bytes → ChildInfo;
  MultiRemovalResults : Type;
  KillStorageResult : Type;
  into_kill : MultiRemovalResults → KillStorageResult;
  ext_storage : bytes → M Ext Empty_set (option bytes);
  exists_storage : bytes → M Ext Empty_set bool;
  place_storage : bytes → option bytes → M Ext Empty_set unit;
  ext_storage_root : StateVersion → M Ext Empty_set bytes;
  clear_prefix : bytes → option u32 → option bytes → M Ext Empty_set MultiRemovalResults;
  storage_append : bytes → bytes → M Ext Empty_set unit;
  next_storage_key : bytes → M Ext Empty_set (option bytes);
  storage_start_transaction : M Ext Empty_set unit;
  storage_rollback_transaction : M Ext Empty_set (result unit unit);
  storage_commit_transaction : M Ext Empty_set (result unit unit);
  child_storage : ChildInfo → bytes → M Ext Empty_set (option bytes);
  exists_child_storage : ChildInfo → bytes → M Ext Empty_set bool;
  place_child_storage : ChildInfo → bytes → option bytes → M Ext Empty_set unit;
  kill_child_storage : ChildInfo → option u32 → option bytes → M Ext Empty_set MultiRemovalResults;
  clear_child_prefix :
    ChildInfo → bytes → option u32 → option bytes → M Ext Empty_set MultiRemovalResults;
  child_storage_root : ChildInfo → StateVersion → M Ext Empty_set bytes;
  next_child_storage_key : ChildInfo → bytes → M Ext Empty_set (option bytes);
}.

Section host.
Context `{Externalities} {E : Type}.
Abbreviation HostCall A := (M (option Ext) E A).

Definition not_set : string := "Environmental externalities not set.".

(** [with_externalities] *)
Definition with_externalities {A} (f : M Ext Empty_set A) : HostCall A := λ environment,
  match environment with
  | None => Panic not_set
  | Some ext =>
    match f ext with
    | Ret a ext => Ret a (Some ext)
    | Throw e _ => match e with end
    | Panic w => Panic w
    end
  end.

(** [run_with_externalities]: the call runs on an empty overlay, and afterwards the
    environment is what it was. *)
Definition run_with_externalities {A} (backend : Backend) (execute : HostCall A) : HostCall A :=
  λ environment,
    match execute (Some (ext_new backend)) with
    | Ret r _ => Ret r environment
    | Throw e _ => Throw e environment
    | Panic w => Panic w
    end.

(** ** The main storage *)

(** What both replaced reads do with the value found: the answer, and the buffer
    they leave. *)
Definition copy_out (value : option bytes) (value_out : bytes) (value_offset : u32) :
    option u32 * bytes :=
  match value with
  | Some value =>
    let value_offset := N.to_nat (uval value_offset) in
    let data := drop (Nat.min value_offset (List.length value)) value in
    let written := Nat.min (List.length data) (List.length value_out) in
    (Some (trunc 32 (N.of_nat (List.length value))), take written data ++ drop written value_out)
  | None => (None, value_out)
  end.

Definition host_storage_read (key value_out : bytes) (value_offset : u32) :
    HostCall (option u32 * bytes) :=
  value ← with_externalities (ext_storage key);
  mret (copy_out value value_out value_offset).
Definition host_storage_set (key value : bytes) : HostCall unit :=
  with_externalities (place_storage key (Some value)).
Definition host_storage_get (key : bytes) : HostCall (option bytes) :=
  with_externalities (ext_storage key).
Definition host_storage_exists (key : bytes) : HostCall bool :=
  with_externalities (exists_storage key).
Definition host_storage_clear (key : bytes) : HostCall unit :=
  with_externalities (place_storage key None).
Definition host_storage_root (version : StateVersion) : HostCall bytes :=
  with_externalities (ext_storage_root version).
Definition host_storage_clear_prefix (prefix : bytes) (limit : option u32) :
    HostCall KillStorageResult :=
  r ← with_externalities (clear_prefix prefix limit None);
  mret (into_kill r).
Definition host_storage_append (key value : bytes) : HostCall unit :=
  with_externalities (storage_append key value).
Definition host_storage_next_key (key : bytes) : HostCall (option bytes) :=
  with_externalities (next_storage_key key).

(** Transactions: [.ok()], then [expect]. *)
Definition host_storage_start_transaction : HostCall unit :=
  with_externalities storage_start_transaction.
Definition host_storage_rollback_transaction : HostCall unit :=
  r ← with_externalities storage_rollback_transaction;
  expect (ok r) "No open transaction that can be rolled back.".
Definition host_storage_commit_transaction : HostCall unit :=
  r ← with_externalities storage_commit_transaction;
  expect (ok r) "No open transaction that can be committed.".

(** ** Child storages *)

Definition host_default_child_storage_get (storage_key key : bytes) : HostCall (option bytes) :=
  with_externalities (child_storage (new_default storage_key) key).
Definition host_default_child_storage_read (storage_key key value_out : bytes)
    (value_offset : u32) : HostCall (option u32 * bytes) :=
  value ← with_externalities (child_storage (new_default storage_key) key);
  mret (copy_out value value_out value_offset).
Definition host_default_child_storage_set (storage_key key value : bytes) : HostCall unit :=
  with_externalities (place_child_storage (new_default storage_key) key (Some value)).
Definition host_default_child_storage_clear (storage_key key : bytes) : HostCall unit :=
  with_externalities (place_child_storage (new_default storage_key) key None).
Definition host_default_child_storage_storage_kill (storage_key : bytes) (limit : option u32) :
    HostCall KillStorageResult :=
  r ← with_externalities (kill_child_storage (new_default storage_key) limit None);
  mret (into_kill r).
Definition host_default_child_storage_exists (storage_key key : bytes) : HostCall bool :=
  with_externalities (exists_child_storage (new_default storage_key) key).
Definition host_default_child_storage_clear_prefix (storage_key prefix : bytes)
    (limit : option u32) : HostCall KillStorageResult :=
  r ← with_externalities (clear_child_prefix (new_default storage_key) prefix limit None);
  mret (into_kill r).
Definition host_default_child_storage_root (storage_key : bytes) (version : StateVersion) :
    HostCall bytes :=
  with_externalities (child_storage_root (new_default storage_key) version).
Definition host_default_child_storage_next_key (storage_key key : bytes) :
    HostCall (option bytes) :=
  with_externalities (next_child_storage_key (new_default storage_key) key).

(** ** The off-chain index: nothing is recorded *)

Definition host_offchain_index_set (_key _value : bytes) : HostCall unit := mret tt.
Definition host_offchain_index_clear (_key : bytes) : HostCall unit := mret tt.

(** ** The replacement

    The host functions that the runtime imports, with the types of their answers, and
    what [validate_block] replaces them with as long as [_guard] lives. *)

Inductive HostFunction : Type → Type :=
| StorageRead (key value_out : bytes) (value_offset : u32) : HostFunction (option u32 * bytes)
| StorageSet (key value : bytes) : HostFunction unit
| StorageGet (key : bytes) : HostFunction (option bytes)
| StorageExists (key : bytes) : HostFunction bool
| StorageClear (key : bytes) : HostFunction unit
| StorageRoot (version : StateVersion) : HostFunction bytes
| StorageClearPrefix (prefix : bytes) (limit : option u32) : HostFunction KillStorageResult
| StorageAppend (key value : bytes) : HostFunction unit
| StorageNextKey (key : bytes) : HostFunction (option bytes)
| StorageStartTransaction : HostFunction unit
| StorageRollbackTransaction : HostFunction unit
| StorageCommitTransaction : HostFunction unit
| ChildGet (storage_key key : bytes) : HostFunction (option bytes)
| ChildRead (storage_key key value_out : bytes) (value_offset : u32) :
    HostFunction (option u32 * bytes)
| ChildSet (storage_key key value : bytes) : HostFunction unit
| ChildClear (storage_key key : bytes) : HostFunction unit
| ChildStorageKill (storage_key : bytes) (limit : option u32) : HostFunction KillStorageResult
| ChildExists (storage_key key : bytes) : HostFunction bool
| ChildClearPrefix (storage_key prefix : bytes) (limit : option u32) :
    HostFunction KillStorageResult
| ChildRoot (storage_key : bytes) (version : StateVersion) : HostFunction bytes
| ChildNextKey (storage_key key : bytes) : HostFunction (option bytes)
| OffchainIndexSet (key value : bytes) : HostFunction unit
| OffchainIndexClear (key : bytes) : HostFunction unit.

Definition _guard {A} (f : HostFunction A) : HostCall A :=
  match f with
  | StorageRead key out offset => host_storage_read key out offset
  | StorageSet key value => host_storage_set key value
  | StorageGet key => host_storage_get key
  | StorageExists key => host_storage_exists key
  | StorageClear key => host_storage_clear key
  | StorageRoot version => host_storage_root version
  | StorageClearPrefix prefix limit => host_storage_clear_prefix prefix limit
  | StorageAppend key value => host_storage_append key value
  | StorageNextKey key => host_storage_next_key key
  | StorageStartTransaction => host_storage_start_transaction
  | StorageRollbackTransaction => host_storage_rollback_transaction
  | StorageCommitTransaction => host_storage_commit_transaction
  | ChildGet storage_key key => host_default_child_storage_get storage_key key
  | ChildRead storage_key key out offset =>
    host_default_child_storage_read storage_key key out offset
  | ChildSet storage_key key value => host_default_child_storage_set storage_key key value
  | ChildClear storage_key key => host_default_child_storage_clear storage_key key
  | ChildStorageKill storage_key limit =>
    host_default_child_storage_storage_kill storage_key limit
  | ChildExists storage_key key => host_default_child_storage_exists storage_key key
  | ChildClearPrefix storage_key prefix limit =>
    host_default_child_storage_clear_prefix storage_key prefix limit
  | ChildRoot storage_key version => host_default_child_storage_root storage_key version
  | ChildNextKey storage_key key => host_default_child_storage_next_key storage_key key
  | OffchainIndexSet key value => host_offchain_index_set key value
  | OffchainIndexClear key => host_offchain_index_clear key
  end.
End host.

(** So the runtime that a validator runs makes its host calls to these. *)
#[export] Instance guarded_store `{Externalities} : Store (option Ext) := {|
  storage_get E k := _guard (StorageGet k);
  storage_set E k v := _guard (StorageSet k v);
  storage_clear E k := _guard (StorageClear k) |}.
#[export] Instance guarded_root_store `{Externalities} : RootStore (option Ext) := {|
  host_root E version := _guard (StorageRoot version) |}.

(** ** What the externalities answer

    [part x s]: the externalities [x] stand for the storage [s], of which they may know a
    part only.  What they answer is then true of [s]; at a key that the proof does not
    record they panic ([EXT_NOT_ALLOWED_TO_FAIL] of [sp_state_machine]).  The root is the one
    of [s], or else, when the changes cannot be applied to the recorded nodes, still the
    backend's. *)
Definition answers {A} `{Externalities} (o : outcome Ext Empty_set A) (P : A → Ext → Prop) : Prop :=
  match o with Ret a x => P a x | Throw e _ => match e with end | Panic _ => True end.

Class ProofLaws `{Externalities} (backend_root : bytes) (part : Ext → storage → Prop) : Prop := {
  storage_law k x s : part x s → answers (ext_storage k x) (λ v x', v = s !! k ∧ part x' s);
  place_law k v x s : part x s →
    answers (place_storage k v x) (λ _ x', part x' (partial_alter (λ _, v) k s));
  root_law version x s : part x s →
    answers (ext_storage_root version x)
      (λ r x', (r = storage_root version s ∨ r = backend_root) ∧ part x' s);
}.

(** The part is known at the keys [K]: as long as no others are touched, the externalities
    do answer, and the root is that of the storage. *)
Class KnownLaws `{Externalities} (K : gset bytes) (part : Ext → storage → Prop) : Prop := {
  known_storage k x s : part x s → k ∈ K → ∃ x', ext_storage k x = Ret (s !! k) x' ∧ part x' s;
  known_place k v x s : part x s → k ∈ K →
    ∃ x', place_storage k v x = Ret tt x' ∧ part x' (partial_alter (λ _, v) k s);
  known_root version x s : part x s →
    ∃ x', ext_storage_root version x = Ret (storage_root version s) x' ∧ part x' s;
}.

(** *** A validator's run that returns is a run on the full state *)

Section grounded.
Context `{Externalities} (part : Ext → storage → Prop).

(** From externalities that stand for a storage, the call on the left panics, or does what
    the call on the right does. *)
Definition grounded E A (h : M (option Ext) E A) (m : M storage E A) : Prop := ∀ x s,
  part x s →
  match h (Some x) with
  | Ret a y => ∃ x' s', y = Some x' ∧ m s = Ret a s' ∧ part x' s'
  | Throw e y => ∃ x' s', y = Some x' ∧ m s = Throw e s' ∧ part x' s'
  | Panic _ => True
  end.

Lemma with_grounded E A (f : M Ext Empty_set A) (m : M storage E A) :
  (∀ x s, part x s → answers (f x) (λ a x', ∃ s', m s = Ret a s' ∧ part x' s')) →
  grounded E A (with_externalities f) m.
Proof.
  intros Hf x s Hx. specialize (Hf x s Hx). unfold with_externalities.
  destruct (f x) as [a x'|[]|w]; [|done]. destruct Hf as (s' & ? & ?). by exists x', s'.
Qed.

#[export] Instance grounded_simulation backend_root `{!ProofLaws backend_root part} :
  Simulation grounded.
Proof.
  split.
  - intros E A a x s Hx. by exists x, s.
  - intros E A e x s Hx. by exists x, s.
  - by intros.
  - intros E A B m1 m2 k1 k2 Hm Hk x s Hx. specialize (Hm x s Hx). rewrite !bind_run.
    destruct (m1 (Some x)) as [a y|e y|w]; [| |done].
    + destruct Hm as (x' & s' & -> & -> & Hx'). by apply Hk.
    + destruct Hm as (x' & s' & -> & -> & Hx'). by exists x', s'.
  - intros E F A f m1 m2 Hm x s Hx. specialize (Hm x s Hx). unfold catch_err.
    destruct (m1 (Some x)); [..|done]; destruct Hm as (x' & s' & -> & -> & ?); by exists x', s'.
  - intros E F A w m1 m2 Hm x s Hx. specialize (Hm x s Hx). unfold or_panic.
    destruct (m1 (Some x)); [|done..]. destruct Hm as (x' & s' & -> & -> & ?). by exists x', s'.
  - intros E k. apply with_grounded. intros x s Hx. pose proof (storage_law k x s Hx) as Hk.
    destruct (ext_storage k x) as [v x'|[]|]; [|done]. destruct Hk as [-> ?]. by exists s.
  - intros E k v. apply with_grounded. intros x s Hx. pose proof (place_law k (Some v) x s Hx) as Hk.
    destruct (place_storage k (Some v) x) as [[] x'|[]|]; [|done]. by eexists.
  - intros E k. apply with_grounded. intros x s Hx. pose proof (place_law k None x s Hx) as Hk.
    destruct (place_storage k None x) as [[] x'|[]|]; [|done]. by eexists.
Qed.
End grounded.

(** *** A run on the full state that touches known keys is a validator's run *)

Section covered.
Context `{Externalities} (K : gset bytes) (part : Ext → storage → Prop).

(** What is recorded grows; and as long as it is in [K], the externalities follow. *)
Definition records_more {E A} (m : M recording E A) : Prop := ∀ r,
  match m r with
  | Ret _ r' | Throw _ r' => recorded_keys r ⊆ recorded_keys r'
  | Panic _ => True
  end.
Definition followed {E A} (h : M (option Ext) E A) (m : M recording E A) : Prop := ∀ x r,
  part x (recorded_storage r) →
  match m r with
  | Ret a r' => recorded_keys r' ⊆ K →
      ∃ x', h (Some x) = Ret a (Some x') ∧ part x' (recorded_storage r')
  | Throw e r' => recorded_keys r' ⊆ K →
      ∃ x', h (Some x) = Throw e (Some x') ∧ part x' (recorded_storage r')
  | Panic _ => True
  end.
Definition covered E A (h : M (option Ext) E A) (m : M recording E A) : Prop :=
  records_more m ∧ followed h m.

Lemma records_more_bind {E A B} (m : M recording E A) (k : A → M recording E B) :
  records_more m → (∀ a, records_more (k a)) → records_more (bind m k).
Proof.
  intros Hm Hk r. specialize (Hm r). rewrite bind_run. destruct (m r) as [a r1|e r1|w]; [|done..].
  specialize (Hk a r1). destruct (k a r1); [by etrans..|done].
Qed.

Lemma followed_bind {E A B} h m (hk : A → M (option Ext) E B) mk :
  followed h m → (∀ a, covered E B (hk a) (mk a)) → followed (bind h hk) (bind m mk).
Proof.
  intros Hm Hk x r Hx. specialize (Hm x r Hx). rewrite !bind_run.
  destruct (m r) as [a r1|e r1|w]; [| |done].
  - destruct (Hk a) as [Hmore Hfollow]. specialize (Hmore r1).
    destruct (mk a r1) as [b r2|e r2|w] eqn:Ek; [| |done]; intros HK;
      destruct Hm as (x1 & Hh & Hx1); try (by etrans); rewrite Hh; specialize (Hfollow x1 r1 Hx1);
      rewrite Ek in Hfollow; by apply Hfollow.
  - intros HK. destruct (Hm HK) as (x1 & Hh & ?). rewrite Hh. by exists x1.
Qed.

Lemma covered_call E A (k : bytes) (f : M Ext Empty_set A) (m : M storage E A) :
  (∀ x s, part x s → k ∈ K → ∃ a x' s', f x = Ret a x' ∧ m s = Ret a s' ∧ part x' s') →
  covered E A (with_externalities f) (recorded k m).
Proof.
  intros Hf. split.
  - intros r. unfold recorded. destruct (m _); cbn [recorded_keys]; set_solver.
  - intros x r Hx. unfold recorded.
    destruct (m (recorded_storage r)) as [a s'|e s'|w] eqn:Em; [| |done];
      cbn [recorded_keys recorded_storage]; intros HK;
      destruct (Hf x _ Hx) as (a' & x' & s1 & Hx' & Hs1 & ?); try set_solver;
      rewrite Em in Hs1; [|done]. injection Hs1 as <- <-. exists x'.
    unfold with_externalities. by rewrite Hx'.
Qed.

#[export] Instance covered_simulation `{!KnownLaws K part} : Simulation covered.
Proof.
  split.
  - intros E A a. split; [intros r; change (recorded_keys r ⊆ recorded_keys r); done|].
    intros x r Hx _. by exists x.
  - intros E A e. split; [intros r; change (recorded_keys r ⊆ recorded_keys r); done|].
    intros x r Hx _. by exists x.
  - by split.
  - intros E A B m1 m2 k1 k2 [Hmore Hm] Hk. split.
    + apply records_more_bind; [done|]. intros a. apply Hk.
    + by apply followed_bind.
  - intros E F A f m1 m2 [Hmore Hm]. split.
    + intros r. specialize (Hmore r). unfold catch_err. by destruct (m2 r).
    + intros x r Hx. specialize (Hm x r Hx). unfold catch_err.
      destruct (m2 r); [| |done]; intros HK; destruct (Hm HK) as (x' & Hh & ?); rewrite Hh; by exists x'.
  - intros E F A w m1 m2 [Hmore Hm]. split.
    + intros r. specialize (Hmore r). unfold or_panic. by destruct (m2 r).
    + intros x r Hx. specialize (Hm x r Hx). unfold or_panic.
      destruct (m2 r); [|done..]. intros HK. destruct (Hm HK) as (x' & Hh & ?). rewrite Hh. by exists x'.
  - intros E k. apply covered_call. intros x s Hx Hk.
    destruct (known_storage k x s Hx Hk) as (x' & ? & ?). by eexists _, x', s.
  - intros E k v. apply covered_call. intros x s Hx Hk.
    destruct (known_place k (Some v) x s Hx Hk) as (x' & ? & ?). by eexists _, x', _.
  - intros E k. apply covered_call. intros x s Hx Hk.
    destruct (known_place k None x s Hx Hk) as (x' & ? & ?). by eexists _, x', _.
Qed.

#[export] Instance covered_root `{!KnownLaws K part} : RootSimulation covered.
Proof.
  split; [apply _|]. intros E version.
  split; [intros r; change (recorded_keys r ⊆ recorded_keys r); done|]. intros x r Hx _.
  destruct (known_root version x _ Hx) as (x' & Hr & ?). exists x'. split; [|done].
  cbn. unfold host_storage_root, with_externalities. by rewrite Hr.
Qed.
End covered.

(** ** Reading *)

Section reading.
Context `{Externalities} {E : Type}.

Lemma copy_out_spec value out (offset : u32) :
  let '(answer, out') := copy_out (Some value) out offset in
  let data := drop (N.to_nat (uval offset)) value in
  answer = Some (trunc 32 (N.of_nat (List.length value))) ∧
  List.length out' = List.length out ∧
  take (Nat.min (List.length data) (List.length out)) out' = take (List.length out) data ∧
  (∀ i, List.length data ≤ i → out' !! i = out !! i).
Proof.
  unfold copy_out. set (k := N.to_nat (uval offset)).
  assert (drop (Nat.min k (List.length value)) value = drop k value) as ->.
  { destruct (Nat.le_ge_cases k (List.length value)).
    - by rewrite Nat.min_l.
    - rewrite Nat.min_r by done. by rewrite !drop_ge. }
  set (data := drop k value). split; [done|].
  assert (List.length (take (Nat.min (List.length data) (List.length out)) data) =
    Nat.min (List.length data) (List.length out)) as Hl by (rewrite length_take; lia).
  split; [|split].
  - rewrite length_app, Hl, length_drop. lia.
  - rewrite take_app_length' by done.
    destruct (Nat.le_ge_cases (List.length data) (List.length out)).
    + by rewrite Nat.min_l, !take_ge.
    + by rewrite Nat.min_r.
  - intros i Hi. rewrite lookup_app_r by lia. rewrite lookup_drop, Hl. f_equal. lia.
Qed.

(** C35: Reading through the replaced host functions, from the main storage or from
    a child storage, never runs out of the buffer: the buffer keeps its length;
    what is copied is the part of the value from the offset on, as far as it fits;
    an offset past the end copies nothing; the rest of the buffer is untouched; and
    the answer is the length of the whole value whatever was copied. A missing
    value answers nothing and leaves the buffer alone; a panic of the
    externalities, or none being set, is a panic. *)
Theorem host_read_copies (child : option bytes) key out (offset : u32) x :
  let found := match child with
               | None => ext_storage key
               | Some storage_key => child_storage (new_default storage_key) key
               end in
  let read : M (option Ext) E (option u32 * bytes) :=
    match child with
    | None => host_storage_read key out offset
    | Some storage_key => host_default_child_storage_read storage_key key out offset
    end in
  match found x with
  | Ret (Some value) x' => ∃ answer out', read (Some x) = Ret (answer, out') (Some x') ∧
      let data := drop (N.to_nat (uval offset)) value in
      answer = Some (trunc 32 (N.of_nat (List.length value))) ∧
      List.length out' = List.length out ∧
      take (Nat.min (List.length data) (List.length out)) out' = take (List.length out) data ∧
      (∀ i, List.length data ≤ i → out' !! i = out !! i)
  | Ret None x' => read (Some x) = Ret (None, out) (Some x')
  | Throw e _ => False
  | Panic w => read (Some x) = Panic w
  end ∧ read None = Panic not_set.
Proof.
  intros found read.
  assert (read = bind (with_externalities found) (λ value, mret (copy_out value out offset))) as ->
    by by destruct child.
  split; [|done]. rewrite bind_run. unfold with_externalities.
  destruct (found x) as [[value|] x'|[]|w]; [|done..].
  pose proof (copy_out_spec value out offset) as Hs.
  destruct (copy_out (Some value) out offset) as [answer out'].
  by exists answer, out'.
Qed.
End reading.

(** ** Externalities over maps

    Externalities that satisfy the laws: the main storage with the keys that cannot be
    read, the storages saved by open transactions, and the child storages under pairs of
    keys. *)

Module MapExternalities.
Record overlay : Type := mk_overlay {
  main_storage : storage;
  withheld : gset bytes;
  saved : list (storage * gset bytes);
  children : gmap (bytes * bytes) bytes;
}.

(** The message of [sp_state_machine]. *)
Definition not_allowed_to_fail : string := "Externalities not allowed to fail within runtime".

Section instance.
Context `{Host}.

Definition set_main (f : storage → storage) (known : gset bytes) : M overlay Empty_set unit :=
  modify (λ x, mk_overlay (f (main_storage x)) (withheld x ∖ known) (saved x) (children x)).
Definition set_children (f : gmap (bytes * bytes) bytes → gmap (bytes * bytes) bytes) :
    M overlay Empty_set unit :=
  modify (λ x, mk_overlay (main_storage x) (withheld x) (saved x) (f (children x))).
Definition read_main {A} (k : bytes) (f : option bytes → A) : M overlay Empty_set A := λ x,
  if bool_decide (k ∈ withheld x) then Panic not_allowed_to_fail
  else Ret (f (main_storage x !! k)) x.

Definition has_prefix (prefix k : bytes) : bool := bool_decide (take (List.length prefix) k = prefix).
Definition close_transaction (keep : bool) : M overlay Empty_set (result unit unit) := λ x,
  match saved x with
  | [] => Ret (Err tt) x
  | (s, w) :: saved =>
    Ret (Ok tt) (if keep then mk_overlay (main_storage x) (withheld x) saved (children x)
                 else mk_overlay s w saved (children x))
  end.

#[export] Instance map_externalities : Externalities := {|
  Ext := overlay;
  Backend := storage * gset bytes;
  ext_new b := mk_overlay b.1 b.2 [] ∅;
  ChildInfo := bytes;
  new_default storage_key := storage_key;
  MultiRemovalResults := unit;
  KillStorageResult := unit;
  into_kill _ := tt;
  ext_storage k := read_main k id;
  exists_storage k := read_main k (λ v, bool_decide (is_Some v));
  place_storage k v := set_main (partial_alter (λ _, v) k) {[k]};
  ext_storage_root version := gets (λ x, storage_root version (main_storage x));
  clear_prefix prefix _ _ := set_main (filter (λ kv, has_prefix prefix kv.1 = false)) ∅;
  storage_append k v := set_main (partial_alter (λ old, Some (default [] old ++ v)) k) ∅;
  next_storage_key _ := mret None;
  storage_start_transaction := modify (λ x,
    mk_overlay (main_storage x) (withheld x) ((main_storage x, withheld x) :: saved x) (children x));
  storage_rollback_transaction := close_transaction false;
  storage_commit_transaction := close_transaction true;
  child_storage c k := gets (λ x, children x !! (c, k));
  exists_child_storage c k := gets (λ x, bool_decide (is_Some (children x !! (c, k))));
  place_child_storage c k v := set_children (partial_alter (λ _, v) (c, k));
  kill_child_storage c _ _ := set_children (filter (λ kv, kv.1.1 ≠ c));
  clear_child_prefix c prefix _ _ :=
    set_children (filter (λ kv, ¬ (kv.1.1 = c ∧ has_prefix prefix kv.1.2 = true)));
  child_storage_root c version :=
    gets (λ x, storage_root version (list_to_map (omap
      (λ '(k, v), if bool_decide (k.1 = c) then Some (k.2, v) else None) (map_to_list (children x)))));
  next_child_storage_key _ _ := mret None;
|}.

(** They stand for their main storage, and know it at the keys that are not withheld. *)
#[export] Instance map_proof_laws backend_root :
  ProofLaws backend_root (λ x s, main_storage x = s).
Proof.
  split.
  - intros k x s <-. cbn. unfold read_main. by case_bool_decide.
  - by intros k v x s <-.
  - intros version x s <-. cbn. by split; [left|].
Qed.

#[export] Instance map_known_laws K :
  KnownLaws K (λ x s, main_storage x = s ∧ K ## withheld x).
Proof.
  split.
  - intros k x s [<- Hd] Hk. exists x. cbn. unfold read_main.
    rewrite bool_decide_false by set_solver. done.
  - intros k v x s [<- Hd] Hk. eexists. split; [done|]. cbn. split; [done|set_solver].
  - intros version x s [<- Hd]. by exists x.
Qed.

(** A transaction that is rolled back leaves no trace. *)
Example rolled_back (k v : bytes) (s : storage) :
  run_with_externalities (E := Empty_set) ((s, ∅) : storage * gset bytes)
    (host_storage_start_transaction;; host_storage_set k v;; host_storage_rollback_transaction;;
     host_storage_get k) None = Ret (s !! k) None.
Proof. reflexivity. Qed.
End instance.
End MapExternalities.
