(* ===== verification/ParachainCore.v ===== *)
(** * ParachainCore: what a Tuxedo chain needs to be a parachain

    Models [tuxedo-parachain-core/src/lib.rs] (the ambient relay parent number
    and the storable inherent data) and [collation_api.rs].  The validation of a block by
    the relay chain's validators is in [ValidateBlock]. *)

From S2P Require Import Prelude Effects Scale Types Checker UtxoSet CheckerLaws Executive.
From S2P Require Import Concrete Verifiers Samples ExecutiveFacts Ledger Blocks.

(** ** Types of the relay chain's primitives

    What the crates of Cumulus and Polkadot define: the fields the source names,
    and as parameters the types it only passes on. *)

Class RelayPrimitives `{Host} : Type := {
  StorageProof : Type;
  DownwardMessages : Type;
  HorizontalMessages : Type;
  (** [Header::hash] *)
  header_hash : Header → H256;
}.

Record PersistedValidationData : Type := mk_validation_data {
  parent_head : bytes;
  relay_parent_number : u32;
  relay_parent_storage_root : H256;
  max_pov_size : u32;
}.

Record ParachainInherentData `{RelayPrimitives} : Type := mk_inherent_data {
  validation_data : PersistedValidationData;
  relay_chain_state : StorageProof;
  downward_messages : DownwardMessages;
  horizontal_messages : HorizontalMessages;
}.

Arguments mk_inherent_data {_ _} _ _ _ _.

(** [struct ParachainInherentDataUtxo(ParachainInherentData)] *)
Record ParachainInherentDataUtxo `{RelayPrimitives} : Type := mk_data_utxo {
  inherent_of_utxo : ParachainInherentData
}.

Arguments mk_data_utxo {_ _} _.

(** The fields of [CollationInfo] and of [ValidationResult]: the message vectors
    and the validation code are always empty. *)
Record CollationInfo : Type := mk_collation_info {
  upward_messages : list bytes;
  horizontal_out : list bytes;
  new_validation_code : option bytes;
  processed_downward_messages : u32;
  hrmp_watermark : u32;
  head_data : bytes;
}.

Record MemoryOptimizedValidationParams : Type := mk_params {
  params_parent_head : bytes;
  params_block_data : bytes;
  params_relay_parent_number : u32;
  params_relay_parent_storage_root : H256;
}.

(** [ParachainBlockData] *)
Record ParachainBlockData `{RelayPrimitives} (V C : Type) : Type := mk_block_data {
  data_header : Header;
  data_extrinsics : list (Transaction V C);
  data_proof : StorageProof;
}.
Arguments mk_block_data {_ _ V C} _ _ _.
Arguments data_header {_ _ V C} _.
Arguments data_extrinsics {_ _ V C} _.
Arguments data_proof {_ _ V C} _.

Class ParachainCodecs `{CoreCodecs, RelayPrimitives} : Type := {
  codec_inherent_data :: Codec ParachainInherentData;
  codec_data_utxo :: Codec ParachainInherentDataUtxo;
  codec_block_data (V C : Type) :: Codec (Transaction V C) → Codec (ParachainBlockData V C);
}.

(** [trait ParachainConstraintChecker: ConstraintChecker] *)
Class ParachainChecker (C : Type) : Type := is_parachain : C → bool.

Section core.
Context `{CoreCodecs, !RelayPrimitives, !ParachainCodecs}.

(** ** The relay parent number *)

Definition RELAY_PARENT_NUMBER_KEY : bytes := bstr "relay_parent_number".

(** [RelayParentNumberStorage::get] *)
Definition relay_parent_number_get {St} `{!Store St} {E} : M St E u32 :=
  d ← storage_get RELAY_PARENT_NUMBER_KEY;
  encoded ← expect d "Some relay parent number should always be stored";
  expect (decode_value encoded) "properly encoded relay parent number should have been stored.".

(** [RelayParentNumberStorage::set] *)
Definition relay_parent_number_set {St} `{!Store St} {E} (new_parent_number : u32) :
    M St E unit :=
  storage_set RELAY_PARENT_NUMBER_KEY (scale_encode new_parent_number).

(** ** The storable inherent data *)

#[export] Instance data_utxo_data : UtxoData ParachainInherentDataUtxo :=
  to_bytesN 4 (bstr "para").

(** [impl From<ParachainInherentDataUtxo> for ParachainInherentData] and back *)
Definition into_inherent_data (val : ParachainInherentDataUtxo) : ParachainInherentData :=
  inherent_of_utxo val.
Definition data_utxo_from (value : ParachainInherentData) : ParachainInherentDataUtxo :=
  mk_data_utxo value.

(** ** Collation *)

(** [Executive::collect_collation_info] *)
Definition collect_collation_info {St} `{!Store St} {E} (header : Header) :
    M St E CollationInfo :=
  hrmp_watermark ← relay_parent_number_get;
  mret (mk_collation_info [] [] None (trunc 32 0) hrmp_watermark (scale_encode header)).

End core.

(** ** The number a storage holds *)

Section facts.
Context `{CoreLaws, !ScaleLaws, !RelayPrimitives, !ParachainCodecs}.
Implicit Types (s : storage).

Definition number_at s : option u32 := s !! RELAY_PARENT_NUMBER_KEY ≫= decode_value.

Lemma relay_parent_number_get_ret {E} s n s' :
  (relay_parent_number_get : M storage E u32) s = Ret n s' ↔ number_at s = Some n ∧ s' = s.
Proof.
  unfold relay_parent_number_get, number_at. rewrite bind_run. simpl.
  destruct (s !! RELAY_PARENT_NUMBER_KEY) as [e|]; simpl; [|by split; [|intros []]].
  apply expect_ret.
Qed.

Lemma number_at_insert s n :
  number_at (<[RELAY_PARENT_NUMBER_KEY := scale_encode n]> s) = Some n.
Proof. unfold number_at. rewrite lookup_insert_eq. simpl. apply decode_value_encode. Qed.

Lemma partial_bind_value {A B} (m : partial A) (k : A → partial B) x :
  bind m k = Value x ↔ ∃ a, m = Value a ∧ k a = Value x.
Proof. unfold bind, mbind, partial_bind. destruct m; naive_solver. Qed.

Lemma partial_expect_value {A} (o : option A) w x : partial_expect o w = Value x ↔ o = Some x.
Proof. destruct o; simpl; naive_solver. Qed.

End facts.

(** ** A concrete relay chain *)

Module ParachainSample.
Import Sample.

#[export] Instance concrete_relay : RelayPrimitives := {|
  StorageProof := list (bytes * bytes * bool);
  DownwardMessages := unit;
  HorizontalMessages := unit;
  header_hash := hash_of |}.

Definition validation_tuple (d : PersistedValidationData) : bytes * u32 * H256 * u32 :=
  (parent_head d, relay_parent_number d, relay_parent_storage_root d, max_pov_size d).
Definition tuple_validation (t : bytes * u32 * H256 * u32) : PersistedValidationData :=
  let '(a, b, c, d) := t in mk_validation_data a b c d.

#[export] Instance concrete_validation_data : Codec PersistedValidationData :=
  iso_codec validation_tuple tuple_validation.
#[export] Instance concrete_data : Codec ParachainInherentData :=
  iso_codec (λ i, (validation_data i, relay_chain_state i))
    (λ p, mk_inherent_data p.1 p.2 tt tt).

#[export] Instance concrete_parachain : ParachainCodecs := {|
  codec_inherent_data := concrete_data;
  codec_data_utxo := iso_codec inherent_of_utxo mk_data_utxo;
  codec_block_data V C cT :=
    iso_codec (λ b, (data_header b, data_extrinsics b, data_proof b))
      (λ p, mk_block_data p.1.1 p.1.2 p.2) |}.

#[export] Instance concrete_data_utxo_lawful : LawfulCodec ParachainInherentDataUtxo.
Proof.
  apply @iso_lawful; [|by intros []]. apply @iso_lawful; [|by intros [? ? [] []]].
  apply lawful_pair; [|apply _]. apply iso_lawful. by intros [].
Qed.

Definition relay_info (n : N) : ParachainInherentData :=
  mk_inherent_data (mk_validation_data [] (trunc 32 n) H256_zero (trunc 32 0)) [] tt tt.
Definition relay_output (n : N) : Out :=
  mk_output (typed_from (data_utxo_from (relay_info n))) (mk_test_verifier false).
End ParachainSample.

