(* ===== verification/ValidateBlock.v ===== *)
(** * ValidateBlock: a block under validation by the relay chain

    Models [tuxedo-parachain-core/src/validate_block.rs]: the checks of the parameters,
    and the execution of the block on the sparse state of its proof, with the host
    functions of [HostFunctions]. *)

From S2P Require Import Prelude Effects Scale Types Checker UtxoSet CheckerLaws Executive.
From S2P Require Import Simulation Concrete Verifiers Samples ExecutiveFacts Ledger Blocks.
From S2P Require Import HostFunctions ParachainCore.

(** The in-memory database of a compact proof, when the proof decodes and has the given
    root, and the trie backend built from it ([TrieBackendBuilder::new_with_cache], then
    [build]).  The database holds the nodes that the proof records; what becomes of a read
    of any other is in the externalities over the backend. *)
Class ValidationPrimitives `{RelayPrimitives, !Externalities} : Type := {
  MemoryDb : Type;
  to_memory_db : StorageProof → H256 → option MemoryDb;
  new_with_cache : MemoryDb → H256 → Backend;
}.

(** [validate_validation_data]: three [assert_eq!] *)
Definition validate_validation_data (validation_data : PersistedValidationData)
    (number : u32) (storage_root : H256) (head : bytes) : partial unit :=
  if bool_decide (head ≠ parent_head validation_data)
  then Panicked "Parent head doesn't match" else
  if bool_decide (number ≠ relay_parent_number validation_data)
  then Panicked "Relay parent number doesn't match" else
  if bool_decide (storage_root ≠ relay_parent_storage_root validation_data)
  then Panicked "Relay parent storage root doesn't match" else mret tt.

Section validate.
Context `{CoreCodecs, Inherents, !RelayPrimitives, !ParachainCodecs} {V C : Type}.
Context `{!Externalities, !ValidationPrimitives}.
Context `{Verifier V, !ConstraintChecker C, !ParachainChecker C}.

(** The data of the parachain inherent among the opening inherents; an
    extrinsic counts as one when [is_signed] answers [Some(false)]. *)
Definition opens (e : Transaction V C) : bool := negb (default true (is_signed e)).

Definition find_inherent_data (l : list (Transaction V C)) : partial ParachainInherentData :=
  e ← partial_expect (snd <$> list_find (λ e, is_parachain (checker e) = true) (take_while opens l))
        "There should be at least one beginning-of-block inherent extrinsic which is the parachain inherent.";
  out ← partial_expect (head (outputs e)) "Parachain inherent should have exactly one output.";
  data ← partial_expect (ok (extract ParachainInherentDataUtxo (payload out)))
    "All valid parachain info transactions have this typed output. This is verified by the constraint checker.";
  mret (into_inherent_data data).

(** Everything up to the execution: the block, and the backend over the nodes of its
    proof. *)
Definition validate_checks (params : MemoryOptimizedValidationParams) :
    partial (Block V C * Backend) :=
  block_data ← partial_expect (decode_value (A := ParachainBlockData V C) (params_block_data params))
    "Invalid parachain block data";
  parent_header ← partial_expect (decode_value (A := Header) (params_parent_head params))
    "Invalid parent head";
  let block := mk_block (data_header block_data) (data_extrinsics block_data) in
  if bool_decide (header_hash parent_header ≠ parent_hash (header block))
  then Panicked "Invalid parent hash" else
  inherent_data ← find_inherent_data (extrinsics block);
  validate_validation_data (validation_data inherent_data)
    (params_relay_parent_number params) (params_relay_parent_storage_root params)
    (params_parent_head params);;
  db ← partial_expect (to_memory_db (data_proof block_data) (state_root parent_header))
    "Compact proof decoding failure.";
  mret (block, new_with_cache db (state_root parent_header)).

(** The closure run against the in-memory state. *)
Definition validate_run {St} `{!Store St, !RootStore St} (block : Block V C) :
    M St Empty_set CollationInfo :=
  let head_data := scale_encode (header block) in
  execute_block block;;
  hrmp_watermark ← relay_parent_number_get;
  mret (mk_collation_info [] [] None (trunc 32 0) hrmp_watermark head_data).

(** [validate_block]: the closure makes its host calls to the replaced functions, on an
    empty overlay over the backend. *)
Definition validate_block (params : MemoryOptimizedValidationParams) : partial CollationInfo :=
  '(block, backend) ← validate_checks params;
  match run_with_externalities backend (validate_run block) None with
  | Ret validation_result _ => Value validation_result
  | Throw e _ => match e with end
  | Panic w => Panicked w
  end.
End validate.

(** ** What validation accepts *)

Section facts.
Context `{CoreLaws, !ScaleLaws, Inherents, !RelayPrimitives, !ParachainCodecs} {V C : Type}.
Context `{Verifier V, !ConstraintChecker C, !ParachainChecker C}.
Implicit Types (s : storage) (b : Block V C).

(** What a validator announces for a block that leaves the number [n]. *)
Definition result_of b (n : u32) : CollationInfo :=
  mk_collation_info [] [] None (trunc 32 0) n (scale_encode (header b)).

Lemma validate_run_ret {St} `{!Store St, !RootStore St} b (x y : St) r :
  validate_run b x = Ret r y ↔
  ∃ x1 n, execute_block b x = Ret tt x1 ∧ relay_parent_number_get (E := Empty_set) x1 = Ret n y ∧ r = result_of b n.
Proof.
  unfold validate_run, result_of. split.
  - intros ([] & x1 & Hx & (n & y1 & Hn & [= <- <-])%bind_ret_inv)%bind_ret_inv. by exists x1, n.
  - intros (x1 & n & Hx & Hn & ->). apply bind_ret_inv. exists tt, x1. split; [done|].
    apply bind_ret_inv. by exists n, y.
Qed.

Lemma validate_run_sim {S1 S2} `{!Store S1, !Store S2, !RootStore S1, !RootStore S2}
    (sim : ∀ E A, M S1 E A → M S2 E A → Prop) `{!RootSimulation sim, !UniformChecker C} b :
  sim _ _ (validate_run b) (validate_run b).
Proof.
  pose proof (execute_block_sim (V := V) (C := C) sim). unfold validate_run, relay_parent_number_get.
  solve_sim.
Qed.

Lemma validate_validation_data_value d n root hd u :
  validate_validation_data d n root hd = Value u ↔
  parent_head d = hd ∧ relay_parent_number d = n ∧ relay_parent_storage_root d = root.
Proof.
  destruct u. unfold validate_validation_data. repeat case_bool_decide; naive_solver.
Qed.

Context `{!Externalities, !ValidationPrimitives}.

(** The block and the backend a validator runs it on, from the parameters. *)
Definition admissible (p : MemoryOptimizedValidationParams) b (backend : Backend) : Prop :=
  ∃ bd parent data db,
    decode_value (A := ParachainBlockData V C) (params_block_data p) = Some bd ∧
    b = mk_block (data_header bd) (data_extrinsics bd) ∧
    decode_value (A := Header) (params_parent_head p) = Some parent ∧
    parent_hash (header b) = header_hash parent ∧
    find_inherent_data (extrinsics b) = Value data ∧
    parent_head (validation_data data) = params_parent_head p ∧
    relay_parent_number (validation_data data) = params_relay_parent_number p ∧
    relay_parent_storage_root (validation_data data) = params_relay_parent_storage_root p ∧
    to_memory_db (data_proof bd) (state_root parent) = Some db ∧
    backend = new_with_cache db (state_root parent).

Lemma validate_checks_value p b backend :
  validate_checks p = Value (b, backend) ↔ admissible p b backend.
Proof.
  unfold validate_checks, admissible. rewrite partial_bind_value. split.
  - intros (bd & Hbd%partial_expect_value & (ph & Hph%partial_expect_value & Hr)
      %partial_bind_value). cbv zeta in Hr. case_bool_decide as Hh; [done|].
    apply partial_bind_value in Hr as (data & Hd & (u & Hv & (db & Hs & [= <- <-])
      %partial_bind_value)%partial_bind_value).
    apply validate_validation_data_value in Hv as (? & ? & ?).
    apply partial_expect_value in Hs. exists bd, ph, data, db. by repeat (split; [done|]).
  - intros (bd & ph & data & db & Hbd & -> & Hph & Hh & Hd & ? & ? & ? & Hs & ->).
    exists bd. rewrite Hbd. split; [done|]. apply partial_bind_value. exists ph. rewrite Hph.
    split; [done|]. cbv zeta. rewrite bool_decide_false by (by intros []).
    apply partial_bind_value. exists data. split; [done|]. apply partial_bind_value. exists tt.
    rewrite validate_validation_data_value. split; [done|]. by rewrite Hs.
Qed.

Lemma validate_block_run p b backend :
  admissible p b backend →
  validate_block p = match validate_run b (Some (ext_new backend)) with
                     | Ret r _ => Value r
                     | Throw e _ => match e with end
                     | Panic w => Panicked w
                     end.
Proof.
  intros Ha%validate_checks_value. unfold validate_block. rewrite Ha.
  unfold bind, mbind, partial_bind, run_with_externalities. by destruct (validate_run b _) as [|[]|].
Qed.

Lemma validate_block_value p r :
  validate_block p = Value r ↔
  ∃ b backend x n y, admissible p b backend ∧
    execute_block b (Some (ext_new backend)) = Ret tt x ∧
    relay_parent_number_get (E := Empty_set) x = Ret n y ∧ r = result_of b n.
Proof.
  split.
  - intros Hr. pose proof Hr as ([b backend] & Ha%validate_checks_value & _)%partial_bind_value.
    rewrite (validate_block_run _ _ _ Ha) in Hr.
    destruct (validate_run b _) as [r' y|[]|] eqn:Hx; [|done]. injection Hr as ->.
    apply validate_run_ret in Hx as (x & n & ? & ? & ?). by exists b, backend, x, n, y.
  - intros (b & backend & x & n & y & Ha & Hx). rewrite (validate_block_run _ _ _ Ha).
    by rewrite (proj2 (validate_run_ret b _ y r)) by eauto.
Qed.

(** *** Against the full state *)

(** The roots are compared with what the externalities answer: the root of the state they
    stand for, or else the backend's. *)
Lemma guarded_roots_ret root part `{!ProofLaws root part} b x s y :
  part x s → check_roots b (Some x) = Ret tt y →
  ∃ x', y = Some x' ∧ part x' s ∧
    (check_roots b s = Ret tt s ∨ decode_value root = Some (state_root (header b))).
Proof.
  intros Hx. unfold check_roots, current_state_root.
  intros (h & y1 & (raw & y0 & Hraw & [Hd ->]%expect_ret)%bind_ret_inv & Hr)%bind_ret_inv.
  cbn in Hraw. unfold host_storage_root, with_externalities in Hraw.
  pose proof (root_law V1 x s Hx) as Hlaw.
  destruct (ext_storage_root V1 x) as [raw' x'|[]|]; [|done]. injection Hraw as -> <-.
  destruct Hlaw as [Hroot Hx']. case_bool_decide as Hs; [done|].
  destruct (decide (state_root (header b) = h)) as [<-|]; [|done].
  case_bool_decide as He; [done|]. injection Hr as <-. exists x'. split; [done|]. split; [done|].
  destruct Hroot as [-> | ->]; [left|by right].
  rewrite bind_run. cbn. rewrite bind_run. cbn. rewrite Hd. cbn.
  by rewrite bool_decide_false by (by intros []).
Qed.

Lemma validate_block_full `{!UniformChecker C} root part `{!ProofLaws root part} p b backend s r :
  validate_block p = Value r → admissible p b backend → part (ext_new backend) s →
  ∃ s', execute_extrinsics b s = Ret tt s' ∧ number_at s' = Some (hrmp_watermark r) ∧
    (execute_block b s = Ret tt s' ∨ decode_value root = Some (state_root (header b))).
Proof.
  intros Hr Ha Hs. rewrite (validate_block_run _ _ _ Ha) in Hr.
  destruct (validate_run b _) as [r' y|[]|] eqn:Hx; [|done]. injection Hr as ->.
  apply validate_run_ret in Hx as (x & n & Hx & Hn & ->). cbn [hrmp_watermark result_of].
  rewrite execute_block_parts in Hx. apply bind_ret_inv in Hx as ([] & x1 & Hx & Hroots).
  pose proof (execute_extrinsics_sim (grounded part) b (ext_new backend) s Hs) as Hg.
  rewrite Hx in Hg. destruct Hg as (x2 & s' & -> & Hs' & Hx2).
  apply (guarded_roots_ret root part) with (s := s') in Hroots as (x3 & -> & Hx3 & Hroots); [|done].
  exists s'. split; [done|]. split.
  - assert (grounded part Empty_set u32 relay_parent_number_get relay_parent_number_get) as Hget
      by (unfold relay_parent_number_get; solve_sim).
    specialize (Hget x3 s' Hx3). rewrite Hn in Hget. destruct Hget as (x4 & s4 & _ & Hg & _).
    by apply relay_parent_number_get_ret in Hg as [? _].
  - destruct Hroots as [Hroots|?]; [left|by right]. by rewrite execute_block_parts, bind_run, Hs'.
Qed.

(** C18: What a validator accepts.  [validate_block] answers a result exactly when
    the block data and the parent head decode, the block's parent hash is the
    hash of the parent head, the parachain inherent among the opening inherents
    carries validation data equal to the validator's parameters, the storage
    proof belongs to the parent's state root, and the block executes on the sparse
    state of the proof, where a relay parent number can then be read; the head data is
    the encoded header and the watermark that number.  In every other case it panics;
    when it is the execution that panics, as it does at a key that the proof does not
    record, then with the execution's message.  Nothing checks the inherents off chain.

    And a block that is accepted is a block of the full state: whenever the proof's
    externalities answer truly of a storage, as far as they answer at all, executing the
    extrinsics on that storage succeeds and leaves the announced number; so does
    [execute_block], unless the externalities computed no new root and the header
    repeats the backend's. *)
Theorem validate_block_accepts `{!UniformChecker C} p :
  (∀ r, validate_block p = Value r ↔
     ∃ b backend x n y, admissible p b backend ∧
       execute_block b (Some (ext_new backend)) = Ret tt x ∧
       relay_parent_number_get (E := Empty_set) x = Ret n y ∧
       r = mk_collation_info [] [] None (trunc 32 0) n (scale_encode (header b))) ∧
  ((∀ b backend x n y, admissible p b backend →
      execute_block b (Some (ext_new backend)) = Ret tt x →
      relay_parent_number_get (E := Empty_set) x ≠ Ret n y) → ∃ w, validate_block p = Panicked w) ∧
  (∀ b backend w, admissible p b backend →
     execute_block b (Some (ext_new backend)) = Panic w → validate_block p = Panicked w) ∧
  (∀ r b backend root part s, validate_block p = Value r → admissible p b backend →
     ProofLaws root part → part (ext_new backend) s →
     ∃ s', execute_extrinsics b s = Ret tt s' ∧ number_at s' = Some (hrmp_watermark r) ∧
       (execute_block b s = Ret tt s' ∨ decode_value root = Some (state_root (header b)))).
Proof.
  split; [apply validate_block_value|]. split; [|split].
  - intros Hn. destruct (validate_block p) as [r|w] eqn:Hr; [|by exists w].
    apply validate_block_value in Hr as (b & backend & x & n & y & Ha & Hx & Hy & _).
    by destruct (Hn b backend x n y).
  - intros b backend w Ha Hx. rewrite (validate_block_run _ _ _ Ha). unfold validate_run.
    by rewrite (bind_panic _ _ _ _ Hx).
  - intros r b backend root part s Hr Ha Hp Hs. by eapply validate_block_full.
Qed.

(** *** The collator's proof *)

(** A proof that answers for the keys the block touches on the parent's state lets the
    validator execute the block as the collator did. *)
Lemma covered_block_validates `{!UniformChecker C} p b backend part s s' n :
  admissible p b backend → execute_block b s = Ret tt s' → number_at s' = Some n →
  KnownLaws (touched (validate_run b) s) part → part (ext_new backend) s →
  validate_block p = Value (result_of b n).
Proof.
  intros Ha Hx Hn Hk Hs. rewrite (validate_block_run _ _ _ Ha).
  assert (validate_run b s = Ret (result_of b n) s') as Hr.
  { apply validate_run_ret. exists s', n. split; [done|].
    by rewrite relay_parent_number_get_ret. }
  pose proof (validate_run_sim erases b) as He.
  apply (erases_ret _ _ _ _ _ _ _ He) in Hr.
  destruct (validate_run_sim (covered (touched (validate_run b) s) part) b) as [_ Hc].
  specialize (Hc _ (mk_recording s ∅) Hs). rewrite Hr in Hc.
  destruct Hc as (x & -> & _); [done|]. done.
Qed.

Context `{!CheckerFrame C, !CheckerTransient C}.

(** The collator and the validator agree.  When a block is authored with its
    inherents first, the collation information collected from its header after
    authoring is the result a validator computes by executing the block on the
    parent's state, and the final states agree. *)
Theorem collation_is_validation (h h' : Header) l s0 s1 info s2 :
  s0 !! EXTRINSIC_KEY = None → inherents_first l →
  author_block (C := C) h l s0 = Ret h' s1 →
  (collect_collation_info h' : M storage Empty_set CollationInfo) s1 = Ret info s2 ↔
  validate_run (mk_block h' l) s0 = Ret info s2 ∧ s2 = s1.
Proof.
  intros Hs0 Hl Ha. pose proof (author_then_import _ _ _ _ _ Hs0 Hl Ha) as Hx.
  unfold collect_collation_info. rewrite validate_run_ret, bind_ret_inv.
  setoid_rewrite relay_parent_number_get_ret. split.
  - intros (n & s & [Hn ->] & [= <- <-]). split; [|done]. by exists s1, n.
  - intros ((x & n & Hx2 & [Hn E] & ->) & ->). subst x. by exists n, s1.
Qed.
End facts.

(** ** A concrete database, and witnesses *)

Module ValidationSample.
Import Sample ParachainSample MapExternalities.

(** A proof has the pairs of the state, and says which of them it records; a read of
    another one panics. *)
Definition proof_state (proof : list (bytes * bytes * bool)) : storage := list_to_map (map fst proof).
Definition proof_withheld (proof : list (bytes * bytes * bool)) : gset bytes :=
  list_to_set (map (λ p, p.1.1) (filter (λ p, p.2 = false) proof)).
Definition all_recorded (pairs : list (bytes * bytes)) : StorageProof := map (λ kv, (kv, true)) pairs.

#[export] Instance concrete_validation : ValidationPrimitives := {|
  MemoryDb := storage * gset bytes;
  to_memory_db proof root :=
    if bool_decide (storage_root V1 (proof_state proof) = bytesN_val root)
    then Some (proof_state proof, proof_withheld proof) else None;
  new_with_cache db _ := db |}.
End ValidationSample.

Module Witnesses.
Import Sample ParachainSample ValidationSample MapExternalities.

#[export] Instance inherents_are_parachain : ParachainChecker TestConstraintChecker := inherent.

(** The parent's state: the height and a relay parent number. *)
Definition parent_pairs : list (bytes * bytes) :=
  [(HEIGHT_KEY, scale_encode (trunc 32 1));
   (RELAY_PARENT_NUMBER_KEY, scale_encode (trunc 32 10))].
Definition parent_state : StorageProof := all_recorded parent_pairs.
Definition parent_db : storage := list_to_map parent_pairs.
Definition parent_header : Header :=
  mk_header H256_zero (trunc 32 1) (to_bytesN 32 (storage_root V1 parent_db)) H256_zero tt.

(** A block with one inherent, whose data names the parent. *)
Definition child_info : ParachainInherentData :=
  mk_inherent_data (mk_validation_data (scale_encode parent_header) (trunc 32 10) H256_zero
    (trunc 32 0)) [] tt tt.
Definition child_inherent : Tx :=
  mk_transaction [] [] [mk_output (typed_from (data_utxo_from child_info))
    (mk_test_verifier false)] (mk_test_checker true true).
Definition child_open : Header :=
  mk_header (hash_of parent_header) (trunc 32 2) H256_zero H256_zero tt.
Definition child_authored : Header * storage :=
  match author_block child_open [child_inherent] parent_db with
  | Ret h s => (h, s) | _ => (child_open, ∅) end.
Definition child_params : MemoryOptimizedValidationParams :=
  mk_params (scale_encode parent_header)
    (scale_encode (mk_block_data child_authored.1 [child_inherent] parent_state))
    (trunc 32 10) H256_zero.
Definition child_result : CollationInfo :=
  mk_collation_info [] [] None (trunc 32 0) (trunc 32 10) (scale_encode child_authored.1).

(** The validator's externalities after it. *)
Definition child_executed : option Ext :=
  match execute_block (mk_block child_authored.1 [child_inherent]) (Some (ext_new (parent_db, ∅))) with
  | Ret _ x => x | _ => None end.

(** The same with a proof that does not record the relay parent number. *)
Definition withheld_proof : StorageProof :=
  map (λ kv, (kv, bool_decide (kv.1 ≠ RELAY_PARENT_NUMBER_KEY))) parent_pairs.
Definition withheld_params : MemoryOptimizedValidationParams :=
  mk_params (scale_encode parent_header)
    (scale_encode (mk_block_data child_authored.1 [child_inherent] withheld_proof))
    (trunc 32 10) H256_zero.

Example withheld_key_panics :
  validate_block (V := TestVerifier) (C := TestConstraintChecker) withheld_params =
  Panicked MapExternalities.not_allowed_to_fail.
Proof. by_vm. Qed.

Lemma validate_block_accepts_witness :
  validate_block (V := TestVerifier) (C := TestConstraintChecker) child_params =
  Value child_result ∧
  ∃ s, execute_extrinsics (mk_block child_authored.1 [child_inherent]) parent_db = Ret tt s ∧
    number_at s = Some (trunc 32 10).
Proof.
  destruct (validate_block_accepts (V := TestVerifier) (C := TestConstraintChecker) child_params)
    as (Hok & _ & _ & Hfull).
  set (b := mk_block child_authored.1 [child_inherent]).
  assert (admissible child_params b (parent_db, ∅)) as Ha.
  { exists (mk_block_data child_authored.1 [child_inherent] parent_state), parent_header, child_info.
    exists (parent_db, ∅). repeat (split; [by_vm|]). by_vm. }
  assert (validate_block (V := TestVerifier) (C := TestConstraintChecker) child_params =
    Value child_result) as Hr.
  { apply Hok. exists b, (parent_db, ∅), child_executed, (trunc 32 10), child_executed.
    split; [exact Ha|]. split; [by_vm|]. split; [by_vm|done]. }
  split; [exact Hr|].
  destruct (Hfull child_result b (parent_db, ∅) [] (λ x s, main_storage x = s) parent_db
    Hr Ha (map_proof_laws []) eq_refl)
    as (s & Hs & Hn & _).
  exists s. split; [exact Hs|exact Hn].
Defined.

Lemma collation_is_validation_witness :
  (collect_collation_info child_authored.1 : M storage Empty_set CollationInfo)
    child_authored.2 = Ret child_result child_authored.2.
Proof.
  destruct (collation_is_validation (V := TestVerifier) (C := TestConstraintChecker)
    child_open child_authored.1 [child_inherent] parent_db child_authored.2 child_result
    child_authored.2) as [_ Hok]; [by_vm|by repeat constructor|by_vm|].
  apply Hok. split; [by_vm|done].
Defined.
End Witnesses.
