(* ===== verification/TrieCache.v ===== *)
(** * TrieCache: the cache of trie nodes and values used while validating a block

    Models [tuxedo-parachain-core/src/trie_cache.rs].  The provider owns two maps in
    reference cells; a cache borrows them mutably for as long as it lives.  The
    trie library that calls the cache is a parameter: its nodes, its cached
    values and its errors. *)

From S2P Require Import Prelude Effects.

(** What the trie library defines ([trie_db], [sp_trie]). *)
Class TrieDb : Type := {
  HashOut : Type;
  hash_out_eq_dec :: EqDecision HashOut;
  hash_out_countable :: Countable HashOut;
  NodeOwned : Type;
  CachedValue : Type;
  TrieError : Type;
}.

(** ** State *)

(** [RefCell]: its content, and whether a [RefMut] of it lives. *)
Record RefCell (A : Type) : Type := mk_cell { content : A; borrowed : bool }.
Arguments mk_cell {A} _ _.
Arguments content {A} _.
Arguments borrowed {A} _.

Section trie_cache.
Context `{TrieDb}.

Record CacheProvider : Type := mk_provider {
  node_cache : RefCell (gmap HashOut NodeOwned);
  value_cache : RefCell (gmap bytes CachedValue);
}.

(** A [TrieCache] is the borrows it holds: always the nodes, and the values when its
    [value_cache] is [Some]. *)
Record TrieCache : Type := mk_cache { has_value_cache : bool }.

(** The calls change the provider and [X], what the closures of the caller capture. *)
Context {X : Type}.
Abbreviation P A := (M (CacheProvider * X) TrieError A).

Definition set_nodes (f : gmap HashOut NodeOwned → gmap HashOut NodeOwned) : P unit :=
  modify (λ st, (mk_provider (mk_cell (f (content (node_cache st.1))) (borrowed (node_cache st.1)))
                   (value_cache st.1), st.2)).
Definition set_values (f : gmap bytes CachedValue → gmap bytes CachedValue) : P unit :=
  modify (λ st, (mk_provider (node_cache st.1)
                   (mk_cell (f (content (value_cache st.1))) (borrowed (value_cache st.1))), st.2)).
Definition set_borrows (nodes values : bool) : P unit :=
  modify (λ st, (mk_provider (mk_cell (content (node_cache st.1)) nodes)
                   (mk_cell (content (value_cache st.1)) values), st.2)).

(** ** The cache *)

(** [lookup_value_for_key] *)
Definition lookup_value_for_key (self : TrieCache) (key : bytes) : P (option CachedValue) :=
  if has_value_cache self then gets (λ st, content (value_cache st.1) !! key) else mret None.

(** [cache_value_for_key] *)
Definition cache_value_for_key (self : TrieCache) (key : bytes) (value : CachedValue) : P unit :=
  if has_value_cache self then set_values <[key := value]> else mret tt.

(** Calling a closure of the caller. *)
Definition call {A} (f : X → A * X) : P A := λ st, Ret (f st.2).1 (st.1, (f st.2).2).

(** [get_or_insert_node]: the closure runs only when the entry is vacant. *)
Definition get_or_insert_node (self : TrieCache) (hash : HashOut)
    (fetch_node : X → result TrieError NodeOwned * X) : P NodeOwned :=
  entry ← gets (λ st, content (node_cache st.1) !! hash);
  match entry with
  | Some node => mret node
  | None =>
    r ← call fetch_node;
    node ← lift_result r;
    set_nodes <[hash := node]>;;
    mret node
  end.

(** [get_node] *)
Definition get_node (self : TrieCache) (hash : HashOut) : P (option NodeOwned) :=
  gets (λ st, content (node_cache st.1) !! hash).

(** ** The provider *)

(** [CacheProvider::new] *)
Definition provider_new : CacheProvider := mk_provider (mk_cell ∅ false) (mk_cell ∅ false).

(** [RefCell::borrow_mut] *)
Definition already_borrowed : string := "already borrowed: BorrowMutError".

(** [as_trie_db_cache]: the storage root is ignored. *)
Definition as_trie_db_cache (_storage_root : HashOut) : P TrieCache :=
  st ← get;
  if borrowed (value_cache st.1) then panic already_borrowed else
  if borrowed (node_cache st.1) then panic already_borrowed else
  set_borrows true true;;
  mret (mk_cache true).

(** [as_trie_db_mut_cache] *)
Definition as_trie_db_mut_cache : P TrieCache :=
  st ← get;
  if borrowed (node_cache st.1) then panic already_borrowed else
  set_borrows true (borrowed (value_cache st.1));;
  mret (mk_cache false).

(** Dropping a cache releases what it borrowed. *)
Definition drop_cache (self : TrieCache) : P unit :=
  st ← get;
  set_borrows false (if has_value_cache self then false else borrowed (value_cache st.1)).

(** [merge] consumes the other cache and does nothing with it. *)
Definition merge (_other : TrieCache) (_new_root : HashOut) : P unit := drop_cache _other.

(** ** A session of the trie library with one cache *)

(** What the library asks of a cache between its creation and its drop.  [Fetch]
    carries no closure: the closure looks the hash up in the library's backend. *)
Inductive request : Type :=
| Fetch (hash : HashOut)
| Peek (hash : HashOut)
| LookUp (key : bytes)
| Remember (key : bytes) (value : CachedValue).

Inductive answer : Type :=
| Node (n : NodeOwned)
| MaybeNode (n : option NodeOwned)
| MaybeValue (v : option CachedValue)
| Done.
End trie_cache.

Arguments request {_}.
Arguments answer {_}.

Section sessions.
Context `{TrieDb}.

(** The caller counts how often it has been asked to fetch a node. *)
Abbreviation P A := (M (CacheProvider * nat) TrieError A).
Context (backend : HashOut → result TrieError NodeOwned).

Definition fetch_from (hash : HashOut) (fetched : nat) : result TrieError NodeOwned * nat :=
  (backend hash, S fetched).

Definition serve (c : TrieCache) (r : request) : P answer :=
  match r with
  | Fetch hash => n ← get_or_insert_node c hash (fetch_from hash); mret (Node n)
  | Peek hash => n ← get_node c hash; mret (MaybeNode n)
  | LookUp key => v ← lookup_value_for_key c key; mret (MaybeValue v)
  | Remember key value => cache_value_for_key c key value;; mret Done
  end.

(** The cache is dropped when its scope is left, with an answer or an error. *)
Definition in_scope {A} (c : TrieCache) (body : P A) : P A := λ st,
  match body st with
  | Ret a st => (drop_cache c;; mret a) st
  | Throw e st => (drop_cache c;; mthrow e) st
  | Panic w => Panic w
  end.

(** A whole session: the cache is created, used and dropped; an error ends it. *)
Definition serve_all (c : TrieCache) (rs : list request) : P (list answer) :=
  for_each rs (λ acc r, a ← serve c r; mret (acc ++ [a])) [].
Definition session (mutable : bool) (root : HashOut) (rs : list request) : P (list answer) :=
  c ← (if mutable then as_trie_db_mut_cache else as_trie_db_cache root);
  in_scope c (serve_all c rs).

(** ** What a session answers *)

(** A provider at rest, whose nodes are the backend's and whose values are among
    the given ones. *)
Definition consistent (values : bytes → CachedValue → Prop) (nodes : gmap HashOut NodeOwned)
    (vals : gmap bytes CachedValue) : Prop :=
  map_Forall (λ h n, backend h = Ok n) nodes ∧ map_Forall values vals.

(** What may be answered to a request: fetching answers what the backend answers;
    the other two answer nothing or something true. *)
Definition truthful (values : bytes → CachedValue → Prop) (r : request) (a : answer) : Prop :=
  match r, a with
  | Fetch h, Node n => backend h = Ok n
  | Peek h, MaybeNode n => ∀ m, n = Some m → backend h = Ok m
  | LookUp k, MaybeValue v => ∀ w, v = Some w → values k w
  | Remember _ _, Done => True
  | _, _ => False
  end.
Definition truthful_request (values : bytes → CachedValue → Prop) (r : request) : Prop :=
  match r with Remember k v => values k v | _ => True end.

Abbreviation rest nodes vals := (mk_provider (mk_cell nodes false) (mk_cell vals false)).
Abbreviation busy nodes vals b := (mk_provider (mk_cell nodes true) (mk_cell vals b)).

Lemma serve_run values c r nodes vals b n :
  consistent values nodes vals → truthful_request values r →
  match serve c r (busy nodes vals b, n) with
  | Ret a st => truthful values r a ∧ ∃ nodes' vals' n', st = (busy nodes' vals' b, n') ∧
      consistent values nodes' vals' ∧ nodes ⊆ nodes' ∧
      (has_value_cache c = false → vals' = vals) ∧
      n' + size nodes = n + size nodes'
  | Throw e st => ∃ h, r = Fetch h ∧ backend h = Err e ∧ st = (busy nodes vals b, S n)
  | Panic w => False
  end.
Proof.
  intros [Hn Hv] Hr. destruct r as [h|h|k|k v]; cbn [serve].
  - unfold get_or_insert_node. rewrite bind_run, bind_gets. cbn [node_cache content fst].
    destruct (nodes !! h) as [m|] eqn:Hh; cbn.
    { split; [by apply (Hn h)|]. exists nodes, vals, n. by repeat split. }
    rewrite bind_run. unfold call, fetch_from. cbn.
    destruct (backend h) as [m|e] eqn:Hb; cbn; [|by exists h].
    split; [done|]. exists (<[h := m]> nodes), vals, (S n). split; [done|].
    split; [split; [by apply map_Forall_insert_2|done]|]. split; [by apply insert_subseteq|].
    split; [done|]. rewrite map_size_insert_None by done. lia.
  - cbn. split; [|exists nodes, vals, n; by repeat split]. intros m Hm. by apply (Hn h).
  - unfold lookup_value_for_key. destruct (has_value_cache c); cbn.
    + split; [|exists nodes, vals, n; by repeat split]. intros w Hw. by apply (Hv k).
    + split; [done|exists nodes, vals, n; by repeat split].
  - unfold cache_value_for_key. destruct (has_value_cache c) eqn:Hc; cbn; (split; [done|]).
    + exists nodes, (<[k := v]> vals), n. split; [done|]. split; [split; [done|]|done].
      by apply map_Forall_insert_2.
    + exists nodes, vals, n. by repeat split.
Qed.

Lemma serve_all_run values c rs nodes vals b n :
  consistent values nodes vals → Forall (truthful_request values) rs →
  match serve_all c rs (busy nodes vals b, n) with
  | Ret answers st => Forall2 (truthful values) rs answers ∧ ∃ nodes' vals' n',
      st = (busy nodes' vals' b, n') ∧ consistent values nodes' vals' ∧ nodes ⊆ nodes' ∧
      (has_value_cache c = false → vals' = vals) ∧ n' + size nodes = n + size nodes'
  | Throw e st => ∃ nodes' vals' n' h, st = (busy nodes' vals' b, n') ∧
      consistent values nodes' vals' ∧ Fetch h ∈ rs ∧ backend h = Err e
  | Panic w => False
  end.
Proof.
  unfold serve_all. intros Hc Hrs.
  enough (∀ acc0 answered, Forall2 (truthful values) answered acc0 →
    match for_each rs (λ acc r, a ← serve c r; mret (acc ++ [a])) acc0 (busy nodes vals b, n) with
    | Ret answers st => Forall2 (truthful values) (answered ++ rs) answers ∧ ∃ nodes' vals' n',
        st = (busy nodes' vals' b, n') ∧ consistent values nodes' vals' ∧ nodes ⊆ nodes' ∧
        (has_value_cache c = false → vals' = vals) ∧ n' + size nodes = n + size nodes'
    | Throw e st => ∃ nodes' vals' n' h, st = (busy nodes' vals' b, n') ∧
        consistent values nodes' vals' ∧ Fetch h ∈ rs ∧ backend h = Err e
    | Panic w => False
    end) as Hall by (apply (Hall [] []); constructor).
  revert nodes vals n Hc. induction Hrs as [|r rs Hr _ IH]; intros nodes vals n Hc acc answered Ha.
  { cbn. rewrite app_nil_r. split; [done|]. exists nodes, vals, n. by repeat split; try apply Hc. }
  cbn [for_each]. rewrite bind_run, bind_run.
  pose proof (serve_run values c r nodes vals b n Hc Hr) as Hs.
  destruct (serve c r _) as [a st|e st|w]; [| |done].
  - destruct Hs as (Ht & nodes1 & vals1 & n1 & -> & Hc1 & Hsub & Hval & Hn1).
    cbn [mret M_ret].
    specialize (IH nodes1 vals1 n1 Hc1 (acc ++ [a]) (answered ++ [r])
      ltac:(by apply Forall2_app; [|constructor])).
    unfold mret, M_ret in *.
    destruct (for_each rs _ _ _) as [answers st|e st|w]; [| |done].
    + rewrite <-app_assoc in IH. destruct IH as (Hf & nodes2 & vals2 & n2 & -> & Hc2 & Hsub2 & Hval2 & Hn2).
      split; [done|]. exists nodes2, vals2, n2. split; [done|]. split; [done|].
      split; [by etrans|]. split; [|lia]. intros Hno. by rewrite Hval2, Hval.
    + destruct IH as (nodes2 & vals2 & n2 & h & -> & Hc2 & Hin & Hb).
      exists nodes2, vals2, n2, h. split; [done|]. split; [done|]. split; [by constructor|done].
  - destruct Hs as (h & -> & Hb & ->). exists nodes, vals, (S n), h.
    split; [done|]. split; [done|]. split; [constructor|done].
Qed.

(** C23: The cache is transparent. On a provider at rest whose nodes are the
    backend's, a session with either kind of cache never panics.  It answers every
    fetched node as the backend would, every cached node or value it answers is a
    true one, and it fetches exactly the nodes it did not have, each of them
    once; or it ends with the backend's error for one of the nodes requested.
    Either way the provider is at rest again and still consistent, and the cache
    meant for computing storage roots leaves the cached values alone. *)
Theorem cache_transparent values mutable root rs nodes vals n :
  consistent values nodes vals → Forall (truthful_request values) rs →
  match session mutable root rs (rest nodes vals, n) with
  | Ret answers st => Forall2 (truthful values) rs answers ∧ ∃ nodes' vals' n',
      st = (rest nodes' vals', n') ∧ consistent values nodes' vals' ∧ nodes ⊆ nodes' ∧
      (mutable = true → vals' = vals) ∧ n' + size nodes = n + size nodes'
  | Throw e st => ∃ nodes' vals' n' h, st = (rest nodes' vals', n') ∧
      consistent values nodes' vals' ∧ Fetch h ∈ rs ∧ backend h = Err e
  | Panic w => False
  end.
Proof.
  intros Hc Hrs. unfold session.
  pose proof (serve_all_run values (mk_cache (negb mutable)) rs nodes vals (negb mutable) n Hc Hrs) as Hs.
  assert ((if mutable then as_trie_db_mut_cache else as_trie_db_cache root : P TrieCache)
    (rest nodes vals, n) = Ret (mk_cache (negb mutable)) (busy nodes vals (negb mutable), n)) as Hm
    by by destruct mutable.
  rewrite bind_run, Hm. unfold in_scope.
  destruct (serve_all _ rs _) as [answers st|e st|w]; [| |done].
  - destruct Hs as (Hf & nodes' & vals' & n' & -> & Hc' & Hsub & Hval & Hn).
    assert ((drop_cache (mk_cache (negb mutable)) : P unit) (busy nodes' vals' (negb mutable), n') =
      Ret tt (rest nodes' vals', n')) as Hd by by destruct mutable.
    rewrite bind_run, Hd. cbn [mret M_ret]. split; [done|]. exists nodes', vals', n'.
    split; [done|]. split; [done|]. split; [done|]. split; [|done]. intros ->. by apply Hval.
  - destruct Hs as (nodes' & vals' & n' & h & -> & Hc' & Hin & Hb).
    assert ((drop_cache (mk_cache (negb mutable)) : P unit) (busy nodes' vals' (negb mutable), n') =
      Ret tt (rest nodes' vals', n')) as Hd by by destruct mutable.
    rewrite bind_run, Hd. by exists nodes', vals', n', h.
Qed.
End sessions.

(** ** Only one cache at a time *)

Section borrows.
Context `{TrieDb} {X : Type}.
Implicit Types (nodes : gmap HashOut NodeOwned) (vals : gmap bytes CachedValue) (x : X).

(** While a cache lives, no other can be made from the same provider; once it is
    dropped, or merged, either kind can. *)
Lemma one_cache_at_a_time (mutable : bool) (root : HashOut) nodes vals x :
  let make := (if mutable then as_trie_db_mut_cache else as_trie_db_cache root
               : M (CacheProvider * X) TrieError TrieCache) in
  ∃ c st, make (mk_provider (mk_cell nodes false) (mk_cell vals false), x) = Ret c st ∧
    (as_trie_db_cache root : M _ TrieError TrieCache) st = Panic already_borrowed ∧
    (as_trie_db_mut_cache : M _ TrieError TrieCache) st = Panic already_borrowed ∧
    (merge c root : M _ TrieError unit) st =
      Ret tt (mk_provider (mk_cell nodes false) (mk_cell vals false), x).
Proof. destruct mutable; do 2 eexists; done. Qed.
End borrows.

(** ** Witnesses *)

Module Witnesses.
(** Hashes and nodes are numbers; the backend has the even nodes below ten. *)
#[export] Instance number_db : TrieDb := {|
  HashOut := nat; NodeOwned := nat; CachedValue := bytes; TrieError := nat |}.
Definition even_nodes (h : nat) : result nat nat :=
  if Nat.even h && Nat.ltb h 10 then Ok (h * h) else Err h.

(** Node 2 is fetched once and answered from the cache the second time. *)
Lemma cache_transparent_witness :
  ∃ answers st,
    session (H := number_db) even_nodes false 0 [Fetch 2; Fetch 2; Peek 3; Fetch 4] (provider_new, 0) =
      Ret answers st ∧
    Forall2 (truthful (H := number_db) even_nodes (λ _ _, True)) [Fetch 2; Fetch 2; Peek 3; Fetch 4] answers ∧
    st.2 = 2.
Proof.
  eexists _, _. split; [vm_compute; reflexivity|]. split; [|reflexivity].
  exact (proj1 (cache_transparent (H := number_db) even_nodes (λ _ _, True) false 0
    [Fetch 2; Fetch 2; Peek 3; Fetch 4] ∅ ∅ 0
    (conj (map_Forall_empty _) (map_Forall_empty _)) ltac:(by repeat constructor))).
Defined.
End Witnesses.
