(* ===== verification/Parachainify.v ===== *)
(** * Parachainify: the macro that makes a runtime a parachain

    Models [tuxedo-parachain-core/parachainify/src/lib.rs] itself: the parsing of the
    macro's input, the path to the core, and what is generated from them, with the
    entry point through which the relay chain's validators call [validate_block].  The
    generated constraint checker is the subject of [ParachainRuntime]. *)

From S2P Require Import Prelude Effects Scale Types Checker UtxoSet CheckerLaws Executive.
From S2P Require Import Concrete Verifiers Samples ExecutiveFacts Ledger Blocks.
From S2P Require Import HostFunctions ParachainCore ValidateBlock.

(** ** The input *)

(** What the macro takes from [syn], [proc_macro2] and [proc_macro_crate]: a stream is
    the tokens that are left. *)
Class Syn : Type := {
  TokenTree : Type;
  Ident : Type;
  CommaToken : Type;
  Literal : Type;
  SynError : Type;
  error_new : string → SynError;
  ident_new : string → Ident;
  parse_ident : M (list TokenTree) SynError Ident;
  parse_comma : M (list TokenTree) SynError CommaToken;
  parse_literal : M (list TokenTree) SynError Literal;
  (** [ToTokens] *)
  ident_token : Ident → TokenTree;
  comma_token : CommaToken → TokenTree;
  literal_token : Literal → TokenTree;
}.

(** Documented behaviour: a parser takes the next token when it is of its kind, and
    errors otherwise. *)
Definition parses_token {A} `{Syn} (parse : M (list TokenTree) SynError A) (token : A → TokenTree) :
    Prop :=
  (∀ a ts, parse (token a :: ts) = Ret a ts) ∧
  (∀ a ts ts', parse ts = Ret a ts' → ts = token a :: ts') ∧
  (∀ ts why, parse ts ≠ Panic why).
Class SynLaws `{Syn} : Prop := {
  ident_law : parses_token parse_ident ident_token;
  comma_law : parses_token parse_comma comma_token;
  literal_law : parses_token parse_literal literal_token;
}.

Inductive FoundCrate : Type := Itself | Name (name : string).

Section input.
Context `{Syn}.

Record RegisterValidateBlockInput : Type := mk_input {
  verifier : Ident;
  _comma1 : CommaToken;
  inner_constraint_checker : Ident;
  _comma2 : CommaToken;
  para_id : Literal;
}.

Definition three_parameters : SynError := error_new
  "Expected exactly three parameters: Verifier, InnerConstraintChecker, ParaId.".

(** [impl Parse for RegisterValidateBlockInput] *)
Definition parse : M (list TokenTree) SynError RegisterValidateBlockInput :=
  verifier ← parse_ident;
  comma1 ← parse_comma;
  inner_constraint_checker ← parse_ident;
  comma2 ← parse_comma;
  para_id ← parse_literal;
  rest ← get;
  match rest with
  | [] => mret (mk_input verifier comma1 inner_constraint_checker comma2 para_id)
  | _ :: _ => mthrow three_parameters
  end.

(** What [crate_name] answers for ["tuxedo-parachain-core"]. *)
Context (found : result string FoundCrate).

Definition crate_ : result SynError Ident :=
  match found with
  | Ok Itself => Ok (ident_new "tuxedo_parachain_core")
  | Ok (Name name) => Ok (ident_new name)
  | Err e => Err (error_new e)
  end.

(** The parts of the output that depend on the input: the entry point, which calls
    [validate_block] of a crate for a verifier, and the checker's enum, with the
    piece's configuration. *)
Record Expansion : Type := mk_expansion {
  validate_block_func : option (Ident * Ident);
  enum_inner : Ident;
  enum_crate : Ident;
  PARA_ID : Literal;
}.

(** The macro: an error is turned into code that does not compile.  [std] is the feature
    of the crate of the macro. *)
Definition parachainify (std : bool) (input : list TokenTree) : result SynError Expansion :=
  match parse input with
  | Ret input _ =>
    crate ← crate_;
    let validate_block_func :=
      if negb std then Some (crate, verifier input) else None in
    mret (mk_expansion validate_block_func (inner_constraint_checker input) crate (para_id input))
  | Throw e _ => Err e
  | Panic why => Err (error_new why)
  end.

(** ** What is parsed *)

Definition tokens (input : RegisterValidateBlockInput) : list TokenTree :=
  [ident_token (verifier input); comma_token (_comma1 input);
   ident_token (inner_constraint_checker input); comma_token (_comma2 input);
   literal_token (para_id input)].

Context `{!SynLaws}.

Lemma token_bind {A B} (p : M (list TokenTree) SynError A) token (k : A → M _ _ B) a ts :
  parses_token p token → bind p k (token a :: ts) = k a ts.
Proof. intros (Hp & _ & _). by rewrite bind_run, Hp. Qed.

Lemma parse_tokens input ts :
  parse (tokens input ++ ts) =
  match ts with [] => Ret input [] | _ => Throw three_parameters ts end.
Proof.
  unfold parse, tokens. cbn [app].
  rewrite (token_bind _ _ _ _ _ ident_law), (token_bind _ _ _ _ _ comma_law),
    (token_bind _ _ _ _ _ ident_law), (token_bind _ _ _ _ _ comma_law),
    (token_bind _ _ _ _ _ literal_law), bind_run.
  by destruct input, ts.
Qed.

Lemma parse_ret input ts ts' : parse ts = Ret input ts' → ts = tokens input ∧ ts' = [].
Proof.
  destruct ident_law as (_ & Hi & _), comma_law as (_ & Hc & _), literal_law as (_ & Hl & _).
  unfold parse.
  intros (v & t1 & ->%Hi & (c1 & t2 & ->%Hc & (i & t3 & ->%Hi & (c2 & t4 & ->%Hc &
    (l & t5 & ->%Hl & Hr)%bind_ret_inv)%bind_ret_inv)%bind_ret_inv)%bind_ret_inv)%bind_ret_inv.
  unfold get in Hr. rewrite bind_run in Hr. destruct t5; [|done]. by injection Hr as <- <-.
Qed.

(** The macro expands exactly the inputs of three parameters, and refuses a further
    token with the stated error.  The expansion has what the parameters say, and the
    entry point exactly when the crate is built without [std]. *)
Theorem macro_input std input :
  (∀ ts e, parachainify std ts = Ok e ↔
    ∃ input crate, ts = tokens input ∧ crate_ = Ok crate ∧
      e = mk_expansion (if std then None else Some (crate, verifier input))
            (inner_constraint_checker input) crate (para_id input)) ∧
  (∀ t ts, parachainify std (tokens input ++ t :: ts) = Err three_parameters).
Proof.
  split.
  - intros ts e. unfold parachainify. split.
    + destruct (parse ts) as [i t| |] eqn:Hp; [|done..]. apply parse_ret in Hp as [-> ->].
      intros (crate & Hc & [= <-])%bind_ok. exists i, crate. by destruct std.
    + intros (i & crate & -> & Hc & ->). rewrite <-(app_nil_r (tokens i)), parse_tokens, Hc.
      by destruct std.
  - intros t ts. unfold parachainify. by rewrite parse_tokens.
Qed.
End input.

(** ** The entry point *)

(** The memory that the validator shares with the runtime: bytes at addresses. *)
Definition Memory : Type := gmap N byte.

(** [slice::from_raw_parts]; a read outside of the memory traps. *)
Fixpoint from_raw_parts (memory : Memory) (start : N) (len : nat) : option bytes :=
  match len with
  | O => Some []
  | S len =>
    b ← memory !! start;
    bs ← from_raw_parts memory (N.succ start) len;
    mret (b :: bs)
  end.

(** [polkadot_parachain_primitives::write_result] *)
Class SharedMemory : Type := write_result : CollationInfo → M Memory Empty_set u64.

(** Where the validator finds the result: the pointer is in the lower half. *)
Definition result_bytes (packed : u64) (memory : Memory) : option bytes :=
  from_raw_parts memory (uval packed `mod` 2 ^ 32) (N.to_nat (uval packed / 2 ^ 32)).

(** Documented behaviour: the encoding of the result is written and located. *)
Class SharedMemoryLaws `{SharedMemory, Codec CollationInfo} : Prop := {
  written result memory : ∃ packed memory',
    write_result result memory = Ret packed memory' ∧
    result_bytes packed memory' = Some (scale_encode result);
}.

Section entry.
Context `{CoreCodecs, Inherents, !RelayPrimitives, !ParachainCodecs} {V C : Type}.
Context `{Verifier V, !ConstraintChecker C, !ParachainChecker C}.
Context `{!Externalities, !ValidationPrimitives}.
Context `{!SharedMemory, !Codec MemoryOptimizedValidationParams}.

Definition memory_fault : string := "out of bounds memory access".
Definition invalid_arguments : string := "Invalid arguments to `validate_block`.".

(** The generated [validate_block] *)
Definition entry_point (arguments : N) (arguments_len : nat) : M Memory Empty_set u64 :=
  memory ← get;
  args ← expect (from_raw_parts memory arguments arguments_len) memory_fault;
  params ← expect (decode_value args) invalid_arguments;
  res ← lift_partial (validate_block (V := V) (C := C) params);
  write_result res.

Context `{!LawfulCodec MemoryOptimizedValidationParams, !Codec CollationInfo}.
Context `{!LawfulCodec CollationInfo, !SharedMemoryLaws}.

(** What a validator gets from the entry point for parameters in the shared memory is
    what [validate_block] answers for them: the encoded result is where the answer
    points to, and a panic is a panic. *)
Theorem entry_point_answers params rest memory arguments arguments_len :
  from_raw_parts memory arguments arguments_len = Some (scale_encode params ++ rest) →
  match validate_block (V := V) (C := C) params with
  | Value result => ∃ packed memory',
      entry_point arguments arguments_len memory = Ret packed memory' ∧
      (result_bytes packed memory' ≫= decode_value) = Some result
  | Panicked why => entry_point arguments arguments_len memory = Panic why
  end.
Proof.
  intros Hm. unfold entry_point, get. rewrite bind_run, Hm. cbn [expect].
  rewrite bind_mret, decode_value_app. cbn [expect]. rewrite bind_mret, bind_run.
  destruct (validate_block params) as [result|why]; [|done]. cbn.
  destruct (written result memory) as (packed & memory' & Hw & Hb).
  exists packed, memory'. split; [done|]. rewrite Hb. apply decode_value_encode.
Qed.
End entry.
