(* ===== verification/ParachainPiece.v ===== *)
(** * ParachainPiece: the parachain inherent

    Models [wardrobe/parachain/src/lib.rs]: the inherent that brings the relay
    chain's data on chain, evicting the previous one, and writes the relay parent
    number to the storage as a side effect of its check. *)

From S2P Require Import Prelude Effects Scale Types Checker UtxoSet CheckerLaws Executive Simulation.
From S2P Require Import Concrete Verifiers Samples ExecutiveFacts Ledger Blocks ParachainCore.

Inductive ParachainError : Type :=
| ParachainBadlyTyped
| MissingNewInfo
| ExtraOutputs
| MissingPreviousInfo
| ExtraInputs
| RelayBlockNotIncreasing.

Inductive SetParachainInfo : Type := set_parachain_info.

(** [trait ParachainPieceConfig]; the storage is [RelayParentNumberStorage] in the
    runtimes and a mock in the tests. *)
Class ParachainPieceConfig : Type := {
  PARA_ID : u32;
  set_relay_parent_number {St} `{!Store St} : ∀ E, u32 → M St E unit;
}.

Definition DEFAULT_PARA_ID : u32 := trunc 32 2000.

(** What the piece takes from Cumulus: the inherent identifier, the proof of an
    empty relay state and the empty messages. *)
Class ParachainPrimitives `{RelayPrimitives} : Type := {
  parachain_identifier : bytesN 8;
  empty_state_root_and_proof : H256 * StorageProof;
  no_downward_messages : DownwardMessages;
  no_horizontal_messages : HorizontalMessages;
}.

Section piece.
Context `{CoreCodecs, Inherents, !RelayPrimitives, !ParachainCodecs, !ParachainPrimitives}.
Context `{ParachainPieceConfig, !Codec SetParachainInfo}.

Definition extract_info (d : DynamicallyTypedData) : result ParachainError ParachainInherentData :=
  u ← map_err (λ _, ParachainBadlyTyped) (extract ParachainInherentDataUtxo d);
  mret (into_inherent_data u).

(** [SetParachainInfo::check] *)
Definition set_parachain_info_check {St} `{!Store St} (_ : SetParachainInfo)
    (input_data evicted_input_data _peek_data output_data : list DynamicallyTypedData) :
    M St ParachainError u64 :=
  match output_data with
  | [] => mthrow MissingNewInfo
  | output :: more =>
    ensure! bool_decide (more = []) else ExtraOutputs;
    current ← lift_result (extract_info output);
    set_relay_parent_number ParachainError (relay_parent_number (validation_data current));;
    ensure! bool_decide (input_data = []) else ExtraInputs;
    match evicted_input_data with
    | [] => mthrow MissingPreviousInfo
    | evicted :: more =>
      ensure! bool_decide (more = []) else ExtraInputs;
      previous ← lift_result (extract_info evicted);
      ensure! N.ltb (uval (relay_parent_number (validation_data previous)))
                    (uval (relay_parent_number (validation_data current)))
        else RelayBlockNotIncreasing;
      mret (trunc 64 0)
    end
  end.

#[export] Instance set_parachain_info_checker : SimpleConstraintChecker SetParachainInfo := {|
  SimpleError := ParachainError; simple_check St _ := set_parachain_info_check |}.

Definition parachain_data (data : InherentData) : partial ParachainInherentData :=
  d ← partial_expect (get_data (A := ParachainInherentData) data parachain_identifier)
        "Inherent data should decode properly";
  partial_expect d "Parachain inherent data should be present.".

(** [SetParachainInfo::create_inherent] *)
Definition set_parachain_info_create_inherent {V} `{Verifier V}
    (authoring_inherent_data : InherentData)
    (previous : Transaction V SetParachainInfo * H256) :
    M storage Empty_set (Transaction V SetParachainInfo) :=
  current_info ← lift_partial (parachain_data authoring_inherent_data);
  let output_ref := mk_output_ref previous.2 (trunc 32 0) in
  let input := mk_input output_ref Eviction in
  unspendable ← lift_partial (partial_expect new_unspendable
    "Must be able to create unspendable verifier to use parachain inherent.");
  let new_output := mk_output (typed_from (data_utxo_from current_info)) unspendable in
  mret (mk_transaction [input] [] [new_output] set_parachain_info).

(** [SetParachainInfo::check_inherent] checks nothing off chain. *)
Definition set_parachain_info_check_inherent {V} (_importing_inherent_data : InherentData)
    (_inherent : Transaction V SetParachainInfo) (result : CheckInherentsResult) :
    partial CheckInherentsResult := mret result.

(** [new_data_from_relay_parent_number] *)
Definition new_data_from_relay_parent_number (number : u32) : ParachainInherentDataUtxo :=
  let '(relay_parent_storage_root, relay_chain_state_proof) := empty_state_root_and_proof in
  data_utxo_from (mk_inherent_data
    (mk_validation_data [] number relay_parent_storage_root (trunc 32 0))
    relay_chain_state_proof no_downward_messages no_horizontal_messages).

(** [SetParachainInfo::genesis_transactions] *)
Definition set_parachain_info_genesis {V} `{Verifier V} :
    partial (list (Transaction V SetParachainInfo)) :=
  let payload := typed_from (new_data_from_relay_parent_number (trunc 32 0)) in
  unspendable ← partial_expect new_unspendable
    "Must be able to create unspendable verifier to use timestamp inherent.";
  mret [mk_transaction [] [] [mk_output payload unspendable] set_parachain_info].

#[export] Instance set_parachain_info_hooks : InherentHooks SetParachainInfo := {|
  INHERENT_IDENTIFIER := parachain_identifier;
  create_inherent V _ := set_parachain_info_create_inherent;
  check_inherent V := set_parachain_info_check_inherent;
  hook_genesis_transactions V _ := set_parachain_info_genesis;
|}.

(** The runtimes' configuration. *)
Definition storage_config : ParachainPieceConfig := {|
  PARA_ID := DEFAULT_PARA_ID;
  set_relay_parent_number := λ St _ E, relay_parent_number_set |}.
End piece.

(** ** The check *)

Section facts.
Context `{CoreLaws, !ScaleLaws, Inherents, !RelayPrimitives, !ParachainCodecs,
          !ParachainPrimitives}.
Context `{!Codec SetParachainInfo}.
#[local] Existing Instance storage_config.
Implicit Types (s : storage) (d : DynamicallyTypedData).

Lemma relay_key_unprotected : ¬ protected_key RELAY_PARENT_NUMBER_KEY.
Proof.
  intros [E|[E|[E|[o E]]]]; [done..|].
  apply (f_equal List.length) in E. by rewrite output_ref_size in E.
Qed.

#[export] Instance set_parachain_info_frame : CheckerFrame SetParachainInfo.
Proof.
  intros c i e p o.
  cbn [check simple_constraint_checker simple_check set_parachain_info_checker].
  pose proof relay_key_unprotected. unfold set_parachain_info_check.
  cbn [set_relay_parent_number storage_config]. unfold relay_parent_number_set. solve_leaves.
Qed.

#[export] Instance set_parachain_info_transient : CheckerTransient SetParachainInfo.
Proof.
  intros c i e p o.
  cbn [check simple_constraint_checker simple_check set_parachain_info_checker].
  unfold set_parachain_info_check. cbn [set_relay_parent_number storage_config].
  unfold relay_parent_number_set. solve_respects.
Qed.

#[export] Instance set_parachain_info_uniform : UniformChecker SetParachainInfo.
Proof.
  intros S1 S2 ? ? sim ? c i e p o.
  cbn [check simple_constraint_checker simple_check set_parachain_info_checker].
  unfold set_parachain_info_check. cbn [set_relay_parent_number storage_config].
  unfold relay_parent_number_set. solve_sim.
Qed.

(** The relay parent number in a payload. *)
Definition info_of d : option ParachainInherentData :=
  into_inherent_data <$> ok (extract ParachainInherentDataUtxo d).
Definition number_of d : option u32 :=
  (λ i, relay_parent_number (validation_data i)) <$> info_of d.

Lemma extract_info_ok d i : extract_info d = Ok i ↔ info_of d = Some i.
Proof.
  unfold extract_info, info_of. rewrite bind_ok. setoid_rewrite map_err_ok.
  setoid_rewrite mret_ok. destruct (extract _ d) as [a|]; simpl; split.
  - by intros (? & [= ->] & ->).
  - intros [= <-]. by exists a.
  - by intros (? & ? & _).
  - done.
Qed.

(** The storage once the number in the output is noted. *)
Definition noting (n : u32) s : storage := <[RELAY_PARENT_NUMBER_KEY := scale_encode n]> s.

Lemma set_parachain_info_ok c i e p o s prio s' :
  set_parachain_info_check c i e p o s = Ret prio s' ↔
  i = [] ∧ prio = trunc 64 0 ∧ ∃ de d m n, e = [de] ∧ o = [d] ∧
    number_of de = Some m ∧ number_of d = Some n ∧ (uval m < uval n)%N ∧ s' = noting n s.
Proof.
  unfold set_parachain_info_check, number_of.
  destruct o as [|d more]; [by split; [|intros (_ & _ & ? & ? & ? & ? & _ & ? & _)]|].
  case_bool_decide as Hmore; [|by split; [|intros (_ & _ & ? & ? & ? & ? & _ & [= _ ?] & _)]].
  subst more. split.
  - intros (cur & s1 & [Hcur%extract_info_ok ->]%lift_result_ret & Hr)%bind_ret_inv.
    rewrite bind_run in Hr. simpl in Hr. case_bool_decide as Hi; [|done].
    destruct e as [|de more]; [done|]. case_bool_decide as Hmore; [|done]. subst.
    apply bind_ret_inv in Hr as (prev & s1 & [Hprev%extract_info_ok ->]%lift_result_ret & Hr).
    destruct (N.ltb_spec (uval (relay_parent_number (validation_data prev)))
      (uval (relay_parent_number (validation_data cur)))) as [Hlt|]; [|done].
    injection Hr as <- <-. split; [done|]. split; [done|].
    exists de, d, (relay_parent_number (validation_data prev)),
      (relay_parent_number (validation_data cur)). by rewrite Hcur, Hprev.
  - intros (-> & -> & de & d' & m & n & -> & [= <-] & Hm & Hn & Hlt & ->).
    destruct (info_of d) as [cur|] eqn:Hcur; [|done]. injection Hn as <-.
    destruct (info_of de) as [prev|] eqn:Hprev; [|done]. injection Hm as <-.
    apply bind_ret_inv. exists cur, s. split; [by apply lift_result_ret; rewrite extract_info_ok|].
    rewrite bind_run. simpl. apply bind_ret_inv. eexists prev, _.
    split; [apply lift_result_ret; by rewrite extract_info_ok|].
    by rewrite (proj2 (N.ltb_lt _ _) Hlt).
Qed.

(** The relay parent number only moves forward.  The check accepts exactly one
    evicted payload and one output, both parachain inherent data, no input, and
    a relay parent number greater than the evicted one; the number is then the
    one in the storage.  The number is written before the inputs are looked at:
    whenever the only output is parachain inherent data, the number it carries
    is in the storage after the check, even when the check errors. *)
Theorem parachain_info_check c i e p o s :
  (∀ prio s', set_parachain_info_check c i e p o s = Ret prio s' ↔
     i = [] ∧ prio = trunc 64 0 ∧ ∃ de d m n, e = [de] ∧ o = [d] ∧
       number_of de = Some m ∧ number_of d = Some n ∧ (uval m < uval n)%N ∧ s' = noting n s) ∧
  (∀ d n err s', o = [d] → number_of d = Some n →
     set_parachain_info_check c i e p o s = Throw err s' → s' = noting n s).
Proof.
  split; [intros; apply set_parachain_info_ok|].
  intros d n err s' -> Hn. unfold number_of in Hn.
  destruct (info_of d) as [cur|] eqn:Hcur; [|done]. injection Hn as <-.
  apply extract_info_ok in Hcur. unfold set_parachain_info_check.
  rewrite bool_decide_true, bind_run, Hcur by done. simpl. rewrite bind_run. simpl.
  case_bool_decide; [|by intros [= _ <-]]. destruct e as [|de more]; [by intros [= _ <-]|].
  case_bool_decide; [|by intros [= _ <-]]. rewrite bind_run.
  destruct (extract_info de); simpl; [|by intros [= _ <-]].
  case_match; [done|by intros [= _ <-]].
Qed.

(** The inherent an author creates. *)
Definition info_tx {V} (id : H256) (info : ParachainInherentData) (owner : V) :
    Transaction V SetParachainInfo :=
  mk_transaction [mk_input (mk_output_ref id (trunc 32 0)) Eviction] []
    [mk_output (typed_from (data_utxo_from info)) owner] set_parachain_info.

Lemma info_create_run {V} `{Verifier V} data prev (id : H256) info (unspendable : V) s :
  parachain_data data = Value info → new_unspendable = Some unspendable →
  set_parachain_info_create_inherent data (prev, id) s = Ret (info_tx id info unspendable) s.
Proof. intros Hd Hu. unfold set_parachain_info_create_inherent. by rewrite Hd, bind_run, Hu. Qed.

Context {V : Type} `{Verifier V, !LawfulCodec V, !LawfulCodec ParachainInherentDataUtxo}.

(** From one parachain inherent to the next.  An author whose inherent data
    carries the relay chain's data gets an inherent that evicts the first output
    of the previous one; when that output is in the ledger and its relay parent
    number is smaller, the inherent applies, the old data is gone, the new data
    is stored in its place and the storage holds the new relay parent number. *)
Theorem parachain_info_advances data prev (id : H256) info (unspendable : V) s (u : Output V) m :
  parachain_data data = Value info → new_unspendable = Some unspendable →
  utxo_at s (mk_output_ref id (trunc 32 0)) = Some u → number_of (payload u) = Some m →
  (uval m < uval (relay_parent_number (validation_data info)))%N →
  ∃ tx, set_parachain_info_create_inherent data (prev, id) s = Ret tx s ∧
    (utxo_at (V := V) s (out_ref tx 0) = None →
     ∃ s', apply_tuxedo_transaction tx s = Ret tt s' ∧
       utxo_at (V := V) s' (mk_output_ref id (trunc 32 0)) = None ∧
       (∃ u' : Output V, utxo_at s' (out_ref tx 0) = Some u' ∧ info_of (payload u') = Some info) ∧
       number_at s' = Some (relay_parent_number (validation_data info))).
Proof.
  intros Hd Hun Hu Hm Hlt. set (n := relay_parent_number (validation_data info)) in *.
  exists (info_tx id info unspendable). split; [by apply info_create_run|].
  set (tx := info_tx id info unspendable). intros Hnew.
  destruct (evicting_accepted (utxo_at s) (height_at s) tx (mk_output_ref id (trunc 32 0)) u)
    as (Ha & Hin & Hev & _); try done.
  assert (info_of (typed_from (data_utxo_from info)) = Some info) as Hinfo
    by (unfold info_of; by rewrite extract_from).
  assert (apply_tuxedo_transaction tx s = Ret tt (storage_apply (noting n s) tx)) as Hs.
  { apply apply_ret. split; [done|]. exists (trunc 64 0), (noting n s). split; [|done].
    unfold check_all. rewrite Hin, Hev.
    cbn [check simple_constraint_checker simple_check set_parachain_info_checker].
    apply set_parachain_info_ok. split; [done|]. split; [done|].
    eexists _, (typed_from (data_utxo_from info)), m, n. split; [done|]. split; [done|].
    split; [done|]. unfold number_of. by rewrite Hinfo. }
  exists (storage_apply (noting n s) tx). split; [done|].
  destruct (apply_ret_ledger _ _ _ _ (represents_ledger_of s) Hs) as (Hacc & _ & Hr & _).
  split; [|split].
  - rewrite (Hr _). rewrite ledger_apply_other.
    + rewrite decide_True; [done|]. by apply list_elem_of_singleton.
    + intros i Hi. eapply accepted_input_not_output; [exact Hacc| |done].
      by apply list_elem_of_singleton.
  - exists (mk_output (typed_from (data_utxo_from info)) unspendable). split; [|done].
    rewrite (Hr _). by apply ledger_apply_output.
  - unfold number_at. rewrite storage_apply_key.
    + apply number_at_insert.
    + intros o E. apply relay_key_unprotected. unfold protected_key. rewrite <-E. eauto.
Qed.
End facts.

(** ** Witnesses *)

Module Witnesses.
Import Sample ParachainSample.

#[local] Existing Instance storage_config.

#[export] Instance concrete_parachain_primitives : ParachainPrimitives := {|
  parachain_identifier := to_bytesN 8 (bstr "sysi1337");
  empty_state_root_and_proof := (H256_zero, []);
  no_downward_messages := tt;
  no_horizontal_messages := tt |}.

#[export] Instance concrete_info : Codec SetParachainInfo := nil_codec set_parachain_info.

(** Parachain data for relay parent ten is in the ledger. *)
Definition relayed : storage :=
  <[scale_encode (ref 0) := scale_encode (relay_output 10)]>
    {[HEIGHT_KEY := scale_encode (trunc 32 3)]}.
Definition relay_author : InherentData :=
  [(to_bytesN 8 (bstr "sysi1337"), scale_encode (relay_info 12))].
Definition relay_previous : Transaction TestVerifier SetParachainInfo :=
  mk_transaction [] [] [] set_parachain_info.

Lemma parachain_info_check_witness :
  set_parachain_info_check set_parachain_info []
    [payload (relay_output 10)] [] [payload (relay_output 12)] relayed =
  Ret (trunc 64 0) (noting (trunc 32 12) relayed).
Proof.
  destruct (parachain_info_check set_parachain_info [] [payload (relay_output 10)] []
    [payload (relay_output 12)] relayed) as [Hok _]. apply Hok.
  split; [done|]. split; [done|].
  eexists _, _, (trunc 32 10), (trunc 32 12). split; [done|]. split; [done|].
  split; [by_vm|]. split; [by_vm|]. split; [by apply N.ltb_lt|done].
Defined.

Lemma parachain_info_advances_witness :
  ∃ tx, set_parachain_info_create_inherent (V := TestVerifier) relay_author
          (relay_previous, H256_zero) relayed = Ret tx relayed.
Proof.
  destruct (parachain_info_advances relay_author relay_previous H256_zero (relay_info 12)
    (mk_test_verifier false) relayed (relay_output 10) (trunc 32 10)) as (tx & Htx & _);
    [by_vm|done|by_vm|by_vm|by apply N.ltb_lt|].
  exists tx. exact Htx.
Defined.
End Witnesses.
