(* ===== verification/Supply.v ===== *)
(** * Supply: totals over the ledger

    [weight w L] adds up [w] over the outputs of a ledger.  Applying an accepted
    transaction whose inputs name distinct outputs moves the total by exactly
    what it consumes and creates; conservation laws of the pieces follow. *)

From S2P Require Import Prelude Effects Scale Types Checker UtxoSet CheckerLaws Executive.
From S2P Require Import ExecutiveFacts Concrete Verifiers Samples Ledger.

(** ** Sums of naturals *)

Fixpoint sumN (l : list N) : N := match l with [] => 0 | n :: l => n + sumN l end.

Lemma sumN_app l1 l2 : sumN (l1 ++ l2) = (sumN l1 + sumN l2)%N.
Proof. induction l1 as [|n l IH]; simpl; [done|]. rewrite IH. lia. Qed.

#[export] Instance sumN_proper : Proper ((≡ₚ) ==> eq) sumN.
Proof. induction 1; cbn [sumN]; lia. Qed.

Section weight.
Context {V : Type} (w : Output V → N).
Implicit Types (L : ledger V) (o : OutputRef) (u : Output V).

Definition weight L : N := map_fold (λ _ u acc, (w u + acc)%N) 0%N L.

Lemma weight_insert L o u : L !! o = None → weight (<[o := u]> L) = (w u + weight L)%N.
Proof. intros Ho. unfold weight. rewrite map_fold_insert_L; [done| |done]. intros. lia. Qed.

Lemma weight_delete L o u : L !! o = Some u → weight L = (w u + weight (delete o L))%N.
Proof.
  intros Ho. rewrite <-(insert_delete_id L o u Ho) at 1.
  apply weight_insert, lookup_delete_eq.
Qed.

Lemma weight_insert_le L o u : (weight (<[o := u]> L) ≤ w u + weight L)%N.
Proof.
  destruct (L !! o) as [u'|] eqn:Ho.
  - rewrite <-insert_delete_eq, weight_insert by apply lookup_delete_eq.
    rewrite (weight_delete _ _ _ Ho). lia.
  - rewrite weight_insert by done. lia.
Qed.

(** What a list of references is worth in a ledger. *)
Definition worth L (l : list OutputRef) : N :=
  sumN (map (λ o, from_option w 0%N (L !! o)) l).

Lemma worth_delete L o l : o ∉ l → worth (delete o L) l = worth L l.
Proof.
  intros Ho. unfold worth. f_equal. apply map_ext_in. intros o' Ho'%list_elem_of_In.
  rewrite lookup_delete_ne; [done|]. by intros ->.
Qed.

Lemma weight_consume L (l : list Input) :
  NoDup (map output_ref l) →
  (weight (ledger_consume L l) + worth L (map output_ref l) = weight L)%N.
Proof.
  unfold ledger_consume. revert L. induction l as [|i l IH]; intros L Hd.
  - unfold worth. simpl. lia.
  - cbn [map fold_left] in *. apply NoDup_cons in Hd as [Hi Hd].
    specialize (IH (delete (output_ref i) L) Hd). rewrite worth_delete in IH by done.
    unfold worth at 1. cbn [map sumN]. fold (worth L (map output_ref l)).
    destruct (L !! output_ref i) as [u|] eqn:Hu; cbn [from_option].
    + rewrite (weight_delete _ _ _ Hu). lia.
    + rewrite delete_id in IH |- * by done. lia.
Qed.

Definition worth_outputs (l : list (Output V)) : N := sumN (map w l).
End weight.

Section transactions.
Context `{CoreLaws, Inherents} {V C : Type} `{Verifier V, !ConstraintChecker C}.
Implicit Types (L : ledger V) (tx : Transaction V C).

Lemma weight_create_le w tx L l :
  (weight w (ledger_create tx L l) ≤ weight w L + worth_outputs w (map snd l))%N.
Proof.
  unfold ledger_create, worth_outputs. revert L. induction l as [|[i u] l IH]; intros L; simpl; [lia|].
  etrans; [apply IH|]. pose proof (weight_insert_le w L (out_ref tx i) u). lia.
Qed.

Lemma weight_create w tx L l :
  NoDup (map (λ p, out_ref tx p.1) l) →
  Forall (λ p, L !! out_ref tx p.1 = None) l →
  weight w (ledger_create tx L l) = (weight w L + worth_outputs w (map snd l))%N.
Proof.
  unfold ledger_create, worth_outputs. revert L.
  induction l as [|[i u] l IH]; intros L Hd Hl; simpl; [lia|].
  cbn [map] in Hd. apply NoDup_cons in Hd as [Hi Hd]. apply Forall_cons in Hl as [Hu Hl].
  rewrite IH; [|done|].
  - rewrite weight_insert by done. lia.
  - rewrite Forall_forall in Hl |- *. intros p Hp. rewrite lookup_insert_ne; [by apply Hl|].
    intros E. apply Hi. simpl. rewrite E.
    by apply (list_elem_of_fmap_2 (λ p, out_ref tx p.1)).
Qed.

Lemma enumerate_snd {A} (l : list A) : map snd (enumerate l) = l.
Proof. unfold enumerate. apply snd_zip. by rewrite length_seq. Qed.

(** Whatever is created, the total grows by the outputs at most. *)
Lemma ledger_apply_weight_le w L tx :
  NoDup (map output_ref (inputs tx)) →
  (weight w (ledger_apply L tx) + worth w L (map output_ref (inputs tx)) ≤
   weight w L + worth_outputs w (outputs tx))%N.
Proof.
  intros Hd. unfold ledger_apply.
  pose proof (weight_create_le w tx (ledger_consume L (inputs tx)) (enumerate (outputs tx))) as Hc.
  rewrite enumerate_snd in Hc. pose proof (weight_consume w L _ Hd). lia.
Qed.

(** And by exactly the outputs, when no output is overwritten. *)
Lemma ledger_apply_weight w L tx h :
  accepted (L !!.) h tx → NoDup (map output_ref (inputs tx)) →
  (N.of_nat (List.length (outputs tx)) ≤ 2 ^ 32)%N →
  (weight w (ledger_apply L tx) + worth w L (map output_ref (inputs tx)) =
   weight w L + worth_outputs w (outputs tx))%N.
Proof.
  intros Ha Hd Hn. unfold ledger_apply. rewrite weight_create, enumerate_snd.
  - pose proof (weight_consume w L _ Hd). lia.
  - by apply out_refs_distinct.
  - rewrite Forall_forall. intros [i u] Hi%elem_of_enumerate. simpl.
    unfold ledger_consume. rewrite fold_delete_lookup. case_decide; [done|].
    apply (acc_outputs _ _ _ Ha). by eapply lookup_lt_Some.
Qed.

(** The worth of the inputs, from what the constraint checker is shown. *)
Lemma worth_inputs (wp : DynamicallyTypedData → N) L h tx :
  accepted (L !!.) h tx →
  worth (λ u, wp (payload u)) L (map output_ref (inputs tx)) =
  (sumN (map wp (inputs_of (L !!.) h tx)) + sumN (map wp (evictions_of (L !!.) h tx)))%N.
Proof.
  intros [_ Hi _ _]. revert Hi. unfold worth, inputs_of, evictions_of, statuses.
  induction (inputs tx) as [|i l IH]; [done|]. cbn [map omap list_omap].
  intros [Hs Hl]%Forall_cons. specialize (IH Hl). cbn [map sumN]. rewrite IH.
  unfold inspect in *. destruct (L !! output_ref i) as [u|]; [|done].
  destruct (redeemer i) as [r|]; [|simpl; lia].
  destruct (decode_value r); [|done]. destruct h; [|done].
  destruct (verify _ _ _ _) as [[]|]; [|done..]. simpl. lia.
Qed.
End transactions.
