(* ===== verification/Money.v ===== *)
(** * Money: the fungible token piece

    Models [wardrobe/money/src/lib.rs]: coins, the spend and mint paths of the
    constraint checker, and the mint transaction. *)

From S2P Require Import Prelude Effects Scale Types Checker UtxoSet CheckerLaws Executive.
From S2P Require Import ExecutiveFacts Concrete Verifiers Samples Ledger Supply.

(** ** Data *)

(** [MoneyConstraintChecker<ID>], [Coin<ID>] *)
Inductive MoneyConstraintChecker (ID : u8) : Type :=
| Spend
| Mint.
Arguments Spend {ID}.
Arguments Mint {ID}.

Record Coin (ID : u8) : Type := mk_coin { coin_amount : u128 }.
Arguments mk_coin {ID} _.
Arguments coin_amount {ID} _.

Inductive MoneyError : Type :=
| BadlyTyped
| NoEvictionsAllowed
| MintingWithInputs
| MintingNothing
| SpendingNothing
| OutputsExceedInputs
| ValueOverflow
| ZeroValueCoin.

(** The codecs the source derives. *)
Class MoneyCodecs : Type := {
  codec_money ID :: Codec (MoneyConstraintChecker ID);
  codec_coin ID :: Codec (Coin ID);
}.

Class MoneyLaws `{MoneyCodecs} : Prop := {
  lawful_money ID :: LawfulCodec (MoneyConstraintChecker ID);
  lawful_coin ID :: LawfulCodec (Coin ID);
}.

Section money.
Context `{CoreCodecs, Inherents, MoneyCodecs} {ID : u8}.
Implicit Types (input_data output_data : list DynamicallyTypedData).

(** [impl Cash for Coin<ID>] *)
Definition value (self : Coin ID) : u128 := coin_amount self.

(** [impl UtxoData for Coin<ID>] *)
#[export] Instance coin_utxo_data : UtxoData (Coin ID) :=
  to_bytesN 4 (bstr "coi" ++ [byte_of ID]).

(** [Coin::new] and [Coin::mint] *)
Definition coin_new (amt : u128) : Coin ID := mk_coin amt.

Definition coin_mint {V OV OC} (into_verifier : V → OV)
    (into_checker : MoneyConstraintChecker ID → OC) (amt : u128) (v : V) : Transaction OV OC :=
  mk_transaction [] [] [output_from into_verifier (coin_new amt, v)] (into_checker Mint).

Definition extract_value (d : DynamicallyTypedData) : result MoneyError u128 :=
  c ← map_err (λ _, BadlyTyped) (extract (Coin ID) d); mret (coin_amount c).

(** The two loops of the spend path. *)
Definition add_input (total_input_value : u128) (input : DynamicallyTypedData) :
    result MoneyError u128 :=
  utxo_value ← extract_value input;
  ok_or (checked_add total_input_value utxo_value) ValueOverflow.

Definition add_output (total_output_value : u128) (utxo : DynamicallyTypedData) :
    result MoneyError u128 :=
  utxo_value ← extract_value utxo;
  ensure! N.ltb 0 (uval utxo_value) else ZeroValueCoin;
  ok_or (checked_add total_output_value utxo_value) ValueOverflow.

(** The loop of the mint path. *)
Definition check_minted (_ : unit) (utxo : DynamicallyTypedData) : result MoneyError unit :=
  utxo_value ← extract_value utxo;
  ensure! N.ltb 0 (uval utxo_value) else ZeroValueCoin;
  mret tt.

(** [MoneyConstraintChecker::check] *)
Definition money_check (self : MoneyConstraintChecker ID)
    (input_data evicted_input_data _peeks output_data : list DynamicallyTypedData) :
    result MoneyError u64 :=
  ensure! bool_decide (evicted_input_data = []) else NoEvictionsAllowed;
  match self with
  | Spend =>
    ensure! bool_decide (input_data ≠ []) else SpendingNothing;
    total_input_value ← try_for input_data add_input (trunc 128 0);
    total_output_value ← try_for output_data add_output (trunc 128 0);
    ensure! N.leb (uval total_output_value) (uval total_input_value) else OutputsExceedInputs;
    let burned := wrapping_sub total_input_value total_output_value in
    mret (if N.ltb burned (uint_max 64) then trunc 64 burned else uint_max 64)
  | Mint =>
    ensure! bool_decide (input_data = []) else MintingWithInputs;
    ensure! bool_decide (output_data ≠ []) else MintingNothing;
    try_for output_data check_minted tt;;
    mret (trunc 64 0)
  end.

#[export] Instance money_checker : SimpleConstraintChecker (MoneyConstraintChecker ID) := {|
  SimpleError := MoneyError;
  simple_check St _ self i e p o := lift_result (money_check self i e p o);
|}.

#[export] Instance money_pure : PureChecker (MoneyConstraintChecker ID).
Proof. by exists money_check. Defined.
End money.

(** ** The two paths *)

Section spec.
Context `{CoreCodecs, Inherents, MoneyCodecs} {ID : u8}.
Implicit Types (d : DynamicallyTypedData) (l : list DynamicallyTypedData).

(** The value of a payload that is a coin of this token. *)
Definition coin_of (ID : u8) d : option N :=
  match extract (Coin ID) d with Ok c => Some (uval (coin_amount c)) | Err _ => None end.
Definition coin_value (ID : u8) d : N := default 0%N (coin_of ID d).

Definition is_coin (ID : u8) d : Prop := is_Some (coin_of ID d).
Definition positive_coin (ID : u8) d : Prop := ∃ n, coin_of ID d = Some n ∧ (0 < n)%N.
Definition total (ID : u8) l : N := sumN (map (coin_value ID) l).

Lemma extract_value_ok d x :
  extract_value (ID := ID) d = Ok x ↔ coin_of ID d = Some (uval x).
Proof.
  unfold extract_value, coin_of. rewrite bind_ok. setoid_rewrite map_err_ok.
  destruct (extract (Coin ID) d) as [c|e]; split.
  - intros (c' & [= <-] & [= <-]). done.
  - intros [= E%uint_eq]. exists c. by rewrite E.
  - by intros (? & ? & _).
  - done.
Qed.

Lemma checked_add_ok {w} (x y z : uint w) :
  checked_add x y = Some z ↔ (uval x + uval y < 2 ^ w)%N ∧ uval z = (uval x + uval y)%N.
Proof.
  unfold checked_add. destruct (N.ltb_spec (uval x + uval y) (2 ^ w)) as [Hlt|Hge].
  - split.
    + intros [= <-]. by rewrite uval_trunc.
    + intros [_ E]. f_equal. apply uint_eq. by rewrite uval_trunc.
  - split; [done|]. intros []. lia.
Qed.

(** One turn of either loop adds the value of the coin. *)
Lemma add_input_ok acc d x :
  add_input (ID := ID) acc d = Ok x ↔
  is_coin ID d ∧ (uval acc + coin_value ID d < 2 ^ 128)%N ∧
  uval x = (uval acc + coin_value ID d)%N.
Proof.
  unfold add_input, is_coin, coin_value. rewrite bind_ok. setoid_rewrite extract_value_ok.
  setoid_rewrite ok_or_ok. setoid_rewrite checked_add_ok.
  destruct (coin_of ID d) as [n|] eqn:Hn; cbn [from_option id default]; split.
  - intros (v & [= ->] & ? & ?). split; [by eexists|done].
  - intros (_ & Hlt & E). assert (n < 2 ^ 128)%N by lia.
    exists (trunc 128 n). by rewrite uval_trunc.
  - by intros (v & ? & _).
  - by intros [[? ?] _].
Qed.

Lemma add_output_ok acc d x :
  add_output (ID := ID) acc d = Ok x ↔
  positive_coin ID d ∧ (uval acc + coin_value ID d < 2 ^ 128)%N ∧
  uval x = (uval acc + coin_value ID d)%N.
Proof.
  unfold add_output, positive_coin, coin_value. rewrite bind_ok.
  setoid_rewrite extract_value_ok. setoid_rewrite ensure_ok.
  setoid_rewrite ok_or_ok. setoid_rewrite checked_add_ok. setoid_rewrite N.ltb_lt.
  destruct (coin_of ID d) as [n|] eqn:Hn; cbn [from_option id default]; split.
  - intros (v & [= ->] & ? & ? & ?). split; [by eexists|done].
  - intros ((m & [= <-] & ?) & Hlt & E). assert (n < 2 ^ 128)%N by lia.
    exists (trunc 128 n). by rewrite uval_trunc.
  - by intros (v & ? & _).
  - by intros [(? & ? & _) _].
Qed.

(** A loop whose turns add values under a bound computes the sum. *)
Lemma try_for_sum (P : DynamicallyTypedData → Prop) (body : u128 → _ → result MoneyError u128) l acc x :
  (∀ acc d x, body acc d = Ok x ↔ P d ∧ (uval acc + coin_value ID d < 2 ^ 128)%N ∧
                            uval x = (uval acc + coin_value ID d)%N) →
  try_for l body acc = Ok x ↔
  Forall P l ∧ (uval acc + total ID l < 2 ^ 128)%N ∧ uval x = (uval acc + total ID l)%N.
Proof.
  intros Hb. unfold total. revert acc. induction l as [|d l IH]; intros acc; cbn [try_for map sumN].
  - rewrite Forall_nil, N.add_0_r. split.
    + intros [= ->]. split; [done|]. split; [apply uval_lt|done].
    + intros (_ & _ & E). f_equal. by apply uint_eq.
  - rewrite Forall_cons. destruct (body acc d) as [y|e] eqn:Hy.
    + apply Hb in Hy as (HP & Hlt & E). rewrite IH, E. split.
      * intros (? & ? & ->). split; [done|]. lia.
      * intros ((_ & ?) & ? & ?). split; [done|]. lia.
    + split; [done|]. intros ((HP & _) & Hlt & _).
      assert (body acc d = Ok (trunc 128 (uval acc + coin_value ID d))); [|congruence].
      apply Hb. split; [done|]. rewrite uval_trunc by lia. lia.
Qed.

Lemma check_minted_ok l :
  try_for l (check_minted (ID := ID)) tt = Ok tt ↔ Forall (positive_coin ID) l.
Proof.
  induction l as [|d l IH]; cbn [try_for]; [by rewrite Forall_nil|].
  rewrite Forall_cons, <-IH. unfold positive_coin.
  assert (check_minted (ID := ID) tt d = Ok tt ↔ ∃ n, coin_of ID d = Some n ∧ (0 < n)%N) as <-.
  { unfold check_minted. rewrite bind_ok. setoid_rewrite extract_value_ok.
    setoid_rewrite ensure_ok. setoid_rewrite N.ltb_lt. split.
    - intros (v & ? & ? & _). by exists (uval v).
    - intros (n & Hn & ?). assert (∃ v : u128, uval v = n) as [v <-]; [|by eauto].
      unfold coin_of in Hn. destruct (extract (Coin ID) d) as [c|]; [|done].
      simplify_eq. by eexists. }
  destruct (check_minted tt d) as [[]|e]; naive_solver.
Qed.

(** The spend path. *)
Lemma spend_ok i e p o prio :
  money_check (ID := ID) Spend i e p o = Ok prio ↔
  e = [] ∧ i ≠ [] ∧ Forall (is_coin ID) i ∧ Forall (positive_coin ID) o ∧
  (total ID i < 2 ^ 128)%N ∧ (total ID o ≤ total ID i)%N ∧
  uval prio = N.min (total ID i - total ID o) (2 ^ 64 - 1).
Proof.
  unfold money_check. rewrite !ensure_ok, bind_ok, !bool_decide_eq_true.
  setoid_rewrite bind_ok. setoid_rewrite (try_for_sum _ _ i _ _ add_input_ok).
  setoid_rewrite (try_for_sum _ _ o _ _ add_output_ok).
  setoid_rewrite ensure_ok. setoid_rewrite N.leb_le.
  change (uval (trunc 128 0)) with 0%N. rewrite !N.add_0_l.
  assert (∀ a b : u128, (uval b ≤ uval a)%N → ∀ r : u64,
    (if N.ltb (wrapping_sub a b) (uint_max 64)
     then trunc 64 (wrapping_sub a b) else uint_max 64) = r ↔
    uval r = N.min (uval a - uval b) (2 ^ 64 - 1)) as Hprio.
  { intros a b Hab r. rewrite uint_eq_iff, wrapping_sub_exact by done.
    change (uval (uint_max 64)) with (2 ^ 64 - 1)%N.
    destruct (N.ltb_spec (uval a - uval b) (2 ^ 64 - 1)) as [Hlt|Hge];
      [rewrite uval_trunc by lia; lia|change (uval (uint_max 64)) with (2 ^ 64 - 1)%N; lia]. }
  split.
  - intros (He & Hi & a & (Hci & Hlt & Ha) & b & (Hco & _ & Hb) & Hle & Hp).
    apply mret_ok, Hprio in Hp; [|done]. rewrite Ha, Hb in Hle, Hp.
    split; [done|]. split; [done|]. split; [done|]. by split.
  - intros (He & Hi & Hci & Hco & Hlt & Hle & Hp). split; [done|]. split; [done|].
    exists (trunc 128 (total ID i)). rewrite uval_trunc by done.
    split; [done|]. exists (trunc 128 (total ID o)). rewrite uval_trunc by lia.
    split; [split; [done|lia]|]. split; [done|]. apply mret_ok, Hprio; rewrite !uval_trunc by lia; [exact Hle|exact Hp].
Qed.

(** The mint path. *)
Lemma mint_ok i e p o prio :
  money_check (ID := ID) Mint i e p o = Ok prio ↔
  e = [] ∧ i = [] ∧ o ≠ [] ∧ Forall (positive_coin ID) o ∧ prio = trunc 64 0.
Proof.
  unfold money_check. rewrite !ensure_ok, bind_ok, !bool_decide_eq_true.
  setoid_rewrite <-check_minted_ok. split.
  - intros (? & ? & ? & [] & ? & [= <-]). done.
  - intros (? & ? & ? & ? & ->). split; [done|]. split; [done|]. split; [done|]. by exists tt.
Qed.

(** C20: When the money checker accepts.  A spend is accepted exactly when nothing is evicted,
    at least one coin comes in, everything that comes in and goes out is a coin
    of this token, no coin that goes out is worthless, the value that comes in
    does not overflow and at least covers the value that goes out; its
    priority is the value burned, capped at the largest [u64].  A mint is
    accepted exactly when nothing comes in or is evicted, something goes out,
    and everything that goes out is a coin of this token that is not
    worthless; nothing bounds the amount and its priority is zero. *)
Theorem money_check_spec self i e p o prio :
  money_check (ID := ID) self i e p o = Ok prio ↔
  e = [] ∧ Forall (positive_coin ID) o ∧
  match self with
  | Spend => i ≠ [] ∧ Forall (is_coin ID) i ∧ (total ID i < 2 ^ 128)%N ∧
             (total ID o ≤ total ID i)%N ∧
             uval prio = N.min (total ID i - total ID o) (2 ^ 64 - 1)
  | Mint => i = [] ∧ o ≠ [] ∧ uval prio = 0%N
  end.
Proof.
  destruct self; [rewrite spend_ok; naive_solver|].
  rewrite mint_ok, uint_eq_iff. change (uval (trunc 64 0)) with 0%N. naive_solver.
Qed.
End spec.

(** ** Conservation *)

Section conservation.
Context `{CoreLaws, Inherents, MoneyCodecs} {ID : u8} {V : Type} `{Verifier V}.
Context `{!LawfulCodec V}.
Implicit Types (s : storage) (L : ledger V).

(** All the coins of one token in a ledger. *)
Definition supply (ID : u8) L : N := weight (λ u, coin_value ID (payload u)) L.

Lemma worth_outputs_total (l : list (Output V)) :
  worth_outputs (λ u, coin_value ID (payload u)) l = total ID (map payload l).
Proof. unfold worth_outputs, total. by rewrite map_map. Qed.

(** One spend, on the ledger. *)
Lemma spend_balance {C} `{!ConstraintChecker C} L h (tx : Transaction V C) prio :
  accepted (L !!.) h tx → NoDup (map output_ref (inputs tx)) →
  money_check (ID := ID) Spend (inputs_of (L !!.) h tx) (evictions_of (L !!.) h tx)
    (peeks_of (L !!.) tx) (map payload (outputs tx)) = Ok prio →
  (supply ID (ledger_apply L tx) ≤ supply ID L)%N ∧
  ((N.of_nat (List.length (outputs tx)) ≤ 2 ^ 32)%N →
   (supply ID (ledger_apply L tx) + (total ID (inputs_of (L !!.) h tx) -
      total ID (map payload (outputs tx))) = supply ID L)%N).
Proof.
  intros Ha Hd (He & _ & _ & _ & _ & Hle & _)%spend_ok.
  pose proof (worth_inputs (coin_value ID) _ _ _ Ha) as Hw. rewrite He in Hw.
  pose proof (ledger_apply_weight_le (λ u, coin_value ID (payload u)) L _ Hd) as Hb.
  rewrite worth_outputs_total, Hw in Hb. fold (total ID (inputs_of (L !!.) h tx)) in Hb.
  unfold supply. split; [simpl in Hb; lia|]. intros Hn.
  pose proof (ledger_apply_weight (λ u, coin_value ID (payload u)) L _ _ Ha Hd Hn) as Hx.
  rewrite worth_outputs_total, Hw in Hx. fold (total ID (inputs_of (L !!.) h tx)) in Hx.
  simpl in Hx. lia.
Qed.

(** A spend conserves the token up to what it burns.  When a spend whose
    inputs name distinct outputs applies, the supply of the token shrinks by
    exactly the value of the inputs less the value of the outputs; no spend
    of this form creates money. *)
Theorem spend_conserves (tx : Transaction V (MoneyConstraintChecker ID)) s s' :
  apply_tuxedo_transaction tx s = Ret tt s' → checker tx = Spend →
  NoDup (map output_ref (inputs tx)) →
  (N.of_nat (List.length (outputs tx)) ≤ 2 ^ 32)%N →
  ∃ burned, (supply ID (ledger_of s') + burned = supply ID (ledger_of s))%N ∧
    (burned + total ID (map payload (outputs tx)) =
     total ID (inputs_of (ledger_of s !!.) (height_at s) tx))%N.
Proof.
  intros (Ha & [prio Hp] & ->)%pure_apply_ledger Hc Hd Hn. unfold verdict_on in Hp.
  rewrite Hc in Hp. cbn [verdict money_pure] in Hp.
  destruct (spend_balance _ _ _ _ Ha Hd Hp) as [_ Hb].
  eexists. split; [by apply Hb|]. apply spend_ok in Hp. lia.
Qed.

(** C21: Without that condition a spend can create money.  Whatever the verifier
    of a coin, a redeemer that satisfies it also satisfies it with a byte
    appended; a spend with the two inputs passes the duplicate check, is
    credited with the coin twice and may create a coin of twice the value. *)
Theorem double_redeemer_inflates s (h : u32) (o : OutputRef) (u : Output V) (x : Redeemer V)
    (v : u128) (owner : V) `{!LawfulCodec (Coin ID), !LawfulCodec (Redeemer V)} :
  let double := trunc 128 (2 * v) in
  let tx := mk_transaction
    [mk_input o (Redemption (scale_encode x)); mk_input o (Redemption (scale_encode x ++ [Byte.x00]))]
    [] [mk_output (typed_from (mk_coin (ID := ID) double)) owner] (Spend (ID := ID)) in
  (0 < v)%N → (2 * v < 2 ^ 128)%N → height_at s = Some h →
  utxo_at s o = Some u → coin_of ID (payload u) = Some (uval v) →
  verify (verifier u) (scale_encode (strip tx)) h x = Value true →
  utxo_at (V := V) s (out_ref tx 0) = None →
  ∃ s', apply_tuxedo_transaction tx s = Ret tt s' ∧
    supply ID (ledger_of s') = (supply ID (ledger_of s) + v)%N.
Proof.
  intros double tx Hv Hlt Hh Hu Hc Hver Hnew.
  assert (uval double = 2 * v)%N as Hdbl by (by apply uval_trunc).
  destruct (same_output_counted_twice (utxo_at s) h tx o (scale_encode x)
    (scale_encode x ++ [Byte.x00]) u x x) as (Ha & Hin & Hev); try done.
  { intros E. apply (f_equal List.length) in E. rewrite length_app in E. simpl in E. lia. }
  { apply decode_value_encode. }
  { apply decode_value_app. }
  { intros i Hi. assert (i = 0) as -> by (simpl in Hi; lia). done. }
  rewrite <-Hh in Ha, Hin, Hev.
  assert (coin_of ID (typed_from (mk_coin (ID := ID) double)) = Some (2 * v)%N) as Hco.
  { unfold coin_of. rewrite extract_from. by f_equal. }
  assert (∃ prio, money_check (ID := ID) Spend [payload u; payload u] [] []
                    [typed_from (mk_coin (ID := ID) double)] = Ok prio) as [prio Hp].
  { exists (trunc 64 0). apply spend_ok. unfold total. cbn [map sumN].
    unfold coin_value. rewrite Hc, Hco. cbn [default from_option id].
    repeat split; try done; try lia.
    - by repeat constructor; eexists.
    - constructor; [|constructor]. exists (2 * v)%N. split; [done|lia].
    - change (uval (trunc 64 0)) with 0%N. lia. }
  assert (apply_tuxedo_transaction tx s = Ret tt (storage_apply s tx)) as Hs.
  { apply apply_ret. split; [done|]. exists prio, s. split; [|done].
    unfold check_all. rewrite Hin, Hev.
    cbn [check simple_constraint_checker simple_check money_checker].
    apply lift_result_ret. split; [exact Hp|done]. }
  exists (storage_apply s tx). split; [done|].
  apply pure_apply_ledger in Hs as (_ & _ & ->).
  unfold supply. change (ledger_apply (ledger_of s) tx) with
    (<[out_ref tx 0 := mk_output (typed_from (mk_coin (ID := ID) double)) owner]>
      (delete o (delete o (ledger_of s)))).
  assert (ledger_of s !! o = Some u) as Hu' by (by rewrite <-represents_ledger_of).
  assert (ledger_of (V := V) s !! out_ref tx 0 = None) as Hnew'
    by (by rewrite <-represents_ledger_of).
  rewrite (delete_id (delete o _) o) by apply lookup_delete_eq.
  rewrite weight_insert by (rewrite lookup_delete; by case_decide).
  rewrite (weight_delete _ _ _ _ Hu'). unfold coin_value at 1 3. cbn [payload].
  rewrite Hc, Hco. cbn [default from_option id]. lia.
Qed.
End conservation.

(** ** Witnesses *)

Module Witnesses.
Import Sample.

#[export] Instance concrete_money : MoneyCodecs := {|
  codec_money ID := iso_codec (λ c, match c with Spend => false | Mint => true end)
                      (λ b : bool, if b then Mint else Spend);
  codec_coin ID := iso_codec coin_amount mk_coin |}.

#[export] Instance concrete_money_laws : MoneyLaws.
Proof. split; intros ID; apply iso_lawful; by intros []. Qed.

Definition token : u8 := trunc 8 0.
Definition coin (n : N) : Out :=
  mk_output (typed_from (mk_coin (ID := token) (trunc 128 n))) (mk_test_verifier true).

(** Two coins. *)
Definition purse : storage :=
  <[scale_encode (ref 0) := scale_encode (coin 7)]>
    (<[scale_encode (ref 1) := scale_encode (coin 8)]>
      {[HEIGHT_KEY := scale_encode (trunc 32 1)]}).

(** Both coins become one, and three are burned. *)
Definition merge : Transaction TestVerifier (MoneyConstraintChecker token) :=
  mk_transaction [spend (ref 0); spend (ref 1)] [] [coin 12] Spend.
Definition merged : storage :=
  match apply_tuxedo_transaction merge purse with Ret _ s => s | _ => ∅ end.

Lemma spend_conserves_witness :
  ∃ burned, (supply token (ledger_of (V := TestVerifier) merged) + burned =
             supply token (ledger_of (V := TestVerifier) purse))%N.
Proof.
  destruct (spend_conserves merge purse merged) as (burned & Hb & _);
    [by_vm|done|by_vm|done|]. exists burned. exact Hb.
Defined.

Lemma double_redeemer_inflates_witness :
  ∃ s' (tx : Transaction TestVerifier (MoneyConstraintChecker token)),
    apply_tuxedo_transaction (V := TestVerifier) tx purse = Ret tt s' ∧
    supply token (ledger_of (V := TestVerifier) s') =
    (supply token (ledger_of (V := TestVerifier) purse) + uval (trunc 128 7))%N.
Proof.
  destruct (double_redeemer_inflates (ID := token) purse (trunc 32 1) (ref 0) (coin 7)
    done_redeemer (trunc 128 7) (mk_test_verifier true)) as (s' & Hs & Hn);
    try by_vm. exists s'. eexists. split; [exact Hs|exact Hn].
Defined.
End Witnesses.
