(* ===== verification/LedgerInvariants.v ===== *)
(** * LedgerInvariants: what every transaction, block and chain preserves

    Two invariants of a whole ledger, for any aggregate of constraint checkers: the
    payloads satisfy a predicate that the checkers demand of outputs, and the supply
    of a token moves by its money piece alone.  An aggregate promises the one
    transaction ([DemandsOutputs], [TokenChecker]); the chains of its blocks follow. *)

From S2P Require Import Prelude Effects Scale Types Checker UtxoSet CheckerLaws Executive.
From S2P Require Import ExecutiveFacts Concrete Verifiers Samples Ledger Blocks Genesis Supply Money.

(** ** Chains of blocks *)

Section chains.
Context `{CoreLaws, !ScaleLaws, Inherents} {V C : Type} `{Verifier V, !ConstraintChecker C}.
Context `{!CheckerFrame C, !CheckerTransient C, !LawfulCodec V}.
Implicit Types (s : storage) (bs : list (Block V C)).

(** Blocks imported one after the other. *)
Definition import_all bs : M storage Empty_set unit := for_each bs (λ _ b, execute_block b) tt.

Lemma import_all_cons b bs s s' :
  import_all (b :: bs) s = Ret tt s' ↔
  ∃ s1, execute_block b s = Ret tt s1 ∧ import_all bs s1 = Ret tt s'.
Proof.
  unfold import_all. cbn [for_each]. rewrite bind_ret_inv. split.
  - intros ([] & s1 & Hb & Hbs). by exists s1.
  - intros (s1 & Hb & Hbs). by exists tt, s1.
Qed.

Lemma import_all_app bs bs' s s' :
  import_all (bs ++ bs') s = Ret tt s' ↔
  ∃ s1, import_all bs s = Ret tt s1 ∧ import_all bs' s1 = Ret tt s'.
Proof.
  unfold import_all. rewrite for_each_app. split.
  - intros ([] & s1 & ?). by exists s1.
  - intros (s1 & ?). by exists tt, s1.
Qed.

(** A block is its extrinsics, between two states with the ledgers of its ends. *)
Lemma execute_block_ledger (b : Block V C) s s' :
  execute_block b s = Ret tt s' →
  ∃ s1 s2, apply_all (extrinsics b) s1 = Ret tt s2 ∧
    ledger_of (V := V) s1 = ledger_of s ∧ ledger_of (V := V) s' = ledger_of s2.
Proof.
  intros (_ & (t & Ha & ->) & _)%execute_block_ret.
  exists (opened (header b) s), t. split; [done|]. unfold opened.
  rewrite ledger_of_delete by apply output_ref_key_header.
  by rewrite !ledger_of_insert by (apply output_ref_key_header || apply output_ref_key_height).
Qed.

(** The genesis applies its transactions to what is in the storage already. *)
Lemma build_ledger (l : list (Transaction V C)) s s' :
  build l s = Ret tt s' →
  Forall bare l ∧ ledger_of (V := V) (delete EXTRINSIC_KEY s') = ledger_run (ledger_of s) l.
Proof.
  intros (_ & Hb & ->)%build_ret. split; [done|].
  rewrite ledger_of_delete by apply output_ref_key_extrinsic.
  rewrite fold_apply_ledger. unfold prepared.
  by rewrite !ledger_of_insert by (apply output_ref_key_height || apply output_ref_key_extrinsic).
Qed.
End chains.

(** ** A predicate on every payload *)

(** The checkers accept outputs of this form only. *)
Class DemandsOutputs (P : DynamicallyTypedData → Prop) (C : Type)
    `{CoreCodecs, Inherents, !ConstraintChecker C} : Prop :=
  demands_outputs (c : C) i e p o (s : storage) prio s' : check c i e p o s = Ret prio s' → Forall P o.

Section payloads.
Context `{CoreLaws, !ScaleLaws, Inherents} {V C : Type} `{Verifier V, !ConstraintChecker C}.
Context `{!CheckerFrame C, !CheckerTransient C, !LawfulCodec V}.
Context (P : DynamicallyTypedData → Prop) `{!DemandsOutputs P C}.
Implicit Types (s : storage) (L : ledger V) (tx : Transaction V C) (l : list (Transaction V C)).

Definition holds_of L : Prop := map_Forall (λ _ u, P (payload u)) L.
Definition outputs_hold tx : Prop := Forall P (map payload (outputs tx)).

Lemma ledger_consume_holds L (l : list Input) : holds_of L → holds_of (ledger_consume L l).
Proof.
  unfold ledger_consume. revert L. induction l as [|i l IH]; intros L HL; [done|].
  cbn [fold_left]. apply IH. by apply map_Forall_delete.
Qed.

Lemma ledger_apply_holds L tx : holds_of L → outputs_hold tx → holds_of (ledger_apply L tx).
Proof.
  intros HL Ho. unfold ledger_apply, ledger_create.
  apply (ledger_consume_holds _ (inputs tx)) in HL. revert HL.
  generalize (ledger_consume L (inputs tx)). unfold outputs_hold in Ho. rewrite Forall_map in Ho.
  assert (Forall (λ p : nat * Output V, P (payload p.2)) (enumerate (outputs tx))) as He.
  { apply Forall_forall. intros [i u] Hi%elem_of_enumerate. by eapply Forall_lookup_1 in Ho. }
  clear Ho. induction He as [|p l Hp _ IH]; intros M HM; [done|].
  cbn [fold_left]. apply IH. by apply map_Forall_insert_2.
Qed.

Lemma ledger_run_holds L l : holds_of L → Forall outputs_hold l → holds_of (ledger_run L l).
Proof.
  intros HL Hl. revert L HL. induction Hl as [|tx l Htx _ IH]; intros L HL; [done|].
  by apply IH, ledger_apply_holds.
Qed.

Lemma apply_outputs_hold tx s s' : apply_tuxedo_transaction tx s = Ret tt s' → outputs_hold tx.
Proof.
  intros Hs. destruct (apply_ret_ledger _ _ _ _ (represents_ledger_of s) Hs) as (_ & (p & s1 & Hc) & _).
  exact (demands_outputs _ _ _ _ _ _ _ _ Hc).
Qed.

Lemma apply_all_outputs_hold l s s' : apply_all l s = Ret tt s' → Forall outputs_hold l.
Proof.
  revert s. induction l as [|tx l IH]; intros s Hl; [constructor|].
  unfold apply_all in Hl. cbn [for_each] in Hl. apply bind_ret_inv in Hl as ([] & s1 & Ha & Hl).
  constructor; [by eapply apply_outputs_hold|by eapply IH].
Qed.

Lemma execute_block_holds (b : Block V C) s s' :
  execute_block b s = Ret tt s' → holds_of (ledger_of s) → holds_of (ledger_of s').
Proof.
  intros (s1 & s2 & Ha & <- & ->)%execute_block_ledger HL. rewrite (apply_all_ledger _ _ _ Ha).
  apply ledger_run_holds; [done|]. by eapply apply_all_outputs_hold.
Qed.

Lemma import_all_holds (bs : list (Block V C)) s s' :
  import_all bs s = Ret tt s' → holds_of (ledger_of s) → holds_of (ledger_of s').
Proof.
  revert s. induction bs as [|b bs IH]; intros s Hb HL; [by injection Hb as <-|].
  apply import_all_cons in Hb as (s1 & Hb & Hbs). eapply IH; [exact Hbs|].
  by eapply execute_block_holds.
Qed.
End payloads.

(** ** The supply of a token *)

(** The checkers of the money piece, and all others, which accept no coin of the
    token on either side. *)
Class TokenChecker (ID : u8) (C : Type)
    `{CoreCodecs, Inherents, !MoneyCodecs, !ConstraintChecker C} : Type := {
  money_of : C → option (MoneyConstraintChecker ID);
  money_of_check c i e p o (s : storage) prio s' :
    check c i e p o s = Ret prio s' →
    match money_of c with
    | Some m => money_check m i e p o = Ok prio
    | None => Forall (λ d, coin_of ID d = None) i ∧ Forall (λ d, coin_of ID d = None) e ∧
              Forall (λ d, coin_of ID d = None) o
    end;
}.

Section token.
Context `{CoreLaws, !ScaleLaws, Inherents, !MoneyCodecs} {ID : u8} {V C : Type}.
Context `{Verifier V, !ConstraintChecker C, !CheckerFrame C, !CheckerTransient C}.
Context `{!LawfulCodec V, !TokenChecker ID C}.
Implicit Types (s : storage) (tx : Transaction V C) (l : list (Transaction V C)).

(** All the coins in a storage. *)
Definition coins s : N := supply ID (ledger_of (V := V) s).

(** What the money piece is worth to the supply: the value of the outputs, less
    that of everything consumed. *)
Definition created tx : N := total ID (map payload (outputs tx)).
Definition redeemed s tx : N :=
  total ID (inputs_of (ledger_of (V := V) s !!.) (height_at s) tx).

(** What a transaction mints, and the transactions that name no output twice. *)
Definition minted tx : N :=
  match money_of (checker tx) with Some Mint => created tx | _ => 0 end.
Definition names_distinct tx : Prop :=
  NoDup (map output_ref (inputs tx)) ∧ (N.of_nat (List.length (outputs tx)) ≤ 2 ^ 32)%N.

Lemma total_foreign (l : list DynamicallyTypedData) :
  Forall (λ d, coin_of ID d = None) l → total ID l = 0%N.
Proof.
  unfold total. induction 1 as [|d l Hd _ IH]; [done|]. cbn [map sumN].
  unfold coin_value at 1. by rewrite Hd, IH.
Qed.

(** One transaction, whatever its variant. *)
Lemma apply_supply tx s s' :
  apply_tuxedo_transaction tx s = Ret tt s' → names_distinct tx →
  (coins s' + redeemed s tx = coins s + created tx)%N ∧
  match money_of (checker tx) with
  | Some Spend => (created tx ≤ redeemed s tx)%N
  | Some Mint => redeemed s tx = 0%N
  | None => created tx = 0%N ∧ redeemed s tx = 0%N
  end.
Proof.
  intros Hs [Hd Hn]. unfold coins, redeemed. pose proof (apply_ledger _ _ _ Hs) as ->.
  destruct (apply_ret_ledger _ _ _ _ (represents_ledger_of s) Hs) as (Ha & (p & s1 & Hc) & _).
  set (L := ledger_of (V := V) s) in *.
  pose proof (ledger_apply_weight (λ u, coin_value ID (payload u)) _ _ _ Ha Hd Hn) as Hw.
  rewrite (worth_inputs (coin_value ID) _ _ _ Ha), worth_outputs_total in Hw.
  fold (supply ID (ledger_apply L tx)) (created tx) (supply ID L)
    (total ID (inputs_of (L !!.) (height_at s) tx))
    (total ID (evictions_of (L !!.) (height_at s) tx)) in Hw.
  apply money_of_check in Hc. destruct (money_of (checker tx)) as [[]|].
  - apply spend_ok in Hc as (He & _ & _ & _ & _ & Hle & _). rewrite He in Hw.
    split; [by rewrite N.add_0_r in Hw|exact Hle].
  - apply mint_ok in Hc as (He & Hi & _). rewrite He in Hw.
    split; [by rewrite N.add_0_r in Hw|]. by rewrite Hi.
  - destruct Hc as (Hi & He & Ho). rewrite (total_foreign _ He), N.add_0_r in Hw.
    split; [exact Hw|]. split; by apply total_foreign.
Qed.

Lemma apply_supply_le tx s s' :
  apply_tuxedo_transaction tx s = Ret tt s' → names_distinct tx →
  (coins s' ≤ coins s + minted tx)%N.
Proof.
  intros Hs Hd. destruct (apply_supply _ _ _ Hs Hd) as [Hb Hc]. unfold minted.
  destruct (money_of (checker tx)) as [[]|]; lia.
Qed.

Lemma apply_all_supply l s s' :
  apply_all l s = Ret tt s' → Forall names_distinct l →
  (coins s' ≤ coins s + sumN (map minted l))%N.
Proof.
  revert s. induction l as [|tx l IH]; intros s Hl Hd; [injection Hl as <-; simpl; lia|].
  unfold apply_all in Hl. cbn [for_each] in Hl. apply bind_ret_inv in Hl as ([] & s1 & Ha & Hl).
  apply Forall_cons in Hd as [Hd Hds]. pose proof (apply_supply_le _ _ _ Ha Hd).
  pose proof (IH _ Hl Hds). cbn [map sumN]. lia.
Qed.

Lemma execute_block_supply (b : Block V C) s s' :
  execute_block b s = Ret tt s' → Forall names_distinct (extrinsics b) →
  (coins s' ≤ coins s + sumN (map minted (extrinsics b)))%N.
Proof.
  intros (s1 & s2 & Ha & E1 & E2)%execute_block_ledger Hd.
  pose proof (apply_all_supply _ _ _ Ha Hd) as Hc. unfold coins in *. by rewrite <-E1, E2.
Qed.

Lemma import_all_supply (bs : list (Block V C)) s s' :
  import_all bs s = Ret tt s' → Forall (λ b, Forall names_distinct (extrinsics b)) bs →
  (coins s' ≤ coins s + sumN (map minted (concat (map extrinsics bs))))%N.
Proof.
  revert s. induction bs as [|b bs IH]; intros s Hb Hd; [injection Hb as <-; simpl; lia|].
  apply import_all_cons in Hb as (s1 & Hb & Hbs). apply Forall_cons in Hd as [Hd Hds].
  pose proof (execute_block_supply _ _ _ Hb Hd). pose proof (IH _ Hbs Hds).
  cbn [map concat]. rewrite map_app, sumN_app. lia.
Qed.

(** Transactions without inputs only add their outputs, as those of a genesis. *)
Lemma ledger_run_supply_le (L : ledger V) l :
  Forall bare l → (supply ID (ledger_run L l) ≤ supply ID L + sumN (map created l))%N.
Proof.
  intros Hl. revert L. induction Hl as [|tx l [Hi _] _ IH]; intros L; [simpl; lia|].
  cbn [ledger_run map sumN]. pose proof (IH (ledger_apply L tx)) as Hr.
  pose proof (ledger_apply_weight_le (λ u, coin_value ID (payload u)) L tx) as Hw.
  rewrite Hi, worth_outputs_total in Hw. specialize (Hw ltac:(constructor)).
  unfold supply, created in *. lia.
Qed.

Lemma build_supply_le l s s' :
  build l s = Ret tt s' →
  (coins (delete EXTRINSIC_KEY s') ≤ coins s + sumN (map created l))%N.
Proof.
  intros (Hl & E)%build_ledger. unfold coins. rewrite E. by apply ledger_run_supply_le.
Qed.
End token.
