(* ===== verification/Amoeba.v ===== *)
(** * Amoeba: creation, death and mitosis

    Models [wardrobe/amoeba/src/lib.rs]: the three constraint checkers of the
    amoeba piece.  [generation + 1] wraps, as the release profile compiles it. *)

From S2P Require Import Prelude Effects Scale Types Checker UtxoSet CheckerLaws Executive.
From S2P Require Import ExecutiveFacts Concrete Verifiers Samples Ledger Supply.

Record AmoebaDetails : Type := mk_amoeba {
  generation : u32;
  four_bytes : bytesN 4;
}.

Inductive AmoebaError : Type :=
| AmoebaBadlyTypedInput
| AmoebaBadlyTypedOutput
| AmoebaNoEvictionsAllowed
| CreatedNothing
| CreatedTooMany
| CreationMayNotConsume
| NoVictim
| TooManyVictims
| DeathMayNotCreate
| WrongNumberOfDaughters
| WrongNumberOfMothers
| WrongGeneration.

Inductive AmoebaMitosis : Type := amoeba_mitosis.
Inductive AmoebaDeath : Type := amoeba_death.
Inductive AmoebaCreation : Type := amoeba_creation.

Class AmoebaCodecs : Type := {
  codec_amoeba :: Codec AmoebaDetails;
  codec_mitosis :: Codec AmoebaMitosis;
  codec_death :: Codec AmoebaDeath;
  codec_creation :: Codec AmoebaCreation;
}.

Section amoeba.
Context `{CoreCodecs, Inherents, AmoebaCodecs}.

(** [impl UtxoData for AmoebaDetails] *)
#[export] Instance amoeba_utxo_data : UtxoData AmoebaDetails := to_bytesN 4 (bstr "amoe").

Definition one : u32 := trunc 32 1.

(** [AmoebaMitosis::check] *)
Definition mitosis_check (_ : AmoebaMitosis)
    (input_data evicted_input_data _peeks output_data : list DynamicallyTypedData) :
    result AmoebaError u64 :=
  ensure! bool_decide (evicted_input_data = []) else AmoebaNoEvictionsAllowed;
  match input_data with
  | [input] =>
    mother ← map_err (λ _, AmoebaBadlyTypedInput) (extract AmoebaDetails input);
    match output_data with
    | [output1; output2] =>
      first_daughter ← map_err (λ _, AmoebaBadlyTypedOutput) (extract AmoebaDetails output1);
      second_daughter ← map_err (λ _, AmoebaBadlyTypedOutput) (extract AmoebaDetails output2);
      ensure! bool_decide (generation first_daughter = wrapping_add (generation mother) one)
        else WrongGeneration;
      ensure! bool_decide (generation second_daughter = wrapping_add (generation mother) one)
        else WrongGeneration;
      mret (trunc 64 0)
    | _ => mthrow WrongNumberOfDaughters
    end
  | _ => mthrow WrongNumberOfMothers
  end.

(** [AmoebaDeath::check] *)
Definition death_check (_ : AmoebaDeath)
    (input_data evicted_input_data _peeks output_data : list DynamicallyTypedData) :
    result AmoebaError u64 :=
  ensure! bool_decide (evicted_input_data = []) else AmoebaNoEvictionsAllowed;
  match input_data with
  | [] => mthrow NoVictim
  | [input] =>
    _victim ← map_err (λ _, AmoebaBadlyTypedInput) (extract AmoebaDetails input);
    ensure! bool_decide (output_data = []) else DeathMayNotCreate;
    mret (trunc 64 0)
  | _ => mthrow TooManyVictims
  end.

(** [AmoebaCreation::check] *)
Definition creation_check (_ : AmoebaCreation)
    (input_data evicted_input_data _peeks output_data : list DynamicallyTypedData) :
    result AmoebaError u64 :=
  ensure! bool_decide (evicted_input_data = []) else AmoebaNoEvictionsAllowed;
  match output_data with
  | [] => mthrow CreatedNothing
  | [output] =>
    eve ← map_err (λ _, AmoebaBadlyTypedOutput) (extract AmoebaDetails output);
    ensure! bool_decide (generation eve = trunc 32 0) else WrongGeneration;
    ensure! bool_decide (input_data = []) else CreationMayNotConsume;
    mret (trunc 64 0)
  | _ => mthrow CreatedTooMany
  end.

#[export] Instance mitosis_checker : SimpleConstraintChecker AmoebaMitosis := {|
  SimpleError := AmoebaError;
  simple_check St _ self i e p o := lift_result (mitosis_check self i e p o) |}.
#[export] Instance death_checker : SimpleConstraintChecker AmoebaDeath := {|
  SimpleError := AmoebaError;
  simple_check St _ self i e p o := lift_result (death_check self i e p o) |}.
#[export] Instance creation_checker : SimpleConstraintChecker AmoebaCreation := {|
  SimpleError := AmoebaError;
  simple_check St _ self i e p o := lift_result (creation_check self i e p o) |}.

#[export] Instance mitosis_pure : PureChecker AmoebaMitosis.
Proof. by exists mitosis_check. Defined.
#[export] Instance death_pure : PureChecker AmoebaDeath.
Proof. by exists death_check. Defined.
#[export] Instance creation_pure : PureChecker AmoebaCreation.
Proof. by exists creation_check. Defined.

(** ** The life cycle *)

Definition amoeba_of (d : DynamicallyTypedData) : option AmoebaDetails :=
  ok (extract AmoebaDetails d).

Lemma extract_amoeba e d a :
  map_err (λ _, e) (extract AmoebaDetails d) = (Ok a : result AmoebaError _) ↔
  amoeba_of d = Some a.
Proof. unfold amoeba_of. destruct (extract _ d); naive_solver. Qed.

Lemma mitosis_ok c i e p o prio :
  mitosis_check c i e p o = Ok prio ↔
  e = [] ∧ prio = trunc 64 0 ∧ ∃ di d1 d2 mother first second,
    i = [di] ∧ o = [d1; d2] ∧ amoeba_of di = Some mother ∧
    amoeba_of d1 = Some first ∧ amoeba_of d2 = Some second ∧
    generation first = wrapping_add (generation mother) one ∧
    generation second = wrapping_add (generation mother) one.
Proof.
  unfold mitosis_check. rewrite ensure_ok, bool_decide_eq_true.
  destruct i as [|di [|? ?]]; [split; naive_solver| |split; naive_solver].
  rewrite bind_ok. setoid_rewrite extract_amoeba.
  destruct o as [|d1 [|d2 [|? ?]]]; [split; naive_solver..| |split; naive_solver].
  setoid_rewrite bind_ok. setoid_rewrite extract_amoeba. setoid_rewrite bind_ok.
  setoid_rewrite extract_amoeba. setoid_rewrite ensure_ok. setoid_rewrite ensure_ok.
  setoid_rewrite bool_decide_eq_true. setoid_rewrite mret_ok. split; naive_solver.
Qed.

Lemma death_ok c i e p o prio :
  death_check c i e p o = Ok prio ↔
  e = [] ∧ o = [] ∧ prio = trunc 64 0 ∧ ∃ di victim, i = [di] ∧ amoeba_of di = Some victim.
Proof.
  unfold death_check. rewrite ensure_ok, bool_decide_eq_true.
  destruct i as [|di [|? ?]]; [split; naive_solver| |split; naive_solver].
  rewrite bind_ok. setoid_rewrite extract_amoeba. setoid_rewrite ensure_ok.
  setoid_rewrite bool_decide_eq_true. setoid_rewrite mret_ok. split; naive_solver.
Qed.

Lemma creation_ok c i e p o prio :
  creation_check c i e p o = Ok prio ↔
  e = [] ∧ i = [] ∧ prio = trunc 64 0 ∧
  ∃ d eve, o = [d] ∧ amoeba_of d = Some eve ∧ generation eve = trunc 32 0.
Proof.
  unfold creation_check. rewrite ensure_ok, bool_decide_eq_true.
  destruct o as [|d [|? ?]]; [split; naive_solver| |split; naive_solver].
  rewrite bind_ok. setoid_rewrite extract_amoeba. setoid_rewrite ensure_ok.
  setoid_rewrite ensure_ok. setoid_rewrite bool_decide_eq_true. setoid_rewrite mret_ok.
  split; naive_solver.
Qed.
End amoeba.

Section population.
Context `{CoreLaws, Inherents, AmoebaCodecs} {V C : Type} `{Verifier V, !ConstraintChecker C}.
Implicit Types (L : ledger V) (tx : Transaction V C).

Definition amoeba_count (d : DynamicallyTypedData) : N :=
  match amoeba_of d with Some _ => 1 | None => 0 end.
Definition population L : N := weight (λ u, amoeba_count (payload u)) L.

(** Mitosis.  It is accepted exactly when nothing is evicted, one amoeba is consumed and two
    are created, each one generation after the mother; after the last generation a
    [u32] can hold comes generation zero again. *)
Theorem mitosis_generations c i e p o prio :
  mitosis_check c i e p o = Ok prio ↔
  e = [] ∧ prio = trunc 64 0 ∧ ∃ mother first second,
    omap amoeba_of i = [mother] ∧ List.length i = 1 ∧
    omap amoeba_of o = [first; second] ∧ List.length o = 2 ∧
    let next := if decide (generation mother = uint_max 32) then 0%N
                else (generation mother + 1)%N in
    uval (generation first) = next ∧ uval (generation second) = next.
Proof.
  assert (∀ a b : u32, a = wrapping_add b one ↔
    uval a = if decide (b = uint_max 32) then 0%N else (uval b + 1)%N) as Hgen.
  { intros a b. rewrite uint_eq_iff. unfold wrapping_add.
    change (uval one) with 1%N. pose proof (uval_lt b). case_decide as Hb.
    - subst. done.
    - assert (uval b ≠ 2 ^ 32 - 1)%N.
      { intros E. apply Hb, uint_eq. by rewrite E. }
      by rewrite uval_trunc by lia. }
  rewrite mitosis_ok. split.
  - intros (-> & -> & di & d1 & d2 & m & f & s & -> & -> & Hm & Hf & Hs & Hg1 & Hg2).
    split; [done|]. split; [done|]. exists m, f, s. cbn [omap list_omap].
    rewrite Hm, Hf, Hs. cbv zeta. by rewrite <-!Hgen.
  - intros (-> & -> & m & f & s & Hi & Hli & Ho & Hlo & Hg1 & Hg2).
    destruct i as [|di [|? ?]]; [done| |done]. destruct o as [|d1 [|d2 [|? ?]]]; try done.
    cbn [omap list_omap] in Hi, Ho.
    destruct (amoeba_of di) eqn:?, (amoeba_of d1) eqn:?, (amoeba_of d2) eqn:?; simplify_eq.
    split; [done|]. split; [done|]. eexists di, d1, d2, m, f, s. rewrite !Hgen. done.
Qed.

(** The population moves with the life cycle: a transaction the creation or
    mitosis checker accepts adds one amoeba to the ledger, one that the death checker accepts
    removes one (inputs naming distinct outputs). *)
Theorem amoeba_population L h tx prio :
  let i := inputs_of (L !!.) h tx in let e := evictions_of (L !!.) h tx in
  let p := peeks_of (L !!.) tx in let o := map payload (outputs tx) in
  accepted (L !!.) h tx → NoDup (map output_ref (inputs tx)) →
  (N.of_nat (List.length (outputs tx)) ≤ 2 ^ 32)%N →
  (creation_check amoeba_creation i e p o = Ok prio →
   population (ledger_apply L tx) = (population L + 1)%N) ∧
  (mitosis_check amoeba_mitosis i e p o = Ok prio →
   population (ledger_apply L tx) = (population L + 1)%N) ∧
  (death_check amoeba_death i e p o = Ok prio →
   (population (ledger_apply L tx) + 1)%N = population L).
Proof.
  intros i e p o Ha Hd Hn.
  pose proof (ledger_apply_weight (λ u, amoeba_count (payload u)) _ _ _ Ha Hd Hn) as Hw.
  rewrite (worth_inputs amoeba_count _ _ _ Ha) in Hw. fold (i) (e) in Hw.
  unfold worth_outputs in Hw. rewrite <-(map_map payload amoeba_count) in Hw. fold o in Hw.
  fold (population (ledger_apply L tx)) (population L) in Hw. unfold amoeba_count in Hw.
  split; [|split].
  - intros (He & Hi & _ & d & eve & Ho & Hv & _)%creation_ok.
    rewrite He, Hi, Ho in Hw. cbn [map sumN] in Hw. rewrite Hv in Hw. lia.
  - intros (He & _ & di & d1 & d2 & m & f & s & Hi & Ho & Hm & Hf & Hs & _)%mitosis_ok.
    rewrite He, Hi, Ho in Hw. cbn [map sumN] in Hw. rewrite Hm, Hf, Hs in Hw. lia.
  - intros (He & Ho & _ & di & v & Hi & Hv)%death_ok.
    rewrite He, Hi, Ho in Hw. cbn [map sumN] in Hw. rewrite Hv in Hw. lia.
Qed.
End population.

(** ** Witnesses *)

Module Witnesses.
Import Sample.

#[export] Instance concrete_amoeba : AmoebaCodecs := {|
  codec_amoeba := iso_codec (λ a, (generation a, four_bytes a)) (λ p, mk_amoeba p.1 p.2);
  codec_mitosis := nil_codec amoeba_mitosis;
  codec_death := nil_codec amoeba_death;
  codec_creation := nil_codec amoeba_creation |}.

(** The creation of an eve on an empty ledger. *)
Definition create_eve : Transaction TestVerifier AmoebaCreation :=
  mk_transaction [] []
    [mk_output (typed_from (mk_amoeba (trunc 32 0) (to_bytesN 4 []))) (mk_test_verifier true)]
    amoeba_creation.

Lemma amoeba_population_witness :
  population (ledger_apply (∅ : ledger TestVerifier) create_eve) = 1%N.
Proof.
  destruct (amoeba_population (∅ : ledger TestVerifier) None create_eve (trunc 64 0))
    as [Hc _]; [apply no_failure; by_vm|constructor|done|].
  rewrite Hc; by_vm.
Defined.
End Witnesses.
