(* ===== verification/Poe.v ===== *)
(** * Poe: proof of existence

    Models [wardrobe/poe/src/lib.rs]: claims, revocations and disputes.  The
    block height a claim is compared with comes from the runtime's
    configuration ([PoeConfig]). *)

From S2P Require Import Prelude Effects Scale Types Checker UtxoSet CheckerLaws Executive Simulation.
From S2P Require Import ExecutiveFacts Concrete Verifiers Samples Ledger Supply.

Record ClaimData : Type := mk_claim {
  claim : H256;
  effective_height : u32;
}.

Inductive PoeError : Type :=
| WrongNumberInputs
| WrongNumberOutputs
| BadlyTypedInput
| BadlyTypedOutput
| EffectiveHeightInPast
| DisputingMismatchedClaims
| IncorrectDisputeWinner.

Inductive PoeClaim : Type := poe_claim.
Inductive PoeRevoke : Type := poe_revoke.
Inductive PoeDispute : Type := poe_dispute.

Class PoeCodecs : Type := {
  codec_claim_data :: Codec ClaimData;
  codec_poe_claim :: Codec PoeClaim;
  codec_poe_revoke :: Codec PoeRevoke;
  codec_poe_dispute :: Codec PoeDispute;
}.

(** [trait PoeConfig]: the current block height, read from the storage. *)
Class PoeConfig : Type := poe_block_height : ∀ {St} `{!Store St} E, M St E u32.

(** It only reads what the executive's checkers may read. *)
Class PoeConfigLaws `{CoreCodecs} `{PoeConfig} : Prop := {
  poe_height_frame E : leaves same_protected (poe_block_height E);
  poe_height_respects E : respects transient_equiv (poe_block_height E);
  poe_height_reads E (s : storage) a s' : poe_block_height E s = Ret a s' → s' = s;
  poe_height_uniform {S1 S2} `{!Store S1, !Store S2}
    (sim : ∀ E A, M S1 E A → M S2 E A → Prop) `{!Simulation sim} E :
    sim E _ (poe_block_height E) (poe_block_height E);
}.

Section poe.
Context `{CoreCodecs, Inherents, PoeCodecs, PoeConfig}.

(** [impl UtxoData for ClaimData] *)
#[export] Instance claim_utxo_data : UtxoData ClaimData := to_bytesN 4 (bstr "poe_").

(** One turn of the loop over the claimed outputs. *)
Definition check_claim {St} `{!Store St} (_ : unit) (untyped_output : DynamicallyTypedData) :
    M St PoeError unit :=
  output ← lift_result (map_err (λ _, BadlyTypedOutput) (extract ClaimData untyped_output));
  height ← poe_block_height PoeError;
  ensure! N.leb (uval height) (uval (effective_height output)) else EffectiveHeightInPast;
  mret tt.

(** [PoeClaim::check] *)
Definition claim_check {St} `{!Store St} (_ : PoeClaim)
    (input_data evicted_input_data _peeks output_data : list DynamicallyTypedData) :
    M St PoeError u64 :=
  ensure! bool_decide (input_data = []) else WrongNumberInputs;
  ensure! bool_decide (evicted_input_data = []) else WrongNumberInputs;
  for_each output_data check_claim tt;;
  mret (trunc 64 0).

(** [PoeRevoke::check] *)
Definition check_revoked (_ : unit) (untyped_input : DynamicallyTypedData) :
    result PoeError unit :=
  _claim ← map_err (λ _, BadlyTypedInput) (extract ClaimData untyped_input);
  mret tt.

Definition revoke_check (_ : PoeRevoke)
    (input_data evicted_input_data _peeks output_data : list DynamicallyTypedData) :
    result PoeError u64 :=
  ensure! bool_decide (evicted_input_data = []) else WrongNumberInputs;
  ensure! bool_decide (output_data = []) else WrongNumberOutputs;
  try_for input_data check_revoked tt;;
  mret (trunc 64 0).

(** [PoeDispute::check] *)
Definition check_loser (winner : ClaimData) (_ : unit) (untyped_loser : DynamicallyTypedData) :
    result PoeError unit :=
  loser ← map_err (λ _, BadlyTypedInput) (extract ClaimData untyped_loser);
  ensure! bool_decide (claim winner = claim loser) else DisputingMismatchedClaims;
  ensure! N.ltb (uval (effective_height winner)) (uval (effective_height loser))
    else IncorrectDisputeWinner;
  mret tt.

Definition dispute_check (_ : PoeDispute)
    (input_data evicted_input_data peek_data output_data : list DynamicallyTypedData) :
    result PoeError u64 :=
  ensure! bool_decide (input_data = []) else WrongNumberInputs;
  ensure! bool_decide (output_data = []) else WrongNumberOutputs;
  first ← ok_or (head peek_data) WrongNumberInputs;
  winner ← map_err (λ _, BadlyTypedInput) (extract ClaimData first);
  try_for evicted_input_data (check_loser winner) tt;;
  mret (trunc 64 0).

#[export] Instance claim_checker : SimpleConstraintChecker PoeClaim := {|
  SimpleError := PoeError; simple_check St _ := claim_check |}.
#[export] Instance revoke_checker : SimpleConstraintChecker PoeRevoke := {|
  SimpleError := PoeError;
  simple_check St _ self i e p o := lift_result (revoke_check self i e p o) |}.
#[export] Instance dispute_checker : SimpleConstraintChecker PoeDispute := {|
  SimpleError := PoeError;
  simple_check St _ self i e p o := lift_result (dispute_check self i e p o) |}.

#[export] Instance revoke_pure : PureChecker PoeRevoke.
Proof. by exists revoke_check. Defined.
#[export] Instance dispute_pure : PureChecker PoeDispute.
Proof. by exists dispute_check. Defined.

#[export] Instance claim_frame `{!PoeConfigLaws} : CheckerFrame PoeClaim.
Proof.
  intros c i e p o. cbn [check simple_constraint_checker simple_check claim_checker].
  unfold claim_check, check_claim. pose proof poe_height_frame. solve_leaves.
Qed.

#[export] Instance claim_transient `{!PoeConfigLaws} : CheckerTransient PoeClaim.
Proof.
  intros c i e p o. cbn [check simple_constraint_checker simple_check claim_checker].
  unfold claim_check, check_claim. pose proof poe_height_respects. solve_respects.
Qed.

#[export] Instance claim_uniform `{!PoeConfigLaws} : UniformChecker PoeClaim.
Proof.
  intros S1 S2 ? ? sim ? c i e p o. cbn [check simple_constraint_checker simple_check claim_checker].
  unfold claim_check, check_claim. pose proof (poe_height_uniform sim). solve_sim.
Qed.
End poe.

(** ** When the checkers accept *)

Section spec.
Context `{CoreCodecs, Inherents, PoeCodecs, PoeConfig}.
Implicit Types (s : storage).

Definition claim_of (d : DynamicallyTypedData) : option ClaimData := ok (extract ClaimData d).

Lemma extract_claim e d c :
  map_err (λ _, e) (extract ClaimData d) = (Ok c : result PoeError _) ↔ claim_of d = Some c.
Proof. unfold claim_of. destruct (extract _ d); naive_solver. Qed.

(** A claim that is not backdated. *)
Definition timely (h : u32) (d : DynamicallyTypedData) : Prop :=
  ∃ c, claim_of d = Some c ∧ (h ≤ effective_height c)%N.

Lemma check_claim_ok h d s s' :
  (∀ E, poe_block_height E s = Ret h s) →
  check_claim tt d s = Ret tt s' ↔ timely h d ∧ s' = s.
Proof.
  intros Hh. unfold check_claim, timely. rewrite bind_ret_inv. split.
  - intros (c & s1 & [Hc ->]%lift_result_ret & Hr). apply extract_claim in Hc.
    apply bind_ret_inv in Hr as (h' & s1 & Hh' & Hr). rewrite Hh in Hh'. simplify_eq.
    destruct (N.leb_spec (uval h') (uval (effective_height c))); [|done].
    injection Hr as <-. split; [|done]. by exists c.
  - intros [(c & Hc & Hle) ->]. exists c, s. rewrite lift_result_ret, extract_claim.
    split; [done|]. apply bind_ret_inv. exists h, s. split; [done|].
    by rewrite (proj2 (N.leb_le _ _)).
Qed.

(** Whatever the height, what is registered are claims. *)
Lemma claim_outputs c i e p o s prio s' :
  claim_check c i e p o s = Ret prio s' →
  i = [] ∧ e = [] ∧ Forall (λ d, is_Some (claim_of d)) o.
Proof.
  unfold claim_check. case_bool_decide; [|done]. case_bool_decide; [|done].
  intros (u & s1 & Hl & _)%bind_ret_inv. split; [done|]. split; [done|]. clear -Hl. destruct u.
  revert s Hl. induction o as [|d o IH]; intros s Hl; [constructor|].
  cbn [for_each] in Hl. apply bind_ret_inv in Hl as ([] & s2 & Hd & Hl).
  constructor; [|by eapply IH]. unfold check_claim in Hd.
  apply bind_ret_inv in Hd as (cl & s3 & [Hc _]%lift_result_ret & _).
  apply extract_claim in Hc. by eexists.
Qed.

Lemma revoke_ok c i e p o prio :
  revoke_check c i e p o = Ok prio →
  e = [] ∧ o = [] ∧ Forall (λ d, is_Some (claim_of d)) i.
Proof.
  unfold revoke_check. rewrite !ensure_ok, !bool_decide_eq_true.
  intros (-> & -> & ([] & Hl & _)%bind_ok). split; [done|]. split; [done|].
  induction i as [|d i IH]; [constructor|]. cbn [try_for] in Hl.
  destruct (check_revoked tt d) as [[]|] eqn:Hd; [|done]. constructor; [|by apply IH].
  unfold check_revoked in Hd. apply bind_ok in Hd as (cl & Hc & _).
  apply extract_claim in Hc. by eexists.
Qed.

(** Registering claims.  In a state with height [h] the claim checker
    accepts exactly the transactions that consume and evict nothing and whose outputs are
    all claims effective at [h] or later; it changes nothing in the storage. *)
Theorem claim_check_spec c i e p o h s prio s' :
  (∀ E, poe_block_height E s = Ret h s) →
  claim_check c i e p o s = Ret prio s' ↔
  i = [] ∧ e = [] ∧ Forall (timely h) o ∧ prio = trunc 64 0 ∧ s' = s.
Proof.
  intros Hh. unfold claim_check.
  case_bool_decide as Hi; [|by split; [|intros []]].
  case_bool_decide as He; [|by split; [|intros (? & ? & _)]].
  rewrite bind_ret_inv.
  assert (∀ s', for_each o check_claim tt s = Ret tt s' ↔ Forall (timely h) o ∧ s' = s) as Ho.
  { clear s'. intros s'. induction o as [|d o IH]; cbn [for_each].
    - unfold mret, M_ret. rewrite Forall_nil. naive_solver.
    - rewrite bind_ret_inv, Forall_cons. split.
      + intros ([] & s1 & [? ->]%(check_claim_ok h) & Hr); [|done]. apply IH in Hr. naive_solver.
      + intros [[Hd Hr] ->]. exists tt, s. rewrite IH. by rewrite check_claim_ok. }
  split.
  - intros ([] & s1 & [? ->]%Ho & [= <- <-]). done.
  - intros (_ & _ & ? & -> & ->). exists tt, s. by rewrite Ho.
Qed.

(** A later claim to the same hash. *)
Definition later_claim (w : ClaimData) (d : DynamicallyTypedData) : Prop :=
  ∃ c, claim_of d = Some c ∧ claim c = claim w ∧ (effective_height w < effective_height c)%N.

Lemma dispute_ok c i e p o prio :
  dispute_check c i e p o = Ok prio ↔
  i = [] ∧ o = [] ∧ prio = trunc 64 0 ∧
  ∃ d rest w, p = d :: rest ∧ claim_of d = Some w ∧ Forall (later_claim w) e.
Proof.
  unfold dispute_check. rewrite !ensure_ok, !bool_decide_eq_true, bind_ok.
  setoid_rewrite ok_or_ok. setoid_rewrite bind_ok. setoid_rewrite extract_claim.
  setoid_rewrite bind_ok. setoid_rewrite mret_ok.
  assert (∀ w, try_for e (check_loser w) tt = Ok tt ↔ Forall (later_claim w) e) as Hl.
  { intros w. induction e as [|d e IH]; cbn [try_for]; [by rewrite Forall_nil|].
    rewrite Forall_cons, <-IH.
    assert (check_loser w tt d = Ok tt ↔ later_claim w d) as <-.
    { unfold check_loser, later_claim. rewrite bind_ok. setoid_rewrite extract_claim.
      setoid_rewrite ensure_ok. setoid_rewrite ensure_ok. setoid_rewrite N.ltb_lt.
      setoid_rewrite bool_decide_eq_true. setoid_rewrite mret_ok. naive_solver. }
    destruct (check_loser w tt d) as [[]|]; naive_solver. }
  split.
  - intros (-> & -> & d & Hp & w & Hw & [] & He & <-). apply Hl in He.
    destruct p as [|d' p]; simplify_eq/=. eauto 10.
  - intros (-> & -> & -> & d & rest & w & -> & Hw & He). split; [done|]. split; [done|].
    exists d. split; [done|]. exists w. split; [done|]. exists tt. by rewrite Hl.
Qed.
End spec.

(** ** Disputes on the ledger *)

Section dispute.
Context `{CoreLaws, Inherents, PoeCodecs, PoeConfig} {V : Type} `{Verifier V, !LawfulCodec V}.
Implicit Types (s : storage).

(** A dispute removes later claims and nothing else.  When a dispute applies,
    its first peek is a claim that is still in the ledger afterwards; every
    input is evicted and was a claim to the same hash with a strictly greater
    effective height; nothing is created. *)
Theorem dispute_keeps_oldest (tx : Transaction V PoeDispute) s s' :
  apply_tuxedo_transaction tx s = Ret tt s' →
  outputs tx = [] ∧
  ∃ o rest (u : Output V) w, peeks tx = o :: rest ∧ utxo_at s o = Some u ∧ utxo_at s' o = Some u ∧
    claim_of (payload u) = Some w ∧
    ∀ i, i ∈ inputs tx → redeemer i = Eviction ∧
      utxo_at (V := V) s' (output_ref i) = None ∧
      ∃ ui, utxo_at (V := V) s (output_ref i) = Some ui ∧ later_claim w (payload ui).
Proof.
  intros Hs. destruct (apply_ret_ledger _ _ _ _ (represents_ledger_of s) Hs)
    as (Ha & (pr & s1 & Hc) & Hr & _).
  cbn [check simple_constraint_checker simple_check dispute_checker] in Hc.
  apply lift_result_ret in Hc as [(Hi & Ho & _ & d & rest & w & Hp & Hw & He)%dispute_ok _].
  apply map_eq_nil in Ho. split; [done|].
  pose proof (acc_peeks _ _ _ Ha) as Hpk. unfold peeks_of in Hp.
  destruct (peeks tx) as [|o l]; [done|]. apply Forall_cons in Hpk as [[u Hu] _].
  cbn [omap list_omap] in Hp. rewrite Hu in Hp. cbn [map] in Hp.
  injection Hp as Hp _. subst d.
  assert (∀ i, i ∈ inputs tx → redeemer i = Eviction ∧
    ∃ ui : Output V, ledger_of s !! output_ref i = Some ui ∧ later_claim w (payload ui)) as Hin.
  { intros i Hx. destruct (evicted_input _ _ _ _ Ha Hi Hx) as (ui & Hui & ? & Hev).
    split; [done|]. exists ui. split; [done|]. rewrite Forall_forall in He. by apply He. }
  assert (∀ o', utxo_at (V := V) s' o' =
    if decide (o' ∈ map output_ref (inputs tx)) then None else ledger_of (V := V) s !! o') as Hl.
  { intros o'. rewrite (Hr o'). apply ledger_apply_other. rewrite Ho. simpl. lia. }
  exists o, l, u, w. split; [done|]. split; [by rewrite (represents_ledger_of s o)|].
  split; [|split; [done|]].
  - rewrite Hl, decide_False; [done|]. intros (i & -> & Hx)%list_elem_of_fmap.
    destruct (Hin i Hx) as [_ (ui & Hui & c & Hc & _ & Hlt)].
    rewrite Hu in Hui. simplify_eq. lia.
  - intros i Hx. destruct (Hin i Hx) as [? (ui & Hui & ?)]. split; [done|].
    rewrite Hl, decide_True by (by apply list_elem_of_fmap_2). split; [done|].
    exists ui. by rewrite (represents_ledger_of s).
Qed.
End dispute.

(** ** Witnesses *)

Module Witnesses.
Import Sample.

#[export] Instance concrete_poe : PoeCodecs := {|
  codec_claim_data := iso_codec (λ c, (claim c, effective_height c)) (λ p, mk_claim p.1 p.2);
  codec_poe_claim := nil_codec poe_claim;
  codec_poe_revoke := nil_codec poe_revoke;
  codec_poe_dispute := nil_codec poe_dispute |}.

#[export] Instance concrete_poe_config : PoeConfig := λ St _ E, block_height.

Definition claimed (n : N) : Out :=
  mk_output (typed_from (mk_claim H256_zero (trunc 32 n))) (mk_test_verifier true).

(** Two claims to the same hash, effective at 5 and at 6. *)
Definition registry : storage :=
  <[scale_encode (ref 0) := scale_encode (claimed 5)]>
    (<[scale_encode (ref 1) := scale_encode (claimed 6)]>
      {[HEIGHT_KEY := scale_encode (trunc 32 4)]}).

Lemma claim_check_spec_witness :
  claim_check poe_claim [] [] [] [payload (claimed 5)] registry = Ret (trunc 64 0) registry.
Proof.
  apply (claim_check_spec poe_claim [] [] [] [payload (claimed 5)] (trunc 32 4) registry).
  - intros E. by_vm.
  - split; [done|]. split; [done|]. split; [|done]. constructor; [|done].
    exists (mk_claim H256_zero (trunc 32 5)). split; [by_vm|done].
Defined.

Definition dispute : Transaction TestVerifier PoeDispute :=
  mk_transaction [mk_input (ref 1) Eviction] [ref 0] [] poe_dispute.
Definition disputed : storage :=
  match apply_tuxedo_transaction dispute registry with Ret _ s => s | _ => ∅ end.

Lemma dispute_keeps_oldest_witness :
  apply_tuxedo_transaction dispute registry = Ret tt disputed ∧
  ∀ i, i ∈ inputs dispute → look disputed (output_ref i) = None.
Proof.
  assert (apply_tuxedo_transaction dispute registry = Ret tt disputed) as Hs by by_vm.
  split; [exact Hs|].
  destruct (dispute_keeps_oldest dispute registry disputed Hs)
    as (_ & o & rest & u & w & _ & _ & _ & _ & Hi).
  intros i Hx. destruct (Hi i Hx) as (_ & Hn & _). exact Hn.
Defined.
End Witnesses.
