(* ===== verification/Kitties.v ===== *)
(** * Kitties: breeding

    Models [wardrobe/kitties/src/lib.rs]: the kitty data, the helpers of the
    [Breed] trait and the free-breeding constraint checker.  Additions and
    subtractions wrap, as the release profile compiles them. *)

From S2P Require Import Prelude Effects Scale Types Checker UtxoSet CheckerLaws Executive.
From S2P Require Import ExecutiveFacts Concrete Verifiers Samples Ledger Supply.

(** ** Data *)

Inductive FreeKittyConstraintChecker : Type := free_kitty.

Inductive DadKittyStatus := DadRearinToGo | Tired.
Inductive MomKittyStatus := MomRearinToGo | HadBirthRecently.
Inductive Parent := Mom (status : MomKittyStatus) | Dad (status : DadKittyStatus).

(** [Parent::dad], [Parent::mom] and [Default] *)
Definition parent_dad : Parent := Dad DadRearinToGo.
Definition parent_mom : Parent := Mom MomRearinToGo.
Definition default_parent : Parent := Mom MomRearinToGo.

Record KittyDNA : Type := mk_dna { dna_hash : H256 }.

#[export] Instance KittyDNA_eq_dec : EqDecision KittyDNA.
Proof. solve_decision. Defined.

Record KittyData : Type := mk_kitty {
  parent : Parent;
  free_breedings : u64;
  dna : KittyDNA;
  num_breedings : u128;
}.

(** [impl Default for KittyData] *)
Definition default_kitty : KittyData :=
  mk_kitty (Mom MomRearinToGo) (trunc 64 2)
    (mk_dna (to_bytesN 32 (bstr "mom_kitty_1asdfasdfasdfasdfasdfa"))) (trunc 128 3).

Inductive KittyError : Type :=
| KittyBadlyTyped
| KittyNoEvictionsAllowed
| MinimumSpendAndBreedNotMet
| TwoParentsDoNotExist
| NotEnoughFamilyMembers
| MomNotReadyYet
| DadTooTired
| TwoMomsNotValid
| TwoDadsNotValid
| NewMomIsStillRearinToGo
| NewDadIsStillRearinToGo
| NewParentFreeBreedingsIncorrect
| NewParentDnaDoesntMatchOld
| NewParentNumberBreedingsIncorrect
| NewChildDnaIncorrect
| NewChildFreeBreedingsIncorrect
| NewChildHasNonZeroBreedings
| NewChildIncorrectParentInfo
| TooManyBreedingsForKitty
| NotEnoughFreeBreedings.

Class KittyCodecs : Type := {
  codec_free_kitty :: Codec FreeKittyConstraintChecker;
  codec_dna :: Codec KittyDNA;
  codec_kitty :: Codec KittyData;
}.

Section kitties.
Context `{CoreCodecs, Inherents, KittyCodecs}.

(** [impl UtxoData for KittyData] *)
#[export] Instance kitty_utxo_data : UtxoData KittyData := to_bytesN 4 (bstr "Kitt").

(** [KittyData::mint] *)
Definition kitty_mint {V OV OC} (into_verifier : V → OV)
    (into_checker : FreeKittyConstraintChecker → OC) (parent : Parent) (dna_preimage : bytes)
    (v : V) : Transaction OV OC :=
  mk_transaction [] []
    [output_from into_verifier
       (mk_kitty parent (free_breedings default_kitty) (mk_dna (blake2_256 dna_preimage))
          (num_breedings default_kitty), v)]
    (into_checker free_kitty).

(** [Breed::COST] and [Breed::NUM_FREE_BREEDINGS] *)
Definition COST : u128 := trunc 128 5.
Definition NUM_FREE_BREEDINGS : u64 := trunc 64 2.

Definition one64 : u64 := trunc 64 1.
Definition one128 : u128 := trunc 128 1.

(** [impl TryFrom<&DynamicallyTypedData> for KittyData] *)
Definition kitty_try_from (a : DynamicallyTypedData) : result KittyError KittyData :=
  map_err (λ _, KittyBadlyTyped) (extract KittyData a).

(** [KittyHelpers::check_mom_can_breed] *)
Definition check_mom_can_breed (mom : KittyData) : result KittyError unit :=
  match parent mom with
  | Mom HadBirthRecently => mthrow MomNotReadyYet
  | Dad _ => mthrow TwoDadsNotValid
  | Mom MomRearinToGo =>
    _next ← ok_or (checked_add (num_breedings mom) one128) TooManyBreedingsForKitty;
    mret tt
  end.

(** [KittyHelpers::check_dad_can_breed] *)
Definition check_dad_can_breed (dad : KittyData) : result KittyError unit :=
  match parent dad with
  | Dad Tired => mthrow DadTooTired
  | Mom _ => mthrow TwoMomsNotValid
  | Dad DadRearinToGo =>
    _next ← ok_or (checked_add (num_breedings dad) one128) TooManyBreedingsForKitty;
    mret tt
  end.

(** [KittyHelpers::check_free_breedings] *)
Definition check_free_breedings (mom dad : KittyData) : result KittyError unit :=
  let mom_breedings := free_breedings mom in
  let dad_breedings := free_breedings dad in
  if N.eqb mom_breedings 0 || N.eqb dad_breedings 0
  then mthrow NotEnoughFreeBreedings else mret tt.

(** [KittyHelpers::can_breed] *)
Definition can_breed (mom dad : KittyData) : result KittyError unit :=
  check_mom_can_breed mom;;
  check_dad_can_breed dad;;
  check_free_breedings mom dad;;
  mret tt.

(** [KittyHelpers::check_new_mom] *)
Definition check_new_mom (old_mom new_mom : KittyData) : result KittyError unit :=
  match parent new_mom with
  | Mom MomRearinToGo => mthrow NewMomIsStillRearinToGo
  | Dad _ => mthrow TwoDadsNotValid
  | Mom HadBirthRecently =>
    ensure! bool_decide (free_breedings new_mom = wrapping_sub (free_breedings old_mom) one64)
      else NewParentFreeBreedingsIncorrect;
    ensure! bool_decide (num_breedings new_mom = wrapping_add (num_breedings old_mom) one128)
      else NewParentNumberBreedingsIncorrect;
    ensure! bool_decide (dna new_mom = dna old_mom) else NewParentDnaDoesntMatchOld;
    mret tt
  end.

(** [KittyHelpers::check_new_dad] *)
Definition check_new_dad (old_dad new_dad : KittyData) : result KittyError unit :=
  match parent new_dad with
  | Dad DadRearinToGo => mthrow NewDadIsStillRearinToGo
  | Mom _ => mthrow TwoMomsNotValid
  | Dad Tired =>
    ensure! bool_decide (free_breedings new_dad = wrapping_sub (free_breedings old_dad) one64)
      else NewParentFreeBreedingsIncorrect;
    ensure! bool_decide (num_breedings new_dad = wrapping_add (num_breedings old_dad) one128)
      else NewParentNumberBreedingsIncorrect;
    ensure! bool_decide (dna new_dad = dna old_dad) else NewParentDnaDoesntMatchOld;
    mret tt
  end.

(** The DNA of a child, from the parents after breeding. *)
Definition child_dna (new_mom new_dad : KittyData) : H256 :=
  hash_of (dna new_mom, dna new_dad, num_breedings new_mom, num_breedings new_dad).

(** [KittyHelpers::check_child] *)
Definition check_child (new_mom new_dad child : KittyData) : result KittyError unit :=
  let new_dna := child_dna new_mom new_dad in
  ensure! bool_decide (dna child = mk_dna new_dna) else NewChildDnaIncorrect;
  ensure! bool_decide (free_breedings child = NUM_FREE_BREEDINGS)
    else NewChildFreeBreedingsIncorrect;
  ensure! bool_decide (num_breedings child = trunc 128 0) else NewChildHasNonZeroBreedings;
  match parent child with
  | Mom HadBirthRecently => mthrow NewChildIncorrectParentInfo
  | Dad Tired => mthrow NewChildIncorrectParentInfo
  | _ => mret tt
  end.

(** [KittyHelpers::check_new_family] *)
Definition check_new_family (old_mom old_dad : KittyData)
    (new_family : list DynamicallyTypedData) : result KittyError unit :=
  match new_family with
  | [new_mom; new_dad; child] =>
    new_mom ← kitty_try_from new_mom;
    new_dad ← kitty_try_from new_dad;
    child ← kitty_try_from child;
    check_new_mom old_mom new_mom;;
    check_new_dad old_dad new_dad;;
    check_child new_mom new_dad child;;
    mret tt
  | _ => mthrow NotEnoughFamilyMembers
  end.

(** [FreeKittyConstraintChecker::check] *)
Definition kitty_check (_ : FreeKittyConstraintChecker)
    (input_data evicted_input_data _peeks output_data : list DynamicallyTypedData) :
    result KittyError u64 :=
  ensure! bool_decide (evicted_input_data = []) else KittyNoEvictionsAllowed;
  match input_data with
  | [mom; dad] =>
    mom ← kitty_try_from mom;
    dad ← kitty_try_from dad;
    can_breed mom dad;;
    ensure! bool_decide (List.length output_data = 3) else NotEnoughFamilyMembers;
    check_new_family mom dad output_data;;
    mret (trunc 64 0)
  | _ => mthrow TwoParentsDoNotExist
  end.

#[export] Instance kitty_checker : SimpleConstraintChecker FreeKittyConstraintChecker := {|
  SimpleError := KittyError;
  simple_check St _ self i e p o := lift_result (kitty_check self i e p o) |}.

#[export] Instance kitty_pure : PureChecker FreeKittyConstraintChecker.
Proof. by exists kitty_check. Defined.
End kitties.

(** ** Breeding *)

Section breeding.
Context `{CoreCodecs, Inherents, KittyCodecs}.
Implicit Types (d : DynamicallyTypedData).

Definition kitty_of d : option KittyData := ok (extract KittyData d).

Lemma kitty_try_from_ok d k : kitty_try_from d = Ok k ↔ kitty_of d = Some k.
Proof. unfold kitty_try_from, kitty_of. destruct (extract _ d); naive_solver. Qed.

(** A parent that has just bred: one free breeding less, one breeding more,
    the same DNA; and nothing wraps around. *)
Record aged (old new : KittyData) : Prop := {
  aged_free : (uval (free_breedings new) + 1 = uval (free_breedings old))%N;
  aged_num : uval (num_breedings new) = (uval (num_breedings old) + 1)%N;
  aged_dna : dna new = dna old;
}.

(** The family of an accepted breeding. *)
Record family (mom dad mom' dad' child : KittyData) : Prop := {
  mom_ready : parent mom = Mom MomRearinToGo;
  dad_ready : parent dad = Dad DadRearinToGo;
  mom_rests : parent mom' = Mom HadBirthRecently;
  dad_rests : parent dad' = Dad Tired;
  mom_aged : aged mom mom';
  dad_aged : aged dad dad';
  child_inherits : dna child = mk_dna (child_dna mom' dad');
  child_free : uval (free_breedings child) = 2%N;
  child_num : uval (num_breedings child) = 0%N;
  child_ready : parent child = Mom MomRearinToGo ∨ parent child = Dad DadRearinToGo;
}.

Lemma checked_add_some {w} (x y : uint w) :
  is_Some (checked_add x y) ↔ (uval x + uval y < 2 ^ w)%N.
Proof.
  unfold checked_add. destruct (N.ltb_spec (uval x + uval y) (2 ^ w)) as [Hlt|Hge].
  - split; [done|]. by eexists.
  - split; [by intros []|lia].
Qed.

Lemma ok_or_drop {E A} (o : option A) (e : E) :
  (_x ← ok_or o e; mret tt) = (Ok tt : result E unit) ↔ is_Some o.
Proof. destruct o; unfold is_Some; naive_solver. Qed.

Lemma can_breed_ok mom dad :
  can_breed mom dad = Ok tt ↔
  parent mom = Mom MomRearinToGo ∧ parent dad = Dad DadRearinToGo ∧
  (uval (num_breedings mom) + 1 < 2 ^ 128)%N ∧ (uval (num_breedings dad) + 1 < 2 ^ 128)%N ∧
  (0 < uval (free_breedings mom))%N ∧ (0 < uval (free_breedings dad))%N.
Proof.
  assert (check_mom_can_breed mom = Ok tt ↔
    parent mom = Mom MomRearinToGo ∧ (uval (num_breedings mom) + 1 < 2 ^ 128)%N) as Hm.
  { unfold check_mom_can_breed. destruct (parent mom) as [[]|]; [|by split; [|intros []]..].
    rewrite ok_or_drop, checked_add_some. naive_solver. }
  assert (check_dad_can_breed dad = Ok tt ↔
    parent dad = Dad DadRearinToGo ∧ (uval (num_breedings dad) + 1 < 2 ^ 128)%N) as Hd.
  { unfold check_dad_can_breed. destruct (parent dad) as [|[]]; [by split; [|intros []]| |
      by split; [|intros []]].
    rewrite ok_or_drop, checked_add_some. naive_solver. }
  assert (check_free_breedings mom dad = Ok tt ↔
    (0 < uval (free_breedings mom))%N ∧ (0 < uval (free_breedings dad))%N) as Hf.
  { unfold check_free_breedings.
    destruct (N.eqb_spec (uval (free_breedings mom)) 0), (N.eqb_spec (uval (free_breedings dad)) 0);
      simpl; split; try done; intros; exfalso + idtac; lia. }
  unfold can_breed. rewrite bind_ok. setoid_rewrite bind_ok. setoid_rewrite bind_ok.
  split.
  - intros ([] & ?%Hm & [] & ?%Hd & [] & ?%Hf & _). tauto.
  - intros (? & ? & ? & ? & ? & ?). exists tt. rewrite Hm. split; [done|].
    exists tt. rewrite Hd. split; [done|]. exists tt. by rewrite Hf.
Qed.

(** For a parent that may breed, the wrapping arithmetic of the code is exact. *)
Lemma aged_iff (old new : KittyData) :
  (0 < uval (free_breedings old))%N → (uval (num_breedings old) + 1 < 2 ^ 128)%N →
  aged old new ↔
  free_breedings new = wrapping_sub (free_breedings old) one64 ∧
  num_breedings new = wrapping_add (num_breedings old) one128 ∧ dna new = dna old.
Proof.
  intros Hf Hn. change 1%N with (uval one128) in Hn.
  rewrite !uint_eq_iff, wrapping_sub_exact by (change (uval one64) with 1%N; lia).
  unfold wrapping_add. rewrite uval_trunc by done.
  change (uval one64) with 1%N. change (uval one128) with 1%N. split.
  - intros [? ? ?]. split; [lia|]. done.
  - intros (? & ? & ?). split; [lia|done..].
Qed.

Lemma check_new_mom_ok old new :
  (0 < uval (free_breedings old))%N → (uval (num_breedings old) + 1 < 2 ^ 128)%N →
  check_new_mom old new = Ok tt ↔ parent new = Mom HadBirthRecently ∧ aged old new.
Proof.
  intros Hf Hn. rewrite aged_iff by done. unfold check_new_mom.
  destruct (parent new) as [[]|]; [by split; [|intros []]| |by split; [|intros []]].
  rewrite !ensure_ok, !bool_decide_eq_true, mret_ok. naive_solver.
Qed.

Lemma check_new_dad_ok old new :
  (0 < uval (free_breedings old))%N → (uval (num_breedings old) + 1 < 2 ^ 128)%N →
  check_new_dad old new = Ok tt ↔ parent new = Dad Tired ∧ aged old new.
Proof.
  intros Hf Hn. rewrite aged_iff by done. unfold check_new_dad.
  destruct (parent new) as [|[]]; [by split; [|intros []]..|].
  rewrite !ensure_ok, !bool_decide_eq_true, mret_ok. naive_solver.
Qed.

Lemma check_child_ok mom dad child :
  check_child mom dad child = Ok tt ↔
  dna child = mk_dna (child_dna mom dad) ∧ uval (free_breedings child) = 2%N ∧
  uval (num_breedings child) = 0%N ∧
  (parent child = Mom MomRearinToGo ∨ parent child = Dad DadRearinToGo).
Proof.
  unfold check_child. cbv zeta. rewrite !ensure_ok, !bool_decide_eq_true, !uint_eq_iff.
  change (uval NUM_FREE_BREEDINGS) with 2%N. change (uval (trunc 128 0)) with 0%N.
  destruct (parent child) as [[]|[]]; naive_solver.
Qed.

Lemma check_new_family_ok mom dad l :
  (0 < uval (free_breedings mom))%N → (uval (num_breedings mom) + 1 < 2 ^ 128)%N →
  (0 < uval (free_breedings dad))%N → (uval (num_breedings dad) + 1 < 2 ^ 128)%N →
  check_new_family mom dad l = Ok tt ↔
  ∃ dm dd dc mom' dad' child, l = [dm; dd; dc] ∧ kitty_of dm = Some mom' ∧
    kitty_of dd = Some dad' ∧ kitty_of dc = Some child ∧
    (parent mom' = Mom HadBirthRecently ∧ aged mom mom') ∧
    (parent dad' = Dad Tired ∧ aged dad dad') ∧ check_child mom' dad' child = Ok tt.
Proof.
  intros. unfold check_new_family.
  destruct l as [|dm [|dd [|dc [|? ?]]]]; [split; naive_solver..| |split; naive_solver].
  rewrite bind_ok. setoid_rewrite kitty_try_from_ok. setoid_rewrite bind_ok.
  setoid_rewrite kitty_try_from_ok. setoid_rewrite bind_ok. setoid_rewrite kitty_try_from_ok.
  split.
  - intros (mom' & ? & dad' & ? & child & ? & Hr).
    apply bind_ok in Hr as ([] & ?%check_new_mom_ok & Hr); [|done..].
    apply bind_ok in Hr as ([] & ?%check_new_dad_ok & Hr); [|done..].
    apply bind_ok in Hr as ([] & ? & _). eauto 15.
  - intros (? & ? & ? & mom' & dad' & child & [= <- <- <-] & ? & ? & ? & Hm & Hd & Hc).
    apply check_new_mom_ok in Hm; [|done..]. apply check_new_dad_ok in Hd; [|done..].
    exists mom'. split; [done|]. exists dad'. split; [done|]. exists child. split; [done|].
    by rewrite Hm, Hd, Hc.
Qed.

Lemma kitty_ok c i e p o prio :
  kitty_check c i e p o = Ok prio ↔
  e = [] ∧ prio = trunc 64 0 ∧
  ∃ mom dad mom' dad' child, map kitty_of i = [Some mom; Some dad] ∧
    map kitty_of o = [Some mom'; Some dad'; Some child] ∧ family mom dad mom' dad' child.
Proof.
  unfold kitty_check. rewrite ensure_ok, bool_decide_eq_true.
  destruct i as [|dm [|dd [|? ?]]]; [split; naive_solver..| |split; naive_solver].
  rewrite bind_ok. setoid_rewrite kitty_try_from_ok. setoid_rewrite bind_ok.
  setoid_rewrite kitty_try_from_ok. split.
  - intros (-> & mom & Hmom & dad & Hdad & Hr).
    apply bind_ok in Hr as ([] & (? & ? & ? & ? & ? & ?)%can_breed_ok & Hr).
    apply ensure_ok in Hr as [_ Hr].
    apply bind_ok in Hr as ([] & Hf & Hr). apply mret_ok in Hr as <-.
    apply check_new_family_ok in Hf as (d1 & d2 & d3 & mom' & dad' & child & -> & Hm' & Hd' & Hc' &
      [? ?] & [? ?] & (? & ? & ? & ?)%check_child_ok); [|done..].
    split; [done|]. split; [done|]. exists mom, dad, mom', dad', child.
    cbn [map]. rewrite Hmom, Hdad, Hm', Hd', Hc'. split; [done|]. split; [done|]. by constructor.
  - intros (-> & -> & mom & dad & mom' & dad' & child & Hi & Ho & Hf). split; [done|].
    cbn [map] in Hi. injection Hi as Hmom Hdad. exists mom. split; [done|]. exists dad.
    split; [done|]. destruct Hf as [? ? ? ? Hma Hda ? ? ? ?].
    destruct Hma as [Hm1 Hm2 Hm3]. destruct Hda as [Hd1 Hd2 Hd3].
    pose proof (uval_lt (num_breedings mom')). pose proof (uval_lt (num_breedings dad')).
    rewrite (proj2 (can_breed_ok mom dad)) by (repeat split; try done; lia).
    destruct o as [|d1 [|d2 [|d3 [|? ?]]]]; try done. cbn [map] in Ho. injection Ho as ? ? ?.
    rewrite bool_decide_true by done.
    change (bind (Ok tt) ?k) with (k tt). cbv beta.
    rewrite (proj2 (check_new_family_ok mom dad [d1; d2; d3] ltac:(lia) ltac:(lia)
      ltac:(lia) ltac:(lia))); [done|].
    exists d1, d2, d3, mom', dad', child. rewrite check_child_ok.
    repeat (split; [by constructor || done|]). done.
Qed.
End breeding.

(** ** Breeding on the ledger *)

Section ledger.
Context `{CoreLaws, Inherents, KittyCodecs} {V : Type} `{Verifier V, !LawfulCodec V}.
Implicit Types (s : storage) (L : ledger V).

Definition kitty_count (d : DynamicallyTypedData) : N :=
  match kitty_of d with Some _ => 1 | None => 0 end.
Definition kitties L : N := weight (λ u, kitty_count (payload u)) L.

Lemma kitty_count_total l (ks : list KittyData) :
  map kitty_of l = map Some ks → sumN (map kitty_count l) = N.of_nat (List.length ks).
Proof.
  unfold kitty_count. revert l. induction ks as [|k ks IH]; intros [|d l] E; try done.
  cbn [map] in E. injection E as Ek El. cbn [map sumN]. rewrite (IH _ El), Ek. simpl. lia.
Qed.

(** C25: Breeding.  A transaction of the kitty checker applies exactly when the ledger accepts it,
    nothing is evicted, its inputs are a mother and a father that are ready and
    its outputs are the same two, resting, with one free breeding less and one
    breeding more (no counter wraps), and a child whose DNA is the hash of
    theirs; and then there is one kitty more. *)
Theorem breeding_transactions (tx : Transaction V FreeKittyConstraintChecker) s :
  ((∃ s', apply_tuxedo_transaction tx s = Ret tt s') ↔
   accepted (ledger_of s !!.) (height_at s) tx ∧
   evictions_of (ledger_of s !!.) (height_at s) tx = [] ∧
   ∃ mom dad mom' dad' child,
     map kitty_of (inputs_of (ledger_of s !!.) (height_at s) tx) = [Some mom; Some dad] ∧
     map kitty_of (map payload (outputs tx)) = [Some mom'; Some dad'; Some child] ∧
     family mom dad mom' dad' child) ∧
  (∀ s', apply_tuxedo_transaction tx s = Ret tt s' → NoDup (map output_ref (inputs tx)) →
     kitties (ledger_of s') = (kitties (ledger_of s) + 1)%N).
Proof.
  split.
  - setoid_rewrite pure_apply. unfold verdict_on. cbn [verdict kitty_pure].
    setoid_rewrite kitty_ok. naive_solver.
  - intros s' (Ha & [prio Hp] & ->)%pure_apply_ledger Hd. unfold verdict_on in Hp.
    cbn [verdict kitty_pure] in Hp. apply kitty_ok in Hp as (He & _ & mom & dad & mom' & dad' & child & Hi & Ho & _).
    assert (N.of_nat (List.length (outputs tx)) ≤ 2 ^ 32)%N as Hn.
    { apply (f_equal List.length) in Ho. rewrite !length_map in Ho. rewrite Ho. simpl. lia. }
    pose proof (ledger_apply_weight (λ u, kitty_count (payload u)) _ _ _ Ha Hd Hn) as Hw.
    rewrite (worth_inputs kitty_count _ _ _ Ha), He in Hw. unfold worth_outputs in Hw.
    rewrite <-(map_map payload kitty_count) in Hw.
    rewrite (kitty_count_total _ [mom; dad] Hi), (kitty_count_total _ [mom'; dad'; child] Ho) in Hw.
    unfold kitties. simpl in Hw. lia.
Qed.

(** C26: Kitties breed once.  A parent that comes out of an accepted breeding is
    refused by every later one, whatever its position, because no operation
    makes it ready again; and the mint transactions, of mothers and of fathers, are
    refused, having no parents. *)
Theorem kitties_breed_once c i e p o prio d c' i' e' p' o' prio' :
  kitty_check c i e p o = Ok prio → d ∈ take 2 o → d ∈ i' →
  kitty_check c' i' e' p' o' ≠ Ok prio' ∧
  ∀ parent dna_preimage (v : V),
    let tx := kitty_mint id id parent dna_preimage v in
    kitty_check (checker tx) [] [] [] (map payload (outputs tx)) = Err TwoParentsDoNotExist.
Proof.
  intros (_ & _ & mom & dad & mom' & dad' & child & _ & Ho & Hf)%kitty_ok Hd Hi'.
  split; [|done].
  intros (_ & _ & mom2 & dad2 & m2 & d2 & c2 & Hi2 & _ & Hf2)%kitty_ok.
  destruct o as [|x1 [|x2 [|x3 [|? ?]]]]; try done. cbn [map] in Ho. injection Ho as H1o H2o _.
  destruct i' as [|i1 [|i2 [|? ?]]]; try done. cbn [map] in Hi2. injection Hi2 as H1i H2i.
  destruct Hf as [_ _ Hm Hdd _ _ _ _ _ _]. destruct Hf2 as [Hm2 Hd2 _ _ _ _ _ _ _ _].
  simpl in Hd. rewrite !elem_of_cons, elem_of_nil in Hd, Hi'.
  assert (∃ k, kitty_of d = Some k ∧ (parent k = Mom HadBirthRecently ∨ parent k = Dad Tired))
    as (k & Hk & Hr) by (destruct Hd as [->|[->|[]]]; eauto).
  assert (∃ k, kitty_of d = Some k ∧ (parent k = Mom MomRearinToGo ∨ parent k = Dad DadRearinToGo))
    as (k2 & Hk2 & Hr2) by (destruct Hi' as [->|[->|[]]]; eauto).
  rewrite Hk in Hk2. simplify_eq. destruct Hr as [Hr|Hr], Hr2; congruence.
Qed.
End ledger.

(** ** Witnesses *)

Module Witnesses.
Import Sample.

Definition mom_bool (m : MomKittyStatus) : bool :=
  match m with MomRearinToGo => true | _ => false end.
Definition dad_bool (m : DadKittyStatus) : bool :=
  match m with DadRearinToGo => true | _ => false end.
Definition parent_pair (x : Parent) : bool * bool :=
  match x with Mom m => (true, mom_bool m) | Dad d => (false, dad_bool d) end.
Definition pair_parent (x : bool * bool) : Parent :=
  match x with
  | (true, b) => Mom (if b then MomRearinToGo else HadBirthRecently)
  | (false, b) => Dad (if b then DadRearinToGo else Tired)
  end.

#[export] Instance concrete_kitty : KittyCodecs := {|
  codec_free_kitty := nil_codec free_kitty;
  codec_dna := iso_codec dna_hash mk_dna;
  codec_kitty := iso_codec
    (λ k, (parent_pair (parent k), free_breedings k, dna_hash (dna k), num_breedings k))
    (λ '(p, f, d, n), mk_kitty (pair_parent p) f (mk_dna d) n) |}.

Definition kitty (p : Parent) (free num : N) (h : H256) : Out :=
  mk_output (typed_from (mk_kitty p (trunc 64 free) (mk_dna h) (trunc 128 num)))
    (mk_test_verifier true).

Definition old_mom : Out := kitty parent_mom 2 0 H256_zero.
Definition old_dad : Out := kitty parent_dad 2 0 H256_zero.
Definition new_mom : Out := kitty (Mom HadBirthRecently) 1 1 H256_zero.
Definition new_dad : Out := kitty (Dad Tired) 1 1 H256_zero.
Definition newborn : Out :=
  kitty parent_mom 2 0 (child_dna
    (mk_kitty (Mom HadBirthRecently) (trunc 64 1) (mk_dna H256_zero) (trunc 128 1))
    (mk_kitty (Dad Tired) (trunc 64 1) (mk_dna H256_zero) (trunc 128 1))).

Definition litter : storage :=
  <[scale_encode (ref 0) := scale_encode old_mom]>
    (<[scale_encode (ref 1) := scale_encode old_dad]>
      {[HEIGHT_KEY := scale_encode (trunc 32 1)]}).
Definition breed : Transaction TestVerifier FreeKittyConstraintChecker :=
  mk_transaction [spend (ref 0); spend (ref 1)] [] [new_mom; new_dad; newborn] free_kitty.
Definition bred : storage :=
  match apply_tuxedo_transaction breed litter with Ret _ s => s | _ => ∅ end.

Lemma breeding_transactions_witness :
  apply_tuxedo_transaction breed litter = Ret tt bred ∧
  kitties (ledger_of (V := TestVerifier) bred) =
  (kitties (ledger_of (V := TestVerifier) litter) + 1)%N.
Proof.
  assert (apply_tuxedo_transaction breed litter = Ret tt bred) as Hs by by_vm.
  split; [exact Hs|]. destruct (breeding_transactions breed litter) as [_ Hk].
  apply (Hk _ Hs). by_vm.
Defined.

Lemma kitties_breed_once_witness :
  kitty_check free_kitty [payload new_mom; payload new_dad] [] []
    [payload new_mom; payload new_dad; payload newborn] ≠ Ok (trunc 64 0).
Proof.
  apply (kitties_breed_once (V := TestVerifier) free_kitty [payload old_mom; payload old_dad] [] []
    [payload new_mom; payload new_dad; payload newborn] (trunc 64 0) (payload new_mom));
    [by_vm|simpl; apply elem_of_cons; by left|apply elem_of_cons; by left].
Defined.
End Witnesses.
