(* ===== verification/Timestamp.v ===== *)
(** * Timestamp: the timestamp inherent and its clean-up

    Models [wardrobe/timestamp/src/lib.rs]: setting the timestamp of a block
    ([SetTimestamp], an inherent) and evicting old ones ([CleanUpTimestamp]).
    Additions wrap, as the release profile compiles them. *)

From S2P Require Import Prelude Effects Scale Types Checker UtxoSet CheckerLaws Executive Simulation.
From S2P Require Import ExecutiveFacts Concrete Verifiers Samples Ledger Supply.

Record Timestamp : Type := mk_timestamp { time : u64; block : u32 }.

Inductive TimestampError : Type :=
| TimestampBadlyTyped
| MissingNewTimestamp
| NewTimestampWrongHeight
| TooManyOutputsWhileSettingTimestamp
| PreviousTimestampWrongHeight
| MissingPreviousTimestamp
| InputsWhileSettingTimestamp
| TimestampTooOld
| CleanupRequiresOneReference
| CleanupCannotCreateState
| DontBeSoHasty
| CleanupEvictionsOnly.

Inductive SetTimestamp : Type := set_timestamp.
Inductive CleanUpTimestamp : Type := clean_up_timestamp.

Class TimestampCodecs : Type := {
  codec_timestamp :: Codec Timestamp;
  codec_set_timestamp :: Codec SetTimestamp;
  codec_clean_up :: Codec CleanUpTimestamp;
}.

(** What the piece takes from [sp_timestamp]: the inherent identifier and the
    encoded error, which the crate declares fatal. *)
Class TimestampPrimitives : Type := {
  timestamp_identifier : bytesN 8;
  too_far_in_future : bytes;
}.

(** [trait TimestampConfig] *)
Class TimestampConfig : Type := {
  timestamp_block_height {St} `{!Store St} : ∀ E, M St E u32;
  MINIMUM_TIME_INTERVAL : u64;
  MAX_DRIFT : u64;
  MIN_TIME_BEFORE_CLEANUP : u64;
  MIN_BLOCKS_BEFORE_CLEANUP : u32;
}.

(** The configuration with the default constants. *)
Definition default_timestamp_config
    (block_height : ∀ St, Store St → ∀ E, M St E u32) : TimestampConfig := {|
  timestamp_block_height := block_height;
  MINIMUM_TIME_INTERVAL := trunc 64 2000;
  MAX_DRIFT := trunc 64 60000;
  MIN_TIME_BEFORE_CLEANUP := trunc 64 (1000 * 60 * 60 * 24);
  MIN_BLOCKS_BEFORE_CLEANUP := trunc 32 15000;
|}.

Class TimestampConfigLaws `{CoreCodecs} `{TimestampConfig} : Prop := {
  timestamp_height_frame E : leaves same_protected (timestamp_block_height E);
  timestamp_height_respects E : respects transient_equiv (timestamp_block_height E);
  timestamp_height_uniform {S1 S2} `{!Store S1, !Store S2}
    (sim : ∀ E A, M S1 E A → M S2 E A → Prop) `{!Simulation sim} E :
    sim E _ (timestamp_block_height E) (timestamp_block_height E);
}.

Section timestamp.
Context `{CoreCodecs, Inherents, TimestampCodecs, TimestampPrimitives, TimestampConfig}.

(** [impl UtxoData for Timestamp] *)
#[export] Instance timestamp_utxo_data : UtxoData Timestamp := to_bytesN 4 (bstr "time").

(** [Timestamp::new] *)
Definition timestamp_new (time : u64) (block : u32) : Timestamp := mk_timestamp time block.

(** [SetTimestamp::check] *)
Definition set_timestamp_check {St} `{!Store St} (_ : SetTimestamp)
    (input_data evicted_input_data peek_data output_data : list DynamicallyTypedData) :
    M St TimestampError u64 :=
  ensure! bool_decide (input_data = []) else InputsWhileSettingTimestamp;
  ensure! bool_decide (evicted_input_data = []) else InputsWhileSettingTimestamp;
  match output_data with
  | [] => mthrow MissingNewTimestamp
  | output :: more =>
    new_timestamp ← lift_result (map_err (λ _, TimestampBadlyTyped) (extract Timestamp output));
    ensure! bool_decide (more = []) else TooManyOutputsWhileSettingTimestamp;
    height ← timestamp_block_height TimestampError;
    ensure! bool_decide (block new_timestamp = height) else NewTimestampWrongHeight;
    match peek_data with
    | [] => mthrow MissingPreviousTimestamp
    | peek :: _ =>
      old_timestamp ← lift_result (map_err (λ _, TimestampBadlyTyped) (extract Timestamp peek));
      ensure! bool_decide (block old_timestamp = trunc 32 0) ||
              N.leb (uval (wrapping_add (time old_timestamp) MINIMUM_TIME_INTERVAL))
                    (uval (time new_timestamp))
        else TimestampTooOld;
      ensure! bool_decide (block new_timestamp = wrapping_add (block old_timestamp) (trunc 32 1))
        else PreviousTimestampWrongHeight;
      mret (trunc 64 0)
    end
  end.

#[export] Instance set_timestamp_checker : SimpleConstraintChecker SetTimestamp := {|
  SimpleError := TimestampError; simple_check St _ := set_timestamp_check |}.

(** [inherent_data.get_data(..).expect(..).expect(..)] *)
Definition timestamp_data (data : InherentData) : partial u64 :=
  d ← partial_expect (get_data (A := u64) data timestamp_identifier)
        "Inherent data should decode properly";
  partial_expect d "Timestamp inherent data should be present.".

Definition unspendable_verifier_for {V} `{Verifier V} : partial V :=
  partial_expect new_unspendable
    "Must be able to create unspendable verifier to use timestamp inherent.".

(** [SetTimestamp::create_inherent] *)
Definition set_timestamp_create_inherent {V} `{Verifier V} (authoring_inherent_data : InherentData)
    (previous_inherent : Transaction V SetTimestamp * H256) :
    M storage Empty_set (Transaction V SetTimestamp) :=
  current_timestamp ← lift_partial (timestamp_data authoring_inherent_data);
  height ← timestamp_block_height Empty_set;
  let new_timestamp := mk_timestamp current_timestamp height in
  let old_output := mk_output_ref previous_inherent.2 (trunc 32 0) in
  unspendable ← lift_partial unspendable_verifier_for;
  let new_output := mk_output (typed_from new_timestamp) unspendable in
  mret (mk_transaction [] [old_output] [new_output] set_timestamp).

(** [SetTimestamp::check_inherent] *)
Definition set_timestamp_check_inherent {V} (importing_inherent_data : InherentData)
    (inherent : Transaction V SetTimestamp) (results : CheckInherentsResult) :
    partial CheckInherentsResult :=
  local_time ← timestamp_data importing_inherent_data;
  output ← partial_expect (head (outputs inherent)) "index out of bounds";
  on_chain_timestamp ← partial_expect (ok (extract Timestamp (payload output)))
    "SetTimestamp extrinsic should have an output that decodes as a StorableTimestamp.";
  if N.ltb (uval (wrapping_add local_time MAX_DRIFT)) (uval (time on_chain_timestamp))
  then partial_expect (put_error results timestamp_identifier too_far_in_future true)
         "Should be able to push some error"
  else mret results.

(** [SetTimestamp::genesis_transactions] *)
Definition set_timestamp_genesis {V} `{Verifier V} : partial (list (Transaction V SetTimestamp)) :=
  unspendable ← unspendable_verifier_for;
  mret [mk_transaction [] []
          [mk_output (typed_from (timestamp_new (trunc 64 0) (trunc 32 0))) unspendable]
          set_timestamp].

#[export] Instance set_timestamp_hooks : InherentHooks SetTimestamp := {|
  INHERENT_IDENTIFIER := timestamp_identifier;
  create_inherent V _ := set_timestamp_create_inherent;
  check_inherent V := set_timestamp_check_inherent;
  hook_genesis_transactions V _ := set_timestamp_genesis;
|}.

(** One turn of the loop over the evicted timestamps. *)
Definition check_eviction {St} `{!Store St} (new_reference_timestamp : Timestamp) (_ : unit)
    (eviction_datum : DynamicallyTypedData) : M St TimestampError unit :=
  old_timestamp ← lift_result
    (map_err (λ _, TimestampBadlyTyped) (extract Timestamp eviction_datum));
  ensure! N.ltb (uval (wrapping_add (time old_timestamp) MIN_TIME_BEFORE_CLEANUP))
                (uval (time new_reference_timestamp)) else DontBeSoHasty;
  height ← timestamp_block_height TimestampError;
  ensure! N.ltb (uval (wrapping_add (block old_timestamp) MIN_BLOCKS_BEFORE_CLEANUP))
                (uval height) else DontBeSoHasty;
  mret tt.

(** [CleanUpTimestamp::check] *)
Definition clean_up_check {St} `{!Store St} (_ : CleanUpTimestamp)
    (input_data evicted_input_data peek_data output_data : list DynamicallyTypedData) :
    M St TimestampError u64 :=
  ensure! bool_decide (input_data = []) else CleanupEvictionsOnly;
  match peek_data with
  | [] => mthrow CleanupRequiresOneReference
  | peek :: _ =>
    new_reference_timestamp ←
      lift_result (map_err (λ _, TimestampBadlyTyped) (extract Timestamp peek));
    ensure! bool_decide (output_data = []) else CleanupCannotCreateState;
    for_each evicted_input_data (check_eviction new_reference_timestamp) tt;;
    mret (trunc 64 0)
  end.

#[export] Instance clean_up_checker : SimpleConstraintChecker CleanUpTimestamp := {|
  SimpleError := TimestampError; simple_check St _ := clean_up_check |}.

Context `{!TimestampConfigLaws}.

#[local] Hint Resolve timestamp_height_frame timestamp_height_respects : effects.

#[export] Instance clean_up_frame : CheckerFrame CleanUpTimestamp.
Proof.
  intros c i e p o. cbn [check simple_constraint_checker simple_check clean_up_checker].
  unfold clean_up_check, check_eviction. solve_leaves.
Qed.

#[export] Instance clean_up_transient : CheckerTransient CleanUpTimestamp.
Proof.
  intros c i e p o. cbn [check simple_constraint_checker simple_check clean_up_checker].
  unfold clean_up_check, check_eviction. solve_respects.
Qed.

#[export] Instance set_timestamp_frame : CheckerFrame SetTimestamp.
Proof.
  intros c i e p o. cbn [check simple_constraint_checker simple_check set_timestamp_checker].
  unfold set_timestamp_check. solve_leaves.
Qed.

#[export] Instance set_timestamp_transient : CheckerTransient SetTimestamp.
Proof.
  intros c i e p o. cbn [check simple_constraint_checker simple_check set_timestamp_checker].
  unfold set_timestamp_check. solve_respects.
Qed.

#[export] Instance clean_up_uniform : UniformChecker CleanUpTimestamp.
Proof.
  intros S1 S2 ? ? sim ? c i e p o. cbn [check simple_constraint_checker simple_check clean_up_checker].
  unfold clean_up_check, check_eviction. pose proof (timestamp_height_uniform sim). solve_sim.
Qed.

#[export] Instance set_timestamp_uniform : UniformChecker SetTimestamp.
Proof.
  intros S1 S2 ? ? sim ? c i e p o.
  cbn [check simple_constraint_checker simple_check set_timestamp_checker].
  unfold set_timestamp_check. pose proof (timestamp_height_uniform sim). solve_sim.
Qed.
End timestamp.

(** ** Setting the timestamp *)

Definition timestamp_of `{TimestampCodecs} (d : DynamicallyTypedData) : option Timestamp :=
  ok (extract Timestamp d).

(** Whatever the height, the only output is a timestamp. *)
Lemma set_timestamp_output `{CoreCodecs, Inherents, TimestampCodecs, TimestampPrimitives,
    TimestampConfig} (c : SetTimestamp) (i e p o : list DynamicallyTypedData)
    (s s' : storage) prio :
  set_timestamp_check c i e p o s = Ret prio s' →
  i = [] ∧ e = [] ∧ ∃ d, o = [d] ∧ is_Some (timestamp_of d).
Proof.
  unfold set_timestamp_check. case_bool_decide; [|done]. case_bool_decide; [|done].
  destruct o as [|d more]; [done|].
  intros (t & s1 & [Ht ->]%lift_result_ret & Hr)%bind_ret_inv.
  case_bool_decide; [|done]. subst more. split; [done|]. split; [done|]. exists d.
  split; [done|]. unfold timestamp_of. destruct (extract _ d); [by eexists|done].
Qed.

Section setting.
Context `{CoreCodecs, Inherents, TimestampCodecs, TimestampPrimitives, TimestampConfig}.
Context {s : storage} {height : u32} (Hheight : ∀ E, timestamp_block_height E s = Ret height s).

Lemma extract_timestamp_ret d t s1 :
  lift_result (map_err (λ _, TimestampBadlyTyped) (extract Timestamp d)) s = Ret t s1 ↔
  timestamp_of d = Some t ∧ s1 = s.
Proof.
  rewrite lift_result_ret, map_err_ok. unfold timestamp_of.
  destruct (extract _ d); naive_solver.
Qed.

(** A successor of the previous timestamp, for the block at [height]. *)
Definition follows (old new : Timestamp) : Prop :=
  block new = height ∧ block new = wrapping_add (block old) (trunc 32 1) ∧
  (block old = trunc 32 0 ∨
   (uval (wrapping_add (time old) MINIMUM_TIME_INTERVAL) ≤ uval (time new))%N).

Lemma set_timestamp_ok c i e p o prio s' :
  set_timestamp_check c i e p o s = Ret prio s' ↔
  i = [] ∧ e = [] ∧ prio = trunc 64 0 ∧ s' = s ∧
  ∃ d new dp rest old, o = [d] ∧ timestamp_of d = Some new ∧ p = dp :: rest ∧
    timestamp_of dp = Some old ∧ follows old new.
Proof.
  unfold set_timestamp_check.
  case_bool_decide as Hi; [|by split; [|intros []]].
  case_bool_decide as He; [|by split; [|intros (? & ? & _)]].
  destruct o as [|d more]; [by split; [|naive_solver]|].
  rewrite bind_ret_inv. setoid_rewrite extract_timestamp_ret. split.
  - intros (new & s1 & [Hnew ->] & Hr).
    case_bool_decide as Hmore; [|done]. subst more. rewrite bind_run, Hheight in Hr.
    case_bool_decide as Hb; [|done]. destruct p as [|dp rest]; [done|].
    apply bind_ret_inv in Hr as (old & s1 & [Hold ->]%extract_timestamp_ret & Hr).
    destruct (_ || _) eqn:Ht; [|done]. case_bool_decide as Hb2; [|done].
    injection Hr as <- <-. repeat (split; [done|]).
    exists d, new, dp, rest, old. repeat (split; [done|]).
    apply orb_true_iff in Ht as [Ht%bool_decide_eq_true|Ht%N.leb_le]; auto.
  - intros (_ & _ & -> & -> & d' & new & dp & rest & old & [= -> ->] & Hnew & -> & Hold &
      Hb & Hb2 & Ht).
    exists new, s. split; [done|]. rewrite bool_decide_true by done.
    rewrite bind_run, Hheight, bool_decide_true by done. apply bind_ret_inv.
    exists old, s. rewrite extract_timestamp_ret. split; [done|].
    rewrite (bool_decide_true (block new = wrapping_add _ _)) by done.
    destruct Ht as [Ht|Ht]; [by rewrite bool_decide_true|].
    by rewrite (proj2 (N.leb_le _ _) Ht), orb_true_r.
Qed.

(** Timestamps move forward.  The checker accepts a new timestamp exactly
    when nothing is consumed or evicted, the only output is a timestamp for the current block
    and the first peek is the timestamp of the previous block, at least the
    minimum interval older unless it is the one of block zero; as long as the
    clock is not about to overflow, time strictly increases. *)
Theorem timestamps_increase c i e p o prio s' :
  (set_timestamp_check c i e p o s = Ret prio s' ↔
   i = [] ∧ e = [] ∧ prio = trunc 64 0 ∧ s' = s ∧
   ∃ d new dp rest old, o = [d] ∧ timestamp_of d = Some new ∧ p = dp :: rest ∧
     timestamp_of dp = Some old ∧ follows old new) ∧
  (∀ old new, follows old new → block old ≠ trunc 32 0 →
     (uval (time old) + uval MINIMUM_TIME_INTERVAL < 2 ^ 64)%N →
     (uval (time old) + uval MINIMUM_TIME_INTERVAL ≤ uval (time new))%N).
Proof.
  split; [apply set_timestamp_ok|]. intros old new (_ & _ & [?|Ht]) Hb Hlt; [done|].
  unfold wrapping_add in Ht. by rewrite uval_trunc in Ht.
Qed.

Context `{!LawfulCodec Timestamp} {V : Type} `{Verifier V}.

(** The inherent for the current block. *)
Definition timestamp_tx (id : H256) (now : u64) (owner : V) : Transaction V SetTimestamp :=
  mk_transaction [] [mk_output_ref id (trunc 32 0)]
    [mk_output (typed_from (mk_timestamp now height)) owner] set_timestamp.

Lemma create_inherent_run data prev_tx (id : H256) (now : u64) (unspendable : V) :
  timestamp_data data = Value now → new_unspendable = Some unspendable →
  set_timestamp_create_inherent data (prev_tx, id) s = Ret (timestamp_tx id now unspendable) s.
Proof.
  intros Hnow Hu. unfold set_timestamp_create_inherent.
  rewrite Hnow. unfold unspendable_verifier_for. rewrite Hu, bind_run. simpl.
  by rewrite bind_run, Hheight.
Qed.

Lemma check_inherent_run importing (local : u64) results (id : H256) (now : u64) (owner : V) :
  timestamp_data importing = Value local → (uval local + uval MAX_DRIFT < 2 ^ 64)%N →
  set_timestamp_check_inherent importing (timestamp_tx id now owner) results =
  if decide (uval now ≤ uval local + uval MAX_DRIFT)%N then Value results
  else partial_expect (put_error results timestamp_identifier too_far_in_future true)
         "Should be able to push some error".
Proof.
  intros Hl Hlt. unfold set_timestamp_check_inherent. rewrite Hl.
  unfold bind, mbind, partial_bind. cbn [partial_expect head outputs payload timestamp_tx].
  rewrite extract_from. cbn [ok partial_expect time].
  unfold wrapping_add. rewrite uval_trunc by done.
  destruct (N.ltb_spec (uval local + uval MAX_DRIFT) (uval now)).
  - rewrite decide_False by lia. done.
  - rewrite decide_True by lia. done.
Qed.

(** The inherent an author creates is the one importers accept.  With a time
    in the inherent data and an unspendable verifier to be had, creating the
    inherent returns a transaction that peeks at the first output of the previous
    inherent; shown the timestamp in it, the on-chain checker accepts it exactly
    when the clock follows; and an importer's off-chain check adds no error
    exactly when its own clock, plus the drift, has reached the author's. *)
Theorem author_timestamp data prev_tx (id : H256) (now : u64) (unspendable : V)
    dp (old : Timestamp) :
  timestamp_data data = Value now → new_unspendable = Some unspendable →
  timestamp_of dp = Some old →
  ∃ tx, set_timestamp_create_inherent data (prev_tx, id) s = Ret tx s ∧
    inputs tx = [] ∧ peeks tx = [mk_output_ref id (trunc 32 0)] ∧
    (set_timestamp_check (checker tx) [] [] [dp] (map payload (outputs tx)) s =
       Ret (trunc 64 0) s ↔ follows old (mk_timestamp now height)) ∧
    ∀ importing local results, timestamp_data importing = Value local →
      (uval local + uval MAX_DRIFT < 2 ^ 64)%N →
      set_timestamp_check_inherent importing tx results =
      if decide (uval now ≤ uval local + uval MAX_DRIFT)%N then Value results
      else partial_expect (put_error results timestamp_identifier too_far_in_future true)
             "Should be able to push some error".
Proof.
  intros Hnow Hu Hold. exists (timestamp_tx id now unspendable).
  split; [by apply create_inherent_run|]. split; [done|]. split; [done|].
  split; [|intros; by apply check_inherent_run].
  assert (timestamp_of (typed_from (mk_timestamp now height)) = Some (mk_timestamp now height))
    as Hnew by (unfold timestamp_of; by rewrite extract_from).
  rewrite set_timestamp_ok. cbn [timestamp_tx outputs map payload]. split.
  - intros (_ & _ & _ & _ & d & new & dp' & rest & old' & [= <-] & Hd & [= <- <-] & Ho & Hf).
    rewrite Hold in Ho. rewrite Hnew in Hd. by simplify_eq.
  - intros Hf. repeat (split; [done|]). by eexists _, _, _, _, _.
Qed.
End setting.

(** ** Cleaning up *)

Section cleanup.
Context `{CoreLaws, Inherents, TimestampCodecs, TimestampPrimitives, TimestampConfig,
          !TimestampConfigLaws} {V : Type} `{Verifier V, !LawfulCodec V}.
Implicit Types (s : storage).

(** What may be evicted, in the code's wrapping arithmetic. *)
Definition expired (height : u32) (reference : Timestamp) (d : DynamicallyTypedData) : Prop :=
  ∃ t, timestamp_of d = Some t ∧
    (uval (wrapping_add (time t) MIN_TIME_BEFORE_CLEANUP) < uval (time reference))%N ∧
    (uval (wrapping_add (block t) MIN_BLOCKS_BEFORE_CLEANUP) < uval height)%N.

Lemma clean_up_ok s height c i e p o prio s' :
  (∀ E, timestamp_block_height E s = Ret height s) →
  clean_up_check c i e p o s = Ret prio s' →
  i = [] ∧ o = [] ∧ s' = s ∧ ∃ d rest reference, p = d :: rest ∧
    timestamp_of d = Some reference ∧ Forall (expired height reference) e.
Proof.
  intros Hh. unfold clean_up_check. case_bool_decide as Hi; [|done].
  destruct p as [|dp rest]; [done|]. intros Hr.
  apply bind_ret_inv in Hr as (ref & s1 & [Href ->]%extract_timestamp_ret & Hr).
  case_bool_decide as Ho; [|done].
  apply bind_ret_inv in Hr as ([] & s1 & Hl & [= <- <-]).
  assert (Forall (expired height ref) e ∧ s1 = s) as [He ->].
  { clear -Hl Hh. induction e as [|d e IH]; [by injection Hl as <-|].
    cbn [for_each] in Hl. apply bind_ret_inv in Hl as ([] & s2 & Hd & Hl).
    unfold check_eviction in Hd.
    apply bind_ret_inv in Hd as (t & s3 & [Ht ->]%extract_timestamp_ret & Hd).
    destruct (N.ltb_spec (uval (wrapping_add (time t) MIN_TIME_BEFORE_CLEANUP)) (uval (time ref)));
      [|done].
    rewrite bind_run, Hh in Hd.
    destruct (N.ltb_spec (uval (wrapping_add (block t) MIN_BLOCKS_BEFORE_CLEANUP)) (uval height));
      [|done].
    injection Hd as <-. destruct (IH Hl) as [? ->]. split; [|done].
    constructor; [|done]. by exists t. }
  split; [done|]. split; [done|]. split; [done|]. by exists dp, rest, ref.
Qed.

(** C27: Cleaning up is safe.  A clean-up that applies creates nothing, and its first
    peek is a reference timestamp.  Every output of the ledger survives, unless it is a
    timestamp that passed both tests: its time plus the minimum time before a clean-up
    is still less than the reference's, and its block plus the minimum number of blocks
    is less than the current height (the sums wrap around, as the code's do).  So
    whatever is not a timestamp survives, and so does a timestamp that is too recent in
    time, or in blocks, and not about to overflow. *)
Theorem cleanup_keeps_recent (tx : Transaction V CleanUpTimestamp) s s' height :
  (∀ E, timestamp_block_height E s = Ret height s) →
  apply_tuxedo_transaction tx s = Ret tt s' →
  outputs tx = [] ∧
  ∃ r (out : Output V) reference, head (peeks tx) = Some r ∧ utxo_at s r = Some out ∧
    timestamp_of (payload out) = Some reference ∧
    ∀ o (u : Output V), utxo_at s o = Some u →
      utxo_at s' o = Some u ∨ expired height reference (payload u).
Proof.
  intros Hh Hs. destruct (apply_ret_ledger _ _ _ _ (represents_ledger_of s) Hs)
    as (Ha & (pr & s1 & Hc) & Hr & _).
  cbn [check simple_constraint_checker simple_check clean_up_checker] in Hc.
  apply (clean_up_ok _ height) in Hc as (Hi & Hout & -> & d & rest & ref & Hp & Href & He); [|done].
  apply map_eq_nil in Hout. split; [done|].
  destruct (first_peek _ _ _ _ _ Ha Hp) as (r & out & Hr0 & Hu0 & <-). exists r, out, ref.
  split; [done|]. split; [by rewrite (represents_ledger_of s r)|]. split; [done|]. intros o u Ho.
  destruct (decide (o ∈ map output_ref (inputs tx))) as [(i & -> & Hx)%list_elem_of_fmap|Hn].
  - right. rewrite (represents_ledger_of s (output_ref i)) in Ho.
    destruct (evicted_input _ _ _ _ Ha Hi Hx) as (ui & Hui & _ & Hev).
    rewrite Ho in Hui. injection Hui as <-. rewrite Forall_forall in He. by apply He.
  - left. rewrite (Hr o), ledger_apply_other by (rewrite Hout; simpl; lia).
    rewrite decide_False by done. by rewrite <-(represents_ledger_of s o).
Qed.
End cleanup.

(** ** Witnesses *)

Module Witnesses.
Import Sample.

#[export] Instance concrete_timestamp : TimestampCodecs := {|
  codec_timestamp := iso_codec (λ t, (time t, block t)) (λ p, mk_timestamp p.1 p.2);
  codec_set_timestamp := nil_codec set_timestamp;
  codec_clean_up := nil_codec clean_up_timestamp |}.

#[export] Instance concrete_timestamp_lawful : LawfulCodec Timestamp.
Proof. apply iso_lawful. by intros []. Qed.

#[export] Instance concrete_primitives : TimestampPrimitives := {|
  timestamp_identifier := to_bytesN 8 (bstr "timstap0");
  too_far_in_future := [Byte.x01] |}.

#[export] Instance concrete_timestamp_config : TimestampConfig :=
  default_timestamp_config (λ St _ E, block_height).

#[export] Instance concrete_timestamp_config_laws : TimestampConfigLaws.
Proof.
  split; [intros E..|].
  - cbn [timestamp_block_height concrete_timestamp_config default_timestamp_config].
    unfold block_height. solve_leaves.
  - cbn [timestamp_block_height concrete_timestamp_config default_timestamp_config].
    apply respects_bind; [by apply respects_storage_get|]. intros. apply respects_expect.
  - intros. cbn [timestamp_block_height concrete_timestamp_config default_timestamp_config].
    by apply block_height_sim.
Qed.

Definition stamp (n b : N) : Out :=
  mk_output (typed_from (mk_timestamp (trunc 64 n) (trunc 32 b))) (mk_test_verifier false).

(** Block 20001; a timestamp of block 1 and one of block 20000. *)
Definition clock : storage :=
  <[scale_encode (ref 0) := scale_encode (stamp 1000 1)]>
    (<[scale_encode (ref 1) := scale_encode (stamp 100000000 20000)]>
      {[HEIGHT_KEY := scale_encode (trunc 32 20001)]}).

Lemma timestamps_increase_witness :
  set_timestamp_check set_timestamp [] [] [payload (stamp 100000000 20000)]
    [payload (stamp 100003000 20001)] clock = Ret (trunc 64 0) clock.
Proof.
  apply (timestamps_increase (s := clock) (height := trunc 32 20001)); [intros E; by_vm|].
  split; [done|]. split; [done|]. split; [done|]. split; [done|].
  eexists _, (mk_timestamp (trunc 64 100003000) (trunc 32 20001)), _, _,
    (mk_timestamp (trunc 64 100000000) (trunc 32 20000)).
  split; [done|]. split; [by_vm|]. split; [done|]. split; [by_vm|].
  split; [done|]. split; [by_vm|]. right. by apply N.leb_le.
Defined.

Definition now_data : InherentData :=
  [(to_bytesN 8 (bstr "timstap0"), scale_encode (trunc 64 100003000))].
Definition previous : Transaction TestVerifier SetTimestamp :=
  mk_transaction [] [] [] set_timestamp.

Lemma author_timestamp_witness :
  ∃ tx, set_timestamp_create_inherent (V := TestVerifier) now_data (previous, H256_zero) clock =
          Ret tx clock ∧
    set_timestamp_check_inherent now_data tx check_inherents_new = Value check_inherents_new.
Proof.
  destruct (author_timestamp (s := clock) (height := trunc 32 20001) ltac:(intros E; by_vm)
    now_data previous H256_zero (trunc 64 100003000) (mk_test_verifier false)
    (payload (stamp 100000000 20000)) (mk_timestamp (trunc 64 100000000) (trunc 32 20000)))
    as (tx & Hc & _ & _ & _ & Hi); [by_vm|done|by_vm|].
  exists tx. split; [exact Hc|].
  rewrite (Hi now_data (trunc 64 100003000) check_inherents_new); [|by_vm|done]. by rewrite decide_True.
Defined.

Definition cleanup : Transaction TestVerifier CleanUpTimestamp :=
  mk_transaction [mk_input (ref 0) Eviction] [ref 1] [] clean_up_timestamp.
Definition cleaned : storage :=
  match apply_tuxedo_transaction cleanup clock with Ret _ s => s | _ => ∅ end.

Lemma cleanup_keeps_recent_witness : look cleaned (ref 1) = Some (stamp 100000000 20000).
Proof.
  destruct (cleanup_keeps_recent cleanup clock cleaned (trunc 32 20001))
    as (_ & r & out & reference & _ & _ & _ & Hkept); [intros E; by_vm|by_vm|].
  destruct (Hkept (ref 1) (stamp 100000000 20000)) as [Hu|(t & Ht & _ & Hb)];
    [by_vm|exact Hu|].
  assert (timestamp_of (payload (stamp 100000000 20000)) =
    Some (mk_timestamp (trunc 64 100000000) (trunc 32 20000))) as E by by_vm.
  rewrite E in Ht. injection Ht as <-. by vm_compute in Hb.
Defined.
End Witnesses.
