(* ===== verification/RuntimeUpgrade.v ===== *)
(** * RuntimeUpgrade: replacing the runtime's code

    Models [wardrobe/runtime_upgrade/src/lib.rs].  The checker writes the new
    code to the well-known [:code] key as a side effect. *)

From S2P Require Import Prelude Effects Scale Types Checker UtxoSet CheckerLaws Executive Simulation.
From S2P Require Import ExecutiveFacts Concrete Verifiers Samples Ledger Blocks.

Record RuntimeRef : Type := mk_runtime_ref { hash : bytesN 32 }.

Inductive UpgradeError : Type :=
| UpgradeWrongNumberInputs
| UpgradeWrongNumberOutputs
| UpgradeBadlyTypedInput
| UpgradeBadlyTypedOutput
| UpgradeNoEvictionsAllowed
| InputMismatch
| OutputMismatch.

Record RuntimeUpgrade : Type := mk_upgrade { full_wasm : bytes }.

Class UpgradeCodecs : Type := {
  codec_runtime_ref :: Codec RuntimeRef;
  codec_upgrade :: Codec RuntimeUpgrade;
}.

(** [sp_storage::well_known_keys::CODE], which is none of the executive's keys. *)
Class WellKnownKeys : Type := CODE : bytes.
Class WellKnownLaws `{CoreCodecs, WellKnownKeys} : Prop := code_unprotected : ¬ protected_key CODE.

Section upgrade.
Context `{CoreCodecs, Inherents, UpgradeCodecs, WellKnownKeys}.

(** [impl UtxoData for RuntimeRef] *)
#[export] Instance runtime_ref_utxo_data : UtxoData RuntimeRef := to_bytesN 4 (bstr "upgd").

(** [RuntimeUpgrade::check] *)
Definition upgrade_check {St} `{!Store St} (self : RuntimeUpgrade)
    (input_data evicted_input_data _peeks output_data : list DynamicallyTypedData) :
    M St UpgradeError u64 :=
  ensure! bool_decide (evicted_input_data = []) else UpgradeNoEvictionsAllowed;
  match input_data with
  | [input] =>
    consumed ← lift_result (map_err (λ _, UpgradeBadlyTypedInput) (extract RuntimeRef input));
    code ← storage_get CODE;
    outgoing_runtime ← expect code "Some runtime code should always be stored";
    let outgoing_hash := blake2_256 outgoing_runtime in
    ensure! bool_decide (hash consumed = outgoing_hash) else InputMismatch;
    match output_data with
    | [output] =>
      created ← lift_result (map_err (λ _, UpgradeBadlyTypedOutput) (extract RuntimeRef output));
      let incoming_hash := blake2_256 (full_wasm self) in
      ensure! bool_decide (hash created = incoming_hash) else OutputMismatch;
      storage_set CODE (full_wasm self);;
      mret (trunc 64 0)
    | _ => mthrow UpgradeWrongNumberOutputs
    end
  | _ => mthrow UpgradeWrongNumberInputs
  end.

#[export] Instance upgrade_checker : SimpleConstraintChecker RuntimeUpgrade := {|
  SimpleError := UpgradeError; simple_check St _ := upgrade_check |}.

#[export] Instance upgrade_frame `{!WellKnownLaws} : CheckerFrame RuntimeUpgrade.
Proof.
  intros c i e p o. cbn [check simple_constraint_checker simple_check upgrade_checker].
  pose proof code_unprotected. unfold upgrade_check. solve_leaves.
Qed.

#[export] Instance upgrade_transient `{!WellKnownLaws} : CheckerTransient RuntimeUpgrade.
Proof.
  intros c i e p o. cbn [check simple_constraint_checker simple_check upgrade_checker].
  pose proof code_unprotected as Hc. unfold protected_key in Hc.
  assert (CODE ≠ HEADER_KEY) by tauto. assert (CODE ≠ EXTRINSIC_KEY) by tauto.
  unfold upgrade_check. solve_respects.
Qed.

#[export] Instance upgrade_uniform : UniformChecker RuntimeUpgrade.
Proof.
  intros S1 S2 ? ? sim ? c i e p o. cbn [check simple_constraint_checker simple_check upgrade_checker].
  unfold upgrade_check. solve_sim.
Qed.
End upgrade.

(** ** The code and the output that tracks it *)

Section tracking.
Context `{CoreLaws, Inherents, UpgradeCodecs, WellKnownKeys, !WellKnownLaws}.
Context {V : Type} `{Verifier V, !LawfulCodec V}.
Implicit Types (s : storage).

Definition runtime_ref_of (d : DynamicallyTypedData) : option RuntimeRef :=
  ok (extract RuntimeRef d).

(** The payload records the hash of the code. *)
Definition records (d : DynamicallyTypedData) (code : bytes) : Prop :=
  ∃ r, runtime_ref_of d = Some r ∧ hash r = blake2_256 code.

Lemma extract_ref_ret e d r s s1 :
  lift_result (map_err (λ _, e : UpgradeError) (extract RuntimeRef d)) s = Ret r s1 ↔
  runtime_ref_of d = Some r ∧ s1 = s.
Proof.
  rewrite lift_result_ret, map_err_ok. unfold runtime_ref_of.
  destruct (extract _ d); naive_solver.
Qed.

Lemma upgrade_ok c i e p o s prio s' :
  upgrade_check c i e p o s = Ret prio s' ↔
  e = [] ∧ prio = trunc 64 0 ∧ s' = <[CODE := full_wasm c]> s ∧
  ∃ di do code, i = [di] ∧ o = [do] ∧ s !! CODE = Some code ∧
    records di code ∧ records do (full_wasm c).
Proof.
  unfold upgrade_check. case_bool_decide as He; [|by split; [|intros []]].
  destruct i as [|di [|? ?]]; [split; naive_solver| |split; naive_solver].
  split.
  - intros Hr. apply bind_ret_inv in Hr as (r & s1 & [Hri ->]%extract_ref_ret & Hr).
    rewrite bind_run in Hr. simpl in Hr.
    apply bind_ret_inv in Hr as (code & s1 & [Hc ->]%expect_ret & Hr).
    case_bool_decide as Hh; [|done]. destruct o as [|d [|? ?]]; try done.
    apply bind_ret_inv in Hr as (r' & s1 & [Hro ->]%extract_ref_ret & Hr).
    case_bool_decide as Hh'; [|done]. injection Hr as <- <-.
    split; [done|]. split; [done|]. split; [done|]. exists di, d, code.
    repeat (split; [done|]). split; by eexists.
  - intros (_ & -> & -> & di' & d & code & [= <-] & -> & Hc & (r & Hr & Hh) & (r' & Hr' & Hh')).
    apply bind_ret_inv. exists r, s. rewrite extract_ref_ret. split; [done|].
    rewrite bind_run. simpl. rewrite Hc. apply bind_ret_inv. exists code, s.
    split; [done|]. rewrite bool_decide_true by done. apply bind_ret_inv.
    exists r', s. rewrite extract_ref_ret. split; [done|]. by rewrite bool_decide_true.
Qed.

(** A check that fails has written nothing. *)
Lemma upgrade_throws c i e p o s err s' :
  upgrade_check c i e p o s = Throw err s' → s' = s.
Proof.
  unfold upgrade_check. case_bool_decide; [|by intros [= _ <-]].
  destruct i as [|di [|? ?]]; [by intros [= _ <-]| |by intros [= _ <-]].
  destruct (extract RuntimeRef di) as [r|]; [|by intros [= _ <-]]. simpl.
  destruct (s !! CODE) as [code|] eqn:Hc; rewrite bind_run; simpl; rewrite bind_run; simpl;
    rewrite Hc; [|done]. simpl.
  rewrite bind_run. simpl. case_bool_decide; [|by intros [= _ <-]].
  destruct o as [|d [|? ?]]; [by intros [= _ <-]| |by intros [= _ <-]].
  destruct (extract RuntimeRef d) as [r'|]; [|by intros [= _ <-]]. simpl.
  rewrite bind_run. simpl. by case_bool_decide; [|intros [= _ <-]].
Qed.

(** C28: An upgrade swaps the code and the output that tracks it, together.  When
    it applies, the only output consumed recorded the hash of the code stored
    before, the code stored afterwards is the transaction's, and the output created
    records its hash; when it errors, the storage is unchanged. *)
Theorem upgrade_tracks_code (tx : Transaction V RuntimeUpgrade) s :
  (∀ s', apply_tuxedo_transaction tx s = Ret tt s' →
     s' !! CODE = Some (full_wasm (checker tx)) ∧
     (∃ i (u : Output V) code, inputs tx = [i] ∧ utxo_at s (output_ref i) = Some u ∧
        s !! CODE = Some code ∧ records (payload u) code ∧
        utxo_at (V := V) s' (output_ref i) = None) ∧
     ∃ u' : Output V, utxo_at s' (out_ref tx 0) = Some u' ∧ records (payload u') (full_wasm (checker tx))) ∧
  (∀ e s', apply_tuxedo_transaction tx s = Throw e s' → s' = s).
Proof.
  split.
  - intros s' Hs. destruct (apply_ret_ledger _ _ _ _ (represents_ledger_of s) Hs)
      as (Ha & _ & Hr & _).
    apply apply_ret in Hs as (_ & p & s1 & Hc & ->). rewrite (check_all_ledger s _ tx
      (represents_ledger_of s)) in Hc.
    cbn [check simple_constraint_checker simple_check upgrade_checker] in Hc.
    apply upgrade_ok in Hc as (He & _ & -> & di & d & code & Hi & Ho & Hcode & Hdi & Hd).
    split; [|split].
    + rewrite storage_apply_key; [by rewrite lookup_insert_eq|].
      intros o E. apply code_unprotected. rewrite <-E. unfold protected_key. eauto.
    + pose proof (inputs_of_payloads _ _ _ Ha He) as Hp. rewrite Hi in Hp.
      destruct (inputs tx) as [|i [|? ?]] eqn:Htx; try done.
      cbn [map] in Hp. injection Hp as Hp.
      destruct (ledger_of s !! output_ref i) as [u|] eqn:Hu; [|done]. injection Hp as ->.
      exists i, u, code. split; [done|]. split; [by rewrite (represents_ledger_of s)|].
      split; [done|]. split; [done|]. rewrite (Hr (output_ref i)).
      assert (output_ref i ∈ map output_ref (inputs tx)) as Hin
        by (rewrite Htx; by apply list_elem_of_singleton).
      rewrite ledger_apply_other, decide_True; [done..|].
      intros j. by eapply accepted_input_not_output.
    + destruct (outputs tx) as [|u' [|? ?]] eqn:Houts; try done. cbn [map] in Ho.
      injection Ho as <-. exists u'. split; [|done]. rewrite (Hr (out_ref tx 0)).
      apply ledger_apply_output; rewrite Houts; [simpl; lia|done].
  - intros e s'. rewrite apply_run.
    destruct (first_failure _ _ tx) as [[]|]; [by intros [= _ <-]|done|].
    destruct (check_all s tx s) as [| |] eqn:Hc; [done| |done]. intros [= _ <-].
    unfold check_all in Hc. exact (upgrade_throws _ _ _ _ _ _ _ _ Hc).
Qed.
End tracking.

(** ** Witnesses *)

Module Witnesses.
Import Sample.

#[export] Instance concrete_upgrade : UpgradeCodecs := {|
  codec_runtime_ref := iso_codec hash mk_runtime_ref;
  codec_upgrade := iso_codec full_wasm mk_upgrade |}.

#[export] Instance concrete_keys : WellKnownKeys := bstr ":code".
#[export] Instance concrete_keys_laws : WellKnownLaws.
Proof.
  intros [E|[E|[E|[o E]]]]; [done..|].
  apply (f_equal List.length) in E. by rewrite output_ref_size in E.
Qed.

Definition tracker (code : bytes) : Out :=
  mk_output (typed_from (mk_runtime_ref (blake2_256 code))) (mk_test_verifier true).
Definition chain : storage :=
  <[scale_encode (ref 0) := scale_encode (tracker (bstr "old"))]>
    (<[CODE := bstr "old"]> {[HEIGHT_KEY := scale_encode (trunc 32 1)]}).
Definition upgrade : Transaction TestVerifier RuntimeUpgrade :=
  mk_transaction [spend (ref 0)] [] [tracker (bstr "new")] (mk_upgrade (bstr "new")).
Definition upgraded : storage :=
  match apply_tuxedo_transaction upgrade chain with Ret _ s => s | _ => ∅ end.

Lemma upgrade_tracks_code_witness :
  apply_tuxedo_transaction upgrade chain = Ret tt upgraded ∧ upgraded !! CODE = Some (bstr "new").
Proof.
  assert (apply_tuxedo_transaction upgrade chain = Ret tt upgraded) as Hs by by_vm.
  split; [exact Hs|]. destruct (upgrade_tracks_code upgrade chain) as [Hu _].
  destruct (Hu upgraded Hs) as [Hc _]. exact Hc.
Defined.
End Witnesses.
