(* ===== verification/Aggregator.v ===== *)
(** * Aggregator: the aggregation macros

    Models [tuxedo-core/aggregator/src/lib.rs].  The macros generate code for an
    enum with one variant per inner type; the code generated for one variant is
    defined here once, for any variant, and the runtimes put the variants
    together in the order of their enum. *)

From S2P Require Import Prelude Effects Scale Types Checker UtxoSet CheckerLaws Executive Simulation.

(** One variant of an aggregate enum: the constructor, and the match on it. *)
Class Variant (O I : Type) : Type := {
  wrap : I → O;
  unwrap : O → option I;
  unwrap_wrap i : unwrap (wrap i) = Some i;
  unwrap_some o i : unwrap o = Some i → o = wrap i;
}.

(** [#[aggregate]]: the unwrapping [From] panics on another variant. *)
Definition from_outer {O I} `{Variant O I} (a : O) : partial I :=
  partial_expect (unwrap a) "wrong type or something...".

(** [#[tuxedo_verifier]]: the arm of [verify] for one variant. *)
Definition verify_arm {R V} `{Verifier V} `{Variant R (Redeemer V)} (inner : V)
    (simplified_tx : bytes) (block_number : u32) (redeemer : R) : partial bool :=
  redeemer ← partial_expect (unwrap redeemer)
    "redeemer variant exists because the macro constructed that type.";
  verify inner simplified_tx block_number redeemer.

Section constraint_checker.
Context `{CoreCodecs, Inherents} {O C : Type} `{!ConstraintChecker C, Variant O C}.

(** [#[tuxedo_constraint_checker]]: the blocks for one variant of
    [create_inherents], [check_inherents] and [genesis_transactions]. *)
Definition relevant {V X} (previous_inherents : list (Transaction V O * X)) :
    list (Transaction V C * X) :=
  omap (λ '(tx, x), inner_checker ← unwrap (checker tx);
                    Some (transform (λ _, inner_checker) tx, x)) previous_inherents.

Definition create_variant {V} `{Verifier V} (authoring_inherent_data : InherentData)
    (previous_inherents : list (Transaction V O * H256)) :
    M storage Empty_set (list (Transaction V O)) :=
  inherents ← create_inherents authoring_inherent_data (relevant previous_inherents);
  mret (map (transform wrap) inherents).

Definition check_variant {V} `{Verifier V} (importing_inherent_data : InherentData)
    (inherents : list (Transaction V O)) (results : CheckInherentsResult) :
    partial CheckInherentsResult :=
  let relevant_inherents :=
    omap (λ tx, inner_checker ← unwrap (checker tx);
                Some (transform (λ _, inner_checker) tx)) inherents in
  check_inherents importing_inherent_data relevant_inherents results.

Definition genesis_variant {V} `{Verifier V} : partial (list (Transaction V O)) :=
  transactions ← genesis_transactions;
  mret (map (transform wrap) transactions).

(** The arm of [check] for one variant. *)
Definition check_arm {St} `{!Store St} {E} (inner : C) (into : Error C → E)
    (inputs evicted_inputs peeks outputs : list DynamicallyTypedData) : M St E u64 :=
  catch_err into (check inner inputs evicted_inputs peeks outputs).
End constraint_checker.

(** The blocks run one after the other: creating appends, checking stops at a
    fatal error. *)
Fixpoint create_all {V O} (blocks : list (M storage Empty_set (list (Transaction V O)))) :
    M storage Empty_set (list (Transaction V O)) :=
  match blocks with
  | [] => mret []
  | block :: blocks => inherents ← block; rest ← create_all blocks; mret (inherents ++ rest)
  end.

Fixpoint check_all_variants `{Inherents}
    (blocks : list (CheckInherentsResult → partial CheckInherentsResult))
    (results : CheckInherentsResult) : partial CheckInherentsResult :=
  match blocks with
  | [] => mret results
  | block :: blocks =>
    results ← block results;
    if fatal_error results then mret results else check_all_variants blocks results
  end.

Fixpoint genesis_all {V O} (blocks : list (partial (list (Transaction V O)))) :
    partial (list (Transaction V O)) :=
  match blocks with
  | [] => mret []
  | block :: blocks =>
    transactions ← block; rest ← genesis_all blocks; mret (transactions ++ rest)
  end.

(** ** The blocks, one at a time *)

Section blocks.
Context `{Inherents} {V O : Type}.

(** A variant that creates nothing is skipped. *)
Lemma create_all_skip (block : M storage Empty_set (list (Transaction V O))) blocks s :
  block s = Ret [] s → create_all (block :: blocks) s = create_all blocks s.
Proof.
  intros Hb. cbn [create_all]. rewrite bind_run, Hb, bind_run.
  by destruct (create_all blocks s).
Qed.

Lemma create_all_cons (block : M storage Empty_set (list (Transaction V O))) blocks s l :
  block s = Ret l s → create_all blocks s = Ret [] s → create_all (block :: blocks) s = Ret l s.
Proof.
  intros Hb Hr. cbn [create_all]. rewrite bind_run, Hb, bind_run, Hr.
  unfold mret, M_ret. by rewrite app_nil_r.
Qed.

Lemma create_all_panic (block : M storage Empty_set (list (Transaction V O))) blocks s w :
  block s = Panic w → create_all (block :: blocks) s = Panic w.
Proof. intros Hb. cbn [create_all]. by rewrite bind_run, Hb. Qed.

(** A variant that finds nothing wrong hands the results on. *)
Lemma check_all_skip block blocks results :
  fatal_error results = false → block results = Value results →
  check_all_variants (block :: blocks) results = check_all_variants blocks results.
Proof. intros Hf Hb. cbn [check_all_variants]. unfold bind, mbind, partial_bind. by rewrite Hb, Hf. Qed.
End blocks.

(** A variant wraps what its checker creates. *)
Lemma create_variant_run `{CoreCodecs, Inherents} {V O C : Type} `{!ConstraintChecker C, !Variant O C}
    `{Verifier V} data (previous : list (Transaction V O * H256)) (l : list (Transaction V C)) s :
  create_inherents data (relevant previous) s = Ret l s →
  create_variant data previous s = Ret (map (transform wrap) l) s.
Proof. intros Hl. unfold create_variant. by rewrite bind_run, Hl. Qed.

(** The variants without inherents. *)
Section simple.
Context `{CoreCodecs, Inherents} {V O C : Type} `{SimpleConstraintChecker C, !Variant O C}.
Context `{Verifier V}.

Lemma create_simple data (previous : list (Transaction V O * H256)) s :
  create_variant (C := C) data previous s = Ret [] s.
Proof. done. Qed.

Lemma check_simple data (l : list (Transaction V O)) results :
  Forall (λ tx, unwrap (I := C) (checker tx) = None) l →
  check_variant (C := C) data l results = Value results.
Proof.
  intros Hl. unfold check_variant. cbn [check_inherents simple_constraint_checker].
  replace (omap _ l) with (@nil (Transaction V C)); [done|].
  induction Hl as [|tx l Htx _ IH]; [done|]. cbn [omap list_omap]. by rewrite Htx.
Qed.
End simple.

(** ** Interfaces through an arm *)

Section laws.
Context `{CoreCodecs, Inherents} {C : Type} `{!ConstraintChecker C}.

Lemma check_arm_leaves `{!CheckerFrame C} {E} (into : Error C → E) c i e p o :
  leaves same_protected (check_arm c into i e p o).
Proof. apply leaves_catch. by apply check_frame. Qed.

Lemma check_arm_respects `{!CheckerTransient C} {E} (into : Error C → E) c i e p o :
  respects transient_equiv (check_arm c into i e p o).
Proof. apply respects_catch. by apply check_transient. Qed.

Lemma check_arm_uniform `{!UniformChecker C} {S1 S2} `{!Store S1, !Store S2}
    (sim : ∀ E A, M S1 E A → M S2 E A → Prop) `{!Simulation sim} {E} (into : Error C → E) c i e p o :
  sim E _ (check_arm c into i e p o) (check_arm c into i e p o).
Proof. apply sim_catch. by apply check_uniform. Qed.
End laws.

(** The inherent adapter has the frame of the checker it wraps. *)
Section adapter.
Context `{CoreCodecs, Inherents} {C : Type} `{SimpleConstraintChecker C, !InherentHooks C}.
Context `{!Codec (InherentAdapter C)}.

#[export] Instance adapter_frame `{!CheckerFrame C} : CheckerFrame (InherentAdapter C).
Proof. intros c i e p o. exact (check_frame C (adapted c) i e p o). Qed.

#[export] Instance adapter_transient `{!CheckerTransient C} :
  CheckerTransient (InherentAdapter C).
Proof. intros c i e p o. exact (check_transient C (adapted c) i e p o). Qed.

#[export] Instance adapter_uniform `{!UniformChecker C} : UniformChecker (InherentAdapter C).
Proof. intros S1 S2 ? ? sim ? c i e p o. exact (check_uniform C sim (adapted c) i e p o). Qed.

(** Given one previous inherent, the adapter creates the next. *)
Lemma adapter_create_run {V} `{Verifier V} data (prev : Transaction V (InherentAdapter C)) id tx s :
  create_inherent data (unwrap_transaction prev, id) s = Ret tx s →
  adapter_create_inherents data [(prev, id)] s = Ret [wrap_transaction tx] s.
Proof.
  intros Hc. unfold adapter_create_inherents. rewrite bool_decide_false by (cbn; lia).
  rewrite bind_run. cbn [head expect mret M_ret]. unfold mret, M_ret. by rewrite bind_run, Hc.
Qed.

(** Importers find a fatal error unless there is exactly one inherent. *)
Context `{!InherentsLaws}.

Lemma adapter_error message results :
  fatal_error results = false →
  ∃ r, adapter_put_error results message = Value r ∧ fatal_error r = true.
Proof.
  intros Hf. unfold adapter_put_error.
  destruct (put_error_some results ADAPTER_ERROR_IDENTIFIER (scale_encode (bstr message)) true Hf)
    as (r & Hr & Hfr).
  exists r. by rewrite Hr.
Qed.

Lemma adapter_singular {V} data (l : list (Transaction V (InherentAdapter C))) results :
  fatal_error results = false → List.length l ≠ 1 →
  ∃ r, adapter_check_inherents data l results = Value r ∧ fatal_error r = true.
Proof. intros Hf Hl. destruct l as [|tx [|tx' l]]; [|done|]; by apply adapter_error. Qed.
End adapter.
