(* ===== verification/TemplateRuntime.v ===== *)
(** * TemplateRuntime: the runtime of the template node

    Models [tuxedo-template-runtime/src/lib.rs] and its [genesis.rs]: the
    aggregate verifier and the aggregate constraint checker, as the aggregation
    macros expand them, and the development genesis. *)

From S2P Require Import Prelude Effects Scale Types Checker UtxoSet CheckerLaws Executive Simulation.
From S2P Require Import Verifiers Money Amoeba Poe Kitties Timestamp RuntimeUpgrade Aggregator.

(** ** The aggregate verifier *)

Inductive OuterVerifier : Type :=
| OuterSr25519Signature (inner : Sr25519Signature)
| OuterUpForGrabs (inner : UpForGrabs)
| OuterThresholdMultiSignature (inner : ThresholdMultiSignature).

(** [OuterVerifierRedeemer], generated by [#[tuxedo_verifier]] *)
Inductive OuterVerifierRedeemer : Type :=
| RedeemSr25519Signature (inner : Signature)
| RedeemUpForGrabs (inner : unit)
| RedeemThresholdMultiSignature (inner : list SignatureAndIndex).

(** ** The aggregate constraint checker *)

Definition token_id : u8 := trunc 8 0.

Inductive OuterConstraintChecker : Type :=
| OuterMoney (inner : MoneyConstraintChecker token_id)
| OuterFreeKitty (inner : FreeKittyConstraintChecker)
| OuterAmoebaMitosis (inner : AmoebaMitosis)
| OuterAmoebaDeath (inner : AmoebaDeath)
| OuterAmoebaCreation (inner : AmoebaCreation)
| OuterPoeClaim (inner : PoeClaim)
| OuterPoeRevoke (inner : PoeRevoke)
| OuterPoeDispute (inner : PoeDispute)
| OuterSetTimestamp (inner : InherentAdapter SetTimestamp)
| OuterRuntimeUpgrade (inner : RuntimeUpgrade).

(** [OuterConstraintCheckerError] *)
Inductive OuterError : Type :=
| EMoney (e : MoneyError)
| EFreeKitty (e : KittyError)
| EAmoebaMitosis (e : AmoebaError)
| EAmoebaDeath (e : AmoebaError)
| EAmoebaCreation (e : AmoebaError)
| EPoeClaim (e : PoeError)
| EPoeRevoke (e : PoeError)
| EPoeDispute (e : PoeError)
| ESetTimestamp (e : TimestampError)
| ERuntimeUpgrade (e : UpgradeError).

(** The codecs derived for the runtime's types. *)
Class RuntimeCodecs : Type := {
  codec_outer_verifier : Codec OuterVerifier;
  codec_outer_redeemer : Codec OuterVerifierRedeemer;
  codec_outer_checker : Codec OuterConstraintChecker;
  codec_adapted_timestamp :: Codec (InherentAdapter SetTimestamp);
}.

(** Everything the runtime is built from. *)
Class RuntimeParameters : Type := {
  rt_scale :: Scale;
  rt_host :: Host;
  rt_core :: CoreCodecs;
  rt_inherents :: Inherents;
  rt_verifiers :: VerifierCodecs;
  rt_money :: MoneyCodecs;
  rt_kitty :: KittyCodecs;
  rt_amoeba :: AmoebaCodecs;
  rt_poe :: PoeCodecs;
  rt_timestamp :: TimestampCodecs;
  rt_timestamp_primitives :: TimestampPrimitives;
  rt_upgrade :: UpgradeCodecs;
  rt_keys :: WellKnownKeys;
  rt_runtime :: RuntimeCodecs;
}.

Section runtime.
Context `{RuntimeParameters}.

(** ** [#[tuxedo_verifier] enum OuterVerifier] *)

#[export, refine] Instance redeemer_sr25519 :
  Variant OuterVerifierRedeemer (Redeemer Sr25519Signature) := {|
  wrap := RedeemSr25519Signature : Redeemer Sr25519Signature → _;
  unwrap o := match o with RedeemSr25519Signature i => Some i | _ => None end |}.
Proof. all: intros []; naive_solver. Defined.

#[export, refine] Instance redeemer_up_for_grabs :
  Variant OuterVerifierRedeemer (Redeemer UpForGrabs) := {|
  wrap := RedeemUpForGrabs : Redeemer UpForGrabs → _;
  unwrap o := match o with RedeemUpForGrabs i => Some i | _ => None end |}.
Proof. all: intros []; naive_solver. Defined.

#[export, refine] Instance redeemer_multisig :
  Variant OuterVerifierRedeemer (Redeemer ThresholdMultiSignature) := {|
  wrap := RedeemThresholdMultiSignature : Redeemer ThresholdMultiSignature → _;
  unwrap o := match o with RedeemThresholdMultiSignature i => Some i | _ => None end |}.
Proof. all: intros []; naive_solver. Defined.

Definition outer_verify (self : OuterVerifier) (simplified_tx : bytes) (block_number : u32)
    (redeemer : OuterVerifierRedeemer) : partial bool :=
  match self with
  | OuterSr25519Signature inner => verify_arm inner simplified_tx block_number redeemer
  | OuterUpForGrabs inner => verify_arm inner simplified_tx block_number redeemer
  | OuterThresholdMultiSignature inner => verify_arm inner simplified_tx block_number redeemer
  end.

#[export] Instance outer_verifier : Verifier OuterVerifier := {|
  verifier_codec := codec_outer_verifier;
  redeemer_codec := codec_outer_redeemer;
  Redeemer := OuterVerifierRedeemer;
  verify := outer_verify;
  new_unspendable := OuterSr25519Signature <$> new_unspendable |}.

(** ** The configurations: [Executive::block_height] *)

#[export] Instance runtime_poe_config : PoeConfig := λ St _ E, block_height.
#[export] Instance runtime_timestamp_config : TimestampConfig :=
  default_timestamp_config (λ St _ E, block_height).

(** ** [#[tuxedo_constraint_checker] enum OuterConstraintChecker] *)

#[export, refine] Instance variant_money :
  Variant OuterConstraintChecker (MoneyConstraintChecker token_id) := {|
  wrap := OuterMoney; unwrap o := match o with OuterMoney i => Some i | _ => None end |}.
Proof. all: intros []; naive_solver. Defined.
#[export, refine] Instance variant_kitty :
  Variant OuterConstraintChecker FreeKittyConstraintChecker := {|
  wrap := OuterFreeKitty; unwrap o := match o with OuterFreeKitty i => Some i | _ => None end |}.
Proof. all: intros []; naive_solver. Defined.
#[export, refine] Instance variant_mitosis : Variant OuterConstraintChecker AmoebaMitosis := {|
  wrap := OuterAmoebaMitosis;
  unwrap o := match o with OuterAmoebaMitosis i => Some i | _ => None end |}.
Proof. all: intros []; naive_solver. Defined.
#[export, refine] Instance variant_death : Variant OuterConstraintChecker AmoebaDeath := {|
  wrap := OuterAmoebaDeath;
  unwrap o := match o with OuterAmoebaDeath i => Some i | _ => None end |}.
Proof. all: intros []; naive_solver. Defined.
#[export, refine] Instance variant_creation : Variant OuterConstraintChecker AmoebaCreation := {|
  wrap := OuterAmoebaCreation;
  unwrap o := match o with OuterAmoebaCreation i => Some i | _ => None end |}.
Proof. all: intros []; naive_solver. Defined.
#[export, refine] Instance variant_claim : Variant OuterConstraintChecker PoeClaim := {|
  wrap := OuterPoeClaim; unwrap o := match o with OuterPoeClaim i => Some i | _ => None end |}.
Proof. all: intros []; naive_solver. Defined.
#[export, refine] Instance variant_revoke : Variant OuterConstraintChecker PoeRevoke := {|
  wrap := OuterPoeRevoke; unwrap o := match o with OuterPoeRevoke i => Some i | _ => None end |}.
Proof. all: intros []; naive_solver. Defined.
#[export, refine] Instance variant_dispute : Variant OuterConstraintChecker PoeDispute := {|
  wrap := OuterPoeDispute; unwrap o := match o with OuterPoeDispute i => Some i | _ => None end |}.
Proof. all: intros []; naive_solver. Defined.
#[export, refine] Instance variant_timestamp :
  Variant OuterConstraintChecker (InherentAdapter SetTimestamp) := {|
  wrap := OuterSetTimestamp;
  unwrap o := match o with OuterSetTimestamp i => Some i | _ => None end |}.
Proof. all: intros []; naive_solver. Defined.
#[export, refine] Instance variant_upgrade : Variant OuterConstraintChecker RuntimeUpgrade := {|
  wrap := OuterRuntimeUpgrade;
  unwrap o := match o with OuterRuntimeUpgrade i => Some i | _ => None end |}.
Proof. all: intros []; naive_solver. Defined.

Definition outer_check {St} `{!Store St} (self : OuterConstraintChecker)
    (inputs evicted_inputs peeks outputs : list DynamicallyTypedData) :
    M St OuterError u64 :=
  match self with
  | OuterMoney inner => check_arm inner EMoney inputs evicted_inputs peeks outputs
  | OuterFreeKitty inner => check_arm inner EFreeKitty inputs evicted_inputs peeks outputs
  | OuterAmoebaMitosis inner => check_arm inner EAmoebaMitosis inputs evicted_inputs peeks outputs
  | OuterAmoebaDeath inner => check_arm inner EAmoebaDeath inputs evicted_inputs peeks outputs
  | OuterAmoebaCreation inner =>
    check_arm inner EAmoebaCreation inputs evicted_inputs peeks outputs
  | OuterPoeClaim inner => check_arm inner EPoeClaim inputs evicted_inputs peeks outputs
  | OuterPoeRevoke inner => check_arm inner EPoeRevoke inputs evicted_inputs peeks outputs
  | OuterPoeDispute inner => check_arm inner EPoeDispute inputs evicted_inputs peeks outputs
  | OuterSetTimestamp inner => check_arm inner ESetTimestamp inputs evicted_inputs peeks outputs
  | OuterRuntimeUpgrade inner =>
    check_arm inner ERuntimeUpgrade inputs evicted_inputs peeks outputs
  end.

Definition outer_is_inherent (self : OuterConstraintChecker) : bool :=
  match self with
  | OuterMoney inner => is_inherent inner
  | OuterFreeKitty inner => is_inherent inner
  | OuterAmoebaMitosis inner => is_inherent inner
  | OuterAmoebaDeath inner => is_inherent inner
  | OuterAmoebaCreation inner => is_inherent inner
  | OuterPoeClaim inner => is_inherent inner
  | OuterPoeRevoke inner => is_inherent inner
  | OuterPoeDispute inner => is_inherent inner
  | OuterSetTimestamp inner => is_inherent inner
  | OuterRuntimeUpgrade inner => is_inherent inner
  end.

Definition outer_create_inherents {V} `{Verifier V} (data : InherentData)
    (previous : list (Transaction V OuterConstraintChecker * H256)) :
    M storage Empty_set (list (Transaction V OuterConstraintChecker)) :=
  create_all [
    create_variant (C := MoneyConstraintChecker token_id) data previous;
    create_variant (C := FreeKittyConstraintChecker) data previous;
    create_variant (C := AmoebaMitosis) data previous;
    create_variant (C := AmoebaDeath) data previous;
    create_variant (C := AmoebaCreation) data previous;
    create_variant (C := PoeClaim) data previous;
    create_variant (C := PoeRevoke) data previous;
    create_variant (C := PoeDispute) data previous;
    create_variant (C := InherentAdapter SetTimestamp) data previous;
    create_variant (C := RuntimeUpgrade) data previous ].

Definition outer_check_inherents {V} `{Verifier V} (data : InherentData)
    (inherents : list (Transaction V OuterConstraintChecker)) (results : CheckInherentsResult) :
    partial CheckInherentsResult :=
  check_all_variants [
    check_variant (C := MoneyConstraintChecker token_id) data inherents;
    check_variant (C := FreeKittyConstraintChecker) data inherents;
    check_variant (C := AmoebaMitosis) data inherents;
    check_variant (C := AmoebaDeath) data inherents;
    check_variant (C := AmoebaCreation) data inherents;
    check_variant (C := PoeClaim) data inherents;
    check_variant (C := PoeRevoke) data inherents;
    check_variant (C := PoeDispute) data inherents;
    check_variant (C := InherentAdapter SetTimestamp) data inherents;
    check_variant (C := RuntimeUpgrade) data inherents ] results.

Definition outer_genesis_transactions {V} `{Verifier V} :
    partial (list (Transaction V OuterConstraintChecker)) :=
  genesis_all [
    genesis_variant (C := MoneyConstraintChecker token_id);
    genesis_variant (C := FreeKittyConstraintChecker);
    genesis_variant (C := AmoebaMitosis);
    genesis_variant (C := AmoebaDeath);
    genesis_variant (C := AmoebaCreation);
    genesis_variant (C := PoeClaim);
    genesis_variant (C := PoeRevoke);
    genesis_variant (C := PoeDispute);
    genesis_variant (C := InherentAdapter SetTimestamp);
    genesis_variant (C := RuntimeUpgrade) ].

#[export] Instance outer_checker : ConstraintChecker OuterConstraintChecker := {|
  checker_codec := codec_outer_checker;
  Error := OuterError;
  check St _ := outer_check;
  is_inherent := outer_is_inherent;
  create_inherents V _ := outer_create_inherents;
  check_inherents V _ := outer_check_inherents;
  genesis_transactions V _ := outer_genesis_transactions;
|}.

(** ** The development genesis (genesis.rs) *)

Definition SHAWN_PUB_KEY_BYTES : H256 :=
  to_bytesN 32 (hex "d2bf4b844dfefd6772a8843e669f943408966a977e3ae2af1dd78e0f55f4df67").
Definition ANDREW_PUB_KEY_BYTES : H256 :=
  to_bytesN 32 (hex "baa81e58b1b4d053c2e86d93045765036f9d265c7dfe8b9693bbc2c0f048d93a").

Definition development_genesis_transactions :
    partial (list (Transaction OuterVerifier OuterConstraintChecker)) :=
  let signatories := [SHAWN_PUB_KEY_BYTES; ANDREW_PUB_KEY_BYTES] in
  genesis_transactions ← genesis_transactions (V := OuterVerifier);
  mret (genesis_transactions ++ [
    coin_mint OuterSr25519Signature OuterMoney (trunc 128 100) (mk_sr25519 SHAWN_PUB_KEY_BYTES);
    coin_mint OuterThresholdMultiSignature OuterMoney (trunc 128 100)
      (mk_multisig (trunc 8 1) signatories);
    kitty_mint OuterUpForGrabs OuterFreeKitty parent_mom (bstr "mother") up_for_grabs;
    kitty_mint OuterUpForGrabs OuterFreeKitty parent_dad (bstr "father") up_for_grabs ]).
End runtime.

(** The laws of everything the runtime is built from. *)
Class RuntimeLaws `{RuntimeParameters} : Prop := {
  rl_scale :: ScaleLaws;
  rl_core :: CoreLaws;
  rl_keys :: WellKnownLaws;
  rl_verifier :: @LawfulCodec OuterVerifier verifier_codec;
}.
