(* ===== verification/Wallet.v ===== *)
(** * Wallet: the local database of the wallet

    Models [wallet/src/sync.rs] but for the synchronization loop, with
    [wallet/src/timestamp.rs] and the [apply_transaction] of
    [wallet/src/money.rs].  The database is the record of its trees; opening a
    tree and the input and output of sled never fail in the model. *)

From S2P Require Import Prelude Effects Scale Types Checker Executive Verifiers Money.
From S2P Require Import Timestamp TemplateRuntime.

(** A sled tree, and the order in which its iterator visits it. *)
Abbreviation tree := (gmap bytes bytes).

Class Sled : Type := tree_iter : tree → list (bytes * bytes).
Class SledLaws `{Sled} : Prop := tree_iter_all (t : tree) : tree_iter t ≡ₚ map_to_list t.

(** [sp_runtime::OpaqueExtrinsic], and the block that carries them. *)
Class Opaque : Type := {
  OpaqueExtrinsic : Type;
  codec_opaque_extrinsic :: Codec OpaqueExtrinsic;
}.
Record OpaqueBlock `{Host, Opaque} : Type := mk_opaque_block {
  opaque_header : Header;
  opaque_extrinsics : list OpaqueExtrinsic;
}.
Arguments mk_opaque_block {_ _} _ _.
Class OpaqueCodecs `{Host, Opaque} : Type := codec_opaque_block :: Codec OpaqueBlock.

Record WalletDb : Type := mk_db {
  block_hashes : tree;
  blocks : tree;
  unspent : tree;
  spent : tree;
  timestamps : tree;
}.

(** [anyhow::Error], by its message. *)
Abbreviation W A := (M WalletDb string A).

Section wallet.
Context `{RuntimeParameters, Sled, Opaque, !OpaqueCodecs} {C : Type} `{!ConstraintChecker C}.
Implicit Types (filter : OuterVerifier → bool).

#[local] Existing Instances verifier_codec checker_codec.

(** The transactions of the chain the wallet follows; the checker's type is a
    parameter because the wallet follows sovereign chains and parachains. *)
Abbreviation Tx := (Transaction OuterVerifier C).

(** ** Trees *)

Definition set_block_hashes (f : tree → tree) : W unit := modify (λ db,
  mk_db (f (block_hashes db)) (blocks db) (unspent db) (spent db) (timestamps db)).
Definition set_blocks (f : tree → tree) : W unit := modify (λ db,
  mk_db (block_hashes db) (f (blocks db)) (unspent db) (spent db) (timestamps db)).
Definition set_unspent (f : tree → tree) : W unit := modify (λ db,
  mk_db (block_hashes db) (blocks db) (f (unspent db)) (spent db) (timestamps db)).
Definition set_spent (f : tree → tree) : W unit := modify (λ db,
  mk_db (block_hashes db) (blocks db) (unspent db) (f (spent db)) (timestamps db)).
Definition set_timestamps (f : tree → tree) : W unit := modify (λ db,
  mk_db (block_hashes db) (blocks db) (unspent db) (spent db) (f (timestamps db))).

(** [T::decode(&mut &bytes[..])?] *)
Definition decode_or {A} `{Codec A} (b : bytes) : W A :=
  lift_result (ok_or (decode_value b) "decoding failed").

(** ** Blocks *)

(** [sync::height] *)
Definition height : W (option u32) :=
  num_blocks ← gets (λ db, size (block_hashes db));
  mret (if Nat.eqb num_blocks 0 then None
        else Some (wrapping_sub (trunc 32 (N.of_nat num_blocks)) (trunc 32 1))).

(** [sync::get_block_hash] *)
Definition get_block_hash (height : u32) : W (option H256) :=
  v ← gets (λ db, block_hashes db !! scale_encode height);
  match v with
  | None => mret None
  | Some ivec => hash ← decode_or ivec; mret (Some hash)
  end.

(** [sync::get_block] *)
Definition get_block (hash : H256) : W (option (Block OuterVerifier OuterConstraintChecker)) :=
  v ← gets (λ db, blocks db !! scale_encode hash);
  match v with
  | None => mret None
  | Some ivec => block ← decode_or ivec; mret (Some block)
  end.

(** [sync::open_db], on the database that sled has opened.  The literal [0] that
    looks the genesis hash up is an [i32], encoded like the [u32]. *)
Definition open_db (expected_genesis_hash : H256) (expected_genesis_block : OpaqueBlock) : W unit :=
  h ← height;
  match h with
  | Some _ =>
    v ← gets (λ db, block_hashes db !! scale_encode (trunc 32 0));
    wallet_genesis_ivec ← expect v
      "We know there are some blocks, so there should be a 0th block.";
    wallet_genesis_hash ← decode_or (A := H256) wallet_genesis_ivec;
    ensure! bool_decide (expected_genesis_hash = wallet_genesis_hash)
      else "Node reports a different genesis block than wallet.";
    mret tt
  | None =>
    set_block_hashes <[scale_encode (trunc 32 0) := scale_encode expected_genesis_hash]>;;
    set_blocks <[scale_encode expected_genesis_hash := scale_encode expected_genesis_block]>
  end.

(** ** Outputs *)

(** [sync::get_unspent] *)
Definition get_unspent (output_ref : OutputRef) : W (option (H256 * u128)) :=
  v ← gets (λ db, unspent db !! scale_encode output_ref);
  match v with
  | None => mret None
  | Some ivec => pair ← decode_or ivec; mret (Some pair)
  end.

(** [sync::add_unspent_output] and [sync::remove_unspent_output] *)
Definition add_unspent_output (output_ref : OutputRef) (owner_pubkey : H256) (amount : u128) :
    W unit :=
  set_unspent <[scale_encode output_ref := scale_encode (owner_pubkey, amount)]>.
Definition remove_unspent_output (output_ref : OutputRef) : W unit :=
  set_unspent (delete (scale_encode output_ref)).

(** [sync::spend_output]: the record moves from one tree to the other. *)
Definition spend_output (output_ref : OutputRef) : W unit :=
  v ← gets (λ db, unspent db !! scale_encode output_ref);
  set_unspent (delete (scale_encode output_ref));;
  match v with
  | None => mret tt
  | Some ivec =>
    '(owner, amount) ← decode_or (A := H256 * u128) ivec;
    set_spent <[scale_encode output_ref := scale_encode (owner, amount)]>
  end.

(** [sync::unspend_output] *)
Definition unspend_output (output_ref : OutputRef) : W unit :=
  v ← gets (λ db, spent db !! scale_encode output_ref);
  set_spent (delete (scale_encode output_ref));;
  match v with
  | None => mret tt
  | Some ivec =>
    '(owner, amount) ← decode_or (A := H256 * u128) ivec;
    set_unspent <[scale_encode output_ref := scale_encode (owner, amount)]>
  end.

(** [money::apply_transaction] *)
Definition money_apply_transaction (tx_hash : H256) (index : u32) (output : Output OuterVerifier) :
    W unit :=
  coin ← lift_result (map_err (λ _, "extracting failed") (extract (Coin token_id) (payload output)));
  let amount := value coin in
  let output_ref := mk_output_ref tx_hash index in
  match verifier output with
  | OuterSr25519Signature (mk_sr25519 owner_pubkey) =>
    add_unspent_output output_ref owner_pubkey amount
  | _ => mthrow "()"
  end.

(** [timestamp::apply_transaction] and [timestamp::get_timestamp]; the key is
    the single byte zero. *)
Definition timestamp_apply_transaction (output : Output OuterVerifier) : W unit :=
  stamp ← lift_result (map_err (λ _, "extracting failed") (extract Timestamp (payload output)));
  set_timestamps <[[Byte.x00] := scale_encode (time stamp)]>.

Definition get_timestamp : W u64 :=
  v ← gets (λ db, timestamps db !! [Byte.x00]);
  timestamp ← lift_result (ok_or v "Could not find timestamp in database.");
  lift_result (ok_or (decode_value timestamp) "Could not decode timestamp from database.").

(** ** Transactions *)

(** One turn of the loop over the outputs of [sync::apply_transaction]. *)
Definition apply_output filter (tx_hash : H256) (index : nat) (output : Output OuterVerifier) :
    W unit :=
  if bool_decide (type_id (payload output) = TYPE_ID (Coin token_id)) then
    if filter (verifier output)
    then money_apply_transaction tx_hash (trunc 32 (N.of_nat index)) output else mret tt
  else if bool_decide (type_id (payload output) = TYPE_ID Timestamp)
  then timestamp_apply_transaction output
  else mret tt.

(** [sync::apply_transaction] *)
Definition apply_transaction filter (opaque_tx : OpaqueExtrinsic) : W unit :=
  let encoded_extrinsic := scale_encode opaque_tx in
  let tx_hash := hash_of (A := bytes) encoded_extrinsic in
  tx ← decode_or (A := Tx) encoded_extrinsic;
  for_each (enumerate (outputs tx)) (λ _ '(index, output), apply_output filter tx_hash index output) tt;;
  for_each (inputs tx) (λ _ input, spend_output (output_ref input)) tt.

(** [sync::apply_block] *)
Definition apply_block filter (b : OpaqueBlock) (block_hash : H256) : W unit :=
  set_block_hashes <[scale_encode (number (opaque_header b)) := scale_encode block_hash]>;;
  set_blocks <[scale_encode block_hash := scale_encode b]>;;
  for_each (opaque_extrinsics b) (λ _ tx, apply_transaction filter tx) tt.

(** [sync::unapply_transaction] *)
Definition unapply_transaction (opaque_tx : OpaqueExtrinsic) : W unit :=
  tx ← decode_or (A := Tx) (scale_encode opaque_tx);
  for_each (inputs tx) (λ _ input, unspend_output (output_ref input)) tt;;
  let tx_hash := hash_of (A := bytes) (scale_encode tx) in
  for_each (seq 0 (List.length (outputs tx)))
    (λ _ i, remove_unspent_output (mk_output_ref tx_hash (trunc 32 (N.of_nat i)))) tt.

(** [sync::unapply_highest_block] *)
Definition unapply_highest_block : W unit :=
  h ← height;
  height ← lift_result (ok_or h "Cannot unapply block from uninitialized database");
  v ← gets (λ db, block_hashes db !! scale_encode height);
  set_block_hashes (delete (scale_encode height));;
  ivec ← lift_result (ok_or v "No block hash found at height reported as best. DB is inconsistent.");
  hash ← decode_or (A := H256) ivec;
  v ← gets (λ db, blocks db !! scale_encode hash);
  set_blocks (delete (scale_encode hash));;
  ivec ← lift_result (ok_or v "Block was not present in db but block hash was. DB is corrupted.");
  block ← decode_or (A := OpaqueBlock) ivec;
  for_each (rev (opaque_extrinsics block)) (λ _ tx, unapply_transaction tx) tt.

(** ** Selecting coins and adding them up *)

(** The loop of [sync::get_arbitrary_unspent_set], over what is left of the
    iterator. *)
Fixpoint keep_until (target total : u128) (keepers : list OutputRef) (unspent_iter : list (bytes * bytes)) :
    W (option (list OutputRef)) :=
  if N.ltb (uval total) (uval target) then
    match unspent_iter with
    | [] => mret None
    | (output_ref_ivec, owner_amount_ivec) :: unspent_iter =>
      output_ref ← decode_or (A := OutputRef) output_ref_ivec;
      '(_, amount) ← decode_or (A := H256 * u128) owner_amount_ivec;
      keep_until target (wrapping_add total amount) (keepers ++ [output_ref]) unspent_iter
    end
  else mret (Some keepers).

(** [sync::get_arbitrary_unspent_set] *)
Definition get_arbitrary_unspent_set (target : u128) : W (option (list OutputRef)) :=
  unspent_iter ← gets (λ db, tree_iter (unspent db));
  keep_until target (trunc 128 0) [] unspent_iter.

(** [sync::get_balances]: the map that the iterator returned goes through. *)
Definition add_balance (balances : gmap H256 u128) (raw_data : bytes * bytes) :
    W (gmap H256 u128) :=
  '(owner, amount) ← decode_or (A := H256 * u128) raw_data.2;
  mret (<[owner := match balances !! owner with
                   | Some old => wrapping_add old amount
                   | None => amount
                   end]> balances).
Definition get_balances : W (gmap H256 u128) :=
  unspent_iter ← gets (λ db, tree_iter (unspent db));
  for_each unspent_iter add_balance ∅.
End wallet.

(** The evaluation of a database operation stops at the decodings. *)
Arguments decode_or : simpl never.

Lemma decode_or_encode {A} `{LawfulCodec A} (a : A) :
  (decode_or (scale_encode a) : W A) = mret a.
Proof. unfold decode_or. by rewrite decode_value_encode. Qed.
