(* ===== verification/WalletRpc.v ===== *)
(** * WalletRpc: strings, the node's RPC endpoint, and synchronization

    Models the string helpers of [wallet/src/main.rs], [wallet/src/rpc.rs] and the
    synchronization loops of [wallet/src/sync.rs].  The RPC endpoint is a parameter that answers every
    request the same way however often it is asked: the model is that of a node
    whose chain does not move during a synchronization. *)

From S2P Require Import Prelude Effects Scale Types Checker Executive TemplateRuntime Wallet.
From Stdlib Require Import Strings.String Strings.Ascii.

(** ** Strings (main.rs) *)

(** The [hex] crate. *)
Class HexCrate : Type := {
  hex_encode : bytes → string;
  hex_decode : string → option bytes;
  hex_decode_to_slice (n : nat) : string → option (bytesN n);
}.

(** The encoding has two characters a byte, all of them hexadecimal digits, and
    decodes; decoding to a slice wants exactly as many bytes as the slice holds. *)
Definition is_hex_char (c : ascii) : Prop :=
  c ∈ list_ascii_of_string "0123456789abcdef".
Class HexLaws `{HexCrate} : Prop := {
  hex_length b : String.length (hex_encode b) = 2 * List.length b;
  hex_chars b : Forall is_hex_char (list_ascii_of_string (hex_encode b));
  hex_decode_encode b : hex_decode (hex_encode b) = Some b;
  hex_slice_encode n (x : bytesN n) : hex_decode_to_slice n (hex_encode (bytesN_val x)) = Some x;
}.

(** [s.is_char_boundary(2)] for a string of two bytes at least: the next byte, if
    any, does not continue a UTF-8 sequence. *)
Definition boundary_at_2 (s : string) : bool :=
  match String.get 2 s with
  | None => true
  | Some c => negb (Nat.leb 128 (nat_of_ascii c) && Nat.ltb (nat_of_ascii c) 192)
  end.

(** [strip_0x_prefix]: slicing panics on a string that is too short. *)
Definition strip_0x_prefix (s : string) : partial string :=
  if Nat.ltb (String.length s) 2 || negb (boundary_at_2 s)
  then Panicked "byte index 2 is out of bounds or not a char boundary"
  else if bool_decide (String.substring 0 2 s = "0x"%string)
  then mret (String.substring 2 (String.length s - 2) s)
  else mret s.

Section strings.
Context `{RuntimeParameters, HexCrate}.

(** [h256_from_string] *)
Definition h256_from_string (s : string) : partial (result string H256) :=
  s ← strip_0x_prefix s;
  mret (ok_or (hex_decode_to_slice 32 s) "ValueValidation").

(** [output_ref_from_string] *)
Definition output_ref_from_string (s : string) : partial (result string OutputRef) :=
  s ← strip_0x_prefix s;
  mret (b ← ok_or (hex_decode s) "ValueValidation";
        ok_or (decode_value (A := OutputRef) b) "ValueValidation").
End strings.

(** ** The RPC endpoint (rpc.rs) *)

(** The requests of the client, by their method. *)
Class NodeClient `{Host, Opaque} : Type := {
  Json : Type;
  json_get : Json → string → option Json;
  opaque_block_from_json : Json → option OpaqueBlock;
  chain_getBlockHash : u32 → result string (option string);
  chain_getBlock : string → result string (option Json);
  state_getStorage : string → result string (option string);
  state_getMetadata : result string (option string);
  author_submitExtrinsic : string → result string string;
}.

Section rpc.
Context `{RuntimeParameters, Sled, Opaque, !OpaqueCodecs, HexCrate, !NodeClient, !Codec TuxedoMetadata}.
Context {S : Type}.

(** [metadata_from_string] and [node_get_metadata] *)
Definition metadata_from_string (s : string) : M S string TuxedoMetadata :=
  s ← lift_partial (strip_0x_prefix s);
  b ← lift_result (ok_or (hex_decode s) "hex decoding failed");
  lift_result (ok_or (decode_value b) "decoding failed").
Definition node_get_metadata : M S string TuxedoMetadata :=
  rpc_response ← lift_result state_getMetadata;
  s ← expect rpc_response "metadata should be available.";
  metadata_from_string s.

(** [node_get_block_hash]: a malformed answer panics. *)
Definition node_get_block_hash (height : u32) : M S string (option H256) :=
  rpc_response ← lift_result (chain_getBlockHash height);
  match rpc_response with
  | None => mret None
  | Some s =>
    r ← lift_partial (h256_from_string s);
    hash ← expect (ok r) "called `Result::unwrap()` on an `Err` value";
    mret (Some hash)
  end.

(** [node_get_block] *)
Definition node_get_block (hash : H256) : M S string (option OpaqueBlock) :=
  maybe_rpc_response ← lift_result (chain_getBlock (hex_encode (bytesN_val hash)));
  rpc_response ← expect maybe_rpc_response "called `Option::unwrap()` on a `None` value";
  json_opaque_block ← expect (json_get rpc_response "block")
    "called `Option::unwrap()` on a `None` value";
  opaque_block ← expect (opaque_block_from_json json_opaque_block)
    "called `Result::unwrap()` on an `Err` value";
  mret (Some opaque_block).

(** [fetch_storage] *)
Definition fetch_storage (output_ref : OutputRef) : M S string (Output OuterVerifier) :=
  let ref_hex := hex_encode (scale_encode output_ref) in
  rpc_response ← lift_result (state_getStorage ref_hex);
  response_hex ← lift_result (ok_or rpc_response "Data cannot be retrieved from storage");
  response_hex ← lift_partial (strip_0x_prefix response_hex);
  response_bytes ← lift_result (ok_or (hex_decode response_hex) "hex decoding failed");
  lift_result (ok_or (decode_value (H := codec_output _ verifier_codec) response_bytes)
                 "decoding failed").
End rpc.

(** ** Synchronization (sync.rs) *)

Section sync.
Context `{RuntimeParameters, Sled, Opaque, !OpaqueCodecs, HexCrate, !NodeClient}.
Context {C : Type} `{!ConstraintChecker C}.

Definition missing_hash : string :=
  "Local database should have a block hash at the height reported as best".

(** The loop that rolls orphan blocks back, with its three variables; [None] when
    the fuel runs out before the loop ends. *)
Fixpoint roll_back (fuel : nat) (height : u32) (wallet_hash : H256) (node_hash : option H256) :
    W (option u32) :=
  if bool_decide (Some wallet_hash = node_hash) then mret (Some height) else
  match fuel with
  | O => mret None
  | S fuel =>
    unapply_highest_block (C := C);;
    let height := wrapping_sub height (trunc 32 1) in
    h ← get_block_hash height;
    wallet_hash ← expect h missing_hash;
    node_hash ← node_get_block_hash height;
    roll_back fuel height wallet_hash node_hash
  end.

(** The loop that follows the node forward. *)
Fixpoint follow (fuel : nat) (filter : OuterVerifier → bool) (height : u32)
    (node_hash : option H256) : W (option unit) :=
  match node_hash with
  | None => mret (Some tt)
  | Some hash =>
    match fuel with
    | O => mret None
    | S fuel =>
      b ← node_get_block hash;
      block ← expect b "Node should be able to return a block whose hash it already returned";
      apply_block (C := C) filter block hash;;
      let height := wrapping_add height (trunc 32 1) in
      node_hash ← node_get_block_hash height;
      follow fuel filter height node_hash
    end
  end.

(** [synchronize_helper] *)
Definition synchronize_helper (fuel : nat) (filter : OuterVerifier → bool) : W (option unit) :=
  h ← Wallet.height;
  height ← lift_result (ok_or h "tried to sync an uninitialized database");
  h ← get_block_hash height;
  wallet_hash ← expect h missing_hash;
  node_hash ← node_get_block_hash height;
  r ← roll_back fuel height wallet_hash node_hash;
  match r with
  | None => mret None
  | Some height =>
    let height := wrapping_add height (trunc 32 1) in
    node_hash ← node_get_block_hash height;
    follow fuel filter height node_hash
  end.

(** What [main] does with the database before it dispatches the command: open
    it, apply the genesis block to a new one, and synchronize.  [recovered] is
    what sled answers to [was_recovered]. *)
Definition start_wallet (fuel : nat) (filter : OuterVerifier → bool) (recovered no_sync : bool) :
    W (option unit) :=
  h ← node_get_block_hash (trunc 32 0);
  node_genesis_hash ← expect h "node should be able to return some genesis hash";
  b ← node_get_block node_genesis_hash;
  node_genesis_block ← expect b "node should be able to return some genesis block";
  open_db node_genesis_hash node_genesis_block;;
  h ← Wallet.height;
  expect h "db should be initialized automatically when opening.";;
  (if recovered then mret tt else apply_block (C := C) filter node_genesis_block node_genesis_hash);;
  if no_sync then mret (Some tt) else
  r ← synchronize_helper fuel filter;
  match r with
  | None => mret None
  | Some _ =>
    h ← Wallet.height;
    expect h "We just synced, so there is a height available";;
    mret (Some tt)
  end.
End sync.
