(* ===== verification/WalletSpend.v ===== *)
(** * WalletSpend: the transactions the wallet builds

    Models [wallet/src/money.rs] (minting, spending, reading a coin back),
    [wallet/src/amoeba.rs] and the parts of [wallet/src/keystore.rs] they use.  The helpers
    answer the transactions they submit; what the node answers to a submission is
    logged and ignored. *)

From S2P Require Import Prelude Effects Scale Types Checker Executive Verifiers Money Amoeba.
From S2P Require Import TemplateRuntime Wallet WalletRpc.

(** ** The keystore (keystore.rs) *)

(** [sc_keystore::LocalKeystore].  Signatures are randomised: the answer depends on
    the number of the call. *)
Class LocalKeystore `{Host} : Type := {
  sr25519_sign : nat → bytes → Public → bytes → result string (option Signature);
  has_keys : list (bytes * bytes) → bool;
}.

Definition KEY_TYPE : bytes := bstr "_tux".

Section keystore.
Context `{RuntimeParameters} {local : LocalKeystore}.

Definition sign_with (call : nat) (public : Public) (message : bytes) : result string Signature :=
  s ← sr25519_sign call KEY_TYPE public message;
  ok_or s "Key doesn't exist in keystore".

Definition has_key (pubkey : H256) : bool := has_keys [(scale_encode pubkey, KEY_TYPE)].

(** The filter of [main]: what is owned by a key of the keystore. *)
Definition keystore_filter (v : OuterVerifier) : bool :=
  match v with OuterSr25519Signature (mk_sr25519 owner_pubkey) => has_key owner_pubkey | _ => false end.
End keystore.

(** ** Minting and spending (money.rs) *)

Record MintCoinArgs : Type := mk_mint_args { amount : u128; owner : H256 }.
Record SpendArgs : Type := mk_spend_args {
  input : list OutputRef;
  recipient : H256;
  output_amount : list u128;
}.

Section spend.
Context `{RuntimeParameters, Sled, HexCrate, Opaque, !NodeClient} {local : LocalKeystore}.
Context {C : Type} `{!ConstraintChecker C} (from_outer : OuterConstraintChecker → C).
#[local] Existing Instances verifier_codec checker_codec.

Abbreviation Tx := (Transaction OuterVerifier C).

(** The request that submits a transaction; its answer is logged and ignored. *)
Definition submit (tx : Tx) : result string string :=
  author_submitExtrinsic (hex_encode (scale_encode tx)).

(** The two loops that print the references created, with their values. *)
Definition created_refs (tx : Tx) : W (list (OutputRef * u128)) :=
  let tx_hash := hash_of (A := bytes) (scale_encode tx) in
  for_each (enumerate (outputs tx)) (λ created '(i, output),
    coin ← lift_result (map_err (λ _, "extracting failed") (extract (Coin token_id) (payload output)));
    mret (created ++ [(mk_output_ref tx_hash (trunc 32 (N.of_nat i)), value coin)])) [].

(** [mint_coins_helper] *)
Definition mint_coins_helper (args : MintCoinArgs) : W (Tx * list (OutputRef * u128)) :=
  let transaction := mk_transaction [] []
    [output_from OuterSr25519Signature (coin_new (ID := token_id) (amount args), mk_sr25519 (owner args))]
    (from_outer (OuterMoney Mint)) in
  let _spawn_response := submit transaction in
  created ← created_refs transaction;
  mret (transaction, created).

(** [get_coin_from_storage] *)
Definition get_coin_from_storage (output_ref : OutputRef) : W (Coin token_id * OuterVerifier) :=
  utxo ← fetch_storage output_ref;
  coin_in_storage ← lift_result (map_err (λ _, "extracting failed")
                                   (extract (Coin token_id) (payload utxo)));
  mret (coin_in_storage, verifier utxo).

(** The loops of [spend_coins_helper], one definition each. *)
Definition spend_outputs (args : SpendArgs) : list (Output OuterVerifier) :=
  map (λ amount, mk_output (typed_from (coin_new (ID := token_id) amount))
                   (OuterSr25519Signature (mk_sr25519 (recipient args)))) (output_amount args).
Definition total_output_amount (args : SpendArgs) : u128 :=
  fold_left wrapping_add (output_amount args) (trunc 128 0).

Definition add_chosen (total : u128) (output_ref : OutputRef) : W u128 :=
  v ← get_unspent output_ref;
  '(_, amount) ← lift_result (ok_or v "user-specified output ref not found in local database");
  mret (wrapping_add total amount).

Definition select_inputs (args : SpendArgs) : W (list OutputRef) :=
  total_input_amount ← for_each (input args) add_chosen (trunc 128 0);
  if N.ltb (uval total_input_amount) (uval (total_output_amount args)) then
    more ← get_arbitrary_unspent_set (wrapping_sub (total_output_amount args) total_input_amount);
    more_inputs ← lift_result (ok_or more "Not enough value in database to construct transaction");
    mret (input args ++ more_inputs)
  else mret (input args).

Definition push_input (inputs : list Input) (output_ref : OutputRef) : W (list Input) :=
  get_coin_from_storage output_ref;;
  mret (inputs ++ [mk_input output_ref default_redemption]).

(** The redeemer the wallet attaches to the [call]-th input. *)
Definition sign_input (stripped : bytes) (signed : list Input) (p : nat * Input) : W (list Input) :=
  let '(call, input) := p in
  utxo ← fetch_storage (output_ref input);
  redeemer ← match verifier utxo with
             | OuterSr25519Signature (mk_sr25519 owner_pubkey) =>
               signature ← lift_result (sign_with call owner_pubkey stripped);
               mret (RedeemSr25519Signature signature)
             | OuterUpForGrabs _ => mret (RedeemUpForGrabs tt)
             | OuterThresholdMultiSignature _ => panic "not yet implemented"
             end;
  mret (signed ++ [mk_input (output_ref input)
                     (Redemption (scale_encode (redeemer : Redeemer OuterVerifier)))]).

(** [spend_coins_helper] *)
Definition spend_coins_helper (args : SpendArgs) : W (Tx * list (OutputRef * u128)) :=
  all_input_refs ← select_inputs args;
  inputs ← for_each all_input_refs push_input [];
  let transaction := mk_transaction inputs [] (spend_outputs args) (from_outer (OuterMoney Spend)) in
  let stripped_encoded_transaction := scale_encode transaction in
  signed ← for_each (enumerate inputs) (sign_input stripped_encoded_transaction) [];
  let transaction := mk_transaction signed [] (spend_outputs args) (from_outer (OuterMoney Spend)) in
  let _genesis_spend_response := submit transaction in
  created ← created_refs transaction;
  mret (transaction, created).
End spend.

(** ** The amoeba demonstration (amoeba.rs) *)

Section amoeba.
Context `{RuntimeParameters, HexCrate, Opaque}.
Context {C : Type} `{!ConstraintChecker C} (from_outer : OuterConstraintChecker → C).
#[local] Existing Instances verifier_codec checker_codec.

Definition amoeba_output (generation : N) (four_bytes : string) : Output OuterVerifier :=
  mk_output (typed_from (mk_amoeba (trunc 32 generation) (to_bytesN 4 (bstr four_bytes))))
    (OuterUpForGrabs up_for_grabs).

(** The first transaction, and the second, which refers to its output. *)
Definition spawn_tx : Transaction OuterVerifier C :=
  mk_transaction [] [] [amoeba_output 0 "eve_"] (from_outer (OuterAmoebaCreation amoeba_creation)).
Definition mitosis_tx : Transaction OuterVerifier C :=
  let eve_ref := mk_output_ref (hash_of (A := bytes) (scale_encode spawn_tx)) (trunc 32 0) in
  mk_transaction [mk_input eve_ref default_redemption] []
    [amoeba_output 1 "cain"; amoeba_output 1 "able"]
    (from_outer (OuterAmoebaMitosis amoeba_mitosis)).

Definition fetch_amoeba (client : NodeClient) (output_ref : OutputRef) : W AmoebaDetails :=
  utxo ← fetch_storage output_ref;
  lift_result (map_err (λ _, "extracting failed") (extract AmoebaDetails (payload utxo))).

(** What the demonstration prints: the node's responses and the amoebas. *)
Record AmoebaReport : Type := mk_amoebas {
  spawn_response : result string string;
  eve : AmoebaDetails;
  mitosis_response : result string string;
  cain : AmoebaDetails;
  able : AmoebaDetails;
}.

(** [amoeba_demo_helper]: the node as it is when each transaction is submitted and
    after each of the two waits. *)
Definition amoeba_demo_helper (client after_spawn after_mitosis : NodeClient) : W AmoebaReport :=
  let eve_ref := mk_output_ref (hash_of (A := bytes) (scale_encode spawn_tx)) (trunc 32 0) in
  let spawn_response := @submit _ _ _ client _ _ spawn_tx in
  eve_from_storage ← fetch_amoeba after_spawn eve_ref;
  let cain_ref := mk_output_ref (hash_of (A := bytes) (scale_encode mitosis_tx)) (trunc 32 0) in
  let able_ref := mk_output_ref (hash_of (A := bytes) (scale_encode mitosis_tx)) (trunc 32 1) in
  let mitosis_response := @submit _ _ _ after_spawn _ _ mitosis_tx in
  cain_from_storage ← fetch_amoeba after_mitosis cain_ref;
  able_from_storage ← fetch_amoeba after_mitosis able_ref;
  mret (mk_amoebas spawn_response eve_from_storage mitosis_response cain_from_storage
          able_from_storage).
End amoeba.
