(* ===== verification/WalletKeystore.v ===== *)
(** * WalletKeystore: managing the keys of the wallet

    Models the rest of [wallet/src/keystore.rs]: the development key, inserting,
    generating, listing and removing keys.  The keystore library, with the
    directory it keeps its files in, is a parameter. *)

From S2P Require Import Prelude Effects Scale Types Checker Executive Verifiers.
From S2P Require Import TemplateRuntime Wallet WalletRpc WalletSpend.

(** [sc_keystore::LocalKeystore] with its directory, the removal of a file of that
    directory, and the key pairs of [sp_core::sr25519].  [generate_with_phrase]
    answers the pair that the entropy of this run gives. *)
Class KeystoreLibrary `{Host} : Type := {
  Keystore : Type;
  keystore_sign : Keystore → nat → bytes → Public → bytes → result string (option Signature);
  keystore_has_keys : Keystore → list (bytes * bytes) → bool;
  sr25519_generate_new : bytes → option string → Keystore → result string (Public * Keystore);
  keystore_insert : bytes → string → bytes → Keystore → result unit Keystore;
  keystore_keys : bytes → Keystore → result string (list bytes);
  remove_file : string → Keystore → result string Keystore;
  pair_from_phrase : string → option string → result string Public;
  generate_with_phrase : option string → Public * string;
}.

(** What signing and filtering use, in a given state of the keystore. *)
Definition keystore_at `{Host, !KeystoreLibrary} (keystore : Keystore) : LocalKeystore := {|
  sr25519_sign := keystore_sign keystore;
  has_keys := keystore_has_keys keystore;
|}.

Section keys.
Context `{RuntimeParameters, HexCrate, !KeystoreLibrary}.
Abbreviation K A := (M Keystore string A).

Definition SHAWN_PHRASE : string :=
  "news slush supreme milk chapter athlete soap sausage put clutch what kitten".
Definition SHAWN_PUB_KEY : string :=
  "d2bf4b844dfefd6772a8843e669f943408966a977e3ae2af1dd78e0f55f4df67".

(** A call that changes the keystore, or fails. *)
Definition update_keystore {E} (f : Keystore → result E Keystore) (say : E → string) : K unit :=
  λ keystore, match f keystore with
              | Ok keystore => Ret tt keystore
              | Err e => Throw (say e) keystore
              end.

Definition insert_development_key_for_this_session : K unit :=
  update_keystore (λ keystore, '(_, keystore) ← sr25519_generate_new KEY_TYPE (Some SHAWN_PHRASE) keystore;
                               mret keystore) id.

(** [insert_key] and [generate_key] answer what they print. *)
Definition insert_key (seed : string) : K Public :=
  public_key ← lift_result (pair_from_phrase seed None);
  update_keystore (keystore_insert KEY_TYPE seed (bytesN_val public_key)) (λ _, "Error inserting key"%string);;
  mret public_key.
Definition generate_key (password : option string) : K (Public * string) :=
  let '(public, phrase) := generate_with_phrase password in
  update_keystore (keystore_insert KEY_TYPE phrase (bytesN_val public)) (λ _, "Error inserting key"%string);;
  mret (public, phrase).

Definition get_keys : K (list bytes) :=
  r ← gets (keystore_keys KEY_TYPE);
  lift_result r.

(** The file's name is made of the key type and the key. *)
Definition key_file (pub_key : H256) : string :=
  (hex_encode KEY_TYPE ++ hex_encode (bytesN_val pub_key))%string.
Definition remove_key (pub_key : H256) : K unit :=
  update_keystore (remove_file (key_file pub_key)) id.
End keys.

(** ** The life of a key

    What the library documents: a key is there when it was generated for the session
    or a file named after it is in the directory. *)

Class KeystoreLibraryLaws `{Host, HexCrate, !KeystoreLibrary} : Type := {
  key_files : Keystore → gmap string string;
  session_keys : Keystore → list (bytes * bytes);
  has_keys_law keystore (public kind : bytes) :
    keystore_has_keys keystore [(public, kind)] = true ↔
    (public, kind) ∈ session_keys keystore ∨
    is_Some (key_files keystore !! (hex_encode kind ++ hex_encode public)%string);
  insert_law kind suri public keystore keystore' :
    keystore_insert kind suri public keystore = Ok keystore' →
    session_keys keystore' = session_keys keystore ∧
    key_files keystore' = <[(hex_encode kind ++ hex_encode public)%string := suri]> (key_files keystore);
  remove_law name keystore keystore' :
    remove_file name keystore = Ok keystore' →
    is_Some (key_files keystore !! name) ∧ session_keys keystore' = session_keys keystore ∧
    key_files keystore' = delete name (key_files keystore);
}.

Section lifecycle.
Context `{RuntimeLaws, HexCrate, !HexLaws, !KeystoreLibrary, !KeystoreLibraryLaws}.
Implicit Types (key : H256) (keystore : Keystore).

(** An array is encoded as its bytes. *)
Hypothesis array_raw : ∀ key, scale_encode key = bytesN_val key.

Definition holds_key keystore key : bool := has_key (local := keystore_at keystore) key.

Lemma append_inj (a b c : string) : (a ++ b)%string = (a ++ c)%string → b = c.
Proof. induction a as [|x a IH]; [done|]. cbn. intros [= E]. by apply IH. Qed.

Lemma hex_encode_inj (a b : bytes) : hex_encode a = hex_encode b → a = b.
Proof.
  intros E. pose proof (hex_decode_encode a) as Ea. rewrite E, hex_decode_encode in Ea. congruence.
Qed.

Lemma key_file_inj k1 k2 : key_file k1 = key_file k2 → k1 = k2.
Proof. intros E%append_inj%hex_encode_inj. by apply bytesN_eq. Qed.

Lemma holds_key_spec keystore key :
  holds_key keystore key = true ↔
  (bytesN_val key, KEY_TYPE) ∈ session_keys keystore ∨ is_Some (key_files keystore !! key_file key).
Proof.
  unfold holds_key, has_key. cbn [has_keys keystore_at]. rewrite array_raw. apply has_keys_law.
Qed.

(** A key that is inserted, or generated, is there afterwards; a key that is removed
    is not, unless it was generated for the session only, where there is nothing to
    remove. No other key is affected. *)
Lemma inserted_key seed keystore public keystore' :
  insert_key seed keystore = Ret public keystore' →
  holds_key keystore' public = true ∧
  ∀ key, key ≠ public → (holds_key keystore' key = true ↔ holds_key keystore key = true).
Proof.
  unfold insert_key. intros Hr. inv_bind Hr. inv_bind Hr. injection Hr as -> ->.
  apply lift_result_ret in Hm as [_ ->].
  unfold update_keystore in Hm0. destruct (keystore_insert _ _ _ _) as [k|] eqn:Hi; [|done].
  injection Hm0 as _ ->. apply insert_law in Hi as [Hs Hf]. split.
  - apply holds_key_spec. right. rewrite Hf. unfold key_file. by rewrite lookup_insert_eq.
  - intros key Hk. rewrite !holds_key_spec, Hs, Hf. fold (key_file public).
    by rewrite lookup_insert_ne by by intros E%key_file_inj.
Qed.

Lemma removed_key keystore public keystore' :
  remove_key public keystore = Ret tt keystore' →
  (holds_key keystore' public = true ↔ (bytesN_val public, KEY_TYPE) ∈ session_keys keystore) ∧
  ∀ key, key ≠ public → (holds_key keystore' key = true ↔ holds_key keystore key = true).
Proof.
  unfold remove_key, update_keystore. destruct (remove_file _ _) as [k|] eqn:Hi; [|done].
  intros [= ->]. apply remove_law in Hi as (_ & Hs & Hf). split.
  - rewrite holds_key_spec, Hs, Hf, lookup_delete_eq. split; [intros [?|[? [=]]]; done|by left].
  - intros key Hk. rewrite !holds_key_spec, Hs, Hf.
    by rewrite lookup_delete_ne by by intros E%key_file_inj.
Qed.
End lifecycle.

(** ** A keystore over maps, which satisfies the laws *)

Module MapKeystore.
Section instance.
Context `{Host, HexCrate}.
Definition file_name (kind public : bytes) : string := (hex_encode kind ++ hex_encode public)%string.
Definition present (keystore : gmap string string * list (bytes * bytes)) (q : bytes * bytes) : bool :=
  bool_decide (q ∈ keystore.2) || bool_decide (is_Some (keystore.1 !! file_name q.2 q.1)).

#[export] Instance map_keystore : KeystoreLibrary := {|
  Keystore := gmap string string * list (bytes * bytes);
  keystore_sign _ _ _ _ _ := Ok None;
  keystore_has_keys keystore := forallb (present keystore);
  sr25519_generate_new kind seed keystore :=
    let public := to_bytesN 32 (bstr (default "" seed)) in
    Ok (public, (keystore.1, (bytesN_val public, kind) :: keystore.2));
  keystore_insert kind suri public keystore :=
    Ok (<[file_name kind public := suri]> keystore.1, keystore.2);
  keystore_keys kind keystore := Ok (omap
    (λ q : bytes * bytes, if bool_decide (q.2 = kind) then Some q.1 else None) keystore.2);
  remove_file name keystore :=
    if bool_decide (is_Some (keystore.1 !! name)) then Ok (delete name keystore.1, keystore.2)
    else Err "No such file or directory"%string;
  pair_from_phrase seed _ := Ok (to_bytesN 32 (bstr seed));
  generate_with_phrase _ := (H256_zero, "phrase"%string);
|}.

#[export, refine] Instance map_keystore_laws : KeystoreLibraryLaws := {|
  key_files := fst; session_keys := snd |}.
Proof.
  - intros keystore public kind. cbn. unfold present. cbn.
    rewrite andb_true_r, orb_true_iff, !bool_decide_eq_true. done.
  - intros kind suri public keystore keystore' [= <-]. done.
  - intros name keystore keystore'. cbn. case_bool_decide as Hn; [|done]. by intros [= <-].
Defined.
End instance.
End MapKeystore.
