(* ===== verification/WalletMain.v ===== *)
(** * WalletMain: the wallet's commands

    Models the dispatch of [wallet/src/main.rs] on the kind of chain and on the
    command, the printing functions of [wallet/src/sync.rs], and the constraint
    checker of [wallet/src/parachain.rs].  The program runs on the database and the
    keystore; what a command prints is its answer.  Parsing the command line is
    not modelled. *)

From S2P Require Import Prelude Effects Scale Types Checker Executive Money Amoeba.
From S2P Require Import TemplateRuntime Wallet WalletRpc WalletSpend WalletKeystore.

(** ** The parachain's constraint checker (parachain.rs) *)

Inductive WalletParachainChecker : Type :=
| Normal (inner : OuterConstraintChecker)
| Parachain.

Class WalletParachainCodec : Type := codec_wallet_parachain :: Codec WalletParachainChecker.

Section parachain.
Context `{RuntimeParameters, !WalletParachainCodec}.

(** The wallet never checks: [todo!()]. *)
#[export] Instance wallet_parachain_checker : SimpleConstraintChecker WalletParachainChecker := {|
  SimpleError := unit;
  simple_check _ _ _ _ _ _ _ := panic "not yet implemented";
|}.

(** [From<OuterConstraintChecker>], for the two kinds of chain. *)
Definition normal_from (c : OuterConstraintChecker) : WalletParachainChecker := Normal c.
Definition outer_from (c : OuterConstraintChecker) : OuterConstraintChecker := c.
End parachain.

(** ** Commands (cli.rs) *)

Inductive Command : Type :=
| AmoebaDemo
| MintCoins (args : MintCoinArgs)
| VerifyCoin (output_ref : OutputRef)
| SpendCoins (args : SpendArgs)
| InsertKey (seed : string)
| GenerateKey (password : option string)
| ShowKeys
| RemoveKey (pub_key : H256)
| ShowBalance
| ShowAllOutputs
| ShowTimestamp.

(** What a command prints. *)
Inductive report : Type :=
| Amoebas (amoebas : AmoebaReport)
| Submitted (encoded : string) (created : list (OutputRef * u128))
| CoinDetails (stored : u128) (verifier : OuterVerifier) (local : option (H256 * u128))
| KeyInserted (public_key : Public)
| KeyGenerated (public : Public) (phrase : string)
| Keys (keys : list string)
| Balances (rows : list (H256 * u128)) (total : u128)
| Outputs (rows : list (string * H256 * u128))
| Time (timestamp : u64)
| Nothing.

(** The command line, as clap parses it. *)
Record Cli : Type := mk_cli {
  endpoint : string;
  base_path : option string;
  no_sync : bool;
  tmp : bool;
  dev : bool;
  command : option Command;
}.

Section commands.
Context `{RuntimeParameters, !WalletParachainCodec, Sled, Opaque, !OpaqueCodecs, HexCrate}.
Context `{!NodeClient, !KeystoreLibrary, !Codec TuxedoMetadata}.
#[local] Existing Instances verifier_codec checker_codec.

(** ** Printing the database (sync.rs) *)

(** [print_block_hashes_tree]: the range excludes the height itself. *)
Definition print_block_hashes_tree : W (list (u32 * option H256)) :=
  h ← Wallet.height;
  height ← expect h "called `Option::unwrap()` on a `None` value";
  for_each (seq 0 (N.to_nat (uval height)))
    (λ lines i, let height := trunc 32 (N.of_nat i) in
       hash ← get_block_hash height; mret (lines ++ [(height, hash)])) [].

(** [print_unspent_tree] *)
Definition print_unspent (lines : list (string * H256 * u128)) (x : bytes * bytes) :
    W (list (string * H256 * u128)) :=
  let output_ref := hex_encode x.1 in
  '(owner_pubkey, amount) ← decode_or (A := H256 * u128) x.2;
  mret (lines ++ [(output_ref, owner_pubkey, amount)]).
Definition print_unspent_tree : W (list (string * H256 * u128)) :=
  unspent_iter ← gets (λ db, tree_iter (unspent db));
  for_each unspent_iter print_unspent [].

(** ** The dispatch on the kind of chain *)

(** [sync::synchronize], [money::mint_coins] and [money::spend_coins] *)
Definition synchronize (is_parachain : bool) (fuel : nat) (filter : OuterVerifier → bool) :
    W (option unit) :=
  if is_parachain then synchronize_helper (C := WalletParachainChecker) fuel filter
  else synchronize_helper (C := OuterConstraintChecker) fuel filter.

Definition submitted {C} `{!ConstraintChecker C}
    (r : Transaction OuterVerifier C * list (OutputRef * u128)) : report :=
  Submitted (hex_encode (scale_encode r.1)) r.2.

Definition mint_coins (is_parachain : bool) (args : MintCoinArgs) : W report :=
  if is_parachain then r ← mint_coins_helper normal_from args; mret (submitted r)
  else r ← mint_coins_helper outer_from args; mret (submitted r).
Definition spend_coins {local : LocalKeystore} (is_parachain : bool) (args : SpendArgs) : W report :=
  if is_parachain then r ← spend_coins_helper normal_from args; mret (submitted r)
  else r ← spend_coins_helper outer_from args; mret (submitted r).
(** The node after each of the two waits of the amoeba demonstration.  A record, so
    that no other request is answered by one of them. *)
Record Waits : Type := mk_waits { after_spawn : NodeClient; after_mitosis : NodeClient }.

(** [amoeba::amoeba_demo] *)
Definition amoeba_demo (is_parachain : bool) (waits : Waits) : W report :=
  amoebas ← (if is_parachain
    then amoeba_demo_helper normal_from _ (after_spawn waits) (after_mitosis waits)
    else amoeba_demo_helper outer_from _ (after_spawn waits) (after_mitosis waits));
  mret (Amoebas amoebas).

(** ** The commands (main.rs) *)

(** The arms of the dispatch that are more than a call. *)
Definition verify_coin (output_ref : OutputRef) : W report :=
  '(coin_from_storage, verifier_from_storage) ← get_coin_from_storage output_ref;
  local ← get_unspent output_ref;
  mret (CoinDetails (value coin_from_storage) verifier_from_storage local).
(** The rows come in the order in which the table is traversed. *)
Definition show_balance : W report :=
  balances ← get_balances;
  let rows := map_to_list balances in
  mret (Balances rows (fold_left wrapping_add (map snd rows) (trunc 128 0))).

(** The program's state, and its calls on the database, for which the keystore does
    not move, and on the keystore. *)
Abbreviation P A := (M (WalletDb * Keystore) string A).

Definition on_db {A} (f : Keystore → W A) : P A := λ '(db, keystore),
  match f keystore db with
  | Ret a db => Ret a (db, keystore)
  | Throw e db => Throw e (db, keystore)
  | Panic w => Panic w
  end.
Definition on_keys {A} (f : M Keystore string A) : P A := λ '(db, keystore),
  match f keystore with
  | Ret a keystore => Ret a (db, keystore)
  | Throw e keystore => Throw e (db, keystore)
  | Panic w => Panic w
  end.

(** The subcommand dispatch of [main]; [confirmation] is the line the user types when
    asked to confirm, trimmed. *)
Definition run_command (is_parachain : bool) (waits : Waits) (confirmation : string)
    (command : option Command) : P report :=
  match command with
  | Some AmoebaDemo => on_db (λ _, amoeba_demo is_parachain waits)
  | Some (MintCoins args) => on_db (λ _, mint_coins is_parachain args)
  | Some (VerifyCoin output_ref) => on_db (λ _, verify_coin output_ref)
  | Some (SpendCoins args) =>
    on_db (λ keystore, spend_coins (local := keystore_at keystore) is_parachain args)
  | Some (InsertKey seed) => public_key ← on_keys (insert_key seed); mret (KeyInserted public_key)
  | Some (GenerateKey password) =>
    '(public, phrase) ← on_keys (generate_key password); mret (KeyGenerated public phrase)
  | Some ShowKeys =>
    keys ← on_keys get_keys; mret (Keys (map (λ pubkey, "0x" ++ hex_encode pubkey)%string keys))
  | Some (RemoveKey pub_key) =>
    if bool_decide (confirmation = "proceed"%string)
    then on_keys (remove_key pub_key);; mret Nothing else mret Nothing
  | Some ShowBalance => on_db (λ _, show_balance)
  | Some ShowAllOutputs => rows ← on_db (λ _, print_unspent_tree); mret (Outputs rows)
  | Some ShowTimestamp => timestamp ← on_db (λ _, get_timestamp); mret (Time timestamp)
  | None => mret Nothing
  end.

(** What [main] does once it knows the kind of chain: start the wallet and run the
    command; [None] when the fuel of the synchronization runs out. *)
Definition start_and_run (is_parachain : bool) (fuel : nat) (recovered : bool) (waits : Waits)
    (confirmation : string) (cli : Cli) : P (option report) :=
  r ← on_db (λ keystore,
    let filter := keystore_filter (local := keystore_at keystore) in
    if is_parachain
    then start_wallet (C := WalletParachainChecker) fuel filter recovered (no_sync cli)
    else start_wallet (C := OuterConstraintChecker) fuel filter recovered (no_sync cli));
  match r with
  | None => mret None
  | Some _ =>
    out ← run_command is_parachain waits confirmation (command cli); mret (Some out)
  end.

(** [main]: prepare the keystore and ask for the metadata first. *)
Definition main (fuel : nat) (recovered : bool) (waits : Waits) (confirmation : string)
    (cli : Cli) : P (option report) :=
  (if dev cli then on_keys insert_development_key_for_this_session else mret tt);;
  metadata ← on_db (λ _, node_get_metadata);
  start_and_run (metadata_is_parachain metadata) fuel recovered waits confirmation cli.
End commands.
