(* ===== verification/WalletFiles.v ===== *)
(** * WalletFiles: the wallet's data directories

    Models how [main] in [wallet/src/main.rs] chooses the directory of the wallet's
    data, and what it leaves on the disk.  A directory holds the wallet's database
    and its keystore. *)

From S2P Require Import Prelude Effects Scale Types Checker Executive TemplateRuntime.
From S2P Require Import Wallet WalletRpc WalletSpend WalletKeystore WalletMain.

(** What the program asks the system for: its temporary directory, the milliseconds
    since the epoch, the data directory of the platform, and how paths are joined.
    An empty directory holds an empty keystore. *)
Class Platform `{KeystoreLibrary} : Type := {
  system_temp_dir : string;
  millis : string;
  data_dir : option string;
  join_path : string → string → string;
  empty_keystore : Keystore;
}.

Section files.
Context `{RuntimeParameters, !WalletParachainCodec, Sled, Opaque, !OpaqueCodecs, HexCrate}.
Context `{!NodeClient, !KeystoreLibrary, !Codec TuxedoMetadata, !Platform}.

(** The directories with data of a wallet. *)
Abbreviation Disk := (gmap string (WalletDb * Keystore)).
Implicit Types (disk : Disk) (cli : Cli) (dir : WalletDb * Keystore) (path : string).

Definition temp_dir : string := join_path system_temp_dir ("tuxedo-wallet-" +:+ millis).
Definition default_data_path : partial string :=
  partial_expect data_dir "app directories exist on all supported platforms; qed".

(** [--tmp] and [--dev] take precedence over a path on the command line. *)
Definition is_tmp cli : bool := tmp cli || dev cli.
Definition data_path cli : partial string :=
  if is_tmp cli then mret temp_dir
  else match base_path cli with Some path => mret path | None => default_data_path end.

(** Opening creates what is not there; the second component says whether the
    database was. *)
Definition open_data disk path : (WalletDb * Keystore) * bool :=
  match disk !! path with
  | Some dir => (dir, true)
  | None => ((mk_db ∅ ∅ ∅ ∅ ∅, empty_keystore), false)
  end.

(** The whole program.  A question mark leaves it before the directory is removed. *)
Definition program (fuel : nat) (waits : Waits) (confirmation : string) cli :
    M Disk string (option report) := λ disk,
  match data_path cli with
  | Panicked why => Panic why
  | Value path =>
    let '(dir, recovered) := open_data disk path in
    match main fuel recovered waits confirmation cli dir with
    | Ret out dir => Ret out (if is_tmp cli then delete path disk else <[path := dir]> disk)
    | Throw e dir => Throw e (<[path := dir]> disk)
    | Panic why => Panic why
    end
  end.

(** No other directory is touched, and with [--tmp] or [--dev] no directory of the
    command line or of the platform. *)
Lemma other_directories fuel waits confirmation cli disk out disk' path :
  program fuel waits confirmation cli disk = Ret out disk' →
  data_path cli ≠ Value path → disk' !! path = disk !! path.
Proof.
  unfold program. destruct (data_path cli) as [p|]; [|done].
  destruct (open_data disk p) as [dir recovered].
  destruct (main _ _ _ _ _ _) as [? dir'|? ?|?]; [|done..]. intros [= _ <-] Hp.
  assert (p ≠ path) by congruence. destruct (is_tmp cli);
    [by rewrite lookup_delete_ne|by rewrite lookup_insert_ne].
Qed.

(** A temporary directory is removed when the program succeeds, but stays, with the
    data and the keys in it, when a command fails. *)
Lemma temporary_directory fuel waits confirmation cli disk :
  is_tmp cli = true → disk !! temp_dir = None →
  (∀ out disk', program fuel waits confirmation cli disk = Ret out disk' → disk' = disk) ∧
  ∀ e disk', program fuel waits confirmation cli disk = Throw e disk' →
    ∃ dir, disk' = <[temp_dir := dir]> disk.
Proof.
  intros Ht Hd. unfold program, data_path. rewrite Ht. cbn [mret partial_ret].
  destruct (open_data disk temp_dir) as [dir recovered].
  destruct (main _ _ _ _ _ _) as [out dir'|e dir'|why]; [| |done]; split; try done.
  - intros ? ? [= _ <-]. by apply delete_id.
  - intros ? ? [= _ <-]. by exists dir'.
Qed.

(** Anywhere else, the next run finds what this one left, and takes the database for
    a recovered one. *)
Lemma next_run fuel waits confirmation cli disk out disk' path :
  is_tmp cli = false → data_path cli = Value path →
  program fuel waits confirmation cli disk = Ret out disk' → ∃ dir,
    main fuel (open_data disk path).2 waits confirmation cli (open_data disk path).1 = Ret out dir ∧
    open_data disk' path = (dir, true).
Proof.
  intros Ht Hp. unfold program. rewrite Hp, Ht.
  destruct (open_data disk path) as [dir recovered]. cbn [fst snd].
  destruct (main _ _ _ _ _ _) as [? dir'|? ?|?]; [|done..]. intros [= <- <-].
  exists dir'. split; [done|]. unfold open_data. by rewrite lookup_insert_eq.
Qed.
End files.
