(* ===== verification/RuntimeSamples.v ===== *)
(** * RuntimeSamples: a concrete template runtime for the witnesses

    Puts the concrete codecs of the pieces together into an instance of
    [RuntimeParameters] with its laws, and gives a few outputs and storages of
    that runtime. *)

From S2P Require Import Prelude Effects Scale Types Checker UtxoSet CheckerLaws Executive.
From S2P Require Import Concrete Verifiers Samples ExecutiveFacts Ledger Blocks Supply Money.
From S2P Require Import Amoeba Poe Kitties Timestamp RuntimeUpgrade Aggregator TemplateRuntime.

Module RuntimeSample.
Import Sample.

(** ** Codecs of the aggregates *)

Definition verifier_sum (v : OuterVerifier) :
    Sr25519Signature + (UpForGrabs + ThresholdMultiSignature) :=
  match v with
  | OuterSr25519Signature i => inl i
  | OuterUpForGrabs i => inr (inl i)
  | OuterThresholdMultiSignature i => inr (inr i)
  end.
Definition sum_verifier (x : Sr25519Signature + (UpForGrabs + ThresholdMultiSignature)) :
    OuterVerifier :=
  match x with
  | inl i => OuterSr25519Signature i
  | inr (inl i) => OuterUpForGrabs i
  | inr (inr i) => OuterThresholdMultiSignature i
  end.

Definition redeemer_sum (r : OuterVerifierRedeemer) :
    Signature + (unit + list SignatureAndIndex) :=
  match r with
  | RedeemSr25519Signature i => inl i
  | RedeemUpForGrabs i => inr (inl i)
  | RedeemThresholdMultiSignature i => inr (inr i)
  end.
Definition sum_redeemer (x : Signature + (unit + list SignatureAndIndex)) :
    OuterVerifierRedeemer :=
  match x with
  | inl i => RedeemSr25519Signature i
  | inr (inl i) => RedeemUpForGrabs i
  | inr (inr i) => RedeemThresholdMultiSignature i
  end.

#[local] Existing Instance sum_codec.
#[local] Existing Instances Money.Witnesses.concrete_money Kitties.Witnesses.concrete_kitty
  Amoeba.Witnesses.concrete_amoeba Poe.Witnesses.concrete_poe
  Timestamp.Witnesses.concrete_timestamp Timestamp.Witnesses.concrete_primitives
  RuntimeUpgrade.Witnesses.concrete_upgrade RuntimeUpgrade.Witnesses.concrete_keys
  RuntimeUpgrade.Witnesses.concrete_keys_laws.

#[local] Instance adapted_codec : Codec (InherentAdapter SetTimestamp) :=
  iso_codec adapted mk_adapter.

Definition checker_sum (c : OuterConstraintChecker) :
    MoneyConstraintChecker token_id + (FreeKittyConstraintChecker + (AmoebaMitosis +
    (AmoebaDeath + (AmoebaCreation + (PoeClaim + (PoeRevoke + (PoeDispute +
    (InherentAdapter SetTimestamp + RuntimeUpgrade)))))))) :=
  match c with
  | OuterMoney i => inl i
  | OuterFreeKitty i => inr (inl i)
  | OuterAmoebaMitosis i => inr (inr (inl i))
  | OuterAmoebaDeath i => inr (inr (inr (inl i)))
  | OuterAmoebaCreation i => inr (inr (inr (inr (inl i))))
  | OuterPoeClaim i => inr (inr (inr (inr (inr (inl i)))))
  | OuterPoeRevoke i => inr (inr (inr (inr (inr (inr (inl i))))))
  | OuterPoeDispute i => inr (inr (inr (inr (inr (inr (inr (inl i)))))))
  | OuterSetTimestamp i => inr (inr (inr (inr (inr (inr (inr (inr (inl i))))))))
  | OuterRuntimeUpgrade i => inr (inr (inr (inr (inr (inr (inr (inr (inr i))))))))
  end.
Definition sum_checker x : OuterConstraintChecker :=
  match x with
  | inl i => OuterMoney i
  | inr (inl i) => OuterFreeKitty i
  | inr (inr (inl i)) => OuterAmoebaMitosis i
  | inr (inr (inr (inl i))) => OuterAmoebaDeath i
  | inr (inr (inr (inr (inl i)))) => OuterAmoebaCreation i
  | inr (inr (inr (inr (inr (inl i))))) => OuterPoeClaim i
  | inr (inr (inr (inr (inr (inr (inl i)))))) => OuterPoeRevoke i
  | inr (inr (inr (inr (inr (inr (inr (inl i))))))) => OuterPoeDispute i
  | inr (inr (inr (inr (inr (inr (inr (inr (inl i)))))))) => OuterSetTimestamp i
  | inr (inr (inr (inr (inr (inr (inr (inr (inr i)))))))) => OuterRuntimeUpgrade i
  end.

#[export] Instance concrete_runtime_codecs : RuntimeCodecs := {|
  codec_outer_verifier := iso_codec verifier_sum sum_verifier;
  codec_outer_redeemer := iso_codec redeemer_sum sum_redeemer;
  codec_outer_checker := iso_codec checker_sum sum_checker;
  codec_adapted_timestamp := adapted_codec;
|}.

#[export] Instance concrete_runtime : RuntimeParameters := {|
  rt_runtime := concrete_runtime_codecs |}.

#[export] Instance concrete_runtime_laws : RuntimeLaws.
Proof.
  split; try exact _.
  apply @iso_lawful; [|by intros []].
  apply @sum_lawful; [apply iso_lawful; by intros []|].
  apply @sum_lawful; [apply nil_lawful; by intros []|].
  apply iso_lawful. by intros [].
Qed.

#[export] Instance redeemer_lawful : LawfulCodec (Redeemer OuterVerifier).
Proof.
  apply @iso_lawful; [|by intros []]. apply @sum_lawful; [apply _|].
  apply @sum_lawful; [apply _|]. apply lawful_vec, @iso_lawful; [apply _|by intros []].
Qed.

#[export] Instance runtime_timestamp_lawful :
  @LawfulCodec Timestamp (@codec_timestamp (@rt_timestamp concrete_runtime)).
Proof. exact Timestamp.Witnesses.concrete_timestamp_lawful. Qed.

#[export] Instance runtime_amoeba_lawful :
  @LawfulCodec AmoebaDetails (@codec_amoeba (@rt_amoeba concrete_runtime)).
Proof. apply iso_lawful. by intros []. Qed.

#[export] Instance runtime_money_laws : @MoneyLaws (@rt_money concrete_runtime).
Proof. exact Money.Witnesses.concrete_money_laws. Qed.

#[export] Instance runtime_inherents_laws : @InherentsLaws (@rt_inherents concrete_runtime).
Proof. exact concrete_inherents_laws. Qed.

#[export] Instance checker_lawful :
  @LawfulCodec OuterConstraintChecker (@checker_codec _ _ outer_checker).
Proof.
  apply @iso_lawful; [|by intros [| | | | | | | |[]|]].
  repeat apply @sum_lawful; try apply _;
    try (apply nil_lawful; by intros []); try (apply iso_lawful; by intros []).
  apply @iso_lawful; [apply nil_lawful; by intros []|by intros []].
Qed.

(** ** Outputs, transactions and a storage of the runtime *)

Abbreviation ROut := (Output OuterVerifier).
Abbreviation RTx := (Transaction OuterVerifier OuterConstraintChecker).

Definition anybody : OuterVerifier := OuterUpForGrabs up_for_grabs.
Definition coin (n : N) : ROut :=
  mk_output (typed_from (mk_coin (ID := token_id) (trunc 128 n))) anybody.
Definition stamp (n b : N) : ROut :=
  mk_output (typed_from (mk_timestamp (trunc 64 n) (trunc 32 b))) anybody.

Definition free : Redeemer OuterVerifier := RedeemUpForGrabs tt.
Definition take_coin (o : OutputRef) : Input := mk_input o (Redemption (scale_encode free)).

(** The inherent of block four, and a spend. *)
Definition stamped : RTx :=
  mk_transaction [] [] [stamp 1000 4] (OuterSetTimestamp (mk_adapter set_timestamp)).
Definition pay : RTx :=
  mk_transaction [take_coin (ref 0)] [] [coin 4; coin 2] (OuterMoney Spend).

(** Height five: a coin and the timestamp of the parent block. *)
Definition state : storage :=
  <[scale_encode (ref 0) := scale_encode (coin 7)]>
    (<[scale_encode (out_ref stamped 0) := scale_encode (stamp 1000 4)]>
      {[HEIGHT_KEY := scale_encode (trunc 32 5)]}).

Definition paid : storage :=
  match apply_tuxedo_transaction pay state with Ret _ s => s | _ => ∅ end.
End RuntimeSample.
