(* ===== verification/PieceTests.v ===== *)
(** * PieceTests: the unit tests of the pieces, replayed on the model

    Models the test modules of the wardrobe: money, amoeba, proof of existence,
    kitties, timestamp and parachain.  A test is its name with whether its assertion
    holds of the model, on the concrete instances. *)

From S2P Require Import Prelude Effects Scale Types Checker UtxoSet CheckerLaws Executive.
From S2P Require Import Concrete Verifiers Samples ParachainCore ParachainPiece Money Amoeba Poe.
From S2P Require Import Kitties Timestamp RuntimeSamples.

Module PieceTests.
Import Sample RuntimeSample ParachainSample.

#[local] Existing Instances Money.Witnesses.concrete_money Kitties.Witnesses.concrete_kitty
  Amoeba.Witnesses.concrete_amoeba Poe.Witnesses.concrete_poe
  Timestamp.Witnesses.concrete_timestamp ParachainPiece.Witnesses.concrete_parachain_primitives
  ParachainPiece.Witnesses.concrete_info.

#[local] Instance money_error_eq_dec : EqDecision MoneyError.
Proof. solve_decision. Defined.
#[local] Instance amoeba_error_eq_dec : EqDecision AmoebaError.
Proof. solve_decision. Defined.
#[local] Instance poe_error_eq_dec : EqDecision PoeError.
Proof. solve_decision. Defined.
#[local] Instance kitty_error_eq_dec : EqDecision KittyError.
Proof. solve_decision. Defined.
#[local] Instance timestamp_error_eq_dec : EqDecision TimestampError.
Proof. solve_decision. Defined.
#[local] Instance parachain_error_eq_dec : EqDecision ParachainError.
Proof. solve_decision. Defined.

(** ** The harness *)

(** [assert_eq!(checker.check(inputs, evicted, peeks, outputs), expected)] *)
Definition answers {C} `{SimpleConstraintChecker C, !EqDecision (SimpleError C)} (checker : C)
    (inputs evicted peeks outputs : list DynamicallyTypedData)
    (expected : result (SimpleError C) N) : bool :=
  match simple_check checker inputs evicted peeks outputs (∅ : storage), expected with
  | Ret priority _, Ok n => bool_decide (priority = trunc 64 n)
  | Throw e _, Err e' => bool_decide (e = e')
  | _, _ => false
  end.

Abbreviation tests := (list (string * bool)).

(** The tests whose assertion does not hold. *)
Definition failing (l : tests) : list string :=
  omap (λ t : string * bool, if t.2 then None else Some t.1) l.

(** [testing::Bogus] of [dynamic_typing.rs] *)
Inductive BogusData : Type := bogus.
#[local] Instance bogus_codec : Codec BogusData := nil_codec bogus.
#[local] Instance bogus_data : UtxoData BogusData := to_bytesN 4 (bstr "bogs").
Definition bogus_payload : DynamicallyTypedData := typed_from bogus.

(** ** [money/src/tests.rs] *)

Definition coin_zero (n : N) : DynamicallyTypedData :=
  typed_from (mk_coin (ID := trunc 8 0) (trunc 128 n)).
Definition money_answers (c : MoneyConstraintChecker (trunc 8 0))
    (inputs outputs : list DynamicallyTypedData) : result MoneyError N → bool :=
  answers c inputs [] [] outputs.

Definition money_tests : tests :=
  let twelve := [coin_zero 5; coin_zero 7] in
  let eleven := [coin_zero 10; coin_zero 1] in [
  ("spend_valid_transaction_work", money_answers Spend twelve eleven (Ok 1%N));
  ("spend_with_zero_value_output_fails",
   money_answers Spend twelve (eleven ++ [coin_zero 0]) (Err ZeroValueCoin));
  ("spend_no_outputs_is_a_burn", money_answers Spend twelve [] (Ok 12%N));
  ("spend_no_inputs_fails", money_answers Spend [] eleven (Err SpendingNothing));
  ("spend_wrong_input_type_fails",
   money_answers Spend [bogus_payload] eleven (Err BadlyTyped));
  ("spend_wrong_output_type_fails",
   money_answers Spend twelve [bogus_payload] (Err BadlyTyped));
  ("spend_output_value_exceeds_input_value_fails",
   money_answers Spend eleven twelve (Err OutputsExceedInputs));
  ("mint_valid_transaction_works", money_answers Mint [] eleven (Ok 0%N));
  ("mint_with_zero_value_output_fails",
   money_answers Mint [] [coin_zero 0] (Err ZeroValueCoin));
  ("mint_with_inputs_fails", money_answers Mint [coin_zero 5] eleven (Err MintingWithInputs));
  ("mint_with_no_outputs_fails", money_answers Mint [] [] (Err MintingNothing));
  ("mint_wrong_output_type_fails",
   money_answers Mint [] [coin_zero 10; bogus_payload] (Err BadlyTyped))].

Lemma money_tests_pass : List.length money_tests = 12 ∧ failing money_tests = [].
Proof. by_vm. Qed.

(** ** [amoeba/src/tests.rs] *)

Definition amoeba (generation : N) : DynamicallyTypedData :=
  typed_from (mk_amoeba (trunc 32 generation) (to_bytesN 4 (bstr "test"))).

Definition amoeba_tests : tests :=
  let creates i e o := answers amoeba_creation i e [] o in
  let splits i e o := answers amoeba_mitosis i e [] o in
  let dies i e o := answers amoeba_death i e [] o in [
  ("creation_valid_transaction_works", creates [] [] [amoeba 0] (Ok 0%N));
  ("creation_invalid_generation_fails", creates [] [] [amoeba 100] (Err WrongGeneration));
  ("creation_with_inputs_fails", creates [amoeba 0] [] [amoeba 0] (Err CreationMayNotConsume));
  ("creation_with_evictions_fails",
   creates [] [amoeba 0] [amoeba 0] (Err AmoebaNoEvictionsAllowed));
  ("creation_with_badly_typed_output_fails",
   creates [] [] [bogus_payload] (Err AmoebaBadlyTypedOutput));
  ("creation_multiple_fails", creates [] [] [amoeba 0; amoeba 0] (Err CreatedTooMany));
  ("creation_with_no_output_fails", creates [] [] [] (Err CreatedNothing));
  ("mitosis_valid_transaction_works", splits [amoeba 1] [] [amoeba 2; amoeba 2] (Ok 0%N));
  ("mitosis_with_evictions_fails",
   splits [amoeba 1] [amoeba 1] [amoeba 2; amoeba 2] (Err AmoebaNoEvictionsAllowed));
  ("mitosis_wrong_generation_first_daughter",
   splits [amoeba 1] [] [amoeba 3; amoeba 2] (Err WrongGeneration));
  ("mitosis_wrong_generation_second_daughter",
   splits [amoeba 1] [] [amoeba 2; amoeba 3] (Err WrongGeneration));
  ("mitosis_badly_typed_input",
   splits [bogus_payload] [] [amoeba 2; amoeba 2] (Err AmoebaBadlyTypedInput));
  ("mitosis_no_input", splits [] [] [amoeba 2; amoeba 2] (Err WrongNumberOfMothers));
  ("mitosis_badly_typed_first_daughter",
   splits [amoeba 1] [] [bogus_payload; amoeba 2] (Err AmoebaBadlyTypedOutput));
  ("mitosis_badly_typed_second_daughter",
   splits [amoeba 1] [] [amoeba 2; bogus_payload] (Err AmoebaBadlyTypedOutput));
  ("mitosis_only_one_output", splits [amoeba 1] [] [amoeba 2] (Err WrongNumberOfDaughters));
  ("mitosis_too_many_outputs",
   splits [amoeba 1] [] [amoeba 2; amoeba 2; amoeba 2] (Err WrongNumberOfDaughters));
  ("death_valid_transaction_works", dies [amoeba 1] [] [] (Ok 0%N));
  ("death_no_input", dies [] [] [] (Err NoVictim));
  ("death_eviction_not_allowed", dies [amoeba 1] [amoeba 4] [] (Err AmoebaNoEvictionsAllowed));
  ("death_multiple_inputs", dies [amoeba 1; amoeba 4] [] [] (Err TooManyVictims));
  ("death_with_output", dies [amoeba 1] [] [amoeba 1] (Err DeathMayNotCreate));
  ("death_badly_typed_input", dies [bogus_payload] [] [] (Err AmoebaBadlyTypedInput))].

Lemma amoeba_tests_pass : List.length amoeba_tests = 23 ∧ failing amoeba_tests = [].
Proof. by_vm. Qed.

(** ** [kitties/src/tests.rs] *)

(** Updates of the fields, as the tests mutate them. *)
Definition with_parent (p : Parent) (k : KittyData) : KittyData :=
  mk_kitty p (free_breedings k) (dna k) (num_breedings k).
Definition with_free (n : N) (k : KittyData) : KittyData :=
  mk_kitty (parent k) (trunc 64 n) (dna k) (num_breedings k).
Definition with_num (n : N) (k : KittyData) : KittyData :=
  mk_kitty (parent k) (free_breedings k) (dna k) (trunc 128 n).
Definition with_dna (hash : H256) (k : KittyData) : KittyData :=
  mk_kitty (parent k) (free_breedings k) (mk_dna hash) (num_breedings k).

Definition default_dad : KittyData := with_parent (Dad DadRearinToGo) default_kitty.
Definition default_child : KittyData :=
  let mom := default_kitty in
  let dad := default_dad in
  mk_kitty (Mom MomRearinToGo) (trunc 64 2)
    (mk_dna (blake2_256 (scale_encode (dna mom, dna dad,
      wrapping_add (num_breedings mom) one128, wrapping_add (num_breedings dad) one128))))
    (trunc 128 0).
(** [KittyData::default_family] *)
Definition bred (p : Parent) (k : KittyData) : KittyData :=
  mk_kitty p (wrapping_sub (free_breedings k) one64) (dna k)
    (wrapping_add (num_breedings k) one128).
Definition new_mom : KittyData := bred (Mom HadBirthRecently) default_kitty.
Definition new_dad : KittyData := bred (Dad Tired) default_dad.

Definition breeds (inputs outputs : list KittyData) : result KittyError N → bool :=
  answers free_kitty (map typed_from inputs) [] [] (map typed_from outputs).
(** The default parents have this family. *)
Definition family (mom dad child : KittyData) : result KittyError N → bool :=
  breeds [default_kitty; default_dad] [mom; dad; child].

Definition kitty_tests : tests :=
  let mom := default_kitty in
  let dad := default_dad in
  let child := default_child in
  let stranger := to_bytesN 32 (bstr "superkalifragislisticexpialadoci") in [
  ("breed_happy_path_works", family new_mom new_dad child (Ok 0%N));
  ("breed_wrong_input_type_fails",
   answers free_kitty [bogus_payload; bogus_payload] [] [] [] (Err KittyBadlyTyped));
  ("breed_wrong_output_type_fails",
   answers free_kitty [typed_from mom; typed_from dad] [] []
     [bogus_payload; bogus_payload; bogus_payload] (Err KittyBadlyTyped));
  ("inputs_dont_contain_two_parents_fails", breeds [mom] [] (Err TwoParentsDoNotExist));
  ("outputs_dont_contain_all_family_members_fails",
   breeds [mom; dad] [mom] (Err NotEnoughFamilyMembers));
  ("breed_two_dads_fails", breeds [dad; dad] [mom] (Err TwoDadsNotValid));
  ("breed_two_moms_fails", breeds [mom; mom] [mom] (Err TwoMomsNotValid));
  ("first_input_not_mom_fails", breeds [dad; mom] [] (Err TwoDadsNotValid));
  ("first_output_not_mom_fails", family dad mom child (Err TwoDadsNotValid));
  ("breed_mom_when_she_gave_birth_recently_fails",
   breeds [with_parent (Mom HadBirthRecently) mom; dad] [] (Err MomNotReadyYet));
  ("breed_dad_when_he_is_tired_fails",
   breeds [mom; with_parent (Dad Tired) dad] [] (Err DadTooTired));
  ("check_mom_breedings_overflow_fails",
   breeds [with_num (2 ^ 128 - 1) mom; dad] [] (Err TooManyBreedingsForKitty));
  ("check_dad_breedings_overflow_fails",
   breeds [mom; with_num (2 ^ 128 - 1) dad] [] (Err TooManyBreedingsForKitty));
  ("check_mom_free_breedings_zero_fails",
   breeds [with_free 0 mom; dad] [] (Err NotEnoughFreeBreedings));
  ("check_dad_free_breedings_zero_fails",
   breeds [mom; with_free 0 dad] [] (Err NotEnoughFreeBreedings));
  ("check_new_mom_free_breedings_incorrect_fails",
   family (with_free 2 new_mom) new_dad child (Err NewParentFreeBreedingsIncorrect));
  ("check_new_dad_free_breedings_incorrect_fails",
   family new_mom (with_free 2 new_dad) child (Err NewParentFreeBreedingsIncorrect));
  ("check_new_mom_num_breedings_incorrect_fails",
   family (with_num 0 new_mom) new_dad child (Err NewParentNumberBreedingsIncorrect));
  ("check_new_dad_num_breedings_incorrect_fails",
   family new_mom (with_num 0 new_dad) child (Err NewParentNumberBreedingsIncorrect));
  ("check_new_mom_dna_doesnt_match_old_fails",
   family (with_dna stranger new_mom) new_dad child (Err NewParentDnaDoesntMatchOld));
  ("check_new_dad_dna_doesnt_match_old_fails",
   family new_mom (with_dna stranger new_dad) child (Err NewParentDnaDoesntMatchOld));
  ("check_child_dna_incorrect_fails",
   family new_mom new_dad (with_dna H256_zero child) (Err NewChildDnaIncorrect));
  ("check_child_dad_parent_tired_fails",
   family new_mom new_dad (with_parent (Dad Tired) child) (Err NewChildIncorrectParentInfo));
  ("check_child_mom_parent_recently_gave_birth_fails",
   family new_mom new_dad (with_parent (Mom HadBirthRecently) child)
     (Err NewChildIncorrectParentInfo));
  ("check_child_free_breedings_incorrect_fails",
   family new_mom new_dad (with_free (uval NUM_FREE_BREEDINGS + 1) child)
     (Err NewChildFreeBreedingsIncorrect));
  ("check_child_num_breedings_non_zero_fails",
   family new_mom new_dad (with_num 42 child) (Err NewChildHasNonZeroBreedings))].

Lemma kitty_tests_pass : List.length kitty_tests = 26 ∧ failing kitty_tests = [].
Proof. by_vm. Qed.

(** ** [poe/src/tests.rs] *)

Section poe.
(** [AlwaysBlockTwo] *)
#[local] Instance poe_block_two : PoeConfig := λ St _ E, mret (trunc 32 2).

(** A claim of the hash that repeats one byte. *)
Definition claim_of_byte (b : Byte.byte) (effective_height : N) : DynamicallyTypedData :=
  typed_from (mk_claim (to_bytesN 32 (replicate 32 b)) (trunc 32 effective_height)).
Definition claim_one : N → DynamicallyTypedData := claim_of_byte Byte.x01.
Definition claim_two : N → DynamicallyTypedData := claim_of_byte Byte.x02.

Definition poe_tests : tests :=
  let claims i e o := answers poe_claim i e [] o in
  let revokes i e o := answers poe_revoke i e [] o in
  let disputes := answers poe_dispute in [
  ("claim_works_with_zero_claims", claims [] [] [] (Ok 0%N));
  ("claim_works_with_one_claim", claims [] [] [claim_one 10] (Ok 0%N));
  ("claim_works_with_two_claims", claims [] [] [claim_one 10; claim_two 10] (Ok 0%N));
  ("claim_exact_current_block_height_works", claims [] [] [claim_one 2] (Ok 0%N));
  ("claim_old_block_height_fails", claims [] [] [claim_one 1] (Err EffectiveHeightInPast));
  ("claim_with_input_fails", claims [bogus_payload] [] [claim_one 10] (Err WrongNumberInputs));
  ("claim_with_eviction_fails", claims [] [bogus_payload] [claim_one 10] (Err WrongNumberInputs));
  ("claim_with_bogus_output_fails", claims [] [] [bogus_payload] (Err BadlyTypedOutput));
  ("revoke_works_with_zero_claims", revokes [] [] [] (Ok 0%N));
  ("revoke_works_with_one_claim", revokes [claim_one 10] [] [] (Ok 0%N));
  ("revoke_works_with_two_claims", revokes [claim_one 10; claim_two 10] [] [] (Ok 0%N));
  ("revoke_works_with_bogus_input_fails", revokes [bogus_payload] [] [] (Err BadlyTypedInput));
  ("revoke_with_eviction_fails", revokes [claim_one 10] [bogus_payload] [] (Err WrongNumberInputs));
  ("revoke_with_outputs_fails", revokes [claim_one 10] [] [bogus_payload] (Err WrongNumberOutputs));
  ("dispute_with_zero_losers_works", disputes [] [] [claim_one 10] [] (Ok 0%N));
  ("dispute_with_one_loser_works", disputes [] [claim_one 11] [claim_one 10] [] (Ok 0%N));
  ("dispute_with_two_losers_works",
   disputes [] [claim_one 11; claim_one 12] [claim_one 10] [] (Ok 0%N));
  ("dispute_with_bogus_loser_fails",
   disputes [] [bogus_payload] [claim_one 10] [] (Err BadlyTypedInput));
  ("dispute_with_loser_older_than_winner_fails",
   disputes [] [claim_one 9] [claim_one 10] [] (Err IncorrectDisputeWinner));
  ("dispute_with_loser_same_age_as_winner_fails",
   disputes [] [claim_one 10] [claim_one 10] [] (Err IncorrectDisputeWinner));
  ("dispute_with_mismatched_claims_fails",
   disputes [] [claim_two 11] [claim_one 10] [] (Err DisputingMismatchedClaims));
  ("dispute_with_input_fails",
   disputes [bogus_payload] [] [claim_one 10] [] (Err WrongNumberInputs));
  ("dispute_with_no_winner_fails", disputes [] [claim_one 10] [] [] (Err WrongNumberInputs));
  ("dispute_with_multiple_winners_fails",
   disputes [] [claim_one 10; claim_two 10] [] [] (Err WrongNumberInputs));
  ("dispute_with_bogus_winner_fails", disputes [] [] [bogus_payload] [] (Err BadlyTypedInput));
  ("dispute_with_output_fails",
   disputes [] [claim_two 11] [claim_one 10] [bogus_payload] (Err WrongNumberOutputs))].
End poe.

Lemma poe_tests_pass : List.length poe_tests = 26 ∧ failing poe_tests = [].
Proof. by_vm. Qed.

(** ** [timestamp/src/update_timestamp_tests.rs] and [cleanup_tests.rs] *)

Definition stamp (time block : N) : DynamicallyTypedData :=
  typed_from (timestamp_new (trunc 64 time) (trunc 32 block)).

Section update.
(** [AlwaysBlockTwo] *)
#[local] Instance stamp_block_two : TimestampConfig :=
  default_timestamp_config (λ St _ E, mret (trunc 32 2)).

Definition update_timestamp_tests : tests :=
  let sets := answers set_timestamp in [
  ("update_timestamp_happy_path", sets [] [] [stamp 1000 1] [stamp 3000 2] (Ok 0%N));
  ("update_timestamp_with_input",
   sets [bogus_payload] [] [stamp 1000 1] [stamp 3000 2] (Err InputsWhileSettingTimestamp));
  ("update_timestamp_with_peek",
   sets [] [bogus_payload] [stamp 1000 1] [stamp 3000 2] (Err InputsWhileSettingTimestamp));
  ("update_timestamp_bogus_peek",
   sets [] [] [bogus_payload] [stamp 3000 2] (Err TimestampBadlyTyped));
  ("update_timestamp_no_peek", sets [] [] [] [stamp 3000 2] (Err MissingPreviousTimestamp));
  ("update_timestamp_no_output", sets [] [] [stamp 1000 1] [] (Err MissingNewTimestamp));
  ("update_timestamp_too_many_outputs",
   sets [] [] [stamp 1000 1] [stamp 3000 2; bogus_payload]
     (Err TooManyOutputsWhileSettingTimestamp));
  ("update_timestamp_wrong_height",
   sets [] [] [stamp 1000 1] [stamp 5000 3] (Err NewTimestampWrongHeight));
  ("update_timestamp_output_earlier_than_input",
   sets [] [] [stamp 2000 1] [stamp 1000 2] (Err TimestampTooOld));
  ("update_timestamp_output_newer_than_previous_best_nut_not_enough_to_meet_threshold",
   sets [] [] [stamp 1000 1] [stamp 2000 2] (Err TimestampTooOld));
  ("update_timestamp_previous_timestamp_wrong_height",
   sets [] [] [stamp 0 0] [stamp 2000 2] (Err PreviousTimestampWrongHeight))].
End update.

Lemma update_timestamp_tests_pass :
  List.length update_timestamp_tests = 11 ∧ failing update_timestamp_tests = [].
Proof. by_vm. Qed.

Section cleanup.
(** [AlwaysBlockMillion] *)
#[local] Instance stamp_block_million : TimestampConfig :=
  default_timestamp_config (λ St _ E, mret (trunc 32 1000000)).

Definition cleanup_tests : tests :=
  let cleans := answers clean_up_timestamp in
  let ripe := uval MIN_TIME_BEFORE_CLEANUP in
  let aged := uval MIN_BLOCKS_BEFORE_CLEANUP in
  let interval := uval MINIMUM_TIME_INTERVAL in
  let old := stamp 1 1 in
  let newer := stamp (2 * ripe) (2 * aged) in [
  ("cleanup_timestamp_happy_path", cleans [] [old] [newer] [] (Ok 0%N));
  ("cleanup_timestamp_no_peek", cleans [] [old] [] [] (Err CleanupRequiresOneReference));
  ("cleanup_timestamp_fails_when_target_newer_than_reference",
   cleans [] [newer] [old] [] (Err DontBeSoHasty));
  ("cleanup_timestamp_input_not_yet_ripe_for_cleaning",
   cleans [] [old] [stamp (ripe / 2) aged] [] (Err DontBeSoHasty));
  ("cleanup_timestamp_multiple_happy_path",
   cleans [] [stamp interval 1; stamp (2 * interval) 2] [newer] [] (Ok 0%N));
  ("cleanup_timestamp_missing_eviction", cleans [] [] [newer] [] (Ok 0%N));
  ("cleanup_timestamp_multiple_first_valid_second_invalid",
   cleans [] [stamp interval 1; newer] [newer] [] (Err DontBeSoHasty));
  ("cleanup_timestamp_target_is_wrong_type",
   cleans [] [bogus_payload] [newer] [] (Err TimestampBadlyTyped));
  ("cleanup_timestamp_reference_is_wrong_type",
   cleans [] [old] [bogus_payload] [] (Err TimestampBadlyTyped));
  ("cleanup_timestamp_cannot_create_state",
   cleans [] [old] [newer] [bogus_payload] (Err CleanupCannotCreateState));
  ("cleanup_timestamp_with_stray_normal_redemptive_input",
   cleans [stamp 2 2] [old] [newer] [] (Err CleanupEvictionsOnly))].
End cleanup.

Lemma cleanup_tests_pass : List.length cleanup_tests = 11 ∧ failing cleanup_tests = [].
Proof. by_vm. Qed.

(** ** [parachain/src/tests.rs] *)

Section parachain.
(** [MockConfig] ignores the number. *)
#[local] Instance mock_config : ParachainPieceConfig := {|
  PARA_ID := DEFAULT_PARA_ID; set_relay_parent_number _ _ E _ := mret tt |}.

Definition info (number : N) : DynamicallyTypedData :=
  typed_from (new_data_from_relay_parent_number (trunc 32 number)).

Definition parachain_tests : tests :=
  let sets i e o := answers set_parachain_info i e [] o in [
  ("update_parachain_info_happy_path", sets [] [info 3] [info 4] (Ok 0%N));
  ("update_parachain_info_relay_block_not_increasing",
   sets [] [info 3] [info 3] (Err RelayBlockNotIncreasing));
  ("update_parachain_info_extra_eviction",
   sets [] [info 3; bogus_payload] [info 4] (Err ExtraInputs));
  ("update_parachain_info_missing_eviction", sets [] [] [info 4] (Err MissingPreviousInfo));
  ("update_parachain_info_bogus_eviction",
   sets [] [bogus_payload] [info 3] (Err ParachainBadlyTyped));
  ("update_parachain_info_with_unexpected_normal_input",
   sets [bogus_payload] [info 3] [info 4] (Err ExtraInputs));
  ("update_parachain_info_with_otherwise_valid_old_info_as_normal_input",
   sets [info 3] [] [info 4] (Err ExtraInputs));
  ("update_parachain_info_extra_outputs",
   sets [info 3] [] [info 4; bogus_payload] (Err ExtraOutputs));
  ("update_parachain_info_missing_output", sets [info 3] [] [] (Err MissingNewInfo));
  ("update_parachain_info_bogus_output",
   sets [info 3] [] [bogus_payload] (Err ParachainBadlyTyped))].
End parachain.

Lemma parachain_tests_pass : List.length parachain_tests = 10 ∧ failing parachain_tests = [].
Proof. by_vm. Qed.
End PieceTests.
