(* ===== verification/RuntimeFacts.v ===== *)
(** * RuntimeFacts: the template runtime as a whole

    The template runtime satisfies the interfaces of the executive, so that the
    block-level theorems apply to it; and what holds of it as a whole: the money
    supply, the inherents of a block, the panics of the aggregate verifier. *)

From S2P Require Import Prelude Effects Scale Types Checker UtxoSet CheckerLaws Executive Simulation.
From S2P Require Import Concrete Verifiers Samples ExecutiveFacts Ledger Blocks Genesis Supply Money.
From S2P Require Import LedgerInvariants Amoeba Poe Kitties Timestamp RuntimeUpgrade Aggregator TemplateRuntime.
From S2P Require Import RuntimeSamples.

Section interfaces.
Context `{RuntimeLaws}.

Lemma block_height_leaves {E} : leaves same_protected (block_height : M storage E u32).
Proof. unfold block_height. solve_leaves. Qed.

#[export] Instance runtime_poe_laws : PoeConfigLaws.
Proof.
  split; [intros E..|intros; unfold poe_block_height, runtime_poe_config; by apply block_height_sim].
  - apply block_height_leaves.
  - apply block_height_respects.
  - intros s a s'. unfold poe_block_height, runtime_poe_config. rewrite block_height_run.
    by destruct (height_at s); [intros [= _ <-]|].
Qed.

#[export] Instance runtime_timestamp_laws : TimestampConfigLaws.
Proof.
  split; [intros E; apply block_height_leaves|intros E; apply block_height_respects|].
  intros. cbn [timestamp_block_height runtime_timestamp_config default_timestamp_config].
  by apply block_height_sim.
Qed.

#[export] Instance outer_frame : CheckerFrame OuterConstraintChecker.
Proof.
  intros [] i e p o; cbn [check outer_checker outer_check]; apply check_arm_leaves; exact _.
Qed.

#[export] Instance outer_transient : CheckerTransient OuterConstraintChecker.
Proof.
  intros [] i e p o; cbn [check outer_checker outer_check]; apply check_arm_respects; exact _.
Qed.

#[export] Instance outer_uniform : UniformChecker OuterConstraintChecker.
Proof.
  intros S1 S2 ? ? sim ? [] i e p o; cbn [check outer_checker outer_check];
    by apply check_arm_uniform; first exact _.
Qed.
End interfaces.

(** ** The money supply *)

(** Of the token of the runtime. *)
Abbreviation coins := (LedgerInvariants.coins (ID := token_id) (V := OuterVerifier)).
Abbreviation created := (LedgerInvariants.created (ID := token_id)).
Abbreviation redeemed := (LedgerInvariants.redeemed (ID := token_id)).
Abbreviation minted := (LedgerInvariants.minted (ID := token_id)).

Section supply.
Context `{RuntimeLaws}.
Implicit Types (s : storage)
  (tx : Transaction OuterVerifier OuterConstraintChecker).

(** A payload that is not a coin. *)
Definition foreign (d : DynamicallyTypedData) : Prop := coin_of token_id d = None.

Lemma typed_foreign {T} `{UtxoData T} d v :
  TYPE_ID T ≠ TYPE_ID (Coin token_id) → ok (extract T d) = Some v → foreign d.
Proof.
  intros Hid Hd. unfold foreign, coin_of. destruct (extract T d) as [x|] eqn:Hx; [|done].
  apply extract_ok in Hx as [Ht _]. unfold extract. rewrite bool_decide_false; [done|].
  intros E. by rewrite Ht in E.
Qed.

Lemma kitty_foreign d k : kitty_of d = Some k → foreign d.
Proof. apply typed_foreign. by_vm. Qed.
Lemma amoeba_foreign d a : amoeba_of d = Some a → foreign d.
Proof. apply typed_foreign. by_vm. Qed.
Lemma claim_foreign d c : claim_of d = Some c → foreign d.
Proof. apply typed_foreign. by_vm. Qed.
Lemma timestamp_foreign d t : timestamp_of d = Some t → foreign d.
Proof. apply typed_foreign. by_vm. Qed.
Lemma runtime_ref_foreign d r : runtime_ref_of d = Some r → foreign d.
Proof. apply typed_foreign. by_vm. Qed.

#[local] Hint Resolve kitty_foreign amoeba_foreign claim_foreign timestamp_foreign
  runtime_ref_foreign : core.

Lemma claims_foreign l : Forall (λ d, is_Some (claim_of d)) l → Forall foreign l.
Proof. intros Hl. eapply Forall_impl; [exact Hl|]. intros d [c Hc]. eauto. Qed.

Lemma kitties_foreign l ks : map kitty_of l = map Some ks → Forall foreign l.
Proof.
  revert ks. induction l as [|d l IH]; intros [|k ks] E; try done.
  cbn [map] in E. injection E as Ek El. constructor; eauto.
Qed.

(** The money piece apart, no checker accepts a coin on either side. *)
Lemma outer_foreign c i e p o s prio s' :
  outer_check c i e p o s = Ret prio s' → unwrap (I := MoneyConstraintChecker token_id) c = None →
  Forall foreign i ∧ Forall foreign e ∧ Forall foreign o.
Proof.
  destruct c as [c|c|c|c|c|c|c|c|c|c]; cbn [outer_check unwrap variant_money]; [done|..];
    unfold check_arm; intros Hc%catch_err_ret _;
    cbn [check simple_constraint_checker simple_check] in Hc.
  - apply lift_result_ret in Hc as [(-> & _ & m & d & m' & d' & k & Hi & Ho & _)%kitty_ok _].
    split; [exact (kitties_foreign i [m; d] Hi)|].
    split; [done|exact (kitties_foreign o [m'; d'; k] Ho)].
  - apply lift_result_ret in Hc as [(-> & _ & ? & ? & ? & ? & ? & ? & -> & -> & Hm)%mitosis_ok _].
    destruct Hm as (? & ? & ? & _). repeat constructor; eauto.
  - apply lift_result_ret in Hc as [(-> & -> & _ & ? & ? & -> & Hm)%death_ok _].
    repeat constructor; eauto.
  - apply lift_result_ret in Hc as [(-> & -> & _ & ? & ? & -> & Hm & _)%creation_ok _].
    repeat constructor; eauto.
  - apply (claim_outputs c _ _ p) in Hc as (-> & -> & Ho). auto using claims_foreign.
  - apply lift_result_ret in Hc as [(-> & -> & Hi)%revoke_ok _]. auto using claims_foreign.
  - apply lift_result_ret in Hc as [(-> & -> & _ & ? & ? & w & _ & _ & He)%dispute_ok _].
    split; [done|]. split; [|done]. apply claims_foreign.
    eapply Forall_impl; [exact He|]. intros ? [cl Hcl]. exists cl. apply Hcl.
  - apply (set_timestamp_output (adapted c) _ _ p) in Hc as (-> & -> & ? & -> & [? ?]).
    repeat constructor; eauto.
  - apply (upgrade_ok c _ _ p) in Hc as (-> & _ & _ & ? & ? & ? & -> & -> & _ & (? & ? & _) & (? & ? & _)).
    repeat constructor; eauto.
Qed.

#[export, refine] Instance runtime_token : TokenChecker token_id OuterConstraintChecker := {|
  money_of := unwrap (I := MoneyConstraintChecker token_id) |}.
Proof.
  intros c i e p o s prio s' Hc. cbn [check outer_checker] in Hc.
  destruct (unwrap c) as [m|] eqn:Hm; [|exact (outer_foreign _ _ _ _ _ _ _ _ Hc Hm)].
  apply unwrap_some in Hm. cbn [wrap variant_money] in Hm. rewrite Hm in Hc.
  cbn [outer_check] in Hc. unfold check_arm in Hc. apply catch_err_ret in Hc.
  cbn [check simple_constraint_checker simple_check money_checker] in Hc.
  by apply lift_result_ret in Hc as [Hc _].
Defined.

(** C15: The token supply moves only by the money piece.  When a transaction of
    the runtime that names no output twice applies, the supply moves from the
    coins it consumes to the coins it creates; a spend creates at most what it
    redeems, a mint redeems nothing, and a transaction of any other variant
    touches no coin, so that the supply is unchanged. *)
Theorem runtime_supply tx s s' :
  apply_tuxedo_transaction tx s = Ret tt s' → names_distinct tx →
  (coins s' + redeemed s tx = coins s + created tx)%N ∧
  match checker tx with
  | OuterMoney Spend => (coins s' ≤ coins s)%N
  | OuterMoney Mint => coins s' = (coins s + created tx)%N
  | _ => coins s' = coins s
  end.
Proof.
  intros Hs Hd. destruct (apply_supply (ID := token_id) _ _ _ Hs Hd) as [Hb Hc]. split; [done|].
  destruct (checker tx) as [[]| | | | | | | | | ]; cbn in Hc; lia.
Qed.

(** No block inflates the token: importing a block whose transactions each
    name distinct inputs adds to the supply at most what its mint transactions
    create; without mint transactions the supply never grows. *)
Theorem block_supply (b : Block OuterVerifier OuterConstraintChecker) s s' :
  execute_block b s = Ret tt s' → Forall names_distinct (extrinsics b) →
  (coins s' ≤ coins s + sumN (map minted (extrinsics b)))%N ∧
  (Forall (λ tx, checker tx ≠ OuterMoney Mint) (extrinsics b) → (coins s' ≤ coins s)%N).
Proof.
  intros Hb Hd. pose proof (execute_block_supply (ID := token_id) _ _ _ Hb Hd) as Hc.
  split; [done|]. intros Hm.
  enough (sumN (map minted (extrinsics b)) = 0%N) as E0 by (rewrite E0 in Hc; lia).
  clear Hb Hd Hc. induction Hm as [|tx l Htx _ IH]; [done|]. cbn [map sumN]. rewrite IH.
  unfold LedgerInvariants.minted. by destruct (checker tx) as [[]| | | | | | | | | ].
Qed.
End supply.

(** ** The inherents of a block *)

Section inherents.
Context `{RuntimeLaws, !LawfulCodec Timestamp}.
Abbreviation RTx := (Transaction OuterVerifier OuterConstraintChecker).
Abbreviation runtime_look s := (@utxo_at _ _ _ OuterVerifier verifier_codec s).
Implicit Types (s : storage) (tx : RTx).

Definition is_timestamp (c : OuterConstraintChecker) : bool :=
  match c with OuterSetTimestamp _ => true | _ => false end.

Lemma inherent_is_timestamp c : outer_is_inherent c = is_timestamp c.
Proof. by destruct c. Qed.

(** The unspendable verifier of the runtime: a signature with the zero key. *)
Definition nobody : OuterVerifier := OuterSr25519Signature (mk_sr25519 H256_zero).

(** The timestamp inherent, as the runtime wraps it, after a transaction. *)
Definition next_stamp (id : H256) (now : u64) (h : u32) : RTx :=
  mk_transaction [] [mk_output_ref id (trunc 32 0)]
    [mk_output (typed_from (mk_timestamp now h)) nobody]
    (OuterSetTimestamp (mk_adapter set_timestamp)).
Definition runtime_timestamp (prev : RTx) (now : u64) (h : u32) : RTx :=
  next_stamp (tx_id prev) now h.

Lemma outer_create_run data prev id s now h :
  is_timestamp (checker prev) = true → height_at s = Some h →
  timestamp_data data = Value now →
  outer_create_inherents data [(prev, id)] s = Ret [next_stamp id now h] s.
Proof.
  intros Hp Hh Hnow. destruct (checker prev) as [| | | | | | | |[c]|] eqn:Hc; try done.
  unfold outer_create_inherents. repeat (rewrite create_all_skip; [|by apply create_simple]).
  apply create_all_cons; [|by rewrite create_all_skip].
  assert (∀ E, timestamp_block_height E s = Ret h s) as Hheight.
  { intros E. cbn [timestamp_block_height runtime_timestamp_config default_timestamp_config].
    by rewrite block_height_run, Hh. }
  rewrite (create_variant_run (C := InherentAdapter SetTimestamp) data [(prev, id)]
    [wrap_transaction (timestamp_tx (height := h) id now nobody)]); [done|].
  assert (relevant (C := InherentAdapter SetTimestamp) [(prev, id)] =
    [(transform (λ _, mk_adapter c) prev, id)]) as ->
    by (unfold relevant; simpl; by rewrite Hc).
  apply adapter_create_run. by apply create_inherent_run.
Qed.

Context `{!InherentsLaws}.

(** The off-chain check of a block that opens with one timestamp. *)
Lemma outer_check_run importing id now h local :
  timestamp_data importing = Value local → (uval local + uval MAX_DRIFT < 2 ^ 64)%N →
  ∃ results, outer_check_inherents importing [next_stamp id now h] check_inherents_new =
               Value results ∧
    (fatal_error results = false ↔ (uval now ≤ uval local + uval MAX_DRIFT)%N).
Proof.
  intros Hl Hlt. unfold outer_check_inherents.
  repeat (rewrite check_all_skip;
    [|apply new_not_fatal|apply check_simple; by repeat constructor]).
  cbn [check_all_variants]. unfold check_variant. cbn [check_inherents inherent_adapter].
  assert (∀ r, adapter_check_inherents importing
    (omap (λ tx, inner_checker ← unwrap (I := InherentAdapter SetTimestamp) (checker tx);
                 Some (transform (λ _, inner_checker) tx)) [next_stamp id now h]) r =
    set_timestamp_check_inherent importing (timestamp_tx (height := h) id now nobody) r)
    as E by done.
  rewrite E, (check_inherent_run importing local) by done. clear E.
  case_decide as Hnow.
  - exists check_inherents_new. split; [|by rewrite new_not_fatal].
    unfold bind, mbind, partial_bind. rewrite new_not_fatal. simpl. by rewrite new_not_fatal.
  - destruct (put_error_some check_inherents_new timestamp_identifier too_far_in_future true
      new_not_fatal) as (r & Hr & Hf).
    exists r. rewrite Hr, Hf. split; [|done]. simpl. by rewrite Hf.
Qed.

(** The checker accepts it when the clock follows. *)
Lemma stamp_accepted dp now h s old more :
  height_at s = Some h → timestamp_of dp = Some old → follows (height := h) old (mk_timestamp now h) →
  outer_check (OuterSetTimestamp (mk_adapter set_timestamp)) [] [] (dp :: more)
    [typed_from (mk_timestamp now h)] s = Ret (trunc 64 0) s.
Proof.
  intros Hh Hold Hf. cbn [outer_check]. unfold check_arm. apply catch_err_ret.
  cbn [check inherent_adapter simple_check set_timestamp_checker adapted].
  apply (set_timestamp_ok (height := h)).
  - intros E. cbn [timestamp_block_height runtime_timestamp_config default_timestamp_config].
    by rewrite block_height_run, Hh.
  - repeat (split; [done|]). eexists (typed_from (mk_timestamp now h)), (mk_timestamp now h), _, _, old.
    split; [done|]. split; [unfold timestamp_of; by rewrite extract_from|].
    split; [done|]. by split.
Qed.

Lemma timestamp_applies prev now h s (u : Output OuterVerifier) old :
  height_at s = Some h → runtime_look s (out_ref prev 0) = Some u →
  timestamp_of (payload u) = Some old →
  follows (height := h) old (mk_timestamp now h) →
  runtime_look s (out_ref (runtime_timestamp prev now h) 0) = None →
  apply_tuxedo_transaction (runtime_timestamp prev now h) s =
  Ret tt (storage_apply s (runtime_timestamp prev now h)).
Proof.
  intros Hh Hu Hold Hf Hnew. set (tx := runtime_timestamp prev now h) in *.
  destruct (peeking_accepted (runtime_look s) (height_at s) tx (out_ref prev 0) u)
    as (Ha & Hi & He & Hp); [done..|].
  apply apply_ret. split; [done|]. exists (trunc 64 0), s. split; [|done].
  unfold check_all. rewrite Hi, He, Hp. by apply (stamp_accepted _ _ _ _ old).
Qed.

Lemma runtime_inherents_run data (parent : Block OuterVerifier OuterConstraintChecker) prev now h s :
  get_data data PARENT_INHERENT_IDENTIFIER = Some (Some parent) →
  opening_inherents (extrinsics parent) = [prev] →
  timestamp_data data = Value now → height_at s = Some h →
  inherent_extrinsics data s = Ret [runtime_timestamp prev now h] s.
Proof.
  intros Hp Hprev Hnow Hh. assert (is_timestamp (checker prev) = true) as Hpt.
  { rewrite <-inherent_is_timestamp. unfold opening_inherents in Hprev.
    pose proof (take_while_Forall (λ tx : RTx, is_inherent (checker tx)) (extrinsics parent)) as Ht.
    rewrite Hprev in Ht. by apply Forall_cons in Ht as [Ht _]. }
  unfold inherent_extrinsics. rewrite Hp, bind_run. cbn [expect]. unfold mret, M_ret.
  rewrite bind_run. cbn [expect]. unfold mret, M_ret. cbn zeta. rewrite Hprev. cbn [map].
  by apply outer_create_run.
Qed.

(** The runtime's inherent, from the parent block to the next.  When the
    parent block opens with one timestamp inherent, an author whose inherent
    data carries the time gets exactly one inherent: it peeks at the first
    output of the parent's and sets the time for the current height.  If that
    output is still in the ledger and the clock follows it, the inherent
    applies and its own output is then in the ledger, ready for the next block;
    and an importer whose clock is not more than the drift behind finds nothing
    wrong with a block that opens with it. *)
Theorem runtime_inherent data (parent : Block OuterVerifier OuterConstraintChecker) prev now h s
    (u : Output OuterVerifier) old rest :
  get_data data PARENT_INHERENT_IDENTIFIER = Some (Some parent) →
  opening_inherents (extrinsics parent) = [prev] →
  timestamp_data data = Value now → height_at s = Some h →
  runtime_look s (out_ref prev 0) = Some u → timestamp_of (payload u) = Some old →
  follows (height := h) old (mk_timestamp now h) →
  opening_inherents rest = [] →
  ∃ tx, inherent_extrinsics data s = Ret [tx] s ∧
    opening_inherents (tx :: rest) = [tx] ∧
    (runtime_look s (out_ref tx 0) = None →
     ∃ s', apply_tuxedo_transaction tx s = Ret tt s' ∧
       ∃ u', runtime_look s' (out_ref tx 0) = Some u' ∧
         timestamp_of (payload u') = Some (mk_timestamp now h)) ∧
    ∀ importing local hd,
      timestamp_data importing = Value local → (uval local + uval MAX_DRIFT < 2 ^ 64)%N →
      ∃ results, executive_check_inherents (mk_block hd (tx :: rest)) importing = Value results ∧
        (fatal_error results = false ↔ (uval now ≤ uval local + uval MAX_DRIFT)%N).
Proof.
  intros Hp Hprev Hnow Hh Hu Hold Hf Hrest. exists (runtime_timestamp prev now h).
  assert (opening_inherents (runtime_timestamp prev now h :: rest) =
    [runtime_timestamp prev now h]) as Hopen
    by (unfold opening_inherents in *; cbn [take_while]; by rewrite Hrest).
  split; [by apply (runtime_inherents_run _ parent)|split; [done|split]].
  - intros Hnew. rewrite (timestamp_applies _ _ _ _ _ _ Hh Hu Hold Hf Hnew).
    eexists. split; [done|].
    exists (mk_output (typed_from (mk_timestamp now h)) nobody).
    split; [|unfold timestamp_of; cbn [payload]; by rewrite extract_from].
    assert (represents (storage_apply s (runtime_timestamp prev now h)) (ledger_apply
      (ledger_of s) (runtime_timestamp prev now h))) as ->
      by apply represents_apply, represents_ledger_of.
    by apply ledger_apply_output.
  - intros importing local hd Hl Hlt. unfold executive_check_inherents.
    cbn [extrinsics]. rewrite Hopen. by apply outer_check_run.
Qed.
End inherents.

(** ** Redeemers of the wrong variant *)

Section mismatch.
Context `{RuntimeLaws, !LawfulCodec (Redeemer OuterVerifier)}.
Implicit Types (s : storage) (tx : Transaction OuterVerifier OuterConstraintChecker).

(** What the output's own verifier answers, when the redeemer is one of its variant. *)
Definition inner_verdict (v : OuterVerifier) (r : OuterVerifierRedeemer) (message : bytes) (h : u32) :
    option (partial bool) :=
  match v, r with
  | OuterSr25519Signature inner, RedeemSr25519Signature signature =>
    Some (verify inner message h signature)
  | OuterUpForGrabs inner, RedeemUpForGrabs redeemer => Some (verify inner message h redeemer)
  | OuterThresholdMultiSignature inner, RedeemThresholdMultiSignature signatures =>
    Some (verify inner message h signatures)
  | _, _ => None
  end.

Definition wrong_redeemer : string :=
  "redeemer variant exists because the macro constructed that type.".

Lemma outer_verify_verdict v r m h :
  outer_verify v m h r = default (Panicked wrong_redeemer) (inner_verdict v r m h).
Proof. by destruct v, r. Qed.

(** What becomes of the only input of a transaction. *)
Definition verdict_status (verdict : option (partial bool)) (u : Output OuterVerifier) : input_status :=
  match verdict with
  | Some (Value true) => Redeemed (payload u)
  | Some (Value false) => Refused
  | Some (Panicked w) => Stuck w
  | None => Stuck wrong_redeemer
  end.

Lemma single_status tx s h (o : OutputRef) (u : Output OuterVerifier) (r : Redeemer OuterVerifier) :
  inputs tx = [mk_input o (Redemption (scale_encode r))] →
  height_at s = Some h → utxo_at s o = Some u →
  statuses (utxo_at s) (height_at s) tx =
  [verdict_status (inner_verdict (verifier u) r (scale_encode (strip tx)) h) u].
Proof.
  intros Hi Hh Hu. unfold statuses. rewrite Hi, Hh. cbn [map]. unfold inspect.
  cbn [output_ref redeemer]. rewrite Hu, decode_value_encode. cbn [verify outer_verifier].
  rewrite outer_verify_verdict. by destruct (inner_verdict _ _ _ _) as [[[]|]|].
Qed.

(** The transaction stops at its only input. *)
Lemma single_stop tx s (i : Input) status f :
  inputs tx = [i] → statuses (utxo_at s) (height_at s) tx = [status] → passes status = false →
  f = match status with Stuck w => Aborts w | _ => Rejects VerifierError end →
  first_failure (utxo_at s) (height_at s) tx = Some f.
Proof.
  intros Hi Hs Hp ->. unfold first_failure. rewrite Hi, Hs.
  rewrite bool_decide_false by (intros Hn; apply Hn, NoDup_singleton).
  cbn [list_find]. rewrite decide_True by done. cbn. by destruct status.
Qed.

(** The answers of the executive and of the pool when a check stops a transaction. *)
Lemma stops tx s f :
  first_failure (utxo_at s) (height_at s) tx = Some f → f ≠ Rejects MissingInput →
  apply_tuxedo_transaction tx s = match f with Rejects e => Throw e s | Aborts w => Panic w end ∧
  (outer_is_inherent (checker tx) = false → validate_transaction tx s =
     match f with Rejects e => Throw (into_invalid e) s | Aborts w => Panic w end).
Proof.
  intros Hf Hm. split; [by rewrite apply_run, Hf|]. intros Hn. unfold validate_transaction.
  cbn [is_inherent outer_checker]. rewrite Hn. unfold catch_err.
  rewrite (validate_stop _ _ _ Hf Hm). by destruct f.
Qed.

(** C32: The redeemer of an input is whatever the sender encodes; take one that decodes as
    a redeemer of the aggregate, as the only input of a transaction.  When it belongs to
    another verifier than the output's, the generated [verify] does not refuse it but
    panics: applying the transaction panics, and so does asking the pool about it
    (unless it is an inherent, which the pool refuses unseen).  With the matching
    variant the verdict is that of the output's own verifier: where it panics, both
    panic; where it refuses, both answer the verifier error; and where it accepts, the
    payload is handed to the checker, and the transaction applies exactly when its peeks
    exist, its outputs do not, and the checker accepts. *)
Theorem mismatched_redeemer tx s h (o : OutputRef) (u : Output OuterVerifier)
    (r : Redeemer OuterVerifier) :
  inputs tx = [mk_input o (Redemption (scale_encode r))] →
  height_at s = Some h → utxo_at s o = Some u →
  match inner_verdict (verifier u) r (scale_encode (strip tx)) h with
  | None =>
      apply_tuxedo_transaction tx s = Panic wrong_redeemer ∧
      (outer_is_inherent (checker tx) = false → validate_transaction tx s = Panic wrong_redeemer)
  | Some (Panicked w) =>
      apply_tuxedo_transaction tx s = Panic w ∧
      (outer_is_inherent (checker tx) = false → validate_transaction tx s = Panic w)
  | Some (Value false) =>
      apply_tuxedo_transaction tx s = Throw VerifierError s ∧
      (outer_is_inherent (checker tx) = false →
       validate_transaction tx s = Throw (into_invalid (VerifierError : UtxoError OuterError)) s)
  | Some (Value true) =>
      (∃ s', apply_tuxedo_transaction tx s = Ret tt s') ↔
      Forall (λ p, is_Some (utxo_at (V := OuterVerifier) s p)) (peeks tx) ∧
      (∀ i, i < List.length (outputs tx) → utxo_at (V := OuterVerifier) s (out_ref tx i) = None) ∧
      ∃ prio s1, outer_check (checker tx) [payload u] [] (peeks_of (utxo_at s) tx)
        (map payload (outputs tx)) s = Ret prio s1
  end.
Proof.
  intros Hi Hh Hu. pose proof (single_status tx s h o u r Hi Hh Hu) as Hs.
  destruct (inner_verdict _ _ _ _) as [[[]|w]|]; cbn [verdict_status] in Hs.
  - assert (inputs_of (utxo_at s) (height_at s) tx = [payload u] ∧
      evictions_of (utxo_at s) (height_at s) tx = []) as [Ei Ee]
      by (by unfold inputs_of, evictions_of; rewrite Hs).
    setoid_rewrite apply_ret. unfold check_all. rewrite Ei, Ee. cbn [check outer_checker]. split.
    + intros (s' & [_ _ Hp Ho] & p & s1 & Hc & _). eauto.
    + intros (Hp & Ho & p & s1 & Hc). exists (storage_apply s1 tx). split; [|by exists p, s1].
      split; [rewrite Hi; apply NoDup_singleton|by rewrite Hs; constructor|done|done].
  - apply (stops tx s (Rejects VerifierError)); [|done]. by eapply single_stop.
  - apply (stops tx s (Aborts w)); [|done]. by eapply single_stop.
  - apply (stops tx s (Aborts wrong_redeemer)); [|done]. by eapply single_stop.
Qed.
End mismatch.

(** ** Witnesses *)

Module Witnesses.
Import RuntimeSample.

Lemma pay_distinct : names_distinct pay.
Proof. split; [by_vm|done]. Defined.

Lemma runtime_supply_witness : (coins paid + 7 = coins state + 6)%N ∧ (coins paid ≤ coins state)%N.
Proof.
  destruct (runtime_supply pay state paid) as [Hb Hc]; [by_vm|exact pay_distinct|].
  split; [exact Hb|exact Hc].
Defined.

Definition open_header : Header := mk_header H256_zero (trunc 32 5) H256_zero H256_zero tt.
Definition pay_block : Header * storage :=
  match author_block open_header [pay] state with Ret h s => (h, s) | _ => (open_header, ∅) end.

Lemma block_supply_witness : (coins pay_block.2 ≤ coins state)%N.
Proof.
  destruct (block_supply (mk_block pay_block.1 [pay]) state pay_block.2) as [_ Hc];
    [by_vm|by constructor; [exact pay_distinct|]|].
  apply Hc. by repeat constructor.
Defined.

Definition parent : Block OuterVerifier OuterConstraintChecker :=
  mk_block open_header [stamped; pay].
Definition authoring : InherentData :=
  [(to_bytesN 8 (bstr "timstap0"), scale_encode (trunc 64 9000));
   (PARENT_INHERENT_IDENTIFIER, scale_encode parent)].

Lemma runtime_inherent_witness :
  ∃ tx : RTx, inherent_extrinsics authoring state = Ret [tx] state ∧
    ∃ s', apply_tuxedo_transaction tx state = Ret tt s'.
Proof.
  destruct (runtime_inherent authoring parent stamped (trunc 64 9000) (trunc 32 5) state
    (stamp 1000 4) (mk_timestamp (trunc 64 1000) (trunc 32 4)) [pay]) as (tx & Hi & _ & Ha & _);
    [by_vm|by_vm|by_vm|by_vm|by_vm|by_vm| |by_vm|].
  { split; [done|]. split; [by_vm|]. right. by apply N.leb_le. }
  exists tx. split; [exact Hi|]. destruct Ha as (s' & Hs & _); [|exists s'; exact Hs].
  assert (inherent_extrinsics authoring state =
    Ret [runtime_timestamp stamped (trunc 64 9000) (trunc 32 5)] state) as E by by_vm.
  rewrite E in Hi. apply ret_value, (f_equal head), Some_inj in Hi. rewrite <-Hi. by_vm.
Defined.

Definition wrong : Redeemer OuterVerifier := RedeemThresholdMultiSignature [].

Definition redeeming (r : Redeemer OuterVerifier) : RTx :=
  mk_transaction [mk_input (Sample.ref 0) (Redemption (scale_encode r))] [] [coin 7] (OuterMoney Spend).

Lemma mismatched_redeemer_witness :
  apply_tuxedo_transaction (redeeming wrong) state = Panic wrong_redeemer.
Proof.
  pose proof (mismatched_redeemer (redeeming wrong) state (trunc 32 5) (Sample.ref 0) (coin 7) wrong)
    as Hw. destruct Hw as [Ha _]; [by_vm..|]. exact Ha.
Defined.
End Witnesses.
