(* ===== verification/RuntimeGenesis.v ===== *)
(** * RuntimeGenesis: the development genesis of the template runtime

    The genesis transactions of [tuxedo-template-runtime/src/genesis.rs], built by
    the genesis builder: what they create, and that the chain can start from
    them. *)

From S2P Require Import Prelude Effects Scale Types Checker UtxoSet CheckerLaws Executive.
From S2P Require Import Concrete Verifiers Samples ExecutiveFacts Ledger Blocks Genesis Supply.
From S2P Require Import Money Amoeba Poe Kitties Timestamp RuntimeUpgrade Aggregator.
From S2P Require Import TemplateRuntime RuntimeSamples RuntimeFacts.

Section genesis.
Context `{RuntimeLaws}.
Abbreviation RTx := (Transaction OuterVerifier OuterConstraintChecker).
Implicit Types (s : storage) (l : list RTx).

(** The inherent of the genesis block, and the transactions that follow it. *)
Definition genesis_clock : RTx :=
  mk_transaction [] [] [mk_output (typed_from (timestamp_new (trunc 64 0) (trunc 32 0))) nobody]
    (OuterSetTimestamp (mk_adapter set_timestamp)).

Definition endowment (owner : OuterVerifier) : RTx :=
  mk_transaction [] [] [mk_output (typed_from (coin_new (ID := token_id) (trunc 128 100))) owner]
    (OuterMoney Mint).

Definition first_kitty (parent : Parent) (preimage : bytes) : RTx :=
  kitty_mint OuterUpForGrabs OuterFreeKitty parent preimage up_for_grabs.

Definition endowments : list RTx :=
  [endowment (OuterSr25519Signature (mk_sr25519 SHAWN_PUB_KEY_BYTES));
   endowment (OuterThresholdMultiSignature
     (mk_multisig (trunc 8 1) [SHAWN_PUB_KEY_BYTES; ANDREW_PUB_KEY_BYTES]));
   first_kitty parent_mom (bstr "mother"); first_kitty parent_dad (bstr "father")].

Lemma development_value :
  development_genesis_transactions = Value (genesis_clock :: endowments).
Proof. done. Qed.

Lemma development_builds s :
  build (genesis_clock :: endowments) s =
  Ret tt (fold_left storage_apply (genesis_clock :: endowments)
            (prepared (genesis_clock :: endowments) s)).
Proof.
  apply build_ret. split; [by repeat constructor|]. split; [by repeat constructor|done].
Qed.
End genesis.

Section clock.
Context `{RuntimeLaws, !LawfulCodec Timestamp, !MoneyLaws}.
Implicit Types (s : storage).

Lemma minted_endowment owner : minted (endowment owner) = 100%N.
Proof.
  unfold minted, created, total, endowment. cbn [checker outputs map payload sumN].
  unfold coin_value, coin_of. by rewrite extract_from.
Qed.

(** The state of block one, before its first transaction. *)
Lemma genesis_state_clock s0 s hd :
  build (genesis_clock :: endowments) s0 = Ret tt s →
  NoDup (map tx_id (genesis_clock :: endowments)) →
  utxo_at (opened hd (delete EXTRINSIC_KEY s)) (out_ref genesis_clock 0) =
  Some (mk_output (typed_from (timestamp_new (trunc 64 0) (trunc 32 0))) nobody).
Proof.
  intros Hb Hd. rewrite represents_ledger_of. unfold opened.
  rewrite !ledger_of_insert by (apply output_ref_key_header || apply output_ref_key_height).
  rewrite <-represents_ledger_of. eapply built_output; [exact Hb|exact Hd| |done|done].
  apply list_elem_of_here.
Qed.

(** The chain starts.  The development genesis is defined, can be built on any
    storage, opens with its only inherent (a timestamp of zero at block zero)
    and mints two hundred tokens.  On the state built, with the transient
    extrinsics removed, an author of block one whose inherent data carries the
    genesis block and any time gets one inherent, and it applies, unless its
    own output or the identifiers of the genesis transactions collide. *)
Theorem genesis_starts_clock s0 s hd data (parent : Block OuterVerifier OuterConstraintChecker) now l :
  development_genesis_transactions = Value l → build l s0 = Ret tt s →
  NoDup (map tx_id l) → extrinsics parent = l →
  get_data data PARENT_INHERENT_IDENTIFIER = Some (Some parent) →
  timestamp_data data = Value now → number hd = trunc 32 1 →
  let s1 := opened hd (delete EXTRINSIC_KEY s) in
  opening_inherents l = [genesis_clock] ∧ sumN (map minted l) = 200%N ∧
  ∃ tx, inherent_extrinsics data s1 = Ret [tx] s1 ∧
    (utxo_at (V := OuterVerifier) s1 (out_ref tx 0) = None →
     ∃ s2, apply_tuxedo_transaction tx s1 = Ret tt s2).
Proof.
  rewrite development_value. intros [= <-] Hb Hd Hp Hdata Hnow Hnum s1.
  assert (opening_inherents (genesis_clock :: endowments) = [genesis_clock]) as Hopen by done.
  assert (height_at s1 = Some (trunc 32 1)) as Hh.
  { unfold s1, height_at. rewrite opened_lookup, decide_False, decide_True by done. simpl.
    by rewrite decode_value_encode, Hnum. }
  split; [done|]. split.
  { cbn [map endowments sumN]. rewrite !minted_endowment. done. }
  exists (runtime_timestamp genesis_clock now (trunc 32 1)). split.
  - apply (runtime_inherents_run _ parent); try done. by rewrite Hp.
  - intros Hnew. pose proof (genesis_state_clock s0 s hd Hb Hd) as Hu.
    rewrite (timestamp_applies _ _ _ _ _ (timestamp_new (trunc 64 0) (trunc 32 0)) Hh Hu).
    + by eexists.
    + unfold timestamp_of. cbn [payload]. by rewrite extract_from.
    + split; [done|]. split; [by apply uint_eq|by left].
    + done.
Qed.
End clock.

(** ** Witnesses *)

Module Witnesses.
Import RuntimeSample.

Definition genesis_list : list RTx := genesis_clock :: endowments.
Definition genesis_state : storage :=
  match build genesis_list ∅ with Ret _ s => s | _ => ∅ end.
Definition first_header : Header := mk_header H256_zero (trunc 32 1) H256_zero H256_zero tt.
Definition genesis_body : Block OuterVerifier OuterConstraintChecker :=
  mk_block first_header genesis_list.
Definition genesis_data : InherentData :=
  [(to_bytesN 8 (bstr "timstap0"), scale_encode (trunc 64 9000));
   (PARENT_INHERENT_IDENTIFIER, scale_encode genesis_body)].

Lemma genesis_starts_clock_witness :
  sumN (map minted genesis_list) = 200%N ∧
  ∃ tx : RTx, inherent_extrinsics genesis_data (opened first_header
    (delete EXTRINSIC_KEY genesis_state)) =
    Ret [tx] (opened first_header (delete EXTRINSIC_KEY genesis_state)).
Proof.
  destruct (genesis_starts_clock ∅ genesis_state first_header genesis_data genesis_body
    (trunc 64 9000) genesis_list) as (_ & Hm & tx & Hi & _); [by_vm..|].
  split; [exact Hm|]. exists tx. exact Hi.
Defined.
End Witnesses.
