(* ===== verification/RuntimeTypes.v ===== *)
(** * RuntimeTypes: the payloads in the ledger of the template runtime

    Outputs carry bytes and a type identifier that anybody may write.  The
    constraint checkers let an output in only if its payload decodes as one of the
    runtime's types, so that the ledger stays well typed. *)

From S2P Require Import Prelude Effects Scale Types Checker UtxoSet CheckerLaws Executive.
From S2P Require Import Concrete Verifiers Samples ExecutiveFacts Ledger Blocks Genesis Supply Money.
From S2P Require Import LedgerInvariants Amoeba Poe Kitties Timestamp RuntimeUpgrade Aggregator TemplateRuntime.
From S2P Require Import RuntimeSamples RuntimeFacts.

(** The types of the pieces, as tags, and the tag of a payload that decodes. *)
Inductive piece_type := CoinType | KittyType | AmoebaType | ClaimType | TimestampType | RuntimeRefType.

Section types.
Context `{RuntimeLaws}.
Implicit Types (d : DynamicallyTypedData) (s : storage).

Definition decodes_as (t : piece_type) d : Prop :=
  match t with
  | CoinType => is_coin token_id d
  | KittyType => is_Some (kitty_of d)
  | AmoebaType => is_Some (amoeba_of d)
  | ClaimType => is_Some (claim_of d)
  | TimestampType => is_Some (timestamp_of d)
  | RuntimeRefType => is_Some (runtime_ref_of d)
  end.
Definition piece_id (t : piece_type) : bytesN 4 :=
  match t with
  | CoinType => TYPE_ID (Coin token_id)
  | KittyType => TYPE_ID KittyData
  | AmoebaType => TYPE_ID AmoebaDetails
  | ClaimType => TYPE_ID ClaimData
  | TimestampType => TYPE_ID Timestamp
  | RuntimeRefType => TYPE_ID RuntimeRef
  end.
(** A payload whose identifier is that of one of the types and that decodes as it. *)
Definition well_typed d : Prop := ∃ t, type_id d = piece_id t ∧ decodes_as t d.

Lemma ok_type {T} `{UtxoData T} d v : ok (extract T d) = Some v → type_id d = TYPE_ID T.
Proof. destruct (extract T d) as [x|] eqn:Hx; [|done]. by apply extract_ok in Hx as [? _]. Qed.

Lemma decodes_type t d : decodes_as t d → type_id d = piece_id t.
Proof.
  intros Hd. destruct t; destruct Hd as [v Hv]; try exact (ok_type d v Hv).
  unfold coin_of in Hv. destruct (extract (Coin token_id) d) as [c|] eqn:Hc; [|done].
  by apply extract_ok in Hc as [? _].
Qed.

Lemma decodes_typed t d : decodes_as t d → well_typed d.
Proof. intros Hd. exists t. split; [by apply decodes_type|done]. Qed.

Lemma piece_id_inj t u : piece_id t = piece_id u → t = u.
Proof. destruct t, u; intros E; try done; exfalso; revert E; apply (bool_decide_unpack _); by_vm. Qed.

Lemma all_decode t l : Forall (decodes_as t) l → Forall well_typed l.
Proof. intros Hl. eapply Forall_impl; [exact Hl|]. intros d. apply decodes_typed. Qed.

(** Whatever the variant, a checker that accepts has decoded every output. *)
Lemma outer_outputs_typed c i e p o s prio s' :
  outer_check c i e p o s = Ret prio s' → Forall well_typed o.
Proof.
  destruct c as [c|c|c|c|c|c|c|c|c|c]; cbn [outer_check]; unfold check_arm;
    intros Hc%catch_err_ret; cbn [check simple_constraint_checker simple_check] in Hc.
  - cbn [money_checker] in Hc. apply lift_result_ret in Hc as [Hc _]. destruct c.
    + apply spend_ok in Hc as (_ & _ & _ & Ho & _). apply (all_decode CoinType).
      eapply Forall_impl; [exact Ho|]. intros d (n & Hn & _). by exists n.
    + apply mint_ok in Hc as (_ & _ & _ & Ho & _). apply (all_decode CoinType).
      eapply Forall_impl; [exact Ho|]. intros d (n & Hn & _). by exists n.
  - apply lift_result_ret in Hc as [(_ & _ & m & d & m' & d' & k & _ & Ho & _)%kitty_ok _].
    apply (all_decode KittyType). revert Ho.
    destruct o as [|d1 [|d2 [|d3 [|? ?]]]]; try done. intros [= E1 E2 E3].
    by repeat constructor; eexists.
  - apply lift_result_ret in Hc as [(_ & _ & ? & ? & ? & ? & ? & ? & _ & -> & _ & ? & ? & _)%mitosis_ok _].
    apply (all_decode AmoebaType). by repeat constructor; eexists.
  - by apply lift_result_ret in Hc as [(_ & -> & _)%death_ok _].
  - apply lift_result_ret in Hc as [(_ & _ & _ & ? & ? & -> & ? & _)%creation_ok _].
    apply (all_decode AmoebaType). by repeat constructor; eexists.
  - apply (claim_outputs c _ _ p) in Hc as (_ & _ & Ho). by apply (all_decode ClaimType).
  - by apply lift_result_ret in Hc as [(_ & -> & _)%revoke_ok _].
  - by apply lift_result_ret in Hc as [(_ & -> & _)%dispute_ok _].
  - apply (set_timestamp_output (adapted c) _ _ p) in Hc as (_ & _ & ? & -> & ?).
    apply (all_decode TimestampType). by repeat constructor.
  - apply (upgrade_ok c _ _ p) in Hc as (_ & _ & _ & ? & ? & ? & _ & -> & _ & _ & (? & ? & _)).
    apply (all_decode RuntimeRefType). by repeat constructor; eexists.
Qed.

#[export] Instance outer_demands : DemandsOutputs well_typed OuterConstraintChecker.
Proof. intros c i e p o s prio s' Hc. exact (outer_outputs_typed _ _ _ _ _ _ _ _ Hc). Qed.

(** ** The ledger *)

Abbreviation runtime_ledger s := (@ledger_of _ _ _ OuterVerifier verifier_codec s).

(** C13: The ledger stays well typed. In every state that the chain of the template
    runtime reaches, by importing blocks, from a state whose payloads are well
    typed, every payload carries the identifier of one of the runtime's types and
    decodes as that type, which is the only one it has: whoever reads an output
    by its type never meets bytes that do not decode. *)
Theorem ledger_well_typed s s' :
  rtc (chain_step (V := OuterVerifier) (C := OuterConstraintChecker)) s s' →
  holds_of well_typed (runtime_ledger s) →
  ∀ o u, runtime_ledger s' !! o = Some u →
    ∃ t, type_id (payload u) = piece_id t ∧ decodes_as t (payload u) ∧
      ∀ t', type_id (payload u) = piece_id t' → t' = t.
Proof.
  intros Hs HL o u Hu.
  assert (holds_of well_typed (runtime_ledger s')) as HL'.
  { clear Hu. induction Hs as [|s s1 s' [] _ IH]; [done|].
    eapply IH, execute_block_holds; [apply _|done..]. }
  destruct (HL' _ _ Hu) as (t & Ht & Hd). exists t. split; [done|]. split; [done|].
  intros t' E. apply piece_id_inj. congruence.
Qed.
End types.

(** ** Witnesses *)

Module Witnesses.
Import RuntimeSample.

Definition typed_header : Header := mk_header H256_zero (trunc 32 5) H256_zero H256_zero tt.
Definition typed_block : Header * storage :=
  match author_block typed_header [pay] state with Ret h s => (h, s) | _ => (typed_header, ∅) end.

Lemma ledger_well_typed_witness :
  ∃ t, type_id (payload (coin 4)) = piece_id t ∧ decodes_as t (payload (coin 4)).
Proof.
  destruct (ledger_well_typed state typed_block.2) with (o := out_ref pay 0) (u := coin 4)
    as (t & Ht & Hd & _).
  - apply rtc_once, (import_block (mk_block typed_block.1 [pay])). by_vm.
  - assert (ledger_of (V := OuterVerifier) state =
      {[ Sample.ref 0 := coin 7; out_ref stamped 0 := stamp 1000 4 ]}) as -> by by_vm.
    apply map_Forall_insert_2; [apply (decodes_typed CoinType); by_vm|].
    apply map_Forall_singleton, (decodes_typed TimestampType). by_vm.
  - by_vm.
  - exists t. split; [exact Ht|exact Hd].
Defined.
End Witnesses.
