(* ===== verification/WalletFacts.v ===== *)
(** * WalletFacts: the wallet's tables as maps, and what blocks do to them

    The abstract wallet is a pair of finite maps from references to an owner and
    an amount: what is unspent and what is spent.  The operations of the
    database compute on these maps; rolling a transaction back restores them;
    applying a transaction follows the ledger. *)

From S2P Require Import Prelude Effects Scale Types Checker UtxoSet CheckerLaws Executive.
From S2P Require Import Verifiers ExecutiveFacts Ledger Blocks Supply Money Timestamp TemplateRuntime.
From S2P Require Import RuntimeFacts Wallet.

Abbreviation owned_coins := (gmap OutputRef (H256 * u128)).

(** ** The abstract wallet *)

Section abstract.
Context `{RuntimeParameters} {C : Type} `{!ConstraintChecker C}.
Implicit Types (U S : owned_coins) (o : OutputRef) (tx : Transaction OuterVerifier C).

(** The tree that stores a map. *)
Definition encode_tree U : tree := kmap scale_encode (scale_encode <$> U).

(** What the wallet records of an output. *)
Definition owned (filter : OuterVerifier → bool) (out : Output OuterVerifier) :
    option (H256 * u128) :=
  match verifier out, extract (Coin token_id) (payload out) with
  | OuterSr25519Signature k, Ok c =>
    if filter (verifier out) then Some (owner_pubkey k, value c) else None
  | _, _ => None
  end.

(** Outputs the wallet can read: a coin it tracks decodes and is locked by a
    single key, a timestamp decodes. *)
Definition readable (filter : OuterVerifier → bool) (out : Output OuterVerifier) : Prop :=
  if bool_decide (type_id (payload out) = TYPE_ID (Coin token_id))
  then filter (verifier out) = true → is_Some (owned filter out)
  else type_id (payload out) = TYPE_ID Timestamp → is_Some (timestamp_of (payload out)).

Definition note_time (ts : tree) (out : Output OuterVerifier) : tree :=
  if bool_decide (type_id (payload out) = TYPE_ID (Coin token_id)) then ts
  else match timestamp_of (payload out) with
       | Some t => <[[Byte.x00] := scale_encode (time t)]> ts
       | None => ts
       end.

Definition add_coin filter (h : H256) U (p : nat * Output OuterVerifier) : owned_coins :=
  match owned filter p.2 with
  | Some a => <[mk_output_ref h (trunc 32 (N.of_nat p.1)) := a]> U
  | None => U
  end.

Definition spend_coin (w : owned_coins * owned_coins) o : owned_coins * owned_coins :=
  match w.1 !! o with Some a => (delete o w.1, <[o := a]> w.2) | None => w end.
Definition unspend_coin (w : owned_coins * owned_coins) o : owned_coins * owned_coins :=
  match w.2 !! o with Some a => (<[o := a]> w.1, delete o w.2) | None => w end.

(** A transaction forwards and backwards. *)
Definition wallet_apply filter (w : owned_coins * owned_coins) tx : owned_coins * owned_coins :=
  fold_left spend_coin (map output_ref (inputs tx))
    (fold_left (add_coin filter (tx_id tx)) (enumerate (outputs tx)) w.1, w.2).
Definition wallet_unapply (w : owned_coins * owned_coins) tx : owned_coins * owned_coins :=
  let w := fold_left unspend_coin (map output_ref (inputs tx)) w in
  (fold_left (λ U i, delete (out_ref tx i) U) (seq 0 (List.length (outputs tx))) w.1, w.2).

(** A transaction that can be rolled back: no output of it is recorded yet, no
    input of it is already recorded as spent. *)
Definition revertible (w : owned_coins * owned_coins) tx : Prop :=
  (∀ i, i < List.length (outputs tx) → w.1 !! out_ref tx i = None) ∧
  (∀ o, o ∈ map output_ref (inputs tx) → w.2 !! o = None).

(** ** Spending and unspending, pointwise *)

Lemma fold_spend l w o :
  (fold_left spend_coin l w).1 !! o = (if decide (o ∈ l) then None else w.1 !! o) ∧
  (fold_left spend_coin l w).2 !! o =
    (if decide (o ∈ l) then match w.1 !! o with Some a => Some a | None => w.2 !! o end
     else w.2 !! o).
Proof.
  revert w. induction l as [|x l IH]; intros [U S]; cbn [fold_left].
  { rewrite !decide_False by apply not_elem_of_nil. done. }
  destruct (IH (spend_coin (U, S) x)) as [-> ->]. unfold spend_coin; cbn [fst snd].
  destruct (decide (o = x)) as [->|Ho].
  - rewrite !(decide_True (P := x ∈ x :: l)) by constructor.
    destruct (U !! x) as [a|] eqn:Hx; cbn [fst snd].
    + rewrite lookup_delete_eq, lookup_insert_eq. by destruct (decide _).
    + rewrite Hx. by destruct (decide _).
  - assert (o ∈ x :: l ↔ o ∈ l) as Hl by (rewrite elem_of_cons; tauto).
    destruct (decide (o ∈ l)); [rewrite !(decide_True (P := o ∈ x :: l)) by tauto
                               |rewrite !(decide_False (P := o ∈ x :: l)) by tauto];
      destruct (U !! x); cbn [fst snd];
      by rewrite ?lookup_delete_ne, ?lookup_insert_ne by done.
Qed.

Lemma fold_unspend l w o :
  (fold_left unspend_coin l w).2 !! o = (if decide (o ∈ l) then None else w.2 !! o) ∧
  (fold_left unspend_coin l w).1 !! o =
    (if decide (o ∈ l) then match w.2 !! o with Some a => Some a | None => w.1 !! o end
     else w.1 !! o).
Proof.
  assert (∀ l w, fold_left unspend_coin l w =
    ((fold_left spend_coin l (w.2, w.1)).2, (fold_left spend_coin l (w.2, w.1)).1)) as ->.
  { clear. induction l as [|x l IH]; intros [U S]; [done|]. cbn [fold_left]. rewrite IH.
    unfold spend_coin, unspend_coin. cbn [fst snd]. by destruct (S !! x). }
  destruct (fold_spend l (w.2, w.1) o) as [H1 H2]. by split.
Qed.

Lemma fold_add_other filter h l U o :
  (∀ p, p ∈ l → is_Some (owned filter p.2) → o ≠ mk_output_ref h (trunc 32 (N.of_nat p.1))) →
  fold_left (add_coin filter h) l U !! o = U !! o.
Proof.
  revert U. induction l as [|p l IH]; intros U Ho; [done|]. cbn [fold_left].
  rewrite IH by (intros; apply Ho; [by constructor|done]). unfold add_coin.
  destruct (owned filter p.2) eqn:E; [|done].
  rewrite lookup_insert_ne; [done|]. apply not_eq_sym, Ho; [constructor|by rewrite E].
Qed.

(** Rolling back is the inverse of applying. *)
Lemma wallet_unapply_apply filter w tx :
  revertible w tx → wallet_unapply (wallet_apply filter w tx) tx = w.
Proof.
  intros [Ho Hi]. destruct w as [U S]. unfold wallet_unapply, wallet_apply. cbn [fst snd] in *.
  set (l := map output_ref (inputs tx)) in *.
  set (U1 := fold_left (add_coin filter (tx_id tx)) (enumerate (outputs tx)) U).
  f_equal; apply map_eq; intros o.
  - rewrite (fold_delete_lookup (λ i, out_ref tx i)).
    rewrite (proj2 (fold_unspend l _ o)). destruct (fold_spend l (U1, S) o) as [-> ->].
    cbn [fst snd].
    destruct (decide (o ∈ map (λ i, out_ref tx i) (seq 0 (List.length (outputs tx))))) as [Hx|Hx].
    + apply list_elem_of_fmap in Hx as (i & -> & Hx%elem_of_seq). by rewrite Ho by lia.
    + assert (U1 !! o = U !! o) as E.
      { apply fold_add_other. intros [i out] Hp%elem_of_enumerate _ ->. apply Hx.
        apply (list_elem_of_fmap_2 (λ i, out_ref tx i)), elem_of_seq.
        apply lookup_lt_Some in Hp. cbn [fst]. lia. }
      destruct (decide (o ∈ l)) as [Hl|]; [|done].
      rewrite E, (Hi _ Hl). by destruct (U !! o).
  - destruct (fold_unspend l (fold_left spend_coin l (U1, S)) o) as [-> _].
    destruct (fold_spend l (U1, S) o) as [_ ->]. cbn [fst snd].
    destruct (decide (o ∈ l)) as [Hl|]; [by rewrite Hi|done].
Qed.

(** ** Following the ledger *)

(** The part of a ledger the wallet tracks. *)
Definition tracked filter (L : ledger OuterVerifier) : owned_coins := omap (owned filter) L.

Lemma fold_add_at filter h l U p :
  NoDup (map (λ p, mk_output_ref h (trunc 32 (N.of_nat p.1))) l) → p ∈ l →
  fold_left (add_coin filter h) l U !! mk_output_ref h (trunc 32 (N.of_nat p.1)) =
  match owned filter p.2 with
  | Some a => Some a
  | None => U !! mk_output_ref h (trunc 32 (N.of_nat p.1))
  end.
Proof.
  revert U. induction l as [|q l IH]; intros U Hd Hp; [by apply elem_of_nil in Hp|].
  cbn [fold_left map] in *. apply NoDup_cons in Hd as [Hq Hd].
  apply elem_of_cons in Hp as [->|Hp].
  - rewrite fold_add_other.
    + unfold add_coin. destruct (owned filter q.2); [by rewrite lookup_insert_eq|done].
    + intros q' Hq' _ E. apply Hq. rewrite E.
      by apply (list_elem_of_fmap_2 (λ p, mk_output_ref h (trunc 32 (N.of_nat p.1)))).
  - rewrite IH by done. destruct (owned filter p.2); [done|]. unfold add_coin.
    destruct (owned filter q.2); [|done]. rewrite lookup_insert_ne; [done|].
    intros E. apply Hq. rewrite E.
    by apply (list_elem_of_fmap_2 (λ p, mk_output_ref h (trunc 32 (N.of_nat p.1)))).
Qed.

(** The wallet adds the outputs before it spends the inputs, the ledger does the
    converse; for an accepted transaction the two agree. *)
Lemma wallet_follows filter L h tx S :
  accepted (L !!.) h tx → (N.of_nat (List.length (outputs tx)) ≤ 2 ^ 32)%N →
  (wallet_apply filter (tracked filter L, S) tx).1 = tracked filter (ledger_apply L tx).
Proof.
  intros Ha Hn. apply map_eq. intros o. unfold wallet_apply. cbn [fst].
  rewrite (proj1 (fold_spend _ _ o)). cbn [fst].
  assert (∀ L, tracked filter L !! o = L !! o ≫= owned filter) as Ht by (intros; apply lookup_omap).
  rewrite Ht.
  destruct (decide (Exists (λ i, o = out_ref tx i) (seq 0 (List.length (outputs tx))))) as [Ho|Ho].
  - apply Exists_exists in Ho as (i & Hi%elem_of_seq & ->).
    destruct (lookup_lt_is_Some_2 (outputs tx) i) as [out Hout]; [lia|].
    rewrite decide_False by (intros Hin; by eapply (accepted_input_not_output _ _ _ _ i Ha Hin); [lia|]).
    rewrite (ledger_apply_output _ _ _ _ Hn Hout). cbn.
    pose proof (fold_add_at filter (tx_id tx) (enumerate (outputs tx)) (tracked filter L) (i, out)
      (out_refs_distinct _ Hn) ltac:(by apply elem_of_enumerate)) as E.
    cbn [fst snd] in E. unfold out_ref. rewrite E. destruct (owned filter out); [done|].
    unfold out_ref in Ht. rewrite Ht.
    pose proof (acc_outputs _ _ _ Ha i ltac:(lia)) as Hf. unfold out_ref in Hf. by rewrite Hf.
  - rewrite ledger_apply_other.
    + destruct (decide (o ∈ map output_ref (inputs tx))); [done|]. rewrite fold_add_other.
      * apply Ht.
      * intros [i out] Hp%elem_of_enumerate _ ->. apply Ho, Exists_exists. exists i.
        split; [|done]. apply elem_of_seq. apply lookup_lt_Some in Hp. lia.
    + intros i Hi ->. apply Ho, Exists_exists. exists i. split; [apply elem_of_seq; lia|done].
Qed.
End abstract.

(** ** The database computes the abstract wallet *)

Section runs.
Context `{RuntimeLaws, Sled, Opaque, !OpaqueCodecs} {C : Type} `{!ConstraintChecker C}.
Context `{!MoneyLaws, !LawfulCodec Timestamp}.
#[local] Existing Instances verifier_codec checker_codec.
Implicit Types (U S : owned_coins) (o : OutputRef) (w : owned_coins * owned_coins)
  (tx : Transaction OuterVerifier C) (bh bl ts : tree).

(** The database that holds an abstract wallet. *)
Definition db_of bh bl w ts : WalletDb := mk_db bh bl (encode_tree w.1) (encode_tree w.2) ts.

Lemma encode_tree_lookup U o : encode_tree U !! scale_encode o = scale_encode <$> U !! o.
Proof. unfold encode_tree. by rewrite (lookup_kmap scale_encode), lookup_fmap. Qed.
Lemma encode_tree_insert U o a :
  encode_tree (<[o := a]> U) = <[scale_encode o := scale_encode a]> (encode_tree U).
Proof. unfold encode_tree. by rewrite fmap_insert, (kmap_insert scale_encode). Qed.
Lemma encode_tree_delete U o : encode_tree (delete o U) = delete (scale_encode o) (encode_tree U).
Proof. unfold encode_tree. by rewrite fmap_delete, (kmap_delete scale_encode). Qed.

Lemma spend_output_run bh bl w ts o :
  spend_output o (db_of bh bl w ts) = Ret tt (db_of bh bl (spend_coin w o) ts).
Proof.
  destruct w as [U S]. unfold spend_output, spend_coin, db_of. rewrite bind_run. cbn.
  rewrite encode_tree_lookup. destruct (U !! o) as [[k a]|] eqn:Hu; cbn.
  - rewrite decode_or_encode. cbn. by rewrite encode_tree_delete, encode_tree_insert.
  - unfold set_unspent, set_spent, bind, mbind, M_bind, modify. cbn. rewrite delete_id; [done|]. by rewrite encode_tree_lookup, Hu.
Qed.

Lemma unspend_output_run bh bl w ts o :
  unspend_output o (db_of bh bl w ts) = Ret tt (db_of bh bl (unspend_coin w o) ts).
Proof.
  destruct w as [U S]. unfold unspend_output, unspend_coin, db_of. rewrite bind_run. cbn.
  rewrite encode_tree_lookup. destruct (S !! o) as [[k a]|] eqn:Hs; cbn.
  - rewrite decode_or_encode. cbn. by rewrite encode_tree_delete, encode_tree_insert.
  - unfold set_unspent, set_spent, bind, mbind, M_bind, modify. cbn. rewrite delete_id; [done|]. by rewrite encode_tree_lookup, Hs.
Qed.

Lemma spend_inputs_run bh bl w ts (l : list Input) :
  for_each l (λ _ input, spend_output (output_ref input)) tt (db_of bh bl w ts) =
  Ret tt (db_of bh bl (fold_left spend_coin (map output_ref l) w) ts).
Proof.
  revert w. induction l as [|i l IH]; intros w; [done|]. cbn [for_each map fold_left].
  by rewrite bind_run, spend_output_run.
Qed.

Lemma unspend_inputs_run bh bl w ts (l : list Input) :
  for_each l (λ _ input, unspend_output (output_ref input)) tt (db_of bh bl w ts) =
  Ret tt (db_of bh bl (fold_left unspend_coin (map output_ref l) w) ts).
Proof.
  revert w. induction l as [|i l IH]; intros w; [done|]. cbn [for_each map fold_left].
  by rewrite bind_run, unspend_output_run.
Qed.

(** An output that the wallet does not track or cannot be a coin adds nothing. *)
Lemma owned_coin filter out a :
  owned filter out = Some a →
  type_id (payload out) = TYPE_ID (Coin token_id) ∧ filter (verifier out) = true ∧
  ∃ k c, verifier out = OuterSr25519Signature (mk_sr25519 k) ∧
    extract (Coin token_id) (payload out) = Ok c ∧ a = (k, value c).
Proof.
  unfold owned. destruct (verifier out) as [[k]| |] eqn:Hv; try done.
  destruct (extract _ _) as [c|] eqn:Hc; [|done]. destruct (filter _) eqn:Hf; [|done].
  intros [= <-]. split; [by apply extract_ok in Hc as [? _]|]. split; [done|]. by exists k, c.
Qed.

Lemma apply_output_run filter h i out bh bl w ts :
  readable filter out →
  apply_output filter h i out (db_of bh bl w ts) =
  Ret tt (db_of bh bl (add_coin filter h w.1 (i, out), w.2) (note_time ts out)).
Proof.
  destruct w as [U S].
  unfold readable, apply_output, note_time, add_coin. cbn [fst snd].
  case_bool_decide as Hc.
  - destruct (filter (verifier out)) eqn:Hf.
    + intros Ho. destruct (Ho eq_refl) as [a Ha]. rewrite Ha.
      apply owned_coin in Ha as (_ & _ & k & c & Hv & Hx & ->).
      unfold money_apply_transaction. rewrite Hx, Hv. cbn.
      unfold db_of. cbn. by rewrite encode_tree_insert.
    + intros _. destruct (owned filter out) eqn:Ho; [|done].
      apply owned_coin in Ho as (_ & E & _). by rewrite Hf in E.
  - assert (owned filter out = None) as ->.
    { destruct (owned filter out) eqn:Ho; [|done]. by apply owned_coin in Ho as [? _]. }
    intros Ht. case_bool_decide as Hy.
    + destruct (Ht Hy) as [t Hx]. rewrite Hx. unfold timestamp_apply_transaction, timestamp_of in *.
      destruct (extract Timestamp (payload out)) as [t'|]; [|done]. injection Hx as ->. done.
    + unfold timestamp_of, extract. by rewrite (bool_decide_false _ Hy).
Qed.

Lemma apply_outputs_run filter h (l : list (nat * Output OuterVerifier)) bh bl w ts :
  Forall (readable filter) (map snd l) →
  for_each l (λ _ '(index, output), apply_output filter h index output) tt (db_of bh bl w ts) =
  Ret tt (db_of bh bl (fold_left (add_coin filter h) l w.1, w.2)
            (fold_left note_time (map snd l) ts)).
Proof.
  revert w ts. induction l as [|[i out] l IH]; intros [U S] ts; [done|].
  cbn [map snd]. intros [Ho Hl]%Forall_cons. cbn [for_each fold_left].
  rewrite bind_run, apply_output_run by done. by rewrite IH.
Qed.

(** ** Transactions *)

(** The opaque extrinsic of a transaction: the same bytes. *)
Definition seals (p : OpaqueExtrinsic) tx : Prop := scale_encode p = scale_encode tx.

Context `{!LawfulCodec C}.

Lemma apply_transaction_run filter p tx bh bl w ts :
  seals p tx → Forall (readable filter) (outputs tx) →
  apply_transaction (C := C) filter p (db_of bh bl w ts) =
  Ret tt (db_of bh bl (wallet_apply filter w tx) (fold_left note_time (outputs tx) ts)).
Proof.
  unfold seals. intros Hp Hr. unfold apply_transaction. rewrite Hp.
  rewrite bind_run. rewrite decode_or_encode. cbn [mret M_ret].
  rewrite bind_run, apply_outputs_run by by rewrite enumerate_snd.
  rewrite spend_inputs_run. by rewrite enumerate_snd.
Qed.

Lemma remove_output_run bh bl w ts o :
  remove_unspent_output o (db_of bh bl w ts) = Ret tt (db_of bh bl (delete o w.1, w.2) ts).
Proof. unfold remove_unspent_output, db_of. cbn. by rewrite encode_tree_delete. Qed.

Lemma remove_outputs_run bh bl w ts (r : nat → OutputRef) l :
  for_each l (λ _ i, remove_unspent_output (r i)) tt (db_of bh bl w ts) =
  Ret tt (db_of bh bl (fold_left (λ U i, delete (r i) U) l w.1, w.2) ts).
Proof.
  revert w. induction l as [|i l IH]; intros [U S]; [done|]. cbn [for_each fold_left].
  by rewrite bind_run, remove_output_run, IH.
Qed.

Lemma unapply_transaction_run p tx bh bl w ts :
  seals p tx →
  unapply_transaction (C := C) p (db_of bh bl w ts) = Ret tt (db_of bh bl (wallet_unapply w tx) ts).
Proof.
  unfold seals. intros Hp. unfold unapply_transaction. rewrite Hp.
  rewrite bind_run. rewrite decode_or_encode. cbn [mret M_ret].
  rewrite bind_run, unspend_inputs_run. apply (remove_outputs_run _ _ _ _ (out_ref tx)).
Qed.
End runs.
