(* ===== verification/WalletChain.v ===== *)
(** * WalletChain: chains of blocks and the databases that have followed them

    A chain of blocks, newest first, determines the database that has followed
    it.  Applying a block and unapplying the highest one move along the chain;
    synchronizing moves the database from the wallet's chain to the node's,
    whatever fork lies between them. *)

From S2P Require Import Prelude Effects Scale Types Checker UtxoSet CheckerLaws Executive.
From S2P Require Import Verifiers ExecutiveFacts Ledger Blocks Supply Money Timestamp.
From S2P Require Import TemplateRuntime RuntimeFacts Wallet WalletRpc WalletFacts.

Section chains.
Context `{RuntimeLaws, Sled, Opaque, !OpaqueCodecs} {C : Type} `{!ConstraintChecker C}.
Context `{!MoneyLaws, !LawfulCodec Timestamp}.
#[local] Existing Instances verifier_codec checker_codec.
Context `{!LawfulCodec C, !LawfulCodec OpaqueBlock}.

(** A block the wallet knows, with its hash and the transactions in it. *)
Record known : Type := mk_known {
  known_hash : H256;
  known_block : OpaqueBlock;
  known_txs : list (Transaction OuterVerifier C);
}.
Implicit Types (k : known) (l : list known) (w : owned_coins * owned_coins) (ts : tree)
  (filter : OuterVerifier → bool).

Fixpoint hash_tree l : tree :=
  match l with
  | [] => ∅
  | k :: l => <[scale_encode (trunc 32 (N.of_nat (List.length l))) := scale_encode (known_hash k)]>
                (hash_tree l)
  end.
Fixpoint block_tree l : tree :=
  match l with
  | [] => ∅
  | k :: l => <[scale_encode (known_hash k) := scale_encode (known_block k)]> (block_tree l)
  end.
(** The abstract wallet that has followed a chain. *)
Fixpoint wallet_at filter l : owned_coins * owned_coins :=
  match l with
  | [] => (∅, ∅)
  | k :: l => fold_left (wallet_apply filter) (known_txs k) (wallet_at filter l)
  end.
Definition db_at filter l ts : WalletDb :=
  db_of (hash_tree l) (block_tree l) (wallet_at filter l) ts.

Fixpoint revertible_all filter w (txs : list (Transaction OuterVerifier C)) : Prop :=
  match txs with
  | [] => True
  | tx :: txs => revertible w tx ∧ revertible_all filter (wallet_apply filter w tx) txs
  end.

(** A block that comes next on a chain and that the wallet can apply: its number is
    its position, its extrinsics are its transactions, which the wallet can read. *)
Record reads_block filter l k : Prop := {
  rb_number : number (opaque_header (known_block k)) = trunc 32 (N.of_nat (List.length l));
  rb_txs : Forall2 seals (opaque_extrinsics (known_block k)) (known_txs k);
  rb_readable : Forall (λ tx, Forall (readable filter) (outputs tx)) (known_txs k);
}.
(** One that it can roll back as well: its hash is new and its transactions can be
    reverted. *)
Record follows_chain filter l k : Prop := {
  fc_reads : reads_block filter l k;
  fc_hash : known_hash k ∉ map known_hash l;
  fc_revertible : revertible_all filter (wallet_at filter l) (known_txs k);
}.

(** All blocks of a chain can be applied; those above a chain can be rolled back. *)
Fixpoint reads_chain filter l : Prop :=
  match l with [] => True | k :: l => reads_block filter l k ∧ reads_chain filter l end.
Fixpoint good_above filter p l : Prop :=
  match l with [] => True | k :: l => follows_chain filter (l ++ p) k ∧ good_above filter p l end.

(** ** The trees of a chain *)

Lemma height_key_inj n m :
  (N.of_nat n < 2 ^ 32)%N → (N.of_nat m < 2 ^ 32)%N →
  scale_encode (trunc 32 (N.of_nat n)) = scale_encode (trunc 32 (N.of_nat m)) → n = m.
Proof.
  intros Hn Hm E%(inj scale_encode). apply (f_equal uval) in E. rewrite !uval_trunc in E by done.
  lia.
Qed.

Lemma hash_tree_above l n :
  (N.of_nat (List.length l) ≤ N.of_nat n)%N → (N.of_nat n < 2 ^ 32)%N →
  hash_tree l !! scale_encode (trunc 32 (N.of_nat n)) = None.
Proof.
  induction l as [|k l IH]; intros Hl Hn; [done|]. cbn [hash_tree List.length] in *.
  rewrite lookup_insert_ne; [apply IH; [lia|done]|].
  intros E%height_key_inj; lia.
Qed.

Lemma hash_tree_size l :
  (N.of_nat (List.length l) ≤ 2 ^ 32)%N → size (hash_tree l) = List.length l.
Proof.
  induction l as [|k l IH]; intros Hl; [done|]. cbn [hash_tree List.length] in *.
  rewrite map_size_insert_None, IH by (try apply hash_tree_above; lia). done.
Qed.

Lemma block_tree_new l h : h ∉ map known_hash l → block_tree l !! scale_encode h = None.
Proof.
  induction l as [|k l IH]; intros Hl; [done|]. cbn [map block_tree] in *.
  apply not_elem_of_cons in Hl as [Hk Hl]. rewrite lookup_insert_ne; [by apply IH|].
  intros E%(inj scale_encode). congruence.
Qed.

Lemma height_run bh bl w ts :
  Wallet.height (db_of bh bl w ts) =
  Ret (if Nat.eqb (size bh) 0 then None
       else Some (wrapping_sub (trunc 32 (N.of_nat (size bh))) (trunc 32 1))) (db_of bh bl w ts).
Proof. done. Qed.

Lemma height_at_chain filter k l ts :
  (N.of_nat (List.length (k :: l)) < 2 ^ 32)%N →
  Wallet.height (db_at filter (k :: l) ts) =
  Ret (Some (trunc 32 (N.of_nat (List.length l)))) (db_at filter (k :: l) ts).
Proof.
  intros Hl. unfold db_at. rewrite height_run, hash_tree_size by lia. cbn [List.length Nat.eqb].
  do 2 f_equal. apply uint_eq. cbn [List.length] in Hl.
  rewrite wrapping_sub_exact; rewrite !uval_trunc by lia; lia.
Qed.

(** ** Applying and unapplying a block *)

Lemma apply_all_run filter (ps : list OpaqueExtrinsic) txs bh bl w ts :
  Forall2 seals ps txs → Forall (λ tx, Forall (readable filter) (outputs tx)) txs →
  for_each ps (λ _ p, apply_transaction (C := C) filter p) tt (db_of bh bl w ts) =
  Ret tt (db_of bh bl (fold_left (wallet_apply filter) txs w)
            (fold_left note_time (concat (map outputs txs)) ts)).
Proof.
  intros Hp. revert w ts. induction Hp as [|p tx ps txs Hp _ IH]; intros w ts; [done|].
  intros [Hr Hrs]%Forall_cons. cbn [for_each fold_left map concat].
  rewrite bind_run, (apply_transaction_run _ _ tx), IH by done. by rewrite fold_left_app.
Qed.

(** What the timestamps tree holds after a block. *)
Definition note_block k ts : tree := fold_left note_time (concat (map outputs (known_txs k))) ts.

Lemma apply_block_run filter k l ts :
  reads_block filter l k →
  apply_block (C := C) filter (known_block k) (known_hash k) (db_at filter l ts) =
  Ret tt (db_at filter (k :: l) (note_block k ts)).
Proof.
  intros [Hn Ht Hr]. unfold apply_block. rewrite Hn.
  transitivity (for_each (opaque_extrinsics (known_block k))
    (λ _ tx, apply_transaction (C := C) filter tx) tt
    (db_of (hash_tree (k :: l)) (block_tree (k :: l)) (wallet_at filter l) ts)); [done|].
  by rewrite (apply_all_run _ _ (known_txs k)).
Qed.

Lemma unapply_all_run filter (ps : list OpaqueExtrinsic) txs bh bl w ts :
  Forall2 seals ps txs → revertible_all filter w txs →
  for_each (rev ps) (λ _ p, unapply_transaction (C := C) p) tt
    (db_of bh bl (fold_left (wallet_apply filter) txs w) ts) = Ret tt (db_of bh bl w ts).
Proof.
  intros Hp. revert w. induction Hp as [|p tx ps txs Hp _ IH]; intros w; [done|].
  intros [Hr Hrs]. cbn [rev fold_left].
  assert (∀ (xs ys : list OpaqueExtrinsic) db,
    for_each (xs ++ ys) (λ _ p, unapply_transaction (C := C) p) tt db =
    bind (for_each xs (λ _ p, unapply_transaction (C := C) p) tt)
      (λ _, for_each ys (λ _ p, unapply_transaction (C := C) p) tt) db) as Happ.
  { induction xs as [|x xs IHx]; intros ys db; [done|]. cbn [app for_each]. rewrite !bind_run.
    destruct (unapply_transaction x db) as [[] db'| |]; [|done..]. by rewrite IHx. }
  rewrite Happ, bind_run, (IH (wallet_apply filter w tx)) by done. cbn [for_each].
  rewrite bind_run, (unapply_transaction_run _ tx) by done. by rewrite wallet_unapply_apply.
Qed.

Lemma unapply_highest_run filter k l ts :
  follows_chain filter l k → (N.of_nat (List.length (k :: l)) < 2 ^ 32)%N →
  unapply_highest_block (C := C) (db_at filter (k :: l) ts) = Ret tt (db_at filter l ts).
Proof.
  intros [[Hn Ht Hr] Hh Hv] Hl. unfold unapply_highest_block.
  rewrite bind_run, height_at_chain by done. cbn [List.length] in Hl. unfold db_at, db_of.
  cbn [ok_or lift_result hash_tree block_tree]. rewrite bind_mret, bind_gets.
  cbn [block_hashes]. rewrite lookup_insert_eq.
  rewrite bind_run. cbn [set_block_hashes modify block_hashes blocks unspent spent timestamps].
  cbn [ok_or lift_result]. rewrite bind_mret, decode_or_encode, bind_mret, bind_gets.
  cbn [blocks]. rewrite lookup_insert_eq.
  rewrite bind_run. cbn [set_blocks modify block_hashes blocks unspent spent timestamps].
  cbn [ok_or lift_result]. rewrite bind_mret, decode_or_encode, bind_mret.
  rewrite !delete_insert_id by (apply block_tree_new || apply hash_tree_above; (done || lia)).
  apply (unapply_all_run filter _ (known_txs k) (hash_tree l) (block_tree l) _ ts); done.
Qed.

(** ** The node *)

Context `{HexCrate, !NodeClient}.

(** A node that serves a chain: the hash of the block at each height, nothing
    above the highest, and every block by its hash. *)
Record serves (N : list known) : Prop := {
  serves_hash n db : (N.of_nat n < 2 ^ 32)%N →
    (node_get_block_hash (trunc 32 (N.of_nat n)) : W (option H256)) db =
    Ret (known_hash <$> rev N !! n) db;
  serves_block k db : k ∈ N →
    (node_get_block (known_hash k) : W (option OpaqueBlock)) db = Ret (Some (known_block k)) db;
}.

(** The wallet's blocks above the common part are not the node's. *)
Definition forked (ws p N : list known) : Prop := ∀ n k,
  List.length p ≤ n → rev (ws ++ p) !! n = Some k → known_hash <$> rev N !! n ≠ Some (known_hash k).

Lemma reads_chain_app filter l1 l2 : reads_chain filter (l1 ++ l2) → reads_chain filter l2.
Proof. induction l1 as [|k l1 IH]; [done|]. intros [_ Hg]. by apply IH. Qed.

Lemma rev_top k l : rev (k :: l) !! List.length l = Some k.
Proof. cbn [rev]. by rewrite lookup_app_r, length_rev, Nat.sub_diag by (by rewrite length_rev). Qed.

Lemma rev_below l1 l2 n : n < List.length l2 → rev (l1 ++ l2) !! n = rev l2 !! n.
Proof. intros Hn. rewrite rev_app_distr, lookup_app_l by by rewrite length_rev. done. Qed.

Lemma get_hash_at filter k l ts :
  get_block_hash (trunc 32 (N.of_nat (List.length l))) (db_at filter (k :: l) ts) =
  Ret (Some (known_hash k)) (db_at filter (k :: l) ts).
Proof.
  unfold get_block_hash. rewrite bind_gets. unfold db_at at 1, db_of. cbn [block_hashes hash_tree].
  by rewrite lookup_insert_eq, decode_or_encode.
Qed.

Lemma height_pred n :
  (N.of_nat (S n) < 2 ^ 32)%N →
  wrapping_sub (trunc 32 (N.of_nat (S n))) (trunc 32 1) = trunc 32 (N.of_nat n).
Proof.
  intros Hn. apply uint_eq. rewrite wrapping_sub_exact; rewrite !uval_trunc by lia; lia.
Qed.
Lemma height_succ n :
  (N.of_nat (S n) < 2 ^ 32)%N →
  wrapping_add (trunc 32 (N.of_nat n)) (trunc 32 1) = trunc 32 (N.of_nat (S n)).
Proof.
  intros Hn. apply uint_eq. unfold wrapping_add. rewrite !uval_trunc by (rewrite ?uval_trunc; lia).
  lia.
Qed.

Lemma roll_back_run filter N ws g p ts fuel k l :
  ws ++ g :: p = k :: l → serves N → forked ws (g :: p) N →
  known_hash <$> rev N !! List.length p = Some (known_hash g) →
  good_above filter (g :: p) ws → (N.of_nat (List.length (ws ++ g :: p)) < 2 ^ 32)%N →
  List.length ws ≤ fuel →
  roll_back (C := C) fuel (trunc 32 (N.of_nat (List.length l))) (known_hash k)
    (known_hash <$> rev N !! List.length l) (db_at filter (ws ++ g :: p) ts) =
  Ret (Some (trunc 32 (N.of_nat (List.length p)))) (db_at filter (g :: p) ts).
Proof.
  intros E Hs. revert k l E fuel. induction ws as [|w ws IH]; intros k l E fuel Hf Hg Hc Hl Hn.
  - injection E as <- <-. rewrite Hg. destruct fuel; cbn [roll_back]; by rewrite bool_decide_true.
  - cbn [app] in E. injection E as <- <-. cbn [List.length] in Hn.
    destruct fuel as [|fuel]; [lia|]. cbn [roll_back].
    rewrite bool_decide_false by (intros Ew; eapply Hf; [|apply rev_top|exact (eq_sym Ew)];
      rewrite length_app; lia).
    destruct Hc as [Hw Hc]. cbn [app] in *. rewrite bind_run, unapply_highest_run by done.
    destruct (ws ++ g :: p) as [|k l] eqn:E; [by destruct ws|]. cbn [List.length] in Hl |- *.
    rewrite height_pred by lia. rewrite bind_run, get_hash_at. cbn [expect]. rewrite bind_mret.
    rewrite bind_run, (serves_hash _ Hs) by (done || lia).
    apply (IH k l); try done; [| |lia].
    + intros n k' Hp Hk'. apply Hf; [done|]. rewrite E in Hk'. cbn [app]. rewrite E.
      change (w :: k :: l) with ([w] ++ (k :: l)).
      rewrite rev_below; [done|]. apply lookup_lt_Some in Hk'. by rewrite length_rev in Hk'.
    + cbn [List.length]. lia.
Qed.

(** What following the blocks [rs], oldest first, notes as the time. *)
Definition note_blocks (rs : list known) ts : tree := fold_left (λ ts k, note_block k ts) rs ts.

Lemma follow_run filter N rs l ts fuel :
  rev rs ++ l = N → serves N → reads_chain filter N → (N.of_nat (List.length N) < 2 ^ 32)%N →
  List.length rs ≤ fuel →
  follow (C := C) fuel filter (trunc 32 (N.of_nat (List.length l)))
    (known_hash <$> rev N !! List.length l) (db_at filter l ts) =
  Ret (Some tt) (db_at filter N (note_blocks rs ts)).
Proof.
  intros E Hs Hg Hl. revert l E ts fuel. induction rs as [|r rs IH]; intros l E ts fuel Hn.
  - cbn [rev app] in E. subst l. rewrite lookup_ge_None_2 by by rewrite length_rev.
    by destruct fuel.
  - cbn [rev] in E. rewrite <-app_assoc in E. cbn [app] in E.
    destruct fuel as [|fuel]; cbn [List.length] in Hn; [lia|].
    assert (rev N !! List.length l = Some r) as Hr.
    { rewrite <-E, rev_below by (cbn; lia). apply rev_top. }
    rewrite Hr. cbn [fmap option_fmap option_map follow].
    assert (List.length N = List.length rs + S (List.length l)) as HN
      by by rewrite <-E, length_app, length_rev.
    rewrite bind_run, (serves_block _ Hs) by (try done; rewrite <-E; set_solver).
    cbn [expect]. rewrite bind_mret, bind_run, apply_block_run
      by (rewrite <-E in Hg; by apply reads_chain_app in Hg as [? _]).
    rewrite height_succ by lia. rewrite bind_run, (serves_hash _ Hs) by (done || lia).
    change (S (List.length l)) with (List.length (r :: l)).
    rewrite (IH (r :: l)) by (done || lia). done.
Qed.

(** The wallet has followed [ws ++ p] and the node serves [ns ++ p], with a
    non-empty common part and no common block above it. *)
Lemma synchronize_run filter ws ns p ts fuel :
  p ≠ [] → serves (ns ++ p) → forked ws p (ns ++ p) →
  good_above filter p ws → reads_chain filter (ns ++ p) →
  (N.of_nat (List.length (ws ++ p)) < 2 ^ 32)%N → (N.of_nat (List.length (ns ++ p)) < 2 ^ 32)%N →
  List.length ws ≤ fuel → List.length ns ≤ fuel →
  synchronize_helper (C := C) fuel filter (db_at filter (ws ++ p) ts) =
  Ret (Some tt) (db_at filter (ns ++ p) (note_blocks (rev ns) ts)).
Proof.
  intros Hp Hs Hf Hw Hn Hlw Hln Hfw Hfn. destruct p as [|g p]; [done|].
  unfold synchronize_helper.
  destruct (ws ++ g :: p) as [|k l] eqn:E; [by destruct ws|].
  rewrite bind_run, height_at_chain by done. cbn [ok_or lift_result]. rewrite bind_mret.
  rewrite bind_run, get_hash_at. cbn [expect]. rewrite bind_mret.
  cbn [List.length] in Hlw.
  rewrite bind_run, (serves_hash _ Hs) by (done || lia). rewrite <-E.
  rewrite length_app in Hln. cbn [List.length] in Hln.
  rewrite bind_run, (roll_back_run _ (ns ++ g :: p) ws g p ts fuel k l); try done.
  - rewrite height_succ by lia. rewrite bind_run, (serves_hash _ Hs) by (done || lia).
    change (S (List.length p)) with (List.length (g :: p)).
    apply follow_run; try done.
    + by rewrite rev_involutive.
    + rewrite length_app. cbn [List.length]. lia.
    + by rewrite length_rev.
  - rewrite rev_below by (cbn; lia). by rewrite rev_top.
  - rewrite E. cbn [List.length]. lia.
Qed.
End chains.
