(* ===== verification/WalletStrings.v ===== *)
(** * WalletStrings: the command line's hexadecimal arguments

    What [strip_0x_prefix] does to every string, and that the references and
    hashes the wallet prints are parsed back.  At the end a concrete [hex] crate
    with its laws. *)

From S2P Require Import Prelude Effects Scale Types Checker Executive TemplateRuntime Wallet.
From S2P Require Import Concrete Samples RuntimeSamples WalletRpc.
From Stdlib Require Import Strings.String Strings.Ascii Strings.Byte.

Lemma substring_all s : String.substring 0 (String.length s) s = s.
Proof. induction s as [|c s IH]; [done|]. cbn. by rewrite IH. Qed.

Section strings.
Context `{RuntimeLaws, HexCrate, !HexLaws}.
Implicit Types (s : string) (b : bytes) (o : OutputRef) (h : H256).

(** A hexadecimal string is ASCII and does not start with the prefix. *)
Lemma hex_char_ascii c : is_hex_char c → nat_of_ascii c < 128 ∧ c ≠ "x"%char.
Proof.
  unfold is_hex_char. cbn [list_ascii_of_string]. rewrite !elem_of_cons, elem_of_nil.
  intros Hc. repeat (destruct Hc as [->|Hc]; [split; [by apply Nat.ltb_lt|done]|]). done.
Qed.

Lemma hex_boundary s :
  Forall is_hex_char (list_ascii_of_string s) → boundary_at_2 s = true ∧ boundary_at_2 ("0x" ++ s) = true.
Proof.
  assert (∀ c, is_hex_char c →
    negb (Nat.leb 128 (nat_of_ascii c) && Nat.ltb (nat_of_ascii c) 192) = true) as Hc.
  { intros c [Hc _]%hex_char_ascii.
    by replace (Nat.leb 128 (nat_of_ascii c)) with false by (symmetry; apply Nat.leb_gt; lia). }
  unfold boundary_at_2. intros Hs. split.
  - destruct s as [|c1 [|c2 [|c3 s]]]; try done. cbn in *. apply Hc.
    by apply Forall_cons in Hs as [_ [_ [? _]%Forall_cons]%Forall_cons].
  - destruct s as [|c s]; [done|]. cbn in *. apply Hc. by apply Forall_cons in Hs as [? _].
Qed.

Lemma strip_prefixed s :
  boundary_at_2 ("0x" ++ s) = true → strip_0x_prefix ("0x" ++ s) = Value s.
Proof.
  intros Hs. unfold strip_0x_prefix. rewrite Hs. rewrite bool_decide_true by by destruct s.
  change ("0x" ++ s)%string with (String "0" (String "x" s)). unfold mret, partial_ret. cbn.
  by rewrite Nat.sub_0_r, substring_all.
Qed.

Lemma strip_bare s :
  2 ≤ String.length s → Forall is_hex_char (list_ascii_of_string s) →
  strip_0x_prefix s = Value s.
Proof.
  intros Hl Hs. unfold strip_0x_prefix. rewrite (proj1 (hex_boundary s Hs)).
  replace (Nat.ltb (String.length s) 2) with false by (symmetry; apply Nat.ltb_ge; lia).
  cbn [orb negb]. rewrite bool_decide_false; [done|].
  destruct s as [|c1 [|c2 s]]; cbn in Hl; [lia..|]. cbn.
  intros [= _ -> _]. cbn in Hs. apply Forall_cons in Hs as [_ [Hx _]%Forall_cons].
  by apply hex_char_ascii in Hx as [_ ?].
Qed.

(** What the wallet prints for a value of two bytes at least, with the prefix or
    without. *)
Lemma strip_hex b s :
  2 ≤ List.length b → s = hex_encode b ∨ s = ("0x" ++ hex_encode b)%string →
  strip_0x_prefix s = Value (hex_encode b).
Proof.
  intros Hb [->| ->].
  - apply strip_bare; [rewrite hex_length; lia|apply hex_chars].
  - apply strip_prefixed, hex_boundary, hex_chars.
Qed.

(** The command line parses back what the wallet prints. The hexadecimal
    encoding of an output reference, or of a hash or public key, is parsed as the
    same reference or hash, with the prefix or without; and on a string shorter
    than two bytes both parsers panic instead of answering an error. *)
Theorem output_ref_parses o h s :
  (s = hex_encode (scale_encode o) ∨ s = ("0x" ++ hex_encode (scale_encode o))%string →
   output_ref_from_string s = Value (Ok o)) ∧
  (s = hex_encode (bytesN_val h) ∨ s = ("0x" ++ hex_encode (bytesN_val h))%string →
   h256_from_string s = Value (Ok h)) ∧
  (String.length s < 2 → ∃ w, output_ref_from_string s = Panicked w ∧ h256_from_string s = Panicked w).
Proof.
  unfold output_ref_from_string, h256_from_string. split; [|split].
  - intros Hs. rewrite (strip_hex (scale_encode o)) by (rewrite ?output_ref_size; (lia || done)).
    cbn. rewrite hex_decode_encode. cbn. by rewrite decode_value_encode.
  - intros Hs. rewrite (strip_hex (bytesN_val h)) by (rewrite ?bytesN_length; (lia || done)).
    cbn. by rewrite hex_slice_encode.
  - intros Hs. unfold strip_0x_prefix.
    replace (Nat.ltb (String.length s) 2) with true by (symmetry; by apply Nat.ltb_lt).
    by eexists.
Qed.

(** The answers of a node, as the wallet reads them. *)
Lemma h256_from_hex h : h256_from_string ("0x" ++ hex_encode (bytesN_val h)) = Value (Ok h).
Proof.
  unfold h256_from_string. rewrite (strip_hex (bytesN_val h)) by (rewrite ?bytesN_length; (lia || auto)).
  cbn. by rewrite hex_slice_encode.
Qed.
End strings.

(** ** A concrete [hex] crate *)

Module ConcreteHex.

Definition nibble (n : N) : ascii := ascii_of_N (if N.ltb n 10 then n + 48 else n + 87).
Definition unnibble (c : ascii) : option N :=
  let n := N_of_ascii c in
  if N.leb 48 n && N.leb n 57 then Some (n - 48)%N
  else if N.leb 97 n && N.leb n 102 then Some (n - 87)%N
  else if N.leb 65 n && N.leb n 70 then Some (n - 55)%N
  else None.

Fixpoint to_hex (b : bytes) : string :=
  match b with
  | [] => ""
  | x :: b => String (nibble (Byte.to_N x / 16)) (String (nibble (Byte.to_N x mod 16)) (to_hex b))
  end.
Fixpoint of_hex (s : string) : option bytes :=
  match s with
  | "" => Some []
  | String c (String d s) =>
    x ← unnibble c; y ← unnibble d; b ← of_hex s; Some (byte_of (16 * x + y) :: b)
  | _ => None
  end%string.

#[export] Instance concrete_hex : HexCrate := {|
  hex_encode := to_hex;
  hex_decode := of_hex;
  hex_decode_to_slice n s :=
    b ← of_hex s; if Nat.eqb (List.length b) n then Some (to_bytesN n b) else None;
|}.

Lemma of_to_hex b : of_hex (to_hex b) = Some b.
Proof.
  induction b as [|x b IH]; [done|]. cbn [to_hex of_hex].
  assert (unnibble (nibble (Byte.to_N x / 16)) = Some (Byte.to_N x / 16)%N ∧
    unnibble (nibble (Byte.to_N x mod 16)) = Some (Byte.to_N x mod 16)%N ∧
    byte_of (16 * (Byte.to_N x / 16) + Byte.to_N x mod 16) = x) as (E1 & E2 & E3)
    by (by destruct x).
  rewrite E1, E2, IH. cbn -[byte_of N.mul N.div N.modulo]. by rewrite E3.
Qed.

#[export] Instance concrete_hex_laws : HexLaws.
Proof.
  split; cbn [hex_encode hex_decode hex_decode_to_slice concrete_hex].
  - induction b as [|x b IH]; [done|]. cbn. rewrite IH. lia.
  - induction b as [|x b IH]; [constructor|]. cbn [to_hex list_ascii_of_string].
    assert (∀ n, (n < 16)%N → is_hex_char (nibble n)) as Hn.
    { intros n Hn. apply (bool_decide_unpack _).
      assert (n = N.of_nat (N.to_nat n)) as -> by lia.
      assert (N.to_nat n < 16) as Hlt by lia. revert Hlt. generalize (N.to_nat n). clear.
      intros n Hn. do 16 (destruct n as [|n]; [done|]). lia. }
    pose proof (Byte.to_N_bounded x). constructor; [|constructor; [|done]]; apply Hn.
    + apply N.Div0.div_lt_upper_bound. lia.
    + apply N.mod_lt. done.
  - apply of_to_hex.
  - intros n x. rewrite of_to_hex. cbn. rewrite bytesN_length, Nat.eqb_refl.
    by rewrite to_bytesN_val.
Qed.
End ConcreteHex.

(** ** Witnesses *)

Module Witnesses.
Import RuntimeSample ConcreteHex.

(** Output 3 of a transaction, printed and read back; and the empty argument. *)
Lemma output_ref_parses_witness :
  output_ref_from_string ("0x" ++ hex_encode (scale_encode (Sample.ref 3))) = Value (Ok (Sample.ref 3)) ∧
  ∃ w, output_ref_from_string "" = Panicked w.
Proof.
  destruct (output_ref_parses (Sample.ref 3) H256_zero
    ("0x" ++ hex_encode (scale_encode (Sample.ref 3)))) as (E & _ & _).
  split; [apply E; by right|].
  destruct (output_ref_parses (Sample.ref 3) H256_zero "") as (_ & _ & P).
  destruct P as (w & Hw & _); [apply Nat.ltb_lt; reflexivity|]. by exists w.
Defined.
End Witnesses.
