(* ===== verification/WalletSamples.v ===== *)
(** * WalletSamples: a concrete wallet and node for the witnesses

    The wallet of the concrete template runtime, a node that serves a list of
    blocks, and two chains that fork after their genesis block. *)

From S2P Require Import Prelude Effects Scale Types Checker UtxoSet CheckerLaws Executive.
From S2P Require Import Concrete Verifiers Samples Money Timestamp TemplateRuntime RuntimeSamples.
From S2P Require Import Wallet WalletRpc WalletSpend WalletStrings.

Module WalletSample.
Export RuntimeSample ConcreteHex.

(** An opaque extrinsic is the transaction it holds. *)
#[export] Instance concrete_opaque : Opaque := {|
  OpaqueExtrinsic := RTx;
  codec_opaque_extrinsic := _;
|}.
#[export] Instance concrete_opaque_codecs : OpaqueCodecs :=
  iso_codec (B := Header * list OpaqueExtrinsic) (λ b, (opaque_header b, opaque_extrinsics b))
    (λ p, mk_opaque_block p.1 p.2).
#[export] Instance concrete_opaque_lawful : LawfulCodec OpaqueBlock.
Proof.
  apply @iso_lawful; [|by intros []].
  apply lawful_pair; [apply lawful_header|]. apply lawful_vec, @transaction_lawful; apply _.
Qed.

#[export] Instance concrete_sled : Sled := map_to_list.
#[export] Instance concrete_sled_laws : SledLaws.
Proof. by intros t. Qed.

(** ** A node *)

(** The blocks with their hashes, newest first, and the best block's storage; JSON
    is the block itself. *)
Definition node_of (chain : list (H256 * OpaqueBlock)) (st : storage) : NodeClient := {|
  Json := OpaqueBlock;
  json_get b _ := Some b;
  opaque_block_from_json := Some;
  chain_getBlockHash h :=
    Ok ((λ p, "0x" ++ hex_encode (bytesN_val p.1))%string <$> rev chain !! N.to_nat (uval h));
  chain_getBlock s :=
    Ok ((λ q : nat * (H256 * OpaqueBlock), q.2.2) <$>
        list_find (λ p, hex_encode (bytesN_val p.1) = s) chain);
  state_getStorage key :=
    Ok ((λ v, "0x" ++ hex_encode v)%string <$> (k ← hex_decode key; st !! k));
  state_getMetadata := Ok None;
  author_submitExtrinsic _ := Ok "";
|}.

(** ** Two chains *)

Definition alice : Public := to_bytesN 32 (bstr "alice").
Definition bob : Public := to_bytesN 32 (bstr "bob").
Definition locked (k : Public) (n : N) : ROut :=
  mk_output (typed_from (mk_coin (ID := token_id) (trunc 128 n)))
    (OuterSr25519Signature (mk_sr25519 k)).
Definition mine (v : OuterVerifier) : bool :=
  match v with OuterSr25519Signature (mk_sr25519 k) => bool_decide (k = alice) | _ => false end.

Definition mint_alice : RTx := mk_transaction [] [] [locked alice 7] (OuterMoney Mint).
Definition pay_bob (n : N) : RTx :=
  mk_transaction [take_coin (out_ref mint_alice 0)] [] [locked bob n; locked alice (7 - n); stamp n 1]
    (OuterMoney Spend).

Definition body (n : N) (l : list RTx) : H256 * OpaqueBlock :=
  let hd := mk_header H256_zero (trunc 32 n) H256_zero (ordered_trie_root (map scale_encode l) V0) tt in
  (blake2_256 (scale_encode hd), mk_opaque_block hd l).

(** A node's storage with a coin of Alice, at height one. *)
Definition node_state : storage :=
  <[scale_encode (out_ref mint_alice 0) := scale_encode (locked alice 7)]>
    {[HEIGHT_KEY := scale_encode (trunc 32 1)]}.

(** A keystore with Alice's key, whose signatures depend on the number of the call. *)
Definition alice_store (call : nat) (public : Public) (message : bytes) : option Signature :=
  if decide (public = alice)
  then Some (Concrete.Instances.salted_sign (Concrete.le_bytes 4 (N.of_nat call)) message public)
  else None.
#[export] Instance concrete_keystore : LocalKeystore := {|
  sr25519_sign call _ public message := Ok (alice_store call public message);
  has_keys := forallb (λ q, bool_decide (q.1 = scale_encode alice));
|}.
End WalletSample.
