(* ===== verification/WalletSync.v ===== *)
(** * WalletSync: rolling back, synchronizing and starting

    The properties of the wallet's synchronization: rolling back is exact,
    starting the wallet follows the node's chain, the loops terminate, and the
    wallet tracks the node's ledger. *)

From S2P Require Import Prelude Effects Scale Types Checker UtxoSet CheckerLaws Executive.
From S2P Require Import Verifiers ExecutiveFacts Ledger Blocks Supply Money Timestamp.
From S2P Require Import TemplateRuntime RuntimeSamples RuntimeFacts Wallet WalletRpc WalletFacts WalletChain.
From S2P Require Import WalletSpend WalletMain WalletStrings WalletSamples.

Section start.
Context `{RuntimeLaws, Sled, Opaque, !OpaqueCodecs} {C : Type} `{!ConstraintChecker C}.
Context `{!MoneyLaws, !LawfulCodec Timestamp}.
#[local] Existing Instances verifier_codec checker_codec.
Context `{!LawfulCodec C, !LawfulCodec OpaqueBlock}.
Context `{HexCrate, !NodeClient}.
Abbreviation known := (WalletChain.known (C := C)).
Implicit Types (k : known) (l : list known) (w : owned_coins * owned_coins) (ts : tree)
  (filter : OuterVerifier → bool).

(** ** Rolling back *)


(** ** Starting the wallet *)

Lemma hash_tree_at l1 k l2 :
  (N.of_nat (List.length (l1 ++ k :: l2)) < 2 ^ 32)%N →
  hash_tree (l1 ++ k :: l2) !! scale_encode (trunc 32 (N.of_nat (List.length l2))) =
  Some (scale_encode (known_hash k)).
Proof.
  induction l1 as [|k1 l1 IH]; intros Hl; cbn [app hash_tree List.length] in *; [apply lookup_insert_eq|].
  rewrite length_app in Hl. cbn [List.length] in Hl.
  rewrite lookup_insert_ne; [apply IH; rewrite length_app; cbn [List.length]; lia|].
  intros E%height_key_inj; [|rewrite ?length_app; cbn [List.length]; lia..].
  rewrite length_app in E. cbn [List.length] in E. lia.
Qed.

Lemma height_known filter l ts :
  l ≠ [] → (N.of_nat (List.length l) < 2 ^ 32)%N →
  ∃ h, Wallet.height (db_at filter l ts) = Ret (Some h) (db_at filter l ts).
Proof. destruct l as [|k l]; [done|]. intros _ Hl. eexists. by apply height_at_chain. Qed.

Lemma open_db_recovered filter l g ts :
  (N.of_nat (List.length (l ++ [g])) < 2 ^ 32)%N →
  open_db (known_hash g) (known_block g) (db_at filter (l ++ [g]) ts) =
  Ret tt (db_at filter (l ++ [g]) ts).
Proof.
  intros Hl. unfold open_db. destruct (l ++ [g]) as [|k l'] eqn:E; [by destruct l|].
  rewrite bind_run, height_at_chain, <-E by done. rewrite bind_gets.
  unfold db_at at 1, db_of. cbn [block_hashes]. rewrite <-E in Hl.
  pose proof (hash_tree_at l g [] Hl) as Hg. change (N.of_nat (List.length [])) with 0%N in Hg.
  rewrite Hg. cbn [expect]. rewrite bind_mret, decode_or_encode, bind_mret.
  by rewrite bool_decide_true.
Qed.

Definition new_db : WalletDb := mk_db ∅ ∅ ∅ ∅ ∅.
Definition opened_db (g : known) : WalletDb :=
  mk_db {[ scale_encode (trunc 32 0) := scale_encode (known_hash g) ]}
    {[ scale_encode (known_hash g) := scale_encode (known_block g) ]} ∅ ∅ ∅.

Lemma open_db_new g : open_db (known_hash g) (known_block g) new_db = Ret tt (opened_db g).
Proof. done. Qed.

(** Applying the genesis block again to the database it was written to. *)
Lemma apply_genesis filter g :
  reads_block filter [] g →
  apply_block (C := C) filter (known_block g) (known_hash g) (opened_db g) =
  Ret tt (db_at filter [g] (note_block g ∅)).
Proof.
  intros Hg. rewrite <-apply_block_run by done. unfold apply_block.
  rewrite (rb_number _ _ _ Hg). change (N.of_nat (List.length [])) with 0%N.
  rewrite bind_run. cbn [set_block_hashes modify opened_db block_hashes blocks unspent spent timestamps].
  rewrite bind_run. cbn [set_blocks modify block_hashes blocks unspent spent timestamps].
  unfold db_at. rewrite bind_run. cbn [set_block_hashes modify db_of block_hashes blocks unspent spent timestamps].
  rewrite bind_run. cbn [set_blocks modify block_hashes blocks unspent spent timestamps].
  cbn [hash_tree block_tree wallet_at fst snd].
  assert (encode_tree ∅ = ∅) as -> by (unfold encode_tree; by rewrite fmap_empty, (kmap_empty scale_encode)).
  by rewrite !insert_empty, !insert_singleton_eq.
Qed.

(** The two ways of starting: with a new database, and with one that has followed a
    fork. *)
Lemma start_run filter ws ns p g ts fuel :
  serves (ns ++ p ++ [g]) → forked ws (p ++ [g]) (ns ++ p ++ [g]) →
  good_above filter (p ++ [g]) ws → reads_chain filter (ns ++ p ++ [g]) →
  (N.of_nat (List.length (ws ++ p ++ [g])) < 2 ^ 32)%N →
  (N.of_nat (List.length (ns ++ p ++ [g])) < 2 ^ 32)%N →
  List.length ws ≤ fuel → List.length (ns ++ p) ≤ fuel →
  start_wallet (C := C) fuel filter false false new_db =
    Ret (Some tt) (db_at filter (ns ++ p ++ [g]) (note_blocks (rev (ns ++ p ++ [g])) ∅)) ∧
  start_wallet (C := C) fuel filter true false (db_at filter (ws ++ p ++ [g]) ts) =
    Ret (Some tt) (db_at filter (ns ++ p ++ [g]) (note_blocks (rev ns) ts)).
Proof.
  intros Hs Hf Hgw Hgn Hlw Hln Hfw Hfn. set (N := ns ++ p ++ [g]) in *.
  assert (∀ db, (node_get_block_hash (trunc 32 0) : W (option H256)) db = Ret (Some (known_hash g)) db) as H0'.
  { intros db. rewrite (serves_hash _ Hs 0) by done. unfold N.
    by rewrite !rev_app_distr. }
  assert (∀ db, (node_get_block (known_hash g) : W (option OpaqueBlock)) db = Ret (Some (known_block g)) db) as H1'.
  { intros db. apply (serves_block _ Hs). unfold N. set_solver. }
  destruct (height_known filter (ws ++ p ++ [g]) ts) as [hw Hhw]; [by destruct ws, p|done|].
  assert (∀ ts, ∃ h, Wallet.height (db_at filter N ts) = Ret (Some h) (db_at filter N ts)) as Hh
    by (intros; apply height_known; [unfold N; by destruct ns, p|done]).
  split; unfold start_wallet; rewrite bind_run, H0'; cbn [expect]; rewrite bind_mret, bind_run, H1';
    cbn [expect]; rewrite bind_mret, bind_run.
  - rewrite open_db_new.
    assert (Wallet.height (opened_db g) = Ret (Some (trunc 32 0)) (opened_db g)) as Hog.
    { unfold Wallet.height, opened_db. rewrite bind_gets. cbn [block_hashes].
      rewrite map_size_singleton. cbn [Nat.eqb]. done. }
    rewrite bind_run, Hog. cbn [expect]. rewrite bind_mret, bind_run.
    assert (reads_chain filter [g]) as Hg by by apply (reads_chain_app filter (ns ++ p)); rewrite <-app_assoc.
    rewrite apply_genesis by by destruct Hg.
    assert (synchronize_helper (C := C) fuel filter (db_at filter [g] (note_block g ∅)) =
      Ret (Some tt) (db_at filter N (note_blocks (rev N) ∅))) as Hsync.
    { assert (N = (ns ++ p) ++ [g]) as E by by rewrite <-app_assoc.
      rewrite E in Hs, Hgn, Hln |- *. rewrite rev_app_distr.
      apply (synchronize_run filter [] (ns ++ p) [g]); try done; [|cbn [List.length]; lia..].
      intros n k' Hn Hk. apply lookup_lt_Some in Hk. cbn in Hn, Hk. lia. }
    rewrite bind_run, Hsync. destruct (Hh (note_blocks (rev N) ∅)) as [h Hn].
    by rewrite bind_run, Hn.
  - rewrite app_assoc, open_db_recovered, <-app_assoc by by rewrite <-app_assoc.
    rewrite bind_run, Hhw. cbn [expect]. rewrite bind_mret, bind_run. cbn [mret M_ret].
    rewrite bind_run, (synchronize_run filter ws ns (p ++ [g])); try done;
      [|by destruct p|rewrite length_app in Hfn; lia].
    destruct (Hh (note_blocks (rev ns) ts)) as [h Hn]. fold N. by rewrite bind_run, Hn.
Qed.

End start.

(** ** Synchronizing terminates *)

Section termination.
Context `{RuntimeParameters, Sled, Opaque, !OpaqueCodecs, HexCrate, !NodeClient}.
Context {C : Type} `{!ConstraintChecker C}.
#[local] Existing Instances verifier_codec checker_codec.

Definition same_hashes (db db' : WalletDb) : Prop := block_hashes db' = block_hashes db.
#[local] Instance same_hashes_preorder : PreOrder same_hashes.
Proof. split; [done|]. unfold same_hashes. by intros ??? -> ->. Qed.

(** Only [set_block_hashes] touches the hashes. *)
#[local] Hint Extern 0 (leaves same_hashes (set_unspent _)) => by intros [] : effects.
#[local] Hint Extern 0 (leaves same_hashes (set_spent _)) => by intros [] : effects.
#[local] Hint Extern 0 (leaves same_hashes (set_blocks _)) => by intros [] : effects.
#[local] Hint Extern 0 (leaves same_hashes (remove_unspent_output _)) => by intros [] : effects.

Lemma decode_or_leaves {A} `{Codec A} b : leaves same_hashes (decode_or b : W A).
Proof. unfold decode_or. solve_leaves. Qed.
#[local] Hint Resolve decode_or_leaves : effects.

Lemma unapply_transaction_leaves tx : leaves same_hashes (unapply_transaction (C := C) tx).
Proof. unfold unapply_transaction, unspend_output, remove_unspent_output. solve_leaves. Qed.
Lemma get_block_hash_leaves h : leaves same_hashes (get_block_hash h).
Proof. unfold get_block_hash. solve_leaves. Qed.
Lemma node_get_block_hash_leaves h : leaves same_hashes (node_get_block_hash h).
Proof. unfold node_get_block_hash. solve_leaves. Qed.
#[local] Hint Resolve unapply_transaction_leaves : effects.

(** Unapplying a block takes a hash out of the database, or does not return. *)
Lemma unapply_highest_shrinks db db' :
  unapply_highest_block (C := C) db = Ret tt db' →
  size (block_hashes db) = S (size (block_hashes db')).
Proof.
  unfold unapply_highest_block. intros Hu.
  inv_bind Hu. inv_bind Hu. apply lift_result_ret in Hm0 as [_ ->].
  assert (s = db) as -> by (revert Hm; unfold Wallet.height; rewrite bind_gets; by intros [= _ ->]).
  rewrite bind_gets in Hu. inv_bind Hu. injection Hm0 as <- <-.
  inv_bind Hu. apply lift_result_ret in Hm0 as [Hk%ok_or_ok ->].
  apply (leaves_ret_inv same_hashes) in Hu.
  - unfold same_hashes in Hu. rewrite Hu. cbn [block_hashes].
    rewrite map_size_delete_Some by done.
    enough (size (block_hashes db) ≠ 0) by lia. intros E%map_size_empty_inv. by rewrite E in Hk.
  - solve_leaves.
Qed.

Lemma roll_back_terminates fuel h wallet_hash node_hash db db' :
  size (block_hashes db) < fuel →
  roll_back (C := C) fuel h wallet_hash node_hash db ≠ Ret None db'.
Proof.
  revert h wallet_hash node_hash db. induction fuel as [|fuel IH]; intros h wh nh db Hf; [lia|].
  cbn [roll_back]. case_bool_decide; [done|]. intros Hr.
  inv_bind Hr. destruct a. apply unapply_highest_shrinks in Hm.
  inv_bind Hr. apply (leaves_ret_inv same_hashes) in Hm0; [|apply get_block_hash_leaves].
  inv_bind Hr. apply expect_ret in Hm1 as [_ ->].
  inv_bind Hr. apply (leaves_ret_inv same_hashes) in Hm1; [|apply node_get_block_hash_leaves].
  unfold same_hashes in *. apply IH in Hr; [done|]. rewrite Hm1, Hm0. lia.
Qed.

(** A node whose chain has fewer than [n] blocks. *)
Definition chain_ends (n : N) : Prop :=
  (n < 2 ^ 32)%N ∧ ∀ h : u32, (n ≤ uval h)%N → chain_getBlockHash h = Ok None.

Lemma chain_ends_hash n h db r db' :
  chain_ends n → (node_get_block_hash h : W (option H256)) db = Ret r db' → (n ≤ uval h)%N → r = None.
Proof.
  intros [_ He] Hh Hn. unfold node_get_block_hash in Hh. rewrite (He _ Hn) in Hh. by injection Hh.
Qed.

Lemma follow_terminates n fuel filter (h : u32) node_hash db db' :
  chain_ends n → ((n ≤ uval h)%N → node_hash = None) → (n ≤ uval h + N.of_nat fuel)%N →
  follow (C := C) fuel filter h node_hash db ≠ Ret None db'.
Proof.
  intros Hc. revert h node_hash db. induction fuel as [|fuel IH]; intros h nh db Hn Hf;
    [by rewrite Hn by lia|].
  destruct nh as [hash|]; [|done]. cbn [follow]. intros Hr.
  assert (uval h < n)%N by (destruct (N.lt_ge_cases (uval h) n) as [|Hle]; [done|by apply Hn in Hle]).
  do 4 inv_bind Hr. pose proof (proj1 Hc) as Hw.
  assert (uval (wrapping_add h (trunc 32 1)) = uval h + 1)%N as E
    by (unfold wrapping_add; rewrite !uval_trunc by (rewrite ?uval_trunc; lia); done).
  apply IH in Hr; [done| |lia]. intros Hle. by eapply chain_ends_hash.
Qed.

(** Printing the block hashes leaves the highest one out. *)
Lemma print_block_hashes_short db lines db' :
  (N.of_nat (size (block_hashes db)) < 2 ^ 32)%N →
  print_block_hashes_tree db = Ret lines db' →
  S (List.length lines) = size (block_hashes db).
Proof.
  intros Hs. unfold print_block_hashes_tree, Wallet.height. rewrite bind_run, bind_gets.
  destruct (Nat.eqb_spec (size (block_hashes db)) 0) as [|Hne]; [done|].
  cbn [mret M_ret expect]. rewrite bind_mret.
  assert (N.to_nat (uval (wrapping_sub (trunc 32 (N.of_nat (size (block_hashes db)))) (trunc 32 1))) =
    size (block_hashes db) - 1) as ->.
  { rewrite wrapping_sub_exact; rewrite !uval_trunc by lia; lia. }
  assert (∀ (ns : list nat) (acc : list (u32 * option H256)) db0,
    for_each ns (λ lines i, let height := trunc 32 (N.of_nat i) in
      bind (get_block_hash height) (λ hash, mret (lines ++ [(height, hash)]))) acc db0 = Ret lines db' →
    List.length lines = List.length acc + List.length ns) as Hf.
  { induction ns as [|i ns IH]; intros acc db0; [intros [= -> _]; cbn; lia|].
    cbn [for_each]. intros Hr. inv_bind Hr. inv_bind Hm. injection Hm as <- _.
    apply IH in Hr. rewrite Hr, length_app. cbn. lia. }
  intros Hr%Hf. rewrite length_seq in Hr. cbn in Hr. lia.
Qed.

(** C16: Synchronizing terminates. From any database, whatever the node answers
    as long as its chain ends below some height, the two loops are over within
    as many turns as the database has block hashes and the node's chain has
    blocks: the first loses a block hash every turn and stops with an error when
    none is left, and the second climbs one height every turn. *)
Theorem sync_terminates n fuel filter db db' :
  chain_ends n → size (block_hashes db) < fuel → (n ≤ N.of_nat fuel)%N →
  synchronize_helper (C := C) fuel filter db ≠ Ret None db'.
Proof.
  intros Hc Hs Hn Hr. unfold synchronize_helper in Hr.
  inv_bind Hr. assert (s = db) as -> by (revert Hm; unfold Wallet.height; rewrite bind_gets; by intros [= _ ->]).
  inv_bind Hr. apply lift_result_ret in Hm0 as [_ ->].
  inv_bind Hr. apply (leaves_ret_inv same_hashes) in Hm0; [|apply get_block_hash_leaves].
  inv_bind Hr. apply expect_ret in Hm1 as [_ ->].
  inv_bind Hr. apply (leaves_ret_inv same_hashes) in Hm1; [|apply node_get_block_hash_leaves].
  inv_bind Hr. destruct a4 as [h|]; [|apply roll_back_terminates in Hm2; [done|]].
  - inv_bind Hr. eapply follow_terminates in Hr; [done..| |]; [|lia].
    intros Hle. by eapply chain_ends_hash.
  - unfold same_hashes in *. by rewrite Hm1, Hm0.
Qed.
End termination.

(** ** The wallet and the node's ledger *)

Section node_ledger.
Context `{RuntimeLaws, Sled, Opaque, !OpaqueCodecs} {C : Type} `{!ConstraintChecker C}.
Context `{!MoneyLaws, !LawfulCodec Timestamp, !CheckerFrame C, !LawfulCodec C}.
#[local] Existing Instances verifier_codec checker_codec.
Implicit Types (s : storage) (S : owned_coins) (txs : list (Transaction OuterVerifier C)).
Abbreviation node_ledger s := (@ledger_of _ _ _ OuterVerifier verifier_codec s).

Definition few_outputs (tx : Transaction OuterVerifier C) : Prop :=
  (N.of_nat (List.length (outputs tx)) ≤ 2 ^ 32)%N.

Lemma wallet_follows_all filter txs s s' S :
  apply_all txs s = Ret tt s' → Forall few_outputs txs →
  (fold_left (wallet_apply filter) txs (tracked filter (node_ledger s), S)).1 =
  tracked filter (node_ledger s').
Proof.
  revert s S. induction txs as [|tx txs IH]; intros s S Ha Hn; [by injection Ha as <-|].
  unfold apply_all in Ha. cbn [for_each] in Ha. apply bind_ret_inv in Ha as ([] & s1 & Ha & Hs).
  apply Forall_cons in Hn as [Hn Hns]. cbn [fold_left].
  destruct (apply_ret_ledger _ _ _ _ (represents_ledger_of s) Ha) as (Hacc & _).
  pose proof (wallet_follows filter _ _ _ S Hacc Hn) as Hw.
  rewrite (surjective_pairing (wallet_apply _ _ _)), Hw, <-(apply_ledger _ _ _ Ha).
  by apply IH.
Qed.

(** The same for a block. *)
Lemma wallet_follows_block filter (b : Block OuterVerifier C) s s' S :
  execute_block b s = Ret tt s' → Forall few_outputs (extrinsics b) →
  (fold_left (wallet_apply filter) (extrinsics b) (tracked filter (node_ledger s), S)).1 =
  tracked filter (node_ledger s').
Proof.
  intros (_ & (t & Ha & ->) & _)%execute_block_ret Hn.
  rewrite ledger_of_delete by apply output_ref_key_header.
  rewrite <-(wallet_follows_all filter _ _ _ S Ha Hn). unfold opened.
  by rewrite !ledger_of_insert by (apply output_ref_key_header || apply output_ref_key_height).
Qed.

(** The wallet shows what the node's ledger holds. When a block the node
    imports reaches the wallet, whose unspent tree is the part of the node's
    ledger that its filter selects, with the owner and the amount of every coin,
    and the block's outputs are ones the wallet can read, applying the block
    returns and the unspent tree is again that part of the node's ledger. *)
Theorem wallet_tracks_ledger filter (b : Block OuterVerifier C) (ob : OpaqueBlock) hash s s'
    bh bl S ts :
  execute_block b s = Ret tt s' → Forall few_outputs (extrinsics b) →
  Forall2 seals (opaque_extrinsics ob) (extrinsics b) →
  Forall (λ tx, Forall (readable filter) (outputs tx)) (extrinsics b) →
  ∃ db', apply_block (C := C) filter ob hash
           (db_of bh bl (tracked filter (node_ledger s), S) ts) = Ret tt db' ∧
    unspent db' = encode_tree (tracked filter (node_ledger s')).
Proof.
  intros Hb Hn Hp Hr. eexists. split.
  - unfold apply_block. by apply (apply_all_run filter _ (extrinsics b)
      (<[scale_encode (number (opaque_header ob)) := scale_encode hash]> bh)
      (<[scale_encode hash := scale_encode ob]> bl)).
  - cbn [unspent db_of]. by rewrite (wallet_follows_block _ _ _ _ S Hb Hn).
Qed.
End node_ledger.

(** ** Witnesses *)

Module Witnesses.
Import WalletSample.

Abbreviation Known := (known (C := OuterConstraintChecker)).
Definition know (p : H256 * OpaqueBlock) : Known := mk_known p.1 p.2 (opaque_extrinsics p.2).
Definition knowns (l : list (H256 * OpaqueBlock)) : list Known := map know l.

(** A node of a list of blocks serves the chain of these blocks. *)
Lemma node_serves chain st :
  NoDup (map fst chain) → @serves _ _ _ concrete_hex (node_of chain st) (knowns chain).
Proof.
  intros Hd. split.
  - intros n db Hn. unfold node_get_block_hash. cbn [chain_getBlockHash node_of].
    rewrite uval_trunc, Nat2N.id by done. unfold knowns. rewrite <-map_rev.
    rewrite list_lookup_fmap. destruct (rev chain !! n) as [p|]; [|done].
    cbn [fmap option_fmap option_map]. unfold lift_result. rewrite bind_mret.
    by rewrite h256_from_hex.
  - intros k db Hk. apply list_elem_of_fmap in Hk as (p & -> & Hp).
    unfold node_get_block. cbn [chain_getBlock node_of know known_hash known_block].
    assert (∃ i, list_find (λ q, hex_encode (bytesN_val q.1) = hex_encode (bytesN_val p.1)) chain =
      Some (i, p)) as [i ->]; [|done].
    apply list_elem_of_lookup in Hp as [i Hi]. exists i. apply list_find_Some.
    split; [done|]. split; [done|]. intros j q Hj Hlt E.
    apply (f_equal hex_decode) in E. rewrite !hex_decode_encode in E.
    apply Some_inj, bytesN_eq in E. rewrite NoDup_alt in Hd.
    enough (j = i) by lia. apply (Hd j i q.1); rewrite list_lookup_fmap; [by rewrite Hj|].
    by rewrite Hi, E.
Qed.

(** Decision procedures for the hypotheses on a chain. *)
Definition can_revert (w : owned_coins * owned_coins) (tx : RTx) : bool :=
  forallb (λ i, bool_decide (w.1 !! out_ref tx i = None)) (seq 0 (List.length (outputs tx))) &&
  forallb (λ o, bool_decide (w.2 !! o = None)) (map output_ref (inputs tx)).
Fixpoint can_revert_all filter w (txs : list RTx) : bool :=
  match txs with
  | [] => true
  | tx :: txs => can_revert w tx && can_revert_all filter (wallet_apply filter w tx) txs
  end.
Definition can_read filter (out : ROut) : bool :=
  if bool_decide (type_id (payload out) = TYPE_ID (Coin token_id))
  then negb (filter (verifier out)) || bool_decide (is_Some (owned filter out))
  else negb (bool_decide (type_id (payload out) = TYPE_ID Timestamp)) ||
       bool_decide (is_Some (timestamp_of (payload out))).
Definition comes_next filter (l : list Known) (p : H256 * OpaqueBlock) : bool :=
  bool_decide (number (opaque_header p.2) = trunc 32 (N.of_nat (List.length l))) &&
  bool_decide (p.1 ∉ map known_hash l) &&
  forallb (λ tx : RTx, forallb (can_read filter) (outputs tx)) (opaque_extrinsics p.2) &&
  can_revert_all filter (wallet_at filter l) (opaque_extrinsics p.2).

Lemma can_revert_ok w tx : can_revert w tx = true → revertible w tx.
Proof.
  unfold can_revert. rewrite andb_true_iff, !forallb_forall. intros [Ho Hi]. split.
  - intros i Hl. specialize (Ho i ltac:(apply in_seq; lia)). by apply bool_decide_eq_true in Ho.
  - intros o Hin. apply list_elem_of_In, Hi, bool_decide_eq_true in Hin. done.
Qed.

Lemma can_revert_all_ok filter w txs : can_revert_all filter w txs = true → revertible_all filter w txs.
Proof.
  revert w. induction txs as [|tx txs IH]; intros w; [done|]. cbn.
  intros [Hr Hs]%andb_true_iff. split; [by apply can_revert_ok|by apply IH].
Qed.

Lemma can_read_ok filter out : can_read filter out = true → readable filter out.
Proof.
  unfold can_read, readable. case_bool_decide; intros [Hn|Hs%bool_decide_eq_true]%orb_true_iff; try done.
  - intros Hf. by rewrite Hf in Hn.
  - intros Ht. by rewrite bool_decide_true in Hn.
Qed.

Lemma reads_ok filter (txs : list RTx) :
  forallb (λ tx : RTx, forallb (can_read filter) (outputs tx)) txs = true →
  Forall (λ tx : RTx, Forall (readable filter) (outputs tx)) txs.
Proof.
  rewrite forallb_forall, Forall_forall. intros Hr tx Hin%list_elem_of_In%Hr.
  rewrite forallb_forall in Hin. apply Forall_forall. intros out Ho%list_elem_of_In%Hin.
  by apply can_read_ok.
Qed.

Lemma seals_self (txs : list RTx) : Forall2 seals txs txs.
Proof. induction txs; by constructor. Qed.

Lemma comes_next_ok filter l p : comes_next filter l p = true → follows_chain filter l (know p).
Proof.
  unfold comes_next. rewrite !andb_true_iff, !bool_decide_eq_true. intros [[[Hn Hh] Hr] Hv].
  split; [split; [done|apply seals_self|by apply reads_ok]|done|by apply can_revert_all_ok].
Qed.

(** A genesis block, the wallet's fork and the node's chain. *)
Definition genesis := body 0 [mint_alice].
Definition fork := body 1 [pay_bob 3].
Definition main1 := body 1 [pay_bob 2].
Definition main2 := body 2 [].
Definition noted : tree := {[ [Byte.x00] := scale_encode (trunc 64 3) ]}.


#[local] Instance the_node : NodeClient := node_of [main2; main1; genesis] ∅.


Lemma sync_terminates_witness :
  synchronize_helper (C := OuterConstraintChecker) 3 mine (db_at mine (knowns [fork; genesis]) noted) ≠
  Ret None (db_at mine (knowns [fork; genesis]) noted).
Proof.
  apply (sync_terminates 3%N).
  - split; [done|]. intros h Hh. cbn [chain_getBlockHash the_node node_of]. do 2 f_equal.
    rewrite (lookup_ge_None_2 _ _); [done|]. cbn. lia.
  - apply Nat.ltb_lt. by_vm.
  - done.
Defined.

(** Alice spends a coin of the ledger; the node authors a block with it. *)
Definition alice_pays : RTx :=
  let tx := mk_transaction [take_coin (out_ref mint_alice 0)] [] [locked bob 2; locked alice 4]
    (OuterMoney Spend) in
  transform (λ c, c) (mk_transaction
    [mk_input (out_ref mint_alice 0) (Redemption (scale_encode (RedeemSr25519Signature
       (Concrete.Instances.toy_sign (scale_encode (strip tx)) alice) : Redeemer OuterVerifier)))]
    [] (outputs tx) (checker tx)).
Definition node_block : Header * storage :=
  let hd := mk_header H256_zero (trunc 32 2) H256_zero H256_zero tt in
  match author_block hd [alice_pays] node_state with Ret h s => (h, s) | _ => (hd, ∅) end.

Lemma wallet_tracks_ledger_witness :
  ∃ db', apply_block (C := OuterConstraintChecker) mine (mk_opaque_block node_block.1 [alice_pays])
      H256_zero (db_of ∅ ∅ (tracked mine (ledger_of node_state), ∅) ∅) = Ret tt db' ∧
    unspent db' = encode_tree (tracked mine (ledger_of node_block.2)).
Proof.
  apply (wallet_tracks_ledger mine (mk_block node_block.1 [alice_pays])).
  - by_vm.
  - by repeat constructor.
  - apply seals_self.
  - apply reads_ok. by_vm.
Defined.
End Witnesses.
