(* ===== verification/WalletLedger.v ===== *)
(** * WalletLedger: the wallet and the whole chain of the node

    A node that has built a genesis and imported a chain of blocks on top of it, and
    a wallet that starts in front of it: the outputs in the wallet's database are
    the part of the node's ledger that its keys own. *)

From S2P Require Import Prelude Effects Scale Types Checker UtxoSet CheckerLaws Executive.
From S2P Require Import Verifiers ExecutiveFacts Ledger Blocks Genesis Supply Money Timestamp.
From S2P Require Import LedgerInvariants TemplateRuntime RuntimeSamples.
From S2P Require Import RuntimeFacts RuntimeGenesis RuntimeTypes.
From S2P Require Import Wallet WalletRpc WalletFacts WalletChain WalletSync WalletSpend WalletSamples.

(** ** The genesis, as a wallet sees it *)

Section genesis.
Context `{RuntimeLaws} {C : Type} `{!ConstraintChecker C}.
Implicit Types (L : ledger OuterVerifier) (S : owned_coins) (l : list (Transaction OuterVerifier C)).

(** No reference of the ledger belongs to the transactions to come. *)
Definition unrelated L l : Prop := ∀ o u, L !! o = Some u → tx_hash o ∉ map tx_id l.

Lemma bare_accepted L tx l h :
  bare tx → unrelated L (tx :: l) → accepted (L !!.) h tx.
Proof.
  intros [Hi Hp] Hu. split.
  - rewrite Hi. constructor.
  - unfold statuses. rewrite Hi. constructor.
  - rewrite Hp. constructor.
  - intros i _. destruct (L !! out_ref tx i) as [u|] eqn:E; [|done].
    apply Hu in E. cbn [map out_ref tx_hash] in E. apply not_elem_of_cons in E as [E _]. done.
Qed.

Lemma bare_unrelated L tx l :
  bare tx → few_outputs tx → unrelated L (tx :: l) → NoDup (map tx_id (tx :: l)) →
  unrelated (ledger_apply L tx) l.
Proof.
  intros [Hi _] Hn Hu Hd o u Ho. cbn [map] in Hd. apply NoDup_cons in Hd as [Hd _].
  destruct (decide (Exists (λ i, o = out_ref tx i) (seq 0 (List.length (outputs tx))))) as [Hx|Hx].
  - by apply Exists_exists in Hx as (i & _ & ->).
  - rewrite ledger_apply_other in Ho.
    + rewrite Hi, decide_False in Ho by apply not_elem_of_nil. apply Hu in Ho.
      cbn [map] in Ho. by apply not_elem_of_cons in Ho as [_ Ho].
    + intros i Hlt ->. apply Hx, Exists_exists. exists i. split; [apply elem_of_seq; lia|done].
Qed.

Lemma wallet_follows_genesis filter l L S :
  Forall bare l → Forall few_outputs l → unrelated L l → NoDup (map tx_id l) →
  (fold_left (wallet_apply filter) l (tracked filter L, S)).1 = tracked filter (ledger_run L l).
Proof.
  revert L S. induction l as [|tx l IH]; intros L S Hb Hn Hu Hd; [done|].
  apply Forall_cons in Hb as [Hb Hbs]. apply Forall_cons in Hn as [Hn Hns]. cbn [fold_left ledger_run].
  pose proof (wallet_follows filter L None tx S (bare_accepted _ _ _ _ Hb Hu) Hn) as Hw.
  rewrite (surjective_pairing (wallet_apply _ _ _)), Hw. apply IH; [done..| |].
  - by apply (bare_unrelated L tx l).
  - cbn [map] in Hd. by apply NoDup_cons in Hd as [_ Hd].
Qed.
End genesis.

(** ** The node's chain *)

Section node_chain.
Context `{RuntimeLaws, Sled, Opaque, !OpaqueCodecs}.
Context `{!MoneyLaws, !LawfulCodec Timestamp, !LawfulCodec OuterConstraintChecker}.
#[local] Existing Instances verifier_codec checker_codec.
Context `{!LawfulCodec OpaqueBlock, HexCrate, !NodeClient, !LocalKeystore}.
Abbreviation C := OuterConstraintChecker.
Abbreviation runtime_ledger s := (@ledger_of _ _ _ OuterVerifier verifier_codec s).
Abbreviation known := (WalletChain.known (C := C)).
Implicit Types (k g : known) (l : list known) (s : storage) (filter : OuterVerifier → bool).

(** The block of the node that an opaque block of the wallet stands for. *)
Definition block_of k : Block OuterVerifier C :=
  mk_block (opaque_header (known_block k)) (known_txs k).

(** A chain as nodes number it, with opaque extrinsics that are its transactions. *)
Fixpoint well_formed l : Prop :=
  match l with
  | [] => True
  | k :: l => number (opaque_header (known_block k)) = trunc 32 (N.of_nat (List.length l)) ∧
              Forall2 seals (opaque_extrinsics (known_block k)) (known_txs k) ∧
              Forall few_outputs (known_txs k) ∧ well_formed l
  end.

(** A genesis whose outputs are of the runtime's types, built on a storage without
    outputs, and blocks imported on top of it, newest first. *)
Record node_chain g l s : Prop := {
  nc_formed : well_formed (l ++ [g]);
  nc_typed : Forall (λ tx, Forall (λ u, well_typed (payload u)) (outputs tx)) (known_txs g);
  nc_distinct : NoDup (map tx_id (known_txs g));
  nc_imported : ∃ s0 s1, runtime_ledger s0 = ∅ ∧ build (known_txs g) s0 = Ret tt s1 ∧
    import_all (map block_of (rev l)) (delete EXTRINSIC_KEY s1) = Ret tt s;
}.

(** ** What the wallet has recorded *)

Lemma wallet_at_imports filter g l s :
  node_chain g l s → (wallet_at filter (l ++ [g])).1 = tracked filter (runtime_ledger s).
Proof.
  intros [Hf _ Hd (s0 & s1 & He & Hb & Hi)]. revert s Hf Hi.
  induction l as [|k l IH]; intros s Hf Hi.
  - injection Hi as <-. destruct Hf as (_ & _ & Hn & _).
    cbn [app wallet_at fold_left]. apply build_ledger in Hb as [Hb ->]. rewrite He. rewrite <-(wallet_follows_genesis filter _ ∅ ∅) by (done || by intros ???).
    unfold tracked. by rewrite omap_empty.
  - cbn [rev map] in Hi. rewrite map_app, import_all_app in Hi. destruct Hi as (s2 & Hl & Hk).
    apply import_all_cons in Hk as (s3 & Hk & [= <-]).
    cbn [app well_formed] in Hf. destruct Hf as (_ & _ & Hn & Hf).
    cbn [app wallet_at]. pose proof (IH _ Hf Hl) as Hw.
    rewrite (surjective_pairing (wallet_at filter (l ++ [g]))), Hw.
    by apply (wallet_follows_block filter (block_of k)).
Qed.

(** ** The wallet can read every block *)

(** A coin that the keystore's filter selects is locked by a single key. *)
Lemma typed_readable (u : Output OuterVerifier) : well_typed (payload u) → readable keystore_filter u.
Proof.
  intros (t & Ht & Hd). unfold readable. case_bool_decide as Hc.
  - intros Hf. unfold owned. rewrite Ht in Hc. change (TYPE_ID (Coin token_id)) with (piece_id CoinType) in Hc.
    apply piece_id_inj in Hc as ->. destruct Hd as [n Hn]. unfold coin_of in Hn.
    destruct (extract (Coin token_id) (payload u)) as [c|]; [|done].
    unfold keystore_filter in *. destruct (verifier u) as [[k]| |]; [|done..]. by rewrite Hf.
  - intros Hs. rewrite Ht in Hs. change (TYPE_ID Timestamp) with (piece_id TimestampType) in Hs.
    by apply piece_id_inj in Hs as ->.
Qed.

Lemma applied_typed txs s s' :
  apply_all txs s = Ret tt s' →
  Forall (λ tx : Transaction OuterVerifier C, Forall (λ u, well_typed (payload u)) (outputs tx)) txs.
Proof.
  intros Ha. eapply Forall_impl; [exact (apply_all_outputs_hold well_typed _ _ _ Ha)|].
  intros tx Ho. by apply Forall_map.
Qed.

Lemma reads_typed txs :
  Forall (λ tx : Transaction OuterVerifier C, Forall (λ u, well_typed (payload u)) (outputs tx)) txs →
  Forall (λ tx, Forall (readable keystore_filter) (outputs tx)) txs.
Proof.
  intros Ht. eapply Forall_impl; [exact Ht|]. intros tx Hu.
  eapply Forall_impl; [exact Hu|]. apply typed_readable.
Qed.

Lemma node_chain_reads g l s : node_chain g l s → reads_chain keystore_filter (l ++ [g]).
Proof.
  intros [Hf Ht _ (s0 & s1 & _ & _ & Hi)]. revert s Hf Hi.
  induction l as [|k l IH]; intros s Hf Hi; cbn [app well_formed] in Hf.
  - destruct Hf as (Hn & Hs & _). split; [|done]. split; [done|done|by apply reads_typed].
  - cbn [rev map] in Hi. rewrite map_app, import_all_app in Hi. destruct Hi as (s2 & Hl & Hk).
    apply import_all_cons in Hk as (s3 & Hk & _).
    apply execute_block_ret in Hk as (_ & (t & Ha & _) & _).
    destruct Hf as (Hn & Hs & _ & Hf). split; [|by eapply IH].
    split; [done|done|]. eapply reads_typed, applied_typed, Ha.
Qed.

(** C8: The wallet shows what the node's ledger holds. A node builds a genesis whose
    outputs are of the runtime's types, imports a chain of blocks on top of it, and
    serves them. A new wallet that starts in front of it ends with the owner and the
    amount of exactly the coins of the node's ledger that its filter selects; and so
    does a wallet that had followed another fork, once it has undone the fork. That
    the wallet can read every block it follows is not assumed: the checkers the node
    ran on it see to that. *)
Theorem wallet_shows_ledger g l s fuel :
  node_chain g l s → serves (l ++ [g]) →
  (N.of_nat (List.length (l ++ [g])) < 2 ^ 32)%N → List.length l ≤ fuel →
  (∃ db, start_wallet (C := C) fuel keystore_filter false false new_db = Ret (Some tt) db ∧
     unspent db = encode_tree (tracked keystore_filter (runtime_ledger s))) ∧
  ∀ ws ns p ts, l = ns ++ p → forked ws (p ++ [g]) (l ++ [g]) →
    good_above keystore_filter (p ++ [g]) ws →
    (N.of_nat (List.length (ws ++ p ++ [g])) < 2 ^ 32)%N → List.length ws ≤ fuel →
    ∃ db, start_wallet (C := C) fuel keystore_filter true false
            (db_at keystore_filter (ws ++ p ++ [g]) ts) = Ret (Some tt) db ∧
      unspent db = encode_tree (tracked keystore_filter (runtime_ledger s)).
Proof.
  intros Hc Hs Hl Hf. pose proof (node_chain_reads _ _ _ Hc) as Hr.
  pose proof (wallet_at_imports keystore_filter _ _ _ Hc) as Hw. split.
  - destruct (start_run keystore_filter [] l [] g ∅ fuel) as [Hn _]; try done.
    + intros n k Hp Hk. apply lookup_lt_Some in Hk. cbn in Hk, Hp. lia.
    + cbn. lia.
    + by rewrite app_nil_r.
    + eexists. split; [exact Hn|]. cbn [unspent db_at db_of]. by rewrite <-Hw.
  - intros ws ns p ts -> Hfork Hg Hlw Hfw. rewrite <-app_assoc in *.
    destruct (start_run keystore_filter ws ns p g ts fuel) as [_ Ho]; try done.
    eexists. split; [exact Ho|]. cbn [unspent db_at db_of]. by rewrite <-Hw.
Qed.
End node_chain.

(** ** Witnesses *)

Module Witnesses.
Import WalletSample WalletSync.Witnesses.

(** The node: Alice's coin in the genesis, and a block in which she pays Bob. *)
Definition genesis_state : storage :=
  match build [mint_alice] ∅ with Ret _ s => delete EXTRINSIC_KEY s | _ => ∅ end.
Definition paid_block : Header * storage :=
  let hd := mk_header H256_zero (trunc 32 1) H256_zero H256_zero tt in
  match author_block hd [alice_pays] genesis_state with Ret h s => (h, s) | _ => (hd, ∅) end.
Definition paid_known : H256 * OpaqueBlock :=
  (blake2_256 (scale_encode paid_block.1), mk_opaque_block paid_block.1 [alice_pays]).

#[local] Instance the_node : NodeClient := node_of [paid_known; genesis] ∅.

Lemma paid_chain : node_chain (know genesis) (knowns [paid_known]) paid_block.2.
Proof.
  split.
  - split; [done|]. split; [apply seals_self|]. split; [by repeat constructor|].
    split; [done|]. split; [apply seals_self|]. split; [by repeat constructor|done].
  - constructor; [|done]. constructor; [|done]. apply (decodes_typed CoinType). by exists 7%N.
  - by_vm.
  - exists ∅, (<[EXTRINSIC_KEY := scale_encode [mint_alice]]> genesis_state).
    split; [by_vm|]. split; [by_vm|]. by_vm.
Qed.

(** A fork on which Alice has paid Bob another amount. *)
Lemma wallet_shows_ledger_witness :
  (∃ db, start_wallet (C := OuterConstraintChecker) 1 keystore_filter false false new_db =
     Ret (Some tt) db ∧
   unspent db = encode_tree (tracked keystore_filter (ledger_of paid_block.2))) ∧
  ∃ db, start_wallet (C := OuterConstraintChecker) 1 keystore_filter true false
      (db_at keystore_filter (knowns [fork; genesis]) noted) = Ret (Some tt) db ∧
    unspent db = encode_tree (tracked keystore_filter (ledger_of paid_block.2)).
Proof.
  destruct (wallet_shows_ledger (know genesis) (knowns [paid_known]) paid_block.2 1) as [Hnew Hold].
  - exact paid_chain.
  - apply (node_serves [paid_known; genesis]). by_vm.
  - done.
  - by apply Nat.leb_le.
  - split; [exact Hnew|]. apply (Hold (knowns [fork]) (knowns [paid_known]) [] noted); [done|..].
    + intros [|[|n]] k Hn Hk; [by apply Nat.nle_succ_0 in Hn| |done].
      injection Hk as <-. by_vm.
    + repeat apply conj; (done || (apply comes_next_ok; by_vm)).
    + done.
    + by apply Nat.leb_le.
Defined.
End Witnesses.
