(* ===== verification/Authoring.v ===== *)
(** * Authoring: what an authoring node hands to the runtime

    Models [ParentBlockInherentDataProvider] of [tuxedo-core/src/inherents.rs] and
    the closures [create_inherent_data_providers] of the three node services
    ([node/src/service.rs], [parachain-node/src/service.rs] and
    [parachain-node/src/dev_service.rs]): which inherent data a node provides when
    it authors on top of a block, and when it checks one. *)

From S2P Require Import Prelude Effects Scale Types Checker UtxoSet CheckerLaws Executive.
From S2P Require Import Concrete Verifiers Samples ExecutiveFacts Timestamp Wallet.

(** ** The libraries *)

(** The bag of inherent data of [sp_inherents]: a new one is empty, and data is put
    under an identifier once. *)
Class InherentBag `{Inherents} : Type := {
  InherentsError : Type;
  Application : string → InherentsError;
  inherent_data_new : InherentData;
  put_data {A} `{Codec A} : InherentData → bytesN 8 → A → result InherentsError InherentData;
}.

Class InherentBagLaws `{InherentBag} : Prop := {
  get_new {A} `{Codec A} id : get_data (A := A) inherent_data_new id = Some None;
  put_vacant {A B} `{Codec A, Codec B} data id (b : B) :
    get_data (A := A) data id = Some None → ∃ data', put_data data id b = Ok data';
  get_put {A B} `{Codec A, Codec B} data data' id (b : B) :
    put_data data id b = Ok data' →
    get_data (A := A) data' id = Some <$> decode_value (scale_encode b);
  get_put_ne {A B} `{Codec A, Codec B} data data' id id' (b : B) :
    put_data data id b = Ok data' → id' ≠ id →
    get_data (A := A) data' id' = get_data (A := A) data id';
}.

Section providers.
Context `{Scale, Host, !CoreCodecs, Inherents, !InherentBag}.

(** [trait InherentDataProvider] of [sp_inherents] *)
Record Provider : Type := mk_provider {
  provide_inherent_data : InherentData → result InherentsError InherentData;
  try_handle_error : bytesN 8 → bytes → option (result InherentsError unit);
}.

(** ** The parent block *)

Record ParentBlockInherentDataProvider (B : Type) : Type := parent_provider { parent_block : B }.
#[global] Arguments parent_provider {B} _.
#[global] Arguments parent_block {B} _.

Context `{!Codec string}.

(** [impl InherentDataProvider for ParentBlockInherentDataProvider<B>] *)
Definition parent_provide_inherent_data {B} `{Codec B} (self : ParentBlockInherentDataProvider B)
    (inherent_data : InherentData) : result InherentsError InherentData :=
  put_data inherent_data PARENT_INHERENT_IDENTIFIER (parent_block self).

Definition parent_try_handle_error {B} (self : ParentBlockInherentDataProvider B)
    (identifier : bytesN 8) (error : bytes) : option (result InherentsError unit) :=
  if bool_decide (identifier = PARENT_INHERENT_IDENTIFIER)
  then message ← decode_value (A := string) error; Some (Err (Application message))
  else None.

Definition parent_idp {B} `{Codec B} (self : ParentBlockInherentDataProvider B) : Provider := {|
  provide_inherent_data := parent_provide_inherent_data self;
  try_handle_error := parent_try_handle_error self;
|}.
End providers.

(** What a node takes from the Substrate client and its data providers. *)
Class NodeLibraries `{Host, Inherents, !InherentBag, Opaque} : Type := {
  (** [Client::block], a block with its justifications *)
  SignedBlock : Type;
  signed_block : SignedBlock → OpaqueBlock;
  BlockchainError : Type;
  UnknownBlock : string → BlockchainError;
  client_block : H256 → result BlockchainError (option SignedBlock);
  hash_to_string : H256 → string;
  (** [sp_timestamp::InherentDataProvider] *)
  timestamp_idp : u64 → Provider;
  (** [sp_consensus_aura::inherents::InherentDataProvider] *)
  Slot : Type;
  SlotDuration : Type;
  from_timestamp_and_slot_duration : u64 → SlotDuration → Slot;
  slot_idp : Slot → Provider;
  (** [MockValidationDataInherentDataProvider] of Cumulus, from the number of the
      current block, the offset of the relay chain, the relay blocks per block and
      the blocks per relay epoch *)
  mock_validation_data : u32 → u32 → u32 → u32 → Provider;
  (** [create_inherent_data] of a tuple of providers *)
  create_inherent_data : list Provider → result InherentsError InherentData;
}.

(** Their documented behaviour. *)
Class NodeLaws `{NodeLibraries, Scale, !TimestampPrimitives} (slot_identifier : bytesN 8)
    : Prop := {
  timestamp_provides now data :
    provide_inherent_data (timestamp_idp now) data = put_data data timestamp_identifier now;
  slot_provides slot : ∃ number : u64, ∀ data,
    provide_inherent_data (slot_idp slot) data = put_data data slot_identifier number;
  create_provides l :
    create_inherent_data l =
    fold_left (λ data p, bind data (provide_inherent_data p)) l (Ok inherent_data_new);
  slot_timestamp : slot_identifier ≠ timestamp_identifier;
  slot_parent : slot_identifier ≠ PARENT_INHERENT_IDENTIFIER;
  timestamp_parent : timestamp_identifier ≠ PARENT_INHERENT_IDENTIFIER;
}.

(** ** The closures of the services *)

Section services.
Context `{Scale, Host, !CoreCodecs, Inherents, !InherentBag, Opaque, !OpaqueCodecs}.
Context `{!Codec string, !NodeLibraries}.
Implicit Types (parent_hash : H256) (now : u64).

(** The block an author builds on, which the client must know. *)
Definition parent_of parent_hash : result BlockchainError OpaqueBlock :=
  maybe_parent_block ← client_block parent_hash;
  signed ← ok_or maybe_parent_block (UnknownBlock (hash_to_string parent_hash));
  mret (signed_block signed).

(** [new_full] of the sovereign node; [now] is the system time. *)
Definition node_data_providers (slot_duration : SlotDuration) now parent_hash :
    result BlockchainError (list Provider) :=
  parent_block ← parent_of parent_hash;
  let parent_idp := parent_idp (parent_provider parent_block) in
  let timestamp := timestamp_idp now in
  let slot := slot_idp (from_timestamp_and_slot_duration now slot_duration) in
  mret [slot; parent_idp; timestamp].

(** The import queue of the sovereign node, in [new_partial]. *)
Definition node_import_providers (slot_duration : SlotDuration) now (_ : H256) :
    result BlockchainError (list Provider) :=
  let timestamp := timestamp_idp now in
  let slot := slot_idp (from_timestamp_and_slot_duration now slot_duration) in
  mret [slot; timestamp].

(** [start_consensus] of the parachain node: no slot. *)
Definition collator_data_providers now parent_hash : result BlockchainError (list Provider) :=
  parent_block ← parent_of parent_hash;
  let parent_idp := parent_idp (parent_provider parent_block) in
  let timestamp := timestamp_idp now in
  mret [parent_idp; timestamp].

(** [build_import_queue] of the parachain node. *)
Definition collator_import_providers now (_ : H256) : result BlockchainError (list Provider) :=
  mret [timestamp_idp now].

(** [new_dev] of the parachain node, which mocks the relay chain. *)
Definition dev_data_providers now parent_hash : result BlockchainError (list Provider) :=
  parent_block ← parent_of parent_hash;
  let mocked_parachain :=
    mock_validation_data
      (wrapping_add (number (opaque_header parent_block)) (trunc 32 1))
      (trunc 32 1000) (trunc 32 2) (trunc 32 10) in
  let parent_idp := parent_idp (parent_provider parent_block) in
  let timestamp := timestamp_idp now in
  mret [parent_idp; timestamp; mocked_parachain].
End services.

(** ** What the runtime reads *)

Section data.
Context `{CoreLaws, !ScaleLaws, Inherents, !InherentBag, !InherentBagLaws, Opaque, !OpaqueCodecs}.
Context `{!Codec string, !NodeLibraries, !TimestampPrimitives, slot_id : bytesN 8}.
Context `{!NodeLaws slot_id}.
Implicit Types (data : InherentData) (id : bytesN 8) (v : bytes) (p : Provider).

(** What is stored under an identifier. *)
Definition vacant data id : Prop := ∀ A `(Codec A), get_data (A := A) data id = Some None.
Definition holds data id v : Prop :=
  ∀ A `(Codec A), get_data (A := A) data id = Some <$> decode_value v.

(** A provider that puts these bytes under this identifier. *)
Definition puts p id v : Prop := ∀ data, vacant data id →
  ∃ data', provide_inherent_data p data = Ok data' ∧ holds data' id v ∧
    ∀ id' A `(Codec A), id' ≠ id → get_data (A := A) data' id' = get_data (A := A) data id'.

Lemma put_puts p id {B} `{Codec B} (b : B) :
  (∀ data, provide_inherent_data p data = put_data data id b) → puts p id (scale_encode b).
Proof.
  intros Hp data Hv. destruct (put_vacant data id b (Hv B _)) as [data' Hd].
  exists data'. rewrite Hp. split; [done|]. split; [intros A cA; by eapply get_put|].
  intros id' A cA Hne. by eapply get_put_ne.
Qed.

Lemma parent_puts (ob : OpaqueBlock) :
  puts (parent_idp (parent_provider ob)) PARENT_INHERENT_IDENTIFIER (scale_encode ob).
Proof. by apply put_puts. Qed.

Lemma timestamp_puts now : puts (timestamp_idp now) timestamp_identifier (scale_encode now).
Proof. apply put_puts, timestamp_provides. Qed.

Lemma slot_puts slot : ∃ number : u64, puts (slot_idp slot) slot_id (scale_encode number).
Proof. destruct (slot_provides slot) as [number Hs]. exists number. by apply put_puts. Qed.

(** Providers of distinct identifiers fill the bag with all they provide. *)
Lemma create_holds (l : list (Provider * (bytesN 8 * bytes))) :
  Forall (λ x, puts x.1 x.2.1 x.2.2) l → NoDup (map (λ x, x.2.1) l) →
  ∃ data, create_inherent_data (map fst l) = Ok data ∧
    Forall (λ x, holds data x.2.1 x.2.2) l ∧ ∀ id, id ∉ map (λ x, x.2.1) l → vacant data id.
Proof.
  induction l as [|[p [id v]] l IH] using rev_ind; intros Hp Hd.
  - exists inherent_data_new. rewrite create_provides. split; [done|]. split; [done|].
    intros id _ A cA. apply get_new.
  - apply Forall_app in Hp as [Hl [Hp _]%Forall_cons]. cbn [fst snd] in Hp.
    rewrite map_app in Hd. apply NoDup_app in Hd as (Hd & Hn & _). cbn in Hn.
    destruct (IH Hl Hd) as (data & Hc & Hh & Hv).
    assert (id ∉ map (λ x : Provider * (bytesN 8 * bytes), x.2.1) l) as Hid
      by (intros Hin; apply (Hn _ Hin), list_elem_of_here).
    destruct (Hp data (Hv id Hid)) as (data' & Hr & Hi & Ho). exists data'.
    rewrite !map_app. split; [|split].
    + revert Hc. rewrite !create_provides, fold_left_app. cbn. by intros ->.
    + apply Forall_app. split; [|by constructor].
      rewrite Forall_forall in Hh |- *. intros x Hx A cA.
      rewrite Ho; [by apply Hh|]. intros E. apply Hid. rewrite <-E. apply list_elem_of_fmap. by exists x.
    + intros id' Hn' A cA. cbn in Hn'. apply not_elem_of_app in Hn' as [Hn' Hne].
      rewrite Ho; [by apply Hv|]. by apply not_elem_of_cons in Hne as [? _].
Qed.

Lemma parent_of_run hash signed :
  client_block hash = Ok (Some signed) → parent_of hash = Ok (signed_block signed).
Proof. intros Hc. unfold parent_of. by rewrite Hc. Qed.

Lemma timestamp_data_run data now :
  holds data timestamp_identifier (scale_encode now) → timestamp_data data = Value now.
Proof.
  intros Hd. unfold timestamp_data. by rewrite (Hd u64 _), decode_value_encode.
Qed.

Context {V C : Type} `{!Codec (Block V C)}.
Implicit Types (b : Block V C).

(** The opaque block of the node and the block of the runtime: the same bytes. *)
Definition reads_as (ob : OpaqueBlock) b : Prop := decode_value (scale_encode ob) = Some b.

(** What an author's data holds: its parent and the time. *)
Definition authors data b now : Prop :=
  get_data data PARENT_INHERENT_IDENTIFIER = Some (Some b) ∧ timestamp_data data = Value now.

Lemma holds_authors data ob b now :
  reads_as ob b → holds data PARENT_INHERENT_IDENTIFIER (scale_encode ob) →
  holds data timestamp_identifier (scale_encode now) → authors data b now.
Proof.
  intros Hb Hp Ht. split; [by rewrite (Hp _ _), Hb|by apply timestamp_data_run].
Qed.

(** The data of the sovereign node's author holds its parent and the time. *)
Lemma node_data_authors slot_duration now hash signed b :
  client_block hash = Ok (Some signed) → reads_as (signed_block signed) b →
  ∃ providers data, node_data_providers slot_duration now hash = Ok providers ∧
    create_inherent_data providers = Ok data ∧ authors data b now.
Proof.
  intros Hc Hb. unfold node_data_providers. rewrite (parent_of_run _ _ Hc).
  destruct (slot_puts (from_timestamp_and_slot_duration now slot_duration)) as [number Hs].
  destruct (create_holds
    [(slot_idp (from_timestamp_and_slot_duration now slot_duration), (slot_id, scale_encode number));
     (parent_idp (parent_provider (signed_block signed)),
      (PARENT_INHERENT_IDENTIFIER, scale_encode (signed_block signed)));
     (timestamp_idp now, (timestamp_identifier, scale_encode now))]) as (data & Hd & Hh & _).
  { repeat constructor; [exact Hs|apply parent_puts|apply timestamp_puts]. }
  { cbn. pose proof slot_timestamp. pose proof slot_parent. pose proof timestamp_parent.
    repeat apply NoDup_cons_2; try apply NoDup_nil_2; set_solver. }
  eexists _, data. split; [done|]. split; [exact Hd|].
  rewrite !Forall_cons in Hh. destruct Hh as (_ & Hp & Ht & _). by eapply holds_authors.
Qed.

(** And so does that of a collator's, to which Cumulus adds the relay chain's data. *)
Lemma collator_data_authors now hash signed b id {B} `{Codec B} (info : B) :
  client_block hash = Ok (Some signed) → reads_as (signed_block signed) b →
  id ≠ PARENT_INHERENT_IDENTIFIER → id ≠ timestamp_identifier →
  ∃ providers data data', collator_data_providers now hash = Ok providers ∧
    create_inherent_data providers = Ok data ∧ put_data data id info = Ok data' ∧
    authors data' b now ∧ holds data' id (scale_encode info).
Proof.
  intros Hc Hb Hip Hit. unfold collator_data_providers. rewrite (parent_of_run _ _ Hc).
  destruct (create_holds
    [(parent_idp (parent_provider (signed_block signed)),
      (PARENT_INHERENT_IDENTIFIER, scale_encode (signed_block signed)));
     (timestamp_idp now, (timestamp_identifier, scale_encode now))]) as (data & Hd & Hh & Hv).
  { repeat constructor; [apply parent_puts|apply timestamp_puts]. }
  { cbn. pose proof timestamp_parent.
    repeat apply NoDup_cons_2; try apply NoDup_nil_2; set_solver. }
  rewrite !Forall_cons in Hh. destruct Hh as (Hp & Ht & _).
  destruct (put_vacant (A := B) data id info) as [data' Hput]; [apply Hv; cbn; set_solver|].
  eexists _, data, data'. split; [done|]. split; [exact Hd|]. split; [exact Hput|]. split.
  - apply (holds_authors data' (signed_block signed)); [done|intros A cA..];
      by rewrite (get_put_ne _ _ _ _ _ Hput) by done.
  - intros A cA. by apply (get_put _ _ _ _ Hput).
Qed.

(** The data of the development service moreover holds what the mock provides. *)
Lemma dev_data_holds now hash signed b id v :
  client_block hash = Ok (Some signed) → reads_as (signed_block signed) b →
  puts (mock_validation_data (wrapping_add (number (opaque_header (signed_block signed))) (trunc 32 1))
    (trunc 32 1000) (trunc 32 2) (trunc 32 10)) id v →
  id ≠ PARENT_INHERENT_IDENTIFIER → id ≠ timestamp_identifier →
  ∃ providers data, dev_data_providers now hash = Ok providers ∧
    create_inherent_data providers = Ok data ∧ authors data b now ∧ holds data id v.
Proof.
  intros Hc Hb Hm Hip Hit. unfold dev_data_providers. rewrite (parent_of_run _ _ Hc).
  destruct (create_holds
    [(parent_idp (parent_provider (signed_block signed)),
      (PARENT_INHERENT_IDENTIFIER, scale_encode (signed_block signed)));
     (timestamp_idp now, (timestamp_identifier, scale_encode now));
     (mock_validation_data
        (wrapping_add (number (opaque_header (signed_block signed))) (trunc 32 1))
        (trunc 32 1000) (trunc 32 2) (trunc 32 10), (id, v))]) as (data & Hd & Hh & _).
  { repeat constructor; [apply parent_puts|apply timestamp_puts|exact Hm]. }
  { cbn. pose proof timestamp_parent.
    repeat apply NoDup_cons_2; try apply NoDup_nil_2; set_solver. }
  eexists _, data. split; [done|]. split; [exact Hd|].
  rewrite !Forall_cons in Hh. destruct Hh as (Hp & Ht & Hi & _).
  split; [by eapply holds_authors|exact Hi].
Qed.

(** The data of an importer holds its time. *)
Lemma node_import_time slot_duration now hash :
  ∃ providers data, node_import_providers slot_duration now hash = Ok providers ∧
    create_inherent_data providers = Ok data ∧ timestamp_data data = Value now.
Proof.
  destruct (slot_puts (from_timestamp_and_slot_duration now slot_duration)) as [number Hs].
  destruct (create_holds
    [(slot_idp (from_timestamp_and_slot_duration now slot_duration), (slot_id, scale_encode number));
     (timestamp_idp now, (timestamp_identifier, scale_encode now))]) as (data & Hd & Hh & _).
  { repeat constructor; [exact Hs|apply timestamp_puts]. }
  { cbn. pose proof slot_timestamp.
    repeat apply NoDup_cons_2; try apply NoDup_nil_2; set_solver. }
  eexists _, data. split; [done|]. split; [exact Hd|].
  rewrite !Forall_cons in Hh. destruct Hh as (_ & Ht & _). by apply timestamp_data_run.
Qed.

(** An author whose client does not know the block gets nothing. *)
Lemma unknown_parent slot_duration now hash :
  client_block hash = Ok None →
  node_data_providers slot_duration now hash = Err (UnknownBlock (hash_to_string hash)) ∧
  collator_data_providers now hash = Err (UnknownBlock (hash_to_string hash)) ∧
  dev_data_providers now hash = Err (UnknownBlock (hash_to_string hash)).
Proof.
  intros Hc. unfold node_data_providers, collator_data_providers, dev_data_providers, parent_of.
  by rewrite Hc.
Qed.
End data.
