(* ===== verification/NodeSamples.v ===== *)
(** * NodeSamples: a concrete authoring node for the witnesses

    The bag of inherent data as an association list, and a node whose client knows
    one block, the parent of the block it authors. *)

From S2P Require Import Prelude Effects Scale Types Checker UtxoSet CheckerLaws Executive.
From S2P Require Import Concrete Verifiers Samples Timestamp TemplateRuntime RuntimeSamples.
From S2P Require Import Wallet WalletRpc WalletSpend WalletStrings WalletSamples Authoring.

Module NodeSample.
Export WalletSample.

#[export] Instance concrete_bag : InherentBag := {|
  InherentsError := string;
  Application := id;
  inherent_data_new := [];
  put_data A _ data id a :=
    if decide (Exists (λ e, e.1 = id) data) then Err "already exists"
    else Ok ((id, scale_encode a) :: data);
|}.

#[export] Instance concrete_bag_laws : InherentBagLaws.
Proof.
  split.
  - done.
  - intros A B cA cB data id b Hd. cbn [put_data concrete_bag].
    rewrite decide_False; [by eexists|]. intros (e & He & E)%Exists_exists.
    revert Hd. cbn [get_data rt_inherents concrete_runtime Concrete.Instances.concrete_inherents].
    destruct (list_find_elem_of (λ e : bytesN 8 * bytes, e.1 = id) data e He E) as [[i [k v]] ->].
    by destruct (decode_value v).
  - intros A B cA cB data data' id b. cbn [put_data concrete_bag get_data rt_inherents concrete_runtime Concrete.Instances.concrete_inherents].
    case_decide; [done|]. intros [= <-]. cbn [list_find]. by rewrite decide_True.
  - intros A B cA cB data data' id id' b. cbn [put_data concrete_bag get_data rt_inherents concrete_runtime Concrete.Instances.concrete_inherents].
    case_decide; [done|]. intros [= <-] Hne. cbn [list_find]. rewrite decide_False by by intros ?.
    by destruct (list_find _ data) as [[? [? ?]]|].
Qed.

#[export] Instance concrete_string : Codec string :=
  iso_codec (B := list byte) String.list_byte_of_string String.string_of_list_byte.

(** A provider that puts a value. *)
Definition putting {A} `{Codec A} (id : bytesN 8) (a : A) : Provider := {|
  provide_inherent_data data := put_data data id a;
  try_handle_error _ _ := None;
|}.

Definition slot_name : bytesN 8 := to_bytesN 8 (bstr "auraslot").

(** A node whose client answers a block, and whose relay chain is mocked by a
    provider for each number of the relay chain. *)
Definition client_of {O : Opaque} (answer : H256 → option OpaqueBlock)
    (mock : u32 → Provider) : NodeLibraries := {|
  SignedBlock := OpaqueBlock;
  signed_block := λ b, b;
  BlockchainError := string;
  UnknownBlock := λ h, h;
  client_block h := Ok (answer h);
  hash_to_string h := hex_encode (bytesN_val h);
  timestamp_idp := putting timestamp_identifier;
  Slot := u64;
  SlotDuration := u64;
  from_timestamp_and_slot_duration now duration := trunc 64 (uval now / uval duration);
  slot_idp := putting slot_name;
  mock_validation_data current offset per_block _ :=
    mock (trunc 32 (uval offset + uval per_block * uval current));
  create_inherent_data l :=
    fold_left (λ data p, bind data (provide_inherent_data p)) l (Ok inherent_data_new);
|}.

(** No relay chain. *)
Definition no_mock (number : u32) : Provider := {|
  provide_inherent_data data := Ok data;
  try_handle_error _ _ := None;
|}.

Lemma client_laws {O : Opaque} answer mock :
  @NodeLaws _ _ _ _ (client_of answer mock) _ _ slot_name.
Proof.
  split; [done| |done|by_vm..]. intros slot. by exists slot.
Qed.
End NodeSample.
