(* ===== verification/ChainGrowth.v ===== *)
(** * ChainGrowth: the template chain never stalls

    Every block of the template runtime opens with a timestamp inherent that peeks
    at the previous block's.  Whatever transactions users put in their blocks, that
    output is still there for the next author, so that every chain that grew from
    the development genesis can be extended by one more block. *)

From S2P Require Import Prelude Effects Scale Types Checker UtxoSet CheckerLaws Executive.
From S2P Require Import Concrete Verifiers Samples ExecutiveFacts Ledger Blocks Genesis Supply.
From S2P Require Import Money Amoeba Poe Kitties Timestamp RuntimeUpgrade Aggregator.
From S2P Require Import TemplateRuntime RuntimeSamples RuntimeFacts RuntimeGenesis RuntimeTypes.
From S2P Require Import Wallet WalletSamples Authoring NodeSamples.

(** ** Nothing consumes a timestamp *)

Section stamps.
Context `{RuntimeLaws}.
Abbreviation RTx := (Transaction OuterVerifier OuterConstraintChecker).
Abbreviation runtime_look s := (@utxo_at _ _ _ OuterVerifier verifier_codec s).
Implicit Types (s : storage) (tx : RTx) (d : DynamicallyTypedData).

(** A payload of one of the runtime's other types. *)
Definition consumable d : Prop := ∃ t, t ≠ TimestampType ∧ type_id d = piece_id t.

Lemma consumable_stamp d : consumable d → timestamp_of d = None.
Proof.
  intros (t & Ht & Hd). unfold timestamp_of. destruct (extract Timestamp d) as [x|] eqn:Hx; [|done].
  apply extract_ok in Hx as [Hx _]. destruct Ht. apply piece_id_inj. by rewrite <-Hd.
Qed.

Lemma all_consumable t l : t ≠ TimestampType → Forall (decodes_as t) l → Forall consumable l.
Proof.
  intros Ht Hl. eapply Forall_impl; [exact Hl|]. intros d Hd. exists t. by split; [|apply decodes_type].
Qed.

(** Whatever the variant, what a checker accepts consumes no timestamp. *)
Lemma outer_consumed c i e p o s prio s' :
  outer_check c i e p o s = Ret prio s' → Forall consumable (i ++ e).
Proof.
  rewrite Forall_app.
  destruct c as [c|c|c|c|c|c|c|c|c|c]; cbn [outer_check]; unfold check_arm;
    intros Hc%catch_err_ret; cbn [check simple_constraint_checker simple_check] in Hc.
  - cbn [money_checker] in Hc. apply lift_result_ret in Hc as [Hc _]. destruct c.
    + apply spend_ok in Hc as (-> & _ & Hi & _). split; [|done].
      by apply (all_consumable CoinType).
    + by apply mint_ok in Hc as (-> & -> & _).
  - apply lift_result_ret in Hc as [(-> & _ & m & d & m' & d' & k & Hi & _)%kitty_ok _].
    split; [|done]. apply (all_consumable KittyType); [done|]. revert Hi.
    destruct i as [|d1 [|d2 [|? ?]]]; try done. intros [= E1 E2]. by repeat constructor; eexists.
  - apply lift_result_ret in Hc as [(-> & _ & ? & ? & ? & ? & ? & ? & -> & _ & Hm & _)%mitosis_ok _].
    split; [|done]. apply (all_consumable AmoebaType); [done|]. by repeat constructor; eexists.
  - apply lift_result_ret in Hc as [(-> & _ & _ & ? & ? & -> & Hm)%death_ok _].
    split; [|done]. apply (all_consumable AmoebaType); [done|]. by repeat constructor; eexists.
  - by apply lift_result_ret in Hc as [(-> & -> & _)%creation_ok _].
  - by apply (claim_outputs c _ _ p) in Hc as (-> & -> & _).
  - apply lift_result_ret in Hc as [(-> & _ & Hi)%revoke_ok _]. split; [|done].
    by apply (all_consumable ClaimType).
  - apply lift_result_ret in Hc as [(-> & _ & _ & ? & ? & w & _ & _ & He)%dispute_ok _].
    split; [done|]. apply (all_consumable ClaimType); [done|].
    eapply Forall_impl; [exact He|]. intros d (cl & Hcl & _). by exists cl.
  - by apply (set_timestamp_output (adapted c) _ _ p) in Hc as (-> & -> & _).
  - apply (upgrade_ok c _ _ p) in Hc as (-> & _ & _ & ? & ? & ? & -> & _ & _ & (? & ? & _) & _).
    split; [|done]. apply (all_consumable RuntimeRefType); [done|]. by repeat constructor; eexists.
Qed.

(** So an applied transaction leaves every timestamp in the ledger. *)
Lemma apply_keeps_stamp tx s s' o (u : Output OuterVerifier) :
  apply_tuxedo_transaction tx s = Ret tt s' → runtime_look s o = Some u →
  is_Some (timestamp_of (payload u)) → runtime_look s' o = Some u.
Proof.
  intros Ha Ho [t Ht]. apply (apply_keeps _ _ _ _ _ Ha Ho).
  apply apply_ret in Ha as (_ & p & s1 & Hc & _). apply outer_consumed in Hc.
  intros Hin. eapply Forall_forall in Hc; [|exact Hin]. by rewrite consumable_stamp in Ht.
Qed.

Lemma apply_all_keeps_stamp l s s' o (u : Output OuterVerifier) :
  apply_all l s = Ret tt s' → runtime_look s o = Some u →
  is_Some (timestamp_of (payload u)) → runtime_look s' o = Some u.
Proof.
  revert s. induction l as [|tx l IH]; intros s Hl Ho Hu; [by injection Hl as <-|].
  unfold apply_all in Hl. cbn [for_each] in Hl. apply bind_ret_inv in Hl as ([] & s1 & Ha & Hl).
  eapply IH; [exact Hl| |done]. by eapply apply_keeps_stamp.
Qed.
End stamps.

(** ** The chains importers accept *)

Section growth.
Context `{RuntimeLaws, !LawfulCodec Timestamp, !MoneyLaws, !InherentsLaws}.
Abbreviation RTx := (Transaction OuterVerifier OuterConstraintChecker).
Abbreviation RBlock := (Block OuterVerifier OuterConstraintChecker).
Abbreviation runtime_look s := (@utxo_at _ _ _ OuterVerifier verifier_codec s).
Implicit Types (s : storage) (b : RBlock).

(** From the development genesis, one block after the other: the checks of some
    importer find nothing wrong with the block's inherents, and it executes. *)
Inductive grows : RBlock → storage → Prop :=
| grows_genesis b s0 s :
    development_genesis_transactions = Value (extrinsics b) → number (header b) = trunc 32 0 →
    NoDup (map tx_id (extrinsics b)) → build (extrinsics b) s0 = Ret tt s →
    grows b (delete EXTRINSIC_KEY s)
| grows_import parent s b s' data results :
    grows parent s →
    number (header b) = wrapping_add (number (header parent)) (trunc 32 1) →
    executive_check_inherents b data = Value results → fatal_error results = false →
    execute_block b s = Ret tt s' → grows b s'.

(** The timestamp a block opens with. *)
Definition clock_of b : option Timestamp :=
  tx ← head (opening_inherents (extrinsics b)); out ← head (outputs tx); timestamp_of (payload out).

(** The block has set the clock: its only inherent's output is in the ledger. *)
Record clocked b s : Prop := {
  clocked_stamp : ∃ prev out stamp, opening_inherents (extrinsics b) = [prev] ∧
    head (outputs prev) = Some out ∧ runtime_look s (out_ref prev 0) = Some out ∧
    timestamp_of (payload out) = Some stamp ∧ Timestamp.block stamp = number (header b);
  clocked_clean : s !! EXTRINSIC_KEY = None;
}.

(** Importers accept a block only when it opens with exactly one inherent. *)
Lemma opening_timestamps (l : list RTx) :
  Forall (λ tx, is_timestamp (checker tx) = true) (opening_inherents l).
Proof.
  unfold opening_inherents. pose proof (take_while_Forall (λ tx : RTx, is_inherent (checker tx)) l) as Ht.
  eapply Forall_impl; [exact Ht|]. intros tx Hi. by rewrite <-inherent_is_timestamp.
Qed.

Lemma relevant_all {X} (f : RTx → InherentAdapter SetTimestamp → X) (l : list RTx) :
  Forall (λ tx, is_timestamp (checker tx) = true) l →
  List.length (omap (λ tx, c ← unwrap (I := InherentAdapter SetTimestamp) (checker tx); Some (f tx c)) l) =
  List.length l.
Proof.
  induction 1 as [|tx l Ht _ IH]; [done|]. cbn [omap list_omap]. revert Ht.
  destruct (checker tx) as [| | | | | | | |c|]; try done. intros _.
  exact (f_equal S IH).
Qed.

Lemma outer_checked_single data (l : list RTx) results :
  Forall (λ tx, is_timestamp (checker tx) = true) l →
  outer_check_inherents data l check_inherents_new = Value results → fatal_error results = false →
  ∃ tx, l = [tx].
Proof.
  intros Ht. unfold outer_check_inherents.
  repeat (rewrite check_all_skip; [|apply new_not_fatal|apply check_simple;
    eapply Forall_impl; [exact Ht|]; intros tx; cbv beta; by destruct (checker tx)]).
  cbn [check_all_variants]. unfold check_variant at 1. cbn [check_inherents inherent_adapter].
  intros Hr Hf. match type of Hr with context[adapter_check_inherents data ?r _] =>
    assert (List.length r = List.length l) as Hn
      by exact (relevant_all (λ tx c, transform (λ _, c) tx) l Ht);
    revert Hr Hn; generalize r; intros l' Hr Hn
  end.
  destruct (decide (List.length l' = 1)) as [E|E].
  - rewrite Hn in E. destruct l as [|tx [|? ?]]; try done. by exists tx.
  - destruct (adapter_singular data l' _ new_not_fatal E) as (r & Ha & Hfr).
    revert Hr. rewrite Ha. unfold bind, mbind, partial_bind at 1. rewrite Hfr.
    intros [= <-]. by rewrite Hfr in Hf.
Qed.

Lemma checked_single b data results :
  executive_check_inherents b data = Value results → fatal_error results = false →
  ∃ tx, opening_inherents (extrinsics b) = [tx].
Proof. apply outer_checked_single, opening_timestamps. Qed.

(** The height the checkers read. *)
Lemma timestamp_height_run {E} s h :
  height_at s = Some h → (timestamp_block_height E : M storage E u32) s = Ret h s.
Proof.
  intros Hh. cbn [timestamp_block_height runtime_timestamp_config default_timestamp_config].
  by rewrite block_height_run, Hh.
Qed.

(** A timestamp inherent that applies leaves the timestamp of the height. *)
Lemma stamp_checked c i e p o s prio s' h :
  is_timestamp c = true → outer_check c i e p o s = Ret prio s' → height_at s = Some h →
  ∃ d stamp, o = [d] ∧ timestamp_of d = Some stamp ∧ Timestamp.block stamp = h.
Proof.
  intros Ht Hc Hh. destruct c as [| | | | | | | |[c]|]; try done.
  cbn [outer_check] in Hc. unfold check_arm in Hc. apply catch_err_ret in Hc.
  cbn [check inherent_adapter simple_check set_timestamp_checker adapted] in Hc.
  apply (set_timestamp_ok (height := h) (λ E, timestamp_height_run s h Hh)) in Hc
    as (_ & _ & _ & _ & d & new & dp & rest & old & Ho & Hd & _ & _ & Hb & _).
  by exists d, new.
Qed.

Lemma stamp_applied tx s s' h :
  is_timestamp (checker tx) = true → apply_tuxedo_transaction tx s = Ret tt s' →
  height_at s = Some h →
  ∃ out stamp, outputs tx = [out] ∧ timestamp_of (payload out) = Some stamp ∧
    Timestamp.block stamp = h ∧ runtime_look s' (out_ref tx 0) = Some out.
Proof.
  intros Ht Ha Hh. pose proof (λ out, apply_creates s s' tx 0 out Ha) as Hnew.
  apply apply_ret in Ha as (_ & p & s1 & Hc & _).
  destruct (stamp_checked _ _ _ _ _ _ _ _ _ Ht Hc Hh) as (d & stamp & Ho & Hs & Hb).
  destruct (outputs tx) as [|out [|? ?]] eqn:Eo; try done. injection Ho as <-.
  exists out, stamp. repeat (split; [done|]). by apply Hnew.
Qed.

Lemma height_opened hd s : height_at (opened hd s) = Some (number hd).
Proof.
  unfold height_at. rewrite opened_lookup, decide_False, decide_True by done. simpl.
  apply decode_value_encode.
Qed.

Lemma look_opened hd s o : runtime_look (opened hd s) o = runtime_look s o.
Proof.
  rewrite !represents_ledger_of. unfold opened.
  by rewrite !ledger_of_insert by (apply output_ref_key_header || apply output_ref_key_height).
Qed.

Lemma look_closed s o : runtime_look (delete HEADER_KEY s) o = runtime_look s o.
Proof. rewrite !represents_ledger_of, ledger_of_delete; [done|]. apply output_ref_key_header. Qed.

(** A block that opens with one inherent. *)
Lemma opens_with b prev :
  opening_inherents (extrinsics b) = [prev] →
  is_timestamp (checker prev) = true ∧ ∃ l, extrinsics b = prev :: l.
Proof.
  intros Ho. pose proof (opening_timestamps (extrinsics b)) as Ht. rewrite Ho in Ht.
  apply Forall_cons in Ht as [Ht _]. split; [done|]. revert Ho. unfold opening_inherents.
  destruct (extrinsics b) as [|tx l]; [done|]. cbn [take_while].
  destruct (is_inherent (checker tx)); [|done]. intros [= -> _]. by exists l.
Qed.

(** Executing it sets the clock. *)
Lemma execute_clocked b prev s s' :
  opening_inherents (extrinsics b) = [prev] → execute_block b s = Ret tt s' →
  s !! EXTRINSIC_KEY = None → clocked b s'.
Proof.
  intros Ho Hb Hx. pose proof (chain_step_extrinsic s s' (import_block b s s' Hb) Hx) as Hx'.
  destruct (opens_with b prev Ho) as (Ht & l & El). split; [|done].
  apply execute_block_ret in Hb as (_ & (t & Ha & ->) & _). rewrite El in Ha.
  unfold apply_all in Ha. cbn [for_each] in Ha. apply bind_ret_inv in Ha as ([] & s1 & Hp & Hl).
  destruct (stamp_applied _ _ _ _ Ht Hp (height_opened (header b) s))
    as (out & stamp & Eo & Hs & Hn & Hu).
  exists prev, out, stamp. split; [done|]. rewrite Eo. split; [done|]. split; [|done].
  rewrite look_closed. eapply apply_all_keeps_stamp; [exact Hl|exact Hu|by exists stamp].
Qed.

Lemma grows_clocked b s : grows b s → clocked b s.
Proof.
  induction 1 as [b s0 s Hg Hn Hd Hb|parent s b s' data results _ IH _ Hc Hf Hb].
  - rewrite development_value in Hg. injection Hg as Hg. rewrite <-Hg in Hd, Hb. split.
    + exists genesis_clock, (mk_output (typed_from (timestamp_new (trunc 64 0) (trunc 32 0))) nobody),
        (timestamp_new (trunc 64 0) (trunc 32 0)).
      rewrite <-Hg. split; [done|]. split; [done|].
      split; [|split; [unfold timestamp_of; cbn [payload]; by rewrite extract_from|by rewrite Hn]].
      rewrite <-(look_opened (header b)). by apply (genesis_state_clock s0).
    + apply lookup_delete_eq.
  - destruct (checked_single _ _ _ Hc Hf) as [tx Ho]. destruct IH as [_ Hx].
    by apply (execute_clocked _ _ _ _ Ho Hb).
Qed.
End growth.

(** ** The next block *)

Section next.
Context `{RuntimeLaws, !LawfulCodec Timestamp, !MoneyLaws, !InherentsLaws}.
Context `{!InherentBag, !InherentBagLaws, Opaque, !OpaqueCodecs, !Codec string, !NodeLibraries}.
Context {slot_id : bytesN 8} `{!NodeLaws slot_id}.
Abbreviation RTx := (Transaction OuterVerifier OuterConstraintChecker).
Abbreviation RBlock := (Block OuterVerifier OuterConstraintChecker).
Abbreviation runtime_look s := (@utxo_at _ _ _ OuterVerifier verifier_codec s).
Implicit Types (s : storage) (b : RBlock) (now : u64).

(** The author's clock has moved on since the block. *)
Definition in_time b now : Prop :=
  ∀ stamp, clock_of b = Some stamp →
    Timestamp.block stamp = trunc 32 0 ∨
    (uval (wrapping_add (time stamp) MINIMUM_TIME_INTERVAL) ≤ uval now)%N.

Lemma next_inherent b s hd data now :
  grows b s → number hd = wrapping_add (number (header b)) (trunc 32 1) →
  authors data b now → in_time b now →
  ∃ prev, inherent_extrinsics data (opened hd s) =
      Ret [runtime_timestamp prev now (number hd)] (opened hd s) ∧
    (runtime_look s (out_ref (runtime_timestamp prev now (number hd)) 0) = None →
     apply_tuxedo_transaction (runtime_timestamp prev now (number hd)) (opened hd s) =
     Ret tt (storage_apply (opened hd s) (runtime_timestamp prev now (number hd)))).
Proof.
  intros [(prev & out & stamp & Ho & Hh & Hu & Hs & Hb) _]%grows_clocked Hn [Hp Hnow] Ht.
  exists prev. split.
  - apply (runtime_inherents_run _ b); [done..|apply height_opened].
  - intros Hnew. apply (timestamp_applies prev now (number hd) (opened hd s) out stamp).
    + apply height_opened.
    + by rewrite look_opened.
    + done.
    + split; [done|]. split; [by cbn; rewrite Hb, Hn|]. apply Ht. unfold clock_of.
      rewrite Ho. cbn. by rewrite Hh.
    + by rewrite look_opened.
Qed.

Lemma clock_of_opening prev now h l b :
  extrinsics b = runtime_timestamp prev now h :: l → clock_of b = Some (mk_timestamp now h).
Proof.
  intros E. unfold clock_of, opening_inherents. rewrite E. cbn. unfold timestamp_of. cbn [payload].
  by rewrite extract_from.
Qed.

Lemma opening_single prev now h (l : list RTx) :
  Forall (λ tx : RTx, is_inherent (checker tx) = false) l →
  opening_inherents (runtime_timestamp prev now h :: l) = [runtime_timestamp prev now h] ∧
  inherents_first (runtime_timestamp prev now h :: l).
Proof.
  intros Hl. assert (opening_inherents l = []) as E.
  { destruct Hl as [|tx l Htx _]; [done|]. unfold opening_inherents. cbn [take_while]. by rewrite Htx. }
  unfold inherents_first, opening_inherents in *. cbn [take_while]. by rewrite E.
Qed.

(** Importers whose clock is not too far behind find nothing wrong. *)
Lemma next_checked prev now h (l : list RTx) b data local :
  extrinsics b = runtime_timestamp prev now h :: l →
  Forall (λ tx : RTx, is_inherent (checker tx) = false) l → timestamp_data data = Value local →
  (uval local + uval MAX_DRIFT < 2 ^ 64)%N → (uval now ≤ uval local + uval MAX_DRIFT)%N →
  ∃ results, executive_check_inherents b data = Value results ∧ fatal_error results = false.
Proof.
  intros E Hl Hd Hlt Hnow. unfold executive_check_inherents. rewrite E.
  rewrite (proj1 (opening_single prev now h l Hl)).
  destruct (outer_check_run data (tx_id prev) now h local Hd Hlt) as (results & Hr & Hf).
  exists results. split; [done|]. by apply Hf.
Qed.

(** C9: The chain never stalls.  Take any block of a chain that grew from the
    development genesis by blocks importers accept, whatever transactions these
    hold, and a node that knows the block and whose clock has moved on.  The data
    its service provides makes the runtime create one inherent; the inherent
    applies, unless its own output reference is taken; and with any transactions
    of the pool that apply after it, it makes a block that is authored and carries
    the node's time.  The chain grows by that block: it executes from the same
    state, and every importer whose clock is not more than the drift behind finds
    nothing wrong with its inherents. *)
Theorem chain_never_stalls b s hd slot_duration now hash signed :
  grows b s → (∀ t, is_Some (decode_value (A := H256) (storage_root V1 t))) →
  client_block hash = Ok (Some signed) → reads_as (signed_block signed) b →
  number hd = wrapping_add (number (header b)) (trunc 32 1) → in_time b now →
  (uval now + uval MAX_DRIFT < 2 ^ 64)%N →
  ∃ providers data tx, node_data_providers slot_duration now hash = Ok providers ∧
    create_inherent_data providers = Ok data ∧
    inherent_extrinsics data (opened hd s) = Ret [tx] (opened hd s) ∧
    (runtime_look s (out_ref tx 0) = None → ∃ s1,
     apply_tuxedo_transaction tx (opened hd s) = Ret tt s1 ∧
     ∀ l s2, Forall (λ tx : RTx, is_inherent (checker tx) = false) l → apply_all l s1 = Ret tt s2 →
     ∃ b' s', extrinsics b' = tx :: l ∧ author_block hd (tx :: l) s = Ret (header b') s' ∧
       clock_of b' = Some (mk_timestamp now (number hd)) ∧ grows b' s' ∧
       ∀ local hash', (uval local + uval MAX_DRIFT < 2 ^ 64)%N →
         (uval now ≤ uval local + uval MAX_DRIFT)%N →
         ∃ providers data results, node_import_providers slot_duration local hash' = Ok providers ∧
           create_inherent_data providers = Ok data ∧
           executive_check_inherents b' data = Value results ∧ fatal_error results = false ∧
           execute_block b' s = Ret tt s').
Proof.
  intros Hg Hroot Hc Hread Hn Ht Hnow.
  destruct (node_data_authors slot_duration now hash signed b Hc Hread)
    as (providers & data & Hp & Hd & Ha).
  destruct (next_inherent b s hd data now Hg Hn Ha Ht) as (prev & Hi & Happ).
  exists providers, data, (runtime_timestamp prev now (number hd)).
  split; [done|]. split; [done|]. split; [done|]. intros Hnew. eexists. split; [by apply Happ|].
  intros l s2 Hl Hs2. set (tx := runtime_timestamp prev now (number hd)) in *.
  assert (apply_all (tx :: l) (opened hd s) = Ret tt s2) as Hall.
  { unfold apply_all. cbn [for_each]. rewrite bind_run, Happ; done. }
  destruct (grows_clocked b s Hg) as [_ Hx].
  destruct (opening_single prev now (number hd) l Hl) as [Hopen Hfirst].
  destruct (applied_block hd (tx :: l) s s2 Hx Hfirst Hall (Hroot _))
    as (b' & s' & Eb & Enum & _ & Hauth & Hexec).
  exists b', s'. split; [done|]. split; [done|]. split; [by eapply clock_of_opening|]. split.
  - destruct (node_import_time slot_duration now hash) as (ps & d & _ & _ & Hdt).
    destruct (next_checked prev now (number hd) l b' d now Eb Hl Hdt) as (results & Hres & Hfatal);
      [done|lia|].
    eapply grows_import; [exact Hg|by rewrite Enum|exact Hres|done|done].
  - intros local hash' Hlt Hle.
    destruct (node_import_time slot_duration local hash') as (ps' & d' & Hps & Hd' & Hdt').
    destruct (next_checked prev now (number hd) l b' d' local Eb Hl Hdt')
      as (results' & Hres' & Hfatal'); [done|done|].
    by exists ps', d', results'.
Qed.
End next.

(** ** Witnesses *)

Module Witnesses.
Import NodeSample.

(** The genesis of the development chain, and the header of the first block. *)
Definition genesis_list : list RTx := genesis_clock :: endowments.
Definition genesis_header : Header := mk_header H256_zero (trunc 32 0) H256_zero H256_zero tt.
Definition genesis_state : storage :=
  match build genesis_list ∅ with Ret _ s => s | _ => ∅ end.
Definition first_header : Header := mk_header H256_zero (trunc 32 1) H256_zero H256_zero tt.

Definition genesis_opaque : OpaqueBlock := mk_opaque_block genesis_header genesis_list.

#[local] Instance genesis_node : NodeLibraries := client_of (λ _, Some genesis_opaque) no_mock.
#[local] Instance genesis_node_laws : NodeLaws slot_name := client_laws _ _.
Definition six_seconds : SlotDuration := trunc 64 6000 : u64.

Definition first_stamp : RTx :=
  runtime_timestamp genesis_clock (trunc 64 9000) (trunc 32 1).

Lemma chain_never_stalls_witness :
  ∃ b s (tx : RTx), extrinsics b = [tx] ∧ grows b s ∧
    clock_of b = Some (mk_timestamp (trunc 64 9000) (trunc 32 1)).
Proof.
  destruct (chain_never_stalls (mk_block genesis_header genesis_list)
    (delete EXTRINSIC_KEY genesis_state) first_header six_seconds (trunc 64 9000) H256_zero
    genesis_opaque) as (ps & data & tx & Hps & Hdata & Hi & Hnext).
  - apply (grows_genesis (mk_block genesis_header genesis_list) ∅); by_vm.
  - intros t. by eexists.
  - done.
  - unfold reads_as. by_vm.
  - by_vm.
  - intros stamp Hs. left. vm_compute in Hs. by injection Hs as <-.
  - done.
  - injection Hps as <-. vm_compute in Hdata. injection Hdata as <-.
    match type of Hi with inherent_extrinsics ?d ?s = _ =>
      assert (inherent_extrinsics d s = Ret [first_stamp] s) as E end.
    { apply (runtime_inherents_run _ (mk_block genesis_header genesis_list) genesis_clock); by_vm. }
    rewrite E in Hi. assert (tx = first_stamp) as -> by congruence. clear E Hi.
    destruct Hnext as (s1 & _ & Hnext); [by_vm|].
    destruct (Hnext [] s1) as (b & s & Hb & _ & Hc & Hg & _); [constructor|done|].
    eexists b, s, _. split; [exact Hb|]. split; [exact Hg|exact Hc].
Defined.
End Witnesses.
