(* ===== verification/WalletCoins.v ===== *)
(** * WalletCoins: coin selection and balances

    What the wallet selects and adds up, as facts about the finite map it holds. *)

From S2P Require Import Prelude Effects Scale Types Checker UtxoSet CheckerLaws Executive.
From S2P Require Import Verifiers ExecutiveFacts Ledger Blocks Supply Money Amoeba Timestamp.
From S2P Require Import Aggregator TemplateRuntime RuntimeSamples RuntimeFacts.
From S2P Require Import Wallet WalletRpc WalletFacts WalletSpend WalletMain WalletStrings.
From S2P Require Import WalletSamples.

(** ** Selecting coins *)

Section selection.
Context `{RuntimeLaws, Sled, !SledLaws, Opaque, !OpaqueCodecs} {C : Type} `{!ConstraintChecker C}.
#[local] Existing Instances verifier_codec checker_codec.
Implicit Types (U S : owned_coins) (o : OutputRef) (l : list (OutputRef * (H256 * u128)))
  (bh bl ts : tree).

Definition coins_worth l : N := sumN (map (λ p, uval p.2.2) l).
(** All that a wallet holds. *)
Definition holdings U : N := coins_worth (map_to_list U).

Definition encode_entry (p : OutputRef * (H256 * u128)) : bytes * bytes :=
  (scale_encode p.1, scale_encode p.2).

Lemma worth_app l1 l2 : coins_worth (l1 ++ l2) = (coins_worth l1 + coins_worth l2)%N.
Proof. unfold coins_worth. rewrite map_app. apply sumN_app. Qed.

Lemma worth_perm l1 l2 : l1 ≡ₚ l2 → coins_worth l1 = coins_worth l2.
Proof. intros Hp. apply sumN_proper. by apply fmap_Permutation. Qed.

(** The iterator goes through the entries of the map in some order. *)
Lemma iter_entries U :
  ∃ l, tree_iter (encode_tree U) = map encode_entry l ∧ l ≡ₚ map_to_list U.
Proof.
  assert (tree_iter (encode_tree U) ≡ₚ map encode_entry (map_to_list U)) as Hp.
  { rewrite tree_iter_all. unfold encode_tree. rewrite (map_to_list_kmap scale_encode).
    rewrite map_to_list_fmap, <-list_fmap_compose. reflexivity.
    }
  apply Permutation_map_inv in Hp as (l & -> & Hl). by exists l.
Qed.

(** The coins a selection takes from a list: the shortest prefix that reaches the
    target. *)
Fixpoint choose (target acc : N) l : option (list OutputRef) :=
  if N.ltb acc target then
    match l with
    | [] => None
    | p :: l => cons p.1 <$> choose target (acc + uval p.2.2) l
    end
  else Some [].

Lemma choose_spec target acc l :
  match choose target acc l with
  | None => (acc + coins_worth l < target)%N
  | Some refs => ∃ l1 l2, l = l1 ++ l2 ∧ refs = map fst l1 ∧ (target ≤ acc + coins_worth l1)%N ∧
      ∀ l0 p, l1 = l0 ++ [p] → (acc + coins_worth l0 < target)%N
  end.
Proof.
  revert acc. induction l as [|p l IH]; intros acc; cbn [choose];
    destruct (N.ltb_spec acc target) as [Hlt|Hge].
  - by rewrite N.add_0_r.
  - exists [], []. rewrite N.add_0_r. split; [done|]. split; [done|]. split; [done|].
    by intros [].
  - specialize (IH (acc + uval p.2.2)%N).
    assert (∀ l, coins_worth (p :: l) = uval p.2.2 + coins_worth l)%N as Hw by done.
    destruct (choose _ _ l) as [refs|]; cbn [fmap option_fmap option_map]; [|rewrite Hw; lia].
    destruct IH as (l1 & l2 & -> & -> & Hge & Hmin). exists (p :: l1), l2.
    split; [done|]. split; [done|]. rewrite Hw. split; [lia|].
    intros [|q l0] r E; [change (coins_worth []) with 0%N; lia|]. injection E as <- E.
    rewrite Hw. specialize (Hmin _ _ E). lia.
  - exists [], (p :: l). rewrite N.add_0_r. split; [done|]. split; [done|]. split; [done|].
    by intros [].
Qed.

Lemma keep_until_run (target total : u128) keepers l db :
  (uval total + coins_worth l < 2 ^ 128)%N →
  keep_until target total keepers (map encode_entry l) db =
  Ret (app keepers <$> choose (uval target) (uval total) l) db.
Proof.
  revert total keepers. induction l as [|[o [k a]] l IH]; intros total keepers Hl;
    cbn [keep_until map choose encode_entry]; destruct (N.ltb _ _); try done.
  - cbn. by rewrite app_nil_r.
  - cbn [fst snd]. rewrite bind_run, decode_or_encode. cbn [mret M_ret].
    rewrite bind_run, decode_or_encode. cbn [mret M_ret].
    assert (coins_worth ((o, (k, a)) :: l) = uval a + coins_worth l)%N as Hw by done.
    assert (uval (wrapping_add total a) = uval total + uval a)%N as E
      by (unfold wrapping_add; rewrite uval_trunc by lia; done).
    rewrite IH, E by lia. destruct (choose _ _ l); [|done]. cbn. by rewrite <-app_assoc.
  - cbn. by rewrite app_nil_r.
Qed.

Lemma get_arbitrary_run U S bh bl ts (target : u128) :
  (holdings U < 2 ^ 128)%N →
  ∃ l, l ≡ₚ map_to_list U ∧
    get_arbitrary_unspent_set target (db_of bh bl (U, S) ts) =
    Ret (choose (uval target) 0 l) (db_of bh bl (U, S) ts).
Proof.
  intros Hu. destruct (iter_entries U) as (l & Hi & Hl). exists l. split; [done|].
  unfold get_arbitrary_unspent_set. rewrite bind_gets. cbn [unspent db_of fst]. rewrite Hi.
  rewrite keep_until_run by (rewrite (worth_perm _ _ Hl); by rewrite N.add_0_l).
  change (uval (trunc 128 0)) with 0%N. by destruct (choose _ _ l).
Qed.

(** What is chosen from the coins of a wallet. *)
Lemma choose_coins U l target :
  l ≡ₚ map_to_list U →
  match choose target 0 l with
  | None => (holdings U < target)%N
  | Some refs => (target ≤ holdings U)%N ∧ NoDup refs ∧
      ∃ l, refs = map fst l ∧ Forall (λ p, U !! p.1 = Some p.2) l ∧ (target ≤ coins_worth l)%N ∧
        (coins_worth l ≤ holdings U)%N ∧ ∀ l0 p, l = l0 ++ [p] → (coins_worth l0 < target)%N
  end.
Proof.
  intros Hl. pose proof (choose_spec target 0 l) as Hc. unfold holdings. rewrite <-(worth_perm _ _ Hl).
  destruct (choose _ _ l) as [refs|]; [|done].
  destruct Hc as (l1 & l2 & -> & -> & Hge & Hmin). rewrite worth_app. split; [lia|].
  assert (NoDup (map fst (l1 ++ l2))) as Hd.
  { rewrite (fmap_Permutation fst _ _ Hl). apply NoDup_fst_map_to_list. }
  rewrite map_app in Hd. apply NoDup_app in Hd as (Hd & _). split; [done|].
  exists l1. split; [done|]. split; [|split; [exact Hge|split; [lia|exact Hmin]]].
  apply Forall_forall. intros [o a] Hin. apply elem_of_map_to_list. rewrite <-Hl. set_solver.
Qed.

(** C24: Coin selection. When the values of the wallet's unspent outputs do not add
    up to more than a [u128], selecting coins for a target never errors and
    leaves the database alone.  It answers nothing exactly when all the coins
    together are worth less than the target; otherwise it answers distinct
    references of unspent outputs whose values reach the target, and the last of
    them was needed. *)
Theorem coin_selection U S bh bl ts (target : u128) :
  (holdings U < 2 ^ 128)%N →
  ∃ r, get_arbitrary_unspent_set target (db_of bh bl (U, S) ts) = Ret r (db_of bh bl (U, S) ts) ∧
    (r = None ↔ (holdings U < uval target)%N) ∧
    ∀ refs, r = Some refs → NoDup refs ∧
      ∃ l, refs = map fst l ∧ Forall (λ p, U !! p.1 = Some p.2) l ∧ (uval target ≤ coins_worth l)%N ∧
        ∀ l0 p, l = l0 ++ [p] → (coins_worth l0 < uval target)%N.
Proof.
  intros Hu. destruct (get_arbitrary_run U S bh bl ts target Hu) as (l & Hl & ->).
  pose proof (choose_coins U l (uval target) Hl) as Hc. eexists. split; [done|].
  destruct (choose _ _ l) as [refs|]; [|split; [split; [intros _; exact Hc|done]|done]].
  destruct Hc as (Hge & Hd & l1 & -> & Hu1 & Ht & _ & Hmin). split.
  - split; [done|lia].
  - intros refs [= <-]. split; [done|]. by exists l1.
Qed.
(** What an owner has in a list of coins, and what a table of balances says. *)
Definition owns (k : H256) l : N := sumN (map (λ p, if decide (p.2.1 = k) then uval p.2.2 else 0%N) l).
Definition balance (B : gmap H256 u128) (k : H256) : N := from_option uval 0%N (B !! k).
Definition plus_coin (B : gmap H256 u128) (p : OutputRef * (H256 * u128)) : gmap H256 u128 :=
  <[p.2.1 := match B !! p.2.1 with Some old => wrapping_add old p.2.2 | None => p.2.2 end]> B.

Lemma owns_worth k l : (owns k l ≤ coins_worth l)%N.
Proof.
  unfold owns, coins_worth. induction l as [|p l IH]; cbn [map sumN]; [lia|]. case_decide; lia.
Qed.

Lemma add_balances_run l (B : gmap H256 u128) db :
  for_each (map encode_entry l) add_balance B db = Ret (fold_left plus_coin l B) db.
Proof.
  revert B. induction l as [|[o [k a]] l IH]; intros B; [done|]. cbn [map for_each fold_left].
  rewrite bind_run. unfold add_balance at 1. cbn [encode_entry snd].
  rewrite bind_run, decode_or_encode. cbn [mret M_ret]. apply IH.
Qed.

Lemma plus_coins l (B : gmap H256 u128) k :
  (balance B k + owns k l < 2 ^ 128)%N →
  balance (fold_left plus_coin l B) k = (balance B k + owns k l)%N ∧
  (is_Some (fold_left plus_coin l B !! k) ↔ is_Some (B !! k) ∨ Exists (λ p, p.2.1 = k) l).
Proof.
  revert B. induction l as [|[o [j a]] l IH]; intros B Hl.
  { rewrite Exists_nil. unfold owns. cbn. split; [lia|naive_solver]. }
  assert (owns k ((o, (j, a)) :: l) = (if decide (j = k) then uval a else 0) + owns k l)%N as E by done.
  rewrite E in Hl |- *. cbn [fold_left].
  assert (balance (plus_coin B (o, (j, a))) k = balance B k + (if decide (j = k) then uval a else 0))%N as Eb.
  { unfold balance, plus_coin in *. cbn [fst snd]. case_decide as Hj; [subst j|].
    - rewrite lookup_insert_eq. destruct (B !! k) as [old|]; cbn [from_option] in *; [|lia].
      unfold wrapping_add. rewrite uval_trunc; lia.
    - rewrite lookup_insert_ne by done. lia. }
  destruct (IH (plus_coin B (o, (j, a)))) as [IHb IHs]; [lia|].
  split; [lia|]. rewrite IHs, Exists_cons. cbn [fst snd]. unfold plus_coin. cbn [fst snd].
  rewrite lookup_insert_is_Some. destruct (decide (j = k)); naive_solver.
Qed.

(** The sum of a whole table. *)
Definition table_total (B : gmap H256 u128) : N := sumN (map (λ q, uval q.2) (map_to_list B)).

Lemma table_insert (B : gmap H256 u128) k n :
  table_total (<[k := n]> B) = (uval n + table_total (delete k B))%N.
Proof.
  unfold table_total. rewrite <-insert_delete_eq.
  rewrite (fmap_Permutation (λ q : H256 * u128, uval q.2) _ _
    (map_to_list_insert (delete k B) k n (lookup_delete_eq B k))). done.
Qed.

Lemma table_delete (B : gmap H256 u128) k :
  table_total B = (balance B k + table_total (delete k B))%N.
Proof.
  unfold balance. destruct (B !! k) as [n|] eqn:Hk; cbn [from_option].
  - rewrite <-table_insert. by rewrite insert_id.
  - by rewrite delete_id.
Qed.

Lemma plus_coins_total l (B : gmap H256 u128) :
  (table_total B + coins_worth l < 2 ^ 128)%N →
  table_total (fold_left plus_coin l B) = (table_total B + coins_worth l)%N.
Proof.
  revert B. induction l as [|p l IH]; intros B Hl; cbn [fold_left]; [by rewrite N.add_0_r|].
  assert (coins_worth (p :: l) = uval p.2.2 + coins_worth l)%N as Hw by done. rewrite Hw in *.
  assert (table_total (plus_coin B p) = table_total B + uval p.2.2)%N as E.
  { pose proof (table_delete B p.2.1) as Ht. unfold plus_coin. rewrite table_insert.
    unfold balance in Ht. destruct (B !! p.2.1) as [old|]; cbn [from_option] in Ht; [|lia].
    unfold wrapping_add. rewrite uval_trunc; lia. }
  rewrite IH, E by lia. lia.
Qed.

Lemma balances_run U S bh bl ts :
  (holdings U < 2 ^ 128)%N →
  ∃ B, get_balances (db_of bh bl (U, S) ts) = Ret B (db_of bh bl (U, S) ts) ∧
    table_total B = holdings U ∧
    ∀ k, balance B k = owns k (map_to_list U) ∧
         (is_Some (B !! k) ↔ ∃ o a, U !! o = Some (k, a)).
Proof.
  intros Hu. destruct (iter_entries U) as (l & Hi & Hl).
  unfold get_balances. rewrite bind_gets. cbn [unspent db_of fst]. rewrite Hi, add_balances_run.
  eexists. split; [done|]. split.
  { rewrite plus_coins_total; rewrite (worth_perm _ _ Hl); [done|]. by rewrite N.add_0_l. }
  intros k. assert (owns k l = owns k (map_to_list U)) as Ho by (apply sumN_proper; by apply fmap_Permutation).
  destruct (plus_coins l ∅ k) as [Hb Hs].
  { pose proof (owns_worth k l). rewrite (worth_perm _ _ Hl) in *. unfold holdings in Hu.
    unfold balance. rewrite lookup_empty. cbn [from_option]. lia. }
  rewrite Hb, Hs, lookup_empty, <-Ho. unfold balance. rewrite lookup_empty. split; [done|].
  rewrite Exists_exists. split.
  - intros [[? ?]|([o [j a]] & Hin & <-)]; [done|]. exists o, a. cbn.
    apply elem_of_map_to_list. by rewrite <-Hl.
  - intros (o & a & Hk). right. exists (o, (k, a)). split; [|done].
    rewrite Hl. by apply elem_of_map_to_list.
Qed.
Lemma wrapping_sum_exact (ns : list u128) (acc : u128) :
  (uval acc + sumN (map uval ns) < 2 ^ 128)%N →
  uval (fold_left wrapping_add ns acc) = (uval acc + sumN (map uval ns))%N.
Proof.
  revert acc. induction ns as [|x ns IH]; intros acc Hl; cbn [fold_left map sumN] in *; [lia|].
  assert (uval (wrapping_add acc x) = uval acc + uval x)%N as E
    by (unfold wrapping_add; rewrite uval_trunc by lia; done).
  rewrite IH, E by lia. lia.
Qed.

(** The balance command adds up correctly. When the values of the wallet's unspent
    outputs do not add up to more than a [u128], showing the balance leaves the
    database alone and prints one row for each owner of an unspent output, with
    the sum of the values of all the outputs of that owner, and the sum of all the
    outputs as the total. *)
Theorem show_balance_sums U S bh bl ts :
  (holdings U < 2 ^ 128)%N →
  ∃ rows total, show_balance (db_of bh bl (U, S) ts) = Ret (Balances rows total) (db_of bh bl (U, S) ts) ∧
    NoDup (map fst rows) ∧ uval total = holdings U ∧
    ∀ k, (∃ n, (k, n) ∈ rows ∧ uval n = owns k (map_to_list U)) ↔ ∃ o a, U !! o = Some (k, a).
Proof.
  intros Hu. destruct (balances_run U S bh bl ts Hu) as (B & HB & Ht & Hk).
  exists (map_to_list B), (fold_left wrapping_add (map snd (map_to_list B)) (trunc 128 0)).
  split; [unfold show_balance; by rewrite bind_run, HB|].
  split; [apply NoDup_fst_map_to_list|]. split.
  - rewrite wrapping_sum_exact; rewrite map_map;
      fold (table_total B); rewrite Ht; [done|]. by rewrite N.add_0_l.
  - intros k. destruct (Hk k) as [Hb Hs]. rewrite <-Hs. unfold balance in Hb. split.
    + intros (n & Hin%elem_of_map_to_list & _). by rewrite Hin.
    + intros [n Hn]. exists n. rewrite Hn in Hb. split; [by apply elem_of_map_to_list|done].
Qed.
End selection.

(** ** Witnesses *)

Module Witnesses.
Import WalletSample.

Definition held : OutputRef := out_ref mint_alice 0.
Definition coins_of_alice : owned_coins := {[ held := (alice, trunc 128 7) ]}.

Lemma coin_selection_witness :
  ∃ r, get_arbitrary_unspent_set (trunc 128 5) (db_of ∅ ∅ (coins_of_alice, ∅) ∅) =
    Ret r (db_of ∅ ∅ (coins_of_alice, ∅) ∅) ∧ (r = None ↔ (holdings coins_of_alice < 5)%N).
Proof.
  destruct (coin_selection coins_of_alice ∅ ∅ ∅ ∅ (trunc 128 5)) as (r & Hr & Hn & _); [by_vm|].
  exists r. split; [exact Hr|exact Hn].
Defined.

Lemma show_balance_sums_witness :
  ∃ rows total, show_balance (db_of ∅ ∅ (coins_of_alice, ∅) ∅) =
    Ret (Balances rows total) (db_of ∅ ∅ (coins_of_alice, ∅) ∅) ∧ uval total = 7%N.
Proof.
  destruct (show_balance_sums coins_of_alice ∅ ∅ ∅ ∅) as (rows & total & Hr & _ & Ht & _); [by_vm|].
  exists rows, total. split; [exact Hr|]. rewrite Ht. by_vm.
Defined.
End Witnesses.
