(* ===== verification/WalletSpendFacts.v ===== *)
(** * WalletSpendFacts: the wallet's transactions apply

    The transactions the wallet builds are accepted by the node whose ledger the
    wallet tracks; the exceptions are stated too. *)

From S2P Require Import Prelude Effects Scale Types Checker UtxoSet CheckerLaws Executive.
From S2P Require Import Verifiers ExecutiveFacts Ledger Blocks Supply Money Amoeba Timestamp.
From S2P Require Import Aggregator TemplateRuntime RuntimeSamples RuntimeFacts.
From S2P Require Import Wallet WalletRpc WalletFacts WalletSpend WalletMain WalletStrings.
From S2P Require Import WalletSamples WalletCoins.

(** ** Spending *)

(** What the keystore promises: it signs for the keys it has, and what it signs
    verifies. *)
Class KeystoreLaws `{RuntimeParameters, !LocalKeystore} : Prop := {
  has_key_signs k n m : has_key k = true → ∃ sig, sr25519_sign n KEY_TYPE k m = Ok (Some sig);
  sign_verifies n k m sig :
    sr25519_sign n KEY_TYPE k m = Ok (Some sig) → sr25519_verify sig m k = true;
}.

Section spending.
Context `{RuntimeLaws, Sled, !SledLaws, Opaque, !OpaqueCodecs, HexCrate, !HexLaws, !NodeClient}.
Context `{!LocalKeystore, !KeystoreLaws, !MoneyLaws, !LawfulCodec Timestamp}.
Context `{!LawfulCodec (Redeemer OuterVerifier)}.
#[local] Existing Instances verifier_codec checker_codec.
Abbreviation RTx := (Transaction OuterVerifier OuterConstraintChecker).
Abbreviation ROut := (Output OuterVerifier).
Abbreviation node_ledger s := (@ledger_of _ _ _ OuterVerifier verifier_codec s).
Implicit Types (s : storage) (U S : owned_coins) (o : OutputRef) (tx : RTx) (db : WalletDb)
  (l : list (OutputRef * (H256 * u128))).

(** The node answers with what is in a storage. *)
Definition serves_storage s : Prop := ∀ o,
  state_getStorage (hex_encode (scale_encode o)) =
  Ok ((λ v, "0x" ++ hex_encode v)%string <$> s !! scale_encode o).

Lemma fetch_run s o (u : ROut) db :
  serves_storage s → utxo_at s o = Some u → fetch_storage o db = Ret u db.
Proof.
  intros Hs Hu. unfold utxo_at in Hu. unfold fetch_storage. rewrite Hs.
  destruct (s !! scale_encode o) as [v|]; [|done]. cbn [mbind option_bind] in Hu.
  cbn [fmap option_fmap option_map]. rewrite bind_lift_ok, bind_ok_or.
  rewrite strip_prefixed by apply hex_boundary, hex_chars. cbn [lift_partial].
  rewrite bind_mret, hex_decode_encode, bind_ok_or. by rewrite Hu.
Qed.

(** A coin that the wallet tracks, as the node holds it. *)
Definition holds s (p : OutputRef * (H256 * u128)) : Prop :=
  ∃ u : ROut, utxo_at s p.1 = Some u ∧ verifier u = OuterSr25519Signature (mk_sr25519 p.2.1) ∧
    extract (Coin token_id) (payload u) = Ok (mk_coin p.2.2) ∧ has_key p.2.1 = true.

Lemma tracked_holds s p :
  tracked keystore_filter (node_ledger s) !! p.1 = Some p.2 → holds s p.
Proof.
  unfold tracked. rewrite lookup_omap. intros (u & Hu & Ho)%bind_Some. exists u.
  apply owned_coin in Ho as (_ & Hf & k & [c] & Hv & Hx & ->). rewrite Hv in Hf.
  split; [by rewrite represents_ledger_of|]. by rewrite Hv, Hx.
Qed.

Lemma coin_from_storage_run s p db :
  serves_storage s → holds s p →
  get_coin_from_storage p.1 db =
  Ret (mk_coin p.2.2, OuterSr25519Signature (mk_sr25519 p.2.1)) db.
Proof.
  intros Hs (u & Hu & Hv & Hx & _). unfold get_coin_from_storage.
  rewrite bind_run, (fetch_run s _ u) by done. by rewrite Hx, Hv.
Qed.

Definition unsigned (p : OutputRef * (H256 * u128)) : Input := mk_input p.1 default_redemption.

Lemma push_inputs_run s l acc db :
  serves_storage s → Forall (holds s) l →
  for_each (map fst l) push_input acc db = Ret (acc ++ map unsigned l) db.
Proof.
  intros Hs. revert acc. induction l as [|p l IH]; intros acc; [by rewrite app_nil_r|].
  intros [Hp Hl]%Forall_cons. cbn [map for_each]. rewrite bind_run. unfold push_input at 1.
  rewrite bind_run, (coin_from_storage_run s) by done. cbn [mret M_ret].
  rewrite IH by done. by rewrite <-app_assoc.
Qed.

Definition sr25519_redeemer (sig : Signature) : Redeemer OuterVerifier := RedeemSr25519Signature sig.

(** The signed input of a coin: the [call]-th signature of its owner. *)
Definition signed_as (m : bytes) (call : nat) (p : OutputRef * (H256 * u128)) (i : Input) : Prop :=
  ∃ sig, sr25519_sign call KEY_TYPE p.2.1 m = Ok (Some sig) ∧
    i = mk_input p.1 (Redemption (scale_encode (sr25519_redeemer sig))).

Lemma sign_inputs_run s m l n acc db :
  serves_storage s → Forall (holds s) l →
  ∃ signed,
    for_each (zip (seq n (List.length l)) (map unsigned l)) (sign_input m) acc db =
      Ret (acc ++ signed) db ∧
    Forall2 (λ q i, signed_as m q.1 q.2 i) (zip (seq n (List.length l)) l) signed.
Proof.
  intros Hs. revert n acc. induction l as [|p l IH]; intros n acc.
  { intros _. exists []. rewrite app_nil_r. by split. }
  intros [Hp Hl]%Forall_cons. pose proof Hp as (u & Hu & Hv & _ & Hk).
  destruct (has_key_signs p.2.1 n m Hk) as [sig Hsig].
  set (i := mk_input p.1 (Redemption (scale_encode (sr25519_redeemer sig)))).
  destruct (IH (Datatypes.S n) (acc ++ [i])) as (signed & Hr & Hf); [done|].
  exists (i :: signed). cbn [map List.length seq zip zip_with for_each].
  split; [|constructor; [by exists sig|done]].
  rewrite bind_run. unfold sign_input at 1. cbn [output_ref unsigned].
  rewrite bind_run, (fetch_run s _ u) by done. rewrite Hv. unfold sign_with. rewrite Hsig.
  change (acc ++ i :: signed) with (acc ++ [i] ++ signed). rewrite app_assoc. apply Hr.
Qed.

(** ** The transaction that is built *)

Definition spend_tx (args : SpendArgs) (signed : list Input) : RTx :=
  mk_transaction signed [] (spend_outputs args) (OuterMoney Spend).

Lemma spend_outputs_total args :
  total token_id (map payload (spend_outputs args)) = sumN (map uval (output_amount args)).
Proof.
  unfold total, spend_outputs. rewrite !map_map. f_equal. apply map_ext. intros n.
  cbn [payload]. unfold coin_value, coin_of. by rewrite extract_from.
Qed.

Lemma spend_outputs_coins args :
  Forall (λ n : u128, 0 < uval n)%N (output_amount args) →
  Forall (positive_coin token_id) (map payload (spend_outputs args)).
Proof.
  unfold spend_outputs. rewrite !Forall_map. intros Hn. eapply Forall_impl; [exact Hn|].
  intros n Hp. cbn [payload]. exists (uval n). unfold coin_of. by rewrite extract_from.
Qed.

(** The executive sees each signed input as redeemed. *)
Lemma signed_inspect s h m call p (i : Input) :
  height_at s = Some h → holds s p → signed_as m call p i →
  ∃ d, inspect (V := OuterVerifier) (utxo_at s) (height_at s) m i = Redeemed d ∧
    coin_of token_id d = Some (uval p.2.2).
Proof.
  intros Hh (u & Hu & Hv & Hx & _) (sig & Hsig & ->). exists (payload u).
  unfold inspect. cbn [output_ref redeemer]. rewrite Hu, decode_value_encode, Hh, Hv.
  cbn [verify outer_verifier outer_verify]. unfold verify_arm. cbn.
  unfold sr25519_signature_verify. cbn. rewrite (sign_verifies _ _ _ _ Hsig). split; [done|].
  unfold coin_of. by rewrite Hx.
Qed.

(** The signed inputs, whatever the number of the call that signed each. *)
Definition signs (m : bytes) l (signed : list Input) : Prop :=
  Forall2 (λ p i, ∃ call, signed_as m call p i) l signed.

Lemma signed_signs m l n signed :
  Forall2 (λ q i, signed_as m q.1 q.2 i) (zip (seq n (List.length l)) l) signed → signs m l signed.
Proof.
  intros Hs. unfold signs. rewrite <-(snd_zip (seq n (List.length l)) l) by (by rewrite length_seq).
  apply Forall2_fmap_l. eapply Forall2_impl; [exact Hs|]. intros [c p] i. by exists c.
Qed.

Lemma signs_strip args m l signed :
  signs m l signed → strip (spend_tx args signed) = spend_tx args (map unsigned l).
Proof.
  intros Hs. unfold strip, spend_tx. cbn. f_equal.
  induction Hs as [|p i l signed (c & sig & _ & ->) _ IH]; [done|]. cbn. by rewrite IH.
Qed.

Lemma signs_statuses s h m l signed :
  height_at s = Some h → Forall (holds s) l → signs m l signed →
  let sts := map (inspect (V := OuterVerifier) (utxo_at s) (height_at s) m) signed in
  Forall (λ st, spendable st = true) sts ∧ omap evicted_data sts = [] ∧
  map (coin_of token_id) (omap redeemed_data sts) = map (λ p, Some (uval p.2.2)) l.
Proof.
  intros Hh Hl Hs. induction Hs as [|p i l signed (c & Hc) _ IH]; [done|].
  apply Forall_cons in Hl as [Hp Hl]. destruct (IH Hl) as (IH1 & IH2 & IH3).
  destruct (signed_inspect _ _ _ _ _ _ Hh Hp Hc) as (d & Hd & Hcoin). cbv zeta in *.
  cbn [map]. rewrite Hd. split; [by constructor|]. split; [exact IH2|].
  cbn [omap list_omap redeemed_data map]. by rewrite Hcoin, <-IH3.
Qed.

Lemma coins_total ds l :
  map (coin_of token_id) ds = map (λ p, Some (uval p.2.2)) l →
  Forall (is_coin token_id) ds ∧ total token_id ds = coins_worth l.
Proof.
  unfold total, coins_worth, coin_value, is_coin. revert ds.
  induction l as [|p l IH]; intros [|d ds] E; try done.
  cbn [map] in E. injection E as Hd E. destruct (IH _ E) as [IH1 IH2]. cbn [map sumN].
  rewrite Hd, IH2. split; [|done]. constructor; [by eexists|done].
Qed.

(** The node accepts what is built from coins it holds that cover the outputs. *)
Lemma built_applies s h args l signed :
  height_at s = Some h → Forall (holds s) l → l ≠ [] →
  (coins_worth l < 2 ^ 128)%N → (sumN (map uval (output_amount args)) ≤ coins_worth l)%N →
  Forall (λ n : u128, 0 < uval n)%N (output_amount args) →
  signs (scale_encode (spend_tx args (map unsigned l))) l signed → NoDup signed →
  (∀ i, i < List.length (spend_outputs args) →
     utxo_at (V := OuterVerifier) s (out_ref (spend_tx args signed) i) = None) →
  apply_tuxedo_transaction (spend_tx args signed) s =
  Ret tt (storage_apply s (spend_tx args signed)).
Proof.
  intros Hh Hl Hne Hw Hle Hpos Hsig Hd Hout.
  pose proof (signs_strip args _ _ _ Hsig) as Hstrip. rewrite <-Hstrip in Hsig.
  destruct (signs_statuses _ _ _ _ _ Hh Hl Hsig) as (Hsp & Hev & Hco).
  destruct (coins_total _ _ Hco) as [Hcoins Htotal]. apply apply_ret.
  split; [by split|].
  exists (trunc 64 (N.min (coins_worth l - sumN (map uval (output_amount args))) (2 ^ 64 - 1))), s.
  split; [|done]. unfold check_all, inputs_of, evictions_of, statuses.
  cbn [checker spend_tx inputs outputs check outer_checker outer_check]. unfold check_arm.
  apply catch_err_ret. cbn [check simple_constraint_checker simple_check money_checker].
  apply lift_result_ret. split; [|done]. apply spend_ok.
  rewrite Hev, spend_outputs_total. cbn [inputs spend_tx] in Htotal. rewrite Htotal.
  split; [done|]. split.
  { intros E. cbn [inputs spend_tx] in Hco. rewrite E in Hco. by destruct l. }
  split; [done|]. split; [by apply spend_outputs_coins|]. split; [done|]. split; [done|].
  rewrite uval_trunc; [done|]. lia.
Qed.
Lemma created_refs_run args signed db :
  created_refs (spend_tx args signed) db =
  Ret (map (λ q, (out_ref (spend_tx args signed) q.1, q.2)) (enumerate (output_amount args))) db.
Proof.
  set (tx := spend_tx args signed). unfold created_refs.
  assert (∀ amounts n acc,
    for_each (zip (seq n (List.length amounts))
      (map (λ amount, mk_output (typed_from (coin_new (ID := token_id) amount))
              (OuterSr25519Signature (mk_sr25519 (recipient args)))) amounts))
      (λ created '(i, output),
         bind (lift_result (map_err (λ _, "extracting failed") (extract (Coin token_id) (payload output))))
           (λ coin, mret (created ++ [(mk_output_ref (hash_of (A := bytes) (scale_encode tx))
                                         (trunc 32 (N.of_nat i)), value coin)]))) acc db =
    Ret (acc ++ map (λ q, (out_ref tx q.1, q.2)) (zip (seq n (List.length amounts)) amounts)) db) as Hf.
  { induction amounts as [|a amounts IH]; intros n acc; [cbn; by rewrite app_nil_r|].
    cbn [map List.length seq zip zip_with for_each payload]. rewrite extract_from.
    rewrite bind_run. cbn [map_err]. rewrite bind_lift_ok. cbn [mret M_ret].
    rewrite IH, <-app_assoc. done. }
  specialize (Hf (output_amount args) 0 []). unfold enumerate at 1.
  cbn [outputs tx spend_tx]. unfold spend_outputs at 1. rewrite length_map. exact Hf.
Qed.

(** Everything after the selection. *)
Lemma spend_run s args l db :
  serves_storage s → Forall (holds s) l → select_inputs args db = Ret (map fst l) db →
  ∃ signed, let tx := spend_tx args signed in
    spend_coins_helper (λ c, c) args db =
      Ret (tx, map (λ q, (out_ref tx q.1, q.2)) (enumerate (output_amount args))) db ∧
    Forall2 (λ q i, signed_as (scale_encode (spend_tx args (map unsigned l))) q.1 q.2 i)
      (enumerate l) signed.
Proof.
  intros Hs Hl Hsel.
  destruct (sign_inputs_run s (scale_encode (spend_tx args (map unsigned l))) l 0 [] db Hs Hl)
    as (signed & Hr & Hf).
  exists signed. split; [|exact Hf]. unfold spend_coins_helper.
  rewrite bind_run, Hsel, bind_run, (push_inputs_run s) by done.
  cbn [app] in *. unfold enumerate at 1. rewrite length_map, bind_run.
  change (mk_transaction (map unsigned l) [] (spend_outputs args) (OuterMoney Spend))
    with (spend_tx args (map unsigned l)). rewrite Hr.
  rewrite bind_run. change (mk_transaction signed [] (spend_outputs args) (OuterMoney Spend))
    with (spend_tx args signed). by rewrite created_refs_run.
Qed.
Lemma signs_distinct m l signed : signs m l signed → NoDup (map fst l) → NoDup signed.
Proof.
  intros Hs Hd. apply (NoDup_fmap_1 output_ref).
  enough (output_ref <$> signed = map fst l) as -> by done. clear Hd.
  induction Hs as [|p i l signed (c & sig & _ & ->) _ IH]; [done|]. cbn. by rewrite <-IH.
Qed.

(** The references the wallet prints hold the coins asked for. *)
Lemma created_hold s args signed :
  (N.of_nat (List.length (output_amount args)) ≤ 2 ^ 32)%N →
  let tx := spend_tx args signed in
  Forall (λ q, ∃ out : ROut, utxo_at (storage_apply s tx) q.1 = Some out ∧
      verifier out = OuterSr25519Signature (mk_sr25519 (recipient args)) ∧
      extract (Coin token_id) (payload out) = Ok (mk_coin q.2))
    (map (λ q, (out_ref tx q.1, q.2)) (enumerate (output_amount args))).
Proof.
  intros Hn tx. rewrite Forall_map. apply Forall_forall. intros [i n] Hi%elem_of_enumerate.
  cbn [fst snd]. exists (mk_output (typed_from (coin_new (ID := token_id) n))
    (OuterSr25519Signature (mk_sr25519 (recipient args)))).
  split; [|split; [done|exact (extract_from _)]].
  assert (represents (storage_apply s tx) (ledger_apply (node_ledger s) tx)) as ->
    by apply represents_apply, represents_ledger_of.
  apply ledger_apply_output; cbn [outputs tx spend_tx]; unfold spend_outputs.
  - by rewrite length_map.
  - rewrite list_lookup_fmap, Hi. done.
Qed.

(** ** Selecting the inputs of a spend *)

Definition asked args : N := sumN (map uval (output_amount args)).

Lemma total_output_exact args : (asked args < 2 ^ 128)%N → uval (total_output_amount args) = asked args.
Proof.
  unfold asked, total_output_amount. intros Hl. rewrite wrapping_sum_exact; [done|].
  by rewrite N.add_0_l.
Qed.

(** What the wallet tracks, at the state the node has reached. *)
Definition tracking s : owned_coins := tracked keystore_filter (node_ledger s).

Lemma tracking_holds s l :
  Forall (λ p, tracking s !! p.1 = Some p.2) l → Forall (holds s) l.
Proof. intros Hl. eapply Forall_impl; [exact Hl|]. intros p. apply tracked_holds. Qed.

(** Without named inputs, the coins chosen for the whole amount. *)
Lemma select_auto args U S bh bl ts :
  input args = [] → (0 < asked args < 2 ^ 128)%N → (holdings U < 2 ^ 128)%N →
  let db := db_of bh bl (U, S) ts in
  ∃ l, l ≡ₚ map_to_list U ∧
    select_inputs args db =
    match choose (asked args) 0 l with
    | Some refs => Ret refs db
    | None => Throw "Not enough value in database to construct transaction" db
    end.
Proof.
  intros Hi [Hpos Ha] Hu db.
  destruct (get_arbitrary_run U S bh bl ts (total_output_amount args) Hu) as (l & Hl & Hr).
  fold db in Hr. rewrite (total_output_exact _ Ha) in Hr. exists l. split; [done|].
  unfold select_inputs. rewrite Hi. cbn [for_each]. rewrite bind_mret.
  change (uval (trunc 128 0)) with 0%N. rewrite (total_output_exact _ Ha).
  replace (N.ltb 0 (asked args)) with true by (symmetry; by apply N.ltb_lt).
  assert (wrapping_sub (total_output_amount args) (trunc 128 0) = total_output_amount args) as ->.
  { apply uint_eq. rewrite wrapping_sub_exact by apply N.le_0_l. apply N.sub_0_r. }
  rewrite bind_run, Hr. by destruct (choose _ _ l).
Qed.

(** C12: What the wallet spends, the node accepts. The wallet tracks a node's ledger
    and spends without naming inputs: nothing overflows, every output has a value
    and there is at least one.  When its coins do not cover the outputs, the
    wallet errors and leaves its database alone.  Otherwise it submits a
    transaction with exactly the outputs asked for, signed with the keys of its
    keystore, and unless an output's reference already exists the node applies
    it; each reference the wallet prints then holds a coin of the printed value,
    locked by the recipient's key. *)
Theorem spend_applies s h args S bh bl ts :
  serves_storage s → height_at s = Some h →
  input args = [] → output_amount args ≠ [] →
  Forall (λ n : u128, 0 < uval n)%N (output_amount args) →
  (N.of_nat (List.length (output_amount args)) ≤ 2 ^ 32)%N →
  (asked args < 2 ^ 128)%N → (holdings (tracking s) < 2 ^ 128)%N →
  let db := db_of bh bl (tracking s, S) ts in
  ((holdings (tracking s) < asked args)%N → spend_coins_helper (λ c, c) args db =
     Throw "Not enough value in database to construct transaction" db) ∧
  ((asked args ≤ holdings (tracking s))%N → ∃ tx created,
     spend_coins_helper (λ c, c) args db = Ret (tx, created) db ∧
     outputs tx = spend_outputs args ∧ map snd created = output_amount args ∧
     ((∀ i, i < List.length (outputs tx) →
         utxo_at (V := OuterVerifier) s (out_ref tx i) = None) →
      ∃ s', apply_tuxedo_transaction tx s = Ret tt s' ∧
        Forall (λ q, ∃ out : ROut, utxo_at s' q.1 = Some out ∧
          verifier out = OuterSr25519Signature (mk_sr25519 (recipient args)) ∧
          extract (Coin token_id) (payload out) = Ok (mk_coin q.2)) created)).
Proof.
  intros Hs Hh Hi Hne Hpos Hn Ha Hu db.
  assert (0 < asked args)%N as Hask.
  { unfold asked. destruct (output_amount args) as [|n ns]; [done|].
    apply Forall_cons in Hpos as [? _]. cbn [map sumN]. lia. }
  destruct (select_auto args (tracking s) S bh bl ts Hi (conj Hask Ha) Hu) as (l & Hl & Hsel).
  fold db in Hsel. pose proof (choose_coins _ l (asked args) Hl) as Hc.
  destruct (choose _ _ l) as [refs|].
  - destruct Hc as (Hge & Hd & l1 & -> & Hin & Ht & Hle & _). split; [lia|]. intros _.
    apply tracking_holds in Hin.
    destruct (spend_run s args l1 db Hs Hin Hsel) as (signed & Hrun & Hsig). cbv zeta in Hrun.
    eexists _, _. split; [exact Hrun|]. split; [done|]. split.
    { rewrite map_map. cbn [snd]. apply enumerate_snd. }
    intros Hout. eexists. split; [|by apply created_hold].
    apply (built_applies s h args l1 signed); try done.
    + intros ->. change (coins_worth []) with 0%N in Ht. lia.
    + lia.
    + by eapply signed_signs.
    + eapply signs_distinct; [by eapply signed_signs|done].
  - split; [|intros; lia]. intros _. unfold spend_coins_helper. by rewrite bind_run, Hsel.
Qed.
Lemma get_unspent_run bh bl U S ts o :
  get_unspent o (db_of bh bl (U, S) ts) = Ret (U !! o) (db_of bh bl (U, S) ts).
Proof.
  unfold get_unspent. rewrite bind_gets. cbn [unspent db_of fst]. rewrite encode_tree_lookup.
  destruct (U !! o) as [a|]; cbn [fmap option_fmap option_map]; [|done].
  by rewrite decode_or_encode.
Qed.

(** Two signatures of one coin are two different inputs. *)
Lemma signed_twice m p i0 i1 :
  sr25519_sign 0 KEY_TYPE p.2.1 m ≠ sr25519_sign 1 KEY_TYPE p.2.1 m →
  signed_as m 0 p i0 → signed_as m 1 p i1 → NoDup [i0; i1].
Proof.
  intros Hne (sig0 & H0' & ->) (sig1 & H1' & ->). apply NoDup_cons. split; [|apply NoDup_singleton].
  intros [= E%(inj scale_encode)]%list_elem_of_singleton. apply Hne.
  rewrite H0', H1'. injection E as ->. done.
Qed.

(** A named coin that does not suffice is chosen again. *)
Lemma select_again o k a n r S bh bl ts :
  (uval a < uval n ≤ 2 * uval a)%N →
  let db := db_of bh bl ({[ o := (k, a) ]}, S) ts in
  select_inputs (mk_spend_args [o] r [n]) db = Ret [o; o] db.
Proof.
  intros [Hlt Hle] db. set (args := mk_spend_args [o] r [n]).
  assert (asked args = uval n) as Hask by (unfold asked; cbn; lia).
  assert (holdings {[ o := (k, a) ]} = uval a) as Hu.
  { unfold holdings. rewrite map_to_list_singleton. cbn. lia. }
  assert (uval (total_output_amount args) = uval n) as Ht.
  { rewrite total_output_exact, Hask; [done|]. rewrite Hask. apply uval_lt. }
  destruct (get_arbitrary_run {[ o := (k, a) ]} S bh bl ts
    (wrapping_sub (total_output_amount args) a)) as (l1 & Hl1 & Hr); [rewrite Hu; apply uval_lt|].
  rewrite map_to_list_singleton in Hl1. apply Permutation_singleton_r in Hl1 as ->. fold db in Hr.
  unfold select_inputs. cbn [for_each input args]. rewrite bind_run, bind_run. unfold add_chosen.
  rewrite bind_run. unfold db at 1. rewrite get_unspent_run. fold db.
  rewrite lookup_singleton_eq, bind_ok_or. cbn [mret M_ret].
  assert (wrapping_add (trunc 128 0) a = a) as -> by apply trunc_uval.
  rewrite Ht. replace (N.ltb (uval a) (uval n)) with true by (symmetry; by apply N.ltb_lt).
  rewrite bind_run, Hr, wrapping_sub_exact, Ht by (rewrite Ht; lia). cbn [choose].
  replace (N.ltb 0 (uval n - uval a)) with true by (symmetry; apply N.ltb_lt; lia).
  cbn [fst snd]. rewrite N.add_0_l.
  by replace (N.ltb (uval a) (uval n - uval a)) with false by (symmetry; apply N.ltb_ge; lia).
Qed.

(** C22: The wallet can be made to inflate the token. When the user names the
    wallet's only coin as the input of an output worth more than the coin, up to
    twice as much, the automatic selection takes the same coin again.  Signatures
    are randomised, so that the two inputs differ, and unless the output's
    reference already exists the node accepts the transaction: the output holds
    more than the one coin that was consumed. *)
Theorem spend_counts_twice s h o k a n r S bh bl ts :
  serves_storage s → height_at s = Some h → tracking s = {[ o := (k, a) ]} →
  (uval a < uval n)%N → (uval n ≤ 2 * uval a < 2 ^ 128)%N →
  (∀ m, sr25519_sign 0 KEY_TYPE k m ≠ sr25519_sign 1 KEY_TYPE k m) →
  let db := db_of bh bl (tracking s, S) ts in
  ∃ tx created,
    spend_coins_helper (λ c, c) (mk_spend_args [o] r [n]) db = Ret (tx, created) db ∧
    map output_ref (inputs tx) = [o; o] ∧ created = [(out_ref tx 0, n)] ∧
    (utxo_at (V := OuterVerifier) s (out_ref tx 0) = None →
     ∃ s' (out : ROut), apply_tuxedo_transaction tx s = Ret tt s' ∧
       utxo_at s' (out_ref tx 0) = Some out ∧
       extract (Coin token_id) (payload out) = Ok (mk_coin n)).
Proof.
  intros Hs Hh Ht Hlt [Hle Hmax] Hrand db. set (args := mk_spend_args [o] r [n]).
  set (l := [(o, (k, a)); (o, (k, a))]).
  assert (coins_worth l = 2 * uval a)%N as Hw by (cbn; lia).
  assert (Forall (holds s) l) as Hl.
  { apply tracking_holds. rewrite Ht. by repeat constructor; apply lookup_singleton_eq. }
  pose proof (select_again o k a n r S bh bl ts (conj Hlt Hle)) as Hsel. cbv zeta in Hsel.
  rewrite <-Ht in Hsel. fold db args in Hsel. change [o; o] with (map fst l) in Hsel.
  destruct (spend_run s args l db Hs Hl Hsel) as (signed & Hrun & Hsig). cbv zeta in Hrun.
  exists (spend_tx args signed), [(out_ref (spend_tx args signed) 0, n)].
  split; [exact Hrun|]. pose proof (Forall2_length _ _ _ Hsig) as Hlen.
  destruct signed as [|i0 [|i1 [|? ?]]]; try discriminate Hlen. pose proof Hsig as Hsigs.
  apply Forall2_cons in Hsig as [Hi0 [Hi1 _]%Forall2_cons]. cbn [fst snd] in Hi0, Hi1.
  split; [|split; [done|]].
  { destruct Hi0 as (? & _ & ->), Hi1 as (? & _ & ->). done. }
  intros Hout. pose proof (created_hold s args [i0; i1] ltac:(done)) as Hc. cbv zeta in Hc.
  apply Forall_cons in Hc as [(out & Hu0 & _ & Hx) _].
  exists (storage_apply s (spend_tx args [i0; i1])), out.
  split; [|split; [exact Hu0|exact Hx]].
  apply (built_applies s h args l); try done.
  - rewrite Hw. lia.
  - rewrite Hw. cbn. lia.
  - repeat constructor. cbn. lia.
  - eapply signed_signs, Hsigs.
  - exact (signed_twice _ (o, (k, a)) i0 i1 (Hrand _) Hi0 Hi1).
  - intros [|i] Hi; [exact Hout|cbn in Hi; lia].
Qed.
(** What the wallet mints, the node accepts. Minting a positive amount submits a
    transaction without inputs and, unless its output's reference already
    exists, the node applies it, and the one reference the wallet prints then
    holds a coin of the printed amount, locked by the owner's key.  Minting zero
    is submitted all the same, and refused by every node. *)
Theorem mint_applies s args db :
  ∃ tx, mint_coins_helper (λ c, c) args db = Ret (tx, [(out_ref tx 0, amount args)]) db ∧
    inputs tx = [] ∧
    ((0 < uval (amount args))%N → utxo_at (V := OuterVerifier) s (out_ref tx 0) = None →
     ∃ s' (out : ROut), apply_tuxedo_transaction tx s = Ret tt s' ∧
       utxo_at s' (out_ref tx 0) = Some out ∧
       verifier out = OuterSr25519Signature (mk_sr25519 (owner args)) ∧
       extract (Coin token_id) (payload out) = Ok (mk_coin (amount args))) ∧
    (uval (amount args) = 0%N → ∀ s', apply_tuxedo_transaction tx s ≠ Ret tt s').
Proof.
  set (out := mk_output (typed_from (coin_new (ID := token_id) (amount args)))
    (OuterSr25519Signature (mk_sr25519 (owner args)))).
  set (tx := mk_transaction [] [] [out] (OuterMoney Mint) : RTx). exists tx.
  assert (extract (Coin token_id) (payload out) = Ok (mk_coin (amount args))) as Hx
    by exact (extract_from _).
  assert (coin_of token_id (payload out) = Some (uval (amount args))) as Hc
    by (unfold coin_of; by rewrite Hx).
  assert (∀ p s1, check_all s tx s = Ret p s1 ↔
    s1 = s ∧ money_check (ID := token_id) Mint [] [] (peeks_of (utxo_at s) tx) [payload out] = Ok p) as Hm.
  { intros p s1. unfold check_all. cbn [checker tx check outer_checker outer_check].
    unfold check_arm. rewrite catch_err_ret.
    cbn [check simple_constraint_checker simple_check money_checker].
    rewrite lift_result_ret. unfold inputs_of, evictions_of, statuses. cbn. tauto. }
  split; [|split; [done|split]].
  - unfold mint_coins_helper. rewrite bind_run. unfold created_refs. cbn [enumerate outputs].
    unfold enumerate. cbn [List.length seq zip zip_with for_each].
    rewrite bind_run. cbn [payload output_from]. rewrite extract_from. done.
  - intros Hpos Hnew. exists (storage_apply s tx), out. split; [|split; [|by split]].
    + apply apply_ret. split; [split; try constructor|].
      { intros [|i] Hi; [done|cbn in Hi; lia]. }
      exists (trunc 64 0), s. split; [|done]. apply Hm. split; [done|]. apply mint_ok.
      split; [done|]. split; [done|]. split; [done|]. split; [|done].
      constructor; [|done]. by exists (uval (amount args)).
    + assert (represents (storage_apply s tx) (ledger_apply (node_ledger s) tx)) as ->
        by apply represents_apply, represents_ledger_of.
      by apply ledger_apply_output.
  - intros Hz s' (_ & p & s1 & [_ Hmi]%Hm & _)%apply_ret.
    apply mint_ok in Hmi as (_ & _ & _ & [(n & Hn & Hpos) _]%Forall_cons & _).
    rewrite Hc in Hn. injection Hn as <-. lia.
Qed.

(** The amoeba demonstration cannot succeed. Its first transaction applies on
    every node that does not hold its output already, but its second one is sent
    with the empty default redeemer.  No SCALE encoding of an enumeration is
    empty, so no node ever applies it, whatever its state. *)
Theorem demo_mitosis_refused s `{!LawfulCodec AmoebaDetails} :
  decode_value (A := Redeemer OuterVerifier) [] = None →
  let eve_ref := out_ref (spawn_tx (λ c, c)) 0 in
  (utxo_at (V := OuterVerifier) s eve_ref = None →
   ∃ s', apply_tuxedo_transaction (spawn_tx (λ c, c)) s = Ret tt s' ∧
     utxo_at s' eve_ref = Some (amoeba_output 0 "eve_")) ∧
  map output_ref (inputs (mitosis_tx (λ c : OuterConstraintChecker, c))) = [eve_ref] ∧
  ∀ s', apply_tuxedo_transaction (mitosis_tx (λ c, c)) s ≠ Ret tt s'.
Proof.
  intros Hempty eve_ref. split; [|split; [done|]].
  - intros Hnew. exists (storage_apply s (spawn_tx (λ c, c))). split.
    + apply apply_ret. split; [split; try constructor|].
      { intros [|i] Hi; [done|cbn in Hi; lia]. }
      exists (trunc 64 0), s. split; [|done].
      unfold check_all. cbn [checker spawn_tx check outer_checker outer_check].
      unfold check_arm. apply catch_err_ret.
      cbn [check simple_constraint_checker simple_check].
      apply lift_result_ret. split; [|done]. apply creation_ok.
      split; [done|]. split; [done|]. split; [done|]. eexists _, _. split; [done|].
      unfold amoeba_of. cbn [payload amoeba_output]. rewrite extract_from. done.
    + assert (represents (storage_apply s (spawn_tx (λ c, c)))
        (ledger_apply (node_ledger s) (spawn_tx (λ c, c)))) as ->
        by apply represents_apply, represents_ledger_of.
      by apply ledger_apply_output.
  - intros s' ([_ Hs _ _] & _)%apply_ret. unfold statuses in Hs.
    cbn [inputs mitosis_tx map] in Hs. apply Forall_cons in Hs as [Hs _].
    unfold inspect in Hs. cbn [output_ref redeemer default_redemption] in Hs.
    rewrite Hempty in Hs. by destruct (utxo_at _ _).
Qed.
End spending.

(** ** Witnesses *)

Module Witnesses.
Import WalletSample.

#[local] Instance the_node : NodeClient := node_of [] node_state.

Lemma node_serves_state : serves_storage node_state.
Proof.
  intros o. cbn [state_getStorage the_node node_of]. rewrite hex_decode_encode. done.
Qed.

Lemma take_fit (a b : bytes) n : List.length a ≤ n → take (List.length a) (fit n (a ++ b)) = a.
Proof.
  revert n. induction a as [|x a IH]; intros n Hn; [done|]. destruct n as [|n]; cbn in *; [lia|].
  rewrite IH; [done|lia].
Qed.

#[export] Instance concrete_keystore_laws : KeystoreLaws.
Proof.
  split.
  - intros k n m Hk. unfold has_key in Hk. cbn [has_keys concrete_keystore forallb] in Hk.
    rewrite andb_true_r in Hk. apply bool_decide_eq_true in Hk. cbn [fst] in Hk.
    apply (inj scale_encode) in Hk as ->. cbn. unfold alice_store. rewrite decide_True by done.
    by eexists.
  - intros n k m sig [= Hs]. unfold alice_store in Hs. destruct (decide (k = alice)) as [->|]; [|done].
    injection Hs as <-. cbn [sr25519_verify]. apply bool_decide_eq_true.
    unfold Concrete.Instances.salted_sign. cbn [bytesN_val to_bytesN].
    set (h := Concrete.Instances.toy_hash _). rewrite <-(bytesN_length h) at 1.
    apply take_fit. rewrite bytesN_length. lia.
Qed.

Definition held : OutputRef := out_ref mint_alice 0.
Definition coins_of_alice : owned_coins := {[ held := (alice, trunc 128 7) ]}.

Lemma tracking_state : tracking node_state = coins_of_alice.
Proof. by_vm. Qed.

Definition two_coins : SpendArgs := mk_spend_args [] bob [trunc 128 2; trunc 128 4].

Lemma spend_applies_witness :
  ∃ tx created, spend_coins_helper (λ c, c) two_coins (db_of ∅ ∅ (tracking node_state, ∅) ∅) =
    Ret (tx, created) (db_of ∅ ∅ (tracking node_state, ∅) ∅) ∧ outputs tx = spend_outputs two_coins.
Proof.
  destruct (spend_applies node_state (trunc 32 1) two_coins ∅ ∅ ∅ ∅) as [_ Ha];
    [exact node_serves_state|by_vm|done|done|by repeat constructor|done|by_vm|
     rewrite tracking_state; by_vm|].
  destruct Ha as (tx & created & Hr & Ho & _); [rewrite tracking_state; by_vm|].
  exists tx, created. split; [exact Hr|exact Ho].
Defined.

Lemma calls_differ m :
  sr25519_sign 0 KEY_TYPE alice m ≠ sr25519_sign 1 KEY_TYPE alice m.
Proof.
  cbn [sr25519_sign concrete_keystore]. unfold alice_store. rewrite !decide_True by done.
  intros E. injection E as E. by vm_compute in E.
Qed.

Lemma spend_counts_twice_witness :
  ∃ tx created, spend_coins_helper (λ c, c) (mk_spend_args [held] bob [trunc 128 14])
      (db_of ∅ ∅ (tracking node_state, ∅) ∅) =
    Ret (tx, created) (db_of ∅ ∅ (tracking node_state, ∅) ∅) ∧
    map output_ref (inputs tx) = [held; held].
Proof.
  destruct (spend_counts_twice node_state (trunc 32 1) held alice (trunc 128 7) (trunc 128 14)
    bob ∅ ∅ ∅ ∅) as (tx & created & Hr & Hi & _);
    [exact node_serves_state|by_vm|exact tracking_state|by_vm|by_vm| |].
  { exact calls_differ. }
  exists tx, created. split; [exact Hr|exact Hi].
Defined.

Lemma demo_mitosis_refused_witness :
  map output_ref (inputs (mitosis_tx (λ c : OuterConstraintChecker, c))) =
  [out_ref (spawn_tx (λ c : OuterConstraintChecker, c)) 0].
Proof.
  destruct (demo_mitosis_refused ∅) as (_ & Hm & _); [by_vm|exact Hm].
Defined.
End Witnesses.
