(* ===== verification/ParachainRuntime.v ===== *)
(** * ParachainRuntime: the template runtime as a parachain

    Models what [parachainify!] generates for [tuxedo-parachain-runtime/src/lib.rs]
    ([tuxedo-parachain-core/parachainify/src/lib.rs]): the template runtime's
    checkers and the parachain inherent aggregated once more; and the runtime's
    genesis. *)

From S2P Require Import Prelude Effects Scale Types Checker UtxoSet CheckerLaws Executive Simulation.
From S2P Require Import Concrete Verifiers Samples ExecutiveFacts Ledger Blocks Genesis.
From S2P Require Import ParachainCore ParachainPiece Supply Money Amoeba Poe Kitties Timestamp.
From S2P Require Import RuntimeUpgrade Aggregator TemplateRuntime RuntimeSamples RuntimeFacts.

(** [enum ParachainConstraintChecker] *)
Inductive ParachainConstraintChecker : Type :=
| Inner (inner : OuterConstraintChecker)
| ParachainInfo (inner : InherentAdapter SetParachainInfo).

(** [ParachainConstraintCheckerError] *)
Inductive ParachainCheckerError : Type :=
| EInner (e : OuterError)
| EParachainInfo (e : ParachainError).

Class ParachainParameters : Type := {
  pr_runtime :: RuntimeParameters;
  pr_relay :: RelayPrimitives;
  pr_codecs :: ParachainCodecs;
  pr_primitives :: ParachainPrimitives;
  pr_info :: Codec SetParachainInfo;
  pr_adapted_info :: Codec (InherentAdapter SetParachainInfo);
  codec_parachain_checker : Codec ParachainConstraintChecker;
}.

Section runtime.
Context `{ParachainParameters}.

(** [RuntimeParachainConfig] *)
#[export] Instance runtime_parachain_config : ParachainPieceConfig := storage_config.

#[export, refine] Instance variant_inner :
  Variant ParachainConstraintChecker OuterConstraintChecker := {|
  wrap := Inner; unwrap o := match o with Inner i => Some i | _ => None end |}.
Proof. all: intros []; naive_solver. Defined.
#[export, refine] Instance variant_info :
  Variant ParachainConstraintChecker (InherentAdapter SetParachainInfo) := {|
  wrap := ParachainInfo; unwrap o := match o with ParachainInfo i => Some i | _ => None end |}.
Proof. all: intros []; naive_solver. Defined.

Definition parachain_check {St} `{!Store St} (self : ParachainConstraintChecker)
    (inputs evicted_inputs peeks outputs : list DynamicallyTypedData) :
    M St ParachainCheckerError u64 :=
  match self with
  | Inner inner => check_arm inner EInner inputs evicted_inputs peeks outputs
  | ParachainInfo inner => check_arm inner EParachainInfo inputs evicted_inputs peeks outputs
  end.

Definition parachain_is_inherent (self : ParachainConstraintChecker) : bool :=
  match self with
  | Inner inner => is_inherent inner
  | ParachainInfo inner => is_inherent inner
  end.

Definition parachain_create_inherents {V} `{Verifier V} (data : InherentData)
    (previous : list (Transaction V ParachainConstraintChecker * H256)) :
    M storage Empty_set (list (Transaction V ParachainConstraintChecker)) :=
  create_all [
    create_variant (C := OuterConstraintChecker) data previous;
    create_variant (C := InherentAdapter SetParachainInfo) data previous ].

Definition parachain_check_inherents {V} `{Verifier V} (data : InherentData)
    (inherents : list (Transaction V ParachainConstraintChecker))
    (results : CheckInherentsResult) : partial CheckInherentsResult :=
  check_all_variants [
    check_variant (C := OuterConstraintChecker) data inherents;
    check_variant (C := InherentAdapter SetParachainInfo) data inherents ] results.

Definition parachain_genesis_transactions {V} `{Verifier V} :
    partial (list (Transaction V ParachainConstraintChecker)) :=
  genesis_all [
    genesis_variant (C := OuterConstraintChecker);
    genesis_variant (C := InherentAdapter SetParachainInfo) ].

#[export] Instance parachain_checker : ConstraintChecker ParachainConstraintChecker := {|
  checker_codec := codec_parachain_checker;
  Error := ParachainCheckerError;
  check St _ := parachain_check;
  is_inherent := parachain_is_inherent;
  create_inherents V _ := parachain_create_inherents;
  check_inherents V _ := parachain_check_inherents;
  genesis_transactions V _ := parachain_genesis_transactions;
|}.

(** [impl ParachainConstraintChecker for ParachainConstraintChecker] *)
#[export] Instance parachain_is_parachain : ParachainChecker ParachainConstraintChecker :=
  λ self, match self with ParachainInfo _ => true | _ => false end.

(** [development_genesis_transactions] of the parachain runtime's genesis.rs *)
Definition parachain_development_genesis :
    partial (list (Transaction OuterVerifier ParachainConstraintChecker)) :=
  let signatories := [SHAWN_PUB_KEY_BYTES; ANDREW_PUB_KEY_BYTES] in
  let user_genesis_transactions := map (transform Inner) [
    coin_mint OuterSr25519Signature OuterMoney (trunc 128 100) (mk_sr25519 SHAWN_PUB_KEY_BYTES);
    coin_mint OuterThresholdMultiSignature OuterMoney (trunc 128 100)
      (mk_multisig (trunc 8 1) signatories) ] in
  genesis_transactions ← genesis_transactions (V := OuterVerifier)
    (C := ParachainConstraintChecker);
  mret (genesis_transactions ++ user_genesis_transactions).
End runtime.

(** ** The interfaces of the executive *)

Class ParachainLaws `{ParachainParameters} : Prop := {
  pl_runtime :: RuntimeLaws;
  pl_code : CODE ≠ RELAY_PARENT_NUMBER_KEY;
}.

Section interfaces.
Context `{ParachainLaws}.

#[export] Instance parachain_frame : CheckerFrame ParachainConstraintChecker.
Proof. intros [] i e p o; apply check_arm_leaves; exact _. Qed.

#[export] Instance parachain_transient : CheckerTransient ParachainConstraintChecker.
Proof. intros [] i e p o; apply check_arm_respects; exact _. Qed.

#[export] Instance parachain_uniform : UniformChecker ParachainConstraintChecker.
Proof.
  intros S1 S2 ? ? sim ? [] i e p o; cbn [check parachain_checker parachain_check];
    by apply check_arm_uniform; first exact _.
Qed.

(** No checker of the template runtime writes the relay parent number. *)
Definition keeps_number (s s' : storage) : Prop :=
  s' !! RELAY_PARENT_NUMBER_KEY = s !! RELAY_PARENT_NUMBER_KEY.

#[export] Instance keeps_number_preorder : PreOrder keeps_number.
Proof. split; [done|]. intros s1 s2 s3 H12 H23. unfold keeps_number in *. by rewrite H23. Qed.

Lemma pure_keeps {C} `{SimpleConstraintChecker C, !PureChecker C} (c : C) i e p o :
  leaves keeps_number (simple_check c i e p o).
Proof. rewrite simple_check_verdict. apply leaves_lift, _. Qed.

Lemma height_keeps {E} : leaves keeps_number (block_height : M storage E u32).
Proof.
  apply leaves_bind; [apply _| |]; [apply leaves_gets, _|]. intros. apply leaves_expect, _.
Qed.

#[local] Hint Resolve height_keeps : effects.

Lemma storage_set_keeps {E} k v :
  k ≠ RELAY_PARENT_NUMBER_KEY → leaves keeps_number (storage_set k v : M storage E unit).
Proof. intros Hk s. unfold keeps_number. simpl. by rewrite lookup_insert_ne. Qed.

Lemma outer_keeps c i e p o : leaves keeps_number (outer_check c i e p o).
Proof.
  destruct c; apply leaves_catch; try apply pure_keeps.
  - cbn. unfold claim_check, check_claim, poe_block_height, runtime_poe_config. solve_leaves.
  - cbn. unfold set_timestamp_check. cbn. solve_leaves.
  - cbn. unfold upgrade_check. pose proof pl_code. pose proof @storage_set_keeps. solve_leaves.
Qed.
End interfaces.
