(* ===== verification/ParachainFacts.v ===== *)
(** * ParachainFacts: what validators of the parachain runtime report

    The relay parent number through a block of the parachain runtime, and the
    watermark a validator reports. *)

From S2P Require Import Prelude Effects Scale Types Checker UtxoSet CheckerLaws Executive Simulation.
From S2P Require Import Concrete Verifiers Samples ExecutiveFacts Ledger Blocks Genesis.
From S2P Require Import HostFunctions ParachainCore ValidateBlock.
From S2P Require Import ParachainPiece Supply Money Amoeba Poe Kitties Timestamp.
From S2P Require Import RuntimeUpgrade Aggregator TemplateRuntime RuntimeSamples RuntimeFacts.
From S2P Require Import ParachainRuntime.

Section watermark.
Context `{ParachainLaws}.
Abbreviation PTx := (Transaction OuterVerifier ParachainConstraintChecker).
Implicit Types (s : storage) (tx : PTx) (l : list PTx).

(** The number in the first output. *)
Definition carried tx : option u32 :=
  match outputs tx with out :: _ => number_of (payload out) | [] => None end.

(** The number after the transactions: the one of the last parachain inherent. *)
Fixpoint last_number l (acc : option u32) : option u32 :=
  match l with
  | [] => acc
  | tx :: l => last_number l (if is_parachain (checker tx) then carried tx else acc)
  end.

Lemma number_at_key s s' : keeps_number s s' → number_at s' = number_at s.
Proof. intros E. unfold number_at. by rewrite E. Qed.

Lemma storage_apply_number s tx : number_at (storage_apply s tx) = number_at s.
Proof.
  apply number_at_key. unfold keeps_number. apply storage_apply_key. intros o E.
  apply relay_key_unprotected. unfold protected_key. rewrite <-E. eauto.
Qed.

Lemma apply_number tx s s' :
  apply_tuxedo_transaction tx s = Ret tt s' →
  number_at s' = (if is_parachain (checker tx) then carried tx else number_at s) ∧
  (is_parachain (checker tx) = true → is_Some (carried tx)).
Proof.
  intros (_ & p & s1 & Hc & ->)%apply_ret. rewrite storage_apply_number.
  unfold check_all in Hc. cbn [check parachain_checker] in Hc. unfold carried.
  destruct (checker tx) as [c|[c]]; cbn [parachain_check is_parachain parachain_is_parachain] in *;
    unfold check_arm in Hc; apply catch_err_ret in Hc.
  - split; [|done]. apply number_at_key. eapply leaves_ret_inv; [|exact Hc]. apply outer_keeps.
  - cbn [check inherent_adapter simple_check set_parachain_info_checker adapted] in Hc.
    apply (set_parachain_info_ok c _ _ (peeks_of (utxo_at s) tx)) in Hc
      as (_ & _ & de & d & m & n & _ & Ho & _ & Hn & _ & ->).
    destruct (outputs tx) as [|out [|? ?]]; try done. injection Ho as ->.
    split; [|by eexists]. unfold noting. by rewrite number_at_insert.
Qed.

Lemma apply_all_number l s s' :
  apply_all l s = Ret tt s' → number_at s' = last_number l (number_at s).
Proof.
  revert s. induction l as [|tx l IH]; intros s Hl; [by injection Hl as <-|].
  unfold apply_all in Hl. cbn [for_each] in Hl. apply bind_ret_inv in Hl as ([] & s1 & Ha & Hl).
  apply apply_number in Ha as [Ha _]. cbn [last_number]. rewrite <-Ha. by apply IH.
Qed.

Lemma extrinsics_number (b : Block OuterVerifier ParachainConstraintChecker) s s' :
  execute_extrinsics b s = Ret tt s' → number_at s' = last_number (extrinsics b) (number_at s).
Proof.
  intros (_ & t & Ha & ->)%execute_extrinsics_ret.
  transitivity (number_at t); [apply number_at_key; apply lookup_delete_ne; done|].
  rewrite (apply_all_number _ _ _ Ha). f_equal. apply number_at_key.
  unfold keeps_number. by rewrite opened_lookup, !decide_False.
Qed.

Lemma execute_number (b : Block OuterVerifier ParachainConstraintChecker) s s' :
  execute_block b s = Ret tt s' → number_at s' = last_number (extrinsics b) (number_at s).
Proof.
  rewrite execute_block_parts. intros ([] & s1 & Hx & (-> & _)%check_roots_ret)%bind_ret_inv.
  by apply extrinsics_number.
Qed.

Lemma last_number_none l acc :
  Forall (λ tx, is_parachain (checker tx) = false) l → last_number l acc = acc.
Proof. intros Hl. revert acc. induction Hl as [|tx l Htx _ IH]; intros acc; [done|]. cbn. by rewrite Htx. Qed.

Lemma last_number_unique l acc tx :
  filter (λ tx, is_parachain (checker tx) = true) l = [tx] → last_number l acc = carried tx.
Proof.
  revert acc. induction l as [|tx' l IH]; intros acc; [done|]. rewrite filter_cons.
  cbn [last_number]. case_decide as Hp.
  - intros [= -> Hl]. rewrite Hp. apply last_number_none. rewrite Forall_forall. intros x Hx.
    destruct (is_parachain (checker x)) eqn:E; [|done].
    assert (x ∈ filter (λ tx, is_parachain (checker tx) = true) l) as Hf
      by (by apply list_elem_of_filter).
    rewrite Hl in Hf. by apply elem_of_nil in Hf.
  - apply not_true_is_false in Hp. rewrite Hp. apply IH.
Qed.

(** The inherent a validator finds is a parachain transaction of the block. *)
Lemma find_inherent_data_value l data :
  find_inherent_data l = Value data →
  ∃ tx, tx ∈ l ∧ is_parachain (checker tx) = true ∧
    carried tx = Some (relay_parent_number (validation_data data)).
Proof.
  unfold find_inherent_data. rewrite partial_bind_value.
  intros (e & He%partial_expect_value & Hr).
  destruct (list_find _ _) as [[i x]|] eqn:Hf; [|done]. injection He as ->.
  apply list_find_Some in Hf as (Hi & Hp & _). apply list_elem_of_lookup_2 in Hi.
  apply partial_bind_value in Hr as (out & Ho%partial_expect_value & Hr).
  apply partial_bind_value in Hr as (u & Hu%partial_expect_value & [= <-]).
  exists e. split; [|split; [done|]].
  - destruct (take_while_prefix opens l) as [k ->]. apply elem_of_app. by left.
  - unfold carried. destruct (outputs e) as [|out' ?]; [done|]. injection Ho as ->.
    unfold number_of, info_of. by rewrite Hu.
Qed.

Context {externalities : Externalities} `{!ValidationPrimitives}.

(** C29: The watermark a validator reports is the relay parent number of the last
    parachain inherent of the block.  When the block holds exactly one, it is the relay
    parent number the validator was given; otherwise it need not be: the parameters are
    compared with the first one only, and nothing in the validation bounds how many
    follow.  (The externalities of the proof are those of some state [s].) *)
Theorem watermark_of_last_inherent p r :
  validate_block (V := OuterVerifier) (C := ParachainConstraintChecker) p = Value r →
  ∃ (b : Block OuterVerifier ParachainConstraintChecker) backend, admissible p b backend ∧
    (∃ tx, tx ∈ extrinsics b ∧ is_parachain (checker tx) = true) ∧
    ∀ root part s, ProofLaws root part → part (ext_new backend) s →
      last_number (extrinsics b) (number_at s) = Some (hrmp_watermark r) ∧
      ∀ tx, filter (λ tx, is_parachain (checker tx) = true) (extrinsics b) = [tx] →
        hrmp_watermark r = params_relay_parent_number p.
Proof.
  intros Hr. pose proof Hr as (b & backend & _ & _ & _ & Ha & _)%validate_block_value.
  exists b, backend. split; [done|]. pose proof Ha as (bd & ph & data & db & _ & _ & _ & _ & Hd & _ & Hp & _).
  apply find_inherent_data_value in Hd as (tx' & Hin & Hpar & Hc).
  split; [by exists tx'|]. intros root part s Hlaws Hs.
  destruct (validate_block_full _ _ _ _ _ _ _ Hr Ha Hs) as (s' & Hx & Hn & _).
  rewrite (extrinsics_number _ _ _ Hx) in Hn. split; [done|].
  intros tx Htx. rewrite (last_number_unique _ _ _ Htx) in Hn.
  assert (tx' ∈ filter (λ tx, is_parachain (checker tx) = true) (extrinsics b)) as Hf
    by (by apply list_elem_of_filter).
  rewrite Htx in Hf. apply list_elem_of_singleton in Hf as ->.
  rewrite Hn in Hc. injection Hc as ->. done.
Qed.
End watermark.

(** ** Witnesses *)

Module Witnesses.
Import RuntimeSample ParachainSample ValidationSample MapExternalities.

#[local] Existing Instances sum_codec ParachainPiece.Witnesses.concrete_parachain_primitives
  ParachainPiece.Witnesses.concrete_info.

#[local] Instance adapted_info : Codec (InherentAdapter SetParachainInfo) :=
  iso_codec adapted mk_adapter.
#[local] Instance inner_codec : Codec OuterConstraintChecker :=
  codec_outer_checker.
Definition parachain_sum (c : ParachainConstraintChecker) :
    OuterConstraintChecker + InherentAdapter SetParachainInfo :=
  match c with Inner i => inl i | ParachainInfo i => inr i end.
Definition sum_parachain (x : OuterConstraintChecker + InherentAdapter SetParachainInfo) :
    ParachainConstraintChecker :=
  match x with inl i => Inner i | inr i => ParachainInfo i end.

#[export] Instance concrete_parachain_runtime : ParachainParameters := {|
  pr_runtime := concrete_runtime;
  codec_parachain_checker := iso_codec parachain_sum sum_parachain |}.

#[export] Instance concrete_parachain_laws : ParachainLaws.
Proof. split; [apply concrete_runtime_laws|done]. Qed.

#[export] Instance parachain_checker_lawful :
  @LawfulCodec ParachainConstraintChecker (@checker_codec _ _ parachain_checker).
Proof.
  apply @iso_lawful; [|by intros []]. apply @sum_lawful; [apply checker_lawful|].
  apply @iso_lawful; [|by intros []]. apply nil_lawful. by intros [].
Qed.

(** The parent's state: parachain data for relay parent ten. *)
Definition relay_data (head : bytes) (n : N) : Output OuterVerifier :=
  mk_output (typed_from (T := ParachainInherentDataUtxo) (data_utxo_from (mk_inherent_data
    (mk_validation_data head (trunc 32 n) H256_zero (trunc 32 0)) [] tt tt))) nobody.
Definition para_pairs : list (bytes * bytes) :=
  [(HEIGHT_KEY, scale_encode (trunc 32 1));
   (RELAY_PARENT_NUMBER_KEY, scale_encode (trunc 32 10));
   (scale_encode (Sample.ref 0), scale_encode (relay_data [] 10))].
Definition para_state : StorageProof := all_recorded para_pairs.
Definition para_db : storage := list_to_map para_pairs.
Definition para_parent : Header :=
  mk_header H256_zero (trunc 32 1) (to_bytesN 32 (storage_root V1 para_db)) H256_zero tt.

(** A block with two parachain inherents: the first carries what the validator
    knows, the second evicts it and claims relay block 99. *)
Definition advance (o : OutputRef) (out : Output OuterVerifier) : Transaction OuterVerifier ParachainConstraintChecker :=
  mk_transaction [mk_input o Eviction] [] [out] (ParachainInfo (mk_adapter set_parachain_info)).
Definition honest : Transaction OuterVerifier ParachainConstraintChecker := advance (Sample.ref 0) (relay_data (scale_encode para_parent) 11).
Definition runaway : Transaction OuterVerifier ParachainConstraintChecker := advance (out_ref honest 0) (relay_data [] 99).
Definition para_open : Header :=
  mk_header (hash_of para_parent) (trunc 32 2) H256_zero H256_zero tt.
Definition para_authored : Header * storage :=
  match author_block para_open [honest; runaway] para_db with
  | Ret h s => (h, s) | _ => (para_open, ∅) end.
Definition para_params : MemoryOptimizedValidationParams :=
  mk_params (scale_encode para_parent)
    (scale_encode (mk_block_data para_authored.1 [honest; runaway] para_state))
    (trunc 32 11) H256_zero.
Definition para_result : CollationInfo :=
  mk_collation_info [] [] None (trunc 32 0) (trunc 32 99) (scale_encode para_authored.1).

(** The validator was given relay parent 11 and reports the watermark 99. *)
Lemma watermark_of_last_inherent_witness :
  ∃ (b : Block OuterVerifier ParachainConstraintChecker) (backend : storage * gset bytes),
    admissible para_params b backend ∧
    last_number (extrinsics b) (number_at backend.1) = Some (trunc 32 99) ∧
    params_relay_parent_number para_params = trunc 32 11.
Proof.
  destruct (watermark_of_last_inherent (externalities := map_externalities) para_params
    para_result) as (b & backend & Ha & _ & Hlast); [by_vm|].
  destruct (Hlast [] (λ (x : overlay) s, main_storage x = s) backend.1 (map_proof_laws []) eq_refl)
    as [Hn _].
  exists b, backend. split; [exact Ha|]. split; [exact Hn|done].
Defined.
End Witnesses.
