(* ===== verification/ParachainGrowth.v ===== *)
(** * ParachainGrowth: the development parachain never stalls

    The blocks of the parachain runtime open with two inherents: the timestamp,
    which peeks at the previous one, and the relay chain's data, which evicts the
    previous one.  Whatever else the blocks hold, both outputs are there for the
    next author. *)

From S2P Require Import Prelude Effects Scale Types Checker UtxoSet CheckerLaws Executive.
From S2P Require Import Concrete Verifiers Samples ExecutiveFacts Ledger Blocks Genesis Supply.
From S2P Require Import Money Amoeba Poe Kitties Timestamp RuntimeUpgrade Aggregator.
From S2P Require Import TemplateRuntime RuntimeSamples RuntimeFacts RuntimeGenesis RuntimeTypes.
From S2P Require Import ParachainCore ParachainPiece ParachainRuntime ParachainFacts.
From S2P Require Import Wallet WalletSamples Authoring NodeSamples ChainGrowth.

(** ** What blocks leave in place *)

Section kept.
Context `{ParachainLaws, !LawfulCodec Timestamp}.
Abbreviation PTx := (Transaction OuterVerifier ParachainConstraintChecker).
Abbreviation look s := (@utxo_at _ _ _ OuterVerifier verifier_codec s).
Implicit Types (s : storage) (tx : PTx) (l : list PTx) (d : DynamicallyTypedData).

Definition is_stamp tx : bool :=
  match checker tx with Inner c => is_timestamp c | ParachainInfo _ => false end.
Definition is_info tx : bool := is_parachain (checker tx).

Lemma inherent_kind tx : is_inherent (checker tx) = is_stamp tx || is_info tx.
Proof.
  unfold is_stamp, is_info. destruct (checker tx) as [c|c]; [|done].
  cbn. rewrite orb_false_r. apply inherent_is_timestamp.
Qed.

(** Relay data is of a type of its own. *)
Lemma number_type d n : number_of d = Some n → type_id d = TYPE_ID ParachainInherentDataUtxo.
Proof.
  unfold number_of, info_of. destruct (extract ParachainInherentDataUtxo d) as [u|] eqn:E; [|done].
  by apply extract_ok in E as [? _].
Qed.

Lemma number_not_consumable d n : number_of d = Some n → ¬ consumable d.
Proof.
  intros Hd%number_type (t & _ & Ht). rewrite Hd in Ht.
  destruct t; revert Ht; apply (bool_decide_unpack _); by_vm.
Qed.

Lemma number_not_stamp d n : number_of d = Some n → timestamp_of d = None.
Proof.
  intros Hd%number_type. unfold timestamp_of. destruct (extract Timestamp d) as [x|] eqn:Hx; [|done].
  apply extract_ok in Hx as [Hx _]. rewrite Hd in Hx. exfalso. revert Hx.
  apply (bool_decide_unpack _); by_vm.
Qed.

(** No checker consumes a timestamp, and only the inherent consumes relay data. *)
Lemma parachain_consumed c i e p o s prio s' d :
  parachain_check c i e p o s = Ret prio s' → d ∈ i ++ e →
  timestamp_of d = None ∧ (is_parachain c = false → number_of d = None).
Proof.
  intros Hc Hd. destruct c as [c|[c]]; cbn [parachain_check] in Hc; unfold check_arm in Hc;
    apply catch_err_ret in Hc.
  - apply (outer_consumed c) in Hc. pose proof (proj1 (Forall_forall _ _) Hc d Hd) as Hx.
    split; [by apply consumable_stamp|]. intros _.
    destruct (number_of d) eqn:E; [|done]. by apply number_not_consumable in E.
  - cbn [check inherent_adapter simple_check set_parachain_info_checker adapted] in Hc.
    apply (set_parachain_info_ok c _ _ p) in Hc as (-> & _ & de & d' & m & n & -> & _ & Hm & _).
    apply list_elem_of_singleton in Hd as ->. split; [by eapply number_not_stamp|done].
Qed.

(** What is never consumed by these transactions. *)
Definition lasting l d : Prop :=
  is_Some (timestamp_of d) ∨ (is_Some (number_of d) ∧ Forall (λ tx, is_info tx = false) l).

Lemma apply_lasting tx s s' o (u : Output OuterVerifier) :
  apply_tuxedo_transaction tx s = Ret tt s' → look s o = Some u → lasting [tx] (payload u) →
  look s' o = Some u.
Proof.
  intros Ha Ho Hl. apply (apply_keeps _ _ _ _ _ Ha Ho).
  apply apply_ret in Ha as (_ & p & s1 & Hc & _). intros Hin.
  destruct (parachain_consumed _ _ _ _ _ _ _ _ _ Hc Hin) as [Ht Hn].
  destruct Hl as [[t Hs]|[[n Hs] Hf]]; [congruence|].
  apply Forall_cons in Hf as [Hf _]. by rewrite Hn in Hs.
Qed.

Lemma apply_all_lasting l s s' o (u : Output OuterVerifier) :
  apply_all l s = Ret tt s' → look s o = Some u → lasting l (payload u) → look s' o = Some u.
Proof.
  revert s. induction l as [|tx l IH]; intros s Hl Ho Hu; [by injection Hl as <-|].
  unfold apply_all in Hl. cbn [for_each] in Hl. apply bind_ret_inv in Hl as ([] & s1 & Ha & Hl).
  assert (lasting [tx] (payload u) ∧ lasting l (payload u)) as [Htx Hl'].
  { unfold lasting in *. rewrite !Forall_cons in *. intuition. }
  eapply IH; [exact Hl| |done]. by eapply apply_lasting.
Qed.

(** ** What the inherents create *)

Lemma parachain_stamp_applied tx s s' h :
  is_stamp tx = true → apply_tuxedo_transaction tx s = Ret tt s' → height_at s = Some h →
  ∃ out stamp, outputs tx = [out] ∧ timestamp_of (payload out) = Some stamp ∧
    Timestamp.block stamp = h ∧ look s' (out_ref tx 0) = Some out.
Proof.
  intros Ht Ha Hh. pose proof (λ out, apply_creates s s' tx 0 out Ha) as Hnew.
  apply apply_ret in Ha as (_ & p & s1 & Hc & _). unfold check_all in Hc.
  unfold is_stamp in Ht. destruct (checker tx) as [c|c]; [|done].
  cbn [check parachain_checker parachain_check] in Hc. unfold check_arm in Hc.
  apply catch_err_ret in Hc.
  destruct (stamp_checked _ _ _ _ _ _ _ _ _ Ht Hc Hh) as (d & stamp & Ho & Hs & Hb).
  destruct (outputs tx) as [|out [|? ?]] eqn:Eo; try done. injection Ho as <-.
  exists out, stamp. repeat (split; [done|]). by apply Hnew.
Qed.

Lemma parachain_info_applied tx s s' :
  is_info tx = true → apply_tuxedo_transaction tx s = Ret tt s' →
  ∃ out n, outputs tx = [out] ∧ number_of (payload out) = Some n ∧
    look s' (out_ref tx 0) = Some out.
Proof.
  intros Ht Ha. pose proof (λ out, apply_creates s s' tx 0 out Ha) as Hnew.
  apply apply_ret in Ha as (_ & p & s1 & Hc & _). unfold check_all in Hc.
  unfold is_info in Ht. destruct (checker tx) as [c|[c]]; [done|].
  cbn [check parachain_checker parachain_check] in Hc. unfold check_arm in Hc.
  apply catch_err_ret in Hc.
  cbn [check inherent_adapter simple_check set_parachain_info_checker adapted] in Hc.
  apply (set_parachain_info_ok c _ _ (peeks_of (look s) tx)) in Hc
    as (_ & _ & de & d & m & n & _ & Ho & _ & Hn & _).
  destruct (outputs tx) as [|out [|? ?]] eqn:Eo; try done. injection Ho as <-.
  exists out, n. repeat (split; [done|]). by apply Hnew.
Qed.
End kept.

(** ** The inherents of the next block *)

Section inherents.
Context `{ParachainLaws, !LawfulCodec Timestamp}.
Abbreviation PTx := (Transaction OuterVerifier ParachainConstraintChecker).
Implicit Types (s : storage) (tx ts relay : PTx) (l : list PTx).

(** One timestamp and one relay inherent, in either order. *)
Inductive two_inherents ts relay : list PTx → Prop :=
| stamp_first : two_inherents ts relay [ts; relay]
| relay_first : two_inherents ts relay [relay; ts].

Definition next_parachain_stamp (id : H256) (now : u64) (h : u32) : PTx :=
  transform Inner (next_stamp id now h).
Definition next_info (id : H256) (info : ParachainInherentData) : PTx :=
  mk_transaction [mk_input (mk_output_ref id (trunc 32 0)) Eviction] []
    [mk_output (typed_from (data_utxo_from info)) nobody]
    (ParachainInfo (mk_adapter set_parachain_info)).

Lemma parachain_create_run data l ts relay s now h info :
  two_inherents ts relay l → is_stamp ts = true → is_info relay = true →
  height_at s = Some h → timestamp_data data = Value now → parachain_data data = Value info →
  parachain_create_inherents data (map (λ tx, (tx, tx_id tx)) l) s =
  Ret [next_parachain_stamp (tx_id ts) now h; next_info (tx_id relay) info] s.
Proof.
  intros Hl Hts Hrelay Hh Hnow Hinfo. unfold is_stamp in Hts. unfold is_info in Hrelay.
  destruct (checker ts) as [c|] eqn:Ets; [|done].
  destruct (checker relay) as [|[c']] eqn:Er; [done|].
  assert (relevant (C := OuterConstraintChecker) (map (λ tx, (tx, tx_id tx)) l) =
    [(transform (λ _, c) ts, tx_id ts)]) as Ei
    by (destruct Hl; unfold relevant; cbn; by rewrite Ets, Er).
  assert (relevant (C := InherentAdapter SetParachainInfo) (map (λ tx, (tx, tx_id tx)) l) =
    [(transform (λ _, mk_adapter c') relay, tx_id relay)]) as Ep
    by (destruct Hl; unfold relevant; cbn; by rewrite Ets, Er).
  unfold parachain_create_inherents. cbn [create_all].
  rewrite bind_run, (create_variant_run _ _ [next_stamp (tx_id ts) now h]).
  - rewrite bind_run, bind_run, (create_variant_run _ _
      [wrap_transaction (info_tx (tx_id relay) info nobody)]); [done|].
    rewrite Ep. by apply adapter_create_run, info_create_run.
  - rewrite Ei. by apply outer_create_run.
Qed.

(** What the two variants of the aggregate see of a list of inherents. *)
Definition inner_of l : list (Transaction OuterVerifier OuterConstraintChecker) :=
  omap (λ tx, c ← unwrap (I := OuterConstraintChecker) (checker tx);
              Some (transform (λ _, c) tx)) l.
Definition infos_of l : list (Transaction OuterVerifier (InherentAdapter SetParachainInfo)) :=
  omap (λ tx, c ← unwrap (I := InherentAdapter SetParachainInfo) (checker tx);
              Some (transform (λ _, c) tx)) l.

Lemma inner_infos_length l : List.length l = List.length (inner_of l) + List.length (infos_of l).
Proof.
  induction l as [|tx l IH]; [done|]. cbn [List.length]. rewrite IH.
  unfold inner_of at 2, infos_of at 2. cbn [omap list_omap].
  fold (inner_of l) (infos_of l).
  destruct (checker tx) as [c|c].
  - apply (f_equal S). done.
  - change (S (List.length (inner_of l) + List.length (infos_of l)) =
      List.length (inner_of l) + S (List.length (infos_of l))). lia.
Qed.

Lemma inner_stamps l :
  Forall (λ tx, is_inherent (checker tx) = true) l →
  Forall (λ x, is_timestamp (checker x) = true) (inner_of l).
Proof.
  intros Hl. apply Forall_forall. intros x (tx' & Hin & Hx)%list_elem_of_omap.
  pose proof (proj1 (Forall_forall _ _) Hl tx' Hin) as Hi. cbv beta in Hi. rewrite inherent_kind in Hi.
  unfold is_stamp, is_info in Hi. destruct (checker tx') as [c|c]; [|done]. injection Hx as <-.
  cbn. cbn in Hi. by rewrite orb_false_r in Hi.
Qed.

Lemma two_of_each l :
  Forall (λ tx, is_inherent (checker tx) = true) l →
  List.length (inner_of l) = 1 → List.length (infos_of l) = 1 →
  ∃ ts relay, two_inherents ts relay l ∧ is_stamp ts = true ∧ is_info relay = true.
Proof.
  intros Hl Hi Hf. pose proof (inner_infos_length l) as Hn. rewrite Hi, Hf in Hn.
  destruct l as [|a [|b [|? ?]]]; try done. rewrite !Forall_cons in Hl. destruct Hl as (Ha & Hb & _).
  rewrite !inherent_kind in *. unfold is_stamp, is_info in *.
  destruct (checker a) as [ca|ca] eqn:Ea, (checker b) as [cb|cb] eqn:Eb.
  - revert Hi. unfold inner_of. cbn. by rewrite Ea, Eb.
  - exists a, b. split; [constructor|]. rewrite Ea, Eb. cbn in *. by rewrite orb_false_r in Ha.
  - exists b, a. split; [constructor|]. rewrite Ea, Eb. cbn in *. by rewrite orb_false_r in Hb.
  - revert Hi. unfold inner_of. cbn. by rewrite Ea, Eb.
Qed.

Context `{!InherentsLaws}.

(** Importers accept a block only when it opens with one of each. *)
Lemma parachain_checked data l results :
  Forall (λ tx, is_inherent (checker tx) = true) l →
  parachain_check_inherents data l check_inherents_new = Value results →
  fatal_error results = false →
  ∃ ts relay, two_inherents ts relay l ∧ is_stamp ts = true ∧ is_info relay = true.
Proof.
  intros Hl Hr Hf. unfold parachain_check_inherents in Hr. cbn [check_all_variants] in Hr.
  apply partial_bind_value in Hr as (r1 & Hr1 & Hr).
  change (outer_check_inherents data (inner_of l) check_inherents_new = Value r1) in Hr1.
  destruct (fatal_error r1) eqn:Hf1; [injection Hr as <-; congruence|].
  apply partial_bind_value in Hr as (r2 & Hr2 & Hr).
  change (adapter_check_inherents data (infos_of l) r1 = Value r2) in Hr2.
  apply two_of_each; [done| |].
  - destruct (outer_checked_single data (inner_of l) r1 (inner_stamps l Hl) Hr1 Hf1) as [tx E].
    by rewrite E.
  - destruct (decide (List.length (infos_of l) = 1)) as [E|E]; [done|].
    destruct (adapter_singular data (infos_of l) r1 Hf1 E) as (r & Ha & Hfr).
    rewrite Hr2 in Ha. injection Ha as ->. rewrite Hfr in Hr. injection Hr as <-. congruence.
Qed.

(** Importers whose clock is not too far behind find nothing wrong. *)
Lemma parachain_next_checked data id id' now h info local :
  timestamp_data data = Value local → (uval local + uval MAX_DRIFT < 2 ^ 64)%N →
  (uval now ≤ uval local + uval MAX_DRIFT)%N →
  ∃ results, parachain_check_inherents data [next_parachain_stamp id now h; next_info id' info]
      check_inherents_new = Value results ∧ fatal_error results = false.
Proof.
  intros Hd Hlt Hnow. destruct (outer_check_run data id now h local Hd Hlt) as (r & Hr & Hf).
  apply Hf in Hnow. exists r. split; [|done]. unfold parachain_check_inherents.
  cbn [check_all_variants]. apply partial_bind_value. exists r. split; [exact Hr|].
  rewrite Hnow. apply partial_bind_value. exists r. split; [done|]. by rewrite Hnow.
Qed.
End inherents.

(** ** The chains importers accept *)

Section growth.
Context `{ParachainLaws, !LawfulCodec Timestamp, !LawfulCodec ParachainInherentDataUtxo, !InherentsLaws}.
Abbreviation PTx := (Transaction OuterVerifier ParachainConstraintChecker).
Abbreviation PBlock := (Block OuterVerifier ParachainConstraintChecker).
Abbreviation look s := (@utxo_at _ _ _ OuterVerifier verifier_codec s).
Implicit Types (s : storage) (b : PBlock) (ts relay tx : PTx) (l : list PTx).

(** As [grows], for the parachain runtime. *)
Inductive parachain_grows : PBlock → storage → Prop :=
| parachain_grows_genesis b s0 s :
    parachain_development_genesis = Value (extrinsics b) → number (header b) = trunc 32 0 →
    NoDup (map tx_id (extrinsics b)) → build (extrinsics b) s0 = Ret tt s →
    parachain_grows b (delete EXTRINSIC_KEY s)
| parachain_grows_import parent s b s' data results :
    parachain_grows parent s →
    number (header b) = wrapping_add (number (header parent)) (trunc 32 1) →
    executive_check_inherents b data = Value results → fatal_error results = false →
    execute_block b s = Ret tt s' → parachain_grows b s'.

(** The inherents of the block, with their outputs in the ledger. *)
Record brings ts relay (stamp : Timestamp) (n : u32) s : Prop := {
  brings_kinds : is_stamp ts = true ∧ is_info relay = true;
  brings_stamp : ∃ out, head (outputs ts) = Some out ∧ look s (out_ref ts 0) = Some out ∧
    timestamp_of (payload out) = Some stamp;
  brings_info : ∃ out, head (outputs relay) = Some out ∧ look s (out_ref relay 0) = Some out ∧
    number_of (payload out) = Some n;
}.

Definition parachain_clocked b s : Prop :=
  s !! EXTRINSIC_KEY = None ∧ ∃ ts relay stamp n,
    two_inherents ts relay (opening_inherents (extrinsics b)) ∧
    brings ts relay stamp n s ∧ Timestamp.block stamp = number (header b).

(** ** The genesis *)

Definition parachain_clock : PTx := transform Inner genesis_clock.
Definition genesis_info : PTx :=
  mk_transaction [] []
    [mk_output (typed_from (new_data_from_relay_parent_number (trunc 32 0))) nobody]
    (ParachainInfo (mk_adapter set_parachain_info)).
Definition parachain_endowments : list PTx :=
  [transform Inner (endowment (OuterSr25519Signature (mk_sr25519 SHAWN_PUB_KEY_BYTES)));
   transform Inner (endowment (OuterThresholdMultiSignature
     (mk_multisig (trunc 8 1) [SHAWN_PUB_KEY_BYTES; ANDREW_PUB_KEY_BYTES])))].

Lemma parachain_genesis_value :
  parachain_development_genesis = Value (parachain_clock :: genesis_info :: parachain_endowments).
Proof. done. Qed.

Lemma genesis_info_number :
  number_of (typed_from (new_data_from_relay_parent_number (trunc 32 0))) = Some (trunc 32 0).
Proof.
  unfold number_of, info_of, new_data_from_relay_parent_number.
  destruct empty_state_root_and_proof as [root proof]. by rewrite extract_from.
Qed.

Lemma genesis_clocked b s0 s :
  parachain_development_genesis = Value (extrinsics b) → number (header b) = trunc 32 0 →
  NoDup (map tx_id (extrinsics b)) → build (extrinsics b) s0 = Ret tt s →
  parachain_clocked b (delete EXTRINSIC_KEY s).
Proof.
  rewrite parachain_genesis_value. intros [= Hg] Hn Hd Hb. rewrite <-Hg in Hd, Hb.
  split; [apply lookup_delete_eq|].
  exists parachain_clock, genesis_info, (timestamp_new (trunc 64 0) (trunc 32 0)), (trunc 32 0).
  rewrite <-Hg. split; [constructor|]. split; [|done]. split; [done| |].
  - eexists. split; [done|]. split; [eapply built_output; [exact Hb|exact Hd| |done|done]|].
    + apply list_elem_of_here.
    + unfold timestamp_of. cbn [payload]. by rewrite extract_from.
  - eexists. split; [done|]. split; [eapply built_output; [exact Hb|exact Hd| |done|done]|].
    + apply list_elem_of_further, list_elem_of_here.
    + apply genesis_info_number.
Qed.

(** ** Importing a block *)

Lemma opens_with_two ts relay l :
  two_inherents ts relay (opening_inherents l) → inherents_first l →
  ∃ opening rest, l = opening ++ rest ∧ two_inherents ts relay opening ∧
    Forall (λ tx, is_inherent (checker tx) = false) rest.
Proof.
  intros Ht Hf. exists (opening_inherents l), (drop (List.length (opening_inherents l)) l).
  split; [apply take_while_drop|done].
Qed.

Lemma opening_brings ts relay l s s' h :
  two_inherents ts relay l → is_stamp ts = true → is_info relay = true →
  apply_all l s = Ret tt s' → height_at s = Some h →
  ∃ stamp n, brings ts relay stamp n s' ∧ Timestamp.block stamp = h.
Proof.
  intros Hl Hts Hrelay Ha Hh. destruct Hl; unfold apply_all in Ha; cbn [for_each] in Ha;
    apply bind_ret_inv in Ha as ([] & s1 & H1s & H2s); apply bind_ret_inv in H2s as ([] & s2 & H2s & [= <-]).
  - destruct (parachain_stamp_applied _ _ _ _ Hts H1s Hh) as (out & stamp & Eo & Hs & Hb & Hu).
    destruct (parachain_info_applied _ _ _ Hrelay H2s) as (out' & n & Eo' & Hn & Hu').
    exists stamp, n. split; [|done]. split; [done|exists out; rewrite Eo|exists out'; by rewrite Eo'].
    split; [done|]. split; [|done]. eapply apply_lasting; [exact H2s|exact Hu|]. by left; eexists.
  - destruct (parachain_info_applied _ _ _ Hrelay H1s) as (out' & n & Eo' & Hn & Hu').
    destruct (apply_ret_ledger _ _ _ _ (represents_ledger_of s) H1s) as (_ & _ & _ & Hh').
    rewrite <-Hh' in Hh.
    destruct (parachain_stamp_applied _ _ _ _ Hts H2s Hh) as (out & stamp & Eo & Hs & Hb & Hu).
    exists stamp, n. split; [|done]. split; [done|exists out; by rewrite Eo|exists out'; rewrite Eo'].
    split; [done|]. split; [|done]. eapply apply_lasting; [exact H2s|exact Hu'|].
    right. split; [by eexists|]. constructor; [|done]. unfold is_stamp, is_info in *.
    by destruct (checker ts).
Qed.

Lemma brings_lasting ts relay stamp n l s s' :
  brings ts relay stamp n s → apply_all l s = Ret tt s' →
  Forall (λ tx, is_inherent (checker tx) = false) l → brings ts relay stamp n s'.
Proof.
  intros [Hk (out & Ho & Hu & Hs) (out' & Ho' & Hu' & Hn)] Ha Hl. split; [done| |].
  - exists out. split; [done|]. split; [|done]. eapply apply_all_lasting; [exact Ha|exact Hu|].
    left. by eexists.
  - exists out'. split; [done|]. split; [|done]. eapply apply_all_lasting; [exact Ha|exact Hu'|].
    right. split; [by eexists|]. eapply Forall_impl; [exact Hl|]. intros tx. cbv beta.
    rewrite inherent_kind. by intros [_ ?]%orb_false_iff.
Qed.

Lemma apply_all_app l l' s s' :
  apply_all (l ++ l') s = Ret tt s' ↔ ∃ s1, apply_all l s = Ret tt s1 ∧ apply_all l' s1 = Ret tt s'.
Proof.
  unfold apply_all. rewrite for_each_app. split.
  - intros ([] & s1 & ?). by exists s1.
  - intros (s1 & ?). by exists tt, s1.
Qed.

Lemma brings_closed ts relay stamp n s : brings ts relay stamp n s → brings ts relay stamp n (delete HEADER_KEY s).
Proof.
  intros [Hk (out & Ho & Hu & Hs) (out' & Ho' & Hu' & Hn)].
  split; [done|exists out|exists out']; by rewrite look_closed.
Qed.

Lemma parachain_clocks b s : parachain_grows b s → parachain_clocked b s.
Proof.
  induction 1 as [b s0 s Hg Hn Hd Hb|parent s b s' data results _ IH _ Hc Hf Hb].
  - by apply (genesis_clocked b s0).
  - destruct IH as [Hx _].
    pose proof (chain_step_extrinsic s s' (import_block b s s' Hb) Hx) as Hx'.
    pose proof (take_while_Forall (λ tx : PTx, is_inherent (checker tx)) (extrinsics b)) as Hi.
    destruct (parachain_checked data (opening_inherents (extrinsics b)) results Hi Hc Hf)
      as (ts & relay & Hl & Hts & Hrelay).
    apply execute_block_ret in Hb as (Hfirst & (t & Ha & ->) & _).
    destruct (opens_with_two ts relay (extrinsics b) Hl Hfirst) as (opening & rest & E & Ho & Hrest).
    rewrite E in Ha. apply apply_all_app in Ha as (s1 & H1s & H2s).
    destruct (opening_brings ts relay opening _ _ _ Ho Hts Hrelay H1s (height_opened (header b) s))
      as (stamp & n & Hbr & Hbl).
    split; [done|]. exists ts, relay, stamp, n. split; [done|]. split; [|done].
    apply brings_closed. by eapply brings_lasting.
Qed.
End growth.

(** ** The next block *)

(** What the mocked provider of Cumulus puts: relay data whose parent number follows
    from the number of the block. *)
Class MockLaws `{ParachainParameters, !InherentBag, Opaque, !NodeLibraries} : Prop := {
  mock_provides current offset per_block per_epoch : ∃ info : ParachainInherentData,
    (∀ data, provide_inherent_data (mock_validation_data current offset per_block per_epoch) data =
       put_data data parachain_identifier info) ∧
    relay_parent_number (validation_data info) =
      trunc 32 (uval offset + uval per_block * uval current);
}.

(** The identifier of the relay chain's data is its own. *)
Class IdentifierLaws `{ParachainParameters} : Prop := {
  parachain_parent : parachain_identifier ≠ PARENT_INHERENT_IDENTIFIER;
  parachain_timestamp : parachain_identifier ≠ timestamp_identifier;
}.

Section next.
Context `{ParachainLaws, !LawfulCodec Timestamp, !LawfulCodec ParachainInherentDataUtxo}.
Context `{!LawfulCodec ParachainInherentData, !InherentsLaws}.
Abbreviation PTx := (Transaction OuterVerifier ParachainConstraintChecker).
Abbreviation PBlock := (Block OuterVerifier ParachainConstraintChecker).
Abbreviation look s := (@utxo_at _ _ _ OuterVerifier verifier_codec s).
Implicit Types (s : storage) (b : PBlock) (ts relay tx : PTx) (l : list PTx) (now : u64).

(** The outputs of a list of transactions. *)
Definition first_outputs l : list (Output OuterVerifier) := omap (λ tx, head (outputs tx)) l.

(** The clock has moved on since the block, and the relay chain as well. *)
Definition parachain_in_time b now (n : u32) : Prop :=
  Forall (λ u, (∀ stamp, timestamp_of (payload u) = Some stamp →
      Timestamp.block stamp = trunc 32 0 ∨
      (uval (wrapping_add (time stamp) MINIMUM_TIME_INTERVAL) ≤ uval now)%N) ∧
    ∀ m, number_of (payload u) = Some m → (uval m < uval n)%N)
  (first_outputs (opening_inherents (extrinsics b))).

Lemma parachain_stamp_applies id now h s (u : Output OuterVerifier) old :
  height_at s = Some h → look s (mk_output_ref id (trunc 32 0)) = Some u →
  timestamp_of (payload u) = Some old → follows (height := h) old (mk_timestamp now h) →
  look s (out_ref (next_parachain_stamp id now h) 0) = None →
  apply_tuxedo_transaction (next_parachain_stamp id now h) s =
  Ret tt (storage_apply s (next_parachain_stamp id now h)).
Proof.
  intros Hh Hu Hold Hf Hnew. set (tx := next_parachain_stamp id now h) in *.
  destruct (peeking_accepted (look s) (height_at s) tx (mk_output_ref id (trunc 32 0)) u)
    as (Ha & Hi & He & Hp); [done..|].
  apply apply_ret. split; [done|]. exists (trunc 64 0), s. split; [|done].
  unfold check_all. rewrite Hi, He, Hp. cbn [check parachain_checker parachain_check].
  unfold check_arm. apply catch_err_ret. by apply (stamp_accepted _ _ _ _ old).
Qed.

Lemma next_info_number info :
  number_of (typed_from (data_utxo_from info)) = Some (relay_parent_number (validation_data info)).
Proof. unfold number_of, info_of. by rewrite extract_from. Qed.

Lemma parachain_info_applies id info s (u : Output OuterVerifier) m :
  look s (mk_output_ref id (trunc 32 0)) = Some u → number_of (payload u) = Some m →
  (uval m < uval (relay_parent_number (validation_data info)))%N →
  look s (out_ref (next_info id info) 0) = None →
  ∃ s', apply_tuxedo_transaction (next_info id info) s = Ret tt s'.
Proof.
  intros Hu Hm Hlt Hnew. set (tx := next_info id info) in *.
  destruct (evicting_accepted (look s) (height_at s) tx (mk_output_ref id (trunc 32 0)) u)
    as (Ha & Hi & He & Hp); [done..|].
  eexists. apply apply_ret. split; [done|].
  eexists (trunc 64 0), _. split; [|done]. unfold check_all. rewrite Hi, He, Hp.
  cbn [check parachain_checker parachain_check tx next_info checker]. unfold check_arm.
  apply catch_err_ret.
  cbn [check inherent_adapter simple_check set_parachain_info_checker adapted].
  apply set_parachain_info_ok. split; [done|]. split; [done|].
  eexists _, _, m, _. split; [done|]. split; [done|]. split; [done|].
  split; [apply next_info_number|]. by split.
Qed.

Lemma parachain_inherents_run data b ts relay s now h info :
  authors data b now → parachain_data data = Value info →
  two_inherents ts relay (opening_inherents (extrinsics b)) →
  is_stamp ts = true → is_info relay = true → height_at s = Some h →
  inherent_extrinsics data s =
  Ret [next_parachain_stamp (tx_id ts) now h; next_info (tx_id relay) info] s.
Proof.
  intros [Hp Hnow] Hinfo Hl Hts Hrelay Hh. unfold inherent_extrinsics. rewrite Hp, bind_run.
  cbn [expect mret M_ret]. rewrite bind_run. cbn [expect mret M_ret]. cbn zeta.
  by apply parachain_create_run.
Qed.

(** The inherents of the next block are created, and apply one after the other. *)
Lemma parachain_next b s hd data now info :
  parachain_grows b s → number hd = wrapping_add (number (header b)) (trunc 32 1) →
  authors data b now → parachain_data data = Value info →
  parachain_in_time b now (relay_parent_number (validation_data info)) →
  ∃ id id', let t1 := next_parachain_stamp id now (number hd) in let t2 := next_info id' info in
    inherent_extrinsics data (opened hd s) = Ret [t1; t2] (opened hd s) ∧
    (look s (out_ref t1 0) = None → look s (out_ref t2 0) = None → tx_id t1 ≠ tx_id t2 →
     ∃ s1, apply_all [t1; t2] (opened hd s) = Ret tt s1).
Proof.
  intros Hg Hn Ha Hinfo Htime.
  apply parachain_clocks in Hg as (_ & ts & relay & stamp & m & Hl & [[Hts Hrelay] Hst Hin] & Hb).
  destruct Hst as (out & Ho & Hu & Hs), Hin as (out' & Ho' & Hu' & Hm).
  assert (Forall (λ tx, ∀ u, head (outputs tx) = Some u → u ∈ first_outputs (opening_inherents (extrinsics b)))
    [ts; relay]) as Hfirst.
  { repeat constructor; intros u E; unfold first_outputs; destruct Hl; cbn [omap list_omap];
      rewrite ?E; repeat case_match; set_solver. }
  rewrite !Forall_cons in Hfirst. destruct Hfirst as (Hf1 & Hf2 & _).
  unfold parachain_in_time in Htime. rewrite Forall_forall in Htime.
  pose proof (proj1 (Htime _ (Hf1 _ Ho)) stamp Hs) as Hclock.
  pose proof (proj2 (Htime _ (Hf2 _ Ho')) m Hm) as Hlt.
  exists (tx_id ts), (tx_id relay). set (t1 := next_parachain_stamp _ _ _). set (t2 := next_info _ _).
  split.
  - by apply (parachain_inherents_run data b); [..|apply height_opened].
  - intros Hnew1 Hnew2 Hne. unfold apply_all. cbn [for_each].
    assert (apply_tuxedo_transaction t1 (opened hd s) = Ret tt (storage_apply (opened hd s) t1)) as Ha1.
    { apply (parachain_stamp_applies _ _ _ _ out stamp); rewrite ?look_opened; try done.
      - apply height_opened.
      - split; [done|]. split; [by cbn; rewrite Hb, Hn|done]. }
    rewrite bind_run, Ha1.
    assert (∃ s1, apply_tuxedo_transaction t2 (storage_apply (opened hd s) t1) = Ret tt s1) as [s1 Ha2].
    { apply (parachain_info_applies _ _ _ out' m); [| done| done|].
      - eapply apply_lasting; [exact Ha1|by rewrite look_opened|]. right. split; [by eexists|].
        by repeat constructor.
      - destruct (apply_ret_ledger _ _ _ _ (represents_ledger_of _) Ha1) as (_ & _ & Hr & _).
        rewrite (Hr _), ledger_apply_other.
        + rewrite decide_False by apply not_elem_of_nil. rewrite <-represents_ledger_of.
          by rewrite look_opened.
        + intros i _ [= E _]. by apply Hne. }
    rewrite bind_run, Ha2. by exists s1.
Qed.

(** The block that opens with them. *)
Lemma parachain_opening id now h id' info l :
  Forall (λ tx, is_inherent (checker tx) = false) l →
  opening_inherents (next_parachain_stamp id now h :: next_info id' info :: l) =
    [next_parachain_stamp id now h; next_info id' info] ∧
  inherents_first (next_parachain_stamp id now h :: next_info id' info :: l).
Proof.
  intros Hl. assert (opening_inherents l = []) as E.
  { destruct Hl as [|tx l Htx _]; [done|]. unfold opening_inherents. cbn [take_while]. by rewrite Htx. }
  unfold inherents_first, opening_inherents in *. cbn [take_while]. by rewrite E.
Qed.

Lemma next_in_time id now h id' info l b now' n' :
  extrinsics b = next_parachain_stamp id now h :: next_info id' info :: l →
  Forall (λ tx, is_inherent (checker tx) = false) l →
  (uval (wrapping_add now MINIMUM_TIME_INTERVAL) ≤ uval now')%N →
  (uval (relay_parent_number (validation_data info)) < uval n')%N →
  parachain_in_time b now' n'.
Proof.
  intros E Hl Hnow Hn. unfold parachain_in_time.
  rewrite E, (proj1 (parachain_opening id now h id' info l Hl)). cbn [first_outputs omap list_omap head outputs].
  apply Forall_cons; split; [split|apply Forall_cons; split; [split|constructor]]; cbn [payload].
  - intros stamp. unfold timestamp_of. rewrite extract_from. intros [= <-]. by right.
  - intros m Hm%number_not_stamp. unfold timestamp_of in Hm. by rewrite extract_from in Hm.
  - intros stamp Hs. by rewrite (number_not_stamp _ _ (next_info_number info)) in Hs.
  - intros m. rewrite next_info_number. by intros [= <-].
Qed.

(** With transactions of the pool they make a block of the chain. *)
Lemma parachain_block_grows b s hd data now info :
  parachain_grows b s → (∀ t, is_Some (decode_value (A := H256) (storage_root V1 t))) →
  number hd = wrapping_add (number (header b)) (trunc 32 1) →
  authors data b now → parachain_data data = Value info →
  let n := relay_parent_number (validation_data info) in
  parachain_in_time b now n → (uval now + uval MAX_DRIFT < 2 ^ 64)%N →
  ∃ id id', let t1 := next_parachain_stamp id now (number hd) in let t2 := next_info id' info in
    inherent_extrinsics data (opened hd s) = Ret [t1; t2] (opened hd s) ∧
    (look s (out_ref t1 0) = None → look s (out_ref t2 0) = None → tx_id t1 ≠ tx_id t2 → ∃ s1,
     apply_all [t1; t2] (opened hd s) = Ret tt s1 ∧
     ∀ l s2, Forall (λ tx, is_inherent (checker tx) = false) l → apply_all l s1 = Ret tt s2 →
     ∃ b' s', extrinsics b' = t1 :: t2 :: l ∧ parent_hash (header b') = parent_hash hd ∧
       author_block hd (t1 :: t2 :: l) s = Ret (header b') s' ∧
       execute_block b' s = Ret tt s' ∧ parachain_grows b' s' ∧
       (∀ importing local, timestamp_data importing = Value local →
          (uval local + uval MAX_DRIFT < 2 ^ 64)%N → (uval now ≤ uval local + uval MAX_DRIFT)%N →
          ∃ results, executive_check_inherents b' importing = Value results ∧
            fatal_error results = false) ∧
       ∀ now' n', (uval (wrapping_add now MINIMUM_TIME_INTERVAL) ≤ uval now')%N →
         (uval n < uval n')%N → parachain_in_time b' now' n').
Proof.
  intros Hg Hroot Hn Ha Hinfo n Ht Hnow.
  destruct (parachain_next b s hd data now info Hg Hn Ha Hinfo Ht) as (id & id' & Hcreate & Happ).
  exists id, id'. cbn zeta. split; [done|]. intros Hnew1 Hnew2 Hne.
  destruct (Happ Hnew1 Hnew2 Hne) as [s1 Hs1]. exists s1. split; [done|]. intros l s2 Hl Hs2.
  set (t1 := next_parachain_stamp id now (number hd)) in *. set (t2 := next_info id' info) in *.
  assert (apply_all ([t1; t2] ++ l) (opened hd s) = Ret tt s2) as Hall by (apply apply_all_app; eauto).
  destruct (parachain_clocks b s Hg) as [Hx _].
  destruct (parachain_opening id now (number hd) id' info l Hl) as [Hopen Hfirst].
  fold t1 t2 in Hopen, Hfirst.
  destruct (applied_block hd (t1 :: t2 :: l) s s2 Hx Hfirst Hall (Hroot _))
    as (b' & s' & Eb & Enum & Epar & Hauth & Hexec).
  assert (∀ importing local, timestamp_data importing = Value local →
    (uval local + uval MAX_DRIFT < 2 ^ 64)%N → (uval now ≤ uval local + uval MAX_DRIFT)%N →
    ∃ results, executive_check_inherents b' importing = Value results ∧ fatal_error results = false)
    as Hcheck.
  { intros importing local Hil Hlt Hle. unfold executive_check_inherents. rewrite Eb, Hopen.
    by apply (parachain_next_checked _ _ _ _ _ _ local). }
  exists b', s'. do 4 (split; [done|]). split; [|split; [exact Hcheck|]].
  - destruct Ha as [_ Htd]. destruct (Hcheck data now Htd) as (results & Hres & Hf); [done|lia|].
    eapply parachain_grows_import; [exact Hg|by rewrite Enum|exact Hres|done|done].
  - intros now' n' Hnow' Hn'. by apply (next_in_time _ _ _ _ _ _ _ _ _ Eb).
Qed.

End next.

(** ** The development service *)

Section development.
Context `{ParachainLaws, !LawfulCodec Timestamp, !LawfulCodec ParachainInherentDataUtxo}.
Context `{!LawfulCodec ParachainInherentData, !InherentsLaws, !InherentBag, !InherentBagLaws}.
Context `{Opaque, !OpaqueCodecs, !Codec string, !NodeLibraries}.
Context {slot_id : bytesN 8} `{!NodeLaws slot_id, !MockLaws, !IdentifierLaws}.
Abbreviation PTx := (Transaction OuterVerifier ParachainConstraintChecker).
Abbreviation PBlock := (Block OuterVerifier ParachainConstraintChecker).
Abbreviation look s := (@utxo_at _ _ _ OuterVerifier verifier_codec s).
Implicit Types (s : storage) (b : PBlock) (ts relay tx : PTx) (l : list PTx) (now : u64).

(** C10: The development parachain never stalls.  Take any block of a chain that grew
    from the parachain's genesis by blocks importers accept, and a development
    service that knows the block, whose clock has moved on and whose mocked relay
    chain is ahead of the block's relay data.  The data the service provides makes
    the runtime create two inherents, which apply one after the other unless their
    output references collide; and with any transactions of the pool that apply
    after them, they make a block that is authored, executes from the same state
    and extends the chain: importers whose clock is not more than the drift behind
    find nothing wrong with it, and the service can author on it in turn, as soon
    as its clock and its relay chain have moved on. *)
Theorem parachain_never_stalls b s hd now hash signed :
  parachain_grows b s → (∀ t, is_Some (decode_value (A := H256) (storage_root V1 t))) →
  client_block hash = Ok (Some signed) → reads_as (signed_block signed) b →
  opaque_header (signed_block signed) = header b →
  number hd = wrapping_add (number (header b)) (trunc 32 1) →
  let relay_number := trunc 32 (1000 + 2 * uval (number hd)) in
  parachain_in_time b now relay_number → (uval now + uval MAX_DRIFT < 2 ^ 64)%N →
  ∃ providers data t1 t2, dev_data_providers now hash = Ok providers ∧
    create_inherent_data providers = Ok data ∧
    inherent_extrinsics data (opened hd s) = Ret [t1; t2] (opened hd s) ∧
    (look s (out_ref t1 0) = None → look s (out_ref t2 0) = None → tx_id t1 ≠ tx_id t2 → ∃ s1,
     apply_all [t1; t2] (opened hd s) = Ret tt s1 ∧
     ∀ l s2, Forall (λ tx, is_inherent (checker tx) = false) l → apply_all l s1 = Ret tt s2 →
     ∃ b' s', extrinsics b' = t1 :: t2 :: l ∧
       author_block hd (t1 :: t2 :: l) s = Ret (header b') s' ∧
       execute_block b' s = Ret tt s' ∧ parachain_grows b' s' ∧
       (∀ importing local, timestamp_data importing = Value local →
          (uval local + uval MAX_DRIFT < 2 ^ 64)%N → (uval now ≤ uval local + uval MAX_DRIFT)%N →
          ∃ results, executive_check_inherents b' importing = Value results ∧
            fatal_error results = false) ∧
       ∀ now' n', (uval (wrapping_add now MINIMUM_TIME_INTERVAL) ≤ uval now')%N →
         (uval relay_number < uval n')%N → parachain_in_time b' now' n').
Proof.
  intros Hg Hroot Hc Hread Hhead Hn relay_number Ht Hnow.
  destruct (mock_provides (wrapping_add (number (header b)) (trunc 32 1))
    (trunc 32 1000) (trunc 32 2) (trunc 32 10)) as (info & Hmock & Hrelay).
  rewrite <-Hn in Hrelay. fold relay_number in Hrelay.
  destruct (dev_data_holds now hash signed b parachain_identifier (scale_encode info) Hc Hread)
    as (providers & data & Hp & Hd & Ha & Hi).
  { rewrite Hhead. by apply put_puts. }
  { apply parachain_parent. }
  { apply parachain_timestamp. }
  assert (parachain_data data = Value info) as Hinfo.
  { unfold parachain_data. by rewrite (Hi _ _), decode_value_encode. }
  assert (relay_parent_number (validation_data info) = relay_number) as Hnumber by exact Hrelay.
  clear Hrelay. rewrite <-Hnumber in Ht.
  destruct (parachain_block_grows b s hd data now info Hg Hroot Hn Ha Hinfo Ht Hnow)
    as (id & id' & Hcreate & Happ).
  exists providers, data, (next_parachain_stamp id now (number hd)), (next_info id' info).
  split; [done|]. split; [done|]. split; [done|]. intros Hnew1 Hnew2 Hne.
  destruct (Happ Hnew1 Hnew2 Hne) as (s1 & Hs1 & Hblock). exists s1. split; [done|].
  intros l s2 Hl Hs2. destruct (Hblock l s2 Hl Hs2) as (b' & s' & Eb & _ & Hauth & Hexec & Hb' & Hc' & Hlater).
  rewrite Hnumber in Hlater. exists b', s'. by repeat (split; [done|]).
Qed.
End development.

(** ** Witnesses *)

Module Witnesses.
Import Sample NodeSample ParachainSample ParachainFacts.Witnesses.

#[local] Existing Instances ParachainPiece.Witnesses.concrete_parachain_primitives.

Abbreviation PTx := (Transaction OuterVerifier ParachainConstraintChecker).

#[export] Instance concrete_data_lawful : LawfulCodec ParachainInherentData.
Proof.
  apply @iso_lawful; [|by intros [? ? [] []]].
  apply lawful_pair; [|apply _]. apply iso_lawful. by intros [].
Qed.

(** An opaque extrinsic of the parachain's node. *)
#[export] Instance parachain_opaque : Opaque := {|
  OpaqueExtrinsic := PTx;
  codec_opaque_extrinsic := _;
|}.
#[export] Instance parachain_opaque_codecs : OpaqueCodecs :=
  iso_codec (B := Header * list OpaqueExtrinsic) (λ b, (opaque_header b, opaque_extrinsics b))
    (λ p, mk_opaque_block p.1 p.2).

(** The genesis of the development parachain, and the header of its first block. *)
Definition parachain_list : list PTx := parachain_clock :: genesis_info :: parachain_endowments.
Definition parachain_header : Header := mk_header H256_zero (trunc 32 0) H256_zero H256_zero tt.
Definition parachain_state : storage :=
  match build parachain_list ∅ with Ret _ s => s | _ => ∅ end.
Definition first_header : Header := mk_header H256_zero (trunc 32 1) H256_zero H256_zero tt.
Definition parachain_parent_block :
    @Block (@rt_host (@pr_runtime concrete_parachain_runtime)) OuterVerifier
      ParachainConstraintChecker :=
  mk_block parachain_header parachain_list.
Definition parachain_block : OpaqueBlock := mk_opaque_block parachain_header parachain_list.

(** The relay data of the mocked relay chain. *)
Definition mocked (number : u32) : Provider :=
  putting parachain_identifier (relay_info (uval number)).

#[local] Instance mocking_node : NodeLibraries := client_of (λ _, Some parachain_block) mocked.
Definition parachain_signed : SignedBlock (NodeLibraries := mocking_node) := parachain_block.
#[local] Instance mocking_node_laws : NodeLaws slot_name := client_laws _ _.
#[export] Instance identifier_laws : IdentifierLaws.
Proof. split; by_vm. Qed.
#[local] Instance mocking_laws : MockLaws.
Proof.
  split. intros current offset per_block per_epoch. eexists. split; [done|].
  apply trunc_uval.
Qed.

Definition first_stamp : PTx :=
  next_parachain_stamp (tx_id parachain_clock) (trunc 64 9000) (trunc 32 1).
Definition first_info : PTx := next_info (tx_id genesis_info) (relay_info 1002).

Lemma parachain_never_stalls_witness :
  ∃ b s, extrinsics b = [first_stamp; first_info] ∧ parachain_grows b s.
Proof.
  destruct (parachain_never_stalls (slot_id := slot_name) parachain_parent_block
    (delete EXTRINSIC_KEY parachain_state) first_header (trunc 64 9000) H256_zero
    parachain_signed) as (ps & data & t1 & t2 & Hps & Hdata & Hi & Hnext).
  - apply (parachain_grows_genesis parachain_parent_block ∅); by_vm.
  - intros t. by eexists.
  - done.
  - unfold reads_as. by_vm.
  - done.
  - by_vm.
  - repeat (apply Forall_cons; split; [split|]); [| | | |constructor].
    + intros stamp Hs. left. vm_compute in Hs. by injection Hs as <-.
    + intros m Hm. by vm_compute in Hm.
    + intros stamp Hs. by vm_compute in Hs.
    + intros m Hm. vm_compute in Hm. by injection Hm as <-.
  - done.
  - injection Hps as <-. vm_compute in Hdata. injection Hdata as <-.
    match type of Hi with ?created = Ret _ ?s =>
      assert (created = Ret [first_stamp; first_info] s) as E end.
    { apply (parachain_inherents_run _ parachain_parent_block parachain_clock genesis_info);
        [split| |constructor|..]; by_vm. }
    rewrite E in Hi. assert (t1 = first_stamp ∧ t2 = first_info) as [-> ->] by (split; congruence).
    clear E Hi. destruct Hnext as (s1 & _ & Hnext); [by_vm..|].
    destruct (Hnext [] s1) as (b & s & Hb & _ & _ & Hg & _); [constructor|done|].
    eexists b, s. split; [exact Hb|exact Hg].
Defined.
End Witnesses.
