(* ===== verification/ParachainLedger.v ===== *)
(** * ParachainLedger: the ledger of the parachain, from its genesis on

    The parachain's checkers are those of the template runtime and one more.  Its
    ledger has the invariants of the template runtime's: payloads are of known types
    and decode as them, and tokens come from the genesis and from mints alone. *)

From S2P Require Import Prelude Effects Scale Types Checker UtxoSet CheckerLaws Executive.
From S2P Require Import Concrete Verifiers Samples ExecutiveFacts Ledger Blocks Genesis Supply.
From S2P Require Import Money LedgerInvariants Timestamp Aggregator TemplateRuntime RuntimeSamples.
From S2P Require Import RuntimeFacts RuntimeGenesis RuntimeTypes.
From S2P Require Import ParachainCore ParachainPiece ParachainRuntime ParachainFacts.
From S2P Require Import WalletSamples NodeSamples ParachainGrowth.

(** ** The promises of the checkers *)

Section checkers.
Context `{ParachainLaws}.
Implicit Types (d : DynamicallyTypedData).
Implicit Types (s : storage).

(** The types of the parachain: those of the pieces, and the relay chain's data. *)
Definition parachain_id (t : option piece_type) : bytesN 4 :=
  match t with Some t => piece_id t | None => TYPE_ID ParachainInherentDataUtxo end.
Definition decodes_as_any (t : option piece_type) d : Prop :=
  match t with Some t => decodes_as t d | None => is_Some (number_of d) end.
Definition parachain_typed d : Prop := ∃ t, type_id d = parachain_id t ∧ decodes_as_any t d.

Lemma parachain_id_inj t u : parachain_id t = parachain_id u → t = u.
Proof.
  destruct t as [t|], u as [u|]; [intros E%piece_id_inj; congruence| | |done];
    intros E; exfalso; revert E; apply (bool_decide_unpack _).
  - destruct t; by_vm.
  - destruct u; by_vm.
Qed.

Lemma well_typed_parachain d : well_typed d → parachain_typed d.
Proof. intros (t & Ht & Hd). by exists (Some t). Qed.

Lemma number_typed d n : number_of d = Some n → parachain_typed d.
Proof. intros Hn. exists None. split; [by eapply number_type|by eexists]. Qed.

Lemma number_foreign d n : number_of d = Some n → coin_of token_id d = None.
Proof.
  intros Hn%number_type. unfold coin_of. destruct (extract (Coin token_id) d) as [c|] eqn:Hc; [|done].
  apply extract_ok in Hc as [Hc _]. rewrite Hn in Hc. exfalso. revert Hc.
  apply (bool_decide_unpack _); by_vm.
Qed.

(** What the inherent of the relay chain accepts. *)
Lemma info_accepts c i e p o s prio s' :
  parachain_check (ParachainInfo c) i e p o s = Ret prio s' →
  ∃ de d m n, i = [] ∧ e = [de] ∧ o = [d] ∧ number_of de = Some m ∧ number_of d = Some n.
Proof.
  destruct c as [c]. cbn [parachain_check]. unfold check_arm. intros Hc%catch_err_ret.
  cbn [check inherent_adapter simple_check set_parachain_info_checker adapted] in Hc.
  apply (set_parachain_info_ok c _ _ p) in Hc as (-> & _ & de & d & m & n & -> & -> & Hm & Hn & _).
  by exists de, d, m, n.
Qed.

#[export] Instance parachain_demands : DemandsOutputs parachain_typed ParachainConstraintChecker.
Proof.
  intros [c|c] i e p o s prio s' Hc; cbn [check parachain_checker] in Hc.
  - cbn [parachain_check] in Hc. unfold check_arm in Hc. apply catch_err_ret in Hc.
    eapply Forall_impl; [exact (outer_outputs_typed _ _ _ _ _ _ _ _ Hc)|].
    apply well_typed_parachain.
  - apply info_accepts in Hc as (_ & d & _ & n & _ & _ & -> & _ & Hn).
    repeat constructor. by eapply number_typed.
Qed.

#[export, refine] Instance parachain_token : TokenChecker token_id ParachainConstraintChecker := {|
  money_of c := match c with Inner c => money_of c | ParachainInfo _ => None end |}.
Proof.
  intros [c|c] i e p o s prio s' Hc; cbn [check parachain_checker] in Hc.
  - cbn [parachain_check] in Hc. unfold check_arm in Hc. apply catch_err_ret in Hc.
    by apply money_of_check in Hc.
  - apply info_accepts in Hc as (de & d & m & n & -> & -> & -> & Hm & Hn).
    repeat constructor; by eapply number_foreign.
Defined.
End checkers.

(** ** The chains of the parachain *)

Section chain.
Context `{ParachainLaws, !LawfulCodec Timestamp, !LawfulCodec ParachainInherentDataUtxo, !MoneyLaws}.
Abbreviation PTx := (Transaction OuterVerifier ParachainConstraintChecker).
Abbreviation PBlock := (Block OuterVerifier ParachainConstraintChecker).
Abbreviation parachain_ledger s := (@ledger_of _ _ _ OuterVerifier verifier_codec s).
Implicit Types (s : storage) (bs : list PBlock).

Lemma one_output P (tx : PTx) u : outputs tx = [u] → P (payload u) → outputs_hold P tx.
Proof. unfold outputs_hold. intros -> Hu. by apply Forall_singleton. Qed.

Lemma endowment_typed owner : outputs_hold parachain_typed (transform Inner (endowment owner) : PTx).
Proof.
  eapply one_output; [done|]. apply well_typed_parachain, (decodes_typed CoinType). eexists.
  unfold coin_of. cbn [payload]. by rewrite extract_from.
Qed.

Lemma genesis_typed :
  Forall (outputs_hold parachain_typed) (parachain_clock :: genesis_info :: parachain_endowments).
Proof.
  apply Forall_cons. split; [|apply Forall_cons; split].
  - eapply one_output; [done|]. apply well_typed_parachain, (decodes_typed TimestampType).
    eexists. unfold timestamp_of. cbn [payload]. by rewrite extract_from.
  - eapply one_output; [done|]. eapply number_typed, genesis_info_number.
  - do 2 (apply Forall_cons; split; [apply endowment_typed|]). constructor.
Qed.

Lemma genesis_created :
  sumN (map created (parachain_clock :: genesis_info :: parachain_endowments)) = 200%N.
Proof.
  assert (∀ owner, created (transform Inner (endowment owner) : PTx) = 100%N) as He.
  { apply minted_endowment. }
  cbn [map parachain_endowments sumN]. rewrite !He.
  assert (created parachain_clock = 0%N ∧ created genesis_info = 0%N) as [-> ->]; [|done].
  split; apply total_foreign, Forall_singleton; cbn [payload].
  - eapply timestamp_foreign. unfold timestamp_of. by rewrite extract_from.
  - eapply number_foreign, genesis_info_number.
Qed.

(** C14: The parachain's ledger, from its genesis on.  Build the development genesis on
    a storage without outputs and import any blocks.  Every payload in the ledger
    then carries the identifier of exactly one of the parachain's types, a piece's
    or the relay chain's data, and decodes as it; and if the blocks' transactions
    name no output twice, the tokens are at most the two hundred of the genesis
    and what the mint transactions of the blocks created.  In particular the relay
    chain's inherents neither create nor hide tokens. *)
Theorem parachain_ledger_sound l s0 s1 bs s :
  parachain_development_genesis = Value l → build l s0 = Ret tt s1 → parachain_ledger s0 = ∅ →
  import_all bs (delete EXTRINSIC_KEY s1) = Ret tt s →
  (∀ o u, parachain_ledger s !! o = Some u →
     ∃ t, decodes_as_any t (payload u) ∧ ∀ t', type_id (payload u) = parachain_id t' ↔ t' = t) ∧
  (Forall (λ b, Forall names_distinct (extrinsics b)) bs →
   (coins s ≤ 200 + sumN (map minted (concat (map extrinsics bs))))%N).
Proof.
  rewrite parachain_genesis_value. intros [= <-] Hb He Hbs. split.
  - intros o u Hu. apply build_ledger in Hb as [_ Hb].
    assert (holds_of parachain_typed (parachain_ledger s)) as Hs.
    { eapply import_all_holds; [apply _|exact Hbs|]. rewrite Hb.
      apply ledger_run_holds; [by rewrite He|apply genesis_typed]. }
    destruct (Hs _ _ Hu) as (t & Ht & Hd). exists t. split; [done|]. intros t'. rewrite Ht.
    split; [by intros E%parachain_id_inj|by intros ->].
  - intros Hd. pose proof (import_all_supply (ID := token_id) _ _ _ Hbs Hd) as Hc.
    pose proof (build_supply_le (ID := token_id) _ _ _ Hb) as Hg.
    rewrite genesis_created in Hg. assert (coins s0 = 0%N) as E0; [|lia].
    unfold LedgerInvariants.coins. by rewrite He.
Qed.
End chain.

(** ** Witnesses *)

Module Witnesses.
Import Sample NodeSample ParachainSample ParachainFacts.Witnesses ParachainGrowth.Witnesses.

#[local] Existing Instances ParachainPiece.Witnesses.concrete_parachain_primitives.

(** The block that follows the genesis in the growth of the chain. *)
Definition second_list : list PTx := [first_stamp; first_info].
Definition second : Header * storage :=
  match author_block first_header second_list (delete EXTRINSIC_KEY parachain_state) with
  | Ret h s => (h, s) | _ => (first_header, ∅)
  end.

Definition second_block : @Block (@rt_host (@pr_runtime concrete_parachain_runtime))
    OuterVerifier ParachainConstraintChecker :=
  mk_block second.1 second_list.

Lemma parachain_ledger_sound_witness :
  (coins second.2 ≤ 200)%N ∧
  ∃ t, decodes_as_any t (payload (mk_output (typed_from (data_utxo_from (relay_info 1002))) nobody)).
Proof.
  destruct (parachain_ledger_sound parachain_list ∅ parachain_state
    [second_block] second.2) as [Ht Hc]; [by_vm..|].
  split.
  - apply Hc. repeat constructor; by_vm.
  - destruct (Ht (out_ref first_info 0) (mk_output (typed_from (data_utxo_from (relay_info 1002))) nobody))
      as (t & Hd & _); [by_vm|]. exists t. exact Hd.
Defined.
End Witnesses.
