(* ===== verification/Collation.v ===== *)
(** * Collation: the relay chain accepts what honest collators author

    A collator authors on a block of the parachain with the data its service and
    Cumulus put together; a validator of the relay chain checks the block on its own
    parameters.  The two agree. *)

From S2P Require Import Prelude Effects Scale Types Checker UtxoSet CheckerLaws Executive Simulation.
From S2P Require Import Concrete Verifiers Samples ExecutiveFacts Ledger Blocks Genesis.
From S2P Require Import Timestamp Aggregator TemplateRuntime RuntimeSamples RuntimeFacts.
From S2P Require Import HostFunctions ParachainCore ValidateBlock.
From S2P Require Import ParachainPiece ParachainRuntime ParachainFacts.
From S2P Require Import Wallet WalletSamples Authoring NodeSamples ChainGrowth ParachainGrowth.

Section collation.
Context `{ParachainLaws, !LawfulCodec Timestamp, !LawfulCodec ParachainInherentDataUtxo}.
Context `{!LawfulCodec ParachainInherentData, !InherentsLaws, !InherentBag, !InherentBagLaws}.
Context `{!LawfulCodec (ParachainBlockData OuterVerifier ParachainConstraintChecker)}.
Context `{Opaque, !OpaqueCodecs, !Codec string, !NodeLibraries, !IdentifierLaws}.
Context {slot_id : bytesN 8} `{!NodeLaws slot_id}.
Context {externalities : Externalities} `{!ValidationPrimitives}.
Abbreviation PTx := (Transaction OuterVerifier ParachainConstraintChecker).
Abbreviation PBlock := (Block OuterVerifier ParachainConstraintChecker).
Abbreviation look s := (@utxo_at _ _ _ OuterVerifier verifier_codec s).
Implicit Types (s : storage) (b : PBlock) (tx : PTx) (l : list PTx) (now : u64).

(** The inherent a validator looks for in a block that opens with the two. *)
Lemma find_next_info id now h id' info l :
  find_inherent_data (next_parachain_stamp id now h :: next_info id' info :: l) = Value info.
Proof.
  unfold find_inherent_data. cbn [take_while].
  change (opens (next_parachain_stamp id now h)) with true.
  change (opens (next_info id' info)) with true. cbn [list_find].
  rewrite decide_False, decide_True by done. cbn [fmap option_fmap option_map prod_map snd partial_expect].
  unfold bind, mbind, partial_bind. cbn [Datatypes.id outputs next_info head partial_expect payload].
  by rewrite extract_from.
Qed.

(** What the validator is given, for a block on [b] with the relay data [info]. *)
Definition collated b info b' proof : MemoryOptimizedValidationParams :=
  mk_params (scale_encode (header b))
    (scale_encode (mk_block_data (header b') (extrinsics b') proof))
    (relay_parent_number (validation_data info)) (relay_parent_storage_root (validation_data info)).

(** The proof of the state [s] that opens with the root in the header of [b] answers for
    the keys that validating [b'] touches. *)
Definition proves b s b' proof : Prop :=
  ∃ db part, to_memory_db proof (state_root (header b)) = Some db ∧
    KnownLaws (touched (validate_run b') s) part ∧
    part (ext_new (new_with_cache db (state_root (header b)))) s.

(** A block of the chain that opens with the data the validator was given. *)
Lemma next_block_validates b s b' s' id now id' info l hd proof :
  execute_block b' s = Ret tt s' → number_at s' = Some (relay_parent_number (validation_data info)) →
  extrinsics b' = next_parachain_stamp id now hd :: next_info id' info :: l →
  parent_hash (header b') = header_hash (header b) →
  parent_head (validation_data info) = scale_encode (header b) → proves b s b' proof →
  validate_block (V := OuterVerifier) (C := ParachainConstraintChecker) (collated b info b' proof) =
  Value (result_of b' (relay_parent_number (validation_data info))).
Proof.
  intros Hx Hn Eb Hp Hhead (db & part & Hdb & Hlaws & Hs).
  eapply covered_block_validates; [|exact Hx|exact Hn|exact Hlaws|exact Hs].
  exists (mk_block_data (header b') (extrinsics b') proof), (header b), info, db.
  unfold collated. cbn [params_block_data params_parent_head params_relay_parent_number
       params_relay_parent_storage_root data_header data_extrinsics data_proof].
  rewrite !decode_value_encode. split; [done|]. split; [by destruct b'|]. split; [done|].
  split; [done|]. split; [|done]. rewrite Eb. apply find_next_info.
Qed.

(** The number it leaves is the validated one, when no other inherent follows. *)
Lemma next_block_number b' s s' id now hd id' info l :
  execute_block b' s = Ret tt s' → Forall (λ tx, is_inherent (checker tx) = false) l →
  extrinsics b' = next_parachain_stamp id now hd :: next_info id' info :: l →
  number_at s' = Some (relay_parent_number (validation_data info)).
Proof.
  intros Hx Hl Eb. rewrite (execute_number _ _ _ Hx), Eb. cbn [last_number].
  change (is_parachain (checker (next_info id' info))) with true.
  rewrite last_number_none; [apply next_info_number|].
  eapply Forall_impl; [exact Hl|]. intros tx Htx. cbv beta in Htx.
  unfold is_parachain, parachain_is_parachain. by destruct (checker tx).
Qed.

(** C11: The relay chain accepts what an honest collator authors.  Take any block of a
    chain that grew from the parachain's genesis, and a collator that knows the
    block, whose clock has moved on, and to which Cumulus hands relay data with the
    block's header as the parent head and a relay parent that is ahead.  From this
    data the runtime creates two inherents, which apply unless their output
    references collide; and every block of them and of transactions of the pool,
    authored on the header that names its parent, extends the chain.  A validator
    that is given the parent's header, the relay parent of the collator's data and
    the block, with any proof of the parent's state that answers for the keys that
    executing the block touches, accepts it: its result is the collation information
    the collator announces, with the relay parent as the watermark and the authored
    header as the head data. *)
Theorem collated_block_validates b s hd now hash signed info :
  parachain_grows b s → (∀ t, is_Some (decode_value (A := H256) (storage_root V1 t))) →
  client_block hash = Ok (Some signed) → reads_as (signed_block signed) b →
  number hd = wrapping_add (number (header b)) (trunc 32 1) →
  parent_hash hd = header_hash (header b) →
  parent_head (validation_data info) = scale_encode (header b) →
  let n := relay_parent_number (validation_data info) in
  parachain_in_time b now n → (uval now + uval MAX_DRIFT < 2 ^ 64)%N →
  ∃ providers bag data t1 t2, collator_data_providers now hash = Ok providers ∧
    create_inherent_data providers = Ok bag ∧ put_data bag parachain_identifier info = Ok data ∧
    inherent_extrinsics data (opened hd s) = Ret [t1; t2] (opened hd s) ∧
    (look s (out_ref t1 0) = None → look s (out_ref t2 0) = None → tx_id t1 ≠ tx_id t2 → ∃ s1,
     apply_all [t1; t2] (opened hd s) = Ret tt s1 ∧
     ∀ l s2, Forall (λ tx, is_inherent (checker tx) = false) l → apply_all l s1 = Ret tt s2 →
     ∃ b' s' result, extrinsics b' = t1 :: t2 :: l ∧
       author_block hd (t1 :: t2 :: l) s = Ret (header b') s' ∧ parachain_grows b' s' ∧
       (∀ proof, proves b s b' proof →
          validate_block (V := OuterVerifier) (C := ParachainConstraintChecker)
            (collated b info b' proof) = Value result) ∧
       (collect_collation_info (header b') : M storage Empty_set CollationInfo) s' = Ret result s' ∧
       hrmp_watermark result = n ∧ head_data result = scale_encode (header b')).
Proof.
  intros Hg Hroot Hc Hread Hn Hpar Hhead n Ht Hnow.
  destruct (collator_data_authors now hash signed b parachain_identifier info Hc Hread
    parachain_parent parachain_timestamp) as (providers & bag & data & Hp & Hb & Hput & Ha & Hi).
  assert (parachain_data data = Value info) as Hinfo.
  { unfold parachain_data. by rewrite (Hi _ _), decode_value_encode. }
  destruct (parachain_block_grows b s hd data now info Hg Hroot Hn Ha Hinfo Ht Hnow)
    as (id & id' & Hcreate & Happ).
  exists providers, bag, data, (next_parachain_stamp id now (number hd)), (next_info id' info).
  do 4 (split; [done|]). intros Hnew1 Hnew2 Hne.
  destruct (Happ Hnew1 Hnew2 Hne) as (s1 & Hs1 & Hblock). exists s1. split; [done|].
  intros l s2 Hl Hs2.
  destruct (Hblock l s2 Hl Hs2) as (b' & s' & Eb & Epar & Hauth & Hexec & Hgrows & _).
  pose proof (next_block_number _ _ _ _ _ _ _ _ _ Hexec Hl Eb) as Hnum.
  exists b', s', (result_of b' n). do 3 (split; [done|]). split; [|split; [|done]].
  - intros proof Hproof. eapply next_block_validates; [exact Hexec|exact Hnum|exact Eb| |done|done].
    by rewrite Epar.
  - apply bind_ret_inv. exists n, s'. by rewrite relay_parent_number_get_ret.
Qed.
End collation.

(** ** Witnesses *)

Module Witnesses.
Import Sample NodeSample ParachainSample ParachainFacts.Witnesses ParachainGrowth.Witnesses.
Import ValidationSample MapExternalities.

#[local] Existing Instances ParachainPiece.Witnesses.concrete_parachain_primitives.

Abbreviation PTx := (Transaction OuterVerifier ParachainConstraintChecker).
Abbreviation RuntimeBlock := (@Block (@rt_host (@pr_runtime concrete_parachain_runtime))
  OuterVerifier ParachainConstraintChecker).

#[local] Instance block_data_lawful :
  LawfulCodec (ParachainBlockData OuterVerifier ParachainConstraintChecker).
Proof.
  apply @iso_lawful; [|by intros []]. repeat apply lawful_pair; try apply _.
Qed.

(** The genesis block, with the root of its state in the header. *)
Definition parent_state : storage := delete EXTRINSIC_KEY parachain_state.
Definition parent_header : Header :=
  mk_header H256_zero (trunc 32 0) (to_bytesN 32 (storage_root V1 parent_state)) H256_zero tt.
Definition parent : RuntimeBlock := mk_block parent_header parachain_list.
Definition parent_opaque : OpaqueBlock := mk_opaque_block parent_header parachain_list.
Definition parent_proof : StorageProof := all_recorded (map_to_list parent_state).
Definition next_header : Header :=
  mk_header (header_hash parent_header) (trunc 32 1) H256_zero H256_zero tt.

(** The relay chain is at block eleven. *)
Definition relay_eleven : ParachainInherentData :=
  mk_inherent_data (mk_validation_data (scale_encode parent_header) (trunc 32 11) H256_zero
    (trunc 32 0)) [] tt tt.

#[local] Instance collating_node : NodeLibraries := client_of (λ _, Some parent_opaque) no_mock.
#[local] Instance collating_laws : NodeLaws slot_name := client_laws _ _.
Definition parent_signed : SignedBlock (NodeLibraries := collating_node) := parent_opaque.

Definition collator_stamp : PTx :=
  next_parachain_stamp (tx_id parachain_clock) (trunc 64 9000) (trunc 32 1).
Definition collator_info : PTx := next_info (tx_id genesis_info) relay_eleven.

(** The proof records every key. *)
Lemma parent_proves (b : RuntimeBlock) : proves parent parent_state b parent_proof.
Proof.
  exists (parent_state, ∅), (λ (x : overlay) s, main_storage x = s ∧
    touched (validate_run b) parent_state ## withheld x).
  split; [by_vm|]. split; [apply map_known_laws|]. split; [done|set_solver].
Qed.

Lemma collated_block_validates_witness :
  ∃ b p result, extrinsics b = [collator_stamp; collator_info] ∧
    validate_block (V := OuterVerifier) (C := ParachainConstraintChecker) p = Value result ∧
    hrmp_watermark result = trunc 32 11 ∧ head_data result = scale_encode (header b).
Proof.
  destruct (collated_block_validates (slot_id := slot_name) parent parent_state next_header
    (externalities := map_externalities) (trunc 64 9000) H256_zero parent_signed relay_eleven)
    as (ps & bag & data & t1 & t2 & Hps & Hbag & Hdata & Hi & Hnext).
  - apply (parachain_grows_genesis parent ∅); by_vm.
  - intros t. by eexists.
  - done.
  - unfold reads_as. by_vm.
  - done.
  - done.
  - done.
  - repeat (apply Forall_cons; split; [split|]); [| | | |constructor].
    + intros stamp Hs. left. vm_compute in Hs. by injection Hs as <-.
    + intros m Hm. by vm_compute in Hm.
    + intros stamp Hs. by vm_compute in Hs.
    + intros m Hm. vm_compute in Hm. by injection Hm as <-.
  - done.
  - injection Hps as <-. vm_compute in Hbag. injection Hbag as <-.
    vm_compute in Hdata. injection Hdata as <-.
    match type of Hi with ?created = Ret _ ?s =>
      assert (created = Ret [collator_stamp; collator_info] s) as E end.
    { apply (parachain_inherents_run _ parent parachain_clock genesis_info);
        [split| |constructor|..]; by_vm. }
    assert (t1 = collator_stamp ∧ t2 = collator_info) as [-> ->] by (split; congruence).
    clear E Hi. destruct Hnext as (s1 & _ & Hnext); [by_vm..|].
    destruct (Hnext [] s1) as (b & s & result & Hb & _ & _ & Hv & _ & Hw & Hh); [constructor|done|].
    exists b, (collated parent relay_eleven b parent_proof), result. split; [exact Hb|].
    split; [apply Hv, parent_proves|]. split; [exact Hw|exact Hh].
Defined.
End Witnesses.
