(* ===== verification/RuntimeApi.v ===== *)
(** * RuntimeApi: the runtimes as the node calls them

    Models the runtime API implementations and the constants of
    [tuxedo-template-runtime/src/lib.rs] and [tuxedo-parachain-runtime/src/lib.rs].
    An API trait of Substrate is a record of its functions, a runtime's
    implementation of it a value of the record.  Session keys are generated in the
    host's keystore and are not modelled. *)

From S2P Require Import Prelude Effects Scale Types Checker UtxoSet CheckerLaws Executive.
From S2P Require Import Verifiers Genesis ParachainCore ParachainPiece TemplateRuntime.
From S2P Require Import RuntimeFacts RuntimeGenesis ParachainRuntime.
From S2P Require Import Wallet WalletRpc WalletKeystore WalletMain WalletStrings.

(** ** What Substrate's crates define *)

(** [sp_version::RuntimeVersion] *)
Record RuntimeVersion : Type := mk_version {
  spec_name : string;
  impl_name : string;
  authoring_version : u32;
  spec_version : u32;
  impl_version : u32;
  apis : list (bytesN 8 * u32);
  transaction_version : u32;
  state_version : u8;
}.

(** [sp_runtime]'s [TransactionSource] *)
Inductive TransactionSource : Type := InBlock | Local | External.

(** The keys of the consensus authorities, Grandpa's proofs, and the list of
    implemented APIs that [impl_runtime_apis!] generates. *)
Class ApiPrimitives : Type := {
  AuraId : Type;
  aura_from_slice : bytes → option AuraId;
  GrandpaId : Type;
  grandpa_from_slice : bytes → option GrandpaId;
  EquivocationProof : Type;
  OpaqueKeyOwnershipProof : Type;
  RUNTIME_API_VERSIONS : list (bytesN 8 * u32);
  PARACHAIN_RUNTIME_API_VERSIONS : list (bytesN 8 * u32);
}.
(** [ByteArray::from_slice] of a public key accepts the slices of its length. *)
Class ApiLaws `{ApiPrimitives} : Prop := {
  aura_slice b : List.length b = 32 → is_Some (aura_from_slice b);
  grandpa_slice b : List.length b = 32 → is_Some (grandpa_from_slice b);
}.

(** [serde_json] at one type. *)
Class SerdeJson (A : Type) : Type := {
  to_vec : A → option bytes;
  from_slice : bytes → option A;
}.
Class SerdeJsonLaws (A : Type) `{SerdeJson A} : Prop :=
  json_round_trip a : ∃ b, to_vec a = Some b ∧ from_slice b = Some a.

(** ** The API traits *)

Section block_traits.
Context `{CoreCodecs, Inherents} {V C : Type}.

(** [sp_api::Core], [sp_block_builder::BlockBuilder] and
    [TaggedTransactionQueue] *)
Record CoreApi : Type := mk_core {
  version : RuntimeVersion;
  core_execute_block : Block V C → M storage Empty_set unit;
  initialize_block : Header → M storage Empty_set ExtrinsicInclusionMode;
}.
Record BlockBuilder : Type := mk_builder {
  builder_apply_extrinsic : Transaction V C → M storage InvalidTransaction unit;
  finalize_block : M storage Empty_set Header;
  builder_inherent_extrinsics : InherentData → M storage Empty_set (list (Transaction V C));
  builder_check_inherents : Block V C → InherentData → partial CheckInherentsResult;
}.
Record TransactionQueue : Type := mk_queue {
  queue_validate_transaction :
    TransactionSource → Transaction V C → H256 → M storage InvalidTransaction ValidTransaction;
}.
End block_traits.

(** [sp_api::Metadata] (opaque bytes) and [sp_genesis_builder::GenesisBuilder] *)
Record MetadataApi : Type := mk_metadata_api {
  metadata : bytes;
  metadata_at_version : u32 → option bytes;
  metadata_versions : list u32;
}.
Record GenesisBuilder : Type := mk_genesis_builder {
  create_default_config : partial bytes;
  build_config : bytes → M storage string unit;
}.

(** [AuraApi] and [GrandpaApi]; an authority list has weights, a set identifier is
    a [u64]. *)
Record AuraApi `{ApiPrimitives} : Type := mk_aura {
  slot_duration : u64;
  authorities : partial (list AuraId);
}.
Record GrandpaApi `{ApiPrimitives} : Type := mk_grandpa {
  authority_list : partial (list (GrandpaId * u64));
  current_set_id : u64;
  submit_report_equivocation : EquivocationProof → OpaqueKeyOwnershipProof → option unit;
  generate_key_ownership_proof : u64 → GrandpaId → option OpaqueKeyOwnershipProof;
}.

(** The Aura slot duration, in milliseconds: the same in both runtimes. *)
Definition BLOCK_TIME : u64 := trunc 64 3000.

Definition invalid_json : string := "The input JSON is not a valid list of Transactions.".

(** ** The template runtime *)

Section template.
Context `{RuntimeParameters, ApiPrimitives, !Codec TuxedoMetadata}.
Context `{!SerdeJson (list (Transaction OuterVerifier OuterConstraintChecker))}.
Abbreviation V := OuterVerifier.
Abbreviation C := OuterConstraintChecker.
#[local] Existing Instances verifier_codec checker_codec.

Definition VERSION : RuntimeVersion := {|
  spec_name := "tuxedo-template-runtime";
  impl_name := "tuxedo-template-runtime";
  authoring_version := trunc 32 1;
  spec_version := trunc 32 1;
  impl_version := trunc 32 1;
  apis := RUNTIME_API_VERSIONS;
  transaction_version := trunc 32 1;
  state_version := trunc 8 1;
|}.

(** [Runtime::aura_authorities] and [Runtime::grandpa_authorities]: Alice's keys. *)
Definition aura_authorities : partial (list AuraId) :=
  mapM (λ hex, partial_expect (aura_from_slice hex) "Valid Aura authority hex was provided")
    [hex "d43593c715fdd31c61141abd04a99fd6822c8558854ccde39a5684e7a56da27d"].
Definition grandpa_authorities : partial (list (GrandpaId * u64)) :=
  mapM (λ hex, id ← partial_expect (grandpa_from_slice hex) "Valid Grandpa authority hex was provided";
               mret (id, trunc 64 1))
    [hex "88dc3417d5058ec4b4503e0c12ea1a0a89be200fe98922423d4334014fa6b0ee"].

(** [impl_runtime_apis!] *)
Definition template_core : CoreApi (V := V) (C := C) := {|
  version := VERSION;
  core_execute_block := execute_block;
  initialize_block := open_block;
|}.
Definition template_builder : BlockBuilder (V := V) (C := C) := {|
  builder_apply_extrinsic := apply_extrinsic;
  finalize_block := close_block;
  builder_inherent_extrinsics := inherent_extrinsics;
  builder_check_inherents := executive_check_inherents;
|}.
Definition template_queue : TransactionQueue (V := V) (C := C) := {|
  queue_validate_transaction _source tx _block_hash := validate_transaction tx;
|}.
Definition template_metadata : MetadataApi := {|
  metadata := scale_encode default_metadata;
  metadata_at_version _version := None;
  metadata_versions := [];
|}.
Definition template_aura : AuraApi := {|
  slot_duration := BLOCK_TIME;
  authorities := aura_authorities;
|}.
Definition template_grandpa : GrandpaApi := {|
  authority_list := grandpa_authorities;
  current_set_id := trunc 64 0;
  submit_report_equivocation _equivocation_proof _key_owner_proof := None;
  generate_key_ownership_proof _set_id _authority_id := None;
|}.
Definition template_genesis : GenesisBuilder := {|
  create_default_config :=
    l ← development_genesis_transactions;
    partial_expect (to_vec l) "Development genesis transactions are valid.";
  build_config config :=
    genesis_transactions ← lift_result (ok_or
      (from_slice (A := list (Transaction V C)) config) invalid_json);
    build genesis_transactions;
|}.
End template.

(** ** The parachain runtime *)

Section parachain.
Context `{ParachainParameters, ApiPrimitives, !Codec TuxedoMetadata}.
Context `{!SerdeJson (list (Transaction OuterVerifier ParachainConstraintChecker))}.
Abbreviation V := OuterVerifier.
Abbreviation C := ParachainConstraintChecker.
#[local] Existing Instances verifier_codec checker_codec.

Definition PARACHAIN_VERSION : RuntimeVersion := {|
  spec_name := "tuxedo-parachain-runtime";
  impl_name := "tuxedo-parachain-runtime";
  authoring_version := trunc 32 1;
  spec_version := trunc 32 1;
  impl_version := trunc 32 1;
  apis := PARACHAIN_RUNTIME_API_VERSIONS;
  transaction_version := trunc 32 1;
  state_version := trunc 8 1;
|}.

Definition parachain_aura_authorities : partial (list AuraId) :=
  mapM (λ hex, partial_expect (aura_from_slice hex) "Valid Aura authority hex was provided")
    [hex "d43593c715fdd31c61141abd04a99fd6822c8558854ccde39a5684e7a56da27d"].

Definition parachain_core : CoreApi (V := V) (C := C) := {|
  version := PARACHAIN_VERSION;
  core_execute_block := execute_block;
  initialize_block := open_block;
|}.
Definition parachain_builder : BlockBuilder (V := V) (C := C) := {|
  builder_apply_extrinsic := apply_extrinsic;
  finalize_block := close_block;
  builder_inherent_extrinsics := inherent_extrinsics;
  builder_check_inherents := executive_check_inherents;
|}.
Definition parachain_queue : TransactionQueue (V := V) (C := C) := {|
  queue_validate_transaction _source tx _block_hash := validate_transaction tx;
|}.
Definition parachain_metadata : MetadataApi := {|
  metadata := scale_encode new_parachain;
  metadata_at_version _version := None;
  metadata_versions := [];
|}.
Definition parachain_aura : AuraApi := {|
  slot_duration := BLOCK_TIME;
  authorities := parachain_aura_authorities;
|}.
Definition parachain_genesis : GenesisBuilder := {|
  create_default_config :=
    l ← parachain_development_genesis;
    partial_expect (to_vec l) "Development genesis transactions are valid.";
  build_config config :=
    genesis_transactions ← lift_result (ok_or
      (from_slice (A := list (Transaction V C)) config) invalid_json);
    build genesis_transactions;
|}.
(** [CollectCollationInfo] *)
Definition parachain_collation (header : Header) : M storage Empty_set CollationInfo :=
  collect_collation_info header.
End parachain.

(** ** What the APIs promise *)

Section authorities.
Context `{ApiLaws}.

(** The hard-coded keys have the length of a key, so that the node always gets its
    authorities. *)
Lemma authorities_valid :
  (∃ alice, aura_authorities = Value [alice] ∧ parachain_aura_authorities = Value [alice]) ∧
  ∃ alice, grandpa_authorities = Value [(alice, trunc 64 1)].
Proof.
  split.
  - destruct (aura_slice (hex "d43593c715fdd31c61141abd04a99fd6822c8558854ccde39a5684e7a56da27d"))
      as [alice Ha]; [reflexivity|].
    exists alice. unfold aura_authorities, parachain_aura_authorities. cbn [mapM].
    by rewrite Ha.
  - destruct (grandpa_slice (hex "88dc3417d5058ec4b4503e0c12ea1a0a89be200fe98922423d4334014fa6b0ee"))
      as [alice Ha]; [reflexivity|].
    exists alice. unfold grandpa_authorities. cbn [mapM]. by rewrite Ha.
Qed.
End authorities.

Section template_config.
Context `{RuntimeLaws, ApiPrimitives}.
Context `{!SerdeJson (list (Transaction OuterVerifier OuterConstraintChecker)), !SerdeJsonLaws _}.

(** The configuration a runtime proposes is one it builds: the state of the
    development genesis. *)
Lemma default_config_builds s :
  ∃ config, create_default_config template_genesis = Value config ∧
    build_config template_genesis config s = build (genesis_clock :: endowments) s ∧
    ∃ s', build_config template_genesis config s = Ret tt s'.
Proof.
  destruct (json_round_trip (genesis_clock :: endowments)) as (config & Ht & Hf).
  exists config. unfold template_genesis. cbn [create_default_config build_config].
  rewrite development_value. cbn. rewrite Ht, Hf. split; [done|]. split; [done|].
  eexists. apply development_builds.
Qed.
End template_config.

Section parachain_config.
Context `{ParachainLaws, ApiPrimitives}.
Context `{!SerdeJson (list (Transaction OuterVerifier ParachainConstraintChecker)), !SerdeJsonLaws _}.

Lemma parachain_config_builds s :
  ∃ config l s', create_default_config parachain_genesis = Value config ∧
    parachain_development_genesis = Value l ∧ List.length l = 4 ∧
    build_config parachain_genesis config s = build l s ∧ build l s = Ret tt s'.
Proof.
  assert (∃ l, parachain_development_genesis = Value l ∧ List.length l = 4 ∧
    ∃ s', build l s = Ret tt s') as (l & Hl & Hn & s' & Hs).
  { eexists. split; [reflexivity|]. split; [reflexivity|]. eexists.
    apply build_ret. split; [by repeat constructor|]. split; [by repeat constructor|done]. }
  destruct (json_round_trip l) as (config & Ht & Hf).
  exists config, l, s'. unfold parachain_genesis. cbn [create_default_config build_config].
  rewrite Hl. cbn. by rewrite Ht, Hf.
Qed.
End parachain_config.

(** ** The wallet in front of a runtime *)

Section wallet.
Context `{ParachainLaws, ApiPrimitives, !WalletParachainCodec, Sled, Opaque, !OpaqueCodecs}.
Context `{HexCrate, !HexLaws, !NodeClient, !KeystoreLibrary}.
Context `{!Codec TuxedoMetadata, !LawfulCodec TuxedoMetadata}.

(** The metadata a node serves for one of the two runtimes. *)
Definition served_metadata (is_parachain : bool) : bytes :=
  metadata (if is_parachain then parachain_metadata else template_metadata).

Lemma metadata_detected (is_parachain : bool) {S} (s : S) :
  state_getMetadata = Ok (Some ("0x" ++ hex_encode (served_metadata is_parachain))%string) →
  node_get_metadata s = Ret (mk_metadata tt is_parachain) s.
Proof.
  intros E. unfold node_get_metadata. rewrite E.
  assert (served_metadata is_parachain = scale_encode (mk_metadata tt is_parachain)) as ->
    by by destruct is_parachain.
  rewrite bind_lift_ok. cbn [expect]. rewrite bind_mret. unfold metadata_from_string.
  rewrite strip_prefixed by apply hex_boundary, hex_chars. cbn [lift_partial].
  rewrite bind_mret, hex_decode_encode, bind_ok_or. by rewrite decode_value_encode.
Qed.

(** The wallet follows the chain, and submits transactions, with the checker of the
    runtime behind the node. *)
Lemma wallet_detects_chain (is_parachain : bool) fuel recovered waits confirmation cli st :
  state_getMetadata = Ok (Some ("0x" ++ hex_encode (served_metadata is_parachain))%string) →
  main fuel recovered waits confirmation cli st =
  ((if dev cli then on_keys insert_development_key_for_this_session else mret tt);;
   start_and_run is_parachain fuel recovered waits confirmation cli) st.
Proof.
  intros E. unfold main. rewrite !bind_run.
  match goal with |- match ?first with _ => _ end = _ => destruct first as [[] [db keystore]|e st'|w] end;
    [|done..].
  rewrite bind_run. unfold on_db at 1. by rewrite (metadata_detected is_parachain).
Qed.
End wallet.
