(* ===== verification/ChainSpecs.v ===== *)
(** * ChainSpecs: the chains the nodes start with

    Models [chain_spec.rs] of both nodes, the specifications their command lines load
    ([load_spec] in [command.rs]) and the relay chain the collator starts
    ([RelayChainCli] in [cli.rs] and [command.rs], and what [run] does when there is
    no subcommand).  A specification of this code starts the chain whose growth is
    the subject of [ChainGrowth] and [ParachainGrowth]. *)

From S2P Require Import Prelude Effects Scale Types Checker UtxoSet CheckerLaws Executive.
From S2P Require Import Concrete Verifiers Samples ExecutiveFacts Ledger Blocks Genesis Timestamp.
From S2P Require Import RuntimeUpgrade TemplateRuntime RuntimeSamples RuntimeFacts RuntimeGenesis.
From S2P Require Import ParachainCore ParachainPiece ParachainRuntime ParachainFacts RuntimeApi.
From S2P Require Import NodeSamples ChainGrowth ParachainGrowth.

(** ** Substrate's chain specifications *)

(** JSON values ([serde_json::Value]), and the patches of [sc_chain_spec]. *)
Class JsonValues : Type := {
  Json : Type;
  json_to_vec : Json → bytes;
  json_from_slice : bytes → option Json;
  json_merge : Json → Json → Json;
}.
(** [serde_json::json!] at one type *)
Class ToJson (A : Type) `{JsonValues} : Type := to_json : A → Json.

(** A value and its serialization are the same JSON; a patch that is an array
    replaces what it is merged into. *)
Class JsonLaws (A : Type) `{JsonValues, !ToJson (list A), !SerdeJson (list A)} : Prop := {
  json_slice l : from_slice (json_to_vec (to_json l)) = Some l;
  json_vec l : ∃ b, to_vec l = Some b ∧ is_Some (json_from_slice b);
  json_array l config : json_merge config (to_json l) = to_json l;
}.

(** What a specification is made of; [E] is the type of the extensions. *)
Record SpecFields (E : Type) `{JsonValues} (ChainType : Type) : Type := mk_fields {
  spec_code : bytes;
  spec_extensions : E;
  spec_title : option string;
  spec_id : option string;
  spec_type : option ChainType;
  spec_patch : option Json;
  spec_protocol : option string;
}.
Arguments mk_fields {E _ ChainType} _ _ _ _ _ _ _.
Arguments spec_code {E _ ChainType} _.
Arguments spec_extensions {E _ ChainType} _.
Arguments spec_title {E _ ChainType} _.
Arguments spec_id {E _ ChainType} _.
Arguments spec_type {E _ ChainType} _.
Arguments spec_patch {E _ ChainType} _.
Arguments spec_protocol {E _ ChainType} _.

(** [sc_chain_spec::GenericChainSpec] with its builder.  The storage of a genesis is
    built by the runtime in the specification, of which the API is the argument. *)
Class ChainSpecLibrary `{JsonValues} : Type := {
  ChainType : Type;
  Development : ChainType;
  LocalTestnet : ChainType;
  ChainSpecBuilder : Type → Type;
  GenericChainSpec : Type → Type;
  builder {E} : bytes → E → ChainSpecBuilder E;
  with_name {E} : ChainSpecBuilder E → string → ChainSpecBuilder E;
  with_id {E} : ChainSpecBuilder E → string → ChainSpecBuilder E;
  with_chain_type {E} : ChainSpecBuilder E → ChainType → ChainSpecBuilder E;
  with_genesis_config_patch {E} : ChainSpecBuilder E → Json → ChainSpecBuilder E;
  with_protocol_id {E} : ChainSpecBuilder E → string → ChainSpecBuilder E;
  build_spec {E} : ChainSpecBuilder E → GenericChainSpec E;
  from_json_file {E} : string → result string (GenericChainSpec E);
  get_extension {E} : GenericChainSpec E → option E;
  spec_storage {E} : GenesisBuilder → GenericChainSpec E → result string storage;
}.

(** The genesis of a runtime: its default configuration, with the patch, given to
    [build_config] on an empty storage; the code goes where the host looks for it. *)
Definition patched_storage `{JsonValues, WellKnownKeys} (api : GenesisBuilder) (code : bytes)
    (patch : Json) : result string storage :=
  match create_default_config api with
  | Panicked why => Err why
  | Value default_config =>
    config ← ok_or (json_from_slice default_config) "invalid default configuration";
    match build_config api (json_to_vec (json_merge config patch)) ∅ with
    | Ret _ s => Ok (<[CODE := code]> s)
    | Throw why _ => Err why
    | Panic why => Err why
    end
  end.

(** Documented behaviour of the builder: it collects the fields. *)
Class ChainSpecLaws `{ChainSpecLibrary, WellKnownKeys} : Type := {
  fields {E} : ChainSpecBuilder E → SpecFields E ChainType;
  fields_builder {E} code (e : E) : fields (builder code e) = mk_fields code e None None None None None;
  fields_name {E} (b : ChainSpecBuilder E) name : fields (with_name b name) =
    let 'mk_fields c e _ i t p o := fields b in mk_fields c e (Some name) i t p o;
  fields_id {E} (b : ChainSpecBuilder E) id : fields (with_id b id) =
    let 'mk_fields c e n _ t p o := fields b in mk_fields c e n (Some id) t p o;
  fields_type {E} (b : ChainSpecBuilder E) type : fields (with_chain_type b type) =
    let 'mk_fields c e n i _ p o := fields b in mk_fields c e n i (Some type) p o;
  fields_patch {E} (b : ChainSpecBuilder E) patch : fields (with_genesis_config_patch b patch) =
    let 'mk_fields c e n i t _ o := fields b in mk_fields c e n i t (Some patch) o;
  fields_protocol {E} (b : ChainSpecBuilder E) protocol : fields (with_protocol_id b protocol) =
    let 'mk_fields c e n i t p _ := fields b in mk_fields c e n i t p (Some protocol);
  built_extension {E} (b : ChainSpecBuilder E) :
    get_extension (build_spec b) = Some (spec_extensions (fields b));
  built_storage {E} (b : ChainSpecBuilder E) api patch : spec_patch (fields b) = Some patch →
    spec_storage api (build_spec b) = patched_storage api (spec_code (fields b)) patch;
}.

(** ** The template node *)

Section node.
Context `{RuntimeParameters, ChainSpecLibrary}.
Context `{!ToJson (list (Transaction OuterVerifier OuterConstraintChecker))}.
(** The compiled runtime, if it was built. *)
Context (WASM_BINARY : option bytes).

Definition development_genesis_config : partial Json :=
  l ← development_genesis_transactions; mret (to_json l).

(** [ChainSpec], whose extensions are none. *)
Abbreviation ChainSpec := (GenericChainSpec (option unit)).

Definition no_wasm : string := "Development wasm not available".

Definition development_config : partial (result string ChainSpec) :=
  match ok_or WASM_BINARY no_wasm with
  | Err e => mret (Err e)
  | Ok code =>
    config ← development_genesis_config;
    let b := builder code None in
    let b := with_name b "Development" in
    let b := with_id b "dev" in
    let b := with_chain_type b Development in
    let b := with_genesis_config_patch b config in
    mret (Ok (build_spec b))
  end.

Definition local_testnet_config : partial (result string ChainSpec) :=
  match ok_or WASM_BINARY no_wasm with
  | Err e => mret (Err e)
  | Ok code =>
    config ← development_genesis_config;
    let b := builder code None in
    let b := with_name b "Local Testnet" in
    let b := with_id b "local_testnet" in
    let b := with_chain_type b LocalTestnet in
    let b := with_genesis_config_patch b config in
    mret (Ok (build_spec b))
  end.

(** [SubstrateCli::load_spec] of the template node *)
Definition load_spec (id : string) : partial (result string ChainSpec) :=
  if bool_decide (id = "dev") then development_config
  else if bool_decide (id = "") || bool_decide (id = "local") then local_testnet_config
  else mret (from_json_file id).
End node.

(** ** The collator *)

(** What both nodes take from [sc_service] and [sc_cli]. *)
Class ConfigurationLibrary `{ChainSpecLibrary} : Type := {
  (** [sc_service::Configuration], with its chain specification and its base path *)
  Configuration : Type → Type;
  chain_spec {E} : Configuration E → GenericChainSpec E;
  base_path_of {E} : Configuration E → string;
  CliError : Type;
  error_message : string → CliError;
  (** the commands of [sc_cli] *)
  KeySubcommand : Type;
  BuildSpecCmd : Type;
  CheckBlockCmd : Type;
  ExportBlocksCmd : Type;
  ExportStateCmd : Type;
  ImportBlocksCmd : Type;
  PurgeChainCmd : Type;
  RevertCmd : Type;
  ChainInfoCmd : Type;
  RunCmd : Type;
}.

(** What the collator takes from [polkadot_cli], [cumulus_client_cli] and the standard
    library. *)
Class CollatorLibraries `{ConfigurationLibrary} : Type := {
  path_join : string → string → string;
  display_error : CliError → string;
  (** [polkadot_cli::RunCmd] *)
  RelayRunCmd : Type;
  parse_from : list string → RelayRunCmd;
  run_cmd_chain_id : RelayRunCmd → bool → result CliError string;
  run_cmd_base_path : RelayRunCmd → result CliError (option string);
  executable_name : string;
  CollatorOptions : Type;
  (** the relay chain's own configuration *)
  RelayConfiguration : Type;
  (** the commands of [cumulus_client_cli] *)
  CumulusPurgeChainCmd : Type;
  ExportGenesisHeadCommand : Type;
  ExportGenesisWasmCommand : Type;
  (** [shared_params.chain] *)
  wasm_command_chain : ExportGenesisWasmCommand → option string;
  CumulusRunCmd : Type;
  (** [base.shared_params.dev] *)
  run_dev : CumulusRunCmd → bool;
  run_collator_options : CumulusRunCmd → CollatorOptions;
  NormalizedRunCmd : Type;
  normalize : CumulusRunCmd → NormalizedRunCmd;
}.

(** [chain_spec::Extensions] *)
Record Extensions : Type := mk_extensions { relay_chain : string; para_id : u32 }.

(** [cli::RelayChainCli] *)
Record RelayChainCli `{CollatorLibraries} : Type := mk_relay_cli {
  relay_base : RelayRunCmd;
  relay_chain_id : option string;
  relay_base_path : option string;
}.

(** [cli::Subcommand] and [cli::Cli] of the collator *)
Inductive CollatorSubcommand `{CollatorLibraries} : Type :=
| CollatorBuildSpec (cmd : BuildSpecCmd)
| CollatorCheckBlock (cmd : CheckBlockCmd)
| CollatorExportBlocks (cmd : ExportBlocksCmd)
| CollatorExportState (cmd : ExportStateCmd)
| CollatorImportBlocks (cmd : ImportBlocksCmd)
| CollatorRevert (cmd : RevertCmd)
| CollatorPurgeChain (cmd : CumulusPurgeChainCmd)
| CollatorExportGenesisState (cmd : ExportGenesisHeadCommand)
| CollatorExportGenesisHead (cmd : ExportGenesisHeadCommand)
| CollatorExportGenesisWasm (cmd : ExportGenesisWasmCommand).

Record CollatorCli `{CollatorLibraries} : Type := mk_collator_cli {
  collator_subcommand : option CollatorSubcommand;
  collator_run : CumulusRunCmd;
  no_hardware_benchmarks : bool;
  relay_chain_args : list string;
}.

Arguments mk_relay_cli {_ _ _ _} _ _ _.
Arguments mk_collator_cli {_ _ _ _} _ _ _ _.

Section collator.
Context `{ParachainParameters, CollatorLibraries}.
Context `{!ToJson (list (Transaction OuterVerifier ParachainConstraintChecker))}.
Context (WASM_BINARY : option bytes).

Abbreviation ChainSpec := (GenericChainSpec Extensions).

(** [Extensions::try_get] *)
Definition try_get (spec : ChainSpec) : option Extensions := get_extension spec.

Definition parachain_genesis_config : partial Json :=
  l ← parachain_development_genesis; mret (to_json l).

Definition collator_development_config : partial (result string ChainSpec) :=
  match ok_or WASM_BINARY no_wasm with
  | Err e => mret (Err e)
  | Ok code =>
    config ← parachain_genesis_config;
    let b := builder code (mk_extensions "rococo-local" (trunc 32 2000)) in
    let b := with_name b "Development" in
    let b := with_id b "dev" in
    let b := with_chain_type b Development in
    let b := with_genesis_config_patch b config in
    mret (Ok (build_spec b))
  end.

Definition collator_local_testnet_config : partial (result string ChainSpec) :=
  match ok_or WASM_BINARY no_wasm with
  | Err e => mret (Err e)
  | Ok code =>
    config ← parachain_genesis_config;
    let b := builder code (mk_extensions "rococo-local" (trunc 32 2000)) in
    let b := with_name b "Local Testnet" in
    let b := with_id b "local_testnet" in
    let b := with_chain_type b LocalTestnet in
    let b := with_genesis_config_patch b config in
    let b := with_protocol_id b "template-local" in
    mret (Ok (build_spec b))
  end.

(** [load_spec] of the collator *)
Definition collator_load_spec (id : string) : partial (result string ChainSpec) :=
  if bool_decide (id = "dev") then collator_development_config
  else if bool_decide (id = "template-rococo") then collator_local_testnet_config
  else if bool_decide (id = "") || bool_decide (id = "local") then collator_local_testnet_config
  else mret (from_json_file id).

(** [RelayChainCli::new] *)
Definition relay_chain_cli_new (para_config : Configuration Extensions)
    (relay_chain_args : list string) : RelayChainCli :=
  let extension := try_get (chain_spec para_config) in
  let chain_id := relay_chain <$> extension in
  let base_path := path_join (base_path_of para_config) "polkadot" in
  mk_relay_cli (parse_from relay_chain_args) chain_id (Some base_path).

(** [CliConfiguration::{chain_id, base_path}] of the relay chain's command line; the
    other methods hand over to the command line of polkadot. *)
Definition relay_cli_chain_id (self : RelayChainCli) (is_dev : bool) : result CliError string :=
  chain_id ← run_cmd_chain_id (relay_base self) is_dev;
  mret (if bool_decide (chain_id = "") then default "" (relay_chain_id self) else chain_id).
Definition relay_cli_base_path (self : RelayChainCli) : result CliError (option string) :=
  base_path ← run_cmd_base_path (relay_base self);
  mret (match base_path with Some p => Some p | None => relay_base_path self end).

(** [DefaultConfigurationValues for RelayChainCli] *)
Definition p2p_listen_port : uint 16 := trunc 16 30334.
Definition rpc_listen_port : uint 16 := trunc 16 9945.
Definition prometheus_listen_port : uint 16 := trunc 16 9616.

(** The service [run] starts when there is no subcommand. *)
Inductive Service : Type :=
| NewDev (config : Configuration Extensions)
| StartParachainNode (config : Configuration Extensions) (polkadot_config : RelayConfiguration)
    (options : CollatorOptions) (id : u32).

(** [SubstrateCli::create_configuration] of the relay chain's command line *)
Context (create_configuration : RelayChainCli → result CliError RelayConfiguration).

(** The relay chain that goes with a configuration, and the parachain *)
Definition relay_configuration (cli : CollatorCli) (config : Configuration Extensions) :
    result CliError (u32 * RelayConfiguration) :=
  para_id ← ok_or (para_id <$> try_get (chain_spec config))
              (error_message "Could not find parachain ID in chain-spec.");
  let polkadot_cli :=
    relay_chain_cli_new config (executable_name :: relay_chain_args cli) in
  polkadot_config ← map_err
    (λ err, error_message ("Relay chain argument error: " +:+ display_error err))
    (create_configuration polkadot_cli);
  mret (para_id, polkadot_config).

(** Which service [run] starts without a subcommand. *)
Definition start_service (cli : CollatorCli) (config : Configuration Extensions) :
    result CliError Service :=
  if run_dev (collator_run cli) then mret (NewDev config) else
  '(id, polkadot_config) ← relay_configuration cli config;
  mret (StartParachainNode config polkadot_config (run_collator_options (collator_run cli)) id).
End collator.

(** ** A specification starts its chain *)

(** The names the command lines know. *)
Definition builtin (id : string) : Prop := id = "dev" ∨ id = "" ∨ id = "local".

Section storage.
Context `{RuntimeLaws, ChainSpecLibrary, !ChainSpecLaws} {C : Type} `{!ConstraintChecker C}.
Context `{!SerdeJson (list (Transaction OuterVerifier C)), !ToJson (list (Transaction OuterVerifier C))}.
Context `{!JsonLaws (Transaction OuterVerifier C)}.
#[local] Existing Instances verifier_codec checker_codec.
Implicit Types (l : list (Transaction OuterVerifier C)) (api : GenesisBuilder).

(** A runtime that proposes some genesis and builds what it is given. *)
Definition builds_genesis api l : Prop :=
  (∃ config, create_default_config api = Value config ∧ is_Some (json_from_slice config)) ∧
  ∀ config l' s, from_slice config = Some l' → build_config api config s = build l' s.

(** With a list of transactions as its patch, the storage is what building the
    transactions gives, next to the code. *)
Lemma patched_storage_built api code l s :
  builds_genesis api l → build l ∅ = Ret tt s →
  patched_storage api code (to_json l) = Ok (<[CODE := code]> s) ∧
  build l (<[CODE := code]> ∅) = Ret tt (<[CODE := code]> s).
Proof.
  intros [(config & Hd & [c Hc]) Hb] Hs. split.
  - unfold patched_storage. rewrite Hd, Hc. cbn [ok_or bind mbind result_bind].
    by rewrite json_array, (Hb _ l) by apply json_slice; rewrite Hs.
  - pose proof code_unprotected as Hcode. unfold protected_key in Hcode.
    apply build_insert; [|tauto..|done]. intros o E. apply Hcode. eauto.
Qed.

Context `{!GenesisBackend, !LawfulCodec C}.

(** The genesis block made of that storage. *)
Lemma spec_genesis {E} (b : ChainSpecBuilder E) api code l s :
  spec_patch (fields b) = Some (to_json l) → spec_code (fields b) = code →
  builds_genesis api l → build l ∅ = Ret tt s →
  let s' := <[CODE := code]> s in
  spec_storage api (build_spec b) = Ok s' ∧ build l (<[CODE := code]> ∅) = Ret tt s' ∧
  ∀ v op root op' commit, build_storage = Ok s' → resolve_state_version_from_wasm s' = Ok v →
    begin_operation = Ok op →
    set_genesis_state op (delete EXTRINSIC_KEY s') commit v = Ok (root, op') →
    ∃ hd, number hd = trunc 32 0 ∧ build_genesis_block commit = Ok (mk_block hd l, op').
Proof.
  intros Hpatch <- Ha Hs s'. destruct (patched_storage_built api (spec_code (fields b)) l s Ha Hs)
    as [Hp Hb].
  split; [by rewrite (built_storage b api _ Hpatch)|]. split; [done|].
  intros v op root op' commit Hst Hv Ho Hr. eexists. split; [|eapply genesis_block_of]; [done| |done..].
  by eapply built_extrinsics.
Qed.
End storage.

(** Evaluate the fields of a specification. *)
Ltac spec_fields := rewrite ?fields_protocol, ?fields_patch, ?fields_type, ?fields_id,
  ?fields_name, ?fields_builder.

Section node_facts.
Context `{RuntimeLaws, ApiPrimitives, ChainSpecLibrary, !ChainSpecLaws, !GenesisBackend}.
Context `{!SerdeJson (list (Transaction OuterVerifier OuterConstraintChecker))}.
Context `{!ToJson (list (Transaction OuterVerifier OuterConstraintChecker))}.
Context `{!JsonLaws (Transaction OuterVerifier OuterConstraintChecker)}.
Context `{!LawfulCodec OuterConstraintChecker}.
#[local] Existing Instances verifier_codec checker_codec.

Lemma template_builds : builds_genesis template_genesis (genesis_clock :: endowments).
Proof.
  split.
  - destruct (json_vec (genesis_clock :: endowments)) as (config & Hv & Hj). exists config.
    split; [|done]. unfold template_genesis. cbn [create_default_config].
    rewrite development_value. cbn. by rewrite Hv.
  - intros config l s Hl. unfold template_genesis. cbn [build_config]. by rewrite Hl.
Qed.

(** C36: The chain a name of the template node stands for starts and grows.  When the
    runtime was not compiled, loading a known name answers an error.  When it was,
    the specification that is loaded builds a storage with the compiled runtime at
    the well-known key, and the genesis block that the node makes of this storage
    begins a chain of the template runtime. *)
Theorem node_chain_starts wasm id :
  builtin id → NoDup (map tx_id (genesis_clock :: endowments)) →
  load_spec None id = Value (Err no_wasm) ∧
  ∃ spec s, load_spec (Some wasm) id = Value (Ok spec) ∧
    spec_storage template_genesis spec = Ok s ∧ s !! CODE = Some wasm ∧
    ∀ v op root op' commit, build_storage = Ok s → resolve_state_version_from_wasm s = Ok v →
      begin_operation = Ok op →
      set_genesis_state op (delete EXTRINSIC_KEY s) commit v = Ok (root, op') →
      ∃ b, build_genesis_block commit = Ok (b, op') ∧
        grows b (delete EXTRINSIC_KEY s).
Proof.
  intros Hid Hd.
  assert (∃ b : ChainSpecBuilder (option unit),
    load_spec (Some wasm) id = Value (Ok (build_spec b)) ∧
    spec_patch (fields b) = Some (to_json (genesis_clock :: endowments)) ∧
    spec_code (fields b) = wasm) as (b & Hl & Hpatch & Hcode).
  { destruct Hid as [->|[->| ->]]; eexists; (split; [reflexivity|]); by spec_fields. }
  split; [by destruct Hid as [->|[->| ->]]|].
  destruct (spec_genesis b _ _ _ _ Hpatch Hcode template_builds (development_builds ∅))
    as (Hst & Hbuild & Hgen).
  eexists _, _. split; [exact Hl|]. split; [exact Hst|]. split; [apply lookup_insert_eq|].
  intros v op root op' commit Hb Hv Ho Hr. destruct (Hgen v op root op' commit Hb Hv Ho Hr) as (hd & Hn & Hblock).
  eexists. split; [exact Hblock|]. by apply (grows_genesis _ (<[CODE := wasm]> ∅)).
Qed.
End node_facts.

Section collator_facts.
Context `{ParachainLaws, ApiPrimitives, CollatorLibraries, !ChainSpecLaws, !GenesisBackend}.
Context `{!SerdeJson (list (Transaction OuterVerifier ParachainConstraintChecker))}.
Context `{!ToJson (list (Transaction OuterVerifier ParachainConstraintChecker))}.
Context `{!JsonLaws (Transaction OuterVerifier ParachainConstraintChecker)}.
Context `{!LawfulCodec ParachainConstraintChecker}.
#[local] Existing Instances verifier_codec checker_codec.

Abbreviation parachain_genesis_list := (parachain_clock :: genesis_info :: parachain_endowments).

Lemma parachain_builds : builds_genesis parachain_genesis parachain_genesis_list.
Proof.
  split.
  - destruct (json_vec parachain_genesis_list) as (config & Hv & Hj). exists config.
    split; [|done]. unfold parachain_genesis. cbn [create_default_config].
    rewrite parachain_genesis_value. cbn. by rewrite Hv.
  - intros config l s Hl. unfold parachain_genesis. cbn [build_config]. by rewrite Hl.
Qed.

Lemma parachain_list_builds s : ∃ s', build parachain_genesis_list s = Ret tt s'.
Proof.
  eexists. apply build_ret. split; [by repeat constructor|]. split; [by repeat constructor|done].
Qed.

(** C37: What a collator starts.  Every name it knows stands for a specification whose
    genesis block begins a chain of the parachain runtime.  With a configuration of
    that specification the collator starts the development service under [--dev];
    otherwise it starts a node of the parachain the runtime is compiled for, or
    fails when the relay chain's arguments give no configuration.  The relay chain
    it configures is the one named in these arguments, and the local testnet of
    the specification when they name none. *)
Theorem collator_chain_starts wasm id create_configuration :
  builtin id ∨ id = "template-rococo" → NoDup (map tx_id parachain_genesis_list) →
  collator_load_spec None id = Value (Err no_wasm) ∧
  ∃ spec s, collator_load_spec (Some wasm) id = Value (Ok spec) ∧
    spec_storage parachain_genesis spec = Ok s ∧ s !! CODE = Some wasm ∧
    (∀ v op root op' commit, build_storage = Ok s → resolve_state_version_from_wasm s = Ok v →
       begin_operation = Ok op →
       set_genesis_state op (delete EXTRINSIC_KEY s) commit v = Ok (root, op') →
       ∃ b, build_genesis_block commit = Ok (b, op') ∧
         parachain_grows b (delete EXTRINSIC_KEY s)) ∧
    ∀ config, chain_spec config = spec →
      (∀ cli, start_service create_configuration cli config =
         if run_dev (collator_run cli) then Ok (NewDev config) else
         match create_configuration
                 (relay_chain_cli_new config (executable_name :: relay_chain_args cli)) with
         | Ok relay => Ok (StartParachainNode config relay
                          (run_collator_options (collator_run cli)) DEFAULT_PARA_ID)
         | Err e => Err (error_message ("Relay chain argument error: " +:+ display_error e))
         end) ∧
      ∀ args is_dev name, run_cmd_chain_id (parse_from args) is_dev = Ok name →
        relay_cli_chain_id (relay_chain_cli_new config args) is_dev =
        Ok (if bool_decide (name = "") then "rococo-local" else name).
Proof.
  intros Hid Hd.
  assert (∃ b : ChainSpecBuilder Extensions,
    collator_load_spec (Some wasm) id = Value (Ok (build_spec b)) ∧
    spec_patch (fields b) = Some (to_json parachain_genesis_list) ∧
    spec_code (fields b) = wasm ∧
    spec_extensions (fields b) = mk_extensions "rococo-local" DEFAULT_PARA_ID)
    as (b & Hl & Hpatch & Hcode & Hext).
  { destruct Hid as [[->|[->| ->]]| ->]; eexists; (split; [reflexivity|]); by spec_fields. }
  split; [by destruct Hid as [[->|[->| ->]]| ->]|].
  destruct (parachain_list_builds ∅) as [s Hs].
  destruct (spec_genesis b _ _ _ _ Hpatch Hcode parachain_builds Hs) as (Hst & Hbuild & Hgen).
  eexists _, _. split; [exact Hl|]. split; [exact Hst|]. split; [apply lookup_insert_eq|]. split.
  - intros v op root op' commit Hb Hv Ho Hr. destruct (Hgen v op root op' commit Hb Hv Ho Hr) as (hd & Hn & Hblock).
    eexists. split; [exact Hblock|]. by apply (parachain_grows_genesis _ (<[CODE := wasm]> ∅)).
  - intros config Hc. assert (try_get (chain_spec config) = Some (mk_extensions "rococo-local" DEFAULT_PARA_ID))
      as Hx by (unfold try_get; by rewrite Hc, built_extension, Hext).
    split.
    + intros cli. unfold start_service, relay_configuration.
      destruct (run_dev (collator_run cli)); [done|]. rewrite Hx.
      cbn. by destruct (create_configuration _).
    + intros args is_dev name Hname. unfold relay_cli_chain_id, relay_chain_cli_new.
      cbn [relay_base relay_chain_id]. rewrite Hname, Hx. cbn. by destruct name.
Qed.
End collator_facts.

(** ** Witnesses *)

Module SpecSample.
Export NodeSample.

(** JSON is the encoding of a value; a patch replaces. *)
#[export] Instance concrete_json : JsonValues := {|
  Json := bytes;
  json_to_vec := id;
  json_from_slice := Some;
  json_merge _ patch := patch;
|}.
#[export] Instance encoded_json {A} `{Codec A} : ToJson A := scale_encode.
#[export] Instance encoded_serde {A} `{Codec A} : SerdeJson A := {|
  to_vec a := Some (scale_encode a);
  from_slice := decode_value;
|}.
#[export] Instance encoded_laws {A} `{Codec A, !LawfulCodec (list A)} : JsonLaws A.
Proof.
  split; [| |done].
  - intros l. apply decode_value_encode.
  - intros l. eexists. split; [done|]. by eexists.
Qed.

(** A specification is its fields. *)
#[export] Instance concrete_specs : ChainSpecLibrary := {|
  ChainType := bool;
  Development := true;
  LocalTestnet := false;
  ChainSpecBuilder E := SpecFields E bool;
  GenericChainSpec E := SpecFields E bool;
  builder E c e := mk_fields c e None None None None None;
  with_name E '(mk_fields c e _ i t p o) n := mk_fields c e (Some n) i t p o;
  with_id E '(mk_fields c e n _ t p o) i := mk_fields c e n (Some i) t p o;
  with_chain_type E '(mk_fields c e n i _ p o) t := mk_fields c e n i (Some t) p o;
  with_genesis_config_patch E '(mk_fields c e n i t _ o) p := mk_fields c e n i t (Some p) o;
  with_protocol_id E '(mk_fields c e n i t p _) o := mk_fields c e n i t p (Some o);
  build_spec E := id;
  from_json_file E _ := Err "no such file";
  get_extension E b := Some (spec_extensions b);
  spec_storage E api b :=
    match spec_patch b with
    | Some patch => patched_storage api (spec_code b) patch
    | None => Err "no genesis"
    end;
|}.
#[export] Instance concrete_spec_laws : ChainSpecLaws.
Proof.
  refine {| fields E b := b |}; try done; try by intros ? [].
  intros E [] api patch Hb. cbn in *. by subst.
Defined.

Definition some_wasm : bytes := bstr "wasm".
Definition backend_of (built : result string storage) : GenesisBackend := {|
  BackendError := string;
  build_storage := built;
  resolve_state_version_from_wasm _ := Ok V1;
  BlockImportOperation := option storage;
  begin_operation := Ok None;
  set_genesis_state _ s _ _ := Ok (to_bytesN 32 (storage_root V1 s), Some s);
  default_digest := tt |}.

#[export] Instance configuration_library : ConfigurationLibrary := {|
  Configuration := GenericChainSpec;
  chain_spec E c := c;
  base_path_of E _ := "/tmp/collator";
  CliError := string;
  error_message := id;
  KeySubcommand := unit; BuildSpecCmd := unit; CheckBlockCmd := unit; ExportBlocksCmd := unit;
  ExportStateCmd := unit; ImportBlocksCmd := unit; PurgeChainCmd := unit; RevertCmd := unit;
  ChainInfoCmd := unit; RunCmd := unit;
|}.
#[export] Instance collator_libraries : CollatorLibraries := {|
  path_join a b := a +:+ "/" +:+ b;
  display_error := id;
  RelayRunCmd := list string;
  parse_from := id;
  run_cmd_chain_id args _ := Ok (default "" (args !! 1));
  run_cmd_base_path _ := Ok None;
  executable_name := "collator";
  CollatorOptions := unit;
  RelayConfiguration := string;
  CumulusPurgeChainCmd := unit; ExportGenesisHeadCommand := unit;
  ExportGenesisWasmCommand := option string;
  wasm_command_chain := id;
  CumulusRunCmd := bool;
  run_dev := id;
  run_collator_options _ := tt;
  NormalizedRunCmd := bool;
  normalize := id;
|}.
End SpecSample.

Module Witnesses.
Import SpecSample.

(** What the node builds for a name, and a client that imports it. *)
Definition storage_named (id : string) : result string storage :=
  match load_spec (Some some_wasm) id with
  | Value (Ok spec) => spec_storage template_genesis spec
  | _ => Err "no chain"
  end.
#[local] Instance node_backend : GenesisBackend := backend_of (storage_named "").

Lemma node_chain_starts_witness :
  ∃ b s op, build_genesis_block true = Ok (b, op) ∧ grows b s ∧ s !! CODE = Some some_wasm.
Proof.
  destruct (node_chain_starts some_wasm "") as [_ (spec & s & Hl & Hs & Hc & Hg)];
    [by right; left|by_vm|].
  destruct (Hg V1 None (to_bytesN 32 (storage_root V1 (delete EXTRINSIC_KEY s)))
    (Some (delete EXTRINSIC_KEY s)) true) as (b & Hb & Hgrows); [|done..|].
  - change (storage_named "" = Ok s). unfold storage_named. by rewrite Hl.
  - eexists b, (delete EXTRINSIC_KEY s), _. split; [exact Hb|]. split; [exact Hgrows|].
    by rewrite lookup_delete_ne.
Defined.
End Witnesses.

Module CollatorWitnesses.
Import SpecSample ParachainSample ParachainFacts.Witnesses.

#[local] Existing Instances sum_codec ParachainPiece.Witnesses.concrete_parachain_primitives.

(** The relay chain's configuration is the identifier of its chain. *)
Definition configure (cli : RelayChainCli) : result CliError RelayConfiguration :=
  relay_cli_chain_id cli false.

Definition collator_storage (id : string) : result string storage :=
  match collator_load_spec (Some some_wasm) id with
  | Value (Ok spec) => spec_storage parachain_genesis spec
  | _ => Err "no chain"
  end.
#[local] Instance collator_backend : GenesisBackend := backend_of (collator_storage "template-rococo").

Lemma collator_chain_starts_witness :
  (∃ b s op, parachain_grows b s ∧ build_genesis_block true = Ok (b, op)) ∧
  ∃ spec, start_service configure (mk_collator_cli None false false []) spec =
    Ok (StartParachainNode spec "rococo-local" tt DEFAULT_PARA_ID).
Proof.
  destruct (collator_chain_starts some_wasm "template-rococo" configure)
    as [_ (spec & s & Hl & Hs & _ & Hg & Hservice)]; [by right|by_vm|].
  split.
  - destruct (Hg V1 None (to_bytesN 32 (storage_root V1 (delete EXTRINSIC_KEY s)))
      (Some (delete EXTRINSIC_KEY s)) true) as (b & Hb & Hgrows); [|done..|].
    + change (collator_storage "template-rococo" = Ok s). unfold collator_storage. by rewrite Hl.
    + eexists b, (delete EXTRINSIC_KEY s), _. split; [exact Hgrows|exact Hb].
  - exists spec. destruct (Hservice spec eq_refl) as [Hstart Hid]. rewrite Hstart.
    cbn [collator_run run_dev run_collator_options collator_libraries id relay_chain_args]. unfold configure.
    by rewrite (Hid _ false "").
Defined.
End CollatorWitnesses.
