(* ===== verification/Substrate.v ===== *)
(** * Substrate: the calls of the node services

    The node services put the parts of a Substrate node together.  A part is of a type
    of the library; plain accessors and constructors are functions of the library;
    everything that can fail or that others can observe is a call: a value of an
    indexed type of events, which the library answers as it likes, depending on all
    calls before.  A service is a program of [M] over the trace of its calls. *)

From S2P Require Import Prelude Effects Scale Types Checker UtxoSet CheckerLaws Executive.
From S2P Require Import Genesis Wallet RuntimeApi Authoring ChainSpecs.

(** ** The parts *)

(** [sc_executor::NativeExecutionDispatch] and [NativeVersion], which answers the
    versions the native runtime can author with. *)
Record NativeVersion : Type := mk_native_version {
  runtime_version : RuntimeVersion;
  can_author_with : list u32;
}.
Record NativeExecutionDispatch : Type := mk_dispatch {
  dispatch : string → bytes → option bytes;
  native_version : NativeVersion;
}.

(** [sc_service::DARecoveryProfile] of Cumulus *)
Inductive DARecoveryProfile : Type := Collator | FullNode.

(** [std::time::Duration], in milliseconds *)
Definition Duration : Type := u64.
Definition from_millis (n : N) : Duration := trunc 64 n.
Definition from_secs (n : N) : Duration := trunc 64 (1000 * n).

Class Parts `{CollatorLibraries, NodeLibraries} : Type := {
  (** the fields of a configuration *)
  Role : Type;
  role_is_authority : Role → bool;
  TelemetryEndpoints : Type;
  endpoints_is_empty : TelemetryEndpoints → bool;
  DatabaseSource : Type;
  (** [DatabaseSource::path] *)
  database_path : DatabaseSource → option string;
  NetworkConfiguration : Type;
  network_node_name : NetworkConfiguration → string;
  TransactionPoolOptions : Type;
  Registry : Type;
  WasmExecutionMethod : Type;
  (** errors, and their conversions into [sc_service::Error] *)
  ServiceError : Type;
  TelemetryError : Type;
  ConsensusError : Type;
  RelayChainError : Type;
  RpcError : Type;
  from_telemetry : TelemetryError → ServiceError;
  from_blockchain : BlockchainError → ServiceError;
  from_consensus : ConsensusError → ServiceError;
  from_rpc : RpcError → ServiceError;
  service_application : RelayChainError → ServiceError;
  cli_service : ServiceError → CliError;
  (** telemetry *)
  TelemetryWorker : Type;
  TelemetryWorkerHandle : Type;
  Telemetry : Type;
  TelemetryHandle : Type;
  worker_handle : TelemetryWorker → TelemetryWorkerHandle;
  telemetry_handle : Telemetry → TelemetryHandle;
  (** tasks *)
  TaskManager : Type;
  Future : Type;
  worker_run : TelemetryWorker → Future;
  (** the client *)
  Executor : Type;
  FullBackend : Type;
  FullClient : Type;
  KeystoreContainer : Type;
  KeystorePtr : Type;
  keystore : KeystoreContainer → KeystorePtr;
  TransactionPool : Type;
  ImportQueue : Type;
  ImportQueueService : Type;
  import_queue_service : ImportQueue → ImportQueueService;
  LongestChain : Type;
  longest_chain_new : FullBackend → LongestChain;
  (** the network *)
  FullNetworkConfiguration : Type;
  network_configuration_new : NetworkConfiguration → FullNetworkConfiguration;
  Network : Type;
  SystemRpcTx : Type;
  TxHandlerController : Type;
  NetworkStarter : Type;
  SyncService : Type;
  (** RPC *)
  DenyUnsafe : Type;
  RpcModule : Type;
  rpc_module_new : RpcModule;
  RpcHandlers : Type;
  (** block authorship; the flag is whether proofs are recorded *)
  ProposerFactory : Type;
  proposer_factory : bool → TaskManager → FullClient → TransactionPool → option Registry →
    option TelemetryHandle → ProposerFactory;
}.

(** Consensus of the sovereign node: Aura and Grandpa. *)
Class ConsensusParts `{Parts} : Type := {
  GrandpaBlockImport : Type;
  LinkHalf : Type;
  SharedAuthoritySet : Type;
  shared_authority_set : LinkHalf → SharedAuthoritySet;
  WarpSyncProvider : Type;
  warp_provider_new : FullBackend → SharedAuthoritySet → WarpSyncProvider;
  ProtocolName : Type;
  protocol_standard_name {E} : H256 → GenericChainSpec E → ProtocolName;
  NotificationProtocol : Type;
  NotificationService : Type;
  grandpa_peers_set_config : ProtocolName → NotificationProtocol * NotificationService;
  add_notification_protocol :
    FullNetworkConfiguration → NotificationProtocol → FullNetworkConfiguration;
  VotingRule : Type;
  default_voting_rule : VotingRule;
  SharedVoterState : Type;
  shared_voter_state_empty : SharedVoterState;
  OffchainTransactionPoolFactory : Type;
  offchain_tx_pool_factory_new : TransactionPool → OffchainTransactionPoolFactory;
  (** [sc_consensus_grandpa::revert] *)
  grandpa_revert : FullClient → u32 → result BlockchainError unit;
  SlotProportion : Type;
  (** of a quotient *)
  slot_proportion_new : N → N → SlotProportion;
}.

(** What the collator takes from Cumulus and Polkadot, and manual sealing. *)
Class CollatorParts `{Parts} : Type := {
  ParachainBlockImport : Type;
  parachain_block_import_new : FullClient → FullBackend → ParachainBlockImport;
  HeapAllocStrategy : Type;
  DEFAULT_HEAP_ALLOC_STRATEGY : HeapAllocStrategy;
  static_heap : u32 → HeapAllocStrategy;
  WasmExecutor : Type;
  (** the fields its builder is given: the method, the strategies on and off chain,
      the number of instances and the size of the cache *)
  wasm_executor : WasmExecutionMethod → HeapAllocStrategy → HeapAllocStrategy → N → u8 →
    WasmExecutor;
  new_with_wasm_executor : NativeExecutionDispatch → WasmExecutor → Executor;
  prepare_node_config {E} : Configuration E → Configuration E;
  RelayChainInterface : Type;
  CollatorPair : Type;
  OverseerHandle : Type;
  HwBench : Type;
  announce_block : SyncService → H256 → option bytes → unit;
  Proposer : Type;
  proposer_new : ProposerFactory → Proposer;
  CollatorService : Type;
  collator_service_new : FullClient → TaskManager → (H256 → option bytes → unit) → FullClient →
    CollatorService;
  AuraConsensusDataProvider : Type;
  aura_consensus_data_provider_new : FullClient → AuraConsensusDataProvider;
}.

(** The fields of a configuration that the services read. *)
Class ConfigurationFields `{Parts} (E : Type) : Type := {
  telemetry_endpoints : Configuration E → option TelemetryEndpoints;
  no_genesis : Configuration E → bool;
  database : Configuration E → DatabaseSource;
  role : Configuration E → Role;
  network : Configuration E → NetworkConfiguration;
  transaction_pool : Configuration E → TransactionPoolOptions;
  prometheus_registry : Configuration E → option Registry;
  force_authoring : Configuration E → bool;
  disable_grandpa : Configuration E → bool;
  wasm_method : Configuration E → WasmExecutionMethod;
  default_heap_pages : Configuration E → option u64;
  max_runtime_instances : Configuration E → N;
  runtime_cache_size : Configuration E → u8;
  DatabaseSettings : Type;
  db_config : Configuration E → DatabaseSettings;
  new_native_or_wasm_executor : NativeExecutionDispatch → Configuration E → Executor;
  (** [sc_cli::Runner] *)
  Runner : Type;
  runner_config : Runner → Configuration E;
}.

(** ** The arguments of the calls

    The fields that the sources leave at their defaults are left out. *)

Section arguments.
Context `{ConsensusParts, !CollatorParts} {E : Type} `{!ConfigurationFields E}.

(** The closure [create_inherent_data_providers], of the time at which it is called
    and of the parent. *)
Definition CreateProviders : Type := u64 → H256 → result BlockchainError (list Provider).

(** [task_manager.spawn_handle()] and [task_manager.spawn_essential_handle()] *)
Record SpawnHandle : Type := mk_handle { essential : bool; manager : TaskManager }.
Definition spawn_handle (task_manager : TaskManager) : SpawnHandle := mk_handle false task_manager.
Definition spawn_essential_handle (task_manager : TaskManager) : SpawnHandle :=
  mk_handle true task_manager.

(** [TuxedoGenesisBlockBuilder], for the chain specification of a configuration *)
Record GenesisBlockBuilder : Type := mk_genesis_block_builder {
  build_genesis_storage : GenericChainSpec E;
  commit_genesis_state : bool;
  genesis_backend : FullBackend;
  genesis_executor : Executor;
}.
(** [TuxedoGenesisBlockBuilder::new], which never errors *)
Definition genesis_block_builder_new (build_genesis_storage : GenericChainSpec E)
    (commit_genesis_state : bool) (backend : FullBackend) (executor : Executor) :
    result BlockchainError GenesisBlockBuilder :=
  mret (mk_genesis_block_builder build_genesis_storage commit_genesis_state backend executor).

(** [rpc::FullDeps] of both nodes, and [rpc::create_full] *)
Record FullDeps : Type := mk_deps {
  deps_client : FullClient;
  deps_pool : TransactionPool;
  deny_unsafe : DenyUnsafe;
}.
Definition create_full (_deps : FullDeps) : result RpcError RpcModule :=
  let module := rpc_module_new in
  mret module.

(** [sc_service::PartialComponents]; the types of the client, the backend, the queue and
    the pool are those of the library. *)
Record PartialComponents {SelectChain Other : Type} : Type := mk_partial {
  client : FullClient;
  backend : FullBackend;
  task_manager : TaskManager;
  import_queue : ImportQueue;
  keystore_container : KeystoreContainer;
  select_chain : SelectChain;
  pool : TransactionPool;
  other : Other;
}.

Record ImportQueueParams : Type := mk_import_queue_params {
  queue_block_import : GrandpaBlockImport;
  queue_justification_import : option GrandpaBlockImport;
  queue_client : FullClient;
  queue_providers : CreateProviders;
  queue_spawner : SpawnHandle;
  queue_registry : option Registry;
  queue_telemetry : option TelemetryHandle;
}.

Record BuildNetworkParams : Type := mk_network_params {
  build_config_of : Configuration E;
  build_net_config : FullNetworkConfiguration;
  build_client : FullClient;
  build_pool : TransactionPool;
  build_spawn_handle : SpawnHandle;
  build_import_queue_of : ImportQueue;
  build_warp_sync : option WarpSyncProvider;
}.

(** What [build_network] answers. *)
Record NetworkParts : Type := mk_network {
  built_network : Network;
  system_rpc_tx : SystemRpcTx;
  tx_handler_controller : TxHandlerController;
  network_starter : NetworkStarter;
  sync_service : SyncService;
}.

Record SpawnTasksParams : Type := mk_tasks_params {
  tasks_network : Network;
  tasks_client : FullClient;
  tasks_keystore : KeystorePtr;
  tasks_task_manager : TaskManager;
  tasks_pool : TransactionPool;
  tasks_rpc_builder : DenyUnsafe → result ServiceError RpcModule;
  tasks_backend : FullBackend;
  tasks_system_rpc_tx : SystemRpcTx;
  tasks_tx_handler_controller : TxHandlerController;
  tasks_sync_service : SyncService;
  tasks_config : Configuration E;
  tasks_telemetry : option Telemetry;
}.

Record StartAuraParams : Type := mk_aura_params {
  aura_slot_duration : SlotDuration;
  aura_client : FullClient;
  aura_select_chain : LongestChain;
  aura_block_import : GrandpaBlockImport;
  aura_proposer_factory : ProposerFactory;
  aura_providers : CreateProviders;
  aura_force_authoring : bool;
  aura_backoff_authoring_blocks : option unit;
  aura_keystore : KeystorePtr;
  aura_sync_oracle : SyncService;
  aura_justification_sync_link : SyncService;
  aura_block_proposal_slot_portion : SlotProportion;
  aura_max_block_proposal_slot_portion : option SlotProportion;
  aura_telemetry : option TelemetryHandle;
}.

(** [sc_consensus_grandpa::Config] and [GrandpaParams] *)
Record GrandpaConfig : Type := mk_grandpa_config {
  gossip_duration : Duration;
  justification_generation_period : u32;
  grandpa_name : option string;
  observer_enabled : bool;
  voter_keystore : option KeystorePtr;
  local_role : Role;
  grandpa_telemetry : option TelemetryHandle;
  protocol_name : ProtocolName;
}.
Record GrandpaParams : Type := mk_grandpa_params {
  grandpa_config : GrandpaConfig;
  grandpa_link : LinkHalf;
  grandpa_network : Network;
  grandpa_sync : SyncService;
  notification_service : NotificationService;
  voting_rule : VotingRule;
  grandpa_registry : option Registry;
  shared_voter_state : SharedVoterState;
  params_telemetry : option TelemetryHandle;
  offchain_tx_pool_factory : OffchainTransactionPoolFactory;
}.

(** [cumulus_client_service::BuildNetworkParams]; its collators are resistant to sybils. *)
Record ParachainNetworkParams : Type := mk_para_network_params {
  para_network_config : Configuration E;
  para_net_config : FullNetworkConfiguration;
  para_network_client : FullClient;
  para_network_pool : TransactionPool;
  para_network_id : u32;
  para_spawn_handle : SpawnHandle;
  para_relay_chain_interface : RelayChainInterface;
  para_import_queue : ImportQueue;
  sybil_resistant : bool;
}.

Record StartRelayChainTasksParams : Type := mk_relay_tasks_params {
  relay_client : FullClient;
  relay_announce_block : H256 → option bytes → unit;
  relay_para_id : u32;
  relay_interface : RelayChainInterface;
  relay_task_manager : TaskManager;
  da_recovery_profile : DARecoveryProfile;
  relay_import_queue : ImportQueueService;
  relay_slot_duration : Duration;
  recovery_handle : OverseerHandle;
  relay_sync_service : SyncService;
}.

Record FullyVerifyingParams : Type := mk_verifying_params {
  verifying_client : FullClient;
  verifying_block_import : ParachainBlockImport;
  verifying_providers : CreateProviders;
  verifying_slot_duration : SlotDuration;
  verifying_spawner : SpawnHandle;
  verifying_registry : option Registry;
  verifying_telemetry : option TelemetryHandle;
}.

(** [cumulus_client_consensus_aura::collators::basic::Params] *)
Record BasicAuraParams : Type := mk_basic_aura {
  basic_providers : CreateProviders;
  basic_block_import : ParachainBlockImport;
  basic_para_client : FullClient;
  basic_relay_client : RelayChainInterface;
  basic_sync_oracle : SyncService;
  basic_keystore : KeystorePtr;
  basic_collator_key : CollatorPair;
  basic_para_id : u32;
  basic_overseer_handle : OverseerHandle;
  basic_slot_duration : SlotDuration;
  basic_relay_chain_slot_duration : Duration;
  basic_proposer : Proposer;
  basic_collator_service : CollatorService;
  authoring_duration : Duration;
}.

(** [EngineCommand::SealNewBlock] and [ManualSealParams]; the commands come in
    intervals. *)
Record SealNewBlock : Type := mk_seal {
  create_empty : bool;
  finalize : bool;
  seal_parent_hash : option H256;
}.
Record ManualSealParams : Type := mk_manual_seal {
  seal_block_import : FullClient;
  seal_env : ProposerFactory;
  seal_client : FullClient;
  seal_pool : TransactionPool;
  seal_interval : Duration;
  seal_command : SealNewBlock;
  seal_select_chain : LongestChain;
  seal_consensus_data_provider : option AuraConsensusDataProvider;
  seal_providers : CreateProviders;
}.

(** The arguments of the method [run] of a subcommand. *)
Inductive RunArguments : Type :=
| OfNothing
| OfSpecAndNetwork (spec : GenericChainSpec E) (network : NetworkConfiguration)
| OfClientAndQueue (client : FullClient) (import_queue : ImportQueue)
| OfClientAndDatabase (client : FullClient) (database : DatabaseSource)
| OfClientAndSpec (client : FullClient) (spec : GenericChainSpec E)
| OfClientAndBackend (client : FullClient) (backend : FullBackend)
    (aux_revert : option (FullClient → FullBackend → u32 → result BlockchainError unit))
| OfDatabase (database : DatabaseSource)
| OfConfiguration (config : Configuration E)
| OfConfigurations (config : Configuration E) (polkadot_config : RelayConfiguration)
| OfClient (client : FullClient)
| OfSpec (spec : GenericChainSpec E).

(** The subcommands of the program. *)
Context {Command : Type}.

(** A future that a program runs. *)
Inductive Task : Type :=
| LibraryTask (future : Future)
| BasicAura (params : BasicAuraParams)
| ManualSeal (params : ManualSealParams)
| CommandTask (command : Command) (arguments : RunArguments).

(** ** The calls, with the types of their answers *)

Inductive Call : Type → Type :=
| TelemetryWorkerNew (buffer : N) : Call (result TelemetryError TelemetryWorker)
| NewTelemetry (handle : TelemetryWorkerHandle) (endpoints : TelemetryEndpoints) : Call Telemetry
| NewDbBackend (settings : DatabaseSettings) : Call (result BlockchainError FullBackend)
| NewFullParts (config : Configuration E) (telemetry : option TelemetryHandle)
    (executor : Executor) (backend : FullBackend) (genesis_block_builder : GenesisBlockBuilder)
    (enable_import_proof_recording : bool) :
    Call (result ServiceError (FullClient * FullBackend * KeystoreContainer * TaskManager))
| Spawn (handle : SpawnHandle) (blocking : bool) (name : string) (group : option string)
    (task : Task) : Call unit
| PoolNewFull (options : TransactionPoolOptions) (is_validator : bool)
    (registry : option Registry) (spawner : SpawnHandle) (client : FullClient) :
    Call TransactionPool
| GrandpaImport (client : FullClient) (justification_period : u32) (select_chain : LongestChain)
    (telemetry : option TelemetryHandle) :
    Call (result BlockchainError (GrandpaBlockImport * LinkHalf))
| AuraSlotDuration (client : FullClient) : Call (result BlockchainError SlotDuration)
| AuraImportQueue (params : ImportQueueParams) : Call (result ConsensusError ImportQueue)
| BlockHash (client : FullClient) (number : u32) : Call (result BlockchainError (option H256))
| BuildNetwork (params : BuildNetworkParams) : Call (result ServiceError NetworkParts)
| SpawnTasks (params : SpawnTasksParams) : Call (result ServiceError RpcHandlers)
| StartAura (params : StartAuraParams) : Call (result ConsensusError Future)
| RunGrandpaVoter (params : GrandpaParams) : Call (result BlockchainError Future)
| StartNetwork (starter : NetworkStarter) : Call unit
| BuildRelayChainInterface (polkadot_config : RelayConfiguration) (config : Configuration E)
    (telemetry : option TelemetryWorkerHandle) (task_manager : TaskManager)
    (collator_options : CollatorOptions) (hwbench : option HwBench) :
    Call (result RelayChainError (RelayChainInterface * option CollatorPair))
| BuildParachainNetwork (params : ParachainNetworkParams) : Call (result ServiceError NetworkParts)
| OverseerHandleOf (interface : RelayChainInterface) : Call (result RelayChainError OverseerHandle)
| StartRelayChainTasks (params : StartRelayChainTasksParams) : Call (result ServiceError unit)
| FullyVerifyingImportQueue (params : FullyVerifyingParams) : Call ImportQueue
| ManualSealImportQueue (client : FullClient) (spawner : SpawnHandle)
    (registry : option Registry) : Call ImportQueue
| CreateDirAll (path : string) : Call unit
| GatherHwbench (scratch_directory : option string) : Call HwBench
| CreateRunner (command : Command) : Call (result CliError Runner)
| RunCommand (command : Command) (arguments : RunArguments) : Call (result CliError unit)
| RunToEnd (task : Task) (task_manager : TaskManager) : Call (result CliError unit)
| RunUntilExit (task_manager : TaskManager) : Call (result CliError unit).
End arguments.

Arguments PartialComponents {_ _ _ _ _ _ _ _ _ _} _ _.

(** ** Programs *)

Section programs.
Context `{ConsensusParts, !CollatorParts} {E : Type} `{!ConfigurationFields E} {Command : Type}.
Abbreviation Call := (Call (E := E) (Command := Command)).

(** The calls that were made, oldest first. *)
Definition Trace : Type := list {A & Call A}.

(** The library: any answer to a call, after any calls. *)
Class Library : Type := answer : ∀ A, Trace → Call A → A.

Context `{!Library}.

Definition trigger {X A : Type} (call : Call A) : M Trace X A := λ trace,
  Ret (answer A trace call) (trace ++ [existT A call]).

(** [call()?], with the conversion of its error *)
Definition attempt {X Y A : Type} (from : Y → X) (call : Call (result Y A)) : M Trace X A :=
  answered ← trigger call; lift_result (map_err from answered).
End programs.

Arguments Trace {_ _ _ _ _ _ _ _ _ _ _ _} _ {_} _.

(** ** What others observe of a program *)

(** A task is started, or the network, or the benchmarks of the hardware run. *)
Inductive Event : Type :=
| Spawned (essential blocking : bool) (name : string) (group : option string)
| Networking
| Benchmarked.

Section observations.
Context `{ConsensusParts, !CollatorParts} {E : Type} `{!ConfigurationFields E} {Command : Type}.
Abbreviation Call := (Call (E := E) (Command := Command)).
Implicit Types (t p : Trace E Command) (plan sure : list Event).

Definition event {A} (call : Call A) : option Event :=
  match call with
  | Spawn handle blocking name group _ => Some (Spawned (essential handle) blocking name group)
  | StartNetwork _ => Some Networking
  | GatherHwbench _ => Some Benchmarked
  | _ => None
  end.
Definition events t : list Event := omap (λ c, event (projT2 c)) t.

Lemma events_app t p : events (t ++ p) = events t ++ events p.
Proof. apply omap_app. Qed.

(** What the calls of a program must satisfy, and the panics it may end in. *)
Context (proper : ∀ A, Call A → Prop) (panics : string → Prop).

Definition all_proper t : Prop := Forall (λ c, proper _ (projT2 c)) t.

Context `{!Library (E := E) (Command := Command)}.

(** A program that makes proper calls and that, when it returns, was observed to
    follow its plan to the end; when it errs, it was stopped in the plan, and
    nothing that is sure happened. *)
Definition follows {X A} plan sure (m : M (Trace E Command) X A) : Prop := ∀ t,
  match m t with
  | Ret _ t' => ∃ p, t' = t ++ p ∧ all_proper p ∧ events p = plan ++ sure
  | Throw _ t' => ∃ p, t' = t ++ p ∧ all_proper p ∧ events p `prefix_of` plan
  | Panic why => panics why
  end.

Lemma follows_ret {X A} (a : A) : follows [] [] (mret a : M _ X A).
Proof. intros t. exists []. split; [by rewrite app_nil_r|]. split; [constructor|done]. Qed.

Lemma follows_throw {X A} (e : X) : follows [] [] (mthrow e : M _ X A).
Proof. intros t. exists []. split; [by rewrite app_nil_r|]. split; [constructor|done]. Qed.

Lemma follows_lift {X A} (r : result X A) : follows [] [] (lift_result r).
Proof. destruct r; [apply follows_ret|apply follows_throw]. Qed.

Lemma follows_bind_lift {X A B} plan sure (r : result X A) (k : A → M _ X B) :
  (∀ a, r = Ok a → follows plan sure (k a)) → follows plan sure (bind (lift_result r) k).
Proof.
  intros Hk. destruct r as [a|e]; [by apply Hk|]. intros t. exists [].
  split; [by rewrite app_nil_r|]. split; [constructor|apply prefix_nil].
Qed.

Lemma follows_expect {X A} (o : option A) why : panics why → follows [] [] (expect (E := X) o why).
Proof. intros Hw. destruct o; [apply follows_ret|by intros t]. Qed.

(** The rest may rely on what the first part answers. *)
Lemma follows_bind_post {X A B} (Q : A → Prop) plan1 sure1 plan2 sure2 (m : M _ X A)
    (k : A → M _ X B) :
  follows plan1 sure1 m → (∀ t a t', m t = Ret a t' → Q a) → (∀ a, Q a → follows plan2 sure2 (k a)) →
  follows (plan1 ++ sure1 ++ plan2) sure2 (bind m k).
Proof.
  intros Hm HQ Hk t. specialize (Hm t). rewrite bind_run.
  destruct (m t) as [a t1|e t1|why] eqn:Er; [| |done].
  - destruct Hm as (q1 & -> & Hq1 & E1). specialize (Hk a (HQ _ _ _ Er) (t ++ q1)).
    destruct (k a (t ++ q1)) as [b t2|e t2|why]; [| |done]; destruct Hk as (q2 & -> & Hq2 & E2);
      exists (q1 ++ q2); (split; [by rewrite app_assoc|]);
      (split; [by apply Forall_app|]); rewrite events_app, E1.
    + rewrite E2. by rewrite !app_assoc.
    + rewrite <-app_assoc. by do 2 apply prefix_app.
  - destruct Hm as (q & -> & Hq & Hp). exists q. split; [done|]. split; [done|].
    by apply prefix_app_r.
Qed.

Lemma follows_bind {X A B} plan1 sure1 plan2 sure2 (m : M _ X A) (k : A → M _ X B) :
  follows plan1 sure1 m → (∀ a, follows plan2 sure2 (k a)) →
  follows (plan1 ++ sure1 ++ plan2) sure2 (bind m k).
Proof. intros Hm Hk. by apply (follows_bind_post (λ _, True)). Qed.

(** What is sure stays sure when the rest only returns. *)
Lemma follows_map {X A B} plan sure (m : M _ X A) (f : A → B) :
  follows plan sure m → follows plan sure (bind m (λ a, mret (f a))).
Proof. intros Hm t. specialize (Hm t). rewrite bind_run. by destruct (m t). Qed.

Lemma follows_quiet {X A} (call : Call A) :
  proper A call → event call = None → follows [] [] (trigger (X := X) call).
Proof.
  intros Hc He t. eexists. split; [done|]. split; [by constructor|]. unfold events. cbn. by rewrite He.
Qed.

Lemma follows_seen {X A} (call : Call A) e :
  proper A call → event call = Some e → follows [] [e] (trigger (X := X) call).
Proof.
  intros Hc He t. eexists. split; [done|]. split; [by constructor|]. unfold events. cbn. by rewrite He.
Qed.

(** A call that can fail is seen by nobody. *)
Lemma follows_attempt {X Y A} (from : Y → X) (call : Call (result Y A)) :
  proper _ call → event call = None → follows [] [] (attempt from call).
Proof.
  intros Hc He. apply (follows_bind [] [] [] []); [|intros; apply follows_lift].
  by apply follows_quiet.
Qed.

Lemma follows_if {X A} (b : bool) plan1 sure1 plan2 sure2 (m1 m2 : M _ X A) :
  follows plan1 sure1 m1 → follows plan2 sure2 m2 →
  follows (if b then plan1 else plan2) (if b then sure1 else sure2) (if b then m1 else m2).
Proof. by destruct b. Qed.

Lemma follows_eq {X A} plan1 sure1 plan2 sure2 (m : M _ X A) :
  follows plan1 sure1 m → plan1 = plan2 → sure1 = sure2 → follows plan2 sure2 m.
Proof. by intros ? -> ->. Qed.

Lemma follows_catch {X Y A} plan sure (f : X → Y) (m : M _ X A) :
  follows plan sure m → follows plan sure (catch_err f m).
Proof. intros Hm t. specialize (Hm t). unfold catch_err. by destruct (m t). Qed.
End observations.

(** ** Programs that complete *)

Section completion.
Context `{ConsensusParts, !CollatorParts} {E : Type} `{!ConfigurationFields E} {Command : Type}.
Abbreviation Call := (Call (E := E) (Command := Command)).

Definition succeeded {X A} (r : result X A) : Prop := if r is Ok _ then True else False.

(** An answer to a call with which the caller can go on. *)
Definition granted {A} (call : Call A) : A → Prop :=
  match call in Substrate.Call A return A → Prop with
  | TelemetryWorkerNew _ => succeeded
  | NewDbBackend _ => succeeded
  | NewFullParts _ _ _ _ _ _ => succeeded
  | GrandpaImport _ _ _ _ => succeeded
  | AuraSlotDuration _ => succeeded
  | AuraImportQueue _ => succeeded
  | BlockHash _ _ => λ answered, ∃ hash, answered = Ok (Some hash)
  | BuildNetwork _ => succeeded
  | SpawnTasks _ => succeeded
  | StartAura _ => succeeded
  | RunGrandpaVoter _ => succeeded
  | BuildRelayChainInterface _ _ _ _ _ _ => λ answered,
    ∃ interface key, answered = Ok (interface, Some key)
  | BuildParachainNetwork _ => succeeded
  | OverseerHandleOf _ => succeeded
  | StartRelayChainTasks _ => succeeded
  | CreateRunner _ => succeeded
  | RunCommand _ _ => succeeded
  | RunToEnd _ _ => succeeded
  | RunUntilExit _ => succeeded
  | _ => λ _, True
  end.

Context `{!Library (E := E) (Command := Command)}.
Definition generous : Prop := ∀ A trace (call : Call A), granted call (answer A trace call).
Context (grants : generous).

(** The program returns, with a value of which [Q] holds. *)
Definition completes {X A} (Q : A → Prop) (m : M (Trace E Command) X A) : Prop :=
  ∀ t, ∃ a t', m t = Ret a t' ∧ Q a.

Lemma completes_ret {X A} (Q : A → Prop) a : Q a → completes Q (mret a : M _ X A).
Proof. intros ? t. by exists a, t. Qed.

Lemma completes_bind {X A B} (P : A → Prop) (Q : B → Prop) (m : M _ X A) (k : A → M _ X B) :
  completes P m → (∀ a, P a → completes Q (k a)) → completes Q (bind m k).
Proof. intros Hm Hk t. destruct (Hm t) as (a & t1 & Er & Ha). rewrite bind_run, Er. by apply Hk. Qed.

Lemma completes_trigger {X A} (call : Call A) :
  completes (granted call) (trigger (X := X) call).
Proof. intros t. eexists _, _. split; [done|]. apply grants. Qed.

Lemma completes_attempt {X Y A} (from : Y → X) (call : Call (result Y A)) :
  (∀ r, granted call r → succeeded r) → completes (λ a, granted call (Ok a)) (attempt from call).
Proof.
  intros Hs t. unfold attempt, trigger. rewrite bind_run. pose proof (grants _ t call) as Hg.
  destruct (answer _ t call) as [a|e] eqn:Er; [|by apply Hs in Hg]. cbn. by eexists _, _.
Qed.

Lemma completes_lift {X A} (r : result X A) a :
  r = Ok a → completes (λ a', a' = a) (lift_result r).
Proof. intros -> t. by eexists _, _. Qed.

Lemma completes_lift_partial {X A} (p : partial A) a :
  p = Value a → completes (λ a', a' = a) (lift_partial p : M _ X A).
Proof. intros -> t. by eexists _, _. Qed.

Lemma completes_weaken {X A} (P Q : A → Prop) (m : M _ X A) :
  completes P m → (∀ a, P a → Q a) → completes Q m.
Proof. intros Hm HPQ t. destruct (Hm t) as (a & t' & Er & Ha). exists a, t'. auto. Qed.

Lemma completes_catch {X Y A} (Q : A → Prop) (f : X → Y) (m : M (Trace E Command) X A) :
  completes Q m → completes Q (catch_err f m).
Proof. intros Hm t. destruct (Hm t) as (a & t' & Er & Ha). exists a, t'. unfold catch_err. by rewrite Er. Qed.

(** More may be allowed. *)
Lemma follows_mono {X A} (proper proper' : ∀ A, Call A → Prop) (panics panics' : string → Prop)
    plan sure (m : M (Trace E Command) X A) :
  follows proper panics plan sure m → (∀ A call, proper A call → proper' A call) →
  (∀ why, panics why → panics' why) → follows proper' panics' plan sure m.
Proof.
  intros Hm Hp Hw t. specialize (Hm t). destruct (m t); [..|by apply Hw];
    destruct Hm as (p & ? & Hc & ?); exists p; (split; [done|]); (split; [|done]);
    by eapply Forall_impl; [exact Hc|intros ?; apply Hp].
Qed.

(** What is observed of a program of its own, and of one that completes. *)
Definition observed {X A} (proper : ∀ A, Call A → Prop) (panics : string → Prop) plan sure
    (o : outcome (Trace E Command) X A) : Prop :=
  match o with
  | Ret _ t => all_proper proper t ∧ events t = plan ++ sure
  | Throw _ t => all_proper proper t ∧ events t `prefix_of` plan
  | Panic why => panics why
  end.

Lemma follows_observed {X A} proper panics plan sure (m : M (Trace E Command) X A) :
  follows proper panics plan sure m → observed proper panics plan sure (m []).
Proof.
  intros Hf. specialize (Hf []). unfold observed.
  by destruct (m []) as [? t|? t|]; [destruct Hf as (? & -> & ?)..|].
Qed.

Lemma completes_observed {X A} proper panics plan sure (m : M (Trace E Command) X A) :
  follows proper panics plan sure m → completes (λ _, True) m →
  ∃ a t, m [] = Ret a t ∧ events t = plan ++ sure.
Proof.
  intros Hf%follows_observed Hc. destruct (Hc []) as (a & t & Er & _). rewrite Er in Hf.
  destruct Hf as [_ Hp]. eauto.
Qed.
End completion.

(** Go through a program that completes. *)
Ltac complete :=
  lazymatch goal with
  | |- completes _ (bind (attempt _ _) _) =>
    eapply completes_bind; [apply completes_attempt; [done|by intros ?]|complete_rest]
  | |- completes _ (bind (trigger _) _) =>
    eapply completes_bind; [apply completes_trigger; done|complete_rest]
  | |- completes _ (bind (lift_result _) _) =>
    first [eapply completes_bind; [eapply completes_lift; reflexivity|complete_rest]|idtac]
  | |- completes _ (bind (lift_partial _) _) => idtac
  | |- completes _ (bind _ _) => apply (completes_bind (λ _, True)); [complete|complete_rest]
  | |- completes _ (mret _) => apply completes_ret; try done
  | |- completes (λ _, True) (attempt _ _) =>
    eapply completes_weaken; [apply completes_attempt; [done|by intros ?]|done]
  | |- completes (λ _, True) (trigger _) =>
    eapply completes_weaken; [apply completes_trigger; done|done]
  | |- completes (λ _, True) (expect (Some _) _) => intros ?; by eexists _, _
  | |- completes _ (match ?x with _ => _ end) => destruct x; complete
  | _ => idtac
  end
with complete_rest :=
  let answered := fresh "answered" in let granting := fresh "granting" in
  intros answered granting; cbn beta; complete.

(** Go through a program; what is left are its proper calls. *)
Ltac follow :=
  lazymatch goal with
  | |- follows _ _ _ _ (bind (lift_result _) _) =>
    eapply follows_bind_lift; let answered := fresh "answered" in intros ? answered;
    try (injection answered as <-); follow
  | |- follows _ _ _ _ (bind _ (λ _, mret _)) => apply follows_map; follow
  | |- follows _ _ _ _ (bind _ _) => eapply follows_bind; [follow|intros ?; follow]
  | |- follows _ _ _ _ (mret _) => apply follows_ret
  | |- follows _ _ _ _ (mthrow _) => apply follows_throw
  | |- follows _ _ _ _ (lift_result _) => apply follows_lift
  | |- follows _ _ _ _ (expect _ _) => apply follows_expect
  | |- follows _ _ _ _ (attempt _ _) => apply follows_attempt; [|done]
  | |- follows _ _ _ _ (trigger _) =>
    first [apply follows_quiet; [|reflexivity]|eapply follows_seen; [|cbn; reflexivity]]
  | |- follows _ _ _ _ (catch_err _ _) => apply follows_catch; follow
  | |- follows _ _ _ _ (match ?x with (_, _) => _ end) => destruct x; follow
  | _ => idtac
  end.

(** A program that was gone through follows the plan its parts make up. *)
Ltac follow_plan := cbn; rewrite ?app_nil_r; done.
