(* ===== verification/ServiceParts.v ===== *)
(** * ServiceParts: what the services of the nodes do alike

    Each of the three services of [node/src/service.rs], of [service.rs] and of
    [dev_service.rs] in [parachain-node/src/] starts the telemetry worker in the same
    way and answers remote calls with the module of its [rpc.rs]. *)

From S2P Require Import Prelude Effects Scale Types Checker UtxoSet CheckerLaws Executive.
From S2P Require Import Genesis Wallet RuntimeApi Authoring ChainSpecs Substrate.

Section parts.
Context `{ConsensusParts, !CollatorParts} {E : Type} `{!ConfigurationFields E} {Command : Type}.
Context `{!Library (E := E) (Command := Command)}.
Abbreviation Config := (Configuration E).
Abbreviation S := (M (Trace E Command) ServiceError).
Implicit Types (config : Config).

(** The telemetry of a configuration with endpoints, and its worker. *)
Definition start_telemetry config : S (option (TelemetryWorker * Telemetry)) :=
  match telemetry_endpoints config with
  | Some endpoints =>
    if endpoints_is_empty endpoints then mret None else
    worker ← attempt from_telemetry (TelemetryWorkerNew 16);
    telemetry ← trigger (NewTelemetry (worker_handle worker) endpoints);
    mret (Some (worker, telemetry))
  | None => mret None
  end.
Definition handle_of (telemetry : option (TelemetryWorker * Telemetry)) : option TelemetryHandle :=
  telemetry_handle <$> (snd <$> telemetry).

(** The worker becomes a task of its own. *)
Definition spawn_telemetry (telemetry : option (TelemetryWorker * Telemetry))
    (task_manager : TaskManager) : S (option Telemetry) :=
  match telemetry with
  | Some (worker, telemetry) =>
    trigger (Spawn (spawn_handle task_manager) false "telemetry" None
      (LibraryTask (worker_run worker)));;
    mret (Some telemetry)
  | None => mret None
  end.

(** The closures [rpc_extensions_builder] and [rpc_builder] *)
Definition rpc_builder (client : FullClient) (pool : TransactionPool) (deny_unsafe : DenyUnsafe) :
    result ServiceError RpcModule :=
  map_err from_rpc (create_full (mk_deps client pool deny_unsafe)).

(** ** What is started *)

Definition has_telemetry config : bool :=
  match telemetry_endpoints config with
  | Some endpoints => negb (endpoints_is_empty endpoints)
  | None => false
  end.
Definition is_authority config : bool := role_is_authority (role config).

Definition telemetry_plan config : list Event :=
  if has_telemetry config then [Spawned false false "telemetry" None] else [].

(** The calls for telemetry are proper. *)
Context (proper : ∀ A, Call (E := E) (Command := Command) A → Prop) (panics : string → Prop).
Context (proper_worker : ∀ n, proper _ (TelemetryWorkerNew n)).
Context (proper_telemetry : ∀ worker endpoints, proper _ (NewTelemetry worker endpoints)).
Context (proper_spawn : ∀ handle future,
  proper _ (Spawn handle false "telemetry" None (LibraryTask future))).

Lemma start_telemetry_follows config : follows proper panics [] [] (start_telemetry config).
Proof.
  unfold start_telemetry. destruct (telemetry_endpoints config) as [e|]; [|apply follows_ret].
  destruct (endpoints_is_empty e); [apply follows_ret|]. eapply follows_eq; [follow|..]; done.
Qed.

Lemma start_telemetry_answer config t telemetry t' :
  start_telemetry config t = Ret telemetry t' →
  (if telemetry then true else false) = has_telemetry config.
Proof.
  unfold start_telemetry, has_telemetry.
  destruct (telemetry_endpoints config) as [e|]; [|by intros [= <- _]].
  destruct (endpoints_is_empty e); [by intros [= <- _]|].
  by intros (? & ? & _ & (? & ? & _ & [= <- _])%bind_ret_inv)%bind_ret_inv.
Qed.

(** A service starts with the telemetry. *)
Lemma follows_start_telemetry {A} config plan sure
    (k : option (TelemetryWorker * Telemetry) → M (Trace E Command) ServiceError A) :
  (∀ telemetry : option (TelemetryWorker * Telemetry),
    (if telemetry then true else false) = has_telemetry config →
    follows proper panics plan sure (k telemetry)) →
  follows proper panics plan sure (bind (start_telemetry config) k).
Proof.
  intros Hk. eapply follows_eq; [eapply follows_bind_post|..];
    [apply start_telemetry_follows|apply start_telemetry_answer|exact Hk|done|done].
Qed.

Lemma spawn_telemetry_follows config (telemetry : option (TelemetryWorker * Telemetry)) task_manager :
  (if telemetry then true else false) = has_telemetry config →
  follows proper panics [] (telemetry_plan config) (spawn_telemetry telemetry task_manager).
Proof.
  unfold telemetry_plan, spawn_telemetry. intros <-.
  destruct telemetry as [[worker telemetry]|]; [|apply follows_ret]. by follow.
Qed.
End parts.
