(* ===== verification/NodeService.v ===== *)
(** * NodeService: the service of the template node

    Models [node/src/service.rs] and [node/src/rpc.rs]: which parts of Substrate the
    node puts together, in which order, and what it gives them.  Whatever the library
    answers, the tasks that are started follow the configuration, and the network
    starts last. *)

From S2P Require Import Prelude Effects Scale Types Checker UtxoSet CheckerLaws Executive.
From S2P Require Import Genesis Wallet RuntimeApi Authoring ChainSpecs Substrate.
From S2P Require Import ServiceParts.

Section service.
Context `{ConsensusParts, !CollatorParts} {E : Type} `{!ConfigurationFields E} {Command : Type}.
Context `{!Library (E := E) (Command := Command)}.
Context `{Scale, !CoreCodecs, !OpaqueCodecs, !Codec string, !ApiPrimitives}.
(** [api::dispatch], which [impl_runtime_apis!] generates *)
Context (api_dispatch : string → bytes → option bytes).
Abbreviation Config := (Configuration E).
Abbreviation S := (M (Trace E Command) ServiceError).
Implicit Types (config : Config).

(** [impl NativeExecutionDispatch for ExecutorDispatch] *)
Definition template_native_version : NativeVersion := mk_native_version VERSION [].
Definition ExecutorDispatch : NativeExecutionDispatch :=
  mk_dispatch api_dispatch template_native_version.

Definition GRANDPA_JUSTIFICATION_PERIOD : u32 := trunc 32 512.

(** The other parts of the node: the import of blocks for Grandpa, and the telemetry *)
Definition Components : Type :=
  PartialComponents LongestChain (GrandpaBlockImport * LinkHalf * option Telemetry).

Definition new_partial config : S Components :=
  telemetry ← start_telemetry config;
  let executor := new_native_or_wasm_executor ExecutorDispatch config in
  backend ← attempt from_blockchain (NewDbBackend (db_config config));
  genesis_block_builder ← lift_result (map_err from_blockchain
    (genesis_block_builder_new (chain_spec config) (negb (no_genesis config)) backend executor));
  '(client, backend, keystore_container, task_manager) ← attempt id
    (NewFullParts config (handle_of telemetry) executor backend genesis_block_builder false);
  telemetry ← spawn_telemetry telemetry task_manager;
  let select_chain := longest_chain_new backend in
  transaction_pool ← trigger (PoolNewFull (transaction_pool config)
    (role_is_authority (role config)) (prometheus_registry config)
    (spawn_essential_handle task_manager) client);
  '(grandpa_block_import, grandpa_link) ← attempt from_blockchain
    (GrandpaImport client GRANDPA_JUSTIFICATION_PERIOD select_chain
       (telemetry_handle <$> telemetry));
  slot_duration ← attempt from_blockchain (AuraSlotDuration client);
  import_queue ← attempt from_consensus (AuraImportQueue {|
    queue_block_import := grandpa_block_import;
    queue_justification_import := Some grandpa_block_import;
    queue_client := client;
    queue_providers := node_import_providers slot_duration;
    queue_spawner := spawn_essential_handle task_manager;
    queue_registry := prometheus_registry config;
    queue_telemetry := telemetry_handle <$> telemetry;
  |});
  mret {|
    client := client;
    backend := backend;
    task_manager := task_manager;
    import_queue := import_queue;
    keystore_container := keystore_container;
    select_chain := select_chain;
    pool := transaction_pool;
    other := (grandpa_block_import, grandpa_link, telemetry);
  |}.

(** The authoring task, of an authority. *)
Definition start_authoring config (parts : Components) (sync : SyncService) : S unit :=
  let '(block_import, _, telemetry) := other parts in
  let telemetry := telemetry_handle <$> telemetry in
  let proposer_factory := proposer_factory false (task_manager parts) (client parts) (pool parts)
    (prometheus_registry config) telemetry in
  slot_duration ← attempt from_blockchain (AuraSlotDuration (client parts));
  aura ← attempt from_consensus (StartAura {|
    aura_slot_duration := slot_duration;
    aura_client := client parts;
    aura_select_chain := select_chain parts;
    aura_block_import := block_import;
    aura_proposer_factory := proposer_factory;
    aura_providers := node_data_providers slot_duration;
    aura_force_authoring := force_authoring config;
    aura_backoff_authoring_blocks := None;
    aura_keystore := keystore (keystore_container parts);
    aura_sync_oracle := sync;
    aura_justification_sync_link := sync;
    aura_block_proposal_slot_portion := slot_proportion_new 2 3;
    aura_max_block_proposal_slot_portion := None;
    aura_telemetry := telemetry;
  |});
  trigger (Spawn (spawn_essential_handle (task_manager parts)) true "aura"
    (Some "block-authoring") (LibraryTask aura)).

(** The Grandpa voter. *)
Definition start_voter config (parts : Components) (net : NetworkParts)
    (protocol : ProtocolName) (notifications : NotificationService) : S unit :=
  let '(_, grandpa_link, telemetry) := other parts in
  let telemetry := telemetry_handle <$> telemetry in
  let keystore :=
    if role_is_authority (role config) then Some (keystore (keystore_container parts)) else None in
  let grandpa_config := {|
    gossip_duration := from_millis 333;
    justification_generation_period := GRANDPA_JUSTIFICATION_PERIOD;
    grandpa_name := Some (network_node_name (network config));
    observer_enabled := false;
    voter_keystore := keystore;
    local_role := role config;
    grandpa_telemetry := telemetry;
    protocol_name := protocol;
  |} in
  voter ← attempt from_blockchain (RunGrandpaVoter {|
    grandpa_config := grandpa_config;
    grandpa_link := grandpa_link;
    grandpa_network := built_network net;
    grandpa_sync := sync_service net;
    notification_service := notifications;
    voting_rule := default_voting_rule;
    grandpa_registry := prometheus_registry config;
    shared_voter_state := shared_voter_state_empty;
    params_telemetry := telemetry;
    offchain_tx_pool_factory := offchain_tx_pool_factory_new (pool parts);
  |});
  trigger (Spawn (spawn_essential_handle (task_manager parts)) true "grandpa-voter" None
    (LibraryTask voter)).

Definition genesis_missing : string := "Genesis block exists; qed".

(** [new_full] *)
Definition new_full config : S TaskManager :=
  parts ← new_partial config;
  let '(_, grandpa_link, telemetry) := other parts in
  let net_config := network_configuration_new (network config) in
  genesis ← trigger (BlockHash (client parts) (trunc 32 0));
  genesis ← expect (g ← ok genesis; g) genesis_missing;
  let grandpa_protocol_name := protocol_standard_name genesis (chain_spec config) in
  let '(grandpa_protocol_config, grandpa_notification_service) :=
    grandpa_peers_set_config grandpa_protocol_name in
  let net_config := add_notification_protocol net_config grandpa_protocol_config in
  let warp_sync := warp_provider_new (backend parts) (shared_authority_set grandpa_link) in
  net ← attempt id (BuildNetwork {|
    build_config_of := config;
    build_net_config := net_config;
    build_client := client parts;
    build_pool := pool parts;
    build_spawn_handle := spawn_handle (task_manager parts);
    build_import_queue_of := import_queue parts;
    build_warp_sync := Some warp_sync;
  |});
  let enable_grandpa := negb (disable_grandpa config) in
  _rpc_handlers ← attempt id (SpawnTasks {|
    tasks_network := built_network net;
    tasks_client := client parts;
    tasks_keystore := keystore (keystore_container parts);
    tasks_task_manager := task_manager parts;
    tasks_pool := pool parts;
    tasks_rpc_builder := rpc_builder (client parts) (pool parts);
    tasks_backend := backend parts;
    tasks_system_rpc_tx := system_rpc_tx net;
    tasks_tx_handler_controller := tx_handler_controller net;
    tasks_sync_service := sync_service net;
    tasks_config := config;
    tasks_telemetry := telemetry;
  |});
  (if role_is_authority (role config)
   then start_authoring config parts (sync_service net) else mret tt);;
  (if enable_grandpa
   then start_voter config parts net grandpa_protocol_name grandpa_notification_service
   else mret tt);;
  trigger (StartNetwork (network_starter net));;
  mret (task_manager parts).

(** ** What the node starts *)

Definition authoring_plan config : list Event :=
  if is_authority config then [Spawned true true "aura" (Some "block-authoring")] else [].
Definition voting_plan config : list Event :=
  if disable_grandpa config then [] else [Spawned true true "grandpa-voter" None].

(** The calls the node makes, for its configuration. *)
Definition node_proper config (A : Type) (call : Call (E := E) (Command := Command) A) : Prop :=
  match call with
  | NewFullParts c _ executor _ genesis _ =>
    c = config ∧ executor = new_native_or_wasm_executor ExecutorDispatch config ∧
    build_genesis_storage genesis = chain_spec config ∧
    commit_genesis_state genesis = negb (no_genesis config)
  | PoolNewFull _ is_validator _ _ _ => is_validator = is_authority config
  | AuraImportQueue params => ∃ duration, queue_providers params = node_import_providers duration
  | StartAura params =>
    is_authority config = true ∧ aura_force_authoring params = force_authoring config ∧
    aura_providers params = node_data_providers (aura_slot_duration params)
  | RunGrandpaVoter params =>
    disable_grandpa config = false ∧
    (is_Some (voter_keystore (grandpa_config params)) ↔ is_authority config = true)
  | CreateRunner _ | RunCommand _ _ | RunToEnd _ _ | RunUntilExit _ => False
  | _ => True
  end.

Abbreviation node_follows config := (follows (node_proper config) (λ why, why = genesis_missing)).

Lemma new_partial_follows config panics :
  follows (node_proper config) panics (telemetry_plan config) [] (new_partial config).
Proof.
  unfold new_partial. eapply follows_eq.
  - apply follows_start_telemetry; [done..|]. intros telemetry Ht. follow; try done.
    + by apply spawn_telemetry_follows.
    + by eexists.
  - follow_plan.
  - done.
Qed.

Lemma start_authoring_follows config parts sync :
  node_follows config [] (authoring_plan config)
    (if is_authority config then start_authoring config parts sync else mret tt).
Proof.
  unfold authoring_plan. destruct (is_authority config) eqn:Ha; [|apply follows_ret].
  unfold start_authoring. eapply follows_eq; [follow; try done|done|done].
Qed.

Lemma start_voter_follows config parts net protocol notifications :
  node_follows config [] (voting_plan config)
    (if negb (disable_grandpa config)
     then start_voter config parts net protocol notifications else mret tt).
Proof.
  unfold voting_plan. destruct (disable_grandpa config) eqn:Hd; [apply follows_ret|].
  cbn [negb]. unfold start_voter. eapply follows_eq; [follow; try done|done|done].
  split; [done|]. cbn. fold (is_authority config). destruct (is_authority config).
  - done.
  - split; [by intros []|done].
Qed.

Lemma new_full_follows config :
  node_follows config (telemetry_plan config ++ authoring_plan config ++ voting_plan config)
    [Networking] (new_full config).
Proof.
  unfold new_full. eapply follows_eq.
  - eapply follows_bind; [apply new_partial_follows|]. intros parts.
    follow; try done.
    + apply start_authoring_follows.
    + apply start_voter_follows.
  - follow_plan.
  - done.
Qed.

(** Whatever the library answers, the service of the node starts what its
    configuration says, in this order: the telemetry worker when there are endpoints,
    the authoring task of an authority, the voter unless Grandpa is disabled, and last
    the network.  When it errs, it was stopped on that way before the network.  It
    gives its client the genesis block of its chain specification, authors with the
    providers of [node_data_providers] only as an authority, and votes with its keys
    only as an authority.  It panics only when the client answers no genesis block. *)
Theorem node_service_roles config :
  let plan := telemetry_plan config ++ authoring_plan config ++ voting_plan config in
  match new_full config [] with
  | Ret _ t => all_proper (node_proper config) t ∧ events t = plan ++ [Networking]
  | Throw _ t => all_proper (node_proper config) t ∧ events t `prefix_of` plan
  | Panic why => why = genesis_missing
  end.
Proof.
  apply (follows_observed _ (λ why, why = genesis_missing)), new_full_follows.
Qed.

Lemma new_partial_completes config : generous → completes (λ _, True) (new_partial config).
Proof.
  intros grants. unfold new_partial, start_telemetry, spawn_telemetry. complete.
Qed.

Lemma start_authoring_completes config parts sync :
  generous → completes (λ _, True) (start_authoring config parts sync).
Proof. intros grants. unfold start_authoring. complete. Qed.

Lemma start_voter_completes config parts net protocol notifications :
  generous → completes (λ _, True) (start_voter config parts net protocol notifications).
Proof. intros grants. unfold start_voter. complete. Qed.

Lemma new_full_completes config : generous → completes (λ _, True) (new_full config).
Proof.
  intros grants. unfold new_full. apply (completes_bind (λ _, True)).
  { by apply new_partial_completes. }
  intros parts _. destruct (other parts) as [[? ?] ?].
  eapply completes_bind; [by apply completes_trigger|].
  intros genesis [hash ->]. apply (completes_bind (λ _, True)).
  - intros t. by exists hash, t.
  - intros ? _. complete; [by apply start_authoring_completes|by apply start_voter_completes].
Qed.

(** When the library answers nothing but successes, and the client a genesis block,
    the node starts, with all of its tasks and the network. *)
Theorem node_service_starts config :
  generous → ∃ task_manager t, new_full config [] = Ret task_manager t ∧
    events t = telemetry_plan config ++ authoring_plan config ++ voting_plan config ++ [Networking].
Proof.
  intros grants. rewrite !app_assoc, <-(app_assoc (telemetry_plan config)).
  by eapply completes_observed; [apply new_full_follows|apply new_full_completes].
Qed.
End service.
