(* ===== verification/CollatorService.v ===== *)
(** * CollatorService: the service of the parachain node

    Models [parachain-node/src/service.rs] and its [rpc.rs]: the parts of Substrate and
    Cumulus that a collator or a full node of the parachain puts together, in which
    order, and what it gives them. *)

From S2P Require Import Prelude Effects Scale Types Checker UtxoSet CheckerLaws Executive.
From S2P Require Import Genesis Wallet RuntimeApi Authoring ChainSpecs Substrate.
From S2P Require Import ServiceParts.

Section service.
Context `{ConsensusParts, !CollatorParts} {E : Type} `{!ConfigurationFields E} {Command : Type}.
Context `{!Library (E := E) (Command := Command)}.
Context `{Scale, !CoreCodecs, !OpaqueCodecs, !Codec string, !ApiPrimitives}.
(** [api::dispatch], which [impl_runtime_apis!] generates *)
Context (api_dispatch : string → bytes → option bytes).
Abbreviation Config := (Configuration E).
Abbreviation S := (M (Trace E Command) ServiceError).
Implicit Types (config : Config).

(** [native_version] of the parachain runtime, and
    [impl NativeExecutionDispatch for ParachainNativeExecutor] *)
Definition parachain_native_version : NativeVersion := mk_native_version PARACHAIN_VERSION [].
Definition ParachainNativeExecutor : NativeExecutionDispatch :=
  mk_dispatch api_dispatch parachain_native_version.

(** The executor of [new_partial]: the number of heap pages is cast to 32 bits. *)
Definition parachain_executor config : Executor :=
  let heap_pages :=
    match default_heap_pages config with
    | Some h => static_heap (trunc 32 (uval h))
    | None => DEFAULT_HEAP_ALLOC_STRATEGY
    end in
  let wasm := wasm_executor (wasm_method config) heap_pages heap_pages
    (max_runtime_instances config) (runtime_cache_size config) in
  new_with_wasm_executor ParachainNativeExecutor wasm.

(** The other parts: the import of blocks, the telemetry and the handle of its worker *)
Definition ParachainComponents : Type :=
  PartialComponents unit
    (ParachainBlockImport * option Telemetry * option TelemetryWorkerHandle).

Definition build_import_queue (client : FullClient) (block_import : ParachainBlockImport) config
    (telemetry : option TelemetryHandle) (task_manager : TaskManager) : S ImportQueue :=
  slot_duration ← attempt from_blockchain (AuraSlotDuration client);
  trigger (FullyVerifyingImportQueue {|
    verifying_client := client;
    verifying_block_import := block_import;
    verifying_providers := collator_import_providers;
    verifying_slot_duration := slot_duration;
    verifying_spawner := spawn_essential_handle task_manager;
    verifying_registry := prometheus_registry config;
    verifying_telemetry := telemetry;
  |}).

Definition parachain_new_partial config : S ParachainComponents :=
  telemetry ← start_telemetry config;
  let executor := parachain_executor config in
  backend ← attempt from_blockchain (NewDbBackend (db_config config));
  genesis_block_builder ← lift_result (map_err from_blockchain
    (genesis_block_builder_new (chain_spec config) (negb (no_genesis config)) backend executor));
  '(client, backend, keystore_container, task_manager) ← attempt id
    (NewFullParts config (handle_of telemetry) executor backend genesis_block_builder false);
  let telemetry_worker_handle := worker_handle <$> (fst <$> telemetry) in
  telemetry ← spawn_telemetry telemetry task_manager;
  transaction_pool ← trigger (PoolNewFull (transaction_pool config)
    (role_is_authority (role config)) (prometheus_registry config)
    (spawn_essential_handle task_manager) client);
  let block_import := parachain_block_import_new client backend in
  import_queue ← build_import_queue client block_import config (telemetry_handle <$> telemetry)
    task_manager;
  mret {|
    client := client;
    backend := backend;
    task_manager := task_manager;
    import_queue := import_queue;
    keystore_container := keystore_container;
    select_chain := tt;
    pool := transaction_pool;
    other := (block_import, telemetry, telemetry_worker_handle);
  |}.

Definition start_consensus (client : FullClient) (block_import : ParachainBlockImport)
    (prometheus_registry : option Registry) (telemetry : option TelemetryHandle)
    (task_manager : TaskManager) (relay_chain_interface : RelayChainInterface)
    (transaction_pool : TransactionPool) (sync_oracle : SyncService) (keystore : KeystorePtr)
    (relay_chain_slot_duration : Duration) (para_id : u32) (collator_key : CollatorPair)
    (overseer_handle : OverseerHandle) (announce_block : H256 → option bytes → unit) : S unit :=
  slot_duration ← attempt from_blockchain (AuraSlotDuration client);
  let proposer_factory := proposer_factory true task_manager client transaction_pool
    prometheus_registry telemetry in
  let proposer := proposer_new proposer_factory in
  let collator_service := collator_service_new client task_manager announce_block client in
  let params := {|
    basic_providers := collator_data_providers;
    basic_block_import := block_import;
    basic_para_client := client;
    basic_relay_client := relay_chain_interface;
    basic_sync_oracle := sync_oracle;
    basic_keystore := keystore;
    basic_collator_key := collator_key;
    basic_para_id := para_id;
    basic_overseer_handle := overseer_handle;
    basic_slot_duration := slot_duration;
    basic_relay_chain_slot_duration := relay_chain_slot_duration;
    basic_proposer := proposer;
    basic_collator_service := collator_service;
    authoring_duration := from_millis 500;
  |} in
  trigger (Spawn (spawn_essential_handle task_manager) false "aura" None (BasicAura params)).

Definition no_collator_key : string := "Command line arguments do not allow this. qed".

(** [start_node_impl] *)
Definition start_node_impl (parachain_config : Config) (polkadot_config : RelayConfiguration)
    (collator_options : CollatorOptions) (para_id : u32) (hwbench : option HwBench) :
    S (TaskManager * FullClient) :=
  let parachain_config := prepare_node_config parachain_config in
  params ← parachain_new_partial parachain_config;
  let '(block_import, telemetry, telemetry_worker_handle) := other params in
  let net_config := network_configuration_new (network parachain_config) in
  let client := client params in
  let task_manager := task_manager params in
  '(relay_chain_interface, collator_key) ← attempt service_application
    (BuildRelayChainInterface polkadot_config parachain_config telemetry_worker_handle
       task_manager collator_options hwbench);
  let validator := role_is_authority (role parachain_config) in
  let prometheus_registry := prometheus_registry parachain_config in
  let transaction_pool := pool params in
  let import_queue_service := import_queue_service (import_queue params) in
  net ← attempt id (BuildParachainNetwork {|
    para_network_config := parachain_config;
    para_net_config := net_config;
    para_network_client := client;
    para_network_pool := transaction_pool;
    para_network_id := para_id;
    para_spawn_handle := spawn_handle task_manager;
    para_relay_chain_interface := relay_chain_interface;
    para_import_queue := import_queue params;
    sybil_resistant := true;
  |});
  _ ← attempt id (SpawnTasks {|
    tasks_network := built_network net;
    tasks_client := client;
    tasks_keystore := keystore (keystore_container params);
    tasks_task_manager := task_manager;
    tasks_pool := transaction_pool;
    tasks_rpc_builder := rpc_builder client transaction_pool;
    tasks_backend := backend params;
    tasks_system_rpc_tx := system_rpc_tx net;
    tasks_tx_handler_controller := tx_handler_controller net;
    tasks_sync_service := sync_service net;
    tasks_config := parachain_config;
    tasks_telemetry := telemetry;
  |});
  let announce_block := announce_block (sync_service net) in
  let relay_chain_slot_duration := from_secs 6 in
  overseer_handle ← attempt service_application (OverseerHandleOf relay_chain_interface);
  attempt id (StartRelayChainTasks {|
    relay_client := client;
    relay_announce_block := announce_block;
    relay_para_id := para_id;
    relay_interface := relay_chain_interface;
    relay_task_manager := task_manager;
    da_recovery_profile := if validator then Collator else FullNode;
    relay_import_queue := import_queue_service;
    relay_slot_duration := relay_chain_slot_duration;
    recovery_handle := overseer_handle;
    relay_sync_service := sync_service net;
  |});;
  (if validator then
     collator_key ← expect collator_key no_collator_key;
     start_consensus client block_import prometheus_registry (telemetry_handle <$> telemetry)
       task_manager relay_chain_interface transaction_pool (sync_service net)
       (keystore (keystore_container params)) relay_chain_slot_duration para_id collator_key
       overseer_handle announce_block
   else mret tt);;
  trigger (StartNetwork (network_starter net));;
  mret (task_manager, client).

(** [start_parachain_node] *)
Definition start_parachain_node (parachain_config : Config) (polkadot_config : RelayConfiguration)
    (collator_options : CollatorOptions) (para_id : u32) (hwbench : option HwBench) :
    S (TaskManager * FullClient) :=
  start_node_impl parachain_config polkadot_config collator_options para_id hwbench.

(** ** What the node starts *)

Definition collating_plan config : list Event :=
  if is_authority config then [Spawned true false "aura" None] else [].

(** The calls the node makes, for its prepared configuration. *)
Definition collator_proper config (para_id : u32) (A : Type)
    (call : Call (E := E) (Command := Command) A) : Prop :=
  match call with
  | NewFullParts c _ executor _ genesis _ =>
    c = config ∧ executor = parachain_executor config ∧
    build_genesis_storage genesis = chain_spec config ∧
    commit_genesis_state genesis = negb (no_genesis config)
  | PoolNewFull _ is_validator _ _ _ => is_validator = is_authority config
  | FullyVerifyingImportQueue params => verifying_providers params = collator_import_providers
  | BuildParachainNetwork params => para_network_id params = para_id
  | StartRelayChainTasks params =>
    relay_para_id params = para_id ∧
    da_recovery_profile params = if is_authority config then Collator else FullNode
  | Spawn _ _ _ _ (BasicAura params) =>
    is_authority config = true ∧ basic_para_id params = para_id ∧
    basic_providers params = collator_data_providers
  | CreateRunner _ | RunCommand _ _ | RunToEnd _ _ | RunUntilExit _ => False
  | _ => True
  end.

Abbreviation collator_follows config para_id :=
  (follows (collator_proper config para_id) (λ why, why = no_collator_key ∧ is_authority config = true)).

Lemma parachain_new_partial_follows config para_id panics :
  follows (collator_proper config para_id) panics (telemetry_plan config) []
    (parachain_new_partial config).
Proof.
  unfold parachain_new_partial, build_import_queue. eapply follows_eq.
  - apply follows_start_telemetry; [done..|]. intros telemetry Ht. follow; try done.
    by apply spawn_telemetry_follows.
  - follow_plan.
  - done.
Qed.

Lemma start_node_impl_follows config polkadot_config options para_id hwbench :
  let config' := prepare_node_config config in
  collator_follows config' para_id (telemetry_plan config' ++ collating_plan config')
    [Networking] (start_node_impl config polkadot_config options para_id hwbench).
Proof.
  intros config'. unfold start_node_impl. fold config'. eapply follows_eq.
  - eapply follows_bind; [apply parachain_new_partial_follows|]. intros params. follow; try done.
    instantiate (1 := collating_plan config'). instantiate (1 := []).
    unfold collating_plan. fold (is_authority config').
    destruct (is_authority config') eqn:Ha; [|apply follows_ret].
    unfold start_consensus. eapply follows_eq; [follow; try done|done|done].
  - follow_plan.
  - done.
Qed.

(** Whatever the library answers, the service of the parachain node starts what its
    prepared configuration says, in this order: the telemetry worker when there are
    endpoints, the collating task of an authority, and last the network.  When it errs,
    it was stopped on that way before the network.  It gives its client the genesis
    block of its chain specification, joins the network and the relay chain for the
    given parachain, recovers data as a collator or as a full node by its role, and
    collates with the providers of [collator_data_providers] only as an authority.  It
    panics only as an authority, when the relay chain came without a key. *)
Theorem collator_service_roles config polkadot_config options para_id hwbench :
  let config' := prepare_node_config config in
  let plan := telemetry_plan config' ++ collating_plan config' in
  match start_parachain_node config polkadot_config options para_id hwbench [] with
  | Ret _ t => all_proper (collator_proper config' para_id) t ∧ events t = plan ++ [Networking]
  | Throw _ t => all_proper (collator_proper config' para_id) t ∧ events t `prefix_of` plan
  | Panic why => why = no_collator_key ∧ is_authority config' = true
  end.
Proof.
  apply (follows_observed (collator_proper (prepare_node_config config) para_id) (λ why, _ ∧ _)),
    start_node_impl_follows.
Qed.

Lemma parachain_new_partial_completes config :
  generous → completes (λ _, True) (parachain_new_partial config).
Proof.
  intros grants.
  unfold parachain_new_partial, build_import_queue, start_telemetry, spawn_telemetry. complete.
Qed.

Lemma start_node_impl_completes config polkadot_config options para_id hwbench :
  generous →
  completes (λ _, True) (start_node_impl config polkadot_config options para_id hwbench).
Proof.
  intros grants. unfold start_node_impl, start_consensus. apply (completes_bind (λ _, True)).
  { by apply parachain_new_partial_completes. }
  intros params _. destruct (other params) as [[? ?] ?].
  eapply completes_bind; [by apply completes_attempt; [|intros ? (? & ? & ->)]|].
  intros ? (interface & key & [= ->]). complete.
Qed.

(** When the library answers nothing but successes, and the relay chain comes with a
    key, the parachain node starts, with all of its tasks and the network. *)
Theorem collator_service_starts config polkadot_config options para_id hwbench :
  generous → ∃ answered t,
    start_parachain_node config polkadot_config options para_id hwbench [] = Ret answered t ∧
    events t = let config' := prepare_node_config config in
      telemetry_plan config' ++ collating_plan config' ++ [Networking].
Proof.
  intros grants. cbv zeta. rewrite app_assoc.
  by eapply completes_observed; [apply start_node_impl_follows|apply start_node_impl_completes].
Qed.
End service.
