(* ===== verification/DevService.v ===== *)
(** * DevService: the development service of the parachain node

    Models [parachain-node/src/dev_service.rs]: a parachain runtime on a chain of its
    own, whose blocks are sealed at intervals and whose relay chain is mocked. *)

From S2P Require Import Prelude Effects Scale Types Checker UtxoSet CheckerLaws Executive.
From S2P Require Import Genesis Wallet RuntimeApi Authoring ChainSpecs Substrate.
From S2P Require Import ServiceParts CollatorService.

Section service.
Context `{ConsensusParts, !CollatorParts} {E : Type} `{!ConfigurationFields E} {Command : Type}.
Context `{!Library (E := E) (Command := Command)}.
Context `{Scale, !CoreCodecs, !OpaqueCodecs, !Codec string, !ApiPrimitives}.
(** [api::dispatch], which [impl_runtime_apis!] generates *)
Context (api_dispatch : string → bytes → option bytes).
Abbreviation Config := (Configuration E).
Abbreviation S := (M (Trace E Command) ServiceError).
Implicit Types (config : Config).

(** [impl NativeExecutionDispatch for ExecutorDispatch] *)
Definition DevDispatch : NativeExecutionDispatch :=
  mk_dispatch api_dispatch parachain_native_version.

Definition DevComponents : Type := PartialComponents LongestChain (option Telemetry).

(** [new_partial] *)
Definition dev_new_partial config : S DevComponents :=
  telemetry ← start_telemetry config;
  let executor := new_native_or_wasm_executor DevDispatch config in
  backend ← attempt from_blockchain (NewDbBackend (db_config config));
  genesis_block_builder ← lift_result (map_err from_blockchain
    (genesis_block_builder_new (chain_spec config) (negb (no_genesis config)) backend executor));
  '(client, backend, keystore_container, task_manager) ← attempt id
    (NewFullParts config (handle_of telemetry) executor backend genesis_block_builder false);
  telemetry ← spawn_telemetry telemetry task_manager;
  let select_chain := longest_chain_new backend in
  transaction_pool ← trigger (PoolNewFull (transaction_pool config)
    (role_is_authority (role config)) (prometheus_registry config)
    (spawn_essential_handle task_manager) client);
  import_queue ← trigger (ManualSealImportQueue client (spawn_essential_handle task_manager)
    (prometheus_registry config));
  mret {|
    client := client;
    backend := backend;
    task_manager := task_manager;
    import_queue := import_queue;
    keystore_container := keystore_container;
    select_chain := select_chain;
    pool := transaction_pool;
    other := telemetry;
  |}.

(** The commands of [commands_stream], one for each interval *)
Definition seal_new_block : SealNewBlock := {|
  create_empty := true;
  finalize := false;
  seal_parent_hash := None;
|}.

(** The sealing task, of an authority. *)
Definition start_sealing config (parts : DevComponents) : S unit :=
  let env := proposer_factory true (task_manager parts) (client parts) (pool parts)
    (prometheus_registry config) (telemetry_handle <$> other parts) in
  trigger (Spawn (spawn_essential_handle (task_manager parts)) true "authorship_task"
    (Some "block-authoring") (ManualSeal {|
      seal_block_import := client parts;
      seal_env := env;
      seal_client := client parts;
      seal_pool := pool parts;
      seal_interval := from_millis 6000;
      seal_command := seal_new_block;
      seal_select_chain := select_chain parts;
      seal_consensus_data_provider := Some (aura_consensus_data_provider_new (client parts));
      seal_providers := dev_data_providers;
    |})).

(** [new_dev] *)
Definition new_dev config : S TaskManager :=
  parts ← dev_new_partial config;
  let net_config := network_configuration_new (network config) in
  net ← attempt id (BuildNetwork {|
    build_config_of := config;
    build_net_config := net_config;
    build_client := client parts;
    build_pool := pool parts;
    build_spawn_handle := spawn_handle (task_manager parts);
    build_import_queue_of := import_queue parts;
    build_warp_sync := None;
  |});
  let collator := role_is_authority (role config) in
  (if collator then start_sealing config parts else mret tt);;
  _ ← attempt id (SpawnTasks {|
    tasks_network := built_network net;
    tasks_client := client parts;
    tasks_keystore := keystore (keystore_container parts);
    tasks_task_manager := task_manager parts;
    tasks_pool := pool parts;
    tasks_rpc_builder := rpc_builder (client parts) (pool parts);
    tasks_backend := backend parts;
    tasks_system_rpc_tx := system_rpc_tx net;
    tasks_tx_handler_controller := tx_handler_controller net;
    tasks_sync_service := sync_service net;
    tasks_config := config;
    tasks_telemetry := None;
  |});
  trigger (StartNetwork (network_starter net));;
  mret (task_manager parts).

(** ** What the service starts *)

Definition sealing_plan config : list Event :=
  if is_authority config
  then [Spawned true true "authorship_task" (Some "block-authoring")] else [].

(** The calls the service makes, for its configuration. *)
Definition dev_proper config (A : Type) (call : Call (E := E) (Command := Command) A) : Prop :=
  match call with
  | NewFullParts c _ executor _ genesis _ =>
    c = config ∧ executor = new_native_or_wasm_executor DevDispatch config ∧
    build_genesis_storage genesis = chain_spec config ∧
    commit_genesis_state genesis = negb (no_genesis config)
  | PoolNewFull _ is_validator _ _ _ => is_validator = is_authority config
  | Spawn _ _ _ _ (ManualSeal params) =>
    is_authority config = true ∧ seal_providers params = dev_data_providers ∧
    create_empty (seal_command params) = true ∧ finalize (seal_command params) = false
  | BuildRelayChainInterface _ _ _ _ _ _ | StartRelayChainTasks _ => False
  | CreateRunner _ | RunCommand _ _ | RunToEnd _ _ | RunUntilExit _ => False
  | _ => True
  end.

Abbreviation dev_follows config := (follows (dev_proper config) (λ _, False)).

Lemma dev_new_partial_follows config :
  dev_follows config (telemetry_plan config) [] (dev_new_partial config).
Proof.
  unfold dev_new_partial. eapply follows_eq.
  - apply follows_start_telemetry; [done..|]. intros telemetry Ht. follow; try done.
    by apply spawn_telemetry_follows.
  - follow_plan.
  - done.
Qed.

Lemma start_sealing_follows config parts :
  dev_follows config [] (sealing_plan config)
    (if is_authority config then start_sealing config parts else mret tt).
Proof.
  unfold sealing_plan. destruct (is_authority config) eqn:Ha; [|apply follows_ret].
  unfold start_sealing. by follow.
Qed.

Lemma new_dev_follows config :
  dev_follows config (telemetry_plan config ++ sealing_plan config) [Networking] (new_dev config).
Proof.
  unfold new_dev. eapply follows_eq.
  - eapply follows_bind; [apply dev_new_partial_follows|]. intros parts. follow; try done.
    apply start_sealing_follows.
  - follow_plan.
  - done.
Qed.

(** Whatever the library answers, the development service starts what its
    configuration says, in this order: the telemetry worker when there are endpoints,
    the sealing task of an authority, and last the network.  It never asks for a relay
    chain, seals blocks without finalizing them, even empty ones, with the providers of
    [dev_data_providers], and does not panic. *)
Theorem dev_service_roles config :
  let plan := telemetry_plan config ++ sealing_plan config in
  match new_dev config [] with
  | Ret _ t => all_proper (dev_proper config) t ∧ events t = plan ++ [Networking]
  | Throw _ t => all_proper (dev_proper config) t ∧ events t `prefix_of` plan
  | Panic _ => False
  end.
Proof.
  apply (follows_observed _ (λ _, False)), new_dev_follows.
Qed.

Lemma new_dev_completes config : generous → completes (λ _, True) (new_dev config).
Proof.
  intros grants.
  unfold new_dev, dev_new_partial, start_sealing, start_telemetry, spawn_telemetry. complete.
Qed.

(** When the library answers nothing but successes, the development service starts,
    with all of its tasks and the network. *)
Theorem dev_service_starts config :
  generous → ∃ task_manager t, new_dev config [] = Ret task_manager t ∧
    events t = telemetry_plan config ++ sealing_plan config ++ [Networking].
Proof.
  intros grants. rewrite app_assoc.
  by eapply completes_observed; [apply new_dev_follows|apply new_dev_completes].
Qed.
End service.
