(* ===== verification/Commands.v ===== *)
(** * Commands: what the command lines of the nodes do alike

    The metadata of a command line ([SubstrateCli]) and the runner that [create_runner]
    answers, whose methods give its configuration to a closure. *)

From S2P Require Import Prelude Effects Scale Types Checker UtxoSet CheckerLaws Executive.
From S2P Require Import Genesis Wallet RuntimeApi Authoring ChainSpecs Substrate.

(** [sc_cli::SubstrateCli], without its provided methods *)
Record SubstrateCli (ChainSpec : Type) : Type := mk_substrate_cli {
  impl_name : string;
  impl_version : string;
  description : string;
  author : string;
  support_url : string;
  copyright_start_year : Z;
  spec_of : string → partial (result string ChainSpec);
}.
Arguments mk_substrate_cli {_} _ _ _ _ _ _ _.

(** What the build provides to [env!]. *)
Record BuildEnvironment : Type := mk_environment {
  SUBSTRATE_CLI_IMPL_VERSION : string;
  CARGO_PKG_DESCRIPTION : string;
  CARGO_PKG_AUTHORS : string;
}.

Section commands.
Context `{ConsensusParts, !CollatorParts} {E : Type} `{!ConfigurationFields E} {Command : Type}.
Abbreviation Config := (Configuration E).
Abbreviation S := (M (Trace E Command) CliError).
Abbreviation Task := (Task (E := E) (Command := Command)).

(** The methods of [sc_cli::Runner] *)
Class Runners : Type := {
  sync_run : Runner → (Config → S unit) → S unit;
  async_run : Runner → (Config → S (Task * TaskManager)) → S unit;
  run_node_until_exit : Runner → (Config → S TaskManager) → S unit;
}.

Context `{!Library (E := E) (Command := Command)}.

(** Documented behaviour: they run the closure on the configuration, and then the task
    or the node that it answers to the end. *)
Class RunnerLaws `{runners : !Runners} : Prop := {
  sync_run_is runner command : sync_run runner command = command (runner_config runner);
  async_run_is runner command : async_run runner command =
    ('(task, task_manager) ← command (runner_config runner);
     attempt id (RunToEnd task task_manager));
  run_node_is runner initialize : run_node_until_exit runner initialize =
    (task_manager ← initialize (runner_config runner); attempt id (RunUntilExit task_manager));
}.

(** What a program does with a runner for its command follows what it does with the
    configuration of the runner. *)
Lemma created_observed {A} (command : Command) (k : Runner → S A)
    (proper : Config → ∀ A, Call (E := E) (Command := Command) A → Prop)
    (panics : Config → string → Prop) (plan sure : Config → list Event) :
  (∀ config, proper config _ (CreateRunner command)) →
  (∀ runner, let config := runner_config runner in
    follows (proper config) (panics config) (plan config) (sure config) (k runner)) →
  let run := bind (attempt id (CreateRunner command)) k in
  match answer (result CliError Runner) [] (CreateRunner command) with
  | Ok runner => let config := runner_config runner in
    observed (proper config) (panics config) (plan config) (sure config) (run [])
  | Err e => run [] = Throw e [existT _ (CreateRunner command)]
  end.
Proof.
  intros Hc Hk run. destruct (answer _ [] (CreateRunner command)) as [runner|e] eqn:Er.
  - specialize (Hk runner [existT _ (CreateRunner command)]). unfold run, attempt, trigger.
    rewrite !bind_run, Er. cbn in *.
    by destruct (k runner _) as [a t|e t|why];
      [destruct Hk as (p & -> & Hp & Hs)..|]; [split; [by constructor|]..|].
  - unfold run, attempt, trigger. by rewrite !bind_run, Er.
Qed.
End commands.
