(* ===== verification/ServiceSamples.v ===== *)
(** * ServiceSamples: a concrete library for the witnesses of the services

    A library without parts, that answers each call with a success.  The parameters of
    the sample say what is configured. *)

From S2P Require Import Prelude Effects Scale Types Checker UtxoSet CheckerLaws Executive.
From S2P Require Import Genesis Wallet RuntimeApi Authoring NodeSamples ChainSpecs Substrate Commands.

Module ServiceSample.
Export SpecSample.

#[export] Instance concrete_api : ApiPrimitives := {|
  AuraId := bytes;
  aura_from_slice := Some;
  GrandpaId := bytes;
  grandpa_from_slice := Some;
  EquivocationProof := unit;
  OpaqueKeyOwnershipProof := unit;
  RUNTIME_API_VERSIONS := [];
  PARACHAIN_RUNTIME_API_VERSIONS := [];
|}.

Section sample.
Context `{NodeLibraries}.

(** The role says whether the node is an authority, and the endpoints how many there are. *)
#[export] Instance concrete_parts : Parts := {|
  Role := bool;
  role_is_authority := id;
  TelemetryEndpoints := nat;
  endpoints_is_empty n := Nat.eqb n 0;
  DatabaseSource := string;
  database_path := Some;
  NetworkConfiguration := unit;
  network_node_name _ := "sample";
  TransactionPoolOptions := unit;
  Registry := unit;
  WasmExecutionMethod := unit;
  ServiceError := string;
  TelemetryError := string;
  ConsensusError := string;
  RelayChainError := string;
  RpcError := string;
  from_telemetry := id;
  from_blockchain _ := "client";
  from_consensus := id;
  from_rpc := id;
  service_application := id;
  cli_service := id;
  TelemetryWorker := unit;
  TelemetryWorkerHandle := unit;
  Telemetry := unit;
  TelemetryHandle := unit;
  worker_handle := id;
  telemetry_handle := id;
  TaskManager := unit;
  Future := unit;
  worker_run := id;
  Executor := unit;
  FullBackend := unit;
  FullClient := unit;
  KeystoreContainer := unit;
  KeystorePtr := unit;
  keystore := id;
  TransactionPool := unit;
  ImportQueue := unit;
  ImportQueueService := unit;
  import_queue_service := id;
  LongestChain := unit;
  longest_chain_new := id;
  FullNetworkConfiguration := unit;
  network_configuration_new := id;
  Network := unit;
  SystemRpcTx := unit;
  TxHandlerController := unit;
  NetworkStarter := unit;
  SyncService := unit;
  DenyUnsafe := bool;
  RpcModule := unit;
  rpc_module_new := tt;
  RpcHandlers := unit;
  ProposerFactory := bool;
  proposer_factory record _ _ _ _ _ := record;
|}.

#[export] Instance concrete_consensus : ConsensusParts := {|
  GrandpaBlockImport := unit;
  LinkHalf := unit;
  SharedAuthoritySet := unit;
  shared_authority_set := id;
  WarpSyncProvider := unit;
  warp_provider_new _ _ := tt;
  ProtocolName := string;
  protocol_standard_name E _ _ := "grandpa";
  NotificationProtocol := unit;
  NotificationService := unit;
  grandpa_peers_set_config _ := (tt, tt);
  add_notification_protocol _ _ := tt;
  VotingRule := unit;
  default_voting_rule := tt;
  SharedVoterState := unit;
  shared_voter_state_empty := tt;
  OffchainTransactionPoolFactory := unit;
  offchain_tx_pool_factory_new := id;
  grandpa_revert _ _ := Ok tt;
  SlotProportion := N * N;
  slot_proportion_new := pair;
|}.

#[export] Instance concrete_collator_parts : CollatorParts := {|
  ParachainBlockImport := unit;
  parachain_block_import_new _ _ := tt;
  HeapAllocStrategy := option u32;
  DEFAULT_HEAP_ALLOC_STRATEGY := None;
  static_heap := Some;
  WasmExecutor := unit;
  wasm_executor _ _ _ _ _ := tt;
  new_with_wasm_executor _ _ := tt;
  prepare_node_config E config := config;
  RelayChainInterface := unit;
  CollatorPair := unit;
  OverseerHandle := unit;
  HwBench := unit;
  announce_block _ _ _ := tt;
  Proposer := bool;
  proposer_new := id;
  CollatorService := unit;
  collator_service_new _ _ _ _ := tt;
  AuraConsensusDataProvider := unit;
  aura_consensus_data_provider_new := id;
|}.

Context {E : Type} (authority no_grandpa : bool) (endpoints : option nat)
  (default_spec : GenericChainSpec E).

Definition concrete_fields : ConfigurationFields E := {|
  telemetry_endpoints _ := endpoints;
  no_genesis _ := false;
  database _ := "/tmp/db";
  role _ := authority;
  network _ := tt;
  transaction_pool _ := tt;
  prometheus_registry _ := None;
  force_authoring _ := false;
  disable_grandpa _ := no_grandpa;
  wasm_method _ := tt;
  default_heap_pages _ := None;
  max_runtime_instances _ := 8%N;
  runtime_cache_size _ := trunc 8 2;
  DatabaseSettings := unit;
  db_config _ := tt;
  new_native_or_wasm_executor _ _ := tt;
  Runner := GenericChainSpec E;
  runner_config := id;
|}.
#[local] Existing Instance concrete_fields.
Context {Command : Type} (duration : SlotDuration).

Definition concrete_network : NetworkParts := mk_network tt tt tt tt tt.

(** Each call succeeds. *)
Definition succeeding : Library (E := E) (Command := Command) := λ A _ call,
  match call in Call A return A with
  | TelemetryWorkerNew _ => Ok tt
  | NewTelemetry _ _ => tt
  | NewDbBackend _ => Ok tt
  | NewFullParts _ _ _ _ _ _ => Ok (tt, tt, tt, tt)
  | Spawn _ _ _ _ _ => tt
  | PoolNewFull _ _ _ _ _ => tt
  | GrandpaImport _ _ _ _ => Ok (tt, tt)
  | AuraSlotDuration _ => Ok duration
  | AuraImportQueue _ => Ok tt
  | BlockHash _ _ => Ok (Some H256_zero)
  | BuildNetwork _ => Ok concrete_network
  | SpawnTasks _ => Ok tt
  | StartAura _ => Ok tt
  | RunGrandpaVoter _ => Ok tt
  | StartNetwork _ => tt
  | BuildRelayChainInterface _ _ _ _ _ _ => Ok (tt, Some tt)
  | BuildParachainNetwork _ => Ok concrete_network
  | OverseerHandleOf _ => Ok tt
  | StartRelayChainTasks _ => Ok tt
  | FullyVerifyingImportQueue _ => tt
  | ManualSealImportQueue _ _ _ => tt
  | CreateDirAll _ => tt
  | GatherHwbench _ => tt
  | CreateRunner _ => Ok default_spec
  | RunCommand _ _ => Ok tt
  | RunToEnd _ _ => Ok tt
  | RunUntilExit _ => Ok tt
  end.
#[local] Existing Instance succeeding.

Lemma succeeding_generous : generous (Library0 := succeeding).
Proof. intros A trace []; cbn; eauto. Qed.

(** The runner does what its documentation says. *)
Definition concrete_runners : Runners (E := E) (Command := Command) := {|
  sync_run runner command := command (runner_config runner);
  async_run runner command :=
    '(task, task_manager) ← command (runner_config runner);
    attempt id (RunToEnd task task_manager);
  run_node_until_exit runner initialize :=
    task_manager ← initialize (runner_config runner); attempt id (RunUntilExit task_manager);
|}.
Lemma concrete_runner_laws : RunnerLaws (runners := concrete_runners).
Proof. done. Qed.
End sample.
End ServiceSample.
