(* ===== verification/NodeCommands.v ===== *)
(** * NodeCommands: the command line of the template node

    Models [node/src/cli.rs] and [node/src/command.rs]: the subcommands, and what [run]
    does for each of them.  Only without a subcommand does the node author, vote or
    join the network. *)

From S2P Require Import Prelude Effects Scale Types Checker UtxoSet CheckerLaws Executive.
From S2P Require Import Verifiers Genesis TemplateRuntime Wallet RuntimeApi Authoring ChainSpecs Substrate.
From S2P Require Import NodeSamples ServiceParts NodeService Commands ServiceSamples.

(** ** [cli.rs] *)

Record CustomCommand : Type := mk_custom { arg1 : option u8; arg2 : option string }.

Inductive Subcommand `{ConfigurationLibrary} : Type :=
| Key (cmd : KeySubcommand)
| BuildSpec (cmd : BuildSpecCmd)
| CheckBlock (cmd : CheckBlockCmd)
| ExportBlocks (cmd : ExportBlocksCmd)
| ExportState (cmd : ExportStateCmd)
| ImportBlocks (cmd : ImportBlocksCmd)
| PurgeChain (cmd : PurgeChainCmd)
| Revert (cmd : RevertCmd)
| ChainInfo (cmd : ChainInfoCmd)
| Custom (cmd : CustomCommand).

Record NodeCli `{ConfigurationLibrary} : Type := mk_node_cli {
  subcommand : option Subcommand;
  run_cmd : RunCmd;
}.

(** The commands that a runner is created for. *)
Inductive NodeCommand `{ConfigurationLibrary} : Type :=
| OfSubcommand (sub : Subcommand)
| OfRun (cmd : RunCmd).

Arguments mk_node_cli {_ _ _} _ _.

(** ** [command.rs] *)

Section metadata.
Context `{RuntimeParameters, ChainSpecLibrary}.
Context `{!ToJson (list (Transaction OuterVerifier OuterConstraintChecker))}.
Context (WASM_BINARY : option bytes).

(** [impl SubstrateCli for Cli] *)
Definition node_substrate_cli (env : BuildEnvironment) :
    SubstrateCli (GenericChainSpec (option unit)) := {|
  impl_name := "Tuxedo Template Node";
  impl_version := SUBSTRATE_CLI_IMPL_VERSION env;
  description := CARGO_PKG_DESCRIPTION env;
  author := CARGO_PKG_AUTHORS env;
  support_url := "https://github.com/Off-Narrative-Labs/Tuxedo/issues";
  copyright_start_year := 2023;
  spec_of := load_spec WASM_BINARY;
|}.
End metadata.

Section command.
Context `{ConsensusParts, !CollatorParts, !ConfigurationFields (option unit)}.
Abbreviation Command := NodeCommand.
Abbreviation Config := (Configuration (option unit)).
Context `{!Library (E := option unit) (Command := Command)}.
Context `{!Runners (E := option unit) (Command := Command)}.
Context `{Scale, !CoreCodecs, !OpaqueCodecs, !Codec string, !ApiPrimitives}.
Context (api_dispatch : string → bytes → option bytes).
Abbreviation S := (M (Trace (option unit) Command) CliError).
Abbreviation Task := (Task (E := option unit) (Command := Command)).
Implicit Types (cli : NodeCli) (config : Config).
Abbreviation new_partial := (new_partial api_dispatch).
Abbreviation new_full := (new_full api_dispatch).

(** [service::new_partial(&config)?] *)
Definition partial_components config : S Components :=
  catch_err cli_service (new_partial config).

(** [aux_revert] *)
Definition aux_revert (client : FullClient) (_ : FullBackend) (blocks : u32) :
    result BlockchainError unit :=
  grandpa_revert client blocks;;
  mret tt.

Definition run cli : S unit :=
  match subcommand cli with
  | Some sub =>
    let cmd := OfSubcommand sub in
    match sub with
    | Key _ => attempt id (RunCommand cmd OfNothing)
    | BuildSpec _ =>
      runner ← attempt id (CreateRunner cmd);
      sync_run runner (λ config,
        attempt id (RunCommand cmd (OfSpecAndNetwork (chain_spec config) (network config))))
    | CheckBlock _ =>
      runner ← attempt id (CreateRunner cmd);
      async_run runner (λ config,
        parts ← partial_components config;
        mret (CommandTask cmd (OfClientAndQueue (client parts) (import_queue parts)) : Task,
              task_manager parts))
    | ExportBlocks _ =>
      runner ← attempt id (CreateRunner cmd);
      async_run runner (λ config,
        parts ← partial_components config;
        mret (CommandTask cmd (OfClientAndDatabase (client parts) (database config)) : Task,
              task_manager parts))
    | ExportState _ =>
      runner ← attempt id (CreateRunner cmd);
      async_run runner (λ config,
        parts ← partial_components config;
        mret (CommandTask cmd (OfClientAndSpec (client parts) (chain_spec config)) : Task,
              task_manager parts))
    | ImportBlocks _ =>
      runner ← attempt id (CreateRunner cmd);
      async_run runner (λ config,
        parts ← partial_components config;
        mret (CommandTask cmd (OfClientAndQueue (client parts) (import_queue parts)) : Task,
              task_manager parts))
    | PurgeChain _ =>
      runner ← attempt id (CreateRunner cmd);
      sync_run runner (λ config, attempt id (RunCommand cmd (OfDatabase (database config))))
    | Revert _ =>
      runner ← attempt id (CreateRunner cmd);
      async_run runner (λ config,
        parts ← partial_components config;
        mret (CommandTask cmd (OfClientAndBackend (client parts) (backend parts) (Some aux_revert))
                : Task,
              task_manager parts))
    | ChainInfo _ =>
      runner ← attempt id (CreateRunner cmd);
      sync_run runner (λ config, attempt id (RunCommand cmd (OfConfiguration config)))
    | Custom _ => panic "not yet implemented"
    end
  | None =>
    runner ← attempt id (CreateRunner (OfRun (run_cmd cli)));
    run_node_until_exit runner (λ config, catch_err cli_service (new_full config))
  end.

(** ** What a command starts *)

Definition command_of cli : Command :=
  match subcommand cli with Some sub => OfSubcommand sub | None => OfRun (run_cmd cli) end.

(** The commands that open the chain. *)
Definition opens_chain (sub : Subcommand) : bool :=
  match sub with
  | CheckBlock _ | ExportBlocks _ | ExportState _ | ImportBlocks _ | Revert _ => true
  | _ => false
  end.

Definition command_plan cli config : list Event :=
  match subcommand cli with
  | Some sub => if opens_chain sub then telemetry_plan config else []
  | None => telemetry_plan config ++ authoring_plan config ++ voting_plan config ++ [Networking]
  end.

(** What the command is given is of its configuration. *)
Definition arguments_of config (sub : Subcommand) (arguments : RunArguments) : Prop :=
  match sub, arguments with
  | Key _, OfNothing => True
  | BuildSpec _, OfSpecAndNetwork spec net => spec = chain_spec config ∧ net = network config
  | CheckBlock _, OfClientAndQueue _ _ => True
  | ExportBlocks _, OfClientAndDatabase _ db => db = database config
  | ExportState _, OfClientAndSpec _ spec => spec = chain_spec config
  | ImportBlocks _, OfClientAndQueue _ _ => True
  | PurgeChain _, OfDatabase db => db = database config
  | Revert _, OfClientAndBackend _ _ aux => aux = Some aux_revert
  | ChainInfo _, OfConfiguration c => c = config
  | _, _ => False
  end.

(** The calls of a command: those of the service, and those that run the command. *)
Definition command_proper cli config (A : Type)
    (call : Call (E := option unit) (Command := Command) A) : Prop :=
  match call with
  | CreateRunner command => command = command_of cli
  | RunCommand command arguments =>
    ∃ sub, subcommand cli = Some sub ∧ opens_chain sub = false ∧
      command = OfSubcommand sub ∧ arguments_of config sub arguments
  | RunToEnd (CommandTask command arguments) _ =>
    ∃ sub, subcommand cli = Some sub ∧ opens_chain sub = true ∧
      command = OfSubcommand sub ∧ arguments_of config sub arguments
  | RunToEnd _ _ => False
  | RunUntilExit _ => subcommand cli = None
  | _ => node_proper api_dispatch config A call
  end.

Abbreviation command_follows cli config :=
  (follows (command_proper cli config) (λ why, why = genesis_missing ∧ subcommand cli = None)).

Lemma service_proper cli config A call :
  node_proper api_dispatch config A call → command_proper cli config A call.
Proof. by destruct call. Qed.

Lemma node_components_follows cli config :
  command_follows cli config (telemetry_plan config) [] (partial_components config).
Proof.
  apply follows_catch. eapply follows_mono;
    [apply (new_partial_follows _ _ (λ _, False))|apply service_proper|done].
Qed.

(** A command that opens the chain runs to its end. *)
Lemma node_opening_follows cli config sub (arguments : Components → RunArguments) :
  subcommand cli = Some sub → opens_chain sub = true →
  (∀ parts, arguments_of config sub (arguments parts)) →
  command_follows cli config (telemetry_plan config) []
    (bind (parts ← partial_components config;
           mret (CommandTask (OfSubcommand sub) (arguments parts) : Task, task_manager parts))
       (λ '(task, task_manager), attempt id (RunToEnd task task_manager))).
Proof.
  intros Hs Ho Ha. eapply follows_eq.
  - eapply (follows_bind_post _ _ (λ made : Task * TaskManager,
      ∃ parts, made.1 = CommandTask (OfSubcommand sub) (arguments parts))).
    + apply follows_map, node_components_follows.
    + intros t [task task_manager] t' (parts & ? & _ & [= <- <- _])%bind_ret_inv. by exists parts.
    + intros [task task_manager] [parts Hp]. cbn in Hp. subst task. apply follows_attempt; [|done]. by exists sub.
  - follow_plan.
  - done.
Qed.

Context `{!RunnerLaws}.

Lemma node_run_completes cli :
  generous → (∀ cmd, subcommand cli ≠ Some (Custom cmd)) → completes (λ _, True) (run cli).
Proof.
  intros grants Hc. unfold run. destruct (subcommand cli) as [[]|]; try done; complete;
    rewrite ?sync_run_is, ?async_run_is, ?run_node_is; complete;
    try by apply completes_catch, new_partial_completes.
  - by destruct (Hc cmd).
  - by apply completes_catch, new_full_completes.
Qed.

(** C38: What a command line of the template node does, whatever the library answers.  The
    command that is not implemented panics, the key commands need no runner, and no
    other command does anything when no runner is created.  With a runner, a command
    that opens the chain starts the telemetry worker at most, the other commands start
    nothing, and each is given what its configuration says; only without a subcommand
    does the node author, vote and join the network, as [node_service_roles] says.  When
    the library answers nothing but successes, every implemented command returns. *)
Theorem node_commands cli :
  (generous → (∀ cmd, subcommand cli ≠ Some (Custom cmd)) → ∃ t, run cli [] = Ret tt t) ∧
  match subcommand cli with
  | Some (Custom _) => run cli [] = Panic "not yet implemented"
  | Some (Key _) => run cli = attempt id (RunCommand (command_of cli) OfNothing)
  | _ =>
    match answer (result CliError Runner) [] (CreateRunner (command_of cli)) with
    | Ok runner => let config := runner_config runner in
      observed (command_proper cli config) (λ why, why = genesis_missing ∧ subcommand cli = None)
        (command_plan cli config) [] (run cli [])
    | Err e => run cli [] = Throw e [existT _ (CreateRunner (command_of cli))]
    end
  end.
Proof.
  split.
  { intros grants Hc. by destruct (node_run_completes cli grants Hc []) as ([] & t & Er & _); eauto. }
  pose proof (λ k : Runner → S (), created_observed (command_of cli) k (command_proper cli)
    (λ _ why, why = genesis_missing ∧ subcommand cli = None) (command_plan cli) (λ _, [])
    (λ _, eq_refl)) as created.
  unfold run, command_of in *. destruct (subcommand cli) as [sub|] eqn:Hs.
  - destruct sub; try done; rewrite <-Hs in *; apply created; intros runner;
      unfold command_plan; rewrite Hs, ?sync_run_is, ?async_run_is; rewrite <-Hs;
      first [by apply node_opening_follows
            |by apply follows_attempt; [eexists; split_and!|]].
  - apply created. intros runner. unfold command_plan. rewrite Hs, run_node_is.
    eapply follows_eq.
    + eapply follows_bind.
      * apply follows_catch. eapply follows_mono;
          [apply new_full_follows|apply service_proper|by intros ? ->].
      * intros task_manager. by apply follows_attempt.
    + rewrite app_nil_r, <-!app_assoc. done.
    + done.
Qed.
End command.

Module Witnesses.
Import ServiceSample.

#[local] Instance sample_node : NodeLibraries := client_of (λ _, None) no_mock.
#[local] Instance sample_fields : ConfigurationFields (option unit) :=
  concrete_fields true false (Some 2).
Definition sample_spec : GenericChainSpec (option unit) :=
  mk_fields some_wasm None (Some "Sample") None None None None.
#[local] Instance sample_library : Library (E := option unit) (Command := NodeCommand) :=
  succeeding true false (Some 2) sample_spec (trunc 64 6000 : u64).
#[local] Instance sample_runners : Runners (E := option unit) (Command := NodeCommand) :=
  concrete_runners true false (Some 2) sample_spec (trunc 64 6000 : u64).
#[local] Instance sample_laws : RunnerLaws := concrete_runner_laws true false (Some 2) sample_spec (trunc 64 6000 : u64).

Definition full_node : NodeCli := mk_node_cli None tt.
Definition exporting : NodeCli := mk_node_cli (Some (ExportBlocks tt)) tt.
Definition starts cli : option (list Event) :=
  match run (λ _ _, None) cli [] with Ret _ t => Some (events t) | _ => None end.

Lemma node_commands_witness :
  starts full_node =
    Some [Spawned false false "telemetry" None;
          Spawned true true "aura" (Some "block-authoring");
          Spawned true true "grandpa-voter" None; Networking] ∧
  starts exporting = Some [Spawned false false "telemetry" None].
Proof.
  split.
  - destruct (node_commands (λ _ _, None) full_node) as [Hr Hp].
    destruct (Hr (succeeding_generous _ _ _ _ _)) as [t Et]; [done|].
    unfold starts. rewrite Et in *. by destruct Hp as [_ ->].
  - destruct (node_commands (λ _ _, None) exporting) as [Hr Hp].
    destruct (Hr (succeeding_generous _ _ _ _ _)) as [t Et]; [done|].
    unfold starts. rewrite Et in *. by destruct Hp as [_ ->].
Defined.
End Witnesses.
