(* ===== verification/CollatorCommands.v ===== *)
(** * CollatorCommands: the command line of the parachain node

    Models [parachain-node/src/command.rs]: what [run] does for each subcommand of
    [parachain-node/src/cli.rs], and the command line of the relay chain, of which the
    configuration of the relay chain is made. *)

From S2P Require Import Prelude Effects Scale Types Checker UtxoSet CheckerLaws Executive.
From S2P Require Import Concrete Verifiers Samples Aggregator Genesis ParachainCore ParachainPiece ParachainRuntime.
From S2P Require Import TemplateRuntime RuntimeSamples RuntimeFacts RuntimeGenesis.
From S2P Require Import Wallet RuntimeApi Authoring ChainSpecs Substrate.
From Stdlib Require Import Strings.Ascii.
From S2P Require Import ParachainFacts ParachainGrowth NodeSamples ServiceParts CollatorService.
From S2P Require Import DevService Commands ServiceSamples.

(** ** The command line of the relay chain *)

(** The parameters and values of [sc_cli::CliConfiguration], and the methods of
    [polkadot_cli::RunCmd], next to those in [CollatorLibraries]. *)
Class RelayMethods `{Parts} : Type := {
  SharedParams : Type;
  ImportParams : Type;
  NetworkParams : Type;
  KeystoreParams : Type;
  SocketAddr : Type;
  PrometheusConfig : Type;
  RpcMethods : Type;
  RelayChainSpec : Type;
  run_cmd_shared_params : RelayRunCmd → SharedParams;
  run_cmd_import_params : RelayRunCmd → option ImportParams;
  run_cmd_network_params : RelayRunCmd → option NetworkParams;
  run_cmd_keystore_params : RelayRunCmd → option KeystoreParams;
  run_cmd_rpc_addr : RelayRunCmd → uint 16 → result CliError (option SocketAddr);
  run_cmd_prometheus_config :
    RelayRunCmd → uint 16 → RelayChainSpec → result CliError (option PrometheusConfig);
  run_cmd_role : RelayRunCmd → bool → result CliError Role;
  run_cmd_transaction_pool : RelayRunCmd → bool → result CliError TransactionPoolOptions;
  run_cmd_trie_cache_maximum_size : RelayRunCmd → result CliError (option N);
  run_cmd_rpc_methods : RelayRunCmd → result CliError RpcMethods;
  run_cmd_rpc_max_connections : RelayRunCmd → result CliError u32;
  run_cmd_rpc_cors : RelayRunCmd → bool → result CliError (option (list string));
  run_cmd_default_heap_pages : RelayRunCmd → result CliError (option u64);
  run_cmd_force_authoring : RelayRunCmd → result CliError bool;
  run_cmd_disable_grandpa : RelayRunCmd → result CliError bool;
  run_cmd_max_runtime_instances : RelayRunCmd → result CliError (option N);
  run_cmd_announce_block : RelayRunCmd → result CliError bool;
  run_cmd_telemetry_endpoints :
    RelayRunCmd → RelayChainSpec → result CliError (option TelemetryEndpoints);
  run_cmd_node_name : RelayRunCmd → result CliError string;
  (** [polkadot_cli::Cli::load_spec] *)
  relay_load_spec : string → partial (result string RelayChainSpec);
}.

(** The methods of [sc_cli::CliConfiguration] that [RelayChainCli] overrides. *)
Record CliConfiguration `{RelayMethods} : Type := mk_cli_configuration {
  cli_shared_params : SharedParams;
  cli_import_params : option ImportParams;
  cli_network_params : option NetworkParams;
  cli_keystore_params : option KeystoreParams;
  cli_base_path : result CliError (option string);
  cli_rpc_addr : uint 16 → result CliError (option SocketAddr);
  cli_prometheus_config : uint 16 → RelayChainSpec → result CliError (option PrometheusConfig);
  cli_init : partial (result CliError unit);
  cli_chain_id : bool → result CliError string;
  cli_role : bool → result CliError Role;
  cli_transaction_pool : bool → result CliError TransactionPoolOptions;
  cli_trie_cache_maximum_size : result CliError (option N);
  cli_rpc_methods : result CliError RpcMethods;
  cli_rpc_max_connections : result CliError u32;
  cli_rpc_cors : bool → result CliError (option (list string));
  cli_default_heap_pages : result CliError (option u64);
  cli_force_authoring : result CliError bool;
  cli_disable_grandpa : result CliError bool;
  cli_max_runtime_instances : result CliError (option N);
  cli_announce_block : result CliError bool;
  cli_telemetry_endpoints : RelayChainSpec → result CliError (option TelemetryEndpoints);
  cli_node_name : result CliError string;
}.

(** [impl CliConfiguration for RelayChainCli] *)
Definition relay_cli_configuration `{RelayMethods} (self : RelayChainCli) : CliConfiguration := {|
  cli_shared_params := run_cmd_shared_params (relay_base self);
  cli_import_params := run_cmd_import_params (relay_base self);
  cli_network_params := run_cmd_network_params (relay_base self);
  cli_keystore_params := run_cmd_keystore_params (relay_base self);
  cli_base_path := relay_cli_base_path self;
  cli_rpc_addr := run_cmd_rpc_addr (relay_base self);
  cli_prometheus_config := run_cmd_prometheus_config (relay_base self);
  cli_init := Panicked
    "internal error: entered unreachable code: PolkadotCli is never initialized; qed";
  cli_chain_id := relay_cli_chain_id self;
  cli_role := run_cmd_role (relay_base self);
  cli_transaction_pool := run_cmd_transaction_pool (relay_base self);
  cli_trie_cache_maximum_size := run_cmd_trie_cache_maximum_size (relay_base self);
  cli_rpc_methods := run_cmd_rpc_methods (relay_base self);
  cli_rpc_max_connections := run_cmd_rpc_max_connections (relay_base self);
  cli_rpc_cors := run_cmd_rpc_cors (relay_base self);
  cli_default_heap_pages := run_cmd_default_heap_pages (relay_base self);
  cli_force_authoring := run_cmd_force_authoring (relay_base self);
  cli_disable_grandpa := run_cmd_disable_grandpa (relay_base self);
  cli_max_runtime_instances := run_cmd_max_runtime_instances (relay_base self);
  cli_announce_block := run_cmd_announce_block (relay_base self);
  cli_telemetry_endpoints := run_cmd_telemetry_endpoints (relay_base self);
  cli_node_name := run_cmd_node_name (relay_base self);
|}.

(** ** The commands *)

(** The commands that a runner is created for. *)
Inductive CollatorCommand `{CollatorLibraries} : Type :=
| OfCollatorSubcommand (sub : CollatorSubcommand)
| OfNormalizedRun (cmd : NormalizedRunCmd).

Section command.
Context `{RelayMethods, !ConsensusParts, !CollatorParts, !ConfigurationFields Extensions}.
Abbreviation Command := CollatorCommand.
Abbreviation Config := (Configuration Extensions).
Context `{!Library (E := Extensions) (Command := Command)}.
Context `{!Runners (E := Extensions) (Command := Command)}.
Context `{ParachainParameters, !OpaqueCodecs, !Codec string, !ApiPrimitives}.
Context `{!ToJson (list (Transaction OuterVerifier ParachainConstraintChecker))}.
Context (api_dispatch : string → bytes → option bytes) (WASM_BINARY : option bytes).
(** [SubstrateCli::create_configuration], of the methods of a command line *)
Context (create_configuration : CliConfiguration → result CliError RelayConfiguration).
Abbreviation S := (M (Trace Extensions Command) CliError).
Abbreviation Task := (Task (E := Extensions) (Command := Command)).
Implicit Types (cli : CollatorCli) (config : Config).

Definition create_relay_configuration (polkadot_cli : RelayChainCli) :
    result CliError RelayConfiguration :=
  create_configuration (relay_cli_configuration polkadot_cli).

(** [new_partial(&config)?] *)
Definition partial_components config : S ParachainComponents :=
  catch_err cli_service (parachain_new_partial api_dispatch config).

(** The macro [construct_async_run!] *)
Definition construct_async_run (cmd : Command)
    (code : ParachainComponents → Config → result CliError Task) : S unit :=
  runner ← attempt id (CreateRunner cmd);
  async_run runner (λ config,
    components ← partial_components config;
    v ← lift_result (code components config);
    mret (v, task_manager components)).

(** The hardware benchmarks: the argument of [then_some] is evaluated in any case. *)
Definition hardware_benchmarks cli config : S (option HwBench) :=
  benchmarked ←
    match database_path (database config) with
    | Some database_path =>
      trigger (CreateDirAll database_path);;
      hwbench ← trigger (GatherHwbench (Some database_path));
      mret (Some hwbench)
    | None => mret None
    end;
  mret (if negb (no_hardware_benchmarks cli) then benchmarked else None).

(** What [run] initializes without a subcommand. *)
Definition start_parachain cli config (hwbench : option HwBench) : S TaskManager :=
  '(id, polkadot_config) ←
    lift_result (relay_configuration create_relay_configuration cli config);
  r ← catch_err cli_service
    (start_parachain_node api_dispatch config polkadot_config
       (run_collator_options (collator_run cli)) id hwbench);
  mret r.1.
Definition start_collator cli config : S TaskManager :=
  if run_dev (collator_run cli) then catch_err cli_service (new_dev api_dispatch config) else
  hwbench ← hardware_benchmarks cli config;
  start_parachain cli config hwbench.

Definition run cli : S unit :=
  match collator_subcommand cli with
  | Some sub =>
    let cmd := OfCollatorSubcommand sub in
    match sub with
    | CollatorBuildSpec _ =>
      runner ← attempt id (CreateRunner cmd);
      sync_run runner (λ config,
        attempt id (RunCommand cmd (OfSpecAndNetwork (chain_spec config) (network config))))
    | CollatorCheckBlock _ =>
      construct_async_run cmd (λ components _,
        mret (CommandTask cmd (OfClientAndQueue (client components) (import_queue components))))
    | CollatorExportBlocks _ =>
      construct_async_run cmd (λ components config,
        mret (CommandTask cmd (OfClientAndDatabase (client components) (database config))))
    | CollatorExportState _ =>
      construct_async_run cmd (λ components config,
        mret (CommandTask cmd (OfClientAndSpec (client components) (chain_spec config))))
    | CollatorImportBlocks _ =>
      construct_async_run cmd (λ components _,
        mret (CommandTask cmd (OfClientAndQueue (client components) (import_queue components))))
    | CollatorRevert _ =>
      construct_async_run cmd (λ components _,
        mret (CommandTask cmd (OfClientAndBackend (client components) (backend components) None)))
    | CollatorPurgeChain _ =>
      runner ← attempt id (CreateRunner cmd);
      sync_run runner (λ config,
        let polkadot_cli :=
          relay_chain_cli_new config (executable_name :: relay_chain_args cli) in
        polkadot_config ← lift_result (map_err
          (λ err, error_message ("Relay chain argument error: " +:+ display_error err))
          (create_relay_configuration polkadot_cli));
        attempt id (RunCommand cmd (OfConfigurations config polkadot_config)))
    | CollatorExportGenesisState _ | CollatorExportGenesisHead _ =>
      runner ← attempt id (CreateRunner cmd);
      sync_run runner (λ config,
        partials ← partial_components config;
        attempt id (RunCommand cmd (OfClient (client partials))))
    | CollatorExportGenesisWasm wasm_command =>
      runner ← attempt id (CreateRunner cmd);
      sync_run runner (λ _config,
        loaded ← lift_partial
          (collator_load_spec WASM_BINARY (default "" (wasm_command_chain wasm_command)));
        spec ← lift_result (map_err error_message loaded);
        attempt id (RunCommand cmd (OfSpec spec)))
    end
  | None =>
    runner ← attempt id (CreateRunner (OfNormalizedRun (normalize (collator_run cli))));
    run_node_until_exit runner (λ config, start_collator cli config)
  end.

(** It starts the service that [start_service] chooses. *)
Lemma start_collator_service cli config :
  start_collator cli config =
  match start_service create_relay_configuration cli config with
  | Ok (NewDev config) => catch_err cli_service (new_dev api_dispatch config)
  | Ok (StartParachainNode config polkadot_config options id) =>
    hwbench ← hardware_benchmarks cli config;
    r ← catch_err cli_service
      (start_parachain_node api_dispatch config polkadot_config options id hwbench);
    mret r.1
  | Err e => hwbench ← hardware_benchmarks cli config; mthrow e
  end.
Proof.
  unfold start_collator, start_parachain, start_service. destruct (run_dev (collator_run cli)); [done|].
  by destruct (relay_configuration create_relay_configuration cli config) as [[]|].
Qed.

(** [impl SubstrateCli for Cli] and [for RelayChainCli] *)
Definition collator_description : string :=
  let newlines := String (Ascii.ascii_of_nat 10) (String (Ascii.ascii_of_nat 10) "") in
  "Parachain Collator Template" +:+ newlines +:+
  "The command-line arguments provided first will be passed to the parachain node, while the arguments provided after -- will be passed to the relay chain node." +:+
  newlines +:+ executable_name +:+ " <parachain-args> -- <relay-chain-args>".
Definition collator_substrate_cli (env : BuildEnvironment) :
    SubstrateCli (GenericChainSpec Extensions) := {|
  impl_name := "Parachain Collator Template";
  impl_version := SUBSTRATE_CLI_IMPL_VERSION env;
  description := collator_description;
  author := CARGO_PKG_AUTHORS env;
  support_url := "https://github.com/paritytech/cumulus/issues/new";
  copyright_start_year := 2020;
  spec_of := collator_load_spec WASM_BINARY;
|}.
Definition relay_substrate_cli (env : BuildEnvironment) : SubstrateCli RelayChainSpec := {|
  impl_name := "Parachain Collator Template";
  impl_version := SUBSTRATE_CLI_IMPL_VERSION env;
  description := collator_description;
  author := CARGO_PKG_AUTHORS env;
  support_url := "https://github.com/paritytech/cumulus/issues/new";
  copyright_start_year := 2020;
  spec_of := relay_load_spec;
|}.

(** ** What a command starts *)

Definition command_of cli : Command :=
  match collator_subcommand cli with
  | Some sub => OfCollatorSubcommand sub
  | None => OfNormalizedRun (normalize (collator_run cli))
  end.

(** The commands that open the chain. *)
Definition opens_chain (sub : CollatorSubcommand) : bool :=
  match sub with
  | CollatorBuildSpec _ | CollatorPurgeChain _ | CollatorExportGenesisWasm _ => false
  | _ => true
  end.

Definition starts_dev cli : bool := run_dev (collator_run cli).

(** The benchmarks do not depend on the command line. *)
Definition benchmark_plan config : list Event :=
  match database_path (database config) with Some _ => [Benchmarked] | None => [] end.
Definition service_plan config : list Event :=
  let config := prepare_node_config config in telemetry_plan config ++ collating_plan config.
Definition parachain_plan config : list Event := benchmark_plan config ++ service_plan config.

Definition command_plan cli config : list Event :=
  match collator_subcommand cli with
  | Some sub => if opens_chain sub then telemetry_plan config else []
  | None =>
    (if starts_dev cli then telemetry_plan config ++ sealing_plan config
     else parachain_plan config) ++ [Networking]
  end.

(** What the command is given is of its configuration. *)
Definition arguments_of cli config (sub : CollatorSubcommand)
    (arguments : RunArguments (E := Extensions)) : Prop :=
  match sub, arguments with
  | CollatorBuildSpec _, OfSpecAndNetwork spec net => spec = chain_spec config ∧ net = network config
  | CollatorCheckBlock _, OfClientAndQueue _ _ => True
  | CollatorExportBlocks _, OfClientAndDatabase _ db => db = database config
  | CollatorExportState _, OfClientAndSpec _ spec => spec = chain_spec config
  | CollatorImportBlocks _, OfClientAndQueue _ _ => True
  | CollatorRevert _, OfClientAndBackend _ _ aux => aux = None
  | CollatorPurgeChain _, OfConfigurations c relay => c = config ∧
    create_relay_configuration
      (relay_chain_cli_new config (executable_name :: relay_chain_args cli)) = Ok relay
  | (CollatorExportGenesisState _ | CollatorExportGenesisHead _), OfClient _ => True
  | CollatorExportGenesisWasm cmd, OfSpec spec =>
    collator_load_spec WASM_BINARY (default "" (wasm_command_chain cmd)) = Value (Ok spec)
  | _, _ => False
  end.

(** The parachain of a configuration *)
Definition parachain_of config : u32 :=
  default (trunc 32 0) (para_id <$> try_get (chain_spec config)).

(** The calls of a command: those of its service, and those that run the command. *)
Definition service_proper cli config (A : Type)
    (call : Call (E := Extensions) (Command := Command) A) : Prop :=
  match collator_subcommand cli with
  | Some _ => collator_proper api_dispatch config (parachain_of config) A call
  | None =>
    if starts_dev cli then dev_proper api_dispatch config A call
    else collator_proper api_dispatch (prepare_node_config config) (parachain_of config) A call
  end.
Definition command_proper cli config (A : Type)
    (call : Call (E := Extensions) (Command := Command) A) : Prop :=
  match call with
  | CreateRunner command => command = command_of cli
  | RunCommand command arguments | RunToEnd (CommandTask command arguments) _ =>
    ∃ sub, collator_subcommand cli = Some sub ∧ command = OfCollatorSubcommand sub ∧
      arguments_of cli config sub arguments
  | RunToEnd _ _ => False
  | RunUntilExit _ => collator_subcommand cli = None
  | _ => service_proper cli config A call
  end.

(** The panics: of an authority without a key, and of the loading of a specification. *)
Definition command_panics cli config (why : string) : Prop :=
  match collator_subcommand cli with
  | None =>
    starts_dev cli = false ∧ why = no_collator_key ∧ is_authority (prepare_node_config config) = true
  | Some (CollatorExportGenesisWasm cmd) =>
    collator_load_spec WASM_BINARY (default "" (wasm_command_chain cmd)) = Panicked why
  | Some _ => False
  end.

Abbreviation command_follows cli config :=
  (follows (command_proper cli config) (command_panics cli config)).

Lemma service_calls_proper cli config A call :
  service_proper cli config A call → command_proper cli config A call.
Proof.
  unfold command_proper. destruct call; try done; unfold service_proper;
    by destruct (collator_subcommand cli), (starts_dev cli).
Qed.

Lemma partial_components_follows cli config sub :
  collator_subcommand cli = Some sub →
  command_follows cli config (telemetry_plan config) [] (partial_components config).
Proof.
  intros Hs. apply follows_catch.
  eapply follows_mono; [apply (parachain_new_partial_follows _ _ (parachain_of config) (λ _, False))| |done].
  intros A call Hc. apply service_calls_proper. unfold service_proper. by rewrite Hs.
Qed.

(** A command that runs at once. *)
Lemma running_follows cli config sub arguments :
  collator_subcommand cli = Some sub → arguments_of cli config sub arguments →
  command_follows cli config [] []
    (attempt id (RunCommand (OfCollatorSubcommand sub) arguments)).
Proof. intros Hs Ha. apply follows_attempt; [|done]. by exists sub. Qed.

Lemma opening_running_follows cli config sub (arguments : ParachainComponents → RunArguments) :
  collator_subcommand cli = Some sub →
  (∀ components, arguments_of cli config sub (arguments components)) →
  command_follows cli config (telemetry_plan config) []
    (partials ← partial_components config;
     attempt id (RunCommand (OfCollatorSubcommand sub) (arguments partials))).
Proof.
  intros Hs Ha. eapply follows_eq.
  - eapply follows_bind; [by eapply partial_components_follows|]. intros partials.
    by apply running_follows.
  - follow_plan.
  - done.
Qed.

Context `{!RunnerLaws}.

(** A command that opens the chain runs to its end. *)
Lemma opening_follows cli config sub (arguments : ParachainComponents → RunArguments) :
  collator_subcommand cli = Some sub →
  (∀ components, arguments_of cli config sub (arguments components)) →
  command_follows cli config (telemetry_plan config) []
    (bind (components ← partial_components config;
           v ← lift_result (mret (CommandTask (OfCollatorSubcommand sub) (arguments components)));
           mret (v : Task, task_manager components))
       (λ '(task, task_manager), attempt id (RunToEnd task task_manager))).
Proof.
  intros Hs Ha. eapply follows_eq.
  - eapply (follows_bind_post _ _ (λ made : Task * TaskManager,
      ∃ components, made.1 = CommandTask (OfCollatorSubcommand sub) (arguments components))).
    + apply follows_map. by eapply partial_components_follows.
    + intros t [task task_manager] t' (parts & ? & _ & [= <- <- _])%bind_ret_inv. by exists parts.
    + intros [task task_manager] [parts Hp]. cbn in Hp. subst task. apply follows_attempt; [|done].
      by exists sub.
  - follow_plan.
  - done.
Qed.

Lemma hardware_benchmarks_follows cli config :
  collator_subcommand cli = None → starts_dev cli = false →
  command_follows cli config [] (benchmark_plan config) (hardware_benchmarks cli config).
Proof.
  intros Hs Hd. apply follows_map. unfold benchmark_plan.
  destruct (database_path (database config)) as [path|]; [|apply follows_ret].
  eapply follows_eq; [follow|done|done]; unfold command_proper, service_proper; by rewrite Hs, Hd.
Qed.

Lemma relay_configuration_parachain cli config id polkadot_config :
  relay_configuration create_relay_configuration cli config = Ok (id, polkadot_config) →
  id = parachain_of config.
Proof.
  unfold relay_configuration, parachain_of.
  intros (? & Hid%ok_or_ok & (? & _ & [= <- _])%bind_ok)%bind_ok. by rewrite Hid.
Qed.

Lemma start_parachain_follows cli config hwbench :
  collator_subcommand cli = None → starts_dev cli = false →
  command_follows cli config (service_plan config) [Networking]
    (start_parachain cli config hwbench).
Proof.
  intros Hs Hd. apply follows_bind_lift. intros [id polkadot_config] ->%relay_configuration_parachain.
  apply follows_map, follows_catch. eapply follows_mono; [apply start_node_impl_follows|..].
  - intros A call Hc. apply service_calls_proper. unfold service_proper. by rewrite Hs, Hd.
  - intros why []. unfold command_panics. by rewrite Hs, Hd.
Qed.

Lemma start_collator_follows cli config :
  collator_subcommand cli = None →
  ∃ plan, command_plan cli config = plan ++ [Networking] ∧
    command_follows cli config plan [Networking] (start_collator cli config).
Proof.
  intros Hs. eexists. split; [unfold command_plan; by rewrite Hs|].
  unfold start_collator. fold (starts_dev cli). destruct (starts_dev cli) eqn:Hd.
  - apply follows_catch. eapply follows_mono; [apply new_dev_follows| |done].
    intros A call Hc. apply service_calls_proper. unfold service_proper. by rewrite Hs, Hd.
  - eapply follows_eq; [eapply follows_bind; [by apply hardware_benchmarks_follows|]|done|done].
    intros hwbench. by apply start_parachain_follows.
Qed.

Lemma start_collator_completes cli config : generous →
  is_Some (ok (relay_configuration create_relay_configuration cli config)) →
  completes (λ _, True) (start_collator cli config).
Proof.
  intros grants [[id polkadot_config] Hr]. unfold start_collator. case_match.
  { by apply completes_catch, new_dev_completes. }
  apply (completes_bind (λ _, True)); [unfold hardware_benchmarks; complete|]. intros hwbench _.
  unfold start_parachain.
  destruct (relay_configuration _ _ _) as [made|]; [|done]. injection Hr as ->. complete.
  by apply completes_catch, start_node_impl_completes.
Qed.

Lemma run_completes cli : generous →
  (∀ config, is_Some (ok (relay_configuration create_relay_configuration cli config))) →
  (∀ cmd, collator_subcommand cli = Some (CollatorExportGenesisWasm cmd) →
    ∃ spec, collator_load_spec WASM_BINARY (default "" (wasm_command_chain cmd)) =
      Value (Ok spec)) →
  completes (λ _, True) (run cli).
Proof.
  intros grants Hr Hl. unfold run, construct_async_run.
  destruct (collator_subcommand cli) as [sub|];
    [destruct sub|]; complete; rewrite ?sync_run_is, ?async_run_is, ?run_node_is; complete;
    try by apply completes_catch, parachain_new_partial_completes.
  - apply (completes_bind (λ _, True)); [|intros relay _; complete].
    destruct (Hr (runner_config answered)) as [made Hm]. unfold relay_configuration in Hm.
    destruct (ok_or _ _); [|done]. cbn in Hm.
    destruct (create_relay_configuration _) as [relay|]; [|done]. by apply completes_ret.
  - destruct (Hl cmd eq_refl) as [spec Hs].
    eapply completes_bind; [by apply completes_lift_partial|]. intros ? ->. complete.
  - by apply start_collator_completes.
Qed.

(** C39: What a command line of the parachain node does, whatever the library answers.  No
    command does anything when no runner is created.  With a runner, a command that
    opens the chain starts the telemetry worker at most, the other commands start
    nothing, and each is given what its configuration and the relay chain's say; only
    without a subcommand is a service started: under [--dev] the development service,
    and otherwise the node of the parachain in the chain specification, as
    [dev_service_roles] and [collator_service_roles] say.  Before the latter the hardware
    benchmarks run when the database has a path, even under [--no-hardware-benchmarks],
    which decides only whether the node is given their results.  When the library answers
    nothing but successes, the relay chain can be configured, and the specification of
    the exported runtime can be loaded, every command returns. *)
Theorem collator_commands cli :
  (generous →
   (∀ config, is_Some (ok (relay_configuration create_relay_configuration cli config))) →
   (∀ cmd, collator_subcommand cli = Some (CollatorExportGenesisWasm cmd) →
     ∃ spec, collator_load_spec WASM_BINARY (default "" (wasm_command_chain cmd)) =
       Value (Ok spec)) →
   ∃ t, run cli [] = Ret tt t) ∧
  match answer (result CliError Runner) [] (CreateRunner (command_of cli)) with
  | Ok runner => let config := runner_config runner in
    observed (command_proper cli config) (command_panics cli config)
      (command_plan cli config) [] (run cli [])
  | Err e => run cli [] = Throw e [existT _ (CreateRunner (command_of cli))]
  end.
Proof.
  split.
  { intros grants Hr Hl. destruct (run_completes cli grants Hr Hl []) as ([] & t & Er & _). eauto. }
  pose proof (λ k : Runner → S (), created_observed (command_of cli) k (command_proper cli)
    (command_panics cli) (command_plan cli) (λ _, []) (λ _, eq_refl)) as created.
  unfold run, construct_async_run, command_of in *.
  destruct (collator_subcommand cli) as [sub|] eqn:Hs.
  - destruct sub; apply created; intros runner;
      unfold command_plan; rewrite Hs, ?sync_run_is, ?async_run_is; cbn [opens_chain];
      try first [by apply opening_follows|by apply opening_running_follows|by apply running_follows].
    + apply follows_bind_lift. intros relay Hr%map_err_ok. by apply running_follows.
    + intros t. unfold lift_partial. rewrite bind_run.
      destruct (collator_load_spec _ _) as [[spec|e]|why] eqn:Hl.
      * eapply follows_eq; [by eapply running_follows|done|done].
      * by apply (follows_throw _ _ (error_message e)).
      * unfold command_panics. by rewrite Hs.
  - apply created. intros runner. rewrite run_node_is.
    destruct (start_collator_follows cli (runner_config runner) Hs) as (plan & -> & Hf).
    eapply follows_eq; [eapply follows_bind; [exact Hf|]|by rewrite app_nil_r|done].
    intros task_manager. by apply follows_attempt.
Qed.
End command.

Module Witnesses.
Import ServiceSample ParachainSample ParachainFacts.Witnesses.

#[local] Existing Instances sum_codec ParachainPiece.Witnesses.concrete_parachain_primitives.

#[local] Instance sample_node : NodeLibraries := client_of (λ _, None) no_mock.
#[local] Instance sample_fields : ConfigurationFields Extensions :=
  concrete_fields true false None.
Definition sample_spec : GenericChainSpec Extensions :=
  mk_fields some_wasm (mk_extensions "rococo-local" DEFAULT_PARA_ID) None None None None None.
#[local] Instance sample_library : Library (E := Extensions) (Command := CollatorCommand) :=
  succeeding true false None sample_spec (trunc 64 6000 : u64).
#[local] Instance sample_runners : Runners (E := Extensions) (Command := CollatorCommand) :=
  concrete_runners true false None sample_spec (trunc 64 6000 : u64).
#[local] Instance sample_laws : RunnerLaws :=
  concrete_runner_laws true false None sample_spec (trunc 64 6000 : u64).

(** The command line of the relay chain answers to nothing but its name. *)
#[local] Instance sample_methods : RelayMethods := {|
  SharedParams := unit;
  ImportParams := unit;
  NetworkParams := unit;
  KeystoreParams := unit;
  SocketAddr := unit;
  PrometheusConfig := unit;
  RpcMethods := unit;
  RelayChainSpec := string;
  run_cmd_shared_params _ := tt;
  run_cmd_import_params _ := None;
  run_cmd_network_params _ := None;
  run_cmd_keystore_params _ := None;
  run_cmd_rpc_addr _ _ := Ok None;
  run_cmd_prometheus_config _ _ _ := Ok None;
  run_cmd_role _ _ := Ok false;
  run_cmd_transaction_pool _ _ := Ok tt;
  run_cmd_trie_cache_maximum_size _ := Ok None;
  run_cmd_rpc_methods _ := Ok tt;
  run_cmd_rpc_max_connections _ := Ok (trunc 32 100);
  run_cmd_rpc_cors _ _ := Ok None;
  run_cmd_default_heap_pages _ := Ok None;
  run_cmd_force_authoring _ := Ok false;
  run_cmd_disable_grandpa _ := Ok false;
  run_cmd_max_runtime_instances _ := Ok None;
  run_cmd_announce_block _ := Ok true;
  run_cmd_telemetry_endpoints _ _ := Ok None;
  run_cmd_node_name _ := Ok "relay";
  relay_load_spec id := Value (Ok id);
|}.
Definition sample_relay (cli : CliConfiguration) : result CliError RelayConfiguration :=
  cli_chain_id cli false.

Definition a_collator : CollatorCli := mk_collator_cli None false true [].
Definition starts cli : option (list Event) :=
  match run (λ _ _, None) (Some some_wasm) sample_relay cli [] with
  | Ret _ t => Some (events t)
  | _ => None
  end.

Definition a_developer : CollatorCli := mk_collator_cli None true true [].
Definition exporting : CollatorCli :=
  mk_collator_cli (Some (CollatorExportGenesisWasm (Some "local"))) false true [].

Lemma sample_starts cli t :
  run (λ _ _, None) (Some some_wasm) sample_relay cli [] = Ret tt t → starts cli = Some (events t).
Proof. unfold starts. by intros ->. Qed.

Lemma sample_relays cli config :
  is_Some (ok (relay_configuration (create_relay_configuration sample_relay) cli config)).
Proof. by eexists. Qed.

Lemma collator_commands_witness :
  starts a_collator = Some [Benchmarked; Spawned true false "aura" None; Networking] ∧
  starts a_developer =
    Some [Spawned true true "authorship_task" (Some "block-authoring"); Networking] ∧
  starts exporting = Some [].
Proof.
  split_and!;
    match goal with |- starts ?cli = _ =>
      destruct (collator_commands (λ _ _, None) (Some some_wasm) sample_relay cli) as [Hr Hp];
      destruct (Hr (succeeding_generous _ _ _ _ _)) as [t Et];
        [apply sample_relays|try done|]
    end; try (rewrite (sample_starts _ _ Et), Et in *; by destruct Hp as [_ ->]).
  intros cmd [= <-]. eexists. by vm_compute.
Defined.
End Witnesses.
